(* ===== verification/_CoqProject ===== *)
-Q . S2P
Prelude.v
Prog.v
Sim.v
PyStruct.v
PyText.v
Argparse.v
PyFloat.v
FloatBounds.v
Json.v
UpfMaps.v
Kernel.v
Bpftool.v
BpfSyscall.v
Encoders.v
Agent.v
Qer.v
QerLive.v
Datapath.v
Sender.v
Metering.v
Egress.v
Bundle.v
Sessions.v
Bootstrap.v
Metrics.v
Contention.v
Netlink.v
Gtp5g.v
Http.v
Serve.v
Rules.v
Fate.v
Race.v
Eupf.v
Plots.v
Consistency.v
Latency.v
Throughput.v
CommandLine.v
