(* ===== verification/Prelude.v ===== *)
(** * A verified model of the eBPF UPF prototype

    The program is a 5G user plane function split between a Python control
    plane (loader/agent.py, talking to the kernel through
    loader/bpf_syscall.py), eBPF programmes that share its maps
    (bpf/upf_maps.h, upf_xdp.c, upf_tc.c, upf_tc_egress.c), and Python
    experiment, comparison and plotting scripts (test/, results_native/,
    scripts/).  This development models the control plane, the datapath and the
    scripts, and proves what they promise each other.

    ** Files

    - Prelude.v: bytes, words, exceptions ([res]), shared lemmas and tactics.
    - Prog.v: effectful Python as programs over system calls ([py], [prog]):
      [run] executes against a handler, [exec] interleaves with an environment,
      [wp]/[pwp] is the rely/guarantee logic proved sound for [exec].
    - Sim.v: simulation of a transition system by a program under a rely, what
      an observer sees who looks at several instants ([watched]), and pools of
      programmes whose system calls interleave ([pool_move]).
    - PyStruct.v, PyText.v, PyFloat.v, Json.v: the parts of Python's library the
      sources use: [struct.pack]/[unpack] on format strings; [int], digits,
      words, lines, [inet_aton]; doubles, [float], and the operators that mix
      them with integers; [json.loads].  FloatBounds.v bounds what the doubles
      compute.  Argparse.v: [parse_args] for long options, as of Python 3.10,
      and the ways of writing a setting that it reads.
    - UpfMaps.v: bpf/upf_maps.h: structs with their C layout, counters, maps;
      the reads of maps by a programme ([reads]).
    - Kernel.v: bpf(2): the interface [BpfKernel], its documented laws
      [BpfKernelLaws] as a class, and an executable reference kernel
      ([ref_sys]) that satisfies them.  Every theorem about the control plane
      holds for any lawful kernel; its witness runs on the reference one.
    - BpfSyscall.v: loader/bpf_syscall.py: the ctypes wrappers and
      [PinnedMapCache], with a specification of each on a lawful kernel.
    - Encoders.v: the value encoders of agent.py against the C layouts.
    - Agent.v: the functions of agent.py that write maps, one definition each.
    - Qer.v, QerLive.v: the token bucket of upf_tc.c, both builds, on [__u64]:
      what it admits at most, and what it must admit.
    - Datapath.v: upf_xdp.c and upf_tc.c, whole, on packet bytes.  The
      programmes suffixed [_at] take maps for each of their reads; without the
      suffix all reads are of one state.
    - Metering.v: a CPU running upf_tc.c on a sequence of packets, seen as the
      arrivals of a token bucket.
    - Egress.v: upf_tc_egress.c, and the way of a TEID from [install_dl_ue]
      through the encapsulation to an uplink parser.
    - Bundle.v: [modify_tc_bundle] against the bundle reader of upf_tc.c, alone
      and with other writers of the PDR.
    - Sessions.v: [install_session] and [remove_session] against the lookups of
      the datapath.
    - Bootstrap.v: [bootstrap_initial] and [measure_rule_update].
    - Sender.v: send_gtpu.py, the frames it builds and the counters they move.
    - Bpftool.v: [run] and [map_dump] of agent.py, on a [host] that says what
      each command answers.
    - Metrics.v: the counters from the text bpftool prints to the Prometheus page
      and back (agent.py, native_throughput.py, qer_contention.py).
    - Contention.v: qer_contention.py: its rules, snapshots, figures and cleanup,
      on top of Bootstrap.v, Metrics.v and Metering.v.
    - Netlink.v: gtp5g_genl.py and gtp5g_link_add.py: attributes, messages, the
      socket with its sequence numbers.
    - Gtp5g.v: the command lines of these two scripts.
    - Http.v: [Handler.do_GET] and the percentiles of the two rule-update
      benchmarks.
    - Serve.v: agent.py as a whole: [Handler._send], the server over a sequence
      of requests, and [main] from its parsed arguments on.
    - Rules.v, Fate.v: an abstract specification of the whole: an abstract
      machine on a table of rules, whose state ([agenda]) holds the writes of
      the operation under way and the operations to come, and the fate of an
      uplink and of a downlink packet in a table; agent.py and the three
      programmes refine it.
    - Race.v: packets whose reads happen at different instants of a script.
    - Eupf.v: bench_eupf_ruleupdate.py and pfcp_session_establish.py.
    - Plots.v: make_plots.py and make_plot_contention.py as programmes over
      drawing, file and printing calls.
    - Consistency.v: toggle_bundle.py, the decision events of upf_tc.c, and the
      capture parsers of analyze.py and analyze_latency.py with the report of
      the former; Latency.v: the report of the latter.
    - Throughput.v: native_throughput.py on the text of its commands.
    - CommandLine.v: the argparse parsers of agent.py, qer_contention.py,
      native_throughput.py and send_gtpu.py, and agent.py from its command line
      on.

    ** How state is modelled

    A Python function that performs system calls is a [py] computation on the
    Python state it mutates (the descriptor cache, the socket object); it may
    raise, and the changes made before the raise stay.  The kernel state is
    abstract; [contents] reads a map element.  A statement "at every point of
    every interleaving" quantifies over [exec rely], where [rely] is what
    others may do to the kernel between two system calls of the function.
    The datapath programmes are functions of the packet, of what each of their
    reads of the maps finds and of the state of one CPU ([cpu_state]); [None] is
    a read or write outside the packet.

    A read is a lookup or a load of one field through the pointer a lookup
    returned; the reads of a programme are numbered in the order of the code
    ([reads], UpfMaps.v).  bpf(2) says that an update replaces an element of a
    hash map atomically, and one of an array nonatomically.  So a load from an
    element of a hash map gives the value its lookup found ([deref]), while one
    from an array (FARs, QERs, [upf_config]; [in_place]) gives what the element
    holds at the load itself, which may be what a system call under way is about
    to leave there: aligned fields are copied whole.  In Race.v each read has its
    own instant, [ks i], and the state a request ahead of it at most, [ws i]; in
    Bundle.v bundles are overwritten in place too, as the comment of upf_maps.h
    has it, although their map is a hash map; elsewhere one packet sees one state
    of the maps.

    ** What the theorems show

    - The whole (Rules.v, Fate.v): at every point of every script of agent
      operations the maps hold the table of an agenda the abstract machine
      reaches, and the programmes treat an uplink G-PDU and a downlink packet as
      that table decides.
    - Races (Race.v): a packet that overlaps the script is treated as the tables
      of the instants of its reads make up; which operations it cannot tell
      from atomic ones (installing a session, modifying PDRs), what the others,
      which change a FAR or a QER under it or remove its session, can do to it
      at worst, and a packet redirected by a FAR that drops.
    - Transactional consistency (Bundle.v, Consistency.v): the live tuple of a
      PDR is always a complete old or new one, whatever the interleaving, and so
      is the one a packet reads while one modification overwrites the bundle in
      place; exactly when a modification succeeds; a packet torn by two modifications; any number of
      writers, which show no hybrid but can lose updates; the report of
      analyze.py on any capture of the experiment.
    - Rules (Sessions.v, Bootstrap.v): a session the datapath finds has its PDR
      and its bundle at every point of installation, and of removal if it does
      not share its PDR; after start-up
      a G-PDU of a bootstrapped session is forwarded, and stays so while the
      agent serves requests (Serve.v), from any command line that argparse reads
      (CommandLine.v, which also says exactly which lines those are); the
      rule-update benchmark leaves every map as it was.
    - Policing and accounting (Qer.v, QerLive.v, Datapath.v): the rate a bucket
      admits, per CPU and shared; that a packet within the burst gets through if
      it is retried and a flow within its rate loses nothing; when the 64-bit
      arithmetic is exact; that usage counters count what was admitted; that the
      XDP counters account for every packet.
    - The experiments measure what they say: the report of qer_contention.py is
      the behaviour of the buckets and obeys the bound of one bucket per CPU
      (Contention.v); the cross-check of native_throughput.py compares the NIC
      with the packets the XDP programme received, and its utilisation is that
      of the CPUs that took the interrupts (Throughput.v); the percentiles of
      analyze_latency.py lie between the order statistics they interpolate
      (Latency.v); send_gtpu.py moves the counters it means to (Sender.v); the
      eUPF benchmark times its requests, and ends at one that is refused
      (Eupf.v); the curves of make_plots.py are the empirical distributions of
      its data (Plots.v).
    - Packets (Datapath.v, Egress.v): no access outside the packet; a downlink
      packet becomes a well-formed G-PDU with the TEID that was installed.
    - Text and messages (Json.v, Metrics.v, Netlink.v, Http.v, Serve.v,
      Consistency.v): round trips of the Prometheus page, of JSON text, of
      netlink attributes and of event captures; termination and error behaviour of the parsers, of the HTTP
      handler and server, and of the netlink scripts, which can report a rule as
      added that the kernel refused (Gtp5g.v).

    ** Bounds and fuel

    Recursion is structural except: [scan_attrs] (Netlink.v), whose fuel
    [scan_fuel] is shown to be enough for any input; [toggle_loop]
    (Consistency.v), whose clock is any sequence of doubles and which is shown to
    end within the number of rounds the clock allows; the JSON scanner, whose fuel [json_fuel] is shown to be enough
    for any text; the printers [dec_digits] and [hex_digits] (PyText.v), whose
    fuel is the binary length of the number.  The percentile ranks of Http.v are
    computed in double precision and checked for every batch size up to 4096,
    the capacity of the PDR table.

    ** What is not modelled

    Helpers of the kernel that change a packet or leave a programme
    ([bpf_skb_adjust_room], [bpf_redirect]), the commands the scripts run and
    what /proc holds, the netlink, HTTP and UDP peers, scapy's encoding,
    [json.dumps], numpy, pandas and matplotlib are parameters or handlers; what
    is assumed of them is a hypothesis of the theorem that needs it.  The
    binding of the HTTP server's socket, the help and error texts of argparse,
    sleeps, the print calls and default styles that carry no result, and where
    printed floats are rounded are left out.  The kernel may free and reuse an
    element of a hash map that a programme still points to; like bpf(2), the
    model leaves that out.  Text is ASCII.  The C traffic generators and the
    shell scripts are tools around the program and are not modelled. *)

From stdpp Require Export base option list gmap strings.
From Stdlib Require Export ZArith Lia.
From Stdlib Require Import Strings.Byte.
From coqutil Require Export Byte.
From coqutil Require Export Word.LittleEndianList.

#[global] Open Scope Z_scope.

(** ** Bytes *)

(** The byte strings of Python and the raw memory of the kernel. *)
Abbreviation bytes := (list Init.Byte.byte).

#[global] Instance byte_eq_dec : EqDecision Init.Byte.byte.
Proof. exact Byte.byte_eq_dec. Defined.

#[global] Program Instance byte_countable : Countable Init.Byte.byte :=
  inj_countable Byte.to_N Byte.of_N _.
Next Obligation. apply Byte.of_to_N. Defined.

Declare Scope upf_scope.
Delimit Scope upf_scope with upf.

(** [b2z b] is the value of one byte. *)
Abbreviation b2z := byte.unsigned.
Abbreviation z2b := byte.of_Z.

(** Values of the C types [__u16], [__u32] and [__u64]: the wrap-around of an
    unsigned assignment, written out. *)
Definition u8 (z : Z) : Z := z mod 2 ^ 8.
Definition u16 (z : Z) : Z := z mod 2 ^ 16.
Definition u32 (z : Z) : Z := z mod 2 ^ 32.
Definition u64 (z : Z) : Z := z mod 2 ^ 64.
#[global] Arguments u8 : simpl never.
#[global] Arguments u16 : simpl never.
#[global] Arguments u32 : simpl never.
#[global] Arguments u64 : simpl never.

Notation "'is_u8' z" := (0 <= z < 2 ^ 8) (at level 10, z at level 9) : upf_scope.
Notation "'is_u16' z" := (0 <= z < 2 ^ 16) (at level 10, z at level 9) : upf_scope.
Notation "'is_u32' z" := (0 <= z < 2 ^ 32) (at level 10, z at level 9) : upf_scope.
Notation "'is_u64' z" := (0 <= z < 2 ^ 64) (at level 10, z at level 9) : upf_scope.
#[global] Open Scope upf_scope.

(** Big-endian (network order) splitting and combining. *)
Definition be_split (n : nat) (z : Z) : bytes := reverse (le_split n z).
Definition be_combine (bs : bytes) : Z := le_combine (reverse bs).

(** The sub-string [b[off : off + n]] of Python, as memory reads it. *)
Definition slice (off n : nat) (b : bytes) : bytes := take n (drop off b).

(** A [__u32] (or any [n]-byte unsigned) loaded from memory on a
    little-endian machine. *)
Definition load (off n : nat) (b : bytes) : Z := le_combine (slice off n b).
Definition load_u32 (off : nat) (b : bytes) : Z := load off 4 b.
Definition load_u64 (off : nat) (b : bytes) : Z := load off 8 b.

(** ASCII encoding of a Python [str] ([str.encode()] on ASCII text). *)
Fixpoint encode (s : string) : bytes :=
  match s with
  | EmptyString => []
  | String a s' => Ascii.byte_of_ascii a :: encode s'
  end.

(** ** Results: a Python call returns a value or raises *)

Inductive exn : Type :=
| StructError
| OSError (errno : Z)
| ValueError
| IndexError
| KeyError
| TypeError
| RuntimeError
| ZeroDivisionError
| OverflowError
| AttributeError
| RecursionError
| CalledProcessError (returncode : Z).

#[global] Instance exn_eq_dec : EqDecision exn.
Proof. solve_decision. Defined.

Inductive res (A : Type) : Type :=
| Ok (a : A)
| Exc (e : exn).
Arguments Ok {A} a.
Arguments Exc {A} e.

Lemma Ok_inj {A} (x y : A) : Ok x = Ok y -> x = y.
Proof. congruence. Qed.

#[global] Instance res_ret : MRet res := fun A a => Ok a.
#[global] Instance res_bind : MBind res := fun A B f m =>
  match m with Ok a => f a | Exc e => Exc e end.

#[global] Instance res_eq_dec `{EqDecision A} : EqDecision (res A).
Proof. solve_decision. Defined.

Definition of_option {A} (e : exn) (o : option A) : res A :=
  match o with Some a => Ok a | None => Exc e end.

Definition res_opt {A} (r : res A) : option A :=
  match r with Ok a => Some a | Exc _ => None end.

(** A Python list comprehension whose element expression may raise. *)
Fixpoint map_res {A B} (f : A -> res B) (l : list A) : res (list B) :=
  match l with
  | [] => Ok []
  | x :: l' => y ← f x; ys ← map_res f l'; Ok (y :: ys)
  end.

(** ** Sums *)

Definition sumZ (l : list Z) : Z := foldr Z.add 0 l.

(** ** Tactics *)

(** Case analysis on the [match]/[if] heads of the goal, clearing the
    impossible cases. *)
Ltac crush_match :=
  repeat (case_match; simplify_eq/=; try done).

(** Turn boolean tests of the code into propositions for [lia]. *)
Ltac breflect :=
  repeat match goal with
  | H : (_ && _)%bool = true |- _ => apply andb_true_iff in H as [? ?]
  | H : (_ && _)%bool = false |- _ => apply andb_false_iff in H
  | H : (_ || _)%bool = true |- _ => apply orb_true_iff in H
  | H : (_ || _)%bool = false |- _ => apply orb_false_iff in H as [? ?]
  | H : (_ <? _) = true |- _ => apply Z.ltb_lt in H
  | H : (_ <? _) = false |- _ => apply Z.ltb_ge in H
  | H : (_ <=? _) = true |- _ => apply Z.leb_le in H
  | H : (_ <=? _) = false |- _ => apply Z.leb_gt in H
  | H : (_ =? _) = true |- _ => apply Z.eqb_eq in H
  | H : (_ =? _) = false |- _ => apply Z.eqb_neq in H
  | H : (_ <? _)%nat = true |- _ => apply Nat.ltb_lt in H
  | H : (_ <? _)%nat = false |- _ => apply Nat.ltb_ge in H
  | H : (_ <=? _)%nat = true |- _ => apply Nat.leb_le in H
  | H : (_ <=? _)%nat = false |- _ => apply Nat.leb_gt in H
  | H : (_ =? _)%nat = true |- _ => apply Nat.eqb_eq in H
  | H : (_ =? _)%nat = false |- _ => apply Nat.eqb_neq in H
  | H : bool_decide _ = true |- _ => apply bool_decide_eq_true in H
  | H : bool_decide _ = false |- _ => apply bool_decide_eq_false in H
  | H : negb _ = true |- _ => apply negb_true_iff in H
  | H : negb _ = false |- _ => apply negb_false_iff in H
  end.

(** ** Lemmas on bytes, words and lists *)

Lemma le_split_cons n z : le_split (S n) z = z2b z :: le_split n (Z.shiftr z 8).
Proof. reflexivity. Qed.

Lemma le_combine_split_small n z :
  0 <= z < 2 ^ (Z.of_nat n * 8) -> le_combine (le_split n z) = z.
Proof. intros H. rewrite le_combine_split. by apply Z.mod_small. Qed.

Lemma le_split_inj n a b :
  0 <= a < 2 ^ (Z.of_nat n * 8) -> 0 <= b < 2 ^ (Z.of_nat n * 8) ->
  le_split n a = le_split n b -> a = b.
Proof.
  intros Ha Hb Heq.
  rewrite <-(le_combine_split_small n a), <-(le_combine_split_small n b) by done.
  by rewrite Heq.
Qed.

Lemma length_be_split n z : length (be_split n z) = n.
Proof. unfold be_split. by rewrite length_reverse, length_le_split. Qed.

Lemma be_combine_split n z : be_combine (be_split n z) = z mod 2 ^ (Z.of_nat n * 8).
Proof. unfold be_combine, be_split. by rewrite reverse_involutive, le_combine_split. Qed.

Lemma split_be_combine bs : be_split (length bs) (be_combine bs) = bs.
Proof.
  unfold be_combine, be_split.
  rewrite <-(length_reverse bs), split_le_combine. apply reverse_involutive.
Qed.

Lemma le_combine_range (bs : bytes) :
  0 <= le_combine bs < 2 ^ (Z.of_nat (length bs) * 8).
Proof. pose proof (le_combine_bound bs). by rewrite Z.mul_comm. Qed.

Lemma be_combine_range (bs : bytes) :
  0 <= be_combine bs < 2 ^ (Z.of_nat (length bs) * 8).
Proof. unfold be_combine. pose proof (le_combine_range (reverse bs)). by rewrite length_reverse in H. Qed.

Lemma length_encode s : length (encode s) = String.length s.
Proof. induction s as [|a s IH]; simpl; congruence. Qed.

Lemma length_slice off n (b : bytes) :
  (off + n <= length b)%nat -> length (slice off n b) = n.
Proof. intros H. unfold slice. rewrite length_take, length_drop. lia. Qed.

Lemma slice_all (b : bytes) : slice 0 (length b) b = b.
Proof. unfold slice. rewrite drop_0. apply firstn_all. Qed.

Lemma slice_app_l off n (a b : bytes) :
  (off + n <= length a)%nat -> slice off n (a ++ b) = slice off n a.
Proof.
  intros H. unfold slice. rewrite drop_app_le by lia.
  apply take_app_le. rewrite length_drop. lia.
Qed.

Lemma slice_app_r off n (a b : bytes) :
  (length a <= off)%nat -> slice off n (a ++ b) = slice (off - length a) n b.
Proof. intros H. unfold slice. by rewrite drop_app_ge by lia. Qed.

Lemma load_app_l off n (a b : bytes) :
  (off + n <= length a)%nat -> load off n (a ++ b) = load off n a.
Proof. intros H. unfold load. by rewrite slice_app_l. Qed.

Lemma load_app_r off n (a b : bytes) :
  (length a <= off)%nat -> load off n (a ++ b) = load (off - length a) n b.
Proof. intros H. unfold load. by rewrite slice_app_r. Qed.

Lemma load_le_split n z :
  0 <= z < 2 ^ (Z.of_nat n * 8) -> load 0 n (le_split n z) = z.
Proof.
  intros H. unfold load. rewrite <-(length_le_split n z) at 1.
  rewrite slice_all. by apply le_combine_split_small.
Qed.

Lemma load_range off n (b : bytes) : 0 <= load off n b < 2 ^ (Z.of_nat n * 8).
Proof.
  pose proof (le_combine_range (slice off n b)) as [? Hlt]. unfold load. split; [done|].
  eapply Z.lt_le_trans; [exact Hlt|]. apply Z.pow_le_mono_r; [lia|].
  unfold slice. rewrite length_take. lia.
Qed.

Lemma u32_small z : is_u32 z -> u32 z = z.
Proof. apply Z.mod_small. Qed.

Lemma u32_range z : is_u32 (u32 z).
Proof. by apply Z.mod_pos_bound. Qed.

Lemma u64_small z : is_u64 z -> u64 z = z.
Proof. apply Z.mod_small. Qed.

Lemma u64_range z : is_u64 (u64 z).
Proof. by apply Z.mod_pos_bound. Qed.

Lemma take_app_length' {A} (l k : list A) n : n = length l -> take n (l ++ k) = l.
Proof. intros ->. apply take_app_length. Qed.

Lemma sumZ_cons x l : sumZ (x :: l) = x + sumZ l.
Proof. reflexivity. Qed.

Lemma sumZ_app l k : sumZ (l ++ k) = sumZ l + sumZ k.
Proof. induction l as [|x l IH]; simpl; [done|]. rewrite IH. lia. Qed.

Lemma map_res_ok {A B} (f : A -> res B) (g : A -> B) l :
  (forall x, x ∈ l -> f x = Ok (g x)) -> map_res f l = Ok (g <$> l).
Proof.
  induction l as [|x l IH]; intros H; simpl; [done|].
  rewrite H by set_solver. simpl. rewrite IH by set_solver. done.
Qed.

Lemma map_res_length {A B} (f : A -> res B) l l' :
  map_res f l = Ok l' -> length l' = length l.
Proof.
  revert l'. induction l as [|x l IH]; simpl; intros l' H; [by simplify_eq|].
  destruct (f x); simplify_eq/=. destruct (map_res f l); simplify_eq/=.
  f_equal. by apply IH.
Qed.

(** ** Hint databases *)

Create HintDb upf.
Create Rewrite HintDb upf_len.
#[export] Hint Resolve u32_range u64_range load_range le_combine_range : upf.
#[export] Hint Rewrite length_le_split length_be_split length_encode
  @length_app @length_take @length_drop @length_reverse : upf_len.

(** Lengths of concatenations, slices and packed words. *)
Ltac len := autorewrite with upf_len in *; simpl in *; try lia.
