(* ===== verification/Prog.v ===== *)
(** * Effectful Python code as programs over system calls

    A Python function that talks to the outside (the kernel, a socket) is a
    [py] computation: it threads the Python state [S] it mutates (the fd
    cache of bpf_syscall.py, the socket object of gtp5g_genl.py), may raise an
    exception ([res]; the state changes made before the raise stay), and
    performs requests [E] answered by replies [R].  Requests are the only
    points where another process or the datapath can run, so a computation is
    a finite tree of requests ([prog]).

    The outside is a handler [sys : E -> K -> K * R] on its own state [K].
    [run] executes a program against it; [wp] is a weakest precondition in
    rely/guarantee style, with [rely] the moves the environment may make
    between two requests and [guar] what every request of the program
    guarantees; [exec] is the interleaved small-step semantics against which
    [wp] is proved sound.  Sim.v adds simulation. *)

From S2P Require Import Prelude.

Section prog.
Context {E R : Type}.

Inductive prog (A : Type) : Type :=
| Ret (a : A)
| Call (e : E) (k : R -> prog A).
Arguments Ret {A} a.
Arguments Call {A} e k.

Fixpoint prog_bind {A B} (p : prog A) (f : A -> prog B) : prog B :=
  match p with
  | Ret a => f a
  | Call e k => Call e (fun r => prog_bind (k r) f)
  end.

Context {S : Type}.

(** A Python computation: state, exceptions, requests. *)
Definition py (A : Type) : Type := S -> prog (S * res A).

#[global] Instance py_ret : MRet py := fun A a s => Ret (s, Ok a).
#[global] Instance py_bind : MBind py := fun A B f m s =>
  prog_bind (m s) (fun '(s', r) =>
    match r with Ok a => f a s' | Exc e => Ret (s', Exc e) end).

(** [raise e] *)
Definition raise {A} (e : exn) : py A := fun s => Ret (s, Exc e).

(** A pure Python expression that may raise. *)
Definition lift {A} (r : res A) : py A := fun s => Ret (s, r).

Definition get_state : py S := fun s => Ret (s, Ok s).
Definition put_state (s' : S) : py unit := fun _ => Ret (s', Ok tt).
Definition request (e : E) : py R := fun s => Call e (fun r => Ret (s, Ok r)).

(** [try: m except OSError: h] *)
Definition try_oserror {A} (m : py A) (h : py A) : py A := fun s =>
  prog_bind (m s) (fun '(s', r) =>
    match r with Exc (OSError _) => h s' | _ => Ret (s', r) end).

(** [try: m except Exception: pass], the value of [m] if there is one. *)
Definition attempt {A} (m : py A) : py (option A) := fun s =>
  prog_bind (m s) (fun '(s', r) => Ret (s', Ok (match r with Ok a => Some a | Exc _ => None end))).

(** [for x in l: f(x)], the body seeing the state the previous one left. *)
Fixpoint for_each {X} (l : list X) (f : X -> py unit) : py unit :=
  match l with
  | [] => py_ret _ tt
  | x :: l' => f x ;; for_each l' f
  end.

Lemma bind_lift_ok {A B} (a : A) (f : A -> py B) s : (lift (Ok a) ≫= f) s = f a s.
Proof. reflexivity. Qed.

Lemma bind_lift_exc {A B} e (f : A -> py B) s : (lift (Exc e) ≫= f) s = Ret (s, Exc e).
Proof. reflexivity. Qed.

Lemma bind_ret {A B} (a : A) (f : A -> py B) s : (mret a ≫= f) s = f a s.
Proof. reflexivity. Qed.

(** ** Execution against a handler *)

Section semantics.
Context {K : Type} (sys : E -> K -> K * R).

Fixpoint run {A} (p : prog A) (k : K) : K * A :=
  match p with
  | Ret a => (k, a)
  | Call e c => let '(k', r) := sys e k in run (c r) k'
  end.

(** The states the outside goes through, one per request. *)
Fixpoint run_states {A} (p : prog A) (k : K) : list K :=
  match p with
  | Ret _ => []
  | Call e c => let '(k', r) := sys e k in k' :: run_states (c r) k'
  end.

(** The requests issued, in order. *)
Fixpoint run_trace {A} (p : prog A) (k : K) : list E :=
  match p with
  | Ret _ => []
  | Call e c => let '(k', r) := sys e k in e :: run_trace (c r) k'
  end.

(** One move of the interleaving: the environment does what it may, then the
    program issues its next request. *)
Inductive move {A} (rely : K -> K -> Prop) : prog A * K -> prog A * K -> Prop :=
| move_call e c k k1 k2 r :
    rely k k1 -> sys e k1 = (k2, r) -> move rely (Call e c, k) (c r, k2).

Definition exec {A} (rely : K -> K -> Prop) := rtc (move (A:=A) rely).

Fixpoint wp {A} (rely guar : K -> K -> Prop) (p : prog A)
    (Q : A -> K -> Prop) (k : K) : Prop :=
  match p with
  | Ret a => Q a k
  | Call e c => forall k1, rely k k1 ->
      guar k1 (fst (sys e k1)) /\
      wp rely guar (c (snd (sys e k1))) Q (fst (sys e k1))
  end.

Lemma wp_mono {A} (rely guar guar' : K -> K -> Prop) (p : prog A) (Q Q' : A -> K -> Prop) k :
  (forall k1 k2, guar k1 k2 -> guar' k1 k2) ->
  (forall a k', Q a k' -> Q' a k') ->
  wp rely guar p Q k -> wp rely guar' p Q' k.
Proof.
  intros HG HQ. revert k. induction p as [a|e c IH]; simpl; intros k H; [by eauto|].
  intros k1 Hr. destruct (H k1 Hr). eauto.
Qed.

Lemma wp_bind {A B} (rely guar : K -> K -> Prop) (p : prog A) (f : A -> prog B) Q k :
  wp rely guar p (fun a k' => wp rely guar (f a) Q k') k ->
  wp rely guar (prog_bind p f) Q k.
Proof.
  revert k. induction p as [a|e c IH]; simpl; intros k H; [done|].
  intros k1 Hr. destruct (H k1 Hr). eauto.
Qed.

(** What is proved against an environment holds against a weaker one. *)
Lemma wp_rely {A} (rely rely' guar : K -> K -> Prop) (p : prog A) Q k :
  (forall k1 k2, rely' k1 k2 -> rely k1 k2) -> wp rely guar p Q k -> wp rely' guar p Q k.
Proof.
  intros Hr. revert k. induction p as [a|e c IH]; simpl; intros k H; [done|].
  intros k1 H1. destruct (H k1 (Hr _ _ H1)). eauto.
Qed.

(** Soundness: [wp] is preserved along any interleaving... *)
Lemma wp_exec {A} (rely guar : K -> K -> Prop) (p : prog A) Q k p' k' :
  wp rely guar p Q k -> exec rely (p, k) (p', k') -> wp rely guar p' Q k'.
Proof.
  intros Hwp Hx. remember (p, k) as c eqn:Hc. remember (p', k') as c' eqn:Hc'.
  revert p k p' k' Hwp Hc Hc'.
  induction Hx as [c|c1 c2 c3 Hm Hx IH]; intros; simplify_eq; [done|].
  inversion Hm; simplify_eq. destruct (Hwp k1) as [_ Hnext]; [done|].
  match goal with H : sys _ _ = _ |- _ => rewrite H in Hnext end. eauto.
Qed.

(** ... so a program that has returned satisfies its postcondition... *)
Lemma wp_exec_ret {A} (rely guar : K -> K -> Prop) (p : prog A) Q k a k' :
  wp rely guar p Q k -> exec rely (p, k) (Ret a, k') -> Q a k'.
Proof. intros Hwp Hx. exact (wp_exec _ _ _ _ _ _ _ Hwp Hx). Qed.

(** ... and what the environment and the guarantees preserve, holds at every
    point of every interleaving. *)
Lemma wp_exec_inv {A} (rely guar : K -> K -> Prop) (I : K -> Prop) (p : prog A) Q k p' k' :
  (forall k1 k2, rely k1 k2 -> I k1 -> I k2) ->
  (forall k1 k2, guar k1 k2 -> I k1 -> I k2) ->
  wp rely guar p Q k -> exec rely (p, k) (p', k') -> I k -> I k'.
Proof.
  intros HR HG Hwp Hx. remember (p, k) as c eqn:Hc. remember (p', k') as c' eqn:Hc'.
  revert p k p' k' Hwp Hc Hc'.
  induction Hx as [c|c1 c2 c3 Hm Hx IH]; intros p k p' k' Hwp Hc Hc' HI; simplify_eq; [done|].
  inversion Hm; simplify_eq. destruct (Hwp k1) as [Hg Hnext]; [done|].
  match goal with H : sys _ _ = _ |- _ => rewrite H in Hg, Hnext end. eauto.
Qed.

(** An invariant of the environment and of the program's own steps is known at
    each of its requests and when it returns. *)
Lemma wp_keep {A} (rely guar : K -> K -> Prop) (I : K -> Prop) (p : prog A) Q k :
  (forall k1 k2, rely k1 k2 -> I k1 -> I k2) ->
  (forall k1 k2, guar k1 k2 -> I k1 -> I k2) ->
  wp rely guar p Q k -> I k ->
  wp rely (fun k1 k2 => guar k1 k2 /\ I k1) p (fun a k' => Q a k' /\ I k') k.
Proof.
  intros HR HG. revert k. induction p as [a|e c IH]; simpl; intros k H HI; [done|].
  intros k1 Hr. destruct (H k1 Hr) as [Hg Hn]. split; [eauto|]. apply IH; eauto.
Qed.

(** Alone, a program runs to what [wp] promises. *)
Lemma wp_run {A} (guar : K -> K -> Prop) (p : prog A) Q k :
  wp eq guar p Q k -> Q (snd (run p k)) (fst (run p k)).
Proof.
  revert k. induction p as [a|e c IH]; simpl; intros k H; [done|].
  destruct (H k eq_refl) as [_ Hn]. destruct (sys e k) as [k' r]. by apply IH.
Qed.

Lemma wp_run_states {A} (I : K -> Prop) (p : prog A) Q k :
  I k -> wp eq (fun k1 k2 => I k1 -> I k2) p Q k -> Forall I (run_states p k).
Proof.
  revert k. induction p as [a|e c IH]; simpl; intros k HI H; [done|].
  destruct (H k eq_refl) as [HG Hn]. destruct (sys e k) as [k' r].
  constructor; eauto.
Qed.

Lemma run_bind {A B} (p : prog A) (f : A -> prog B) k :
  run (prog_bind p f) k = run (f (snd (run p k))) (fst (run p k)).
Proof.
  revert k. induction p as [a|e c IH]; simpl; intros k; [done|].
  destruct (sys e k) as [k' r]. apply IH.
Qed.

Lemma run_trace_bind {A B} (p : prog A) (f : A -> prog B) k :
  run_trace (prog_bind p f) k = run_trace p k ++ run_trace (f (snd (run p k))) (fst (run p k)).
Proof.
  revert k. induction p as [a|e c IH]; simpl; intros k; [done|].
  destruct (sys e k) as [k' r]. by rewrite IH.
Qed.

(** Running a sequence of Python statements. *)
Lemma run_py_bind {A B} (m : py A) (f : A -> py B) s k :
  run ((m ≫= f) s) k =
    match run (m s) k with
    | (k', (s', Ok a)) => run (f a s') k'
    | (k', (s', Exc e)) => (k', (s', Exc e))
    end.
Proof. unfold mbind, py_bind. rewrite run_bind. destruct (run (m s) k) as [k' [s' [a|e]]]; done. Qed.

Lemma run_trace_py_bind {A B} (m : py A) (f : A -> py B) s k :
  run_trace ((m ≫= f) s) k = run_trace (m s) k ++
    match run (m s) k with
    | (k', (s', Ok a)) => run_trace (f a s') k'
    | (k', (s', Exc e)) => []
    end.
Proof. unfold mbind, py_bind. rewrite run_trace_bind. destruct (run (m s) k) as [k' [s' [a|e]]]; done. Qed.

Lemma run_exec {A} (p : prog A) k : exec eq (p, k) (Ret (snd (run p k)), fst (run p k)).
Proof.
  revert k. induction p as [a|e c IH]; simpl; intros k; [constructor|].
  destruct (sys e k) as [k' r] eqn:Hs. eapply rtc_l; [by econstructor|]. apply IH.
Qed.

(** More moves of the environment, more interleavings. *)
Lemma exec_mono {A} (rely rely' : K -> K -> Prop) (c c' : prog A * K) :
  (forall k1 k2, rely k1 k2 -> rely' k1 k2) -> exec rely c c' -> exec rely' c c'.
Proof.
  intros Hr Hx. induction Hx as [|c1 c2 c3 Hm _ IH]; [constructor|].
  inversion Hm; subst. eapply rtc_l; [econstructor; eauto|exact IH].
Qed.

Lemma run_exec_rely {A} (rely : K -> K -> Prop) (p : prog A) k :
  (forall k, rely k k) -> exec rely (p, k) (Ret (snd (run p k)), fst (run p k)).
Proof. intros Hr. eapply exec_mono, run_exec. by intros ?? <-. Qed.

(** ** The same for Python computations *)

Definition pwp {A} (rely guar : K -> K -> Prop) (m : py A) (s : S)
    (Q : res A -> S -> K -> Prop) (k : K) : Prop :=
  wp rely guar (m s) (fun '(s', r) k' => Q r s' k') k.

Lemma pwp_mono {A} rely (guar guar' : K -> K -> Prop) (m : py A) s (Q Q' : res A -> S -> K -> Prop) k :
  pwp rely guar m s Q k ->
  (forall k1 k2, guar k1 k2 -> guar' k1 k2) ->
  (forall r s' k', Q r s' k' -> Q' r s' k') ->
  pwp rely guar' m s Q' k.
Proof. intros H HG HQ. eapply wp_mono; [done| |done]. intros [??] ??; eauto. Qed.

Lemma pwp_ret {A} rely guar (a : A) s Q k :
  Q (Ok a) s k -> pwp rely guar (mret a) s Q k.
Proof. done. Qed.

Lemma pwp_bind {A B} rely guar (m : py A) (f : A -> py B) s Q k :
  pwp rely guar m s (fun r s' k' =>
    match r with Ok a => pwp rely guar (f a) s' Q k' | Exc e => Q (Exc e) s' k' end) k ->
  pwp rely guar (m ≫= f) s Q k.
Proof.
  intros H. unfold pwp, mbind, py_bind. apply wp_bind. eapply wp_mono; [done| |exact H].
  intros [s' [a|e]] k'; simpl; auto.
Qed.

Lemma pwp_request rely (guar : K -> K -> Prop) e s Q k :
  (forall k1, rely k k1 -> guar k1 (fst (sys e k1)) /\ Q (Ok (snd (sys e k1))) s (fst (sys e k1))) ->
  pwp rely guar (request e) s Q k.
Proof. intros H k1 Hr. exact (H k1 Hr). Qed.

Lemma pwp_lift {A} rely guar (r : res A) s Q k : Q r s k -> pwp rely guar (lift r) s Q k.
Proof. done. Qed.

Lemma pwp_attempt {A} rely guar (m : py A) s Q k :
  pwp rely guar m s (fun r s' k' => Q (Ok (match r with Ok a => Some a | Exc _ => None end)) s' k') k ->
  pwp rely guar (attempt m) s Q k.
Proof.
  intros H. unfold pwp, attempt. apply wp_bind. eapply wp_mono; [done| |exact H].
  by intros [s' r] k'.
Qed.

Lemma pwp_try {A} rely guar (m h : py A) s Q k :
  pwp rely guar m s (fun r s' k' =>
    match r with Exc (OSError _) => pwp rely guar h s' Q k' | _ => Q r s' k' end) k ->
  pwp rely guar (try_oserror m h) s Q k.
Proof.
  intros H. unfold pwp, try_oserror. apply wp_bind. eapply wp_mono; [done| |exact H].
  intros [s' [a|[]]] k'; simpl; auto.
Qed.

(** A loop: the body keeps the invariant [J] on the Python state and the
    outside, and the first exception leaves it. *)
Lemma pwp_for_each {X} rely guar (l : list X) (f : X -> py unit) (J : list X -> S -> K -> Prop)
    (Q : res unit -> S -> K -> Prop) s k done_ :
  J done_ s k ->
  (forall pre x post s k, l = pre ++ x :: post -> J (done_ ++ pre) s k ->
     pwp rely guar (f x) s (fun r s' k' =>
       match r with Ok _ => J (done_ ++ pre ++ [x]) s' k' | Exc e => Q (Exc e) s' k' end) k) ->
  (forall s k, J (done_ ++ l) s k -> Q (Ok tt) s k) ->
  pwp rely guar (for_each l f) s Q k.
Proof.
  revert done_ s k. induction l as [|x l IH]; intros done_ s k HJ Hbody HQ.
  - apply pwp_ret, HQ. by rewrite app_nil_r.
  - simpl. apply pwp_bind. eapply pwp_mono.
    + apply (Hbody [] x l s k); [done|]. by rewrite app_nil_r.
    + done.
    + intros [[]|e] s' k' HJ'; [|done]. apply (IH (done_ ++ [x])); [done| |].
      * intros pre y post s1 k1 -> HJ1. rewrite <-app_assoc in HJ1.
        eapply pwp_mono; [exact (Hbody (x :: pre) y post s1 k1 eq_refl HJ1)|done|].
        intros [[]|] ??; [|done]. by rewrite <-app_assoc.
      * intros s1 k1. rewrite <-app_assoc. apply HQ.
Qed.

End semantics.
End prog.

Arguments prog E R A : clear implicits.
Arguments Ret {E R A} a.
Arguments Call {E R A} e k.
Arguments py E R S A : clear implicits.
