(* ===== verification/Sim.v ===== *)
(** * Simulation, and who looks on

    [sim]: a program over requests implements a transition system, step by
    step, in any interleaving with its environment.  [look] and [watched] are
    the instants at which another process (the datapath) reads the outside
    meanwhile; what it reads climbs the transition system. *)

From S2P Require Import Prelude Prog.

Lemma finite_choice {X} n (P : nat -> X -> Prop) :
  (forall i, (i <= n)%nat -> exists x, P i x) -> exists f, forall i, (i <= n)%nat -> P i (f i).
Proof.
  induction n as [|n IH]; intros H.
  - destruct (H 0%nat ltac:(lia)) as [x Hx]. exists (fun _ => x). intros i Hi. by replace i with 0%nat by lia.
  - destruct IH as [f Hf]; [auto with lia|]. destruct (H (S n) ltac:(lia)) as [x Hx].
    exists (fun i => if (i <=? n)%nat then f i else x). intros i Hi. destruct (i <=? n)%nat eqn:Ei; breflect; [by apply Hf|].
    by replace i with (S n) by lia.
Qed.

Section simulation.
Context {E R St K : Type} (sys : E -> K -> K * R).

(** Alone, after [n] requests. *)
Fixpoint after {A} (n : nat) (c : prog E R A * K) : prog E R A * K :=
  match n, c with
  | S n', (Call e f, k) => let '(k', r) := sys e k in after n' (f r, k')
  | _, _ => c
  end.

Lemma after_exec {A} (rely : K -> K -> Prop) n (c : prog E R A * K) :
  (forall k, rely k k) -> exec sys rely c (after n c).
Proof.
  intros Hr. revert c. induction n as [|n IH]; intros [[a|e f] k]; try constructor.
  cbn [after]. destruct (sys e k) as [k' r] eqn:Hs. eapply rtc_l; [by econstructor|]. apply IH.
Qed.

Lemma after_add {A} n m (c : prog E R A * K) : after (n + m) c = after m (after n c).
Proof.
  revert c. induction n as [|n IH]; intros [[a|e f] k]; cbn [after Nat.add]; [by destruct m..|].
  destruct (sys e k) as [k' r]. apply IH.
Qed.

(** ** Simulation

    [sim]: the program implements a transition system, in rely/guarantee style:
    every request is a step [req], the [silent] steps are made at will before a
    request or a return, and the outside stays in the relation [T] with its
    state. *)
Section relation.
Context {G : Type} (silent req : G -> G -> Prop) (T : G -> K -> Prop) (rely : K -> K -> Prop).
Context (req_refl : forall g, req g g).
Context (req_silent : forall g g1 g2, rtc silent g g1 -> req g1 g2 -> req g g2).

#[local] Hint Resolve rtc_refl rtc_once : core.

Fixpoint sim {A} (p : prog E R A) (Q : A -> G -> K -> Prop) (g : G) (k : K) : Prop :=
  match p with
  | Ret a => exists g', rtc silent g g' /\ T g' k /\ Q a g' k
  | Call e c => forall k1, rely k k1 -> exists g', req g g' /\
      T g' (fst (sys e k1)) /\ sim (c (snd (sys e k1))) Q g' (fst (sys e k1))
  end.

Lemma sim_steps {A} (p : prog E R A) Q g g' k : rtc silent g g' -> sim p Q g' k -> sim p Q g k.
Proof using req_silent.
  intros Hg. destruct p as [a|e c]; simpl.
  - intros (g2 & ? & ?). exists g2. split; [by etrans|done].
  - intros H k1 Hr. destruct (H k1 Hr) as (g2 & ? & ?). exists g2. split; [by eapply req_silent|done].
Qed.

Lemma sim_mono {A} (p : prog E R A) (Q Q' : A -> G -> K -> Prop) g k :
  (forall a g k, T g k -> Q a g k -> Q' a g k) -> sim p Q g k -> sim p Q' g k.
Proof using Type.
  intros HQ. revert g k. induction p as [a|e c IH]; simpl; intros g k H.
  - destruct H as (g' & ? & ? & ?). exists g'. auto.
  - intros k1 Hr. destruct (H k1 Hr) as (g' & ? & ? & ?). exists g'. auto.
Qed.

Lemma sim_bind {A B} (p : prog E R A) (f : A -> prog E R B) Q g k :
  sim p (fun a g' k' => T g' k' -> sim (f a) Q g' k') g k -> sim (prog_bind p f) Q g k.
Proof using req_silent.
  revert g k. induction p as [a|e c IH]; simpl; intros g k H.
  - destruct H as (g' & Hg & Hk & H). eapply sim_steps; eauto.
  - intros k1 Hr. destruct (H k1 Hr) as (g' & ? & ? & ?). exists g'. auto.
Qed.

(** A program that makes at most one step, from [g0] to [g1]; at the latest
    with its last request. *)
Lemma sim_once {A} (guar : K -> K -> Prop) (p : prog E R A) (P : A -> K -> Prop) (Q : A -> G -> K -> Prop) g0 g1 k :
  req g0 g1 -> match p with Ret a => Q a g0 k | Call _ _ => True end ->
  (forall k1 k2, rely k1 k2 -> T g0 k1 -> T g0 k2) -> (forall k1 k2, rely k1 k2 -> T g1 k1 -> T g1 k2) ->
  (forall k1 k2, guar k1 k2 -> (T g0 k1 -> T g0 k2 \/ T g1 k2) /\ (T g1 k1 -> T g1 k2)) ->
  (forall a k, P a k -> (T g0 k -> Q a g0 k \/ T g1 k /\ Q a g1 k) /\ (T g1 k -> Q a g1 k)) ->
  wp sys rely guar p P k -> T g0 k -> sim p Q g0 k.
Proof using req_refl.
  intros Hg Hp S0 S1 HG HQ Hwp H0.
  enough (Hboth : (T g0 k -> match p with Ret a => Q a g0 k | Call _ _ => True end -> sim p Q g0 k) /\ (T g1 k -> sim p Q g1 k))
    by by apply Hboth.
  clear H0 Hp. revert k Hwp. induction p as [a|e c IH]; intros k Hwp; cbn [wp sim] in *.
  - split; intros Hk; [intros H0; exists g0; auto|]. exists g1. split; [done|]. split; [done|]. by apply (HQ a k Hwp).
  - split; intros Hk; [intros _|]; intros k1 Hr; destruct (Hwp k1 Hr) as [Hguar Hn]; destruct (HG _ _ Hguar) as [G0 G1];
      destruct (IH _ _ Hn) as [I0 I1].
    + assert (Hk1 : T g0 k1) by (by eapply S0). destruct (G0 Hk1) as [H0|H1]; [|exists g1; auto].
      destruct (c (snd (sys e k1))) as [a|e' c']; [|exists g0; auto].
      destruct (proj1 (HQ a _ Hn) H0) as [H|[H ?]]; [exists g0; auto|]. exists g1. auto.
    + exists g1. assert (T g1 (fst (sys e k1))) by (apply G1; by eapply S1). auto.
Qed.

(** A program that makes none. *)
Lemma sim_still {A} (guar : K -> K -> Prop) (p : prog E R A) (P : A -> K -> Prop) (Q : A -> G -> K -> Prop) g k :
  (forall k1 k2, rely k1 k2 -> T g k1 -> T g k2) -> (forall k1 k2, guar k1 k2 -> T g k1 -> T g k2) ->
  (forall a k, P a k -> T g k -> Q a g k) ->
  wp sys rely guar p P k -> T g k -> sim p Q g k.
Proof using req_refl.
  intros HR HG HQ. revert k. induction p as [a|e c IH]; intros k Hwp Hk; cbn [wp sim] in *.
  - exists g. auto.
  - intros k1 Hr. destruct (Hwp k1 Hr) as [Hguar Hn]. exists g.
    assert (T g (fst (sys e k1))) by (eapply HG; [done|by eapply HR]). auto.
Qed.

(** ** Who looks on *)

(** Another process looking on sees the state after any moves of the program
    and of the environment. *)
Inductive look {A} : prog E R A * K -> prog E R A * K -> Prop :=
| look_move c c' : move sys rely c c' -> look c c'
| look_env p k k' : rely k k' -> look (p, k) (p, k').

Lemma exec_look {A} (c c' : prog E R A * K) : exec sys rely c c' -> rtc look c c'.
Proof using Type. apply rtc_subrel. intros ??. apply look_move. Qed.

(** [n + 1] instants, in order.  What is read atomically is read in [ks]; a
    word that a request under way may be overwriting is read in [ws], where the
    request may be done already. *)
Definition watched {A} (n : nat) (c : prog E R A * K) (ks ws : nat -> K) : Prop :=
  exists ps, rtc look c (ps 0%nat, ks 0%nat) /\
    (forall i, (i < n)%nat -> rtc look (ps i, ks i) (ps (S i), ks (S i))) /\
    forall i, (i <= n)%nat -> ws i = ks i \/ exists p', move sys rely (ps i, ks i) (p', ws i).

(** What the environment and the guarantee of the program keep is seen from
    each instant on, and the word of a request under way is that of a step of
    the guarantee. *)
Definition kept_by (guar : K -> K -> Prop) (I : K -> Prop) : Prop :=
  (forall k1 k2, rely k1 k2 -> I k1 -> I k2) /\ (forall k1 k2, guar k1 k2 -> I k1 -> I k2).

Lemma wp_look {A} (guar : K -> K -> Prop) (p : prog E R A) k p' k' :
  (forall k1 k2 k3, rely k1 k2 -> rely k2 k3 -> rely k1 k3) ->
  wp sys rely guar p (fun _ _ => True) k -> rtc look (p, k) (p', k') ->
  wp sys rely guar p' (fun _ _ => True) k' /\ forall I, kept_by guar I -> I k -> I k'.
Proof using Type.
  intros Htrans Hwp Hx. remember (p, k) as c eqn:Hc. remember (p', k') as c' eqn:Hc'. revert p k Hwp Hc.
  induction Hx as [c|c1 c2 c3 Hl Hx IH]; intros p k Hwp Hc; [simplify_eq; by split; [done|intros I _]|].
  destruct Hl as [c1 c2 Hm|p1 k1 k2 Hr]; simplify_eq.
  - inversion Hm as [e c0 k0 k1 k2 r Hr Hs]; simplify_eq. destruct (Hwp k1 Hr) as [Hg Hn]. rewrite Hs in Hg, Hn.
    destruct (IH eq_refl _ _ Hn eq_refl) as [Hp HI]. split; [done|]. intros I [IR IG] Hk. apply HI; [done|]. eauto.
  - destruct (IH eq_refl p k2) as [Hp HI]; [|done|].
    + destruct p as [a|e c0]; [done|]. intros k3 Hr3. apply Hwp. by eapply Htrans.
    + split; [done|]. intros I [IR IG] Hk. apply HI; [done|]. eauto.
Qed.

Lemma wp_watched {A} (guar : K -> K -> Prop) n (p : prog E R A) k ks ws :
  (forall k1 k2 k3, rely k1 k2 -> rely k2 k3 -> rely k1 k3) ->
  wp sys rely guar p (fun _ _ => True) k -> watched n (p, k) ks ws ->
  (forall I i, kept_by guar I -> (i <= n)%nat -> I k -> I (ks i)) /\
  (forall I i j, kept_by guar I -> (i <= j <= n)%nat -> I (ks i) -> I (ks j)) /\
  (forall i, (i <= n)%nat -> ws i = ks i \/ exists k1, rely (ks i) k1 /\ guar k1 (ws i)).
Proof using Type.
  intros Htrans Hwp (ps & H0 & Hn & Hw). destruct (wp_look guar _ _ _ _ Htrans Hwp H0) as [Hwp0 HI0].
  assert (Hall : forall i, (i <= n)%nat -> wp sys rely guar (ps i) (fun _ _ => True) (ks i) /\
    forall j I, kept_by guar I -> (j <= i)%nat -> I (ks j) -> I (ks i)).
  { induction i as [|i IH]; intros Hi; [split; [done|]; intros j I _ Hj; by replace j with 0%nat by lia|].
    destruct (IH ltac:(lia)) as [Hwpi HIi]. destruct (wp_look guar _ _ _ _ Htrans Hwpi (Hn i Hi)) as [HwpS HIS].
    split; [done|]. intros j I HI Hj Hkj. destruct (decide (j = S i)) as [->|Hne]; [done|]. apply HIS; [done|].
    apply (HIi j); [done|lia|done]. }
  split_and!.
  - intros I i HI Hi Hk. apply (Hall i Hi) with (j := 0%nat); [done|lia|by apply HI0].
  - intros I i j HI Hij Hk. destruct (Hall j ltac:(lia)) as [_ Hj]. apply (Hj i I HI); [lia|done].
  - intros i Hi. destruct (Hw i Hi) as [->|[p' Hm]]; [by left|right]. destruct (Hall i Hi) as [Hwpi _].
    inversion Hm as [e c0 k0 k1 k2 r Hr Hs He]; simplify_eq. rewrite <-He in Hwpi. exists k1. split; [done|].
    destruct (Hwpi k1 Hr) as [Hg _]. by rewrite Hs in Hg.
Qed.

(** A program that runs alone is watched at any of its requests, in order. *)
Lemma after_watched {A} n (c : prog E R A * K) (ns ms : nat -> nat) :
  (forall k, rely k k) -> (forall i, (i < n)%nat -> (ns i <= ns (S i))%nat) ->
  (forall i, (i <= n)%nat -> ms i = ns i \/ ms i = S (ns i)) ->
  watched n c (fun i => (after (ns i) c).2) (fun i => (after (ms i) c).2).
Proof using Type.
  intros Hr Hns Hms. exists (fun i => (after (ns i) c).1). split_and!.
  - rewrite <-surjective_pairing. by apply exec_look, after_exec.
  - intros i Hi. rewrite <-!surjective_pairing.
    rewrite (Nat.le_add_sub (ns i) (ns (S i))), after_add by auto. by apply exec_look, after_exec.
  - intros i Hi. destruct (Hms i Hi) as [->|Em]; [by left|]. rewrite Em, <-(Nat.add_1_r (ns i)), after_add.
    destruct (after (ns i) c) as [[a|e f] k]; [by left|right]. cbn [after fst snd]. destruct (sys e k) as [k' r] eqn:Hs.
    exists (f r). cbn [snd]. by econstructor.
Qed.

(** A climb of a transition system. *)
Definition climb (step : G -> G -> Prop) (n : nat) (g : G) (gs : nat -> G) : Prop :=
  rtc step g (gs 0%nat) /\ forall i, (i < n)%nat -> rtc step (gs i) (gs (S i)).

Lemma climb_le step n g gs i j : climb step n g gs -> (i <= j <= n)%nat -> rtc step (gs i) (gs j).
Proof using Type.
  intros [_ Hc] [Hij Hj]. induction Hij as [|j Hij IH]; [done|]. etrans; [apply IH; lia|]. apply Hc. lia.
Qed.

Lemma climb_from step n g gs i : climb step n g gs -> (i <= n)%nat -> rtc step g (gs i).
Proof using Type. intros Hc Hi. etrans; [apply Hc|]. eapply climb_le; [exact Hc|lia]. Qed.

Lemma climb_mono (step step' : G -> G -> Prop) n g gs :
  (forall g g', step g g' -> rtc step' g g') -> climb step n g gs -> climb step' n g gs.
Proof using Type.
  intros Hs [H0 Hc]. assert (Hr : forall g g', rtc step g g' -> rtc step' g g').
  { intros g1 g2. induction 1 as [|? ? ? H1 _ IH]; [done|]. etrans; [by apply Hs|exact IH]. }
  split; [by apply Hr|]. intros i Hi. by apply Hr, Hc.
Qed.

(** What is seen follows the transition system. *)
Definition any_step (g g' : G) : Prop := silent g g' \/ req g g'.

Context (rely_trans : forall k1 k2 k3, rely k1 k2 -> rely k2 k3 -> rely k1 k3).
Context (T_stable : forall g k k', rely k k' -> T g k -> T g k').

Lemma sim_look {A} (p : prog E R A) Q g k p' k' :
  (forall a g k k', rely k k' -> Q a g k -> Q a g k') ->
  rtc look (p, k) (p', k') -> T g k -> sim p Q g k ->
  exists g', rtc any_step g g' /\ T g' k' /\ sim p' Q g' k'.
Proof using rely_trans T_stable.
  intros HQ Hx. remember (p, k) as c eqn:Hc. remember (p', k') as c' eqn:Hc'. revert p k g Hc.
  induction Hx as [c|c1 c2 c3 Hl Hx IH]; intros p k g Hc Hk Hp; [simplify_eq; by exists g|].
  assert (Hstep : exists p2 k2 g2, c2 = (p2, k2) /\ rtc any_step g g2 /\ T g2 k2 /\ sim p2 Q g2 k2).
  { destruct Hl as [c1 c2 Hm|p1 k1 k2 Hr]; simplify_eq.
    - inversion Hm as [e c0 k0 k1 k2 r Hr Hs]; simplify_eq. destruct (Hp k1 Hr) as (g2 & H1 & H2 & H3). rewrite Hs in *.
      eexists _, _, g2. split; [done|]. split; [apply rtc_once; by right|done].
    - eexists _, _, g. do 2 (split; [done|]). split; [by eapply T_stable|].
      destruct p as [a|e c0]; simpl in *.
      + destruct Hp as (g2 & ? & ? & ?). exists g2. eauto.
      + intros k3 Hr3. apply Hp. by eapply rely_trans. }
  destruct Hstep as (p2 & k2 & g2 & -> & H1 & H2 & H3). destruct (IH Hc' p2 k2 g2 eq_refl H2 H3) as (g' & ? & ?).
  exists g'. split; [by etrans|done].
Qed.

(** The atomic reads climb; a word read at one of the instants is at most one
    request ahead. *)
Lemma sim_watch {A} n (p : prog E R A) Q g k ks ws :
  (forall a g k k', rely k k' -> Q a g k -> Q a g k') ->
  watched n (p, k) ks ws -> T g k -> sim p Q g k ->
  exists gs hs, climb any_step n g gs /\
    forall i, (i <= n)%nat -> T (gs i) (ks i) /\ req (gs i) (hs i) /\ T (hs i) (ws i).
Proof using rely_trans T_stable req_refl.
  intros HQ (ps & H0 & Hn & Hw) Hk Hp.
  assert (Hgs : exists gs, climb any_step n g gs /\ forall i, (i <= n)%nat -> T (gs i) (ks i) /\ sim (ps i) Q (gs i) (ks i)).
  { clear Hw. induction n as [|n IH].
    - destruct (sim_look _ _ _ _ _ _ HQ H0 Hk Hp) as (g' & Hg & Hk'). exists (fun _ => g').
      split; [split; [done|lia]|]. intros i Hi. by replace i with 0%nat by lia.
    - destruct IH as (gs & [Hg0 Hgs] & HT); [intros; apply Hn; lia|]. destruct (HT n ltac:(lia)) as [HTn Hsn].
      destruct (sim_look _ _ _ _ _ _ HQ (Hn n ltac:(lia)) HTn Hsn) as (g' & Hg & Hk').
      exists (fun i => if (i <=? n)%nat then gs i else g'). split; [split; [done|]|].
      + intros i Hi. rewrite (proj2 (Nat.leb_le i n)) by lia. destruct (S i <=? n)%nat eqn:Ei; breflect.
        * apply Hgs. lia.
        * by replace i with n by lia.
      + intros i Hi. destruct (i <=? n)%nat eqn:Ei; breflect; [apply HT; lia|]. by replace i with (S n) by lia. }
  destruct Hgs as (gs & Hc & HT).
  assert (Hhs : forall i, (i <= n)%nat -> exists h, req (gs i) h /\ T h (ws i)).
  { intros i Hi. destruct (HT i Hi) as [HTi Hsi].
    destruct (Hw i Hi) as [->|[p' Hm]]; [by exists (gs i)|].
    inversion Hm as [e c0 k0 k1 k2 r Hr Hs He]; simplify_eq. rewrite <-He in Hsi. destruct (Hsi k1 Hr) as (h & ? & HTh & _).
    rewrite Hs in HTh. by exists h. }
  apply finite_choice in Hhs as [hs Hhs]. exists gs, hs. split; [done|]. intros i Hi. split; [by apply HT|by apply Hhs].
Qed.

(** The same for Python computations. *)
Definition psim {A} (m : py E R St A) (s : St) (Q : res A -> St -> G -> K -> Prop) (g : G) (k : K) : Prop :=
  sim (m s) (fun '(s', r) g' k' => Q r s' g' k') g k.

Lemma psim_mono {A} (m : py E R St A) s (Q Q' : res A -> St -> G -> K -> Prop) g k :
  psim m s Q g k -> (forall r s' g' k', T g' k' -> Q r s' g' k' -> Q' r s' g' k') -> psim m s Q' g k.
Proof using Type. intros H HQ. eapply sim_mono; [|exact H]. intros [s' r] g' k'. apply HQ. Qed.

Lemma psim_lift {A} (r : res A) s Q g k : T g k -> Q r s g k -> psim (lift r) s Q g k.
Proof using Type. intros Hk HQ. exists g. by split. Qed.

Lemma psim_bind {A B} (m : py E R St A) (f : A -> py E R St B) s Q g k :
  psim m s (fun r s' g' k' =>
    match r with Ok a => T g' k' -> psim (f a) s' Q g' k' | Exc e => Q (Exc e) s' g' k' end) g k ->
  psim (m ≫= f) s Q g k.
Proof using req_silent.
  intros H. unfold psim, mbind, py_bind. apply sim_bind. eapply sim_mono; [|exact H].
  intros [s' [a|e]] g' k' Hk; [done|]. intros HQ _. exists g'. by split.
Qed.

Lemma psim_attempt {A} (m : py E R St A) s Q g k :
  psim m s (fun r s' g' k' => Q (Ok (match r with Ok a => Some a | Exc _ => None end)) s' g' k') g k ->
  psim (attempt m) s Q g k.
Proof using req_silent.
  intros H. unfold psim, attempt. apply sim_bind. eapply sim_mono; [|exact H].
  intros [s' r] g' k' Hk HQ _. exists g'. by split.
Qed.
End relation.

(** ** Several programs on one outside *)

(** One of them makes its next request, the environment moving before it. *)
Inductive pool_move {A} (env : K -> K -> Prop) : list (prog E R A) * K -> list (prog E R A) * K -> Prop :=
| pool_call ps i e c k k1 k2 r :
    ps !! i = Some (Call e c) -> env k k1 -> sys e k1 = (k2, r) -> pool_move env (ps, k) (<[i := c r]> ps, k2).

(** Programs that each live with the steps of the others keep an invariant
    together. *)
Lemma pool_keeps {A} (env rely guar : K -> K -> Prop) (I : K -> Prop) (ps ps' : list (prog E R A)) k k' :
  (forall k1 k2 k3, rely k1 k2 -> rely k2 k3 -> rely k1 k3) ->
  (forall k1 k2, env k1 k2 -> rely k1 k2) -> (forall k1 k2, guar k1 k2 -> rely k1 k2) ->
  (forall k1 k2, rely k1 k2 -> I k1 -> I k2) ->
  Forall (fun p => wp sys rely guar p (fun _ _ => True) k) ps -> rtc (pool_move env) (ps, k) (ps', k') ->
  I k -> I k'.
Proof.
  intros Htrans Henv Hguar HI Hps Hx. remember (ps, k) as c eqn:Hc. remember (ps', k') as c' eqn:Hc'. revert ps k Hps Hc.
  induction Hx as [c|c1 c2 c3 Hm Hx IH]; intros ps k Hps Hc Hk; [by simplify_eq|].
  inversion Hm as [ps0 i e c k0 k1 k2 r Hi Hr Hs]; simplify_eq.
  pose proof (proj1 (Forall_lookup _ _) Hps i _ Hi) as Hwp. destruct (Hwp k1 (Henv _ _ Hr)) as [Hg Hn]. rewrite Hs in Hg, Hn.
  assert (Hk2 : rely k k2) by (eapply Htrans; [by apply Henv|by apply Hguar]).
  apply (IH eq_refl (<[i := c r]> ps) k2); [|done|by eapply HI].
  apply Forall_insert; [|done]. eapply Forall_impl; [exact Hps|]. intros [a|e' c'] Hp; [done|].
  intros k3 Hr3. apply Hp. by eapply Htrans.
Qed.

(** The run of a schedule, in which the environment does not move. *)
Fixpoint pool_run {A} (sched : list nat) (c : list (prog E R A) * K) : list (prog E R A) * K :=
  match sched with
  | [] => c
  | i :: sched' =>
      match c.1 !! i with
      | Some (Call e f) => let '(k', r) := sys e c.2 in pool_run sched' (<[i := f r]> c.1, k')
      | _ => c
      end
  end.

Lemma pool_run_moves {A} (env : K -> K -> Prop) sched (c : list (prog E R A) * K) :
  (forall k, env k k) -> rtc (pool_move env) c (pool_run sched c).
Proof.
  intros He. revert c. induction sched as [|i sched IH]; intros [ps k]; [done|]. cbn [pool_run fst snd].
  destruct (ps !! i) as [[a|e f]|] eqn:Hi; [done| |done]. destruct (sys e k) as [k' r] eqn:Hs.
  eapply rtc_l; [by eapply pool_call|]. apply IH.
Qed.
End simulation.
