(* ===== verification/PyStruct.v ===== *)
(** * Python's [struct] module, as the repository uses it

    Format strings with an explicit byte-order character (["<"], [">"], ["="]
    or ["!"]; standard sizes, no padding) and the codes [B], [H], [I], [i] and
    [Q] without repeat counts: every format of agent.py, gtp5g_genl.py and
    gtp5g_link_add.py.  ["="] is the byte order of the machine, little-endian
    on the x86_64 the loader is written for.  Packing a value outside the range
    of its code, a wrong number of values, and unpacking from a buffer of the
    wrong size raise [struct.error]. *)

From Stdlib Require Import Strings.Ascii.
From S2P Require Import Prelude.

Inductive endian := LE | BE.
Inductive fcode := fB | fH | fI | fi | fQ.

Definition fsize (c : fcode) : nat :=
  match c with fB => 1 | fH => 2 | fI => 4 | fi => 4 | fQ => 8 end%nat.

Definition fsigned (c : fcode) : bool :=
  match c with fi => true | _ => false end.

Definition fbits (c : fcode) : Z := Z.of_nat (fsize c) * 8.

Definition code_of_ascii (a : Ascii.ascii) : option fcode :=
  match a with
  | "B" => Some fB | "H" => Some fH | "I" => Some fI | "i" => Some fi | "Q" => Some fQ
  | _ => None
  end%char.

Fixpoint parse_codes (s : string) : option (list fcode) :=
  match s with
  | EmptyString => Some []
  | String a s' => c ← code_of_ascii a; cs ← parse_codes s'; Some (c :: cs)
  end.

Definition parse_fmt (s : string) : option (endian * list fcode) :=
  match s with
  | String "<" s' | String "=" s' => cs ← parse_codes s'; Some (LE, cs)
  | String ">" s' | String "!" s' => cs ← parse_codes s'; Some (BE, cs)
  | _ => None
  end%char.

Definition in_range (c : fcode) (z : Z) : Prop :=
  if fsigned c then - 2 ^ (fbits c - 1) <= z < 2 ^ (fbits c - 1) else 0 <= z < 2 ^ fbits c.

#[global] Instance in_range_dec c z : Decision (in_range c z).
Proof. unfold in_range. destruct (fsigned c); apply _. Defined.

Definition enc_field (e : endian) (c : fcode) (z : Z) : bytes :=
  match e with LE => le_split (fsize c) z | BE => be_split (fsize c) z end.

Definition dec_unsigned (e : endian) (b : bytes) : Z :=
  match e with LE => le_combine b | BE => be_combine b end.

Definition dec_field (e : endian) (c : fcode) (b : bytes) : Z :=
  let u := dec_unsigned e b in
  if fsigned c && (2 ^ (fbits c - 1) <=? u) then u - 2 ^ fbits c else u.

Fixpoint pack_codes (e : endian) (cs : list fcode) (vs : list Z) : res bytes :=
  match cs, vs with
  | [], [] => Ok []
  | c :: cs', v :: vs' =>
      if decide (in_range c v) then b ← pack_codes e cs' vs'; Ok (enc_field e c v ++ b)
      else Exc StructError
  | _, _ => Exc StructError
  end.

Fixpoint calcsize_codes (cs : list fcode) : nat :=
  match cs with [] => 0 | c :: cs' => fsize c + calcsize_codes cs' end.

Fixpoint unpack_codes (e : endian) (cs : list fcode) (b : bytes) : list Z :=
  match cs with
  | [] => []
  | c :: cs' => dec_field e c (take (fsize c) b) :: unpack_codes e cs' (drop (fsize c) b)
  end.

(** [struct.pack(fmt, *vs)] *)
Definition pack (fmt : string) (vs : list Z) : res bytes :=
  match parse_fmt fmt with
  | Some (e, cs) => pack_codes e cs vs
  | None => Exc StructError
  end.

(** [struct.calcsize(fmt)] *)
Definition calcsize (fmt : string) : nat :=
  match parse_fmt fmt with Some (_, cs) => calcsize_codes cs | None => 0 end.

(** [struct.unpack(fmt, b)] *)
Definition unpack (fmt : string) (b : bytes) : res (list Z) :=
  match parse_fmt fmt with
  | Some (e, cs) =>
      if decide (length b = calcsize_codes cs) then Ok (unpack_codes e cs b) else Exc StructError
  | None => Exc StructError
  end.

(** [struct.unpack(fmt, b)[0]] *)
Definition unpack_head (fmt : string) (b : bytes) : res Z :=
  vs ← unpack fmt b; of_option IndexError (head vs).

(** [struct.unpack_from(fmt, b, off)], for a non-negative offset *)
Definition unpack_from (fmt : string) (b : bytes) (off : nat) : res (list Z) :=
  match parse_fmt fmt with
  | Some (e, cs) =>
      if decide (off + calcsize_codes cs <= length b)%nat
      then Ok (unpack_codes e cs (drop off b)) else Exc StructError
  | None => Exc StructError
  end.

(** ** Lemmas *)

Lemma length_enc_field e c z : length (enc_field e c z) = fsize c.
Proof. destruct e; simpl; [apply length_le_split|apply length_be_split]. Qed.
#[export] Hint Rewrite length_enc_field : upf_len.

Lemma fbits_pos c : 0 < fbits c.
Proof. destruct c; reflexivity. Qed.

Lemma pow_fbits c : 2 ^ fbits c = 2 * 2 ^ (fbits c - 1).
Proof. destruct c; reflexivity. Qed.

Lemma dec_enc_field e c z : in_range c z -> dec_field e c (enc_field e c z) = z.
Proof.
  intros Hr. unfold dec_field, enc_field.
  assert (Hu : dec_unsigned e (enc_field e c z) = z mod 2 ^ fbits c).
  { destruct e; [apply le_combine_split|apply be_combine_split]. }
  unfold enc_field in Hu.
  rewrite Hu. clear Hu. unfold in_range in Hr. pose proof (pow_fbits c) as Hp.
  pose proof (fbits_pos c). assert (0 < 2 ^ (fbits c - 1)) by (apply Z.pow_pos_nonneg; lia).
  destruct (fsigned c); simpl.
  - destruct (Z.leb_spec (2 ^ (fbits c - 1)) (z mod 2 ^ fbits c)) as [Hle|Hgt].
    + destruct (decide (0 <= z)) as [?|Hneg]; [rewrite Z.mod_small in Hle by lia; lia|].
      replace (z mod 2 ^ fbits c) with (z + 2 ^ fbits c); [lia|].
      rewrite <-(Z.mod_small (z + 2 ^ fbits c) (2 ^ fbits c)) by lia.
      by rewrite <-Z.add_mod_idemp_r, Z.mod_same, Z.add_0_r by lia.
    + destruct (decide (0 <= z)) as [?|Hneg]; [apply Z.mod_small; lia|].
      replace (z mod 2 ^ fbits c) with (z + 2 ^ fbits c) in Hgt; [lia|].
      rewrite <-(Z.mod_small (z + 2 ^ fbits c) (2 ^ fbits c)) by lia.
      by rewrite <-Z.add_mod_idemp_r, Z.mod_same, Z.add_0_r by lia.
  - by apply Z.mod_small.
Qed.

Lemma dec_field_in_range e c b : length b = fsize c -> in_range c (dec_field e c b).
Proof.
  intros Hl. unfold dec_field, in_range.
  assert (Hu : 0 <= dec_unsigned e b < 2 ^ fbits c).
  { unfold fbits. rewrite <-Hl. destruct e; [apply le_combine_range|apply be_combine_range]. }
  pose proof (pow_fbits c). destruct (fsigned c); simpl; [|done].
  destruct (Z.leb_spec (2 ^ (fbits c - 1)) (dec_unsigned e b)); lia.
Qed.

Lemma enc_dec_field e c b : length b = fsize c -> enc_field e c (dec_field e c b) = b.
Proof.
  intros Hl. unfold enc_field, dec_field, dec_unsigned.
  assert (Hmod : forall n u, le_split n (u - 2 ^ (Z.of_nat n * 8)) = le_split n u).
  { intros n u. rewrite le_split_mod, (le_split_mod u). f_equal.
    rewrite <-Zminus_mod_idemp_r, Z.mod_same, Z.sub_0_r; [done|]. by apply Z.pow_nonzero; lia. }
  destruct e.
  - transitivity (le_split (fsize c) (le_combine b)).
    + destruct (_ && _); [apply Hmod|done].
    + rewrite <-Hl. apply split_le_combine.
  - transitivity (be_split (fsize c) (be_combine b)).
    + destruct (_ && _); [|done]. unfold be_split. f_equal. apply Hmod.
    + rewrite <-Hl. apply split_be_combine.
Qed.

Lemma pack_codes_length e cs vs b : pack_codes e cs vs = Ok b -> length b = calcsize_codes cs.
Proof.
  revert vs b. induction cs as [|c cs IH]; intros [|v vs] b H; simplify_eq/=; [done|].
  case_decide; [|done]. destruct (pack_codes e cs vs) eqn:Hp; simplify_eq/=.
  rewrite length_app, length_enc_field, (IH _ _ Hp). done.
Qed.

Lemma unpack_codes_pack e cs vs b post :
  pack_codes e cs vs = Ok b -> unpack_codes e cs (b ++ post) = vs.
Proof.
  revert vs b. induction cs as [|c cs IH]; intros [|v vs] b H; simplify_eq/=; [done|].
  case_decide; [|done]. destruct (pack_codes e cs vs) eqn:Hp; simplify_eq/=.
  rewrite <-app_assoc. rewrite take_app_length' by by rewrite length_enc_field.
  rewrite drop_app_length' by by rewrite length_enc_field.
  by rewrite dec_enc_field, (IH _ _ Hp).
Qed.

Lemma pack_codes_unpack e cs b :
  length b = calcsize_codes cs -> pack_codes e cs (unpack_codes e cs b) = Ok b.
Proof.
  revert b. induction cs as [|c cs IH]; intros b Hl; simpl in *.
  - by destruct b.
  - assert (length (take (fsize c) b) = fsize c) by (rewrite length_take; lia).
    rewrite decide_True by by apply dec_field_in_range.
    rewrite IH by (rewrite length_drop; lia). simpl.
    by rewrite enc_dec_field, take_drop.
Qed.

(** When packing succeeds, and what it gives. *)
Lemma pack_codes_ok e cs vs :
  Forall2 in_range cs vs -> pack_codes e cs vs = Ok (mjoin (zip_with (enc_field e) cs vs)).
Proof. induction 1 as [|c v cs vs Hr _ IH]; simpl; [done|]. rewrite decide_True by done. by rewrite IH. Qed.

Lemma pack_codes_inv e cs vs b :
  pack_codes e cs vs = Ok b -> Forall2 in_range cs vs /\ b = mjoin (zip_with (enc_field e) cs vs).
Proof.
  revert vs b. induction cs as [|c cs IH]; intros [|v vs] b H; simplify_eq/=; [done|].
  case_decide; [|done]. destruct (pack_codes e cs vs) eqn:Hp; simplify_eq/=.
  destruct (IH _ _ Hp) as [? ->]. split; [by constructor|done].
Qed.

Lemma pack_codes_exc e cs vs x : pack_codes e cs vs = Exc x -> x = StructError.
Proof.
  revert vs. induction cs as [|c cs IH]; intros [|v vs] H; simplify_eq/=; [done..|].
  case_decide; simplify_eq/=; [|done]. destruct (pack_codes e cs vs) eqn:Hp; simplify_eq/=; eauto.
Qed.

Lemma pack_exc fmt vs x : pack fmt vs = Exc x -> x = StructError.
Proof.
  unfold pack. destruct (parse_fmt fmt) as [[e cs]|]; [apply pack_codes_exc|by intros [= <-]].
Qed.

Lemma pack_length fmt vs b : pack fmt vs = Ok b -> length b = calcsize fmt.
Proof. unfold pack, calcsize. destruct (parse_fmt fmt) as [[e cs]|]; [|done]. apply pack_codes_length. Qed.

Lemma unpack_pack fmt vs b : pack fmt vs = Ok b -> unpack fmt b = Ok vs.
Proof.
  unfold pack, unpack. destruct (parse_fmt fmt) as [[e cs]|]; [|done]. intros H.
  rewrite decide_True by by eapply pack_codes_length.
  by rewrite <-(app_nil_r b), (unpack_codes_pack _ _ _ _ _ H).
Qed.

Lemma pack_unpack fmt vs b : unpack fmt b = Ok vs -> pack fmt vs = Ok b.
Proof.
  unfold pack, unpack. destruct (parse_fmt fmt) as [[e cs]|]; [|done].
  case_decide; [|done]. intros [= <-]. by apply pack_codes_unpack.
Qed.

Lemma unpack_from_pack fmt vs b pre post :
  pack fmt vs = Ok b -> unpack_from fmt (pre ++ b ++ post) (length pre) = Ok vs.
Proof.
  unfold pack, unpack_from. destruct (parse_fmt fmt) as [[e cs]|]; [|done]. intros H.
  pose proof (pack_codes_length _ _ _ _ H).
  rewrite decide_True by (rewrite !length_app; lia).
  by rewrite drop_app_length, (unpack_codes_pack _ _ _ _ _ H).
Qed.

Lemma unpack_from_eq fmt e cs b off :
  parse_fmt fmt = Some (e, cs) -> (off + calcsize_codes cs <= length b)%nat ->
  unpack_from fmt b off = Ok (unpack_codes e cs (drop off b)).
Proof. intros Hf Hl. unfold unpack_from. rewrite Hf. by rewrite decide_True. Qed.

(** [solve_range] proves that literal argument lists are in range. *)
Ltac solve_range :=
  repeat (apply Forall2_cons; split); try apply Forall2_nil_2;
  unfold in_range, fbits, fsize; simpl; try lia; auto.

(** Split a packing hypothesis into the ranges it implies and the bytes. *)
Ltac pack_inv H :=
  let Hr := fresh "Hrng" in let Hb := fresh "Hbytes" in
  apply pack_codes_inv in H as [Hr Hb];
  repeat match type of Hr with
  | Forall2 _ (_ :: _) (_ :: _) => apply Forall2_cons_1 in Hr as [? Hr]
  end; clear Hr; unfold in_range, fbits, fsize in *; simpl in *.
