(* ===== verification/PyText.v ===== *)
(** * Text: the parts of Python's standard library the agent parses with

    [int(s, 0)] (sign, base prefix, underscores, surrounding blanks), decimal
    digits, [f"{x:02x}"], and [socket.inet_aton]. *)

From Stdlib Require Import Strings.Ascii.
From S2P Require Import Prelude.

Definition code (a : ascii) : Z := Z.of_N (N_of_ascii a).

(** [isspace] of C, and [str.isspace] of an ASCII character. *)
Definition c_isspace (a : ascii) : bool :=
  (code a =? 32) || ((9 <=? code a) && (code a <=? 13)).
Definition is_space (a : ascii) : bool := c_isspace a || ((28 <=? code a) && (code a <=? 31)).

(** The value of a character as a digit: [0-9], then letters from 10. *)
Definition digit_val (a : ascii) : option Z :=
  let c := code a in
  if (48 <=? c) && (c <=? 57) then Some (c - 48)
  else if (97 <=? c) && (c <=? 122) then Some (c - 87)
  else if (65 <=? c) && (c <=? 90) then Some (c - 55)
  else None.

Definition digit_in (base : Z) (a : ascii) : option Z :=
  v ← digit_val a; if v <? base then Some v else None.

Definition is_digit (a : ascii) : bool := bool_decide (is_Some (digit_in 10 a)).

Fixpoint lstrip (s : string) : string :=
  match s with
  | String a s' => if is_space a then lstrip s' else s
  | EmptyString => EmptyString
  end.

Fixpoint string_rev (acc s : string) : string :=
  match s with EmptyString => acc | String a s' => string_rev (String a acc) s' end.

(** [s.strip()] *)
Definition strip (s : string) : string :=
  string_rev "" (lstrip (string_rev "" (lstrip s))).

(** [s.startswith(p)] *)
Fixpoint starts_with (p s : string) : bool :=
  match p, s with
  | EmptyString, _ => true
  | String a p', String b s' => if ascii_dec a b then starts_with p' s' else false
  | _, _ => false
  end.

(** Digits of a base with single underscores between them; [us] says that a
    digit must come next. *)
Fixpoint int_digits (base : Z) (s : string) (acc : Z) (us : bool) : option Z :=
  match s with
  | EmptyString => if us then None else Some acc
  | String a s' =>
      if ascii_dec a "_" then if us then None else int_digits base s' acc true
      else v ← digit_in base a; int_digits base s' (acc * base + v) false
  end.

Definition prefixed_digits (base : Z) (s : string) : option Z :=
  match s with
  | String "_" s' => int_digits base s' 0%Z true
  | _ => int_digits base s 0%Z true
  end%char.

Definition unsigned_int0 (s : string) : option Z :=
  match s with
  | String "0" (String "x" s') | String "0" (String "X" s') => prefixed_digits 16%Z s'
  | String "0" (String "o" s') | String "0" (String "O" s') => prefixed_digits 8%Z s'
  | String "0" (String "b" s') | String "0" (String "B" s') => prefixed_digits 2%Z s'
  | String "0" _ => (* a decimal literal may not start with 0, unless it is 0 *)
      v ← int_digits 10%Z s 0%Z true; if (v =? 0)%Z then Some 0%Z else None
  | _ => int_digits 10%Z s 0%Z true
  end%char.

Definition signed_by (f : string -> option Z) (s : string) : option Z :=
  match s with
  | String "-" s' => Z.opp <$> f s'
  | String "+" s' => f s'
  | _ => f s
  end%char.

(** [int(s, 0)] *)
Definition int0 (s : string) : res Z := of_option ValueError (signed_by unsigned_int0 (strip s)).

(** [int(s)] *)
Definition int10 (s : string) : res Z :=
  of_option ValueError (signed_by (fun s => int_digits 10%Z s 0%Z true) (strip s)).

(** [int(s, 16)]: an optional [0x] prefix. *)
Definition int16 (s : string) : res Z :=
  of_option ValueError (signed_by (fun s =>
    match s with
    | String "0" (String "x" s') | String "0" (String "X" s') => prefixed_digits 16%Z s'
    | _ => int_digits 16%Z s 0%Z true
    end%char) (strip s)).

(** [bytes(zs)]: every integer must be in [0, 256). *)
Definition bytes_of_ints (zs : list Z) : res bytes :=
  map_res (fun z => if (0 <=? z) && (z <? 256) then Ok (z2b z) else Exc ValueError) zs.

Definition hex_digit (v : Z) : ascii :=
  ascii_of_N (Z.to_N (if v <? 10 then 48 + v else 87 + v)).

(** [f"0x{x:02x}"] for a byte value *)
Definition hex_byte (b : Init.Byte.byte) : string :=
  String "0" (String "x" (String (hex_digit (b2z b / 16)) (String (hex_digit (b2z b mod 16)) ""))).

(** The decimal digits of a non-negative integer, as [str(z)] and f-strings
    write them. *)
Fixpoint dec_digits (fuel : nat) (z : Z) (acc : string) : string :=
  match fuel with
  | O => acc
  | S f => let acc' := String (ascii_of_N (Z.to_N (48 + z mod 10))) acc in
           if z <? 10 then acc' else dec_digits f (z / 10) acc'
  end.

Definition str_Z (z : Z) : string :=
  if z <? 0 then String "-" (dec_digits (Z.to_nat (Z.log2 (- z)) + 1) (- z) "")
  else dec_digits (Z.to_nat (Z.log2 z) + 1) z "".

(** The hexadecimal digits of a non-negative integer. *)
Fixpoint hex_digits (fuel : nat) (z : Z) (acc : string) : string :=
  match fuel with
  | O => acc
  | S f => let acc' := String (hex_digit (z mod 16)) acc in
           if z <? 16 then acc' else hex_digits f (z / 16) acc'
  end.
Definition hex_text (z : Z) : string := hex_digits (Z.to_nat (Z.log2 z) + 1) z "".

(** [hex(z)] of a non-negative integer *)
Definition py_hex (z : Z) : string := "0x" ++ hex_text z.

(** [f"{z:08x}"]: zeros after the sign, up to eight characters. *)
Fixpoint zeros (n : nat) : string := match n with O => "" | S n' => String "0" (zeros n') end.
Definition hex8 (z : Z) : string :=
  let digits := hex_text (Z.abs z) in
  if z <? 0 then "-" ++ zeros (7 - String.length digits) ++ digits else zeros (8 - String.length digits) ++ digits.

(** ** Pieces of text *)

(** The value of the digits at the head of the text, and the rest. *)
Fixpoint take_digits (base : Z) (s : string) (acc : Z) : Z * string :=
  match s with
  | String a s' => match digit_in base a with
                   | Some v => take_digits base s' (acc * base + v)
                   | None => (acc, s)
                   end
  | EmptyString => (acc, s)
  end.

Definition newline : string := String "010" "".
Definition quote : string := String "034" "".

(** [sep.join(l)] *)
Fixpoint join_with (sep : string) (l : list string) : string :=
  match l with
  | [] => ""
  | [x] => x
  | x :: l' => (x ++ sep ++ join_with sep l')%string
  end.

(** [s.split()] *)
Fixpoint words_from (cur s : string) : list string :=
  let emit l := match cur with EmptyString => l | _ => cur :: l end in
  match s with
  | EmptyString => emit []
  | String a s' => if is_space a then emit (words_from "" s') else words_from (cur ++ String a "") s'
  end%string.
Definition words (s : string) : list string := words_from "" s.

(** A character that ends a line for [s.splitlines()]. *)
Definition line_break (a : ascii) : bool :=
  ((10 <=? code a) && (code a <=? 13)) || ((28 <=? code a) && (code a <=? 30)).

(** [s.splitlines()]; [cr] says that the last character was a carriage return. *)
Fixpoint lines_from (cur : string) (cr : bool) (s : string) : list string :=
  match s with
  | EmptyString => match cur with EmptyString => [] | _ => [cur] end
  | String a s' =>
      if cr && (code a =? 10)%Z then lines_from "" false s'
      else if line_break a then cur :: lines_from "" (code a =? 13)%Z s'
      else lines_from (cur ++ String a "") false s'
  end%string.
Definition splitlines (s : string) : list string := lines_from "" false s.

(** [s.isdigit()] *)
Fixpoint all_digits (s : string) : bool :=
  match s with EmptyString => true | String a s' => is_digit a && all_digits s' end.
Definition isdigit (s : string) : bool := match s with EmptyString => false | _ => all_digits s end.

(** [int(s)] of a string of digits *)
Definition digits_value (s : string) : Z := fst (take_digits 10 s 0).

(** What follows the prefix [p]. *)
Fixpoint strip_prefix (p s : string) : option string :=
  match p, s with
  | EmptyString, _ => Some s
  | String a p', String b s' => if ascii_dec a b then strip_prefix p' s' else None
  | String _ _, EmptyString => None
  end.

(** [p in s] *)
Fixpoint contains (p s : string) : bool :=
  match strip_prefix p s with
  | Some _ => true
  | None => match s with String _ s' => contains p s' | EmptyString => false end
  end.

(** ** [socket.inet_aton] (glibc): one to four numbers, the last filling the
    remaining bytes; decimal, octal ([0...]) or hexadecimal ([0x...]). *)

Definition aton_number (s : string) : option (Z * string) :=
  match s with
  | String a s' =>
      if is_digit a then
        let '(v, rest) :=
          match s with
          | String "0" (String "x" t) | String "0" (String "X" t) => take_digits 16%Z t 0%Z
          | String "0" _ => take_digits 8%Z s 0%Z
          | _ => take_digits 10%Z s 0%Z
          end%char in
        if v <? 2 ^ 32 then Some (v, rest) else None
      else None
  | EmptyString => None
  end.

Fixpoint aton_parts (n : nat) (s : string) : option (list Z * string) :=
  '(v, rest) ← aton_number s;
  match n, rest with
  | S n', String "." rest' => if (v <? 256)%Z then '(vs, r) ← aton_parts n' rest'; Some (v :: vs, r) else None
  | _, _ => Some ([v], rest)
  end%char.

Definition inet_aton (s : string) : res bytes :=
  match aton_parts 3 s with
  | Some (vs, rest) =>
      match rest with
      | String a _ => if c_isspace a then Ok tt else Exc (OSError 0)
      | EmptyString => Ok tt
      end ;;
      match reverse vs with
      | v :: hi => let n := (4 - length hi)%nat in
          if v <? 2 ^ (Z.of_nat n * 8) then Ok (map z2b (reverse hi) ++ be_split n v)
          else Exc (OSError 0)
      | [] => Exc (OSError 0)
      end
  | None => Exc (OSError 0)
  end.

(** ** Lemmas *)

Lemma byte_cases (P : Init.Byte.byte -> Prop) :
  (forall n, (n < 256)%nat -> P (z2b (Z.of_nat n))) -> forall b, P b.
Proof.
  intros H b. rewrite <-(byte.of_Z_unsigned b). pose proof (byte.unsigned_range b).
  rewrite <-(Z2Nat.id (b2z b)) by lia. apply H. lia.
Qed.

Lemma int0_hex_byte b : int0 (hex_byte b) = Ok (b2z b).
Proof. destruct b; vm_compute; reflexivity. Qed.

Lemma int16_hex_byte b : int16 (hex_byte b) = Ok (b2z b).
Proof. destruct b; vm_compute; reflexivity. Qed.

Lemma bytes_of_ints_ok (b : bytes) : bytes_of_ints (map b2z b) = Ok b.
Proof.
  unfold bytes_of_ints. induction b as [|x b IH]; cbn; [done|].
  pose proof (byte.unsigned_range x).
  destruct (Z.leb_spec 0 (b2z x)); [|lia]. destruct (Z.ltb_spec (b2z x) 256); [|lia].
  cbn. unfold mbind, res_bind in IH |- *. rewrite IH. by rewrite byte.of_Z_unsigned.
Qed.

(** Digits written in decimal are read back. *)
Lemma digit_in_dec d : 0 <= d < 10 -> digit_in 10 (ascii_of_N (Z.to_N (48 + d))) = Some d.
Proof.
  intros Hd. assert (d = 0 \/ d = 1 \/ d = 2 \/ d = 3 \/ d = 4 \/ d = 5 \/ d = 6 \/ d = 7 \/ d = 8 \/ d = 9) as Hc by lia.
  repeat (destruct Hc as [->|Hc]; [reflexivity|]). by subst.
Qed.

Lemma dec_digits_step fuel z acc :
  dec_digits (S fuel) z acc =
    if z <? 10 then String (ascii_of_N (Z.to_N (48 + z mod 10))) acc
    else dec_digits fuel (z / 10) (String (ascii_of_N (Z.to_N (48 + z mod 10))) acc).
Proof. reflexivity. Qed.

Lemma append_cons x (s t : string) : (String x s ++ t)%string = String x (s ++ t).
Proof. reflexivity. Qed.

Lemma take_digits_step base x s acc :
  take_digits base (String x s) acc =
    match digit_in base x with Some v => take_digits base s (acc * base + v) | None => (acc, String x s) end.
Proof. reflexivity. Qed.

Lemma dec_digits_cons fuel z acc :
  (0 < fuel)%nat -> 0 <= z ->
  exists d t, dec_digits fuel z acc = String (ascii_of_N (Z.to_N (48 + d))) t /\ 0 <= d < 10.
Proof.
  intros Hf. revert z acc. induction fuel as [|fuel IH]; intros z acc Hz; [lia|].
  pose proof (Z.mod_pos_bound z 10 ltac:(lia)). rewrite dec_digits_step.
  destruct (Z.ltb_spec z 10); [eauto|]. destruct fuel as [|fuel]; [cbn; eauto|].
  apply IH; [lia|]. by apply Z.div_pos.
Qed.

Lemma take_dec_digits fuel z acc rest :
  0 <= z < 2 ^ Z.of_nat fuel -> (0 < fuel)%nat ->
  exists n, forall a, take_digits 10 (dec_digits fuel z acc ++ rest) a = take_digits 10 (acc ++ rest) (a * 10 ^ Z.of_nat n + z).
Proof.
  revert z acc. induction fuel as [|fuel IH]; intros z acc Hz Hf; [lia|].
  pose proof (Z.mod_pos_bound z 10 ltac:(lia)) as Hm. rewrite dec_digits_step.
  assert (Hhead : forall a, take_digits 10 (String (ascii_of_N (Z.to_N (48 + z mod 10))) acc ++ rest) a =
    take_digits 10 (acc ++ rest) (a * 10 + z mod 10)).
  { intros a. rewrite append_cons, take_digits_step. by rewrite digit_in_dec. }
  destruct (Z.ltb_spec z 10).
  - exists 1%nat. intros a. rewrite Hhead. rewrite (Z.mod_small z 10) by lia. f_equal; lia.
  - rewrite Nat2Z.inj_succ, Z.pow_succ_r in Hz by lia.
    destruct (IH (z / 10) (String (ascii_of_N (Z.to_N (48 + z mod 10))) acc)) as [n Hn].
    { split; [apply Z.div_pos; lia|]. apply Z.div_lt_upper_bound; lia. }
    { destruct fuel; [cbn in Hz|]; lia. }
    exists (S n). intros a. rewrite Hn, Hhead. f_equal.
    rewrite Nat2Z.inj_succ, Z.pow_succ_r by lia. pose proof (Z.div_mod z 10). lia.
Qed.

Lemma log2_fuel z : 0 <= z -> z < 2 ^ Z.of_nat (Z.to_nat (Z.log2 z) + 1).
Proof.
  intros Hz. rewrite Nat2Z.inj_add, Z2Nat.id by apply Z.log2_nonneg.
  destruct (decide (z = 0)) as [->|]; [done|]. apply Z.log2_spec. lia.
Qed.

Lemma str_Z_head z : 0 <= z -> exists d t, str_Z z = String (ascii_of_N (Z.to_N (48 + d))) t /\ 0 <= d < 10.
Proof.
  intros Hz. unfold str_Z. rewrite (proj2 (Z.ltb_ge _ _)) by lia. apply dec_digits_cons; lia.
Qed.

Lemma take_str_Z z rest : 0 <= z -> take_digits 10 (str_Z z ++ rest) 0 = take_digits 10 rest z.
Proof.
  intros Hz. unfold str_Z. rewrite (proj2 (Z.ltb_ge _ _)) by lia.
  destruct (take_dec_digits (Z.to_nat (Z.log2 z) + 1) z "" rest) as [n ->]; [|lia|done].
  split; [done|by apply log2_fuel].
Qed.

Lemma append_assoc (a b c : string) : ((a ++ b) ++ c)%string = (a ++ b ++ c)%string.
Proof. induction a as [|x a IH]; [done|]. rewrite !append_cons. by rewrite IH. Qed.

Lemma append_nil_r (a : string) : (a ++ "")%string = a.
Proof. induction a as [|x a IH]; [done|]. rewrite append_cons. by rewrite IH. Qed.

Lemma strip_prefix_app p t : strip_prefix p (p ++ t)%string = Some t.
Proof.
  induction p as [|a p IH]; [done|]. rewrite append_cons. cbn [strip_prefix]. by destruct (ascii_dec a a).
Qed.

(** ** Characters of a text *)

Fixpoint all_chars (f : ascii -> bool) (s : string) : bool :=
  match s with EmptyString => true | String a s' => f a && all_chars f s' end.

Lemma all_digits_chars s : all_digits s = all_chars is_digit s.
Proof. induction s as [|a s IH]; [done|]. cbn. by rewrite IH. Qed.

Lemma all_chars_app f s t : all_chars f (s ++ t)%string = all_chars f s && all_chars f t.
Proof. induction s as [|a s IH]; [done|]. rewrite append_cons. cbn. by rewrite IH, andb_assoc. Qed.

Lemma all_chars_impl (f g : ascii -> bool) s : (forall a, f a = true -> g a = true) -> all_chars f s = true -> all_chars g s = true.
Proof.
  intros Hfg. induction s as [|a s IH]; [done|]. cbn. intros [H1 H2]%andb_true_iff. rewrite (Hfg _ H1). by apply IH.
Qed.

Lemma string_rev_acc acc s : string_rev acc s = (string_rev "" s ++ acc)%string.
Proof.
  revert acc. induction s as [|a s IH]; intros acc; [done|]. cbn [string_rev]. rewrite (IH (String a acc)), (IH (String a "")).
  by rewrite append_assoc, append_cons.
Qed.

Lemma string_rev_cons a s : string_rev "" (String a s) = (string_rev "" s ++ String a "")%string.
Proof. exact (string_rev_acc (String a "") s). Qed.

Lemma string_rev_app s t : string_rev "" (s ++ t)%string = (string_rev "" t ++ string_rev "" s)%string.
Proof.
  induction s as [|a s IH]; [by rewrite append_nil_r|]. rewrite append_cons, !string_rev_cons, IH. apply append_assoc.
Qed.

Lemma string_rev_involutive s : string_rev "" (string_rev "" s) = s.
Proof. induction s as [|a s IH]; [done|]. rewrite string_rev_cons, string_rev_app, IH. done. Qed.

Lemma all_chars_rev f s : all_chars f (string_rev "" s) = all_chars f s.
Proof.
  induction s as [|a s IH]; [done|]. rewrite string_rev_cons, all_chars_app, IH. cbn. by rewrite andb_true_r, andb_comm.
Qed.

(** ** [s.strip()] *)

(** No blank at either end. *)
Definition trimmed (s : string) : Prop := lstrip s = s /\ lstrip (string_rev "" s) = string_rev "" s.

Lemma strip_trimmed s : trimmed s -> strip s = s.
Proof. intros [H1 H2]. unfold strip. rewrite H1, H2. apply string_rev_involutive. Qed.

Lemma strip_blank a s : is_space a = true -> strip (String a s) = strip s.
Proof. intros Ha. unfold strip. cbn [lstrip]. by rewrite Ha. Qed.

Lemma lstrip_app s t : lstrip s = s -> s <> ""%string -> lstrip (s ++ t)%string = (s ++ t)%string.
Proof.
  destruct s as [|a s]; [done|]. rewrite append_cons. cbn [lstrip]. destruct (is_space a) eqn:E; [|done].
  intros H _. exfalso. assert (Hl : forall u, (String.length (lstrip u) <= String.length u)%nat).
  { clear. induction u as [|b u IH]; [done|]. cbn [lstrip]. destruct (is_space b); cbn; lia. }
  pose proof (Hl s) as Hs. rewrite H in Hs. cbn in Hs. lia.
Qed.

Lemma digit_not_space a : is_digit a = true -> is_space a = false.
Proof. by destruct a as [[] [] [] [] [] [] [] []]; vm_compute. Qed.

Lemma lstrip_digits s : all_digits s = true -> lstrip s = s.
Proof.
  destruct s as [|a s]; [done|]. cbn. intros [Ha _]%andb_true_iff. by rewrite (digit_not_space _ Ha).
Qed.

Lemma digits_trimmed s : all_digits s = true -> trimmed s.
Proof. intros H. split; apply lstrip_digits; [done|]. rewrite all_digits_chars, all_chars_rev, <-all_digits_chars. done. Qed.

Lemma str_Z_digits z : 0 <= z -> isdigit (str_Z z) = true /\ all_digits (str_Z z) = true.
Proof.
  intros Hz. assert (Ha : all_digits (str_Z z) = true).
  { unfold str_Z. rewrite (proj2 (Z.ltb_ge _ _)) by lia. generalize (Z.to_nat (Z.log2 z) + 1)%nat. intros fuel.
    assert (Hg : forall acc, all_digits acc = true -> all_digits (dec_digits fuel z acc) = true); [|by apply Hg].
    revert z Hz. induction fuel as [|fuel IH]; intros z Hz acc Ha; [done|]. rewrite dec_digits_step.
    assert (Hc : all_digits (String (ascii_of_N (Z.to_N (48 + z mod 10))) acc) = true).
    { cbn [all_digits]. rewrite Ha, andb_true_r. unfold is_digit. rewrite digit_in_dec by (apply Z.mod_pos_bound; lia). done. }
    destruct (z <? 10); [done|]. apply IH; [by apply Z.div_pos|done]. }
  split; [|done]. unfold isdigit. destruct (str_Z_head z Hz) as (d & t & E & _). rewrite E in *. done.
Qed.

Lemma digits_value_str z : 0 <= z -> digits_value (str_Z z) = z.
Proof. intros Hz. unfold digits_value. pose proof (take_str_Z z "" Hz) as H. rewrite append_nil_r in H. by rewrite H. Qed.

(** ** [s.splitlines()] *)

Definition unbroken (s : string) : bool := all_chars (fun a => negb (line_break a)) s.

Lemma lines_from_line cur s rest :
  unbroken s = true -> lines_from cur false (s ++ newline ++ rest)%string = (cur ++ s)%string :: lines_from "" false rest.
Proof.
  revert cur. induction s as [|a s IH]; intros cur; [by rewrite append_nil_r|]. unfold unbroken. cbn [all_chars].
  intros [Ha Hs]%andb_true_iff. rewrite append_cons. cbn [lines_from andb]. apply negb_true_iff in Ha. rewrite Ha.
  rewrite (IH _ Hs). by rewrite append_assoc.
Qed.

Lemma splitlines_line s rest : unbroken s = true -> splitlines (s ++ newline ++ rest)%string = s :: splitlines rest.
Proof. apply (lines_from_line ""). Qed.

Lemma inet_aton_length s b : inet_aton s = Ok b -> length b = 4%nat.
Proof.
  unfold inet_aton. destruct (aton_parts 3 s) as [[vs rest]|] eqn:E; [|done].
  assert (Hl : (length vs <= 4)%nat).
  { clear -E. revert s vs rest E. assert (Hgen : forall n s vs rest, aton_parts n s = Some (vs, rest) -> (length vs <= S n)%nat).
    { induction n as [|n IH]; intros s vs rest; cbn [aton_parts].
      - destruct (aton_number s) as [[v r]|]; [|done]. intros [= <- <-]. cbn. lia.
      - destruct (aton_number s) as [[v r]|]; [|done]. cbn [mbind option_bind].
        destruct r as [|a r]; [intros [= <- <-]; cbn; lia|].
        destruct (ascii_dec a "."%char) as [->|Ha].
        + case_match; [|done]. destruct (aton_parts n r) as [[ws r']|] eqn:E; [|done].
          intros [= <- <-]. cbn [length]. apply IH in E. lia.
        + intros H. assert (Some ([v], String a r) = Some (vs, rest)) as [= <- <-]; [|cbn; lia].
          destruct a as [[] [] [] [] [] [] [] []]; try exact H. by destruct Ha. }
    intros. by eapply (Hgen 3%nat). }
  destruct (match rest with EmptyString => _ | _ => _ end); [|done]. cbn [mbind res_bind].
  destruct (reverse vs) as [|v hi] eqn:Er; [done|]. case_match; [|done]. intros [= <-].
  assert (Hh : length vs = S (length hi)) by (rewrite <-(length_reverse vs), Er; done).
  rewrite length_app, length_map, length_reverse, length_be_split. lia.
Qed.

Example inet_aton_ex : inet_aton "10.45.0.1" = Ok (map z2b [10; 45; 0; 1]).
Proof. reflexivity. Qed.
Example int0_ex : (int0 "0x1f", int0 " -12", int0 "012", int0 "1_000") = (Ok 31, Ok (-12), Exc ValueError, Ok 1000).
Proof. reflexivity. Qed.
Example str_Z_ex : (str_Z 0, str_Z 1234567) = ("0", "1234567")%string.
Proof. reflexivity. Qed.
Example words_ex : (words " a  bc ", splitlines ("ab" ++ String "013" (String "010" (String "010" "c")))) = (["a"; "bc"], ["ab"; ""; "c"])%string.
Proof. reflexivity. Qed.
