(* ===== verification/Argparse.v ===== *)
(** * argparse: the part of Python's library the scripts read command lines with

    [ArgumentParser.parse_args] for parsers whose options are long ([--name]),
    take one value (a string, [int(s)], [int(s, 0)]) or none ([store_true]),
    with [-h] and [--help]: which strings are options, exact, abbreviated or
    with [=]; which are values, negative numbers included; what [--] does; in
    which order values are converted, help printed and errors found.  Python
    3.10, the version of README.md; characters are ASCII. *)

From Stdlib Require Import Strings.Ascii.
From S2P Require Import Prelude PyText.

Open Scope string_scope.
Open Scope Z_scope.

(** ** Parsers *)

Inductive argval := VNone | VInt (z : Z) | VStr (s : string) | VBool (b : bool) | VList.

Inductive action := StoreStr | StoreInt | StoreInt0 | StoreTrue | Help.

Record opt := { opt_string : string; opt_action : action; opt_required : bool; opt_default : argval }.

#[global] Instance action_eq_dec : EqDecision action.
Proof. solve_decision. Defined.
#[global] Instance argval_eq_dec : EqDecision argval.
Proof. solve_decision. Defined.
#[global] Instance opt_eq_dec : EqDecision opt.
Proof. solve_decision. Defined.

(** [add_argument] *)
Definition flag (name : string) : opt :=
  {| opt_string := name; opt_action := StoreTrue; opt_required := false; opt_default := VBool false |}.
Definition with_default (name : string) (a : action) (v : argval) : opt :=
  {| opt_string := name; opt_action := a; opt_required := false; opt_default := v |}.
Definition required (name : string) (a : action) : opt :=
  {| opt_string := name; opt_action := a; opt_required := true; opt_default := VNone |}.

Definition help : opt := {| opt_string := "--help"; opt_action := Help; opt_required := false; opt_default := VNone |}.

(** [_option_string_actions], [-h] and [--help] first. *)
Definition option_strings (ps : list opt) : list (string * opt) :=
  ("-h", help) :: ("--help", help) :: ((fun o => (opt_string o, o)) <$> ps).

Definition option_of (ps : list opt) (s : string) : option opt :=
  snd <$> head (filter (fun p => p.1 = s) (option_strings ps)).

(** ** Strings *)

(** [s.split('=', 1)] of a string with an equals sign. *)
Fixpoint split_equals (s : string) : option (string * string) :=
  match s with
  | EmptyString => None
  | String a s' =>
      if ascii_dec a "=" then Some ("", s')
      else '(x, y) ← split_equals s'; Some (String a x, y)
  end.

(** [^-\d+$|^-\d*\.\d+$]; a dollar matches before a final newline, too. *)
Fixpoint decimal_tail (digits : bool) (s : string) : bool :=
  match s with
  | EmptyString => digits
  | String a s' =>
      if is_digit a then decimal_tail true s'
      else digits && (if ascii_dec a "010" then bool_decide (s' = "") else false)
  end.
Fixpoint negative_tail (digits : bool) (s : string) : bool :=
  match s with
  | EmptyString => digits
  | String a s' =>
      if is_digit a then negative_tail true s'
      else if ascii_dec a "." then decimal_tail false s'
      else digits && (if ascii_dec a "010" then bool_decide (s' = "") else false)
  end.
Definition negative_number (s : string) : bool :=
  match s with String "-" s' => negative_tail false s' | _ => false end%char.

(** ** Which strings are options *)

Inductive token :=
| TokArg
| TokDashes
| TokOpt (o : opt) (explicit : option string)
| TokUnknown.

#[global] Instance token_eq_dec : EqDecision token.
Proof. solve_decision. Defined.

(** [_get_option_tuples]: abbreviations of long options, and values attached to
    a short one. *)
Definition option_tuples (ps : list opt) (s : string) : list (opt * option string) :=
  if starts_with "--" s then
    let '(prefix, explicit) := match split_equals s with Some (x, y) => (x, Some y) | None => (s, None) end in
    (fun p => (p.2, explicit)) <$> filter (fun p => starts_with prefix p.1 = true) (option_strings ps)
  else
    omap (fun p : string * opt =>
      if decide (p.1 = String.substring 0 2 s) then Some (p.2, Some (String.substring 2 (String.length s - 2) s))
      else if starts_with s p.1 then Some (p.2, None) else None) (option_strings ps).

(** [_parse_optional]; no token for an ambiguous option, an error. *)
Definition parse_optional (ps : list opt) (s : string) : option token :=
  if negb (starts_with "-" s) then Some TokArg else
  match option_of ps s with
  | Some o => Some (TokOpt o None)
  | None =>
      if decide (s = "-") then Some TokArg else
      match '(x, y) ← split_equals s; o ← option_of ps x; Some (o, y) with
      | Some (o, y) => Some (TokOpt o (Some y))
      | None =>
          match option_tuples ps s with
          | _ :: _ :: _ => None
          | [(o, explicit)] => Some (TokOpt o explicit)
          | [] => if negative_number s then Some TokArg
                  else if contains " " s then Some TokArg
                  else Some TokUnknown
          end
      end
  end.

(** The pattern of the whole line: all strings after [--] are values. *)
Fixpoint classify (ps : list opt) (args : list string) : option (list (string * token)) :=
  match args with
  | [] => Some []
  | s :: args' =>
      if decide (s = "--") then Some ((s, TokDashes) :: ((fun s => (s, TokArg)) <$> args'))
      else t ← parse_optional ps s; ts ← classify ps args'; Some ((s, t) :: ts)
  end.

(** ** Values *)

(** [_get_value] *)
Definition convert (a : action) (s : string) : option argval :=
  match a with
  | StoreInt => match int10 s with Ok z => Some (VInt z) | Exc _ => None end
  | StoreInt0 => match int0 s with Ok z => Some (VInt z) | Exc _ => None end
  | _ => Some (VStr s)
  end.

(** [_get_values] of an option of one value: a [--] attached to it is removed,
    which leaves the empty list. *)
Definition get_values (a : action) (s : string) : option argval :=
  if decide (s = "--") then Some VList else convert a s.

(** ** The parser *)

(** [Exit code] is [SystemExit]: 0 after the help text, 2 after an error. *)
Inductive parsed := Exit (code : Z) | Namespace (ns : gmap string argval).

#[global] Instance parsed_eq_dec : EqDecision parsed.
Proof. solve_decision. Defined.

(** The letters of [-hhh] are options, too. *)
Fixpoint all_help (s : string) : bool :=
  match s with EmptyString => true | String a s' => (if ascii_dec a "h" then true else false) && all_help s' end.

(** A help option with an attached string. *)
Definition help_exit (s : string) (explicit : option string) : parsed :=
  match explicit with
  | None => Exit 0
  | Some e => if negb (starts_with "--" s) && negb (bool_decide (e = "")) && all_help e then Exit 0 else Exit 2
  end.

(** A default that is a string is converted at the end. *)
Definition finish_default (o : opt) : option argval :=
  match opt_default o with VStr s => convert (opt_action o) s | v => Some v end.

(** Once all strings are consumed: the options not seen. *)
Fixpoint finish (ps : list opt) (seen : gmap string argval) : option (gmap string argval) :=
  match ps with
  | [] => Some seen
  | o :: ps' =>
      ns ← finish ps' seen;
      match seen !! opt_string o with
      | Some _ => Some ns
      | None => if opt_required o then None else v ← finish_default o; Some (<[opt_string o := v]> ns)
      end
  end.

(** [_parse_known_args], then the check of [parse_args]; [extras] says that some
    string was left over. *)
Fixpoint consume (ps : list opt) (toks : list (string * token)) (seen : gmap string argval) (extras : bool) : parsed :=
  match toks with
  | [] =>
      match finish ps seen with
      | Some ns => if extras then Exit 2 else Namespace ns
      | None => Exit 2
      end
  | (s, TokOpt o explicit) :: toks' =>
      match opt_action o with
      | Help => help_exit s explicit
      | StoreTrue =>
          match explicit with
          | None => consume ps toks' (<[opt_string o := VBool true]> seen) extras
          | Some _ => Exit 2
          end
      | a =>
          match explicit with
          | Some e =>
              match get_values a e with
              | Some v => consume ps toks' (<[opt_string o := v]> seen) extras
              | None => Exit 2
              end
          | None =>
              match toks' with
              | (e, TokArg) :: toks'' =>
                  match get_values a e with
                  | Some v => consume ps toks'' (<[opt_string o := v]> seen) extras
                  | None => Exit 2
                  end
              | _ => Exit 2
              end
          end
      end
  | _ :: toks' => consume ps toks' seen true
  end.

Definition parse_args (ps : list opt) (args : list string) : parsed :=
  match classify ps args with Some toks => consume ps toks ∅ false | None => Exit 2 end.

(** ** Ways of writing a setting *)

Lemma split_equals_app p v : split_equals p = None -> split_equals (p ++ String "=" v) = Some (p, v).
Proof.
  induction p as [|a p IH]; [done|]. rewrite append_cons. cbn [split_equals].
  destruct (ascii_dec a "="); [done|]. destruct (split_equals p) as [[x y]|]; [done|]. intros _. by rewrite IH.
Qed.

Lemma split_equals_inv s x y : split_equals s = Some (x, y) -> s = x ++ String "=" y /\ split_equals x = None.
Proof.
  revert x. induction s as [|a s IH]; intros x; [done|]. cbn [split_equals]. destruct (ascii_dec a "=") as [->|Ha].
  - intros E. injection E as <- <-. done.
  - destruct (split_equals s) as [[x' y']|]; [|done]. cbn [mbind option_bind]. intros E. injection E as <- <-.
    destruct (IH x' eq_refl) as [-> E]. rewrite append_cons. split; [done|]. cbn [split_equals]. destruct (ascii_dec a "="); [done|].
    by rewrite E.
Qed.

Lemma starts_with_app p s t : starts_with p s = true -> starts_with p (s ++ t) = true.
Proof.
  revert s. induction p as [|a p IH]; [done|]. intros [|b s]; [done|]. rewrite append_cons. cbn [starts_with].
  destruct (ascii_dec a b); [apply IH|done].
Qed.

Section settings.
Context (ps : list opt).

(** The option strings are long and have no equals sign. *)
Definition plain_parser : Prop :=
  Forall (fun o => split_equals (opt_string o) = None /\ starts_with "--" (opt_string o) = true /\ opt_string o <> "--") ps /\
  NoDup (opt_string <$> ps).

#[global] Instance plain_parser_dec : Decision plain_parser.
Proof. unfold plain_parser. apply _. Defined.

(** [p] names an option: its string, or an abbreviation of no other. *)
Definition names (p : string) (o : opt) : Prop :=
  starts_with "--" p = true /\ p <> "--" /\ split_equals p = None /\
  (option_of ps p = Some o \/
   option_of ps p = None /\ (filter (fun q => starts_with p q.1 = true) (option_strings ps)).*2 = [o]).

(** A string that is read as a value where it stands. *)
Definition plain (t : string) : Prop := t <> "--" /\ parse_optional ps t = Some TokArg.

#[global] Instance names_dec p o : Decision (names p o).
Proof. unfold names. apply _. Defined.

(** The strings that give an option a value. *)
Inductive spelling : opt -> argval -> list string -> Prop :=
| sp_next o p t v :
    names p o -> opt_action o ∈ [StoreStr; StoreInt; StoreInt0] -> plain t -> convert (opt_action o) t = Some v ->
    spelling o v [p; t]
| sp_equals o p t v :
    names p o -> opt_action o ∈ [StoreStr; StoreInt; StoreInt0] -> t <> "--" -> convert (opt_action o) t = Some v ->
    spelling o v [p ++ String "=" t]
| sp_flag o p : names p o -> opt_action o = StoreTrue -> spelling o (VBool true) [p].

Record setting := { set_opt : opt; set_value : argval; set_args : list string }.

Definition spelled (x : setting) : Prop := spelling (set_opt x) (set_value x) (set_args x).

(** A setting that leaves the empty list: two dashes after an equals sign. *)
Definition dashed (x : setting) : Prop :=
  opt_action (set_opt x) ∈ [StoreStr; StoreInt; StoreInt0] /\ set_value x = VList /\
  exists p, names p (set_opt x) /\ set_args x = [p ++ String "=" "--"].

Definition written (x : setting) : Prop := spelled x \/ dashed x.

(** The last value given to an option. *)
Definition given (xs : list setting) : gmap string argval :=
  foldl (fun seen x => <[opt_string (set_opt x) := set_value x]> seen) ∅ xs.

Hypothesis Hps : plain_parser.

Lemma option_of_equals p t : option_of ps (p ++ String "=" t) = None \/ split_equals p <> None.
Proof using Hps.
  destruct (split_equals p) eqn:Ep; [by right|left]. pose proof (split_equals_app p t Ep) as E.
  destruct (option_of ps _) as [o|] eqn:Ho; [|done]. exfalso. unfold option_of in Ho.
  destruct (filter _ (option_strings ps)) as [|[s o'] l] eqn:Ef; [done|].
  assert (Hin : (s, o') ∈ filter (fun q => q.1 = p ++ String "=" t) (option_strings ps)) by (rewrite Ef; by left).
  apply list_elem_of_filter in Hin as [Hs Hin]. cbn in Hs. subst s. unfold option_strings in Hin.
  rewrite !elem_of_cons in Hin. destruct Hin as [Hin|[Hin|Hin]].
  - injection Hin as E1 _. rewrite E1 in E. discriminate E.
  - injection Hin as E1 _. rewrite E1 in E. discriminate E.
  - apply list_elem_of_fmap in Hin as (o2 & E1 & Hin). injection E1 as E1 _. destruct Hps as [Hall _].
    rewrite Forall_forall in Hall. destruct (Hall _ Hin) as [Hn _]. rewrite <-E1, E in Hn. discriminate Hn.
Qed.

Lemma long_dash s : starts_with "--" s = true -> starts_with "-" s = true.
Proof. destruct s as [|a s]; [done|]. cbn [starts_with]. by destruct (ascii_dec "-" a). Qed.

Lemma parse_optional_name p o : names p o -> parse_optional ps p = Some (TokOpt o None).
Proof using Type.
  intros (Hd & Hne & Heq & Hn). unfold parse_optional. rewrite (long_dash _ Hd). cbn [negb].
  destruct Hn as [->|[-> Hf]]; [done|]. rewrite decide_False by (intros ->; discriminate Hd).
  rewrite Heq. cbn [mbind option_bind]. unfold option_tuples. rewrite Hd, Heq.
  destruct (filter _ (option_strings ps)) as [|[x o'] [|? ?]]; [discriminate Hf| |discriminate Hf].
  cbn in Hf. injection Hf as ->. done.
Qed.

Lemma parse_optional_equals p o t :
  names p o -> parse_optional ps (p ++ String "=" t) = Some (TokOpt o (Some t)).
Proof using Hps.
  intros (Hd & Hne & Heq & Hn). unfold parse_optional. pose proof (starts_with_app _ _ (String "=" t) Hd) as Hd'.
  rewrite (long_dash _ Hd'). cbn [negb]. destruct (option_of_equals p t) as [->|?]; [|done].
  rewrite decide_False by (intros E; rewrite E in Hd'; discriminate Hd').
  rewrite (split_equals_app _ _ Heq). cbn [mbind option_bind].
  destruct Hn as [->|[-> Hf]]; [done|]. cbn [mbind option_bind]. unfold option_tuples. rewrite Hd', (split_equals_app _ _ Heq).
  destruct (filter _ (option_strings ps)) as [|[x o'] [|? ?]]; [discriminate Hf| |discriminate Hf].
  cbn in Hf. injection Hf as ->. done.
Qed.

Lemma equals_not_dashes p t : starts_with "--" p = true -> p ++ String "=" t <> "--".
Proof.
  destruct p as [|a [|b p]]; [done|cbn; by destruct (ascii_dec "-" a)|].
  intros _. rewrite !append_cons. intros E. injection E as _ _ E. by destruct p.
Qed.

(** One setting of a line. *)
Lemma spelled_tokens x :
  spelled x -> exists toks, (forall rest, classify ps (set_args x ++ rest)%list =
      (fun ts => toks ++ ts)%list <$> classify ps rest) /\
    forall ts seen extras, consume ps (toks ++ ts)%list seen extras =
      consume ps ts (<[opt_string (set_opt x) := set_value x]> seen) extras.
Proof using Hps.
  unfold spelled. destruct x as [o v args]. cbn [set_opt set_value set_args].
  intros [o' p t v' Hn Ha [Ht Hp] Hc|o' p t v' Hn Ha Ht Hc|o' p Hn Ha].
  - exists [(p, TokOpt o' None); (t, TokArg)]. split.
    + intros rest. cbn [app classify]. rewrite decide_False by apply Hn. rewrite decide_False by done.
      rewrite (parse_optional_name _ _ Hn), Hp. cbn [mbind option_bind]. by destruct (classify ps rest).
    + intros ts seen extras. cbn [app consume].
      assert (Hg : get_values (opt_action o') t = Some v') by (unfold get_values; by rewrite decide_False).
      by destruct (opt_action o'); rewrite ?Hg; try (exfalso; set_solver).
  - exists [(p ++ String "=" t, TokOpt o' (Some t))]. split.
    + intros rest. cbn [app classify]. rewrite decide_False by (apply equals_not_dashes, Hn).
      rewrite (parse_optional_equals _ _ _ Hn). cbn [mbind option_bind]. by destruct (classify ps rest).
    + intros ts seen extras. cbn [app consume].
      assert (Hg : get_values (opt_action o') t = Some v') by (unfold get_values; by rewrite decide_False).
      by destruct (opt_action o'); rewrite ?Hg; try (exfalso; set_solver).
  - exists [(p, TokOpt o' None)]. split.
    + intros rest. cbn [app classify]. rewrite decide_False by apply Hn.
      rewrite (parse_optional_name _ _ Hn). cbn [mbind option_bind]. by destruct (classify ps rest).
    + intros ts seen extras. cbn [app consume]. by rewrite Ha.
Qed.

Lemma written_tokens x :
  written x -> exists toks, (forall rest, classify ps (set_args x ++ rest)%list =
      (fun ts => toks ++ ts)%list <$> classify ps rest) /\
    forall ts seen extras, consume ps (toks ++ ts)%list seen extras =
      consume ps ts (<[opt_string (set_opt x) := set_value x]> seen) extras.
Proof using Hps.
  intros [Hx|(Ha & Ev & p & Hn & Ea)]; [by apply spelled_tokens|]. rewrite Ev, Ea.
  exists [(p ++ String "=" "--", TokOpt (set_opt x) (Some "--"))]. split.
  - intros rest. cbn [app classify]. rewrite decide_False by (apply equals_not_dashes, Hn).
    rewrite (parse_optional_equals _ _ _ Hn). cbn [mbind option_bind]. by destruct (classify ps rest).
  - intros ts seen extras. cbn [app consume]. by destruct (opt_action (set_opt x)); try (exfalso; set_solver).
Qed.

Lemma written_line xs :
  Forall written xs -> parse_args ps (xs ≫= set_args) =
    match finish ps (given xs) with Some ns => Namespace ns | None => Exit 2 end.
Proof using Hps.
  intros Hxs. unfold parse_args, given. generalize (∅ : gmap string argval). induction Hxs as [|x xs Hx _ IH]; intros seen; [done|].
  cbn [mbind list_bind foldl]. destruct (written_tokens x Hx) as (toks & Hcl & Hco). rewrite Hcl.
  specialize (IH (<[opt_string (set_opt x) := set_value x]> seen)).
  change (mbind set_args xs) with (xs ≫= set_args). destruct (classify ps (xs ≫= set_args)) as [ts|]; cbn [fmap option_fmap option_map].
  - by rewrite Hco.
  - done.
Qed.

(** *** Lines that are accepted *)

Lemma option_of_inv p o : option_of ps p = Some o -> o = help \/ o ∈ ps /\ p = opt_string o.
Proof using Type.
  unfold option_of. destruct (filter _ (option_strings ps)) as [|[q o'] l] eqn:Ef; [done|]. cbn. intros E. injection E as ->.
  assert (Hin : (q, o) ∈ filter (fun r => r.1 = p) (option_strings ps)) by (rewrite Ef; by left).
  apply list_elem_of_filter in Hin as [Hq Hin]. cbn in Hq. subst q. unfold option_strings in Hin.
  rewrite !elem_of_cons in Hin. destruct Hin as [E|[E|Hin]]; [left; by injection E as _ ->..|right].
  apply list_elem_of_fmap in Hin as (o2 & E & Hin). by injection E as -> ->.
Qed.

Lemma option_of_names p o : option_of ps p = Some o -> opt_action o <> Help -> names p o.
Proof using Hps.
  intros Ho Ha. destruct (option_of_inv p o Ho) as [->|[Hin ->]]; [done|]. destruct Hps as [Hall _]. rewrite Forall_forall in Hall.
  destruct (Hall o Hin) as (H1 & H2 & H3). split_and!; [done..|by left].
Qed.

(** An abbreviation that names one option is longer than two dashes. *)
Lemma abbreviation_names p q o :
  starts_with "--" p = true -> split_equals p = None -> option_of ps p = None -> opt_action o <> Help ->
  filter (fun r => starts_with p r.1 = true) (option_strings ps) = [(q, o)] -> names p o.
Proof using Type.
  intros Hd He Ho Ha Hf. split_and!; [done| |done|right; by rewrite Hf]. intros ->. unfold option_strings in Hf.
  rewrite !filter_cons in Hf. cbn [fst] in Hf. rewrite decide_False, decide_True in Hf by done.
  injection Hf as _ Eo _. by subst o.
Qed.

Lemma long_prefix x y : starts_with "--" (x ++ String "=" y) = true -> starts_with "--" x = true.
Proof using Type.
  destruct x as [|a [|b x]]; [done| |].
  - rewrite append_cons. cbn [starts_with]. by destruct (ascii_dec "-" a).
  - rewrite !append_cons. cbn [starts_with]. by destruct (ascii_dec "-" a), (ascii_dec "-" b).
Qed.

(** A short string abbreviates nothing but [-h]. *)
Lemma short_tuples s q o ex :
  starts_with "-" s = true -> starts_with "--" s = false -> s <> "-" -> q ∈ option_strings ps ->
  (if decide (q.1 = String.substring 0 2 s) then Some (q.2, Some (String.substring 2 (String.length s - 2) s))
   else if starts_with s q.1 then Some (q.2, None) else None) = Some (o, ex) -> o = help.
Proof using Hps.
  intros Hs Hd Hne Hq Hc. unfold option_strings in Hq. rewrite !elem_of_cons in Hq.
  assert (Eo : o = q.2) by (destruct (decide (q.1 = _)); [by injection Hc as <-|by destruct (starts_with s q.1); [injection Hc as <-|]]).
  destruct Hq as [->|[->|Hq]]; [done..|]. exfalso. apply list_elem_of_fmap in Hq as (o' & -> & Ho). cbn [fst snd] in *. clear Eo.
  destruct Hps as [Hall _]. rewrite Forall_forall in Hall. destruct (Hall o' Ho) as (_ & Hl & Hl2).
  destruct s as [|a [|b s]]; [done|cbn [starts_with] in Hs; destruct (ascii_dec "-" a) as [<-|]; [by destruct Hne|done]|].
  cbn [starts_with] in Hs. destruct (ascii_dec "-" a) as [<-|]; [|done].
  destruct (opt_string o') as [|x [|y r]]; [done|cbn [starts_with] in Hl; by destruct (ascii_dec "-" x)|].
  cbn [starts_with] in Hl. destruct (ascii_dec "-" x) as [<-|]; [|done]. destruct (ascii_dec "-" y) as [<-|]; [|done].
  cbn [starts_with] in Hd. destruct (ascii_dec "-" "-"); [|done]. destruct (ascii_dec "-" b) as [|Hb]; [done|].
  destruct (decide _) as [E|_] in Hc; [|cbn [starts_with] in Hc; destruct (ascii_dec "-" "-"); [|done];
    by destruct (ascii_dec b "-") as [->|]].
  cbn [String.substring] in E. injection E as E _. done.
Qed.

Lemma parse_optional_inv s o ex :
  parse_optional ps s = Some (TokOpt o ex) -> opt_action o <> Help ->
  match ex with None => names s o | Some y => exists p, s = p ++ String "=" y /\ names p o end.
Proof using Hps.
  unfold parse_optional. intros Hp Ha. destruct (starts_with "-" s) eqn:Hs; [|done]. cbn [negb] in Hp.
  destruct (option_of ps s) as [o'|] eqn:Ho; [injection Hp as <- <-; by apply option_of_names|].
  destruct (decide (s = "-")) as [|Hne]; [done|].
  assert (Htup : option_tuples ps s = [(o, ex)] /\ (forall x y, split_equals s = Some (x, y) -> option_of ps x = None) \/
    exists x, split_equals s = Some (x, default "" ex) /\ is_Some ex /\ option_of ps x = Some o).
  { destruct (split_equals s) as [[x y]|] eqn:He; cbn [mbind option_bind] in Hp.
    - destruct (option_of ps x) as [o'|] eqn:Hx; cbn [mbind option_bind] in Hp.
      + injection Hp as <- <-. right. exists x. split_and!; [done|by eexists|done].
      + left. destruct (option_tuples ps s) as [|[o' ex'] [|? ?]]; [by repeat case_match|injection Hp as <- <-|done].
        split; [done|]. intros x' y' E. by injection E as <- <-.
    - left. destruct (option_tuples ps s) as [|[o' ex'] [|? ?]]; [by repeat case_match|injection Hp as <- <-|done]. by split. }
  destruct Htup as [[Ht Hx]|(x & He & [y ->] & Ho')].
  2:{ destruct (split_equals_inv _ _ _ He) as [-> _]. exists x. split; [done|]. by apply option_of_names. }
  unfold option_tuples in Ht. destruct (starts_with "--" s) eqn:Hd.
  - destruct (split_equals s) as [[x y]|] eqn:He.
    + destruct (split_equals_inv _ _ _ He) as [-> Hx0]. destruct (filter _ (option_strings ps)) as [|[q o'] [|? ?]] eqn:Ef; [done| |done].
      cbn in Ht. injection Ht as -> <-. exists x. split; [done|]. eapply abbreviation_names; [by eapply long_prefix|done|by eapply Hx|done|exact Ef].
    + destruct (filter _ (option_strings ps)) as [|[q o'] [|? ?]] eqn:Ef; [done| |done].
      cbn in Ht. injection Ht as -> <-. by eapply abbreviation_names.
  - exfalso. apply Ha.
    assert (Hin : (o, ex) ∈ omap (fun p : string * opt =>
      if decide (p.1 = String.substring 0 2 s) then Some (p.2, Some (String.substring 2 (String.length s - 2) s))
      else if starts_with s p.1 then Some (p.2, None) else None) (option_strings ps)) by (rewrite Ht; by left).
    apply list_elem_of_omap in Hin as (q & Hq & Hc). by rewrite (short_tuples s q o ex Hs Hd Hne Hq Hc).
Qed.
End settings.

(** ** Decimal text of an integer as a value *)

Lemma int_digits_dec s acc us :
  all_digits s = true -> s <> "" \/ us = false -> int_digits 10 s acc us = Some (fst (take_digits 10 s acc)).
Proof.
  revert acc us. induction s as [|a s IH]; intros acc us Hs Hus; cbn [int_digits take_digits].
  - destruct Hus as [?| ->]; done.
  - cbn [all_digits] in Hs. apply andb_prop in Hs as [Ha Hs]. unfold is_digit in Ha. apply bool_decide_eq_true_1 in Ha as [v Hv].
    destruct (ascii_dec a "_") as [->|_]; [discriminate Hv|]. rewrite Hv. cbn [mbind option_bind]. rewrite IH by auto. done.
Qed.

Lemma str_Z_neg z : z < 0 -> str_Z z = String "-" (str_Z (- z)).
Proof. intros Hz. unfold str_Z. by rewrite (proj2 (Z.ltb_lt z 0) Hz), (proj2 (Z.ltb_ge (- z) 0)) by lia. Qed.

Lemma signed_digits f s : isdigit s = true -> signed_by f s = f s.
Proof.
  destruct s as [|a s]; [done|]. cbn [isdigit all_digits]. intros [Ha _]%andb_true_iff.
  by destruct a as [[] [] [] [] [] [] [] []]; vm_compute in Ha; try discriminate Ha.
Qed.

Lemma int_digits_str z : 0 <= z -> int_digits 10 (str_Z z) 0 true = Some z.
Proof.
  intros Hz. destruct (str_Z_digits z Hz) as [Hi Ha]. rewrite int_digits_dec.
  - f_equal. exact (digits_value_str z Hz).
  - done.
  - left. by intros E; rewrite E in Hi.
Qed.

Lemma int10_str z : int10 (str_Z z) = Ok z.
Proof.
  unfold int10. destruct (decide (0 <= z)) as [Hz|Hz].
  - destruct (str_Z_digits z Hz) as [Hi Ha]. rewrite strip_trimmed by by apply digits_trimmed.
    by rewrite signed_digits, int_digits_str.
  - assert (Hn : 0 <= - z) by lia. destruct (str_Z_digits (- z) Hn) as [Hi Ha]. rewrite str_Z_neg by lia.
    rewrite strip_trimmed; [cbn [signed_by]; rewrite (int_digits_str _ Hn); cbn; f_equal; lia|].
    split; [done|]. rewrite string_rev_cons. apply lstrip_app.
    + apply digits_trimmed, Ha.
    + intros E. apply (f_equal (string_rev "")) in E. rewrite string_rev_involutive in E. by rewrite E in Hi.
Qed.

Lemma negative_digits s b : all_digits s = true -> s <> "" \/ b = true -> negative_tail b s = true.
Proof.
  revert b. induction s as [|a s IH]; intros b Hs Hb; [by destruct Hb|]. cbn [all_digits negative_tail] in *.
  apply andb_true_iff in Hs as [-> Hs]. by apply IH; [|right].
Qed.

Lemma digits_no_equals s : all_digits s = true -> split_equals s = None.
Proof.
  induction s as [|a s IH]; [done|]. cbn [all_digits split_equals]. intros [Ha Hs]%andb_true_iff.
  destruct (ascii_dec a "=") as [->|_]; [discriminate Ha|]. by rewrite IH.
Qed.

(** After its dash, the string of an option goes on with no digit. *)
Lemma option_string_shape ps q :
  plain_parser ps -> q ∈ option_strings ps -> exists b r, q.1 = String "-" (String b r) /\ is_digit b = false.
Proof.
  intros [Hall _]. unfold option_strings. rewrite !elem_of_cons. intros [->|[->|Hin]].
  - by exists "h"%char, "".
  - by exists "-"%char, "help".
  - apply list_elem_of_fmap in Hin as (o & -> & Ho). rewrite Forall_forall in Hall. destruct (Hall o Ho) as [_ [Hs _]].
    cbn [fst]. destruct (opt_string o) as [|x [|y r]]; [done|cbn [starts_with] in Hs; by destruct (ascii_dec "-" x)|].
    cbn [starts_with] in Hs. destruct (ascii_dec "-" x) as [<-|]; [|done]. destruct (ascii_dec "-" y) as [<-|]; [|done].
    by exists "-"%char, r.
Qed.

(** No option looks like a negative number. *)
Lemma negative_plain ps a s :
  plain_parser ps -> all_digits (String a s) = true -> parse_optional ps (String "-" (String a s)) = Some TokArg.
Proof.
  intros Hps Hd. pose proof Hd as Hds. cbn [all_digits] in Hds. apply andb_true_iff in Hds as [Ha _].
  assert (Hne : forall q b r, q ∈ option_strings ps -> q.1 = String b r -> starts_with (String a "") r = false).
  { intros q b r Hq Eq. destruct (option_string_shape ps q Hps Hq) as (b' & r' & E & Hb). rewrite Eq in E. injection E as -> ->.
    cbn [starts_with]. destruct (ascii_dec a b') as [<-|]; [congruence|done]. }
  unfold parse_optional. cbn [starts_with negb]. destruct (ascii_dec "-" "-"); [|done]. cbn [negb].
  assert (Ho : option_of ps (String "-" (String a s)) = None).
  { unfold option_of. destruct (filter _ _) as [|q l] eqn:Ef; [done|].
    assert (Hq : q ∈ filter (fun q => q.1 = String "-" (String a s)) (option_strings ps)) by (rewrite Ef; by left).
    apply list_elem_of_filter in Hq as [Eq Hq]. pose proof (Hne q _ _ Hq Eq) as E. cbn [starts_with] in E.
    by destruct (ascii_dec a a). }
  assert (Hd2 : forall t, split_equals t = None -> split_equals (String "-" t) = None).
  { intros t Et. cbn [split_equals]. destruct (ascii_dec "-" "="); [done|]. by rewrite Et. }
  rewrite Ho, decide_False by done. rewrite (Hd2 _ (digits_no_equals _ Hd)). cbn [mbind option_bind].
  assert (Hneg : negative_number (String "-" (String a s)) = true) by (apply negative_digits; [done|by left]).
  rewrite Hneg. enough (option_tuples ps (String "-" (String a s)) = []) as -> by done. unfold option_tuples.
  assert (H2 : starts_with "--" (String "-" (String a s)) = false).
  { cbn [starts_with]. destruct (ascii_dec "-" "-"); [|done]. destruct (ascii_dec "-" a) as [<-|]; [discriminate Ha|done]. }
  rewrite H2. assert (Hin : Forall (fun q => q ∈ option_strings ps) (option_strings ps)) by by apply Forall_forall.
  revert Hin. generalize (option_strings ps) at 2 3. intros l. induction l as [|q l IH]; [done|]. intros Hl.
  cbn [omap list_omap]. destruct (option_string_shape ps q Hps) as (b & r & Eq & Hb); [by apply Forall_inv in Hl|].
  pose proof (Hne q _ _ (Forall_inv Hl) Eq) as Ea. rewrite Eq. cbn [String.substring starts_with] in *.
  destruct (ascii_dec a b) as [->|Hab]; [done|]. rewrite decide_False by (intros E; injection E as E _; congruence).
  destruct (ascii_dec "-" "-"); [|done]. apply IH. by apply Forall_inv_tail in Hl.
Qed.

(** No option looks like a number. *)
Lemma number_plain ps z : plain_parser ps -> plain ps (str_Z z).
Proof.
  intros Hps. destruct (decide (0 <= z)) as [Hz|Hz].
  - destruct (str_Z_digits z Hz) as [Hi _]. unfold plain, parse_optional. destruct (str_Z z) as [|a s]; [done|].
    cbn [isdigit all_digits] in Hi. apply andb_true_iff in Hi as [Ha _].
    by destruct a as [[] [] [] [] [] [] [] []]; vm_compute in Ha; try discriminate Ha.
  - assert (Hn : 0 <= - z) by lia. destruct (str_Z_digits (- z) Hn) as [Hi Ha]. rewrite str_Z_neg by lia.
    destruct (str_Z (- z)) as [|a s]; [done|]. split; [|by apply negative_plain].
    intros E. injection E as -> ->. discriminate Ha.
Qed.

(** ** What a line of settings gives *)

(** The last value given to an option, or its default. *)
Definition value_of (xs : list setting) (o : opt) : argval := default (opt_default o) (given xs !! opt_string o).

(** Defaults that [parse_args] leaves as they are. *)
Definition plain_defaults (ps : list opt) : Prop :=
  Forall (fun o => opt_required o = true \/ finish_default o = Some (opt_default o)) ps.

#[global] Instance plain_defaults_dec ps : Decision (plain_defaults ps).
Proof. unfold plain_defaults. apply _. Defined.

Lemma finish_spec ps seen :
  NoDup (opt_string <$> ps) -> plain_defaults ps ->
  (forall o, o ∈ ps -> opt_required o = true -> is_Some (seen !! opt_string o)) ->
  exists ns, finish ps seen = Some ns /\
    (forall s, s ∉ opt_string <$> ps -> ns !! s = seen !! s) /\
    forall o, o ∈ ps -> ns !! opt_string o = Some (default (opt_default o) (seen !! opt_string o)).
Proof.
  intros Hnd Hd Hreq. induction ps as [|o ps IH]; [exists seen; split_and!; [done..|by intros ? ?%elem_of_nil]|].
  rewrite fmap_cons, NoDup_cons in Hnd. destruct Hnd as [Hnew Hnd]. apply Forall_cons in Hd as [Ho Hd].
  destruct IH as (ns & En & Hout & Hin); [done|done|intros o' Ho'; apply Hreq; by right|]. cbn [finish]. rewrite En. cbn [mbind option_bind].
  assert (Hrest : forall o', o' ∈ ps -> opt_string o' <> opt_string o).
  { intros o' Ho' E. apply Hnew. rewrite <-E. by apply list_elem_of_fmap_2. }
  destruct (seen !! opt_string o) as [v|] eqn:Es.
  - exists ns. split; [done|]. split.
    + intros s Hs. apply Hout. intros Hs'. apply Hs. rewrite fmap_cons. by right.
    + intros o' [->|Ho']%elem_of_cons; [by rewrite Es, Hout|by apply Hin].
  - destruct (opt_required o) eqn:Er; [destruct (Hreq o ltac:(by left) Er); congruence|].
    destruct Ho as [?|Ef]; [congruence|]. rewrite Ef. cbn [mbind option_bind]. eexists. split; [done|]. split.
    + intros s Hs. rewrite fmap_cons, not_elem_of_cons in Hs. destruct Hs as [H1 H2]. by rewrite lookup_insert_ne, Hout.
    + intros o' [->|Ho']%elem_of_cons; [by rewrite lookup_insert_eq, Es|].
      rewrite lookup_insert_ne by (symmetry; by apply Hrest). by apply Hin.
Qed.

Lemma given_present xs x : x ∈ xs -> is_Some (given xs !! opt_string (set_opt x)).
Proof.
  unfold given. generalize (∅ : gmap string argval). induction xs as [|y xs IH]; intros seen; [by intros ?%elem_of_nil|].
  cbn [foldl]. intros [->|Hx]%elem_of_cons; [|by apply IH].
  assert (Hk : forall m : gmap string argval, is_Some (m !! opt_string (set_opt y)) ->
    is_Some (foldl (fun seen x => <[opt_string (set_opt x) := set_value x]> seen) m xs !! opt_string (set_opt y))).
  { clear. induction xs as [|z xs IH]; intros m Hm; [done|]. cbn [foldl]. apply IH.
    rewrite lookup_insert. by case_decide. }
  apply Hk. rewrite lookup_insert_eq. by eexists.
Qed.

(** Any way of writing settings, in any order, is read back: the last value
    given to each option, the default of the others. *)
Lemma settings_read ps xs :
  plain_parser ps -> plain_defaults ps -> Forall (written ps) xs ->
  (forall o, o ∈ ps -> opt_required o = true -> o ∈ set_opt <$> xs) ->
  exists ns, parse_args ps (xs ≫= set_args) = Namespace ns /\ forall o, o ∈ ps -> ns !! opt_string o = Some (value_of xs o).
Proof.
  intros Hps Hd Hxs Hreq. rewrite written_line by done.
  destruct (finish_spec ps (given xs) (proj2 Hps) Hd) as (ns & -> & _ & Hns).
  - intros o Ho Hr. destruct (proj1 (list_elem_of_fmap _ _ _) (Hreq o Ho Hr)) as (x & -> & Hx). by apply given_present.
  - by exists ns.
Qed.

(** Values have the type of their action. *)
Definition typed (a : action) (v : argval) : Prop :=
  match a, v with
  | StoreStr, VStr _ | StoreInt, VInt _ | StoreInt0, VInt _ | StoreTrue, VBool _ => True
  | _, _ => False
  end.

#[global] Instance typed_dec a v : Decision (typed a v).
Proof. destruct a, v; cbn; apply _. Defined.

Lemma spelling_typed ps o v args : spelling ps o v args -> typed (opt_action o) v.
Proof.
  assert (Hc : forall a t w, a ∈ [StoreStr; StoreInt; StoreInt0] -> convert a t = Some w -> typed a w).
  { intros a t w Ha Hc. destruct a; cbn [convert] in Hc; repeat case_match; try (exfalso; set_solver);
      injection Hc as <-; done. }
  intros [? ? ? ? ? ? ? ?|? ? ? ? ? ? ? ?|? ? ? E]; eauto. by rewrite E.
Qed.

Lemma given_in xs s v : given xs !! s = Some v -> exists x, x ∈ xs /\ opt_string (set_opt x) = s /\ set_value x = v.
Proof.
  unfold given. assert (Hg : forall m : gmap string argval,
    foldl (fun seen x => <[opt_string (set_opt x) := set_value x]> seen) m xs !! s = Some v ->
    m !! s = Some v \/ exists x, x ∈ xs /\ opt_string (set_opt x) = s /\ set_value x = v).
  { induction xs as [|y xs IH]; intros m; [by left|]. cbn [foldl]. intros [Hm|(x & Hx & ?)]%IH; [|right; exists x; split; [by right|done]].
    rewrite lookup_insert in Hm. case_decide as E; [|by left]. injection Hm as <-. right. exists y. split; [by left|done]. }
  intros [Hm|?]%Hg; [by rewrite lookup_empty in Hm|done].
Qed.

Lemma names_in ps p o : names ps p o -> opt_action o <> Help -> o ∈ ps.
Proof.
  intros (_ & _ & _ & Hn) Ha. assert (Hin : exists s, (s, o) ∈ option_strings ps).
  { destruct Hn as [Ho|[_ Hf]].
    - unfold option_of in Ho. destruct (filter _ _) as [|[s o'] l] eqn:Ef; [done|]. cbn in Ho. injection Ho as ->. exists s.
      assert (Hin : (s, o) ∈ filter (fun q => q.1 = p) (option_strings ps)) by (rewrite Ef; by left).
      by apply list_elem_of_filter in Hin as [_ Hin].
    - destruct (filter _ _) as [|[s o'] [|? ?]] eqn:Ef; [done| |done]. cbn in Hf. injection Hf as ->. exists s.
      assert (Hin : (s, o) ∈ filter (fun q => starts_with p q.1 = true) (option_strings ps)) by (rewrite Ef; by left).
      by apply list_elem_of_filter in Hin as [_ Hin]. }
  destruct Hin as [s Hin]. unfold option_strings in Hin. rewrite !elem_of_cons in Hin.
  destruct Hin as [E|[E|Hin]]; [by injection E as _ E; rewrite E in Ha..|].
  apply list_elem_of_fmap in Hin as (o' & E & Hin). by injection E as _ ->.
Qed.

Lemma written_in ps x : written ps x -> set_opt x ∈ ps.
Proof.
  intros [Hx|(Ha & _ & p & Hn & _)]; [|eapply names_in; [done|intros E; rewrite E in Ha; set_solver]].
  unfold spelled in Hx. destruct x as [o v args]. cbn in *. destruct Hx as [o' p t v' Hn Ha _ _|o' p t v' Hn Ha _ _|o' p Hn Ha]; eapply names_in; try done;
    intros E; rewrite E in Ha; [set_solver..|done].
Qed.

(** The option of a value that was given. *)
Lemma given_option ps xs o v :
  NoDup (opt_string <$> ps) -> Forall (written ps) xs -> o ∈ ps -> given xs !! opt_string o = Some v ->
  exists x, x ∈ xs /\ set_opt x = o /\ set_value x = v.
Proof.
  intros Hnd Hxs Ho (x & Hx & Es & Ev)%given_in. exists x. split_and!; [done| |done].
  rewrite Forall_forall in Hxs. apply list_elem_of_lookup in Ho as [i Hi].
  destruct (proj1 (list_elem_of_lookup _ _) (written_in _ _ (Hxs x Hx))) as [j Hj].
  assert (j = i) as ->; [|congruence].
  eapply (NoDup_lookup (opt_string <$> ps)); [done|rewrite list_lookup_fmap, Hj; done|rewrite list_lookup_fmap, Hi; cbn; by rewrite Es].
Qed.

Lemma value_typed ps xs o :
  NoDup (opt_string <$> ps) -> Forall (written ps) xs -> o ∈ ps -> typed (opt_action o) (opt_default o) \/ o ∈ set_opt <$> xs ->
  typed (opt_action o) (value_of xs o) \/ value_of xs o = VList.
Proof.
  intros Hnd Hxs Ho Hd. unfold value_of. destruct (given xs !! opt_string o) as [v|] eqn:Eg.
  - destruct (given_option ps xs o v Hnd Hxs Ho Eg) as (x & Hx & <- & <-). rewrite Forall_forall in Hxs.
    destruct (Hxs x Hx) as [Hsp|(_ & Ev & _)]; [left; by eapply spelling_typed|by right].
  - left. destruct Hd as [?|Hin]; [done|]. apply list_elem_of_fmap in Hin as (x & -> & Hx).
    destruct (given_present xs x Hx). congruence.
Qed.

Lemma value_spelled ps xs o :
  NoDup (opt_string <$> ps) -> Forall (spelled ps) xs -> o ∈ ps -> typed (opt_action o) (opt_default o) \/ o ∈ set_opt <$> xs ->
  typed (opt_action o) (value_of xs o).
Proof.
  intros Hnd Hxs Ho Hd. unfold value_of. destruct (given xs !! opt_string o) as [v|] eqn:Eg.
  - destruct (given_option ps xs o v Hnd ltac:(eapply Forall_impl; [exact Hxs|by left]) Ho Eg) as (x & Hx & <- & <-).
    rewrite Forall_forall in Hxs. eapply spelling_typed, Hxs, Hx.
  - destruct Hd as [?|Hin]; [done|]. apply list_elem_of_fmap in Hin as (x & -> & Hx).
    destruct (given_present xs x Hx). congruence.
Qed.

(** ** The lines that are accepted *)

Lemma finish_required ps seen ns o :
  finish ps seen = Some ns -> o ∈ ps -> opt_required o = true -> is_Some (seen !! opt_string o).
Proof.
  revert ns. induction ps as [|o' ps IH]; intros ns; [by intros _ ?%elem_of_nil|]. cbn [finish].
  destruct (finish ps seen) as [ns'|]; [|done]. cbn [mbind option_bind]. intros Hf [->|Ho]%elem_of_cons Hr; [|by eapply IH].
  destruct (seen !! opt_string o') as [v|]; [by eexists|]. by rewrite Hr in Hf.
Qed.

(** A string left over is an error in the end. *)
Lemma consume_extras ps toks seen ns : consume ps toks seen true <> Namespace ns.
Proof.
  assert (Hn : forall n toks, (length toks <= n)%nat -> forall seen, consume ps toks seen true <> Namespace ns); [|by apply (Hn (length toks))].
  clear toks seen. induction n as [|n IH]; intros toks Hl seen.
  { destruct toks; [|cbn in Hl; lia]. cbn [consume]. by destruct (finish ps seen). }
  destruct toks as [|[s t] toks]; [apply (IH []); cbn; lia|]. cbn [length] in Hl. assert (Hl' : (length toks <= n)%nat) by lia.
  assert (Hv : forall o (w : option argval) ts, (length ts <= n)%nat ->
    (match w with Some v => consume ps ts (<[opt_string o := v]> seen) true | None => Exit 2 end) <> Namespace ns)
    by (intros o [v|] ts Hts; [by apply IH|done]).
  destruct t as [| |o explicit|]; cbn [consume]; [by apply IH..| |by apply IH].
  assert (Hstore : forall a, (match explicit with
      | Some e => match get_values a e with Some v => consume ps toks (<[opt_string o := v]> seen) true | None => Exit 2 end
      | None => match toks with
                | (e, TokArg) :: toks'' =>
                    match get_values a e with Some v => consume ps toks'' (<[opt_string o := v]> seen) true | None => Exit 2 end
                | _ => Exit 2 end end) <> Namespace ns).
  { intros a. destruct explicit as [e|]; [by apply Hv|]. destruct toks as [|[e [| | |]] toks]; try done. apply Hv. cbn in Hl'. lia. }
  destruct (opt_action o); try apply Hstore; [by destruct explicit; [|apply IH]|].
  unfold help_exit. by repeat case_match.
Qed.

Lemma classify_cons ps s args toks :
  classify ps (s :: args) = Some toks ->
  (s = "--" /\ exists ts, toks = (s, TokDashes) :: ts) \/
  s <> "--" /\ exists t ts, toks = (s, t) :: ts /\ parse_optional ps s = Some t /\ classify ps args = Some ts.
Proof.
  cbn [classify]. destruct (decide (s = "--")) as [->|Hs]; [intros E; injection E as <-; left; split; [done|by eexists]|].
  destruct (parse_optional ps s) as [t|]; [|done]. cbn [mbind option_bind]. destruct (classify ps args) as [ts|]; [|done].
  cbn [mbind option_bind]. intros E. injection E as <-. right. split; [done|]. by exists t, ts.
Qed.

Definition set_in (seen : gmap string argval) (x : setting) : gmap string argval := <[opt_string (set_opt x) := set_value x]> seen.

(** What parses is a sequence of settings. *)
Lemma accepted_line ps args toks seen extras ns :
  plain_parser ps -> classify ps args = Some toks -> consume ps toks seen extras = Namespace ns ->
  extras = false /\ exists xs, args = xs ≫= set_args /\ Forall (written ps) xs /\ finish ps (foldl set_in seen xs) = Some ns.
Proof.
  intros Hps.
  assert (Hn : forall n args, (length args <= n)%nat -> forall toks seen, classify ps args = Some toks ->
    consume ps toks seen extras = Namespace ns ->
    extras = false /\ exists xs, args = xs ≫= set_args /\ Forall (written ps) xs /\ finish ps (foldl set_in seen xs) = Some ns);
    [|by apply (Hn (length args))].
  clear args toks seen. induction n as [|n IH]; intros args Hl toks seen Hc Hx.
  { destruct args; [|cbn in Hl; lia]. injection Hc as <-. cbn [consume] in Hx. destruct (finish ps seen) as [ns'|] eqn:Ef; [|done].
    destruct extras; [done|]. injection Hx as ->. split; [done|]. by exists []. }
  destruct args as [|s args]; [apply (IH [] ltac:(cbn; lia) _ _ Hc Hx)|]. cbn [length] in Hl.
  destruct (classify_cons _ _ _ _ Hc) as [(-> & ts & ->)|(Hs & t & ts & -> & Hp & Hc')]; [by apply consume_extras in Hx|].
  assert (Hnext : forall x args' toks', (length args' <= n)%nat -> s :: args = (set_args x ++ args')%list -> written ps x ->
    classify ps args' = Some toks' -> consume ps toks' (set_in seen x) extras = Namespace ns ->
    extras = false /\ exists xs, s :: args = xs ≫= set_args /\ Forall (written ps) xs /\ finish ps (foldl set_in seen xs) = Some ns).
  { intros x args' toks' Hl' -> Hw Hc1 Hx1. destruct (IH args' Hl' _ _ Hc1 Hx1) as (He & xs & -> & Hws & Hf). split; [done|].
    exists (x :: xs). split; [done|]. split; [by constructor|done]. }
  destruct t as [| |o explicit|]; cbn [consume] in Hx; try (by apply consume_extras in Hx).
  assert (Hstore : forall a, opt_action o = a -> a ∈ [StoreStr; StoreInt; StoreInt0] -> (match explicit with
      | Some e => match get_values a e with Some v => consume ps ts (<[opt_string o := v]> seen) extras | None => Exit 2 end
      | None => match ts with
                | (e, TokArg) :: toks'' =>
                    match get_values a e with Some v => consume ps toks'' (<[opt_string o := v]> seen) extras | None => Exit 2 end
                | _ => Exit 2 end end) = Namespace ns ->
    extras = false /\ exists xs, s :: args = xs ≫= set_args /\ Forall (written ps) xs /\ finish ps (foldl set_in seen xs) = Some ns).
  { clear Hx. intros a Ea Ha Hx. assert (Hnh : opt_action o <> Help) by (intros E; rewrite <-Ea, E in Ha; set_solver).
    pose proof (parse_optional_inv ps Hps s o explicit Hp Hnh) as Hname. rewrite <-Ea in Ha. subst a. destruct explicit as [e|].
    - destruct Hname as (p & -> & Hname). unfold get_values in Hx. destruct (decide (e = "--")) as [->|He].
      + apply (Hnext {| set_opt := o; set_value := VList; set_args := [p ++ String "=" "--"] |} args ts); [lia|done| |done|exact Hx].
        right. split_and!; [done..|by exists p].
      + destruct (convert (opt_action o) e) as [v|] eqn:Ev; [|done].
        apply (Hnext {| set_opt := o; set_value := v; set_args := [p ++ String "=" e] |} args ts); [lia|done| |done|exact Hx].
        left. by apply sp_equals.
    - destruct ts as [|[e [| | |]] ts]; try done. destruct args as [|e' args]; [done|].
      destruct (classify_cons _ _ _ _ Hc') as [(_ & ? & E)|(He & t' & ts' & E & Hp' & Hc'')]; injection E as E1 E2; try done.
      subst e' t' ts'. unfold get_values in Hx. rewrite decide_False in Hx by done.
      destruct (convert (opt_action o) e) as [v|] eqn:Ev; [|done].
      apply (Hnext {| set_opt := o; set_value := v; set_args := [s; e] |} args ts); [cbn in Hl; lia|done| |done|exact Hx].
      left. by apply sp_next. }
  destruct (opt_action o) eqn:Ea; try (apply (Hstore _ eq_refl); [apply (bool_decide_eq_true_1 _); reflexivity|exact Hx]).
  - destruct explicit; [done|].
    pose proof (parse_optional_inv ps Hps s o None Hp ltac:(by rewrite Ea)) as Hname.
    apply (Hnext {| set_opt := o; set_value := VBool true; set_args := [s] |} args ts); [lia|done| |done|exact Hx].
    left. by apply sp_flag.
  - unfold help_exit in Hx. by repeat case_match.
Qed.

(** [parse_args] accepts the lines of settings with all required options, and
    only those. *)
Lemma accepted_settings ps argv ns :
  plain_parser ps -> parse_args ps argv = Namespace ns ->
  exists xs, argv = xs ≫= set_args /\ Forall (written ps) xs /\
    (forall o, o ∈ ps -> opt_required o = true -> o ∈ set_opt <$> xs).
Proof.
  intros Hps Hp. unfold parse_args in Hp. destruct (classify ps argv) as [toks|] eqn:Hc; [|done].
  destruct (accepted_line ps argv toks ∅ false ns Hps Hc Hp) as (_ & xs & -> & Hxs & Hf). exists xs. split; [done|]. split; [done|].
  intros o Ho Hr. destruct (finish_required _ _ _ _ Hf Ho Hr) as [v Hv].
  destruct (given_option ps xs o v (proj2 Hps) Hxs Ho Hv) as (x & Hx & <- & _). by apply list_elem_of_fmap_2.
Qed.

(** Nothing else comes out of a command line than its settings or an exit: with
    status 0 if some string asks for help, with 2 otherwise. *)
Definition asks_help (ps : list opt) (args : list string) : Prop :=
  exists s o explicit, s ∈ args /\ parse_optional ps s = Some (TokOpt o explicit) /\ opt_action o = Help.

Lemma classify_option ps args toks s o explicit :
  classify ps args = Some toks -> (s, TokOpt o explicit) ∈ toks -> s ∈ args /\ parse_optional ps s = Some (TokOpt o explicit).
Proof.
  revert toks. induction args as [|a args IH]; intros toks Hc Hin; [injection Hc as <-; by apply elem_of_nil in Hin|].
  cbn [classify] in Hc. destruct (decide (a = "--")) as [->|Ha].
  - injection Hc as <-. apply elem_of_cons in Hin as [E|Hin]; [done|].
    apply list_elem_of_fmap in Hin as (x & E & _). done.
  - destruct (parse_optional ps a) as [t|] eqn:Hp; [|done]. cbn [mbind option_bind] in Hc.
    destruct (classify ps args) as [ts|]; [|done]. cbn [mbind option_bind] in Hc. injection Hc as <-.
    apply elem_of_cons in Hin as [E|Hin].
    + injection E as -> <-. split; [by left|done].
    + destruct (IH ts eq_refl Hin). split; [by right|done].
Qed.

Lemma consume_exits ps toks seen extras c :
  consume ps toks seen extras = Exit c ->
  c = 2 \/ c = 0 /\ exists s o explicit, (s, TokOpt o explicit) ∈ toks /\ opt_action o = Help.
Proof.
  assert (Hn : forall n toks, (length toks <= n)%nat -> forall seen extras, consume ps toks seen extras = Exit c ->
    c = 2 \/ c = 0 /\ exists s o explicit, (s, TokOpt o explicit) ∈ toks /\ opt_action o = Help); [|by apply (Hn (length toks))].
  clear toks seen extras. induction n as [|n IH]; intros toks Hl seen extras.
  - destruct toks; [|cbn in Hl; lia]. cbn [consume]. destruct (finish ps seen), extras; intros E; try discriminate E; injection E as <-; by left.
  - destruct toks as [|[s t] toks]; [apply (IH []); cbn; lia|]. cbn [length] in Hl. assert (Hl' : (length toks <= n)%nat) by lia.
    assert (Hlift : forall ts, ts ⊆ (s, t) :: toks -> (c = 2 \/ c = 0 /\ exists s o explicit, (s, TokOpt o explicit) ∈ ts /\ opt_action o = Help) ->
      c = 2 \/ c = 0 /\ exists s' o explicit, (s', TokOpt o explicit) ∈ (s, t) :: toks /\ opt_action o = Help).
    { intros ts Hts [?|(? & s' & o & ex & Hin & ?)]; [by left|right]. split; [done|]. exists s', o, ex. split; [by apply Hts|done]. }
    assert (Htl : toks ⊆ (s, t) :: toks) by (intros x Hx; by right).
    destruct t as [| |o explicit|]; cbn [consume];
      [intros E; apply (Hlift toks Htl); by eapply IH|intros E; apply (Hlift toks Htl); by eapply IH| |intros E; apply (Hlift toks Htl); by eapply IH].
    assert (Hv : forall (w : option argval) ts, (length ts <= n)%nat -> ts ⊆ (s, TokOpt o explicit) :: toks ->
      (match w with Some v => consume ps ts (<[opt_string o := v]> seen) extras | None => Exit 2 end) = Exit c ->
      c = 2 \/ c = 0 /\ exists s' o' explicit', (s', TokOpt o' explicit') ∈ (s, TokOpt o explicit) :: toks /\ opt_action o' = Help).
    { intros [v|] ts Hts Hsub E; [apply (Hlift ts Hsub); by eapply IH|]. injection E as <-. by left. }
    assert (Hstore : forall a, (match explicit with
        | Some e => match get_values a e with Some v => consume ps toks (<[opt_string o := v]> seen) extras | None => Exit 2 end
        | None => match toks with
                  | (e, TokArg) :: toks'' =>
                      match get_values a e with Some v => consume ps toks'' (<[opt_string o := v]> seen) extras | None => Exit 2 end
                  | _ => Exit 2 end end) = Exit c ->
      c = 2 \/ c = 0 /\ exists s' o' explicit', (s', TokOpt o' explicit') ∈ (s, TokOpt o explicit) :: toks /\ opt_action o' = Help).
    { intros a. destruct explicit as [e|]; [by apply Hv|].
      destruct toks as [|[e [| | |]] toks]; try (intros E; injection E as <-; by left). apply Hv; [cbn in Hl'; lia|].
      intros x Hx. by do 2 right. }
    destruct (opt_action o) eqn:Ea; try apply Hstore.
    + destruct explicit; [intros E; injection E as <-; by left|intros E; apply (Hlift toks Htl); by eapply IH].
    + unfold help_exit. intros E. destruct (decide (c = 2)) as [|Hc]; [by left|right]. split.
      * destruct explicit as [e|]; [destruct (negb _ && _ && _)|]; injection E as <-; done.
      * exists s, o, explicit. split; [by left|done].
Qed.

Lemma parse_exits ps args c : parse_args ps args = Exit c -> c = 2 \/ c = 0 /\ asks_help ps args.
Proof.
  unfold parse_args. destruct (classify ps args) as [toks|] eqn:Hc; [|intros E; injection E as <-; by left].
  intros [?|(? & s & o & ex & Hin & Ha)]%consume_exits; [by left|right]. split; [done|]. exists s, o, ex.
  by destruct (classify_option ps args toks s o ex Hc Hin).
Qed.
