(* ===== verification/PyFloat.v ===== *)
(** * Numbers: Python's floats, and the operators that mix them with ints

    Doubles are the Standard Library's [SpecFloat] at 53 and 1024 bits.
    [float_of_dec] is the reading of a decimal literal, shared by [float(s)]
    and the numbers of JSON text. *)

From Stdlib Require Import Strings.Ascii.
From Stdlib Require Export Floats.SpecFloat.
From S2P Require Import Prelude PyText.

Open Scope Z_scope.

Abbreviation float := spec_float.

(** ** Doubles *)

(** The double nearest to an integer. *)
Definition float_of_Z (z : Z) : float := binary_normalize 53 1024 z 0 false.
Definition float_add (x y : float) : float := SFadd 53 1024 x y.
Definition float_sub (x y : float) : float := SFsub 53 1024 x y.
Definition float_mul (x y : float) : float := SFmul 53 1024 x y.
Definition float_quot (x y : float) : float := SFdiv 53 1024 x y.

(** [int(x)] of a finite double: towards zero. *)
Definition int_of_float (x : float) : Z :=
  match x with
  | S754_finite s m e =>
      let a := if 0 <=? e then Zpos m * 2 ^ e else Zpos m / 2 ^ (- e) in if s then - a else a
  | _ => 0
  end.

(** [int(x)]: the infinities and nan have no integer. *)
Definition trunc_float (x : float) : res Z :=
  match x with
  | S754_infinity _ => Exc OverflowError
  | S754_nan => Exc ValueError
  | _ => Ok (int_of_float x)
  end.

Definition is_zero (x : float) : bool := match x with S754_zero _ => true | _ => false end.
Definition is_infinite (x : float) : bool := match x with S754_infinity _ => true | _ => false end.

(** The finite [z * 2^0], not yet rounded: an operand of an exact quotient. *)
Definition raw_float (z : Z) : float :=
  match z with Z0 => S754_zero false | Zpos m => S754_finite false m 0 | Zneg m => S754_finite true m 0 end.

(** [-+ m * 10^e], rounded once. *)
Definition float_of_dec (neg : bool) (m e : Z) : float :=
  match m with
  | Zpos p =>
      if 0 <=? e then binary_normalize 53 1024 ((if neg then -1 else 1) * (m * 10 ^ e)) 0 neg
      else float_quot (S754_finite neg p 0) (raw_float (10 ^ (- e)))
  | _ => S754_zero neg
  end.

(** ** Ints and floats together *)

Inductive num := NInt (z : Z) | NFloat (x : float).

(** [float(z)] *)
Definition float_of_int (z : Z) : res float :=
  let x := float_of_Z z in if is_infinite x then Exc OverflowError else Ok x.

Definition to_float (n : num) : res float :=
  match n with NInt z => float_of_int z | NFloat x => Ok x end.

(** [x op y], in floats unless both are ints. *)
Definition num_op (fi : Z -> Z -> Z) (ff : float -> float -> float) (x y : num) : res num :=
  match x, y with
  | NInt a, NInt b => Ok (NInt (fi a b))
  | _, _ => a ← to_float x; b ← to_float y; Ok (NFloat (ff a b))
  end.

Definition num_add : num -> num -> res num := num_op Z.add float_add.
Definition num_sub : num -> num -> res num := num_op Z.sub float_sub.
Definition num_mul : num -> num -> res num := num_op Z.mul float_mul.

(** [a / b] of two ints: the exact quotient, rounded once. *)
Definition int_div (a b : Z) : res float :=
  if b =? 0 then Exc ZeroDivisionError else
  let q := float_quot (raw_float a) (raw_float b) in
  if is_infinite q then Exc OverflowError else Ok q.

Definition float_div (x y : float) : res float :=
  if is_zero y then Exc ZeroDivisionError else Ok (float_quot x y).

Definition num_div (x y : num) : res float :=
  match x, y with
  | NInt a, NInt b => int_div a b
  | _, _ => a ← to_float x; b ← to_float y; float_div a b
  end.

(** [bool(x)] *)
Definition num_true (x : num) : bool :=
  match x with NInt z => negb (z =? 0) | NFloat f => negb (is_zero f) end.

(** [sum(l)] of floats: it starts from the int 0. *)
Definition float_sum (l : list float) : float := foldl float_add (S754_zero false) l.

(** [max(x, y)]: the first of equals, and the first against nan. *)
Definition float_max (x y : float) : float := if SFltb x y then y else x.

(** The literal [100.0] *)
Definition f100 : float := float_of_dec false 1000 (-1).

(** ** [float(s)] *)

Definition lower_char (a : ascii) : ascii :=
  if (65 <=? code a) && (code a <=? 90) then ascii_of_N (Z.to_N (code a + 32)) else a.

(** [s.lower()] on ASCII text. *)
Fixpoint lower (s : string) : string :=
  match s with EmptyString => EmptyString | String a s' => String (lower_char a) (lower s') end.

(** Digits of a number: the value with those before it, how many, the rest. *)
Fixpoint digits (s : string) (acc : Z) (n : nat) : Z * nat * string :=
  match s with
  | String a s' => match digit_in 10 a with
                   | Some v => digits s' (acc * 10 + v) (S n)
                   | None => (acc, n, s)
                   end
  | EmptyString => (acc, n, s)
  end.

(** An optional sign: whether it is a minus, and what follows. *)
Definition sign_of (s : string) : bool * string :=
  match strip_prefix "-" s, strip_prefix "+" s with
  | Some u, _ => (true, u)
  | None, Some u => (false, u)
  | None, None => (false, s)
  end.

(** [e] or [E], an optional sign and digits at the head of the text; without a
    digit nothing is taken. *)
Definition exponent (s : string) : option (Z * string) :=
  match s with
  | String a t =>
      if decide (a = "e" \/ a = "E")%char then
        let '(neg, u) := sign_of t in
        match digits u 0 0 with
        | (_, O, _) => None
        | (v, S _, r) => Some (if neg then - v else v, r)
        end
      else None
  | EmptyString => None
  end.

(** Underscores may stand between two digits, and are dropped. *)
Fixpoint drop_underscores (before : bool) (s : string) : option string :=
  match s with
  | EmptyString => Some EmptyString
  | String a s' =>
      if ascii_dec a "_" then
        match s' with
        | String b _ => if before && is_digit b then drop_underscores false s' else None
        | EmptyString => None
        end
      else String a <$> drop_underscores (is_digit a) s'
  end.

(** A decimal floating-point literal without a sign. *)
Definition unsigned_float (neg : bool) (s : string) : option float :=
  let '(ip, ni, r) := digits s 0 0 in
  let '(m, nf, r) := match strip_prefix "." r with Some r' => digits r' ip 0 | None => (ip, O, r) end in
  if (ni + nf =? 0)%nat then None else
  match r with
  | EmptyString => Some (float_of_dec neg m (- Z.of_nat nf))
  | _ => match exponent r with
         | Some (e, EmptyString) => Some (float_of_dec neg m (e - Z.of_nat nf))
         | _ => None
         end
  end.

Definition float_word (neg : bool) (s : string) : option float :=
  if decide (lower s = "inf" \/ lower s = "infinity")%string then Some (S754_infinity neg)
  else if decide (lower s = "nan")%string then Some S754_nan
  else unsigned_float neg s.

(** [float(s)] *)
Definition py_float (s : string) : res float :=
  of_option ValueError (t ← drop_underscores false (strip s);
    let '(neg, u) := sign_of t in float_word neg u).

Example py_float_ex :
  (py_float "1.5", py_float " -2e-1 ", py_float "1_0.", py_float "inf", py_float "1__0", py_float ".", py_float "1e5x") =
  (Ok (S754_finite false 6755399441055744 (-52)), Ok (S754_finite true 7205759403792794 (-55)),
   Ok (float_of_Z 10), Ok (S754_infinity false), Exc ValueError, Exc ValueError, Exc ValueError)%string.
Proof. vm_compute. reflexivity. Qed.

(** The literals of the sources that are no short binary fraction. *)
Example float_of_dec_ex :
  (float_of_dec false 95 (-2), float_of_dec false 99 (-2), float_of_dec false 5 (-1)) =
  (S754_finite false 8556839292003942 (-53), S754_finite false 8917127262193582 (-53),
   S754_finite false 4503599627370496 (-53)).
Proof. vm_compute. reflexivity. Qed.

Example int_div_ex : (int_div 1 3, int_div 0 (-5), int_div 7 0, int_div (10 ^ 400) 1) =
  (Ok (S754_finite false 6004799503160661 (-54)), Ok (S754_zero true), Exc ZeroDivisionError, Exc OverflowError).
Proof. vm_compute. reflexivity. Qed.
