(* ===== verification/FloatBounds.v ===== *)
(** * Bounds on doubles

    Rounding to nearest respects representable bounds: [magnitude E lo hi x]
    says that [x] is finite and its absolute value is between [lo * 2^E] and
    [hi * 2^E], and it is proved for each operation of PyFloat.v from the exact
    value.  With [lo = hi] the result is exact; with any [hi] it is finite. *)

From S2P Require Import Prelude PyText PyFloat.

Open Scope Z_scope.

Definition magnitude (E lo hi : Z) (x : float) : Prop :=
  match x with
  | S754_zero _ => lo <= 0 <= hi
  | S754_finite _ m e => e <= E /\ lo * 2 ^ (E - e) <= Zpos m <= hi * 2 ^ (E - e)
  | _ => False
  end.

(** The sign of a zero or finite double. *)
Definition negative (x : float) : bool :=
  match x with S754_zero s | S754_finite s _ _ | S754_infinity s => s | S754_nan => false end.

(** ** Digits *)

Lemma digits2_log p : Zpos (digits2_pos p) = Z.log2 (Zpos p) + 1.
Proof.
  induction p as [p IH|p IH|]; [| |done].
  - cbn [digits2_pos]. rewrite Pos2Z.inj_succ, IH, (Pos2Z.inj_xI p), Z.log2_succ_double by done. lia.
  - cbn [digits2_pos]. rewrite Pos2Z.inj_succ, IH, (Pos2Z.inj_xO p), Z.log2_double by done. lia.
Qed.

Lemma Zdigits2_bound m k : 0 <= m < 2 ^ k -> 0 <= k -> 0 <= Zdigits2 m <= k.
Proof.
  intros [Hm Hk] H0. destruct m as [|p|p]; [done| |lia]. cbn [Zdigits2]. rewrite digits2_log.
  apply Z.log2_lt_pow2 in Hk; [|done]. pose proof (Z.log2_nonneg (Zpos p)). lia.
Qed.

(** ** Shifting right *)

(** The integer above what a record stands for. *)
Definition up (r : shr_record) : Z := shr_m r + (if shr_r r || shr_s r then 1 else 0).

Lemma shr_1_bounds r lo hi :
  0 <= shr_m r -> 2 * lo <= shr_m r -> up r <= 2 * hi ->
  0 <= shr_m (shr_1 r) /\ lo <= shr_m (shr_1 r) /\ up (shr_1 r) <= hi.
Proof.
  destruct r as [m b s]. unfold up. cbn [shr_m shr_r shr_s]. intros Hm Hlo Hhi.
  destruct m as [|[p|p|]|p]; cbn [shr_1 shr_m shr_r shr_s orb]; destruct b, s; cbn [orb] in *; lia.
Qed.

Lemma iter_shr_bounds n r lo hi :
  0 <= shr_m r -> lo * 2 ^ Zpos n <= shr_m r -> up r <= hi * 2 ^ Zpos n ->
  0 <= shr_m (iter_pos shr_1 n r) /\ lo <= shr_m (iter_pos shr_1 n r) /\ up (iter_pos shr_1 n r) <= hi.
Proof.
  revert r lo hi. induction n as [n IH|n IH|]; intros r lo hi Hm Hlo Hhi; cbn [iter_pos].
  - assert (E : 2 ^ Zpos n~1 = 2 * (2 ^ Zpos n * 2 ^ Zpos n)).
    { rewrite Pos2Z.inj_xI, <-Z.pow_add_r, <-Z.pow_succ_r by lia. f_equal. lia. }
    rewrite E in Hlo, Hhi.
    destruct (shr_1_bounds r (lo * 2 ^ Zpos n * 2 ^ Zpos n) (hi * 2 ^ Zpos n * 2 ^ Zpos n)) as (? & ? & ?); [lia..|].
    destruct (IH (shr_1 r) (lo * 2 ^ Zpos n) (hi * 2 ^ Zpos n)) as (? & ? & ?); [done..|]. by apply IH.
  - assert (E : 2 ^ Zpos n~0 = 2 ^ Zpos n * 2 ^ Zpos n).
    { rewrite Pos2Z.inj_xO, <-Z.pow_add_r by lia. f_equal. lia. }
    rewrite E in Hlo, Hhi. destruct (IH r (lo * 2 ^ Zpos n) (hi * 2 ^ Zpos n)) as (? & ? & ?); [lia..|]. by apply IH.
  - apply shr_1_bounds; rewrite Z.pow_1_r in *; lia.
Qed.

Lemma fexp_le d E : d <= E + 53 -> -1074 <= E -> fexp 53 1024 d <= E.
Proof. unfold fexp, emin. lia. Qed.

Lemma pow_split E e e' : e <= e' <= E -> 2 ^ (E - e) = 2 ^ (E - e') * 2 ^ (e' - e).
Proof. intros H. rewrite <-Z.pow_add_r by lia. f_equal. lia. Qed.

Section rounding.
Context (E lo hi : Z) (HE : -1074 <= E <= 971) (Hlo : 0 <= lo) (Hhi : hi < 2 ^ 53).

(** A record at an exponent, between the bounds. *)
Definition within (r : shr_record) (e : Z) : Prop :=
  e <= E /\ 0 <= shr_m r /\ lo * 2 ^ (E - e) <= shr_m r /\ up r <= hi * 2 ^ (E - e).

Lemma shr_fexp_within m e l :
  within (shr_record_of_loc m l) e -> within (shr_fexp 53 1024 m e l).1 (shr_fexp 53 1024 m e l).2.
Proof using HE Hlo Hhi.
  intros (He & Hm & Hl & Hu). unfold shr_fexp.
  assert (Em : shr_m (shr_record_of_loc m l) = m) by (by destruct l as [|[]]). rewrite Em in *.
  assert (Hd : fexp 53 1024 (Zdigits2 m + e) <= E).
  { apply fexp_le; [|lia]. assert (0 <= Zdigits2 m <= E - e + 53); [|lia]. apply Zdigits2_bound; [|lia].
    split; [done|]. rewrite Z.add_comm, Z.pow_add_r by lia.
    assert (m <= hi * 2 ^ (E - e)).
    { unfold up in Hu. rewrite Em in Hu. destruct (shr_r _ || shr_s _); lia. }
    pose proof (Z.pow_pos_nonneg 2 (E - e)). nia. }
  destruct (fexp 53 1024 (Zdigits2 m + e) - e) as [|n|n] eqn:En; cbn [shr fst snd].
  - split_and!; rewrite ?Em; done.
  - rewrite (pow_split E e (e + Zpos n)), !Z.mul_assoc in Hl, Hu by lia.
    replace (e + Zpos n - e) with (Zpos n) in Hl, Hu by lia.
    destruct (iter_shr_bounds n (shr_record_of_loc m l) (lo * 2 ^ (E - (e + Zpos n))) (hi * 2 ^ (E - (e + Zpos n))))
      as (? & ? & ?); rewrite ?Em; try done. split_and!; try done. lia.
  - split_and!; rewrite ?Em; done.
Qed.

Lemma round_even_within r e :
  within r e -> within (shr_record_of_loc (round_nearest_even (shr_m r) (loc_of_shr_record r)) loc_Exact) e.
Proof using Hlo.
  intros (He & Hm & Hl & Hu). unfold within, up in *. destruct r as [m b s]. cbn [shr_m shr_r shr_s] in *.
  destruct b, s; cbn [loc_of_shr_record round_nearest_even shr_record_of_loc shr_m shr_r shr_s orb] in *;
    try destruct (Z.even m); lia.
Qed.

(** Rounding keeps what is between the bounds between them. *)
Lemma round_magnitude sx m e l :
  within (shr_record_of_loc m l) e ->
  magnitude E lo hi (binary_round_aux 53 1024 sx m e l) /\ negative (binary_round_aux 53 1024 sx m e l) = sx.
Proof using HE Hlo Hhi.
  intros Hw. unfold binary_round_aux. pose proof (shr_fexp_within m e l Hw) as H1.
  destruct (shr_fexp 53 1024 m e l) as [r1 e1]. cbn [fst snd] in H1. apply round_even_within in H1.
  apply shr_fexp_within in H1. destruct (shr_fexp 53 1024 _ e1 loc_Exact) as [r2 e2]. cbn [fst snd] in H1.
  destruct H1 as (He & Hm & Hl & Hu).
  assert (Hu' : shr_m r2 <= hi * 2 ^ (E - e2)) by (unfold up in Hu; destruct (shr_r r2 || shr_s r2); lia).
  pose proof (Z.pow_pos_nonneg 2 (E - e2)). destruct (shr_m r2) as [|p|p]; [|destruct (Z.leb_spec e2 (1024 - 53)); [|lia]|lia].
  - split; [|done]. cbn. nia.
  - split; [|done]. by split.
Qed.
End rounding.

Lemma shl_align_mantissa p e e' :
  exists k, 0 <= k /\ (shl_align p e e').2 = e - k /\ Zpos (shl_align p e e').1 = Zpos p * 2 ^ k /\ (e' <= e -> k = e - e').
Proof.
  unfold shl_align. destruct (e' - e) as [|n|n] eqn:En; cbn [fst snd].
  - exists 0. split_and!; lia.
  - exists 0. split_and!; lia.
  - exists (Zpos n). split; [lia|]. split; [lia|]. split; [|lia].
    clear. induction n using Pos.peano_ind; [cbn; lia|]. rewrite Pos.iter_succ, Pos2Z.inj_xO, IHn, Pos2Z.inj_succ, Z.pow_succ_r; lia.
Qed.

Lemma binary_round_magnitude E lo hi sx p e :
  -1074 <= E <= 971 -> 0 <= lo -> hi < 2 ^ 53 -> e <= E -> lo * 2 ^ (E - e) <= Zpos p <= hi * 2 ^ (E - e) ->
  magnitude E lo hi (binary_round 53 1024 sx p e) /\ negative (binary_round 53 1024 sx p e) = sx.
Proof.
  intros HE Hlo Hhi He Hp. unfold binary_round.
  destruct (shl_align_mantissa p e (fexp 53 1024 (Zpos (digits2_pos p) + e))) as (k & Hk & H2 & H1 & _).
  destruct (shl_align p e _) as [mz ez]. cbn [fst snd] in *. subst ez. apply round_magnitude; try done.
  assert (Es : 2 ^ (E - (e - k)) = 2 ^ (E - e) * 2 ^ k) by (rewrite <-Z.pow_add_r by lia; f_equal; lia).
  unfold within, up. cbn [shr_record_of_loc shr_m shr_r shr_s orb]. rewrite Es, H1, Z.add_0_r.
  pose proof (Z.pow_pos_nonneg 2 k). rewrite !Z.mul_assoc. split; [lia|]. split; [lia|].
  split; (apply Z.mul_le_mono_nonneg_r; lia).
Qed.

(** ** The operations *)

Lemma float_of_Z_magnitude E lo hi z :
  0 <= E <= 971 -> 0 <= lo -> hi < 2 ^ 53 -> lo * 2 ^ E <= Z.abs z <= hi * 2 ^ E ->
  magnitude E lo hi (float_of_Z z) /\ negative (float_of_Z z) = (z <? 0).
Proof.
  intros HE Hlo Hhi Hz. unfold float_of_Z, binary_normalize. pose proof (Z.pow_pos_nonneg 2 E).
  destruct z as [|p|p]; [|apply binary_round_magnitude; rewrite ?Z.sub_0_r; try done; lia..].
  split; [|done]. cbn in *. nia.
Qed.

(** An integer below 2^53 is a double. *)
Lemma float_of_Z_exact z :
  Z.abs z < 2 ^ 53 -> magnitude 0 (Z.abs z) (Z.abs z) (float_of_Z z) /\ negative (float_of_Z z) = (z <? 0).
Proof. intros Hz. apply float_of_Z_magnitude; [lia..|]. rewrite Z.pow_0_r. lia. Qed.

Lemma magnitude_finite E lo hi x : magnitude E lo hi x -> is_infinite x = false.
Proof. by destruct x. Qed.

Lemma magnitude_nonzero E lo hi x : magnitude E lo hi x -> 0 < lo -> is_zero x = false.
Proof. destruct x; cbn; try done. lia. Qed.

Lemma magnitude_mono E lo hi lo' hi' x : magnitude E lo hi x -> lo' <= lo -> hi <= hi' -> magnitude E lo' hi' x.
Proof.
  destruct x as [| | |s m e]; cbn; try done; [lia|]. intros (He & Hl & Hh) H1 H2. split; [done|].
  pose proof (Z.pow_pos_nonneg 2 (E - e)). nia.
Qed.

(** An integer that is not too large converts. *)
Lemma float_of_int_ok z :
  0 < Z.abs z < 2 ^ 970 -> float_of_int z = Ok (float_of_Z z) /\ is_zero (float_of_Z z) = false.
Proof.
  intros Hz. destruct (Z.log2_spec (Z.abs z) ltac:(lia)) as [Hl Hh].
  assert (HE : 0 <= Z.log2 (Z.abs z) < 970).
  { split; [apply Z.log2_nonneg|]. apply Z.log2_lt_pow2; lia. }
  destruct (float_of_Z_magnitude (Z.log2 (Z.abs z)) 1 2 z) as [Hm _]; [lia|done|done|rewrite Z.pow_succ_r in Hh by lia; lia|].
  unfold float_of_int. rewrite (magnitude_finite _ _ _ _ Hm). split; [done|]. by eapply magnitude_nonzero.
Qed.

(** Rounding the quotient [c] with remainder [r], at an exponent [e']. *)
Lemma div_within E lo hi sz c r q e' :
  -1074 <= E <= 971 -> 0 <= lo -> hi < 2 ^ 53 -> 0 < q -> 0 <= r < q -> e' <= E ->
  lo * 2 ^ (E - e') * q <= c * q + r <= hi * 2 ^ (E - e') * q ->
  magnitude E lo hi (binary_round_aux 53 1024 sz c e' (new_location q r)) /\
  negative (binary_round_aux 53 1024 sz c e' (new_location q r)) = sz.
Proof.
  intros HE Hlo Hhi Hq Hr He Hc. apply round_magnitude; try done. unfold within, up.
  assert (Hs : shr_m (shr_record_of_loc c (new_location q r)) = c) by by destruct (new_location q r) as [|[]].
  assert (Hx : (if shr_r (shr_record_of_loc c (new_location q r)) || shr_s (shr_record_of_loc c (new_location q r))
    then 1 else 0) = if r =? 0 then 0 else 1).
  { clear -Hr. unfold new_location, new_location_even, new_location_odd. destruct r as [|r|r]; [by destruct (Z.even _)| |lia].
    assert (Hc : forall cmp, (if shr_r (shr_record_of_loc c (loc_Inexact cmp)) || shr_s (shr_record_of_loc c (loc_Inexact cmp)) then 1 else 0) = 1) by by intros [].
    destruct (Z.even _); apply Hc. }
  rewrite Hs, Hx. pose proof (Z.pow_pos_nonneg 2 (E - e')). clear Hs Hx. revert Hc.
  assert (0 <= lo * 2 ^ (E - e')) by nia. generalize dependent (lo * 2 ^ (E - e')).
  generalize (hi * 2 ^ (E - e')). intros h l Hl [L U]. split; [lia|]. split; [|split].
  - destruct (Z.leb_spec 0 c); [done|]. nia.
  - destruct (Z.leb_spec l c); [done|]. nia.
  - destruct (Z.eqb_spec r 0) as [->|]; [destruct (Z.leb_spec c h); [lia|nia]|].
    destruct (Z.ltb_spec c h); [lia|]. nia.
Qed.

(** The shifted dividend and its division. *)
Lemma shifted p s q :
  0 <= s ->
  exists c r, Z.div_eucl (match s with Zpos _ => Z.shiftl (Zpos p) s | Z0 => Zpos p | Zneg _ => 0 end) (Zpos q) = (c, r) /\
    c * Zpos q + r = Zpos p * 2 ^ s /\ 0 <= r < Zpos q.
Proof.
  intros Hs.
  assert (Em : match s with Zpos _ => Z.shiftl (Zpos p) s | Z0 => Zpos p | Zneg _ => 0 end = Zpos p * 2 ^ s).
  { destruct s as [|d|d]; [lia|by rewrite Z.shiftl_mul_pow2|lia]. }
  rewrite Em. pose proof (Z.div_eucl_eq (Zpos p * 2 ^ s) (Zpos q) ltac:(done)) as Hq.
  pose proof (Z.mod_pos_bound (Zpos p * 2 ^ s) (Zpos q) ltac:(done)) as Hr. unfold Z.modulo in Hr.
  destruct (Z.div_eucl (Zpos p * 2 ^ s) (Zpos q)) as [c r]. exists c, r. split; [done|]. lia.
Qed.

(** The quotient of two integers. *)
Lemma raw_quot_magnitude E lo hi a b :
  0 <= E <= 971 -> 0 <= lo -> hi < 2 ^ 53 -> a <> 0 -> b <> 0 ->
  lo * 2 ^ E * Z.abs b <= Z.abs a <= hi * 2 ^ E * Z.abs b ->
  magnitude E lo hi (float_quot (raw_float a) (raw_float b)) /\
  negative (float_quot (raw_float a) (raw_float b)) = xorb (a <? 0) (b <? 0).
Proof.
  intros HE Hlo Hhi Ha Hb Hab.
  assert (Hpos : forall s t p q, lo * 2 ^ E * Zpos q <= Zpos p <= hi * 2 ^ E * Zpos q ->
    magnitude E lo hi (float_quot (S754_finite s p 0) (S754_finite t q 0)) /\
    negative (float_quot (S754_finite s p 0) (S754_finite t q 0)) = xorb s t).
  { clear -HE Hlo Hhi. intros s t p q Hpq. unfold float_quot, SFdiv, SFdiv_core_binary.
    set (e' := Z.min _ _). assert (He : e' <= 0) by (unfold e'; lia). clearbody e'.
    replace (0 - 0 - e') with (- e') by lia.
    destruct (shifted p (- e') q ltac:(lia)) as (c & r & -> & Hc & Hr).
    pose proof (Z.pow_pos_nonneg 2 (- e')). apply div_within; try done; try lia.
    rewrite Hc. replace (E - e') with (E + - e') by lia. rewrite Z.pow_add_r by lia. nia. }
  destruct a as [|p|p], b as [|q|q]; try done; apply Hpos; exact Hab.
Qed.

(** The quotient of a double by an integer. *)
Lemma quot_magnitude lo hi n x y :
  0 <= lo -> hi < 2 ^ 53 -> 0 < n ->
  magnitude 0 (lo * n) (hi * n) x -> negative x = false -> magnitude 0 n n y -> negative y = false ->
  magnitude 0 lo hi (float_quot x y) /\ negative (float_quot x y) = false.
Proof.
  intros Hlo Hhi Hn. destruct x as [sx| | |sx p ex], y as [sy| | |sy q ey]; try done; cbn [magnitude negative]; try lia.
  - intros Hx -> _ ->. split; [cbn; nia|done].
  - intros (Hex & Hlx & Hhx) -> (Hey & Hly & Hhy) ->.
    assert (Hq : Zpos q = n * 2 ^ (0 - ey)) by lia. clear Hly Hhy.
    unfold float_quot, SFdiv, SFdiv_core_binary.
    assert (He : Z.min (fexp 53 1024 (Zdigits2 (Zpos p) + ex - (Zdigits2 (Zpos q) + ey))) (ex - ey) <= 0).
    { cbn [Zdigits2]. rewrite !digits2_log. pose proof (Z.log2_spec (Zpos p) ltac:(done)) as [Lp _].
      pose proof (Z.log2_spec (Zpos q) ltac:(done)) as [_ Lq]. pose proof (Z.log2_nonneg (Zpos p)). pose proof (Z.log2_nonneg (Zpos q)).
      set (u := Z.log2 (Zpos p)) in *. set (v := Z.log2 (Zpos q)) in *. clearbody u v.
      apply Z.le_trans with (fexp 53 1024 (u + 1 + ex - (v + 1 + ey))); [lia|]. apply fexp_le; [|lia].
      destruct (Z.leb_spec (u + ex) (v + ey + 53)) as [|Hgt]; [lia|]. exfalso.
      assert (H1 : Zpos p * 2 ^ (0 - ey) < 2 ^ 53 * (Zpos q * 2 ^ (0 - ex))).
      { rewrite Hq. pose proof (Z.pow_pos_nonneg 2 (0 - ex)). pose proof (Z.pow_pos_nonneg 2 (0 - ey)). nia. }
      assert (H2 : 2 ^ 53 * (Zpos q * 2 ^ (0 - ex)) < 2 ^ (53 + Z.succ v + (0 - ex))).
      { rewrite !Z.pow_add_r by lia. pose proof (Z.pow_pos_nonneg 2 (0 - ex)). nia. }
      assert (H3 : 2 ^ (u + (0 - ey)) <= Zpos p * 2 ^ (0 - ey)).
      { rewrite Z.pow_add_r by lia. apply Z.mul_le_mono_nonneg_r; [by apply Z.pow_nonneg|done]. }
      assert (H4 : 2 ^ (53 + Z.succ v + (0 - ex)) <= 2 ^ (u + (0 - ey))) by (apply Z.pow_le_mono_r; lia).
      lia. }
    assert (He' : Z.min (fexp 53 1024 (Zdigits2 (Zpos p) + ex - (Zdigits2 (Zpos q) + ey))) (ex - ey) <= ex - ey) by lia.
    set (e' := Z.min _ _) in *. clearbody e'.
    destruct (shifted p (ex - ey - e') q ltac:(lia)) as (c & r & -> & Hc & Hr).
    apply (div_within 0 lo hi false c r (Zpos q) e'); try done. rewrite Hc, Hq.
    assert (Ep : 2 ^ (0 - ex) * 2 ^ (ex - ey - e') = 2 ^ (0 - e') * 2 ^ (0 - ey)).
    { rewrite <-!Z.pow_add_r by lia. f_equal. lia. }
    pose proof (Z.pow_pos_nonneg 2 (ex - ey - e')). split; nia.
Qed.

Lemma int_div_ok a b : Z.abs a < 2 ^ 970 -> b <> 0 -> exists x, int_div a b = Ok x.
Proof.
  intros Ha Hb. unfold int_div. rewrite (proj2 (Z.eqb_neq _ _)) by done.
  assert (is_infinite (float_quot (raw_float a) (raw_float b)) = false) as ->; [|by eexists].
  destruct (decide (a = 0)) as [->|Hn]; [by destruct b|].
  apply (magnitude_finite 970 0 1), raw_quot_magnitude; try done; nia.
Qed.

(** A quotient of natural numbers between two integers. *)
Lemma int_div_magnitude lo hi a b :
  0 <= lo -> hi < 2 ^ 53 -> 0 < b -> lo * b <= a <= hi * b ->
  exists x, int_div a b = Ok x /\ magnitude 0 lo hi x /\ negative x = false.
Proof.
  intros Hlo Hhi Hb Hab. unfold int_div. rewrite (proj2 (Z.eqb_neq _ _)) by lia.
  assert (Hx : magnitude 0 lo hi (float_quot (raw_float a) (raw_float b)) /\ negative (float_quot (raw_float a) (raw_float b)) = false).
  { destruct (decide (a = 0)) as [->|Ha].
    - destruct b as [|b|b]; [lia| |lia]. split; [cbn; nia|done].
    - destruct (raw_quot_magnitude 0 lo hi a b) as [Hm Hn]; try lia.
      split; [done|]. rewrite Hn, !(proj2 (Z.ltb_ge _ _)) by nia. done. }
  destruct Hx as [Hm Hn]. rewrite (magnitude_finite _ _ _ _ Hm). by eexists.
Qed.

Lemma mul_magnitude A B x y :
  0 <= A -> 0 <= B -> A * B < 2 ^ 53 -> magnitude 0 0 A x -> magnitude 0 0 B y ->
  magnitude 0 0 (A * B) (float_mul x y) /\ negative (float_mul x y) = xorb (negative x) (negative y).
Proof.
  intros HA HB HAB. destruct x as [sx| | |sx mx ex], y as [sy| | |sy my ey]; try done.
  1-3: intros; split; [cbn; nia|done].
  intros (Hex & Hlx & Hhx) (Hey & Hly & Hhy). cbn [float_mul]. unfold float_mul, SFmul. apply round_magnitude; try done.
  unfold within, up. cbn [shr_record_of_loc shr_m shr_r shr_s orb]. rewrite Pos2Z.inj_mul.
  replace (0 - (ex + ey)) with ((0 - ex) + (0 - ey)) by lia. rewrite Z.pow_add_r by lia. split_and!; nia.
Qed.

(** The sum of a mantissa and an aligned one, over non-negative doubles. *)
Lemma add_magnitude a b c d x y :
  0 <= a -> 0 <= c -> b + d < 2 ^ 53 -> magnitude 0 a b x -> magnitude 0 c d y -> negative x = false -> negative y = false ->
  magnitude 0 (a + c) (b + d) (float_add x y) /\ negative (float_add x y) = false.
Proof.
  intros Ha Hc Hbd Hx Hy Nx Ny. unfold float_add, SFadd.
  destruct x as [sx| | |sx mx ex], y as [sy| | |sy my ey]; try done; cbn [negative] in Nx, Ny; subst.
  - split; [cbn in *; lia|done].
  - split; [|done]. cbn in Hx. eapply magnitude_mono; [exact Hy|lia..].
  - split; [|done]. cbn in Hy. eapply magnitude_mono; [exact Hx|lia..].
  - destruct Hx as (Hex & Hlx & Hhx), Hy as (Hey & Hly & Hhy). set (ez := Z.min ex ey).
    destruct (shl_align_mantissa mx ex ez) as (kx & Hkx & _ & Ex & Kx).
    destruct (shl_align_mantissa my ey ez) as (ky & Hky & _ & Ey & Ky).
    rewrite Kx in Ex by lia. rewrite Ky in Ey by lia. cbn [cond_Zopp]. clear Kx Ky.
    set (m1 := fst (shl_align mx ex ez)) in *. set (m2 := fst (shl_align my ey ez)) in *. clearbody m1 m2.
    assert (Hz : ez <= ex /\ ez <= ey) by lia. clearbody ez.
    cbn [Z.add]. apply binary_round_magnitude; try done; try lia. rewrite Pos2Z.inj_add, Ex, Ey.
    pose proof (pow_split 0 ez ex ltac:(lia)) as Px. pose proof (pow_split 0 ez ey ltac:(lia)) as Py.
    pose proof (Z.pow_pos_nonneg 2 (ex - ez)). pose proof (Z.pow_pos_nonneg 2 (ey - ez)).
    rewrite !Z.mul_add_distr_r. rewrite Px at 1 3. rewrite Py. nia.
Qed.

(** ** Truncation and what it leaves *)

Lemma int_of_float_bounds lo hi k :
  magnitude 0 lo hi k -> negative k = false -> 0 <= lo ->
  trunc_float k = Ok (int_of_float k) /\ lo <= int_of_float k <= hi.
Proof.
  destruct k as [s| | |s m e]; try done; cbn [negative]; intros Hm -> Hlo; (split; [done|]); cbn [int_of_float].
  destruct Hm as (He & Hl & Hh). pose proof (Z.pow_pos_nonneg 2 (0 - e)). destruct (Z.leb_spec 0 e).
  - assert (e = 0) as -> by lia. cbn in *. lia.
  - replace (- e) with (0 - e) by lia. split; [apply Z.div_le_lower_bound; lia|].
    assert (Zpos m / 2 ^ (0 - e) < hi + 1); [|lia]. apply Z.div_lt_upper_bound; lia.
Qed.

(** [k - int(k)] *)
Lemma frac_magnitude hi k :
  magnitude 0 0 hi k -> negative k = false -> hi < 2 ^ 53 ->
  magnitude 0 0 1 (float_sub k (float_of_Z (int_of_float k))) /\ negative (float_sub k (float_of_Z (int_of_float k))) = false.
Proof.
  intros Hk Nk Hhi. destruct (int_of_float_bounds 0 hi k Hk Nk ltac:(lia)) as [_ Hf].
  destruct k as [s| | |s mx ex]; try done; cbn [negative] in Nk; subst s; [by split|].
  destruct Hk as (Hex & _ & _). set (f := int_of_float (S754_finite false mx ex)) in *.
  assert (Hmx : exists r, Zpos mx = f * 2 ^ (0 - ex) + r /\ 0 <= r < 2 ^ (0 - ex)).
  { unfold f. cbn [int_of_float]. destruct (Z.leb_spec 0 ex).
    - assert (ex = 0) as -> by lia. exists 0. rewrite Z.pow_0_r. lia.
    - replace (- ex) with (0 - ex) by lia. exists (Zpos mx mod 2 ^ (0 - ex)).
      pose proof (Z.div_mod (Zpos mx) (2 ^ (0 - ex))). pose proof (Z.mod_pos_bound (Zpos mx) (2 ^ (0 - ex))).
      pose proof (Z.pow_pos_nonneg 2 (0 - ex)). lia. }
  destruct Hmx as (r & Hmx & Hr). destruct (float_of_Z_exact f ltac:(lia)) as [Hm Hn].
  rewrite (proj2 (Z.ltb_ge _ _)) in Hn by lia. rewrite Z.abs_eq in Hm by lia. clearbody f.
  unfold float_sub, SFsub. destruct (float_of_Z f) as [sf| | |sf my ey]; try done; cbn [negative] in Hn; subst sf.
  - cbn in Hm. assert (f = 0) as -> by lia. split; [|done]. cbn [magnitude]. pose proof (Z.pow_pos_nonneg 2 (0 - ex)). lia.
  - destruct Hm as (Hey & Hl & Hh). assert (Hmy : Zpos my = f * 2 ^ (0 - ey)) by lia. clear Hl Hh.
    set (ez := Z.min ex ey).
    destruct (shl_align_mantissa mx ex ez) as (kx & _ & _ & Ex & Kx).
    destruct (shl_align_mantissa my ey ez) as (ky & _ & _ & Ey & Ky).
    rewrite Kx in Ex by lia. rewrite Ky in Ey by lia. cbn [cond_Zopp]. clear Kx Ky.
    set (m1 := fst (shl_align mx ex ez)) in *. set (m2 := fst (shl_align my ey ez)) in *. clearbody m1 m2.
    pose proof (pow_split 0 ez ex ltac:(lia)) as Px. pose proof (pow_split 0 ez ey ltac:(lia)) as Py.
    assert (Hz : ez <= 0) by lia. clearbody ez. pose proof (Z.pow_pos_nonneg 2 (ex - ez)) as Hp.
    assert (Hd : Zpos m1 - Zpos m2 = r * 2 ^ (ex - ez)) by (rewrite Ex, Ey, Hmx, Hmy; nia).
    assert (Hb : 0 <= Zpos m1 - Zpos m2 <= 1 * 2 ^ (0 - ez)) by nia.
    clear -Hb Hz. revert Hb. generalize (Zpos m1 - Zpos m2). intros [|p|p] Hb; [by split| |lia].
    apply binary_round_magnitude; lia.
Qed.

(** What is left of an integer. *)
Lemma sub_magnitude a lo hi x y :
  0 <= lo -> hi <= a -> a < 2 ^ 53 ->
  magnitude 0 a a x -> negative x = false -> magnitude 0 lo hi y -> negative y = false ->
  magnitude 0 (a - hi) (a - lo) (float_sub x y) /\ negative (float_sub x y) = false.
Proof.
  intros Hlo Hhi Ha. destruct x as [sx| | |sx mx ex], y as [sy| | |sy my ey]; try done; cbn [negative];
    intros Hx -> Hy ->; unfold float_sub, SFsub.
  - split; [cbn in *; lia|done].
  - cbn in Hx. destruct Hy as (Hey & Hly & Hhy). pose proof (Z.pow_pos_nonneg 2 (0 - ey)). nia.
  - split; [|done]. cbn in Hy. eapply magnitude_mono; [exact Hx|lia..].
  - destruct Hx as (Hex & Hlx & Hhx), Hy as (Hey & Hly & Hhy).
    assert (Hmx : Zpos mx = a * 2 ^ (0 - ex)) by lia. clear Hlx Hhx. set (ez := Z.min ex ey).
    destruct (shl_align_mantissa mx ex ez) as (kx & _ & _ & Ex & Kx).
    destruct (shl_align_mantissa my ey ez) as (ky & _ & _ & Ey & Ky).
    rewrite Kx in Ex by lia. rewrite Ky in Ey by lia. cbn [cond_Zopp]. clear Kx Ky.
    set (m1 := fst (shl_align mx ex ez)) in *. set (m2 := fst (shl_align my ey ez)) in *. clearbody m1 m2.
    pose proof (pow_split 0 ez ex ltac:(lia)) as Px. pose proof (pow_split 0 ez ey ltac:(lia)) as Py.
    assert (Hz : ez <= 0) by lia. clearbody ez.
    pose proof (Z.pow_pos_nonneg 2 (ex - ez)) as Hpx. pose proof (Z.pow_pos_nonneg 2 (ey - ez)) as Hpy.
    assert (H1 : Zpos m1 = a * 2 ^ (0 - ez)) by (rewrite Ex, Hmx, Px; lia).
    assert (H2 : lo * 2 ^ (0 - ez) <= Zpos m2 <= hi * 2 ^ (0 - ez)) by (rewrite Ey, Py; nia).
    assert (Hb : (a - hi) * 2 ^ (0 - ez) <= Zpos m1 - Zpos m2 <= (a - lo) * 2 ^ (0 - ez)) by lia.
    pose proof (Z.pow_pos_nonneg 2 (0 - ez)) as Hp. clear -Hb Hz Hlo Hhi Ha Hp. revert Hb. generalize (Zpos m1 - Zpos m2).
    intros [|p|p] Hb; [|apply binary_round_magnitude; lia|nia]. split; [|done]. cbn. nia.
Qed.

(** The sum of doubles between two integers. *)
Lemma float_sum_magnitude lo hi l :
  0 <= lo -> hi * Z.of_nat (length l) < 2 ^ 53 -> 0 <= hi ->
  Forall (fun x => magnitude 0 lo hi x /\ negative x = false) l ->
  magnitude 0 (lo * Z.of_nat (length l)) (hi * Z.of_nat (length l)) (float_sum l) /\ negative (float_sum l) = false.
Proof.
  intros Hlo Hl Hhi Hf. unfold float_sum.
  assert (Hg : forall a b x, 0 <= a -> b + hi * Z.of_nat (length l) < 2 ^ 53 -> magnitude 0 a b x -> negative x = false ->
    magnitude 0 (a + lo * Z.of_nat (length l)) (b + hi * Z.of_nat (length l)) (foldl float_add x l) /\
    negative (foldl float_add x l) = false).
  { clear Hl. induction Hf as [|y l [Hy Ny] _ IH]; intros a b x Ha Hb Hx Nx.
    - cbn [length]. rewrite !Z.mul_0_r, !Z.add_0_r. done.
    - cbn [foldl length] in *. rewrite Nat2Z.inj_succ in *.
      destruct (add_magnitude a b lo hi x y) as [Hm Hn]; try done; [nia|].
      destruct (IH (a + lo) (b + hi) (float_add x y)) as [Hm' Hn']; [lia|nia|done|done|]. split; [|done].
      eapply magnitude_mono; [exact Hm'|nia..]. }
  destruct (Hg 0 0 (S754_zero false)) as [Hm Hn]; [done|lia|done|done|]. by rewrite !Z.add_0_l in Hm.
Qed.
