(* ===== verification/Json.v ===== *)
(** * JSON: the values [json.loads] returns, and how they are read

    [json] is a Python value made by [json.loads]; [py_iter], [getitem] and
    [get] are the operations the sources apply to it, with the exceptions they
    raise.  [json_loads] is the decoder of the Standard Library on ASCII text
    (an escape beyond ASCII is kept as its UTF-8 bytes; the limits Python puts
    on nesting and on the length of an integer are left out), and [json_text]
    the compact text of a value, which it reads back. *)

From Stdlib Require Import Strings.Ascii.
From S2P Require Import Prelude PyText PyFloat.

Open Scope string_scope.
Open Scope Z_scope.

(** An object holds each key once, in order of first insertion. *)
Inductive json :=
| JNull
| JBool (b : bool)
| JInt (z : Z)
| JFloat (x : float)
| JStr (s : string)
| JList (l : list json)
| JObj (o : list (string * json)).

(** ** Reading a value *)

Fixpoint obj_get (k : string) (o : list (string * json)) : option json :=
  match o with
  | [] => None
  | (k', v) :: o' => if decide (k' = k) then Some v else obj_get k o'
  end.

(** [o[k] = v] *)
Fixpoint obj_set (k : string) (v : json) (o : list (string * json)) : list (string * json) :=
  match o with
  | [] => [(k, v)]%list
  | (k', v') :: o' => if decide (k' = k) then ((k', v) :: o')%list else ((k', v') :: obj_set k v o')%list
  end.

Fixpoint chars (s : string) : list string :=
  match s with EmptyString => []%list | String a s' => (String a "" :: chars s')%list end.

(** [iter(j)] *)
Definition py_iter (j : json) : res (list json) :=
  match j with
  | JList l => Ok l
  | JObj o => Ok ((fun kv => JStr kv.1) <$> o)
  | JStr s => Ok (JStr <$> chars s)
  | _ => Exc TypeError
  end.

(** [j[k]] *)
Definition getitem (j : json) (k : string) : res json :=
  match j with JObj o => of_option KeyError (obj_get k o) | _ => Exc TypeError end.

(** [j.get(k, d)] *)
Definition get (j : json) (k : string) (d : json) : res json :=
  match j with JObj o => Ok (default d (obj_get k o)) | _ => Exc AttributeError end.

(** [int(j, base)] takes text only. *)
Definition int_base (conv : string -> res Z) (j : json) : res Z :=
  match j with JStr s => conv s | _ => Exc TypeError end.

(** [int(j)] *)
Definition py_int (j : json) : res Z :=
  match j with
  | JInt z => Ok z
  | JBool b => Ok (if b then 1 else 0)
  | JFloat x => trunc_float x
  | JStr s => int10 s
  | _ => Exc TypeError
  end.

(** An operand of an arithmetic operator. *)
Definition as_num (j : json) : res num :=
  match j with
  | JInt z => Ok (NInt z)
  | JBool b => Ok (NInt (if b then 1 else 0))
  | JFloat x => Ok (NFloat x)
  | _ => Exc TypeError
  end.

Definition byte_of_int (z : Z) : res Init.Byte.byte :=
  if (0 <=? z) && (z <? 256) then Ok (z2b z) else Exc ValueError.

(** [bytes(conv(x) for x in j)] *)
Definition bytes_of_json (conv : json -> res Z) (j : json) : res bytes :=
  l ← py_iter j; map_res (fun x => z ← conv x; byte_of_int z) l.

(** ** [json.loads] *)

Definition json_space (a : ascii) : bool := bool_decide (code a ∈ [32; 9; 10; 13]).

Fixpoint skip_ws (s : string) : string :=
  match s with
  | String a s' => if json_space a then skip_ws s' else s
  | EmptyString => EmptyString
  end.

Definition hex4 (a b c d : ascii) : option Z :=
  a ← digit_in 16 a; b ← digit_in 16 b; c ← digit_in 16 c; d ← digit_in 16 d;
  Some (((a * 16 + b) * 16 + c) * 16 + d).

Definition high_surrogate (c : Z) : bool := (0xD800 <=? c) && (c <=? 0xDBFF).
Definition low_surrogate (c : Z) : bool := (0xDC00 <=? c) && (c <=? 0xDFFF).
Definition join_surrogates (c d : Z) : Z := 0x10000 + (c - 0xD800) * 0x400 + (d - 0xDC00).

Definition chr (z : Z) : ascii := ascii_of_N (Z.to_N z).

Definition utf8 (c : Z) : string :=
  let tail z := chr (0x80 + z mod 64) in
  if c <? 0x80 then String (chr c) ""
  else if c <? 0x800 then String (chr (0xC0 + c / 64)) (String (tail c) "")
  else if c <? 0x10000 then String (chr (0xE0 + c / 4096)) (String (tail (c / 64)) (String (tail c) ""))
  else String (chr (0xF0 + c / 262144)) (String (tail (c / 4096)) (String (tail (c / 64)) (String (tail c) ""))).

Definition quote_char : ascii := "034".
Definition backslash : ascii := "092".

(** The one-letter escapes. *)
Definition escape_char (a : ascii) : option ascii :=
  if decide (a = quote_char \/ a = backslash \/ a = "/"%char) then Some a
  else if decide (a = "b"%char) then Some (chr 8)
  else if decide (a = "f"%char) then Some (chr 12)
  else if decide (a = "n"%char) then Some (chr 10)
  else if decide (a = "r"%char) then Some (chr 13)
  else if decide (a = "t"%char) then Some (chr 9)
  else None.

(** The string that starts after the opening quote, and what follows the
    closing one. *)
Fixpoint scanstring (s : string) : res (string * string) :=
  match s with
  | EmptyString => Exc ValueError
  | String a s' =>
      if ascii_dec a quote_char then Ok ("", s')
      else if code a <? 32 then Exc ValueError
      else if ascii_dec a backslash then
        match s' with
        | EmptyString => Exc ValueError
        | String b t =>
            if ascii_dec b "u" then
              match t with
              | String h1 (String h2 (String h3 (String h4 r))) =>
                  c ← of_option ValueError (hex4 h1 h2 h3 h4);
                  match r with
                  | String x (String y (String k1 (String k2 (String k3 (String k4 r'))))) =>
                      if decide (high_surrogate c = true /\ x = backslash /\ y = "u"%char) then
                        d ← of_option ValueError (hex4 k1 k2 k3 k4);
                        if low_surrogate d
                        then '(u, rest) ← scanstring r'; Ok (utf8 (join_surrogates c d) ++ u, rest)
                        else '(u, rest) ← scanstring r; Ok (utf8 c ++ u, rest)
                      else '(u, rest) ← scanstring r; Ok (utf8 c ++ u, rest)
                  | _ => '(u, rest) ← scanstring r; Ok (utf8 c ++ u, rest)
                  end
              | _ => Exc ValueError
              end
            else
              x ← of_option ValueError (escape_char b);
              '(u, rest) ← scanstring t; Ok (String x u, rest)
        end
      else '(u, rest) ← scanstring s'; Ok (String a u, rest)
  end.

(** [NUMBER_RE]: a sign, an integer part without leading zeros, and maybe a
    fraction and an exponent, which make it a float. *)
Definition match_number (s : string) : option (json * string) :=
  let '(neg, t) := match strip_prefix "-" s with Some t => (true, t) | None => (false, s) end in
  '(ip, r) ← match t with
             | String a t' => if ascii_dec a "0" then Some (0, t')
                              else if is_digit a then let '(v, _, r) := digits t 0 0 in Some (v, r) else None
             | EmptyString => None
             end;
  let '(m, nf, r1) := match strip_prefix "." r with
                      | Some r' => match digits r' ip 0 with (_, O, _) => (ip, O, r) | x => x end
                      | None => (ip, O, r)
                      end in
  match exponent r1 with
  | Some (e, r2) => Some (JFloat (float_of_dec neg m (e - Z.of_nat nf)), r2)
  | None => if (nf =? 0)%nat then Some (JInt (if neg then - ip else ip), r1)
            else Some (JFloat (float_of_dec neg m (- Z.of_nat nf)), r1)
  end.

(** The json_words that are values. *)
Definition json_words : list (string * json) :=
  [("null", JNull); ("true", JBool true); ("false", JBool false); ("NaN", JFloat S754_nan);
   ("Infinity", JFloat (S754_infinity false)); ("-Infinity", JFloat (S754_infinity true))]%list.

Definition match_word (s : string) : option (json * string) :=
  head (omap (fun w => r ← strip_prefix w.1 s; Some (w.2, r)) json_words).

(** What follows the blanks of [s] and then [c]. *)
Definition after_char (c : ascii) (s : string) : option string := strip_prefix (String c "") (skip_ws s).

(** [scan_once]; the elements of an array and the members of an object, each
    from the first one on. *)
Fixpoint scan_once (fuel : nat) (s : string) : res (json * string) :=
  match fuel with
  | O => Exc RecursionError
  | S f =>
      match s with
      | EmptyString => Exc ValueError
      | String a s' =>
          if ascii_dec a quote_char then '(t, r) ← scanstring s'; Ok (JStr t, r)
          else if ascii_dec a "{" then
            match after_char "}" s' with
            | Some r => Ok (JObj [], r)
            | None => '(o, r) ← scan_members f [] (skip_ws s'); Ok (JObj o, r)
            end
          else if ascii_dec a "[" then
            match after_char "]" s' with
            | Some r => Ok (JList [], r)
            | None => '(l, r) ← scan_elems f (skip_ws s'); Ok (JList l, r)
            end
          else of_option ValueError (match match_word s with Some x => Some x | None => match_number s end)
      end
  end
with scan_elems (fuel : nat) (s : string) : res (list json * string) :=
  match fuel with
  | O => Exc RecursionError
  | S f =>
      '(j, r) ← scan_once f s;
      match after_char "]" r, after_char "," r with
      | Some r', _ => Ok ([j]%list, r')
      | None, Some r' => '(l, r'') ← scan_elems f (skip_ws r'); Ok ((j :: l)%list, r'')
      | None, None => Exc ValueError
      end
  end
with scan_members (fuel : nat) (o : list (string * json)) (s : string) : res (list (string * json) * string) :=
  match fuel with
  | O => Exc RecursionError
  | S f =>
      s' ← of_option ValueError (strip_prefix (String quote_char "") s);
      '(k, r) ← scanstring s';
      r' ← of_option ValueError (after_char ":" r);
      '(v, t) ← scan_once f (skip_ws r');
      match after_char "}" t, after_char "," t with
      | Some t', _ => Ok (obj_set k v o, t')
      | None, Some t' => scan_members f (obj_set k v o) (skip_ws t')
      | None, None => Exc ValueError
      end
  end.

(** Fuel for a text: every two calls consume a character. *)
Definition json_fuel (s : string) : nat := 2 * String.length s + 1.

(** [json.loads(s)]; its errors are [ValueError]s. *)
Definition json_loads (s : string) : res json :=
  let t := skip_ws s in
  '(j, r) ← scan_once (json_fuel t) t;
  match skip_ws r with EmptyString => Ok j | _ => Exc ValueError end.

(** ** The decoder ends *)

(** A scanner stops before it started or raises [ValueError]. *)
Definition shrinks {A} (s : string) (r : res (A * string)) : Prop :=
  match r with
  | Ok (_, t) => (String.length t < String.length s)%nat
  | Exc e => e = ValueError
  end.

Lemma shrinks_bind {A B} (s t : string) (m : res (A * string)) (f : A * string -> res (B * string)) :
  shrinks t m -> (String.length t <= String.length s)%nat ->
  (forall a r, (String.length r < String.length t)%nat -> shrinks s (f (a, r))) -> shrinks s (m ≫= f).
Proof. destruct m as [[a r]|e]; cbn; auto. Qed.

Lemma shrinks_option {A B} (s : string) (o : option A) (f : A -> res (B * string)) :
  (forall a, o = Some a -> shrinks s (f a)) -> shrinks s (of_option ValueError o ≫= f).
Proof. destruct o as [a|]; cbn; auto. Qed.

Lemma shrinks_ok {A} (s r : string) (a : A) : (String.length r < String.length s)%nat -> shrinks s (Ok (a, r)).
Proof. done. Qed.

Lemma skip_ws_length s : (String.length (skip_ws s) <= String.length s)%nat.
Proof. induction s as [|a s IH]; cbn; [done|]. destruct (json_space a); cbn; lia. Qed.

Lemma digits_length s acc n v n' r :
  digits s acc n = (v, n', r) -> (n <= n')%nat /\ (n + String.length s = n' + String.length r)%nat.
Proof.
  revert acc n. induction s as [|a s IH]; intros acc n; cbn; [intros [= <- <- <-]; cbn; lia|].
  destruct (digit_in 10 a); [intros H%IH; lia|intros [= <- <- <-]; cbn; lia].
Qed.

Lemma strip_prefix_length p s t :
  strip_prefix p s = Some t -> String.length s = (String.length p + String.length t)%nat.
Proof.
  revert s. induction p as [|a p IH]; intros s; cbn; [by intros [= ->]|].
  destruct s as [|b s]; [done|]. destruct (ascii_dec a b); [|done]. intros H%IH. cbn. lia.
Qed.

Lemma exponent_length s e r : exponent s = Some (e, r) -> (String.length r < String.length s)%nat.
Proof.
  unfold exponent, sign_of. destruct s as [|a t]; [done|]. case_decide; [|done].
  destruct (strip_prefix "-" t) as [u|] eqn:E1; [|destruct (strip_prefix "+" t) as [u|] eqn:E2].
  1: apply strip_prefix_length in E1. 2: apply strip_prefix_length in E2. 3: pose (u := t).
  all: destruct (digits _ 0 0) as [[v [|n]] r'] eqn:Ed; [done|]; intros [= _ <-]; apply digits_length in Ed; cbn in *; lia.
Qed.

Lemma match_word_length s j r : match_word s = Some (j, r) -> (String.length r < String.length s)%nat.
Proof.
  unfold match_word. intros H.
  assert (Hin : (j, r) ∈ omap (fun w => r ← strip_prefix w.1 s; Some (w.2, r)) json_words).
  { destruct (omap _ json_words) as [|x l]; [done|]. injection H as ->. by left. }
  apply list_elem_of_omap in Hin as ([w v] & Hw & E). cbn [fst snd] in E.
  destruct (strip_prefix w s) as [t|] eqn:Et; [|done]. injection E as -> ->. apply strip_prefix_length in Et.
  assert (Hl : Forall (fun w => (0 < String.length w.1)%nat) json_words) by (repeat constructor).
  rewrite Forall_forall in Hl. specialize (Hl _ Hw). cbn in Hl. lia.
Qed.

Lemma match_number_length s j r : match_number s = Some (j, r) -> (String.length r < String.length s)%nat.
Proof.
  unfold match_number.
  assert (Hneg : exists neg t, (match strip_prefix "-" s with Some t => (true, t) | None => (false, s) end) = (neg, t)
    /\ (String.length t <= String.length s)%nat).
  { destruct (strip_prefix "-" s) as [t|] eqn:E; [|by eexists _, _]. apply strip_prefix_length in E.
    eexists _, _. split; [done|]. lia. }
  destruct Hneg as (neg & t & -> & Ht).
  destruct t as [|a t]; [done|].
  assert (Hint : forall ip r1, (if ascii_dec a "0" then Some (0, t) else
    if is_digit a then let '(v, _, r) := digits (String a t) 0 0 in Some (v, r) else None) = Some (ip, r1) ->
    (String.length r1 <= String.length t)%nat).
  { intros ip r1. destruct (ascii_dec a "0"); [by intros [= <- <-]|]. destruct (is_digit a) eqn:Hd; [|done].
    unfold is_digit in Hd. apply bool_decide_eq_true in Hd as [v Hv]. cbn [digits]. rewrite Hv.
    destruct (digits t (0 * 10 + v) 1) as [[w k] u] eqn:E. intros [= <- <-].
    apply digits_length in E. lia. }
  destruct (if ascii_dec a "0" then _ else _) as [[ip r1]|]; [|done]. specialize (Hint _ _ eq_refl). cbn [mbind option_bind].
  assert (Hfrac : exists m nf r2, match strip_prefix "." r1 with
      | Some r' => match digits r' ip 0 with (_, O, _) => (ip, O, r1) | x => x end
      | None => (ip, O, r1) end = (m, nf, r2) /\ (String.length r2 <= String.length r1)%nat).
  { destruct (strip_prefix "." r1) as [r'|] eqn:E; [|by eexists _, _, _]. apply strip_prefix_length in E.
    destruct (digits r' ip 0) as [[v [|n]] u] eqn:Ed; [by eexists _, _, _|]. apply digits_length in Ed.
    eexists _, _, _. split; [done|]. cbn in E. lia. }
  destruct Hfrac as (m & nf & r2 & -> & Hr2). cbn in Ht.
  destruct (exponent r2) as [[e r3]|] eqn:Ee; [|case_match]; intros [= _ <-]; [|cbn; lia..].
  apply exponent_length in Ee. cbn. lia.
Qed.

Lemma string_len_ind (P : string -> Prop) :
  (forall s, (forall t, (String.length t < String.length s)%nat -> P t) -> P s) -> forall s, P s.
Proof.
  intros H s. assert (Hn : forall n t, (String.length t < n)%nat -> P t).
  { induction n as [|n IH]; intros t Ht; [lia|]. apply H. intros u Hu. apply IH. lia. }
  apply (Hn (S (String.length s))). lia.
Qed.

Lemma scanstring_shrinks s : shrinks s (scanstring s).
Proof.
  induction s as [s IH] using string_len_ind. destruct s as [|a s]; [done|].
  assert (Hrec : forall t (f : string -> string), (String.length t <= String.length s)%nat ->
    shrinks (String a s) ('(u, rest) ← scanstring t; Ok (f u, rest))).
  { intros t f Ht. apply (shrinks_bind _ t); [apply IH; cbn; lia|cbn; lia|].
    intros u r Hr. apply shrinks_ok. cbn. lia. }
  cbn [scanstring]. destruct (ascii_dec a quote_char); [apply shrinks_ok; cbn; lia|].
  destruct (code a <? 32); [done|]. destruct (ascii_dec a backslash); [|by apply (Hrec s (String a))].
  destruct s as [|b t]; [done|]. destruct (ascii_dec b "u").
  - destruct t as [|h1 [|h2 [|h3 [|h4 r]]]]; try done. apply shrinks_option. intros c _.
    assert (Hr : shrinks (String a (String b (String h1 (String h2 (String h3 (String h4 r))))))
      ('(u, rest) ← scanstring r; Ok (utf8 c ++ u, rest))) by (apply Hrec; cbn; lia).
    destruct r as [|x [|y [|k1 [|k2 [|k3 [|k4 r']]]]]]; try exact Hr. case_decide; [|exact Hr].
    apply shrinks_option. intros d _. destruct (low_surrogate d); [|exact Hr]. apply Hrec. cbn. lia.
  - apply shrinks_option. intros x _. apply (Hrec t (String x)). cbn. lia.
Qed.

Lemma after_char_length c s t : after_char c s = Some t -> (String.length t < String.length s)%nat.
Proof. intros H%strip_prefix_length. pose proof (skip_ws_length s). cbn in H. lia. Qed.

Lemma scan_total fuel :
  (forall s, (2 * String.length s + 1 <= fuel)%nat -> shrinks s (scan_once fuel s)) /\
  (forall s, (2 * String.length s + 2 <= fuel)%nat -> shrinks s (scan_elems fuel s)) /\
  (forall o s, (2 * String.length s + 2 <= fuel)%nat -> shrinks s (scan_members fuel o s)).
Proof.
  induction fuel as [|f (IH1 & IH2 & IH3)]; [split_and!; intros; lia|]. split_and!.
  - intros [|a s] Hf; [done|]. cbn [scan_once]. pose proof (skip_ws_length s) as Hw. cbn in Hf.
    destruct (ascii_dec a quote_char); [|destruct (ascii_dec a "{"); [|destruct (ascii_dec a "[")]].
    + apply (shrinks_bind _ s); [apply scanstring_shrinks|cbn; lia|]. intros t r Hr. apply shrinks_ok. cbn. lia.
    + destruct (after_char "}" s) as [r|] eqn:E; [apply after_char_length in E; apply shrinks_ok; cbn; lia|].
      apply (shrinks_bind _ (skip_ws s)); [apply IH3; lia|cbn; lia|]. intros o r Hr. apply shrinks_ok. cbn. lia.
    + destruct (after_char "]" s) as [r|] eqn:E; [apply after_char_length in E; apply shrinks_ok; cbn; lia|].
      apply (shrinks_bind _ (skip_ws s)); [apply IH2; lia|cbn; lia|]. intros o r Hr. apply shrinks_ok. cbn. lia.
    + destruct (match_word (String a s)) as [[j r]|] eqn:E; [by apply match_word_length in E|].
      destruct (match_number (String a s)) as [[j r]|] eqn:E'; [by apply match_number_length in E'|done].
  - intros s Hf. cbn [scan_elems]. apply (shrinks_bind _ s); [apply IH1; lia|done|]. intros j r Hr.
    destruct (after_char "]" r) as [r'|] eqn:E; [apply after_char_length in E; apply shrinks_ok; lia|].
    destruct (after_char "," r) as [r'|] eqn:E'; [|done]. apply after_char_length in E'.
    pose proof (skip_ws_length r'). apply (shrinks_bind _ (skip_ws r')); [apply IH2; lia|lia|].
    intros l r'' Hr'. apply shrinks_ok. lia.
  - intros o s Hf. cbn [scan_members]. apply shrinks_option. intros s' Es%strip_prefix_length. cbn in Es.
    apply (shrinks_bind _ s'); [apply scanstring_shrinks|lia|]. intros k r Hr.
    apply shrinks_option. intros r' Er%after_char_length. pose proof (skip_ws_length r').
    apply (shrinks_bind _ (skip_ws r')); [apply IH1; lia|lia|]. intros v t Ht.
    destruct (after_char "}" t) as [t'|] eqn:E; [apply after_char_length in E; apply shrinks_ok; lia|].
    destruct (after_char "," t) as [t'|] eqn:E'; [|done]. apply after_char_length in E'.
    pose proof (skip_ws_length t'). specialize (IH3 (obj_set k v o) (skip_ws t') ltac:(lia)).
    destruct (scan_members _ _ _) as [[o' u]|]; [|done]. cbn in *. lia.
Qed.

(** [json.loads] returns or raises [ValueError], on any text. *)
Lemma json_loads_total s : (exists j, json_loads s = Ok j) \/ json_loads s = Exc ValueError.
Proof.
  unfold json_loads. pose proof (proj1 (scan_total (json_fuel (skip_ws s))) (skip_ws s) ltac:(done)) as H.
  destruct (scan_once _ _) as [[j r]|e]; cbn in *; [|right; congruence].
  destruct (skip_ws r); [left; by exists j|by right].
Qed.

(** ** Compact text *)

Definition json_escape_char (a : ascii) : string :=
  if decide (a = quote_char \/ a = backslash) then String backslash (String a "")
  else if code a <? 32
       then String backslash ("u00" ++ String (hex_digit (code a / 16)) (String (hex_digit (code a mod 16)) ""))
  else String a "".

Fixpoint json_escape (s : string) : string :=
  match s with EmptyString => "" | String a s' => json_escape_char a ++ json_escape s' end.

Definition json_string (s : string) : string := String quote_char (json_escape s ++ String quote_char "").

(** Floats are not printed; see [plain]. *)
Fixpoint json_text (j : json) : string :=
  match j with
  | JNull => "null"
  | JBool b => if b then "true" else "false"
  | JInt z => str_Z z
  | JFloat _ => ""
  | JStr s => json_string s
  | JList l => "[" ++ join_with "," (json_text <$> l) ++ "]"
  | JObj o => "{" ++ join_with "," ((fun kv => json_string kv.1 ++ ":" ++ json_text kv.2) <$> o) ++ "}"
  end.

(** Values that the compact text shows in full: no floats, no key twice. *)
Fixpoint plain (j : json) : bool :=
  match j with
  | JFloat _ => false
  | JList l => forallb plain l
  | JObj o => bool_decide (NoDup o.*1) && forallb (fun kv => plain kv.2) o
  | _ => true
  end.

Section json_ind.
Context (P : json -> Prop).
Context (HN : P JNull) (HB : forall b, P (JBool b)) (HI : forall z, P (JInt z)) (HF : forall x, P (JFloat x))
  (HS : forall s, P (JStr s)) (HL : forall l, Forall P l -> P (JList l))
  (HO : forall o, Forall (fun kv => P kv.2) o -> P (JObj o)).

Fixpoint json_rect_nested (j : json) : P j :=
  match j with
  | JNull => HN
  | JBool b => HB b
  | JInt z => HI z
  | JFloat x => HF x
  | JStr s => HS s
  | JList l => HL l (list_ind (Forall P) (Forall_nil_2 P) (fun x l' H => Forall_cons_2 P x l' (json_rect_nested x) H) l)
  | JObj o => HO o (list_ind (Forall (fun kv => P kv.2)) (Forall_nil_2 _)
                     (fun x l' H => Forall_cons_2 (fun kv => P kv.2) x l' (json_rect_nested x.2) H) o)
  end.
End json_ind.

(** ** The compact text is read back *)

Lemma scan_u h1 h2 h3 h4 c r :
  hex4 h1 h2 h3 h4 = Some c -> high_surrogate c = false ->
  scanstring (String backslash (String "u" (String h1 (String h2 (String h3 (String h4 r)))))) =
    ('(u, rest) ← scanstring r; Ok (utf8 c ++ u, rest)).
Proof.
  intros Hc Hh. cbn [scanstring]. cbn - [hex4 utf8 high_surrogate]. rewrite Hc. cbn [of_option mbind res_bind].
  destruct r as [|x [|y [|k1 [|k2 [|k3 [|k4 r']]]]]]; try reflexivity. case_decide as Hd; [destruct Hd as (Hd & _); congruence|reflexivity].
Qed.

Lemma scan_escaped a X :
  scanstring (json_escape_char a ++ X) = ('(u, rest) ← scanstring X; Ok (String a u, rest)).
Proof.
  unfold json_escape_char. case_decide as Hq; [by destruct Hq as [->| ->]|].
  destruct (Z.ltb_spec (code a) 32) as [Hc|Hc].
  - assert (Hu : hex4 "0" "0" (hex_digit (code a / 16)) (hex_digit (code a mod 16)) = Some (code a) /\
      utf8 (code a) = String a "").
    { clear Hq. destruct a as [[] [] [] [] [] [] [] []]; vm_compute in Hc; try discriminate Hc; by vm_compute. }
    destruct Hu as [Hu He]. etransitivity; [apply (scan_u "0" "0" _ _ (code a) X Hu)|by rewrite He].
    unfold high_surrogate. rewrite (proj2 (Z.leb_gt _ _)) by lia. done.
  - change (String a "" ++ X) with (String a X). cbn [scanstring].
    destruct (ascii_dec a quote_char) as [?|_]; [by destruct Hq; left|]. rewrite (proj2 (Z.ltb_ge _ _)) by done.
    destruct (ascii_dec a backslash) as [?|_]; [by destruct Hq; right|]. done.
Qed.

Lemma scan_json_string s rest : scanstring (json_escape s ++ String quote_char rest) = Ok (s, rest).
Proof.
  induction s as [|a s IH]; [done|]. cbn [json_escape]. rewrite append_assoc, scan_escaped, IH. done.
Qed.

Lemma json_string_app s rest : json_string s ++ rest = String quote_char (json_escape s ++ String quote_char rest).
Proof. unfold json_string. by rewrite append_cons, append_assoc. Qed.

(** *** Numbers *)

Lemma digits_take s acc n :
  exists k, digits s acc n = ((take_digits 10 s acc).1, k, (take_digits 10 s acc).2).
Proof.
  revert acc n. induction s as [|a s IH]; intros acc n; cbn; [by eexists|].
  destruct (digit_in 10 a); [apply IH|by eexists].
Qed.

(** What may follow a value in compact text. *)
Definition ends (s : string) : bool :=
  match s with EmptyString => true | String a _ => bool_decide (a ∈ [","; "]"; "}"]%char) end.

Lemma ends_cases s : ends s = true -> s = "" \/ exists t, s = String "," t \/ s = String "]" t \/ s = String "}" t.
Proof.
  destruct s as [|a t]; [by left|]. cbn. intros H%bool_decide_eq_true. rewrite !elem_of_cons, elem_of_nil in H.
  right. exists t. naive_solver.
Qed.

Lemma ends_number ip rest :
  ends rest = true ->
  take_digits 10 rest ip = (ip, rest) /\ strip_prefix "." rest = None /\ exponent rest = None.
Proof. intros [->|(t & [->|[->| ->]])]%ends_cases; done. Qed.

Lemma dec_digits_lead fuel z acc :
  0 < z < 2 ^ Z.of_nat fuel ->
  exists d t, dec_digits fuel z acc = String (ascii_of_N (Z.to_N (48 + d))) t /\ 1 <= d < 10.
Proof.
  revert z acc. induction fuel as [|fuel IH]; intros z acc Hz; [cbn in Hz; lia|].
  rewrite dec_digits_step. destruct (Z.ltb_spec z 10).
  - rewrite Z.mod_small by lia. exists z, acc. split; [done|lia].
  - apply IH. rewrite Nat2Z.inj_succ, Z.pow_succ_r in Hz by lia.
    split; [apply Z.div_str_pos; lia|]. apply Z.div_lt_upper_bound; lia.
Qed.

(** The text of a natural number: [0], or a digit that is not and the rest. *)
Lemma str_Z_lead z :
  0 <= z -> (z = 0 /\ str_Z z = "0") \/
    exists d t, str_Z z = String (ascii_of_N (Z.to_N (48 + d))) t /\ 1 <= d < 10.
Proof.
  intros Hz. destruct (decide (z = 0)) as [->|]; [by left|right].
  unfold str_Z. rewrite (proj2 (Z.ltb_ge _ _)) by lia. apply dec_digits_lead. split; [lia|]. by apply log2_fuel.
Qed.

Lemma match_number_digits s z k rest (neg : bool) :
  digits s 0 0 = (z, k, rest) -> ends rest = true -> strip_prefix "-" s = None ->
  match s with String a _ => a <> "0"%char /\ is_digit a = true | EmptyString => False end ->
  match_number (if neg then String "-" s else s) = Some (JInt (if neg then - z else z), rest).
Proof.
  intros Hd Hr Hm Ha. destruct (ends_number z rest Hr) as (_ & Hp & He). destruct s as [|a s]; [done|].
  destruct Ha as [Ha0 Had]. unfold match_number.
  assert (Hs : match strip_prefix "-" (if neg then String "-" (String a s) else String a s) with
    | Some t => (true, t) | None => (false, if neg then String "-" (String a s) else String a s) end = (neg, String a s)).
  { destruct neg; [done|by rewrite Hm]. }
  rewrite Hs. destruct (ascii_dec a "0"); [done|]. rewrite Had, Hd. cbn [mbind option_bind]. rewrite Hp, He. done.
Qed.

(** A natural number in front of [rest], plain and after a minus sign. *)
Record reads_number (z : Z) (rest : string) (s : string) : Prop := {
  rn_head : match s with String a _ => a ∉ [quote_char; "{"; "["; "-"]%char /\ json_space a = false | "" => False end;
  rn_word : match_word s = None /\ match_word (String "-" s) = None;
  rn_number : match_number s = Some (JInt z, rest) /\ match_number (String "-" s) = Some (JInt (- z), rest);
}.

Lemma str_Z_reads z rest : 0 <= z -> ends rest = true -> reads_number z rest (str_Z z ++ rest).
Proof.
  intros Hz Hr. destruct (ends_number z rest Hr) as (Ht & Hp & He).
  destruct (str_Z_lead z Hz) as [[-> ->]|(d & t & E & Hd)].
  - rewrite append_cons. change ("" ++ rest) with rest. split; [split; [set_solver|done]|done|].
    unfold match_number. cbn - [exponent strip_prefix]. change (strip_prefix "-" (String "0" rest)) with (@None string).
    change (strip_prefix "-" (String "-" (String "0" rest))) with (Some (String "0" rest)).
    cbn - [exponent strip_prefix]. by rewrite Hp, He.
  - pose proof (take_str_Z z rest Hz) as Hd'. rewrite E, append_cons, Ht in Hd'. rewrite E, append_cons.
    destruct (digits_take (String (ascii_of_N (Z.to_N (48 + d))) (t ++ rest)) 0 0) as [k Hk]. rewrite Hd' in Hk.
    assert (Hc : d = 1 \/ d = 2 \/ d = 3 \/ d = 4 \/ d = 5 \/ d = 6 \/ d = 7 \/ d = 8 \/ d = 9) by lia.
    clear E Hd Hd'. generalize dependent (t ++ rest). intros u Hk.
    repeat (destruct Hc as [->|Hc]); [..|subst d];
      (split; [split; [set_solver|done]|done|];
       split; [by apply (match_number_digits _ _ k _ false)|by apply (match_number_digits _ _ k _ true)]).
Qed.

(** *** Values *)

Lemma skip_ws_cons a s : json_space a = false -> skip_ws (String a s) = String a s.
Proof. intros H. cbn. by rewrite H. Qed.

Lemma after_char_ne c a s : json_space a = false -> a <> c -> after_char c (String a s) = None.
Proof. intros H Hn. unfold after_char. rewrite skip_ws_cons by done. cbn. by destruct (ascii_dec c a). Qed.

(** A value does not start with a blank nor with a closing bracket. *)
Definition opens (s : string) : Prop :=
  match s with String a _ => json_space a = false /\ a ∉ ["]"; "}"]%char | "" => False end.

Lemma opens_app s t : opens s -> opens (s ++ t).
Proof. by destruct s. Qed.

Lemma opens_skip s : opens s -> skip_ws s = s.
Proof. destruct s; [done|]. intros []. by apply skip_ws_cons. Qed.

Lemma opens_after c s : opens s -> c ∈ ["]"; "}"]%char -> after_char c s = None.
Proof. destruct s as [|a s]; [done|]. intros [Hs Ha] Hc. apply after_char_ne; [done|]. by intros ->. Qed.

Lemma str_Z_opens z : opens (str_Z z).
Proof.
  unfold str_Z. assert (Hd : forall fuel z, (0 < fuel)%nat -> 0 <= z -> opens (dec_digits fuel z "")).
  { intros fuel w Hf Hw. destruct (dec_digits_cons fuel w "" Hf Hw) as (d & t & -> & Hd).
    assert (Hc : d = 0 \/ d = 1 \/ d = 2 \/ d = 3 \/ d = 4 \/ d = 5 \/ d = 6 \/ d = 7 \/ d = 8 \/ d = 9) by lia.
    repeat (destruct Hc as [->|Hc]; [split; [done|set_solver]|]). subst d. split; [done|set_solver]. }
  destruct (Z.ltb_spec z 0); [split; [done|set_solver]|]. apply Hd; lia.
Qed.

Lemma json_text_opens j : plain j = true -> opens (json_text j).
Proof. destruct j as [|[]|z| | | |]; try done; try (intros _; split; [done|set_solver]). intros _. apply str_Z_opens. Qed.

(** [j] is read back from its text, by any fuel for that text. *)
Definition reads_back (j : json) : Prop :=
  forall fuel rest, ends rest = true -> (2 * String.length (json_text j ++ rest) + 1 <= fuel)%nat ->
    scan_once fuel (json_text j ++ rest) = Ok (j, rest).

Lemma scan_once_number f s j r :
  match s with String a _ => a ∉ [quote_char; "{"; "["]%char | "" => False end ->
  match_word s = None -> match_number s = Some (j, r) -> scan_once (S f) s = Ok (j, r).
Proof.
  destruct s as [|a s]; [done|]. intros Ha Hw Hn. cbn [scan_once].
  destruct (ascii_dec a quote_char) as [->|_]; [set_solver|].
  destruct (ascii_dec a "{") as [->|_]; [set_solver|]. destruct (ascii_dec a "[") as [->|_]; [set_solver|].
  by rewrite Hw, Hn.
Qed.

Lemma reads_int z : reads_back (JInt z).
Proof.
  intros [|f] rest Hr Hf; [cbn in Hf; lia|]. cbn [json_text]. unfold str_Z.
  destruct (Z.ltb_spec z 0) as [Hz|Hz].
  - rewrite append_cons. pose proof (str_Z_reads (- z) rest ltac:(lia) Hr) as [_ [_ Hw] [_ Hn]].
    unfold str_Z in Hw, Hn. rewrite (proj2 (Z.ltb_ge _ _)), Z.opp_involutive in * by lia.
    apply scan_once_number; [set_solver|done|done].
  - pose proof (str_Z_reads z rest Hz Hr) as [Hh [Hw _] [Hn _]]. unfold str_Z in Hh, Hw, Hn.
    rewrite (proj2 (Z.ltb_ge _ _)) in * by lia. apply scan_once_number; [|done|done].
    revert Hh. case (_ ++ rest); [done|]. intros a t [Ha _]. set_solver.
Qed.

Lemma app_length (s t : string) : String.length (s ++ t) = (String.length s + String.length t)%nat.
Proof. induction s as [|a s IH]; [done|]. rewrite append_cons. cbn. by rewrite IH. Qed.

Lemma reads_elems l :
  Forall (fun j => reads_back j /\ opens (json_text j)) l -> l <> []%list ->
  forall fuel rest, ends rest = true ->
    (2 * String.length (join_with "," (json_text <$> l) ++ String "]" rest) + 2 <= fuel)%nat ->
    scan_elems fuel (join_with "," (json_text <$> l) ++ String "]" rest) = Ok (l, rest).
Proof.
  induction 1 as [|j l [Hj Ho] Hl IH]; [done|]. intros _ [|f] rest Hr Hf; [lia|]. cbn [scan_elems].
  destruct l as [|j' l].
  - change (join_with "," (json_text <$> [j]%list)) with (json_text j) in *.
    rewrite (Hj f) by (done || lia). reflexivity.
  - change (join_with "," (json_text <$> (j :: j' :: l)%list))
      with (json_text j ++ "," ++ join_with "," (json_text <$> (j' :: l)%list)) in *.
    rewrite !append_assoc in *. rewrite app_length in Hf. cbn [String.length] in Hf.
    rewrite (Hj f) by (done || (rewrite app_length; cbn [String.length] in *; lia)). cbn [mbind res_bind].
    change ("," ++ ?x) with (String "," x) in *. cbn [String.length] in Hf.
    rewrite after_char_ne by done. change (after_char "," (String "," ?x)) with (Some x). cbn beta iota.
    apply Forall_cons in Hl as [[_ Ho'] _]. rewrite opens_skip.
    + rewrite IH by (done || lia). reflexivity.
    + apply opens_app. destruct l; [done|]. by apply opens_app.
Qed.

Definition member_text (kv : string * json) : string := json_string kv.1 ++ ":" ++ json_text kv.2.

Lemma obj_set_fresh k v o : k ∉ o.*1 -> obj_set k v o = (o ++ [(k, v)])%list.
Proof.
  induction o as [|[k' v'] o IH]; [done|]. cbn. intros Hk. rewrite not_elem_of_cons in Hk. destruct Hk as [Hne Hk].
  rewrite decide_False by congruence. by rewrite IH.
Qed.

(** One member: its key, its value, and what follows. *)
Lemma reads_member f o k j rest :
  reads_back j -> opens (json_text j) -> ends rest = true ->
  (2 * String.length (json_text j ++ rest) + 1 <= f)%nat ->
  scan_members (S f) o (member_text (k, j) ++ rest) =
    match after_char "}" rest, after_char "," rest with
    | Some t', _ => Ok (obj_set k j o, t')
    | None, Some t' => scan_members f (obj_set k j o) (skip_ws t')
    | None, None => Exc ValueError
    end.
Proof.
  intros Hj Ho Hr Hf. unfold member_text. cbn [fst snd scan_members]. rewrite !append_assoc, json_string_app.
  change (strip_prefix (String quote_char "") (String quote_char ?x)) with (Some x). cbn [of_option mbind res_bind].
  rewrite scan_json_string. cbn [mbind res_bind]. change (":" ++ ?x) with (String ":" x).
  change (after_char ":" (String ":" ?x)) with (Some x). cbn [of_option mbind res_bind].
  rewrite opens_skip by by apply opens_app. by rewrite (Hj f).
Qed.

Lemma member_length k j rest :
  (String.length (json_text j ++ rest) + 2 <= String.length (member_text (k, j) ++ rest))%nat.
Proof. unfold member_text, json_string. cbn [fst snd]. rewrite !app_length. cbn [String.length]. rewrite !app_length. cbn. lia. Qed.

Lemma reads_members o :
  Forall (fun kv => reads_back kv.2 /\ opens (json_text kv.2)) o -> o <> []%list ->
  forall acc fuel rest, NoDup (acc ++ o)%list.*1 ->
    (2 * String.length (join_with "," (member_text <$> o) ++ String "}" rest) + 2 <= fuel)%nat ->
    scan_members fuel acc (join_with "," (member_text <$> o) ++ String "}" rest) = Ok ((acc ++ o)%list, rest).
Proof.
  induction 1 as [|[k j] o [Hj Ho] Hl IH]; [done|]. intros _ acc [|f] rest Hnd Hf; [lia|].
  assert (Hk : k ∉ acc.*1).
  { rewrite fmap_app in Hnd. apply NoDup_app in Hnd as (_ & Hd & _). intros Hk. apply (Hd k Hk). by left. }
  cbn [snd] in Hj, Ho. destruct o as [|[k' j'] o].
  - change (join_with "," (member_text <$> [(k, j)]%list)) with (member_text (k, j)) in *.
    pose proof (member_length k j (String "}" rest)). rewrite reads_member by (done || lia). cbn. by rewrite obj_set_fresh.
  - change (join_with "," (member_text <$> ((k, j) :: (k', j') :: o)%list))
      with (member_text (k, j) ++ "," ++ join_with "," (member_text <$> ((k', j') :: o)%list)) in *.
    rewrite !append_assoc in *. pose proof (member_length k j ("," ++ join_with "," (member_text <$> ((k', j') :: o)%list) ++ String "}" rest)).
    rewrite reads_member by (done || lia). rewrite app_length in Hf. cbn [String.length] in Hf.
    change ("," ++ ?x) with (String "," x) in *. cbn [String.length] in Hf.
    rewrite after_char_ne by done. change (after_char "," (String "," ?x)) with (Some x). cbn beta iota.
    rewrite obj_set_fresh by done. rewrite opens_skip.
    + rewrite IH by first [done|lia|by rewrite <-app_assoc]. by rewrite <-app_assoc.
    + apply opens_app. destruct o; [|apply opens_app]; (split; [done|set_solver]).
Qed.

Lemma scan_open_list f s : opens s -> scan_once (S f) (String "[" s) = ('(l, r) ← scan_elems f s; Ok (JList l, r)).
Proof.
  intros Ho. etransitivity; [change (scan_once (S f) (String "[" s)) with (match after_char "]" s with
    | Some r => Ok (JList [], r) | None => '(l, r) ← scan_elems f (skip_ws s); Ok (JList l, r) end); reflexivity|].
  by rewrite opens_after, opens_skip by (done || set_solver).
Qed.

Lemma scan_open_obj f s : opens s -> scan_once (S f) (String "{" s) = ('(o, r) ← scan_members f [] s; Ok (JObj o, r)).
Proof.
  intros Ho. etransitivity; [change (scan_once (S f) (String "{" s)) with (match after_char "}" s with
    | Some r => Ok (JObj [], r) | None => '(o, r) ← scan_members f [] (skip_ws s); Ok (JObj o, r) end); reflexivity|].
  by rewrite opens_after, opens_skip by (done || set_solver).
Qed.

Lemma plain_reads j : plain j = true -> reads_back j.
Proof.
  induction j as [|[]|z|x|s|l IH|o IH] using json_rect_nested; intros Hp; try done.
  all: try (intros [|f] rest Hr Hf; [cbn in Hf; lia|]; reflexivity).
  - apply reads_int.
  - intros [|f] rest Hr Hf; [lia|]. cbn [json_text]. rewrite json_string_app. cbn [scan_once].
    rewrite scan_json_string. reflexivity.
  - cbn [plain] in Hp. rewrite forallb_forall in Hp.
    assert (Hl : Forall (fun j => reads_back j /\ opens (json_text j)) l).
    { rewrite Forall_forall in IH |- *. intros j Hj. assert (plain j = true) by (apply Hp; by apply list_elem_of_In).
      split; [by apply IH|by apply json_text_opens]. }
    intros [|f] rest Hr Hf; [lia|]. cbn [json_text] in *. rewrite !append_assoc in *.
    change ("[" ++ ?x) with (String "[" x) in *. change ("]" ++ ?x) with (String "]" x) in *. cbn [String.length] in Hf.
    destruct l as [|j l]; [reflexivity|].
    assert (Ho : opens (join_with "," (json_text <$> (j :: l)%list) ++ String "]" rest)).
    { apply opens_app. apply Forall_cons in Hl as [[_ Ho] _]. destruct l; [done|]. by apply opens_app. }
    rewrite scan_open_list by done. rewrite reads_elems by (done || lia). reflexivity.
  - cbn [plain] in Hp. apply andb_true_iff in Hp as [Hnd%bool_decide_eq_true Hp]. rewrite forallb_forall in Hp.
    assert (Hl : Forall (fun kv => reads_back kv.2 /\ opens (json_text kv.2)) o).
    { rewrite Forall_forall in IH |- *. intros kv Hj. assert (plain kv.2 = true) by (apply Hp; by apply list_elem_of_In).
      split; [by apply IH|by apply json_text_opens]. }
    intros [|f] rest Hr Hf; [lia|]. cbn [json_text] in *. change ((fun kv : string * json => json_string kv.1 ++ ":" ++ json_text kv.2) <$> o) with (member_text <$> o) in *.
    rewrite !append_assoc in *.
    change ("{" ++ ?x) with (String "{" x) in *. change ("}" ++ ?x) with (String "}" x) in *. cbn [String.length] in Hf.
    destruct o as [|[k j] o]; [reflexivity|].
    assert (Ho : opens (join_with "," (member_text <$> ((k, j) :: o)%list) ++ String "}" rest)).
    { apply opens_app. destruct o; [|apply opens_app]; (split; [done|set_solver]). }
    rewrite scan_open_obj by done. rewrite reads_members by (done || lia). reflexivity.
Qed.

Lemma json_text_read j : plain j = true -> json_loads (json_text j) = Ok j.
Proof.
  intros Hp. unfold json_loads. rewrite opens_skip by by apply json_text_opens.
  pose proof (plain_reads j Hp (json_fuel (json_text j)) "" eq_refl) as H. rewrite append_nil_r in H.
  rewrite H by done. reflexivity.
Qed.

(** JSON text is read back.  [json.loads] of the compact text of a value
    without floats and duplicate keys is that value; and on any text, with the
    fuel chosen, it returns or raises [ValueError]. *)
Theorem json_loads_text :
  (forall j, plain j = true -> json_loads (json_text j) = Ok j) /\
  (forall s, (exists j, json_loads s = Ok j) \/ json_loads s = Exc ValueError).
Proof. split; [exact json_text_read|exact json_loads_total]. Qed.
