(* ===== verification/UpfMaps.v ===== *)
(** * upf_maps.h: the value types, the counters and the map definitions

    The structs of the shared header as layouts ([__u16]/[__u32]/[__u64] with
    the natural alignment of the C ABI), each with a record of its fields and
    a reader that loads the fields from the memory of a map value; the metric
    indices; and the map definitions (type, key and value size, capacity). *)

From S2P Require Import Prelude.

(** ** Struct layout *)

Inductive cty := c_u16 | c_u32 | c_u64.

Definition cty_size (t : cty) : nat :=
  match t with c_u16 => 2 | c_u32 => 4 | c_u64 => 8 end%nat.

Definition align_up (off a : nat) : nat := ((off + a - 1) / a * a)%nat.

Fixpoint place (off : nat) (fs : list cty) : list (nat * nat) :=
  match fs with
  | [] => []
  | t :: fs' => let o := align_up off (cty_size t) in
      (o, cty_size t) :: place (o + cty_size t) fs'
  end.

Definition c_sizeof (fs : list cty) : nat :=
  match last (place 0 fs) with
  | Some (o, s) => align_up (o + s) (foldr Nat.max 1%nat (cty_size <$> fs))
  | None => 0
  end.

(** Field number [i] of a struct value in memory. *)
Definition field (fs : list cty) (i : nat) (b : bytes) : Z :=
  match place 0 fs !! i with Some (o, s) => load o s b | None => 0 end.

Definition L_session_val : list cty := [c_u32; c_u32; c_u32; c_u32].
Definition L_pdr_val : list cty := [c_u32; c_u32; c_u32; c_u32].
Definition L_far_val : list cty := [c_u32; c_u32; c_u32; c_u32].
Definition L_qer_val : list cty := [c_u64; c_u64; c_u32; c_u32].
Definition L_qer_bucket_state : list cty := [c_u64; c_u64].
Definition L_tc_bundle_slot : list cty := [c_u32; c_u32; c_u32; c_u32; c_u32; c_u32].
Definition L_tc_bundle : list cty := [c_u32; c_u32] ++ L_tc_bundle_slot ++ L_tc_bundle_slot.
Definition L_urr_val : list cty := [c_u64; c_u64; c_u64; c_u64].
Definition L_dl_ue_val : list cty := [c_u32; c_u32; c_u16; c_u16].
Definition L_upf_config : list cty := [c_u32].

(** ** The structs *)

Record session_val := { sess_pdr_id : Z; sess_qer_id : Z; sess_far_id : Z }.

Definition read_session_val (b : bytes) : session_val :=
  {| sess_pdr_id := field L_session_val 0 b; sess_qer_id := field L_session_val 1 b;
     sess_far_id := field L_session_val 2 b |}.

Record pdr_val := { pdr_far_id : Z; pdr_qer_id : Z; pdr_precedence : Z; pdr_urr_id : Z }.

Definition read_pdr_val (b : bytes) : pdr_val :=
  {| pdr_far_id := field L_pdr_val 0 b; pdr_qer_id := field L_pdr_val 1 b;
     pdr_precedence := field L_pdr_val 2 b; pdr_urr_id := field L_pdr_val 3 b |}.

(** [enum far_action] *)
Definition FAR_DROP : Z := 0.
Definition FAR_FORWARD : Z := 1.
Definition FAR_BUFFER : Z := 2.

Record far_val := { far_action : Z; far_out_ifindex : Z; far_peer_ipv4_be : Z; far_out_teid_be : Z }.

Definition read_far_val (b : bytes) : far_val :=
  {| far_action := field L_far_val 0 b; far_out_ifindex := field L_far_val 1 b;
     far_peer_ipv4_be := field L_far_val 2 b; far_out_teid_be := field L_far_val 3 b |}.

Record qer_val := { mbr_ul_bps : Z; mbr_dl_bps : Z; burst_bytes : Z }.

Definition read_qer_val (b : bytes) : qer_val :=
  {| mbr_ul_bps := field L_qer_val 0 b; mbr_dl_bps := field L_qer_val 1 b;
     burst_bytes := field L_qer_val 2 b |}.

(** The dynamic state of one token bucket (per CPU, or shared). *)
Record qer_bucket_state := { tokens_bytes : Z; last_ns : Z }.

Record tc_bundle_slot :=
  { slot_far_id : Z; slot_qer_id : Z; slot_urr_id : Z; slot_precedence : Z; slot_generation : Z }.

#[global] Instance tc_bundle_slot_eq_dec : EqDecision tc_bundle_slot.
Proof. solve_decision. Defined.

Record tc_bundle := { bundle_active : Z; bundle_slot0 : tc_bundle_slot; bundle_slot1 : tc_bundle_slot }.

(** Slot [i] of a bundle value: fields [2 + 6*i ..] of the flattened layout. *)
Definition read_slot (i : nat) (b : bytes) : tc_bundle_slot :=
  let f j := field L_tc_bundle (2 + 6 * i + j) b in
  {| slot_far_id := f 0%nat; slot_qer_id := f 1%nat; slot_urr_id := f 2%nat;
     slot_precedence := f 3%nat; slot_generation := f 4%nat |}.

Definition read_tc_bundle (b : bytes) : tc_bundle :=
  {| bundle_active := field L_tc_bundle 0 b;
     bundle_slot0 := read_slot 0 b; bundle_slot1 := read_slot 1 b |}.

Record urr_val := { bytes_ul : Z; bytes_dl : Z; pkts_ul : Z; pkts_dl : Z }.

(** [teid_be] and [gnb_ipv4_be] hold network-order memory; loaded as a host
    [__u32] they are byte-swapped, so the model keeps the raw four bytes, the
    form in which the egress programme copies them. *)
Record dl_ue_val := { ue_teid_be : bytes; ue_gnb_ipv4_be : bytes; ue_qfi : Z }.

Definition read_dl_ue_val (b : bytes) : dl_ue_val :=
  {| ue_teid_be := slice 0 4 b; ue_gnb_ipv4_be := slice 4 4 b; ue_qfi := field L_dl_ue_val 2 b |}.

(** ** Perf events *)

Record buffer_event := { be_teid : Z; be_pdr_id : Z; be_far_id : Z; be_pkt_len : Z; be_ts_ns : Z }.
Record decision_event := { de_far_id : Z; de_qer_id : Z; de_generation : Z; de_pdr_id : Z }.
Record latency_event := { le_latency_ns : Z; le_pkt_len : Z }.

(** ** Metrics *)

Inductive metric_idx :=
| M_RX_TOTAL | M_RX_GTPU | M_RX_GPDU | M_HIT | M_MISS_TEID | M_MISS_PDR
| M_PASS_NONGTP | M_PASS_CTRL | M_DROP_PARSE
| M_TC_MISS_FAR | M_TC_FAR_DROP | M_TC_FAR_FORWARD | M_TC_FAR_BUFFER
| M_TC_DECAP_ERR | M_TC_REDIRECT_ERR | M_TC_QER_PASS | M_TC_QER_DROP | M_TC_URR_UPDATED
| M_TC_DL_HIT | M_TC_DL_MISS | M_TC_DL_ENCAP_ERR
| M_MAX.

#[global] Instance metric_idx_eq_dec : EqDecision metric_idx.
Proof. solve_decision. Defined.

(** The enumerators with their C names, in declaration order. *)
Definition metric_enum : list (metric_idx * string) :=
  [(M_RX_TOTAL, "M_RX_TOTAL"); (M_RX_GTPU, "M_RX_GTPU"); (M_RX_GPDU, "M_RX_GPDU");
   (M_HIT, "M_HIT"); (M_MISS_TEID, "M_MISS_TEID"); (M_MISS_PDR, "M_MISS_PDR");
   (M_PASS_NONGTP, "M_PASS_NONGTP"); (M_PASS_CTRL, "M_PASS_CTRL"); (M_DROP_PARSE, "M_DROP_PARSE");
   (M_TC_MISS_FAR, "M_TC_MISS_FAR"); (M_TC_FAR_DROP, "M_TC_FAR_DROP");
   (M_TC_FAR_FORWARD, "M_TC_FAR_FORWARD"); (M_TC_FAR_BUFFER, "M_TC_FAR_BUFFER");
   (M_TC_DECAP_ERR, "M_TC_DECAP_ERR"); (M_TC_REDIRECT_ERR, "M_TC_REDIRECT_ERR");
   (M_TC_QER_PASS, "M_TC_QER_PASS"); (M_TC_QER_DROP, "M_TC_QER_DROP");
   (M_TC_URR_UPDATED, "M_TC_URR_UPDATED"); (M_TC_DL_HIT, "M_TC_DL_HIT");
   (M_TC_DL_MISS, "M_TC_DL_MISS"); (M_TC_DL_ENCAP_ERR, "M_TC_DL_ENCAP_ERR"); (M_MAX, "M_MAX")]%string.

(** The value C gives an enumerator: its position. *)
Definition metric_num (m : metric_idx) : nat :=
  match list_find (fun p => p.1 = m) metric_enum with Some (i, _) => i | None => 0 end.

(** ** Maps *)

Inductive map_type :=
| MT_LRU_HASH | MT_HASH | MT_ARRAY | MT_PERCPU_ARRAY | MT_PERCPU_HASH | MT_PERF_EVENT_ARRAY.

#[global] Instance map_type_eq_dec : EqDecision map_type.
Proof. solve_decision. Defined.

Record map_def := { md_type : map_type; md_ksize : nat; md_vsize : nat; md_max : Z }.

Definition map_defs : list (string * map_def) := [
  ("teid_session"%string, {| md_type := MT_LRU_HASH; md_ksize := 4; md_vsize := c_sizeof L_session_val; md_max := 65536 |});
  ("pdr_table"%string, {| md_type := MT_HASH; md_ksize := 4; md_vsize := c_sizeof L_pdr_val; md_max := 4096 |});
  ("far_table"%string, {| md_type := MT_ARRAY; md_ksize := 4; md_vsize := c_sizeof L_far_val; md_max := 4096 |});
  ("qer_table"%string, {| md_type := MT_ARRAY; md_ksize := 4; md_vsize := c_sizeof L_qer_val; md_max := 4096 |});
  ("qer_state"%string, {| md_type := MT_PERCPU_ARRAY; md_ksize := 4; md_vsize := c_sizeof L_qer_bucket_state; md_max := 4096 |});
  ("tc_bundle_map"%string, {| md_type := MT_HASH; md_ksize := 4; md_vsize := c_sizeof L_tc_bundle; md_max := 4096 |});
  ("urr_counters"%string, {| md_type := MT_PERCPU_HASH; md_ksize := 4; md_vsize := c_sizeof L_urr_val; md_max := 4096 |});
  ("dl_ue_map"%string, {| md_type := MT_HASH; md_ksize := 4; md_vsize := c_sizeof L_dl_ue_val; md_max := 65536 |});
  ("metrics"%string, {| md_type := MT_PERCPU_ARRAY; md_ksize := 4; md_vsize := 8; md_max := Z.of_nat (metric_num M_MAX) |});
  ("upf_config_map"%string, {| md_type := MT_ARRAY; md_ksize := 4; md_vsize := c_sizeof L_upf_config; md_max := 1 |});
  ("perf_events"%string, {| md_type := MT_PERF_EVENT_ARRAY; md_ksize := 4; md_vsize := 4; md_max := 0 |})].

Fixpoint assoc {A} (x : string) (l : list (string * A)) : option A :=
  match l with
  | [] => None
  | (y, a) :: l' => if decide (x = y) then Some a else assoc x l'
  end.

Definition map_def_of (name : string) : option map_def := assoc name map_defs.

Lemma assoc_elem_of {A} x (l : list (string * A)) a : assoc x l = Some a -> x ∈ l.*1.
Proof.
  induction l as [|[y b] l IH]; simpl; [done|].
  rewrite elem_of_cons. case_decide; eauto.
Qed.

Definition is_lru (name : string) : bool :=
  match map_def_of name with Some d => bool_decide (md_type d = MT_LRU_HASH) | None => false end.

(** How [bpf(2)] replaces an element: that of a hash map atomically, so that a
    programme that has found the old one keeps it; that of an array "in a
    nonatomic fashion", word by word under the programmes that point to it. *)
Definition in_place (name : string) : bool :=
  match map_def_of name with Some d => bool_decide (md_type d = MT_ARRAY) | None => false end.

(** ** What a programme reads *)

Definition lookup_fn : Type := string -> bytes -> option bytes.

(** The map reads of one invocation of a programme: its lookups and its loads
    through the pointers they return, numbered in the order of the code.
    [r_at i] is what a lookup, or the memory of an element, is at read [i];
    [r_in_place] says of which maps the elements are overwritten in place. *)
Record reads := { r_at : nat -> lookup_fn; r_in_place : string -> bool }.

(** The element that a load through a pointer reads, [v] when it was found. *)
Definition deref (m : reads) (i : nat) (name : string) (key v : bytes) : bytes :=
  if r_in_place m name then default v (r_at m i name key) else v.

(** Maps that do not change meanwhile. *)
Definition still (lookup : lookup_fn) : reads := {| r_at := fun _ => lookup; r_in_place := fun _ => false |}.

(** The maps whose elements a single [bpf(2)] call reads or writes whole
    (not per-CPU, not the perf ring). *)
Definition is_plain (d : map_def) : bool :=
  match md_type d with MT_LRU_HASH | MT_HASH | MT_ARRAY => true | _ => false end.

(** Whether [key] names an element an array map has. *)
Definition array_index (d : map_def) (key : bytes) : bool :=
  bool_decide (length key = md_ksize d) && (le_combine key <? md_max d).
