(* ===== verification/Kernel.v ===== *)
(** * The bpf(2) system call, as an interface

    The kernel is not part of the repository, so it is a parameter: a state
    type [K] with the system call [sys_bpf] on it ([BpfKernel]).  What
    bpf(2) and the map documentation promise, and the loader relies on, are
    the laws of [BpfKernelLaws].  A pointer argument of the call is the user
    buffer it points to; [contents k name key] is the value the map [name]
    holds for [key] and [fd_map k fd] the map an open descriptor refers to.

    [ref_kernel] instantiates the interface with finite maps.  No theorem
    about the program depends on it: it is there so that the laws are known to
    be consistent and so that the programs can be run. *)

From S2P Require Import Prelude Prog Sim UpfMaps.

(** The attribute structures of bpf_syscall.py, as the kernel receives them. *)
Inductive bpf_attr :=
| AttrObj (pathname : bytes) (bpf_fd file_flags : Z)
| AttrMapElem (map_fd pad : Z) (key value_or_next_key : option bytes) (flags : Z).

Record bpf_call := { call_cmd : Z; call_attr : bpf_attr; call_size : Z }.

(** The return value, [errno], and the value buffer after the call. *)
Record sysret := { sr_ret : Z; sr_errno : Z; sr_out : bytes }.

Definition BPF_MAP_LOOKUP_ELEM : Z := 1.
Definition BPF_MAP_UPDATE_ELEM : Z := 2.
Definition BPF_MAP_DELETE_ELEM : Z := 3.
Definition BPF_OBJ_GET : Z := 7.
Definition BPF_ANY : Z := 0.
Definition BPF_NOEXIST : Z := 1.
Definition BPF_EXIST : Z := 2.

Definition PIN_BASE : string := "/sys/fs/bpf/upf".

(** A C string in memory: the characters and the terminating NUL. *)
Definition c_string (s : string) : bytes := encode s ++ [Byte.x00].

Definition ENOENT : Z := 2.
Definition E2BIG : Z := 7.
Definition EBADF : Z := 9.
Definition EEXIST : Z := 17.
Definition EINVAL : Z := 22.

Class BpfKernel (K : Type) := {
  sys_bpf : bpf_call -> K -> K * sysret;
  contents : K -> string -> bytes -> option bytes;
  fd_map : K -> Z -> option string;
  kernel_ok : K -> Prop;
}.

(** The elements of [k'] are those of [k], except [key] of [name] (when
    given), and except that an LRU hash may have evicted others. *)
Definition frame `{BpfKernel K} (name : string) (key : option bytes) (k k' : K) : Prop :=
  forall n j, (n, Some j) <> (name, key) ->
    contents k' n j = contents k n j \/
    (n = name /\ is_lru n = true /\ contents k' n j = None).

Definition fds_kept `{BpfKernel K} (k k' : K) : Prop :=
  forall fd n, fd_map k fd = Some n -> fd_map k' fd = Some n.

Definition same_contents `{BpfKernel K} (k k' : K) : Prop :=
  forall n j, contents k' n j = contents k n j.

Section calls.
Context `{BpfKernel K}.

(** A descriptor and buffers fit the map [n] with definition [d]. *)
Record elem_call (k : K) (fd : Z) (n : string) (d : map_def) (key : bytes) : Prop := {
  ec_fd : fd_map k fd = Some n;
  ec_def : map_def_of n = Some d;
  ec_plain : is_plain d = true;
  ec_key : (md_ksize d <= length key)%nat;
}.
End calls.

Class BpfKernelLaws (K : Type) `{BpfKernel K} := {
  law_ok k c : kernel_ok k -> kernel_ok (fst (sys_bpf c k));
  (** keys and values have the sizes of the map definition *)
  law_wf k n d j v :
    kernel_ok k -> map_def_of n = Some d -> is_plain d = true ->
    contents k n j = Some v -> length j = md_ksize d /\ length v = md_vsize d;
  (** array maps have every index, and only those *)
  law_array k n d j :
    kernel_ok k -> map_def_of n = Some d -> md_type d = MT_ARRAY ->
    is_Some (contents k n j) <-> array_index d j = true;
  law_fds k c : kernel_ok k -> fds_kept k (fst (sys_bpf c k));
  (** [BPF_OBJ_GET] of a pinned map *)
  law_obj_get k n d sz :
    kernel_ok k -> map_def_of n = Some d ->
    let '(k', r) := sys_bpf {| call_cmd := BPF_OBJ_GET;
        call_attr := AttrObj (c_string (PIN_BASE ++ "/" ++ n)) 0 0; call_size := sz |} k in
    same_contents k k' /\
    (0 <= sr_ret r -> sr_ret r < 2 ^ 31 /\ fd_map k' (sr_ret r) = Some n);
  (** [BPF_MAP_UPDATE_ELEM] with [BPF_ANY] creates or replaces whole *)
  law_update k fd n d key v sz :
    kernel_ok k -> elem_call k fd n d key -> (md_vsize d <= length v)%nat ->
    let '(k', r) := sys_bpf {| call_cmd := BPF_MAP_UPDATE_ELEM;
        call_attr := AttrMapElem fd 0 (Some key) (Some v) BPF_ANY; call_size := sz |} k in
    if decide (0 <= sr_ret r)
    then contents k' n (take (md_ksize d) key) = Some (take (md_vsize d) v) /\
         frame n (Some (take (md_ksize d) key)) k k'
    else same_contents k k';
  (** an element that is there can be replaced, an LRU hash makes room *)
  law_update_live k fd n d key v sz :
    kernel_ok k -> elem_call k fd n d key -> (md_vsize d <= length v)%nat ->
    is_Some (contents k n (take (md_ksize d) key)) \/ is_lru n = true ->
    0 <= sr_ret (snd (sys_bpf {| call_cmd := BPF_MAP_UPDATE_ELEM;
        call_attr := AttrMapElem fd 0 (Some key) (Some v) BPF_ANY; call_size := sz |} k));
  (** [BPF_MAP_LOOKUP_ELEM] copies the element to the buffer, or fails *)
  law_lookup k fd n d key buf sz :
    kernel_ok k -> elem_call k fd n d key -> (md_vsize d <= length buf)%nat ->
    let '(k', r) := sys_bpf {| call_cmd := BPF_MAP_LOOKUP_ELEM;
        call_attr := AttrMapElem fd 0 (Some key) (Some buf) 0; call_size := sz |} k in
    same_contents k k' /\
    match contents k n (take (md_ksize d) key) with
    | Some v => 0 <= sr_ret r /\ sr_out r = v ++ drop (md_vsize d) buf
    | None => sr_ret r < 0 /\ sr_errno r = ENOENT
    end;
  (** [BPF_MAP_DELETE_ELEM] removes the element, or reports its absence *)
  law_delete k fd n d key sz :
    kernel_ok k -> elem_call k fd n d key -> md_type d <> MT_ARRAY ->
    let '(k', r) := sys_bpf {| call_cmd := BPF_MAP_DELETE_ELEM;
        call_attr := AttrMapElem fd 0 (Some key) None 0; call_size := sz |} k in
    match contents k n (take (md_ksize d) key) with
    | Some _ => 0 <= sr_ret r /\ contents k' n (take (md_ksize d) key) = None /\
                frame n (Some (take (md_ksize d) key)) k k'
    | None => sr_ret r < 0 /\ sr_errno r = ENOENT /\ same_contents k k'
    end;
}.

(** The kernel stays well-formed while a programme and its environment run. *)
Lemma exec_kernel_ok `{BpfKernelLaws K} {A} (rely : K -> K -> Prop) (c c' : prog bpf_call sysret A * K) :
  (forall k1 k2, rely k1 k2 -> kernel_ok k1 -> kernel_ok k2) ->
  exec sys_bpf rely c c' -> kernel_ok c.2 -> kernel_ok c'.2.
Proof.
  intros Hr Hx. induction Hx as [|c1 c2 c3 Hm _ IH]; [done|]. intros Hok. apply IH.
  inversion Hm as [e0 c0 k k1 k2 r Hrel Hsys]; subst. cbn in *.
  pose proof (law_ok k1 e0 (Hr _ _ Hrel Hok)) as Hk2. by rewrite Hsys in Hk2.
Qed.

Lemma watched_kernel_ok `{BpfKernelLaws K} {A} (rely : K -> K -> Prop) n (c : prog bpf_call sysret A * K) ks ws i :
  (forall k1 k2, rely k1 k2 -> kernel_ok k1 -> kernel_ok k2) ->
  watched sys_bpf rely n c ks ws -> kernel_ok c.2 -> (i <= n)%nat -> kernel_ok (ks i) /\ kernel_ok (ws i).
Proof.
  intros Hr (ps & Hp & Hn & Hw) Hok Hi.
  assert (Hlook : forall c c' : prog bpf_call sysret A * K, rtc (look sys_bpf rely) c c' -> kernel_ok c.2 -> kernel_ok c'.2).
  { intros c1 c2 Hx. induction Hx as [|c1 c2 c3 [c1' c2' Hm|p k k' Hm] _ IH]; [done|..]; intros Hk; apply IH; [|by eapply Hr].
    eapply exec_kernel_ok; [exact Hr|by apply rtc_once|done]. }
  assert (Hks : kernel_ok (ks i)).
  { induction i as [|i IH]; [exact (Hlook _ _ Hp Hok)|]. exact (Hlook _ _ (Hn i ltac:(lia)) (IH ltac:(lia))). }
  split; [done|]. destruct (Hw i Hi) as [->|[p' Hm]]; [done|].
  refine (Hlook (ps i, ks i) (p', ws i) (rtc_once _ _ _) Hks). by apply look_move.
Qed.

(** ** A reference kernel *)

Record ref_kernel := {
  rk_maps : gmap string (gmap bytes bytes);
  rk_fds : gmap Z string;
  rk_next : Z;
}.

Definition ref_init : ref_kernel := {| rk_maps := ∅; rk_fds := ∅; rk_next := 3 |}.

Definition ref_map (k : ref_kernel) (n : string) : gmap bytes bytes := default ∅ (rk_maps k !! n).

Definition ref_set (k : ref_kernel) (n : string) (m : gmap bytes bytes) : ref_kernel :=
  {| rk_maps := <[n := m]> (rk_maps k); rk_fds := rk_fds k; rk_next := rk_next k |}.

Definition ref_contents (k : ref_kernel) (n : string) (j : bytes) : option bytes :=
  match map_def_of n with
  | Some d =>
      if is_plain d then
        match md_type d with
        | MT_ARRAY => if array_index d j
                      then Some (default (replicate (md_vsize d) Byte.x00) (ref_map k n !! j)) else None
        | _ => ref_map k n !! j
        end
      else None
  | None => None
  end.

Definition map_names : list string := map_defs.*1.

Definition name_of_path (p : bytes) : option string :=
  snd <$> list_find (fun n => p = c_string (PIN_BASE ++ "/" ++ n)) map_names.

Arguments name_of_path : simpl never.
Arguments c_string : simpl never.

Definition fail (errno : Z) (k : ref_kernel) : ref_kernel * sysret :=
  (k, {| sr_ret := -1; sr_errno := errno; sr_out := [] |}).
Definition success (ret : Z) (out : bytes) (k : ref_kernel) : ref_kernel * sysret :=
  (k, {| sr_ret := ret; sr_errno := 0; sr_out := out |}).

(** Make room in a full LRU hash by dropping one element. *)
Definition ref_evict (d : map_def) (m : gmap bytes bytes) : gmap bytes bytes :=
  if decide (Z.of_nat (size m) < md_max d) then m
  else match map_to_list m with (j, _) :: _ => delete j m | [] => m end.

Definition ref_update (n : string) (d : map_def) (key v : bytes) (flags : Z) (k : ref_kernel) :
    ref_kernel * sysret :=
  let m := ref_map k n in
  let present := bool_decide (is_Some (ref_contents k n key)) in
  if (flags =? BPF_NOEXIST) && present then fail EEXIST k
  else if (flags =? BPF_EXIST) && negb present then fail ENOENT k
  else match md_type d with
  | MT_ARRAY => if array_index d key then success 0 [] (ref_set k n (<[key := v]> m)) else fail E2BIG k
  | MT_HASH => if present || (Z.of_nat (size m) <? md_max d)
               then success 0 [] (ref_set k n (<[key := v]> m)) else fail E2BIG k
  | MT_LRU_HASH => success 0 [] (ref_set k n (<[key := v]> (if present then m else ref_evict d m)))
  | _ => fail EINVAL k
  end.

Definition ref_sys (c : bpf_call) (k : ref_kernel) : ref_kernel * sysret :=
  match call_attr c with
  | AttrObj path _ _ =>
      if call_cmd c =? BPF_OBJ_GET then
        match name_of_path path with
        | Some n => if rk_next k <? 2 ^ 31 then
              success (rk_next k) [] {| rk_maps := rk_maps k;
                rk_fds := <[rk_next k := n]> (rk_fds k); rk_next := rk_next k + 1 |}
            else fail 24 k
        | None => fail ENOENT k
        end
      else fail EINVAL k
  | AttrMapElem fd _ (Some key) vbuf flags =>
      match rk_fds k !! fd with
      | None => fail EBADF k
      | Some n =>
        match map_def_of n with
        | None => fail EBADF k
        | Some d =>
          if negb (is_plain d) || bool_decide (length key < md_ksize d)%nat then fail EINVAL k else
          let key' := take (md_ksize d) key in
          if call_cmd c =? BPF_MAP_UPDATE_ELEM then
            match vbuf with
            | Some v => if bool_decide (length v < md_vsize d)%nat then fail EINVAL k
                        else ref_update n d key' (take (md_vsize d) v) flags k
            | None => fail EINVAL k
            end
          else if call_cmd c =? BPF_MAP_LOOKUP_ELEM then
            match ref_contents k n key', vbuf with
            | Some v, Some buf => success 0 (v ++ drop (md_vsize d) buf) k
            | _, _ => fail ENOENT k
            end
          else if call_cmd c =? BPF_MAP_DELETE_ELEM then
            match md_type d, ref_contents k n key' with
            | MT_ARRAY, _ => fail EINVAL k
            | _, Some _ => success 0 [] (ref_set k n (delete key' (ref_map k n)))
            | _, None => fail ENOENT k
            end
          else fail EINVAL k
        end
      end
  | AttrMapElem _ _ None _ _ => fail EINVAL k
  end.

Definition ref_ok (k : ref_kernel) : Prop :=
  (forall n d j v, map_def_of n = Some d -> ref_map k n !! j = Some v ->
     length j = md_ksize d /\ length v = md_vsize d) /\
  (forall fd n, rk_fds k !! fd = Some n -> fd < rk_next k).

(** The same as a decidable check on the maps that are there. *)
Definition ref_ok_check (k : ref_kernel) : Prop :=
  map_Forall (fun n m =>
    match map_def_of n with
    | Some d => map_Forall (fun j v => length j = md_ksize d /\ length v = md_vsize d) m
    | None => True
    end) (rk_maps k) /\
  map_Forall (fun fd _ => fd < rk_next k) (rk_fds k).

#[global] Instance ref_ok_check_dec k : Decision (ref_ok_check k).
Proof.
  unfold ref_ok_check. apply and_dec; [|apply _]. apply map_Forall_dec. intros n m.
  destruct (map_def_of n); [|left; done]. apply _.
Defined.

Lemma ref_ok_check_ok k : bool_decide (ref_ok_check k) = true -> ref_ok k.
Proof.
  intros [Hm Hf]%bool_decide_eq_true. split; [|exact Hf].
  intros n d j v Hd. unfold ref_map. destruct (rk_maps k !! n) as [m|] eqn:Hn; simpl.
  - intros Hj. specialize (Hm _ _ Hn). cbv beta in Hm. rewrite Hd in Hm. exact (Hm _ _ Hj).
  - by rewrite lookup_empty.
Qed.

#[global] Instance ref_kernel_ops : BpfKernel ref_kernel := {|
  sys_bpf := ref_sys;
  contents := ref_contents;
  fd_map := fun k fd => rk_fds k !! fd;
  kernel_ok := ref_ok;
|}.

(** *** The reference kernel satisfies the laws *)

Lemma ref_map_set k n m n' :
  ref_map (ref_set k n m) n' = if decide (n = n') then m else ref_map k n'.
Proof.
  unfold ref_map, ref_set. simpl. rewrite lookup_insert. by case_decide.
Qed.

Lemma ref_contents_set_ne k n m n' j :
  n <> n' -> ref_contents (ref_set k n m) n' j = ref_contents k n' j.
Proof. intros Hne. unfold ref_contents. by rewrite ref_map_set, decide_False. Qed.

Lemma ref_contents_array k n d j :
  map_def_of n = Some d -> md_type d = MT_ARRAY ->
  ref_contents k n j = if array_index d j
    then Some (default (replicate (md_vsize d) Byte.x00) (ref_map k n !! j)) else None.
Proof. intros Hd Ht. unfold ref_contents, is_plain. by rewrite Hd, Ht. Qed.

Lemma ref_contents_hash k n d j :
  map_def_of n = Some d -> is_plain d = true -> md_type d <> MT_ARRAY ->
  ref_contents k n j = ref_map k n !! j.
Proof. intros Hd Hp Ht. unfold ref_contents. rewrite Hd, Hp. by destruct (md_type d). Qed.

Lemma name_of_path_pin n d :
  map_def_of n = Some d -> name_of_path (c_string (PIN_BASE ++ "/" ++ n)) = Some n.
Proof.
  intros Hd. apply assoc_elem_of in Hd. simpl in Hd.
  repeat (apply elem_of_cons in Hd as [->|Hd]; [reflexivity|]).
  by apply elem_of_nil in Hd.
Qed.

Lemma ref_set_ok k n d m :
  map_def_of n = Some d ->
  (forall j v, m !! j = Some v -> length j = md_ksize d /\ length v = md_vsize d) ->
  ref_ok k -> ref_ok (ref_set k n m).
Proof.
  intros Hd Hm [Hwf Hfds]. split; [|done]. intros n' d' j v Hd'. rewrite ref_map_set.
  case_decide; simplify_eq; eauto.
Qed.

Lemma ref_evict_sub d m j v : ref_evict d m !! j = Some v -> m !! j = Some v.
Proof.
  unfold ref_evict. case_decide; [done|]. destruct (map_to_list m) as [|[j' ?] ?]; [done|].
  by intros [_ ?]%lookup_delete_Some.
Qed.

Lemma ref_update_ok n d key v flags k :
  map_def_of n = Some d -> length key = md_ksize d -> length v = md_vsize d ->
  ref_ok k -> ref_ok (fst (ref_update n d key v flags k)).
Proof.
  intros Hd Hkey Hv Hok. pose proof Hok as [Hwf _].
  assert (Hins : forall m, (forall j v, m !! j = Some v -> ref_map k n !! j = Some v) ->
    ref_ok (ref_set k n (<[key:=v]> m))).
  { intros m Hsub. eapply ref_set_ok; [done| |done].
    intros j v' [[<- <-]|[_ Hj]]%lookup_insert_Some; [done|]. eapply Hwf; eauto. }
  unfold ref_update. repeat case_match; simpl; try done; apply Hins; try done;
    intros j v'; apply ref_evict_sub.
Qed.

(** A call on an element of a known map, with the guards resolved. *)
Lemma ref_sys_elem k fd n d key vbuf cmd pad flags sz :
  elem_call k fd n d key ->
  ref_sys {| call_cmd := cmd; call_attr := AttrMapElem fd pad (Some key) vbuf flags; call_size := sz |} k =
  let key' := take (md_ksize d) key in
  if cmd =? BPF_MAP_UPDATE_ELEM then
    match vbuf with
    | Some v => if bool_decide (length v < md_vsize d)%nat then fail EINVAL k
                else ref_update n d key' (take (md_vsize d) v) flags k
    | None => fail EINVAL k
    end
  else if cmd =? BPF_MAP_LOOKUP_ELEM then
    match ref_contents k n key', vbuf with
    | Some v, Some buf => success 0 (v ++ drop (md_vsize d) buf) k
    | _, _ => fail ENOENT k
    end
  else if cmd =? BPF_MAP_DELETE_ELEM then
    match md_type d, ref_contents k n key' with
    | MT_ARRAY, _ => fail EINVAL k
    | _, Some _ => success 0 [] (ref_set k n (delete key' (ref_map k n)))
    | _, None => fail ENOENT k
    end
  else fail EINVAL k.
Proof.
  intros [Hfd Hd Hp Hk]. simpl in Hfd. unfold ref_sys. simpl. rewrite Hfd, Hd, Hp. simpl.
  by rewrite bool_decide_eq_false_2 by lia.
Qed.

Lemma ref_sys_ok k c : ref_ok k -> ref_ok (fst (ref_sys c k)).
Proof.
  intros Hok. unfold ref_sys.
  destruct (call_attr c) as [p ? ?|fd ? [key|] vbuf flags]; [| |done].
  - repeat (case_match || case_decide); simpl; try done. destruct Hok as [Hwf Hfds].
    split; [done|]. simpl. intros fd n [[<- <-]|[? Hn]]%lookup_insert_Some; [lia|].
    specialize (Hfds _ _ Hn). lia.
  - destruct (rk_fds k !! fd) as [n|] eqn:Hn; [|done].
    destruct (map_def_of n) as [d|] eqn:Hd; [|done].
    destruct (negb (is_plain d)) eqn:Hp; simpl; [done|].
    case_bool_decide; [done|]. pose proof Hok as [Hwf _].
    destruct (call_cmd c =? BPF_MAP_UPDATE_ELEM).
    { destruct vbuf as [v|]; [|done]. case_bool_decide; [done|].
      apply ref_update_ok; [done|rewrite length_take; lia..|done]. }
    repeat case_match; simpl; try done; (eapply ref_set_ok; [done| |done]);
      intros j v' [_ Hj]%lookup_delete_Some; eauto.
Qed.

Lemma ref_sys_fds k c : ref_ok k -> fds_kept k (fst (ref_sys c k)).
Proof.
  intros [_ Hfds] fd0 n0 Hf. simpl in Hf |- *. unfold ref_sys, ref_update.
  repeat (case_match || case_decide); simpl; try done.
  rewrite lookup_insert_ne; [done|]. specialize (Hfds _ _ Hf). lia.
Qed.

Lemma ref_frame_set k n d m key :
  map_def_of n = Some d ->
  (forall j, j <> key -> m !! j = ref_map k n !! j \/ (is_lru n = true /\ md_type d = MT_LRU_HASH /\ m !! j = None)) ->
  frame n (Some key) k (ref_set k n m).
Proof.
  intros Hd Hm n' j Hne. simpl. destruct (decide (n = n')) as [<-|Hn].
  - destruct (Hm j) as [Heq|(Hl & Ht & Heq)]; [congruence| |].
    + left. unfold ref_contents. rewrite Hd, ref_map_set, decide_True by done. by rewrite Heq.
    + right. split_and!; [done..|].
      rewrite (ref_contents_hash _ _ d) by (try done; unfold is_plain; by rewrite Ht).
      by rewrite ref_map_set, decide_True.
  - left. by apply ref_contents_set_ne.
Qed.

Lemma is_lru_spec n d : map_def_of n = Some d -> is_lru n = bool_decide (md_type d = MT_LRU_HASH).
Proof. intros Hd. unfold is_lru. by rewrite Hd. Qed.

Lemma ref_evict_lookup d m j : ref_evict d m !! j = m !! j \/ ref_evict d m !! j = None.
Proof.
  destruct (ref_evict d m !! j) eqn:He; [left|by right]. symmetry. by eapply ref_evict_sub.
Qed.

Lemma ref_update_spec k n d key v :
  map_def_of n = Some d -> is_plain d = true -> length key = md_ksize d ->
  let '(k', r) := ref_update n d key v BPF_ANY k in
  if decide (0 <= sr_ret r)
  then ref_contents k' n key = Some v /\ frame n (Some key) k k'
  else same_contents k k'.
Proof.
  intros Hd Hp Hkey. unfold ref_update. simpl.
  assert (Hset : forall m,
    (md_type d = MT_ARRAY -> array_index d key = true) ->
    (forall j, j <> key -> m !! j = ref_map k n !! j \/ (is_lru n = true /\ md_type d = MT_LRU_HASH /\ m !! j = None)) ->
    ref_contents (ref_set k n (<[key:=v]> m)) n key = Some v /\ frame n (Some key) k (ref_set k n (<[key:=v]> m))).
  { intros m Ha Hm. split.
    - destruct (decide (md_type d = MT_ARRAY)) as [Ht|Ht].
      + rewrite (ref_contents_array _ _ d) by done. rewrite Ha, ref_map_set, decide_True by done.
        by rewrite lookup_insert_eq.
      + rewrite (ref_contents_hash _ _ d) by done. rewrite ref_map_set, decide_True by done.
        by rewrite lookup_insert_eq.
    - eapply ref_frame_set; [done|]. intros j Hj. rewrite lookup_insert_ne by done. by apply Hm. }
  destruct (md_type d) eqn:Ht; simpl; try done.
  - apply Hset; [done|]. intros j _. rewrite (is_lru_spec _ _ Hd), Ht. case_bool_decide; [by left|].
    destruct (ref_evict_lookup d (ref_map k n) j); [by left|by right].
  - destruct (_ || _); simpl; [|done]. apply Hset; [done|]. by left.
  - destruct (array_index d key) eqn:Hi; simpl; [|done]. apply Hset; [done|]. by left.
Qed.

#[global] Instance ref_kernel_laws : BpfKernelLaws ref_kernel.
Proof.
  split.
  - apply ref_sys_ok.
  - intros k n d j v [Hwf _] Hd Hp. simpl. destruct (decide (md_type d = MT_ARRAY)) as [Ht|Ht].
    + rewrite (ref_contents_array _ _ d) by done. destruct (array_index d j) eqn:Hi; [|done].
      unfold array_index in Hi. breflect. intros [= <-]. split; [done|].
      destruct (ref_map k n !! j) eqn:Hj; simpl; [by eapply Hwf|apply length_replicate].
    + rewrite (ref_contents_hash _ _ d) by done. by apply Hwf.
  - intros k n d j _ Hd Ht. simpl. rewrite (ref_contents_array _ _ d) by done.
    destruct (array_index d j); [by eauto|]. by split; [intros [? ?]|].
  - apply ref_sys_fds.
  - intros k n d sz _ Hd. unfold sys_bpf, ref_kernel_ops, ref_sys.
    cbn [call_attr call_cmd]. rewrite Z.eqb_refl, (name_of_path_pin n d) by done.
    destruct (Z.ltb_spec (rk_next k) (2 ^ 31)); cbn; [|split; [done|lia]].
    split; [done|]. by rewrite lookup_insert_eq.
  - intros k fd n d key v sz _ Hc Hv. unfold sys_bpf, ref_kernel_ops.
    rewrite (ref_sys_elem _ _ _ _ _ _ _ _ _ _ Hc). simpl. rewrite bool_decide_eq_false_2 by lia.
    destruct Hc. apply ref_update_spec; [done..|]. rewrite length_take. lia.
  - intros k fd n d key v sz _ Hc Hv Hl. unfold sys_bpf, ref_kernel_ops.
    rewrite (ref_sys_elem _ _ _ _ _ _ _ _ _ _ Hc). simpl. rewrite bool_decide_eq_false_2 by lia.
    destruct Hc as [_ Hd Hp _]. unfold ref_update. simpl. rewrite (is_lru_spec _ _ Hd) in Hl.
    simpl in Hl. destruct (md_type d) eqn:Ht; simpl; try done.
    + destruct Hl as [Hl|Hl]; [|done]. by rewrite bool_decide_eq_true_2.
    + destruct Hl as [Hl|Hl]; [|done]. rewrite (ref_contents_array _ _ d) in Hl by done.
      destruct (array_index _ _); [done|]. by destruct Hl.
    + unfold is_plain in Hp. by rewrite Ht in Hp.
    + unfold is_plain in Hp. by rewrite Ht in Hp.
    + unfold is_plain in Hp. by rewrite Ht in Hp.
  - intros k fd n d key buf sz _ Hc Hb. unfold sys_bpf, ref_kernel_ops.
    rewrite (ref_sys_elem _ _ _ _ _ _ _ _ _ _ Hc). simpl.
    destruct (ref_contents k n _); simpl; split; try done.
  - intros k fd n d key sz _ Hc Ht. unfold sys_bpf, ref_kernel_ops.
    rewrite (ref_sys_elem _ _ _ _ _ _ _ _ _ _ Hc). simpl. destruct Hc as [_ Hd Hp _].
    rewrite (ref_contents_hash _ _ d) by done.
    destruct (ref_map k n !! take (md_ksize d) key) eqn:Hj.
    + destruct (md_type d) eqn:Hty; [| |done|..]; simpl;
        (split_and!; [done|rewrite (ref_contents_hash _ _ d) by (try done; by rewrite Hty);
           rewrite ref_map_set, decide_True by done; apply lookup_delete_eq|];
         eapply ref_frame_set; [done|]; intros j Hne; left; by rewrite lookup_delete_ne).
    + destruct (md_type d) eqn:Hty; [| |done|..]; simpl; done.
Qed.
