(* ===== verification/Bpftool.v ===== *)
(** * Running bpftool

    [run] and [map_dump] (agent.py).  The other processes of the machine are
    outside the program: a [host] says what each command answers. *)

From S2P Require Import Prelude PyText PyFloat Json Kernel.

Open Scope string_scope.
Open Scope Z_scope.

(** [subprocess.CompletedProcess] of a command run with [text=True]. *)
Record completed := { returncode : Z; stdout : string }.

(** [os.uname().release], and [subprocess.run] of a command. *)
Record host := { release : string; subprocess_run : list string -> res completed }.

Definition BPFTOOL (h : host) : string := "/usr/lib/linux-tools/" ++ release h ++ "/bpftool".

(** [run] *)
Definition run_cmd (h : host) (cmd : list string) (check : bool) : res completed :=
  p ← subprocess_run h cmd;
  if check && negb (returncode p =? 0) then Exc (CalledProcessError (returncode p)) else Ok p.

Definition map_dump_cmd (h : host) (name : string) : list string :=
  ["sudo"; BPFTOOL h; "-j"; "map"; "dump"; "pinned"; (PIN_BASE ++ "/" ++ name)%string]%list.

Definition map_dump (h : host) (name : string) : res json :=
  p ← run_cmd h (map_dump_cmd h name) true;
  json_loads (stdout p).

(** [bpftool] succeeds on the map [name], and prints [raw]. *)
Definition dumps_json (h : host) (name : string) (raw : list json) : Prop :=
  exists p, subprocess_run h (map_dump_cmd h name) = Ok p /\ returncode p = 0 /\ json_loads (stdout p) = Ok (JList raw).

Lemma map_dump_ok h name raw : dumps_json h name raw -> map_dump h name = Ok (JList raw).
Proof.
  intros (p & Hp & Hc & Hj). unfold map_dump, run_cmd. rewrite Hp. cbn [mbind res_bind]. by rewrite Hc.
Qed.

(** What goes wrong with the command goes wrong with the dump. *)
Lemma map_dump_fails h name p :
  subprocess_run h (map_dump_cmd h name) = Ok p -> returncode p <> 0 ->
  map_dump h name = Exc (CalledProcessError (returncode p)).
Proof.
  intros Hp Hc. unfold map_dump, run_cmd. rewrite Hp. cbn [mbind res_bind].
  by rewrite (proj2 (Z.eqb_neq _ _) Hc).
Qed.

(** A machine where the given commands print the given values, others fail. *)
Definition host_of (rel : string) (answers : list (list string * json)) : host :=
  {| release := rel;
     subprocess_run := fun cmd =>
       match list_find (fun a => a.1 = cmd) answers with
       | Some (_, a) => Ok {| returncode := 0; stdout := json_text a.2 |}
       | None => Ok {| returncode := 1; stdout := "" |}
       end |}.
