(* ===== verification/BpfSyscall.v ===== *)
(** * bpf_syscall.py: the ctypes wrapper of bpf(2) and the fd cache

    [_bpf] issues one system call and turns a negative return value into
    [OSError(errno)]; the four wrappers fill the attribute structure;
    [PinnedMapCache] keeps one descriptor per pinned map, opened on first use.
    The Python state is the dict [self._fds]. *)

From S2P Require Import Prelude Prog UpfMaps Kernel.

(** [PinnedMapCache._fds] *)
Abbreviation fd_cache := (gmap string Z).
Abbreviation bpfM := (py bpf_call sysret fd_cache).

(** [ctypes.sizeof] of the two attribute structures. *)
Definition sizeof_BpfAttrObj : Z := Z.of_nat (c_sizeof [c_u64; c_u32; c_u32]).
Definition sizeof_BpfAttrMapElem : Z := Z.of_nat (c_sizeof [c_u32; c_u32; c_u64; c_u64; c_u64]).

Definition _bpf (cmd : Z) (attr : bpf_attr) (size : Z) : bpfM sysret :=
  r ← request {| call_cmd := cmd; call_attr := attr; call_size := size |};
  if sr_ret r <? 0 then raise (OSError (sr_errno r)) else mret r.

(** [ctypes.create_string_buffer(b)]: the bytes and a NUL. *)
Definition create_string_buffer (b : bytes) : bytes := b ++ [Byte.x00].

Definition bpf_obj_get (pinned_path : string) : bpfM Z :=
  r ← _bpf BPF_OBJ_GET (AttrObj (create_string_buffer (encode pinned_path)) 0 0) sizeof_BpfAttrObj;
  mret (sr_ret r).

Definition bpf_map_update_elem (map_fd : Z) (key value : bytes) (flags : Z) : bpfM unit :=
  _bpf BPF_MAP_UPDATE_ELEM
    (AttrMapElem (u32 map_fd) 0 (Some (create_string_buffer key)) (Some (create_string_buffer value))
       (u64 flags)) sizeof_BpfAttrMapElem ;;
  mret tt.

Definition bpf_map_lookup_elem (map_fd : Z) (key : bytes) (value_size : nat) : bpfM bytes :=
  r ← _bpf BPF_MAP_LOOKUP_ELEM
    (AttrMapElem (u32 map_fd) 0 (Some (create_string_buffer key))
       (Some (replicate value_size Byte.x00)) 0) sizeof_BpfAttrMapElem;
  mret (sr_out r).

Definition bpf_map_delete_elem (map_fd : Z) (key : bytes) : bpfM unit :=
  _bpf BPF_MAP_DELETE_ELEM
    (AttrMapElem (u32 map_fd) 0 (Some (create_string_buffer key)) None 0) sizeof_BpfAttrMapElem ;;
  mret tt.

Module PinnedMapCache.
Section methods.
Context (pin_base : string).

Definition fd (name : string) : bpfM Z :=
  fds ← get_state;
  match fds !! name with
  | Some f => mret f
  | None =>
      f ← bpf_obj_get (pin_base ++ "/" ++ name);
      fds ← get_state;
      put_state (<[name := f]> fds) ;;
      mret f
  end.

Definition update (name : string) (key value : bytes) (flags : Z) : bpfM unit :=
  f ← fd name; bpf_map_update_elem f key value flags.

Definition lookup (name : string) (key : bytes) (value_size : nat) : bpfM bytes :=
  f ← fd name; bpf_map_lookup_elem f key value_size.

Definition delete (name : string) (key : bytes) : bpfM unit :=
  f ← fd name; bpf_map_delete_elem f key.

End methods.
End PinnedMapCache.

(** ** What the wrappers guarantee on a lawful kernel *)

Section specs.
Context `{BpfKernelLaws K}.

(** The cached descriptors refer to the maps they are cached for. *)
Definition cache_ok (s : fd_cache) (k : K) : Prop :=
  forall n f, s !! n = Some f -> fd_map k f = Some n /\ 0 <= f < 2 ^ 31.

(** A step that changes no element. *)
Definition quiet (k k' : K) : Prop :=
  same_contents k k' /\ fds_kept k k' /\ (kernel_ok k -> kernel_ok k').

(** A step that stores one element. *)
Definition stored (name : string) (key value : bytes) (k k' : K) : Prop :=
  contents k' name key = Some value /\ frame name (Some key) k k' /\ fds_kept k k'.

(** A step that removes one element. *)
Definition removed (name : string) (key : bytes) (k k' : K) : Prop :=
  contents k' name key = None /\ frame name (Some key) k k' /\ fds_kept k k'.

(** What the environment may do between two calls of the program: at least
    the quiet steps; it leaves the kernel consistent and our descriptors
    open. *)
Record stable_rely (rely : K -> K -> Prop) : Prop := {
  sr_trans : forall k1 k2 k3, rely k1 k2 -> rely k2 k3 -> rely k1 k3;
  sr_ok : forall k k', rely k k' -> kernel_ok k -> kernel_ok k';
  sr_fds : forall k k', rely k k' -> fds_kept k k';
  sr_quiet : forall k k', quiet k k' -> rely k k';
}.

Lemma fds_kept_refl k : fds_kept k k.
Proof. by intros ???. Qed.

Lemma fds_kept_trans k1 k2 k3 : fds_kept k1 k2 -> fds_kept k2 k3 -> fds_kept k1 k3.
Proof. intros H1 H2 ???. by apply H2, H1. Qed.

Lemma quiet_refl k : quiet k k.
Proof. split_and!; [done|apply fds_kept_refl|done]. Qed.

Lemma quiet_trans k1 k2 k3 : quiet k1 k2 -> quiet k2 k3 -> quiet k1 k3.
Proof.
  intros (H1 & H2 & H3) (G1 & G2 & G3). split_and!; [|by eapply fds_kept_trans|by auto].
  intros n j. by rewrite G1, H1.
Qed.

Lemma stable_quiet : stable_rely quiet.
Proof.
  split; [apply quiet_trans|by intros ?? (?&?&?)|by intros ?? (?&?&?)|done].
Qed.

Lemma cache_ok_kept s k k' : cache_ok s k -> fds_kept k k' -> cache_ok s k'.
Proof. intros Hs Hk n f Hn. destruct (Hs _ _ Hn). split; [by apply Hk|done]. Qed.

Lemma cache_ok_insert s k n f :
  cache_ok s k -> fd_map k f = Some n -> 0 <= f < 2 ^ 31 -> cache_ok (<[n:=f]> s) k.
Proof. intros Hs Hf Hr n' f' [[<- <-]|[_ ?]]%lookup_insert_Some; [done|by apply Hs]. Qed.

Lemma take_buffer (b : bytes) n : length b = n -> take n (create_string_buffer b) = b.
Proof. intros <-. apply take_app_length. Qed.

Context (rely guar : K -> K -> Prop) (Hrely : stable_rely rely).
Context (Hguar : forall k k', quiet k k' -> guar k k').
Context (pin_base : string) (Hpin : pin_base = PIN_BASE).

(** The cache after an access to [name]: nothing is forgotten. *)
Definition cached (s s' : fd_cache) (name : string) : Prop := s ⊆ s' /\ is_Some (s' !! name).

(** One call: the environment moves, then the kernel answers. *)
Lemma pwp__bpf cmd attr size s (Q : res sysret -> fd_cache -> K -> Prop) k :
  cache_ok s k -> kernel_ok k ->
  (forall k1, rely k k1 -> kernel_ok k1 -> cache_ok s k1 ->
     let '(k2, r) := sys_bpf {| call_cmd := cmd; call_attr := attr; call_size := size |} k1 in
     kernel_ok k2 -> fds_kept k1 k2 -> cache_ok s k2 ->
     guar k1 k2 /\ Q (if sr_ret r <? 0 then Exc (OSError (sr_errno r)) else Ok r) s k2) ->
  pwp sys_bpf rely guar (_bpf cmd attr size) s Q k.
Proof using Type*.
  intros Hs Hk HQ. unfold _bpf. apply pwp_bind, pwp_request. intros k1 Hr.
  assert (kernel_ok k1) as Hk1 by (by eapply (sr_ok _ Hrely)).
  assert (cache_ok s k1) as Hs1 by (eapply cache_ok_kept; [done|by apply (sr_fds _ Hrely)]).
  specialize (HQ k1 Hr Hk1 Hs1).
  pose proof (law_fds k1 {| call_cmd := cmd; call_attr := attr; call_size := size |} Hk1) as Hf.
  pose proof (law_ok k1 {| call_cmd := cmd; call_attr := attr; call_size := size |} Hk1) as Hk2.
  destruct (sys_bpf _ k1) as [k2 r]; cbn [fst snd] in *.
  destruct HQ as [Hg HQ]; [done|done|by eapply cache_ok_kept|].
  split; [done|]. by destruct (sr_ret r <? 0).
Qed.

Lemma pwp_fd name d s (Q : res Z -> fd_cache -> K -> Prop) k :
  map_def_of name = Some d -> cache_ok s k -> kernel_ok k ->
  (forall s' k' f, rely k k' -> cache_ok s' k' -> kernel_ok k' ->
     fd_map k' f = Some name -> 0 <= f < 2 ^ 31 -> cached s s' name -> Q (Ok f) s' k') ->
  (forall k' e, rely k k' -> cache_ok s k' -> kernel_ok k' -> s !! name = None ->
     Q (Exc (OSError e)) s k') ->
  pwp sys_bpf rely guar (PinnedMapCache.fd pin_base name) s Q k.
Proof using Type*.
  intros Hd Hs Hk HOk HExc. subst pin_base. unfold PinnedMapCache.fd.
  apply pwp_bind, pwp_ret. destruct (s !! name) as [f|] eqn:Hf.
  - destruct (Hs _ _ Hf). assert (cached s s name) by (split; [done|by eexists]).
    apply pwp_ret, HOk; try done. by apply (sr_quiet _ Hrely), quiet_refl.
  - apply pwp_bind. unfold bpf_obj_get. apply pwp_bind, pwp__bpf; [done..|].
    intros k1 Hr Hk1 Hs1. pose proof (law_obj_get k1 name d sizeof_BpfAttrObj Hk1 Hd) as Hlaw.
    unfold c_string in Hlaw. fold (create_string_buffer (encode (PIN_BASE ++ "/" ++ name))) in Hlaw.
    destruct (sys_bpf _ k1) as [k2 r]. destruct Hlaw as [Hsame Hlaw]. intros Hk2 Hf2 Hs2.
    assert (quiet k1 k2) as Hq by (by split_and!).
    assert (rely k k2) as Hr2 by (eapply (sr_trans _ Hrely); [done|by apply (sr_quiet _ Hrely)]).
    split; [by apply Hguar|]. destruct (Z.ltb_spec (sr_ret r) 0) as [Hn|Hp]; [by apply HExc|].
    destruct (Hlaw Hp). assert (0 <= sr_ret r < 2 ^ 31) by lia.
    assert (cached s (<[name:=sr_ret r]> s) name).
    { split; [by apply insert_subseteq|]. rewrite lookup_insert_eq. by eexists. }
    apply HOk; try done. by apply cache_ok_insert.
Qed.

(** The frame of the three element operations: get the descriptor, then call. *)
Lemma pwp_elem {A} name d key cmd (vbuf : option bytes) flags (f : sysret -> A) s
    (Q : res A -> fd_cache -> K -> Prop) k :
  map_def_of name = Some d -> is_plain d = true -> length key = md_ksize d ->
  cache_ok s k -> kernel_ok k ->
  (forall k1 e, rely k k1 -> cache_ok s k1 -> kernel_ok k1 -> s !! name = None ->
     Q (Exc (OSError e)) s k1) ->
  (forall s' k1 fd, rely k k1 -> kernel_ok k1 -> cached s s' name ->
     elem_call k1 fd name d (create_string_buffer key) ->
     let '(k2, r) := sys_bpf {| call_cmd := cmd;
       call_attr := AttrMapElem fd 0 (Some (create_string_buffer key)) vbuf flags;
       call_size := sizeof_BpfAttrMapElem |} k1 in
     kernel_ok k2 -> fds_kept k1 k2 -> cache_ok s' k2 ->
     guar k1 k2 /\ Q (if sr_ret r <? 0 then Exc (OSError (sr_errno r)) else Ok (f r)) s' k2) ->
  pwp sys_bpf rely guar
    (fd ← PinnedMapCache.fd pin_base name;
     r ← _bpf cmd (AttrMapElem (u32 fd) 0 (Some (create_string_buffer key)) vbuf flags)
           sizeof_BpfAttrMapElem;
     mret (f r)) s Q k.
Proof using Type*.
  intros Hd Hp Hkey Hs Hk HExc HOk. apply pwp_bind.
  eapply pwp_fd; [done..| |done]. intros s' k' fd Hr Hs' Hk' Hf Hfr Hca.
  apply pwp_bind, pwp__bpf; [done..|]. intros k1 Hr1 Hk1 Hs1. rewrite u32_small by lia.
  assert (Hc : elem_call k1 fd name d (create_string_buffer key)).
  { split; [apply (sr_fds _ Hrely _ _ Hr1); exact Hf|exact Hd|exact Hp|].
    unfold create_string_buffer. rewrite length_app. lia. }
  specialize (HOk s' k1 fd (sr_trans _ Hrely _ _ _ Hr Hr1) Hk1 Hca Hc).
  destruct (sys_bpf _ k1) as [k2 r]. intros Hk2 Hf2 Hs2.
  destruct (HOk Hk2 Hf2 Hs2) as [??]. split; [done|]. by destruct (sr_ret r <? 0).
Qed.

Lemma rely_quiet k k1 k2 : rely k k1 -> quiet k1 k2 -> rely k k2.
Proof using Type*. intros ??. eapply (sr_trans _ Hrely); [done|by apply (sr_quiet _ Hrely)]. Qed.

Lemma pwp_update name d key val s (Q : res unit -> fd_cache -> K -> Prop) k :
  map_def_of name = Some d -> is_plain d = true ->
  length key = md_ksize d -> length val = md_vsize d ->
  cache_ok s k -> kernel_ok k ->
  (forall s' k1 e, rely k k1 -> cache_ok s' k1 -> kernel_ok k1 -> s ⊆ s' ->
     (is_Some (s !! name) -> contents k1 name key = None /\ is_lru name = false) ->
     Q (Exc (OSError e)) s' k1) ->
  (forall s' k1 k2, rely k k1 -> kernel_ok k1 -> stored name key val k1 k2 ->
     cache_ok s' k2 -> kernel_ok k2 -> cached s s' name -> guar k1 k2 /\ Q (Ok tt) s' k2) ->
  pwp sys_bpf rely guar (PinnedMapCache.update pin_base name key val BPF_ANY) s Q k.
Proof using Type*.
  intros Hd Hp Hkey Hval Hs Hk HExc HOk.
  eapply pwp_elem; [done..| |].
  { intros. apply HExc; [done..|]. intros [? ?]. congruence. }
  intros s' k1 fd Hr Hk1 [Hsub Hca] Hc. change (u64 BPF_ANY) with BPF_ANY.
  assert (Hv : (md_vsize d <= length (create_string_buffer val))%nat).
  { unfold create_string_buffer. rewrite length_app. lia. }
  pose proof (law_update k1 fd name d _ _ sizeof_BpfAttrMapElem Hk1 Hc Hv) as Hlaw.
  pose proof (law_update_live k1 fd name d _ _ sizeof_BpfAttrMapElem Hk1 Hc Hv) as Hlive.
  destruct (sys_bpf _ k1) as [k2 r]. cbn [snd] in Hlive. rewrite !take_buffer in * by done.
  intros Hk2 Hf2 Hs2. case_decide as Hret.
  - destruct (HOk s' k1 k2) as [Hg HQ]; [done..|by destruct Hlaw|done|done|done|].
    split; [done|]. by destruct (Z.ltb_spec (sr_ret r) 0); [lia|].
  - assert (quiet k1 k2) as Hq by (by split_and!).
    split; [by apply Hguar|]. destruct (Z.ltb_spec (sr_ret r) 0); [|lia].
    apply HExc; [by eapply rely_quiet|done..|]. intros _. rewrite Hlaw.
    destruct (contents k1 name key) eqn:Hck; [by destruct Hret; apply Hlive; left|].
    destruct (is_lru name); [by destruct Hret; apply Hlive; right|done].
Qed.

Lemma pwp_lookup name d key vsize s (Q : res bytes -> fd_cache -> K -> Prop) k :
  map_def_of name = Some d -> is_plain d = true ->
  length key = md_ksize d -> vsize = md_vsize d ->
  cache_ok s k -> kernel_ok k ->
  (forall s' k1 e, rely k k1 -> cache_ok s' k1 -> kernel_ok k1 -> s ⊆ s' ->
     (is_Some (s !! name) -> e = ENOENT /\ contents k1 name key = None) ->
     Q (Exc (OSError e)) s' k1) ->
  (forall s' k1 v, rely k k1 -> cache_ok s' k1 -> kernel_ok k1 -> cached s s' name ->
     contents k1 name key = Some v -> Q (Ok v) s' k1) ->
  pwp sys_bpf rely guar (PinnedMapCache.lookup pin_base name key vsize) s Q k.
Proof using Type*.
  intros Hd Hp Hkey -> Hs Hk HExc HOk.
  eapply pwp_elem; [done..| |].
  { intros. apply HExc; [done..|]. intros [? ?]. congruence. }
  intros s' k1 fd Hr Hk1 [Hsub Hca] Hc.
  assert (Hv : (md_vsize d <= length (replicate (md_vsize d) Byte.x00))%nat).
  { by rewrite length_replicate. }
  pose proof (law_lookup k1 fd name d _ _ sizeof_BpfAttrMapElem Hk1 Hc Hv) as Hlaw.
  destruct (sys_bpf _ k1) as [k2 r]. rewrite !take_buffer in * by done.
  intros Hk2 Hf2 Hs2. destruct Hlaw as [Hsame Hlaw].
  assert (quiet k1 k2) as Hq by (by split_and!).
  split; [by apply Hguar|]. rewrite <-Hsame in Hlaw.
  destruct (contents k2 name key) as [v|] eqn:Hv2; destruct Hlaw as [Hret Hout].
  - destruct (Z.ltb_spec (sr_ret r) 0); [lia|]. rewrite Hout.
    rewrite drop_ge, app_nil_r by (by rewrite length_replicate).
    apply HOk; [by eapply rely_quiet|done..].
  - destruct (Z.ltb_spec (sr_ret r) 0); [|lia].
    apply HExc; [by eapply rely_quiet|done..].
Qed.

Lemma pwp_delete name d key s (Q : res unit -> fd_cache -> K -> Prop) k :
  map_def_of name = Some d -> is_plain d = true -> md_type d <> MT_ARRAY ->
  length key = md_ksize d -> cache_ok s k -> kernel_ok k ->
  (forall s' k1 e, rely k k1 -> cache_ok s' k1 -> kernel_ok k1 -> s ⊆ s' ->
     (is_Some (s !! name) -> e = ENOENT /\ contents k1 name key = None) ->
     Q (Exc (OSError e)) s' k1) ->
  (forall s' k1 k2, rely k k1 -> kernel_ok k1 -> removed name key k1 k2 ->
     cache_ok s' k2 -> kernel_ok k2 -> cached s s' name -> guar k1 k2 /\ Q (Ok tt) s' k2) ->
  pwp sys_bpf rely guar (PinnedMapCache.delete pin_base name key) s Q k.
Proof using Type*.
  intros Hd Hp Ht Hkey Hs Hk HExc HOk.
  eapply pwp_elem; [done..| |].
  { intros. apply HExc; [done..|]. intros [? ?]. congruence. }
  intros s' k1 fd Hr Hk1 [Hsub Hca] Hc.
  pose proof (law_delete k1 fd name d _ sizeof_BpfAttrMapElem Hk1 Hc Ht) as Hlaw.
  destruct (sys_bpf _ k1) as [k2 r]. rewrite !take_buffer in * by done.
  intros Hk2 Hf2 Hs2. destruct (contents k1 name key) as [v|] eqn:Hv.
  - destruct Hlaw as (Hret & Hgone & Hframe).
    destruct (HOk s' k1 k2) as [Hg HQ]; [done..|].
    split; [done|]. by destruct (Z.ltb_spec (sr_ret r) 0); [lia|].
  - destruct Hlaw as (Hret & Herr & Hsame). assert (quiet k1 k2) as Hq by (by split_and!).
    split; [by apply Hguar|]. destruct (Z.ltb_spec (sr_ret r) 0); [|lia].
    apply HExc; [by eapply rely_quiet|done..|]. intros _. by rewrite Hsame.
Qed.
End specs.

(** [cache_ok] on the reference kernel, as a check. *)
Definition cache_check (s : fd_cache) (k : ref_kernel) : Prop :=
  map_Forall (fun n f => rk_fds k !! f = Some n /\ 0 <= f < 2 ^ 31) s.

#[global] Instance cache_check_dec s k : Decision (cache_check s k) := _.

Lemma cache_check_ok s k : bool_decide (cache_check s k) = true -> cache_ok s k.
Proof. by intros H%bool_decide_eq_true. Qed.
