(* ===== verification/Encoders.v ===== *)
(** * agent.py: the domain encoders

    Each encoder packs the fields of one struct of upf_maps.h.  The lemmas
    [*_layout] tie the two languages together: the C reader of UpfMaps.v,
    applied to what the Python encoder produced, gives back the arguments, and
    the encoded value has exactly [sizeof] of the struct. *)

From S2P Require Import Prelude PyStruct UpfMaps.

Definition enc_session (pdr_id qer_id far_id : Z) : res bytes :=
  pack "<IIII" [pdr_id; qer_id; far_id; 0].

Definition enc_pdr (far_id qer_id precedence urr_id : Z) : res bytes :=
  pack "<IIII" [far_id; qer_id; precedence; urr_id].

Definition enc_far (action out_ifindex peer_ipv4_be out_teid_be : Z) : res bytes :=
  pack "<IIII" [action; out_ifindex; peer_ipv4_be; out_teid_be].

Definition enc_qer (mbr_ul_bps mbr_dl_bps burst_bytes : Z) : res bytes :=
  pack "<QQII" [mbr_ul_bps; mbr_dl_bps; burst_bytes; 0].

Definition enc_u32 (v : Z) : res bytes := pack "<I" [v].

Definition enc_bundle_slot (far_id qer_id urr_id precedence generation : Z) : res bytes :=
  pack "<IIIIII" [far_id; qer_id; urr_id; precedence; generation; 0].

Definition enc_bundle (active : Z) (slot0_bytes slot1_bytes : bytes) : res bytes :=
  h ← pack "<II" [active; 0]; mret (h ++ slot0_bytes ++ slot1_bytes).

(** ** Packed layouts *)

(** Offsets and sizes when nothing is padded. *)
Fixpoint packed_places (off : nat) (fs : list cty) : list (nat * nat) :=
  match fs with
  | [] => []
  | t :: fs' => (off, cty_size t) :: packed_places (off + cty_size t) fs'
  end.

(** A format describes a layout: little-endian unsigned codes of the sizes of
    the fields, which the C ABI lays out without padding. *)
Definition describes (fmt : string) (fs : list cty) : Prop :=
  match parse_fmt fmt with
  | Some (LE, cs) => place 0 fs = packed_places 0 fs /\
      fsize <$> cs = cty_size <$> fs /\ Forall (fun c => fsigned c = false) cs /\
      calcsize_codes cs = c_sizeof fs
  | _ => False
  end.

Lemma load_le_split_app n z post :
  0 <= z < 2 ^ (Z.of_nat n * 8) -> load 0 n (le_split n z ++ post) = z.
Proof. intros H. rewrite load_app_l by len. by apply load_le_split. Qed.

Lemma load_drop off n (pre b : bytes) : load (length pre + off) n (pre ++ b) = load off n b.
Proof. rewrite load_app_r by lia. f_equal. lia. Qed.

Lemma packed_field cs fs vs b post pre i v o s :
  fsize <$> cs = cty_size <$> fs -> Forall (fun c => fsigned c = false) cs ->
  pack_codes LE cs vs = Ok b -> vs !! i = Some v ->
  packed_places (length pre) fs !! i = Some (o, s) ->
  load o s (pre ++ b ++ post) = v.
Proof.
  revert fs vs b pre i. induction cs as [|c cs IH]; intros fs [|z vs] b pre i Hsz Hsg Hp Hv Ho;
    simplify_eq/=.
  destruct fs as [|t fs]; simplify_eq/=. case_decide as Hr; [|done].
  destruct (pack_codes LE cs vs) as [b'|] eqn:Hp'; simplify_eq/=.
  apply Forall_cons in Hsg as [Hsg1 Hsg].
  match goal with H : fsize c = cty_size t |- _ => rename H into Hsz1 end.
  match goal with H : fsize <$> cs = _ |- _ => rename H into Hsz' end.
  destruct i as [|i]; simplify_eq/=.
  - rewrite <-(Nat.add_0_r (length pre)), load_drop, <-app_assoc, <-Hsz1.
    apply load_le_split_app. unfold in_range in Hr. by rewrite Hsg1 in Hr.
  - specialize (IH fs vs b' (pre ++ le_split (fsize c) z) i Hsz' Hsg Hp' Hv).
    rewrite <-!app_assoc in *. apply IH.
    by rewrite length_app, length_le_split, Hsz1.
Qed.

Lemma lookup_packed_places off fs i t :
  fs !! i = Some t -> exists o, packed_places off fs !! i = Some (o, cty_size t).
Proof.
  revert off i. induction fs as [|t' fs IH]; intros off [|i] H; simplify_eq/=; eauto.
Qed.

(** Reading field [i] of a packed struct gives the [i]-th packed value. *)
Lemma describes_field fmt fs vs b post i v :
  describes fmt fs -> pack fmt vs = Ok b -> vs !! i = Some v ->
  field fs i (b ++ post) = v.
Proof.
  unfold describes, pack, field. destruct (parse_fmt fmt) as [[[] cs]|]; [|done..].
  intros (Hpl & Hsz & Hsg & _) Hp Hv. rewrite Hpl.
  assert (exists t, fs !! i = Some t) as [t Ht].
  { apply lookup_lt_is_Some. pose proof (lookup_lt_Some _ _ _ Hv) as Hlt.
    apply pack_codes_inv in Hp as [Hf%Forall2_length _].
    apply (f_equal length) in Hsz. rewrite !length_fmap in Hsz. lia. }
  destruct (lookup_packed_places 0 fs i t Ht) as [o Ho]. rewrite Ho.
  by apply (packed_field cs fs vs b post [] i v o).
Qed.

Lemma describes_length fmt fs vs b :
  describes fmt fs -> pack fmt vs = Ok b -> length b = c_sizeof fs.
Proof.
  unfold describes. intros Hd Hp%pack_length. unfold calcsize in Hp.
  destruct (parse_fmt fmt) as [[[] cs]|]; [|done..]. by destruct Hd as (_ & _ & _ & <-).
Qed.

(** The formats of agent.py describe the structs of upf_maps.h. *)
Lemma describes_IIII : describes "<IIII" L_session_val.
Proof. by repeat constructor. Qed.
Lemma describes_QQII : describes "<QQII" L_qer_val.
Proof. by repeat constructor. Qed.
Lemma describes_slot : describes "<IIIIII" L_tc_bundle_slot.
Proof. by repeat constructor. Qed.
Lemma describes_II : describes "<II" [c_u32; c_u32].
Proof. by repeat constructor. Qed.
Lemma describes_bundle : describes "<IIIIIIIIIIIIII" L_tc_bundle.
Proof. by repeat constructor. Qed.
Lemma describes_QQQQ : describes "<QQQQ" L_urr_val.
Proof. by repeat constructor. Qed.
#[export] Hint Resolve describes_IIII describes_QQII describes_slot describes_II
  describes_bundle describes_QQQQ : upf.

(** [solve_field H] reads one field of the struct packed by [H]. *)
Ltac solve_field H :=
  let Hn := fresh in
  pose proof H as Hn; rewrite <-(app_nil_r _);
  eapply describes_field; [|exact Hn|reflexivity]; eauto with upf.

Lemma enc_session_layout pdr qer far b :
  enc_session pdr qer far = Ok b ->
  read_session_val b = {| sess_pdr_id := pdr; sess_qer_id := qer; sess_far_id := far |} /\
  length b = c_sizeof L_session_val.
Proof.
  intros H. split; [|by eapply describes_length, H; eauto with upf].
  unfold read_session_val. rewrite <-(app_nil_r b).
  f_equal; (eapply describes_field; [|exact H|reflexivity]; apply describes_IIII).
Qed.

Lemma enc_pdr_layout far qer prec urr b :
  enc_pdr far qer prec urr = Ok b ->
  read_pdr_val b = {| pdr_far_id := far; pdr_qer_id := qer; pdr_precedence := prec; pdr_urr_id := urr |} /\
  length b = c_sizeof L_pdr_val.
Proof.
  intros H. split; [|exact (describes_length _ _ _ _ describes_IIII H)].
  unfold read_pdr_val. rewrite <-(app_nil_r b).
  f_equal; (eapply describes_field; [|exact H|reflexivity]; apply describes_IIII).
Qed.

Lemma enc_far_layout action ifx peer teid b :
  enc_far action ifx peer teid = Ok b ->
  read_far_val b = {| far_action := action; far_out_ifindex := ifx;
                      far_peer_ipv4_be := peer; far_out_teid_be := teid |} /\
  length b = c_sizeof L_far_val.
Proof.
  intros H. split; [|exact (describes_length _ _ _ _ describes_IIII H)].
  unfold read_far_val. rewrite <-(app_nil_r b).
  f_equal; (eapply describes_field; [|exact H|reflexivity]; apply describes_IIII).
Qed.

Lemma enc_qer_layout ul dl burst b :
  enc_qer ul dl burst = Ok b ->
  read_qer_val b = {| mbr_ul_bps := ul; mbr_dl_bps := dl; burst_bytes := burst |} /\
  length b = c_sizeof L_qer_val.
Proof.
  intros H. split; [|exact (describes_length _ _ _ _ describes_QQII H)].
  unfold read_qer_val. rewrite <-(app_nil_r b).
  f_equal; (eapply describes_field; [|exact H|reflexivity]; apply describes_QQII).
Qed.

Lemma enc_u32_ok v : is_u32 v -> enc_u32 v = Ok (le_split 4 v).
Proof.
  intros Hv. unfold enc_u32, pack. cbn. rewrite decide_True by done.
  cbn. by rewrite app_nil_r.
Qed.

Lemma enc_u32_inv v b : enc_u32 v = Ok b -> is_u32 v /\ b = le_split 4 v.
Proof.
  unfold enc_u32, pack. cbn. case_decide as Hv; [|done]. cbn. rewrite app_nil_r.
  intros [= <-]. done.
Qed.

Lemma enc_u32_exc v : ~ is_u32 v -> enc_u32 v = Exc StructError.
Proof. intros Hv. unfold enc_u32, pack. cbn. by rewrite decide_False. Qed.

(** The four ids an encoder packs fit their fields, or it raises. *)
Lemma enc_pdr_ok far qer prec urr :
  is_u32 far -> is_u32 qer -> is_u32 prec -> is_u32 urr -> exists b, enc_pdr far qer prec urr = Ok b.
Proof.
  intros. eexists. unfold enc_pdr, pack. cbn [parse_fmt].
  apply (pack_codes_ok LE [fI; fI; fI; fI]). repeat (apply Forall2_cons; split; [assumption|]). constructor.
Qed.

Lemma enc_pdr_inv far qer prec urr b :
  enc_pdr far qer prec urr = Ok b -> is_u32 far /\ is_u32 qer /\ is_u32 prec /\ is_u32 urr.
Proof.
  unfold enc_pdr, pack. cbn [parse_fmt]. intros [Hr _]%pack_codes_inv.
  do 4 (apply Forall2_cons_1 in Hr as [? Hr]). done.
Qed.

Lemma enc_session_ok pdr qer far :
  is_u32 pdr -> is_u32 qer -> is_u32 far -> exists b, enc_session pdr qer far = Ok b.
Proof.
  intros. eexists. unfold enc_session, pack. cbn [parse_fmt].
  apply (pack_codes_ok LE [fI; fI; fI; fI]).
  repeat (apply Forall2_cons; split; [first [assumption|by vm_compute]|]). constructor.
Qed.

Lemma enc_far_ok action ifx peer teid :
  is_u32 action -> is_u32 ifx -> is_u32 peer -> is_u32 teid -> exists b, enc_far action ifx peer teid = Ok b.
Proof.
  intros. eexists. unfold enc_far, pack. cbn [parse_fmt].
  apply (pack_codes_ok LE [fI; fI; fI; fI]). repeat (apply Forall2_cons; split; [assumption|]). constructor.
Qed.

(** ** Bundles *)

Definition enc_slot (sl : tc_bundle_slot) : res bytes :=
  enc_bundle_slot (slot_far_id sl) (slot_qer_id sl) (slot_urr_id sl)
    (slot_precedence sl) (slot_generation sl).

(** Every field fits a [__u32]. *)
Definition slot_fits (sl : tc_bundle_slot) : Prop :=
  is_u32 (slot_far_id sl) /\ is_u32 (slot_qer_id sl) /\ is_u32 (slot_urr_id sl) /\
  is_u32 (slot_precedence sl) /\ is_u32 (slot_generation sl).

Lemma pack_codes_app e cs1 cs2 vs1 vs2 b1 b2 :
  pack_codes e cs1 vs1 = Ok b1 -> pack_codes e cs2 vs2 = Ok b2 ->
  pack_codes e (cs1 ++ cs2) (vs1 ++ vs2) = Ok (b1 ++ b2).
Proof.
  revert vs1 b1. induction cs1 as [|c cs1 IH]; intros [|v vs1] b1 H1 H2; simplify_eq/=; [done|].
  case_decide; [|done]. destruct (pack_codes e cs1 vs1) eqn:Hp; simplify_eq/=.
  erewrite IH by done. simpl. by rewrite <-app_assoc.
Qed.

Lemma enc_slot_fits sl b : enc_slot sl = Ok b -> slot_fits sl.
Proof.
  intros H. unfold enc_slot, enc_bundle_slot, pack in H. cbn [parse_fmt] in H.
  apply pack_codes_inv in H as [Hr _].
  do 5 (apply Forall2_cons_1 in Hr as [? Hr]).
  unfold slot_fits. repeat (split; [assumption|]). assumption.
Qed.

Lemma enc_slot_ok sl : slot_fits sl -> exists b, enc_slot sl = Ok b.
Proof.
  intros (?&?&?&?&?). eexists. unfold enc_slot, enc_bundle_slot, pack. cbn [parse_fmt].
  apply (pack_codes_ok LE [fI; fI; fI; fI; fI; fI]).
  do 6 (apply Forall2_cons; split; [first [assumption|by vm_compute]|]). constructor.
Qed.

Lemma enc_slot_exc sl : ~ slot_fits sl -> enc_slot sl = Exc StructError.
Proof.
  intros Hn. destruct (enc_slot sl) as [b|e] eqn:He.
  - by destruct Hn; eapply enc_slot_fits.
  - f_equal. by eapply pack_exc.
Qed.

Lemma enc_bundle_layout a sl0 sl1 b0 b1 b :
  enc_slot sl0 = Ok b0 -> enc_slot sl1 = Ok b1 -> enc_bundle a b0 b1 = Ok b ->
  read_tc_bundle b = {| bundle_active := a; bundle_slot0 := sl0; bundle_slot1 := sl1 |} /\
  length b = c_sizeof L_tc_bundle.
Proof.
  intros H0 H1 H. unfold enc_bundle in H. destruct (pack "<II" [a; 0]) as [h|] eqn:Hh; simplify_eq/=.
  pose proof (pack_codes_app _ _ _ _ _ _ _ Hh (pack_codes_app _ _ _ _ _ _ _ H0 H1)) as Hall.
  match type of Hall with pack_codes _ _ ?vs = _ =>
    change (pack "<IIIIIIIIIIIIII" vs = Ok (h ++ b0 ++ b1)) in Hall end.
  unfold mret, res_ret in H. simplify_eq.
  split; [|exact (describes_length _ _ _ _ describes_bundle Hall)].
  destruct sl0, sl1. unfold read_tc_bundle, read_slot. rewrite <-(app_nil_r (h ++ b0 ++ b1)).
  repeat f_equal; (eapply describes_field; [|exact Hall|reflexivity]; apply describes_bundle).
Qed.

(** ** What Python reads back *)

Lemma unpack_codes_places cs fs off b :
  fsize <$> cs = cty_size <$> fs -> Forall (fun c => fsigned c = false) cs ->
  unpack_codes LE cs (drop off b) = (fun '(o, s) => load o s b) <$> packed_places off fs.
Proof.
  revert fs off. induction cs as [|c cs IH]; intros [|t fs] off Hsz Hsg; simplify_eq/=; [done|].
  apply Forall_cons in Hsg as [Hs Hsg]. f_equal.
  - unfold dec_field. rewrite Hs. simpl. unfold load, slice. congruence.
  - rewrite drop_drop. erewrite IH; [|done..]. congruence.
Qed.

(** The two [unpack_from] calls of [modify_tc_bundle], on any 56-byte value. *)
Lemma unpack_bundle_header raw :
  length raw = c_sizeof L_tc_bundle ->
  exists pad, unpack_from "<II" raw 0 = Ok [bundle_active (read_tc_bundle raw); pad].
Proof.
  intros Hl. exists (field L_tc_bundle 1 raw).
  rewrite (unpack_from_eq _ LE [fI; fI]); [|reflexivity|].
  2:{ rewrite Hl. apply (bool_decide_unpack _). exact I. }
  by rewrite (unpack_codes_places [fI; fI] [c_u32; c_u32]) by (by repeat constructor).
Qed.

Lemma unpack_bundle_slot raw (i : nat) :
  length raw = c_sizeof L_tc_bundle -> (i < 2)%nat ->
  exists pad, unpack_from "<IIIIII" raw (8 + i * 24) =
    let sl := read_slot i raw in
    Ok [slot_far_id sl; slot_qer_id sl; slot_urr_id sl; slot_precedence sl; slot_generation sl; pad].
Proof.
  intros Hl Hi. exists (field L_tc_bundle (2 + 6 * i + 5) raw).
  rewrite (unpack_from_eq _ LE [fI; fI; fI; fI; fI; fI]); [|reflexivity|].
  2:{ rewrite Hl. destruct i as [|[|i]]; [..|lia]; apply (bool_decide_unpack _); exact I. }
  f_equal. rewrite (unpack_codes_places _ L_tc_bundle_slot) by (by repeat constructor).
  by destruct i as [|[|i]]; [..|lia].
Qed.

Lemma read_slot_fits i b : slot_fits (read_slot i b).
Proof.
  assert (Hf : forall j, is_u32 (field L_tc_bundle j b)).
  { intros j. unfold field. destruct (place 0 L_tc_bundle !! j) as [[o s]|] eqn:Hj; [|lia].
    assert (s = 4%nat) as ->; [|apply (load_range o 4 b)].
    do 14 (destruct j as [|j]; [vm_compute in Hj; by simplify_eq|]). by vm_compute in Hj. }
  unfold slot_fits, read_slot. simpl. split_and!; apply Hf.
Qed.
