(* ===== verification/Agent.v ===== *)
(** * agent.py: the map operations of the control plane

    One definition per function of loader/agent.py that writes maps, as a
    program over bpf(2) calls.  Arguments are evaluated left to right, so an
    encoder that raises does so before the write it feeds.  [print] calls are
    left out. *)

From S2P Require Import Prelude Prog PyStruct PyText UpfMaps Kernel BpfSyscall Encoders.

(** [_maps = PinnedMapCache(PIN_BASE)] *)
Definition map_update (name : string) (key_bytes val_bytes : bytes) : bpfM unit :=
  PinnedMapCache.update PIN_BASE name key_bytes val_bytes BPF_ANY.

Definition map_delete (name : string) (key_bytes : bytes) : bpfM unit :=
  try_oserror (PinnedMapCache.delete PIN_BASE name key_bytes) (mret tt).

Definition install_far (far_id action out_ifindex peer_ipv4_be out_teid_be : Z) : bpfM unit :=
  key ← lift (enc_u32 far_id);
  val ← lift (enc_far action out_ifindex peer_ipv4_be out_teid_be);
  map_update "far_table" key val.

Definition install_qer (qer_id mbr_ul_bps mbr_dl_bps burst_bytes : Z) : bpfM unit :=
  key ← lift (enc_u32 qer_id);
  val ← lift (enc_qer mbr_ul_bps mbr_dl_bps burst_bytes);
  map_update "qer_table" key val.

Definition ip_to_be32_bytes (dotted : string) : res bytes := inet_aton dotted.

Definition install_dl_ue (ue_ip_dotted : string) (teid : Z) (gnb_ip_dotted : string) (qfi : Z) : bpfM unit :=
  key ← lift (ip_to_be32_bytes ue_ip_dotted);
  teid_be ← lift (pack ">I" [teid]);
  gnb_be ← lift (ip_to_be32_bytes gnb_ip_dotted);
  tl ← lift (pack "<HH" [qfi; 0]);
  map_update "dl_ue_map" key (teid_be ++ gnb_be ++ tl).

Definition install_upf_config (n3_addr_dotted : string) : bpfM unit :=
  key ← lift (enc_u32 0);
  val ← lift (ip_to_be32_bytes n3_addr_dotted);
  map_update "upf_config_map" key val.

Definition install_tc_bundle (pdr_id far_id qer_id urr_id precedence generation : Z) : bpfM unit :=
  slot ← lift (enc_bundle_slot far_id qer_id urr_id precedence generation);
  key ← lift (enc_u32 pdr_id);
  val ← lift (enc_bundle 0 slot slot);
  map_update "tc_bundle_map" key val.

(** [slots_prep[i]], which still holds [None] when the slot was not filled *)
Definition slot_at (slots_prep : list (option bytes)) (i : nat) : res bytes :=
  match slots_prep !! i with Some (Some b) => Ok b | _ => Exc TypeError end.

Definition modify_tc_bundle (pdr_id : Z) (far_id qer_id urr_id precedence : option Z) : bpfM Z :=
  key0 ← lift (enc_u32 pdr_id);
  raw ← PinnedMapCache.lookup PIN_BASE "tc_bundle_map" key0 (4 + 4 + 24 + 24);
  hdr ← lift (unpack_from "<II" raw 0);
  let active := Z.to_nat (Z.land (nth 0 hdr 0) 1) in
  let slot_off := (8 + active * 24)%nat in
  cur ← lift (unpack_from "<IIIIII" raw slot_off);
  let cur_far_id := nth 0 cur 0 in
  let cur_qer_id := nth 1 cur 0 in
  let cur_urr_id := nth 2 cur 0 in
  let cur_prec := nth 3 cur 0 in
  let cur_gen := nth 4 cur 0 in
  let inactive := (1 - active)%nat in
  let new_far_id := default cur_far_id far_id in
  let new_qer_id := default cur_qer_id qer_id in
  let new_urr_id := default cur_urr_id urr_id in
  let new_prec := default cur_prec precedence in
  let new_gen := cur_gen + 1 in
  cur_slot_bytes ← lift (enc_bundle_slot cur_far_id cur_qer_id cur_urr_id cur_prec cur_gen);
  new_slot_bytes ← lift (enc_bundle_slot new_far_id new_qer_id new_urr_id new_prec new_gen);
  let slots_prep := <[inactive := Some new_slot_bytes]>
                    (<[active := Some cur_slot_bytes]> [None; None]) in
  key1 ← lift (enc_u32 pdr_id);
  s0 ← lift (slot_at slots_prep 0);
  s1 ← lift (slot_at slots_prep 1);
  val1 ← lift (enc_bundle (Z.of_nat active) s0 s1);
  map_update "tc_bundle_map" key1 val1 ;;
  key2 ← lift (enc_u32 pdr_id);
  val2 ← lift (enc_bundle (Z.of_nat inactive) s0 s1);
  map_update "tc_bundle_map" key2 val2 ;;
  mret new_gen.

Definition install_session (teid pdr_id qer_id far_id precedence urr_id : Z) : bpfM unit :=
  key ← lift (enc_u32 pdr_id);
  val ← lift (enc_pdr far_id qer_id precedence urr_id);
  map_update "pdr_table" key val ;;
  install_tc_bundle pdr_id far_id qer_id urr_id precedence 0 ;;
  key ← lift (enc_u32 teid);
  val ← lift (enc_session pdr_id qer_id far_id);
  map_update "teid_session" key val.

Definition remove_session (teid pdr_id : Z) : bpfM unit :=
  key ← lift (enc_u32 teid);
  map_delete "teid_session" key ;;
  key ← lift (enc_u32 pdr_id);
  map_delete "pdr_table" key ;;
  key ← lift (enc_u32 pdr_id);
  map_delete "tc_bundle_map" key.

(** [range(n)] *)
Definition range (n : Z) : list Z := Z.of_nat <$> seq 0 (Z.to_nat n).

(** The defaults of [install_session(teid, pdr_id)]. *)
Definition install_session_default (teid pdr_id : Z) : bpfM unit :=
  install_session teid pdr_id 1 1 100 1.

Definition bootstrap_initial (n out_ifindex : Z) : bpfM unit :=
  install_far 1 FAR_FORWARD out_ifindex 0 0 ;;
  install_qer 1 0 0 0 ;;
  for_each (range n) (fun i => install_session_default (0x1000 + i) (0x2000 + i)).

(** [measure_rule_update]: the clock is read around the batch and around each
    installation; [clock i] is the value of the [i]-th call of
    [time.monotonic_ns()].  The result is the total and the samples in
    nanoseconds; the code divides them by [1e6] and [1000.0]. *)
Definition measure_rule_update (clock : nat -> Z) (n_rules : Z) : bpfM (Z * list Z) :=
  let base_teid := 0x10000 in
  let base_pdr := 0x20000 in
  for_each (range n_rules) (fun i => install_session_default (base_teid + i) (base_pdr + i)) ;;
  for_each (range n_rules) (fun i => remove_session (base_teid + i) (base_pdr + i)) ;;
  let n := Z.to_nat n_rules in
  mret (clock (2 * n + 1)%nat - clock 0%nat,
        (fun i => clock (2 * i + 2)%nat - clock (2 * i + 1)%nat) <$> seq 0 n).

(** ** Specifications *)

Section specs.
Context `{BpfKernelLaws K}.
Context (rely guar : K -> K -> Prop) (Hrely : stable_rely rely).
Context (Hguar : forall k k', quiet k k' -> guar k k').

Lemma pwp_map_update name d key val s (Q : res unit -> fd_cache -> K -> Prop) k :
  map_def_of name = Some d -> is_plain d = true ->
  length key = md_ksize d -> length val = md_vsize d ->
  cache_ok s k -> kernel_ok k ->
  (forall s' k1 e, rely k k1 -> cache_ok s' k1 -> kernel_ok k1 -> s ⊆ s' ->
     (is_Some (s !! name) -> contents k1 name key = None /\ is_lru name = false) ->
     Q (Exc (OSError e)) s' k1) ->
  (forall s' k1 k2, rely k k1 -> kernel_ok k1 -> stored name key val k1 k2 ->
     cache_ok s' k2 -> kernel_ok k2 -> cached s s' name -> guar k1 k2 /\ Q (Ok tt) s' k2) ->
  pwp sys_bpf rely guar (map_update name key val) s Q k.
Proof using Type*. apply pwp_update; auto. Qed.

Lemma pwp_map_delete name d key s (Q : res unit -> fd_cache -> K -> Prop) k :
  map_def_of name = Some d -> is_plain d = true -> md_type d <> MT_ARRAY ->
  length key = md_ksize d -> cache_ok s k -> kernel_ok k ->
  (forall s' k1, rely k k1 -> cache_ok s' k1 -> kernel_ok k1 -> s ⊆ s' ->
     (is_Some (s !! name) -> contents k1 name key = None) -> Q (Ok tt) s' k1) ->
  (forall s' k1 k2, rely k k1 -> kernel_ok k1 -> removed name key k1 k2 ->
     cache_ok s' k2 -> kernel_ok k2 -> cached s s' name -> guar k1 k2 /\ Q (Ok tt) s' k2) ->
  pwp sys_bpf rely guar (map_delete name key) s Q k.
Proof using Type*.
  intros. apply pwp_try. eapply pwp_delete; eauto.
  intros s' k1 e ???? He. apply pwp_ret. naive_solver.
Qed.

Lemma pwp_lift_bind {A B} (r : res A) (f : A -> bpfM B) s (Q : res B -> fd_cache -> K -> Prop) k :
  (forall a, r = Ok a -> pwp sys_bpf rely guar (f a) s Q k) ->
  (forall e, r = Exc e -> Q (Exc e) s k) ->
  pwp sys_bpf rely guar (a ← lift r; f a) s Q k.
Proof using Type*. intros HOk HExc. apply pwp_bind, pwp_lift. destruct r; auto. Qed.
End specs.
