(* ===== verification/Qer.v ===== *)
(** * upf_tc.c: QER token buckets

    [bucket_percpu] and [bucket_shared] are the bodies of the two builds of
    [upf_qer_admit] once the QER and its bucket are found: refill, clamp,
    drain, on [__u64] arithmetic with its wrap-around.  [upf_qer_admit] adds
    the lookups and the fail-open cases.  [run_bucket] pushes a sequence of
    packets (arrival time, length) through one bucket. *)

From S2P Require Import Prelude UpfMaps.

(** A packet offered to a bucket: [bpf_ktime_get_ns()] and its length. *)
Record arrival := { at_ns : Z; pkt_len : Z }.

(** [elapsed > 1000000000ULL ? 1000000000ULL : elapsed] *)
Definition cap_elapsed (elapsed : Z) : Z :=
  if elapsed >? 1000000000 then 1000000000 else elapsed.

Definition refill_of (elapsed mbr : Z) : Z := u64 (elapsed * mbr) / 8000000000.

(** The loads of one invocation through the pointer to its QER: [mbr_ul_bps]
    compared with 0, then [burst_bytes] to fill a fresh bucket, or [mbr_ul_bps]
    for the refill and [burst_bytes] compared and assigned. *)
Record qer_reads := { q_limited : Z; q_first : Z; q_rate : Z; q_over : Z; q_cap : Z }.

(** A QER that does not change meanwhile. *)
Definition steady (qv : qer_val) : qer_reads :=
  {| q_limited := mbr_ul_bps qv; q_first := burst_bytes qv; q_rate := mbr_ul_bps qv;
     q_over := burst_bytes qv; q_cap := burst_bytes qv |}.

(** Add the credit of [elapsed] ns and clamp to the burst size. *)
Definition refill_bucket_at (q : qer_reads) (st : qer_bucket_state) (elapsed now : Z) : qer_bucket_state :=
  let tokens := u64 (tokens_bytes st + refill_of (cap_elapsed elapsed) (q_rate q)) in
  {| tokens_bytes := if tokens >? q_over q then q_cap q else tokens; last_ns := now |}.

Definition refill_bucket (qv : qer_val) := refill_bucket_at (steady qv).

Definition drain (st : qer_bucket_state) (len : Z) : bool * qer_bucket_state :=
  if tokens_bytes st >=? len
  then (true, {| tokens_bytes := u64 (tokens_bytes st - len); last_ns := last_ns st |})
  else (false, st).

(** Per-CPU build: [elapsed = now - st->last_ns] on [__u64]. *)
Definition bucket_percpu_at (q : qer_reads) (st : qer_bucket_state) (a : arrival) : bool * qer_bucket_state :=
  let now := at_ns a in
  let st1 := if last_ns st =? 0
             then {| tokens_bytes := q_first q; last_ns := now |}
             else refill_bucket_at q st (u64 (now - last_ns st)) now in
  drain st1 (pkt_len a).

Definition bucket_percpu (qv : qer_val) := bucket_percpu_at (steady qv).

(** Shared build: a timestamp older than [last_ns] contributes nothing. *)
Definition bucket_shared_at (q : qer_reads) (st : qer_bucket_state) (a : arrival) : bool * qer_bucket_state :=
  let now := at_ns a in
  let st1 := if last_ns st =? 0
             then {| tokens_bytes := q_first q; last_ns := now |}
             else refill_bucket_at q st (if now >? last_ns st then u64 (now - last_ns st) else 0) now in
  drain st1 (pkt_len a).

Definition bucket_shared (qv : qer_val) := bucket_shared_at (steady qv).

(** The build switch [UPF_QER_SHARED_LOCK]. *)
Inductive qer_build := PerCpu | SharedLock.

Definition bucket_step_at (b : qer_build) : qer_reads -> qer_bucket_state -> arrival -> bool * qer_bucket_state :=
  match b with PerCpu => bucket_percpu_at | SharedLock => bucket_shared_at end.

Definition bucket_step (b : qer_build) (qv : qer_val) := bucket_step_at b (steady qv).

(** A fresh element of the bucket map (zero-filled). *)
Definition fresh_bucket : qer_bucket_state := {| tokens_bytes := 0; last_ns := 0 |}.

(** [upf_qer_admit], whose reads are [i] to [i + 4]; [buckets] is the bucket map
    of this CPU (or the shared one). *)
Definition upf_qer_admit_at (b : qer_build) (m : reads) (i : nat)
    (buckets : gmap Z qer_bucket_state) (qer_id len now : Z) : bool * gmap Z qer_bucket_state :=
  match r_at m i "qer_table"%string (le_split 4 qer_id) with
  | None => (true, buckets)
  | Some v =>
      let qv j := read_qer_val (deref m (i + j) "qer_table"%string (le_split 4 qer_id) v) in
      let q := {| q_limited := mbr_ul_bps (qv 1%nat); q_first := burst_bytes (qv 2%nat); q_rate := mbr_ul_bps (qv 2%nat);
                  q_over := burst_bytes (qv 3%nat); q_cap := burst_bytes (qv 4%nat) |} in
      if q_limited q =? 0 then (true, buckets)
      else if qer_id <? 4096 then
        let st := default fresh_bucket (buckets !! qer_id) in
        let '(ok, st') := bucket_step_at b q st {| at_ns := now; pkt_len := len |} in
        (ok, <[qer_id := st']> buckets)
      else (true, buckets)
  end.

Definition upf_qer_admit (b : qer_build) (lookup : lookup_fn) := upf_qer_admit_at b (still lookup) 0.

Lemma upf_qer_admit_eq b lookup buckets qer_id len now :
  upf_qer_admit b lookup buckets qer_id len now =
    match lookup "qer_table"%string (le_split 4 qer_id) with
    | None => (true, buckets)
    | Some v =>
        if mbr_ul_bps (read_qer_val v) =? 0 then (true, buckets)
        else if qer_id <? 4096 then
          let '(ok, st') := bucket_step b (read_qer_val v) (default fresh_bucket (buckets !! qer_id))
                              {| at_ns := now; pkt_len := len |} in
          (ok, <[qer_id := st']> buckets)
        else (true, buckets)
    end.
Proof. reflexivity. Qed.

(** A sequence of packets through one bucket: the bytes admitted and the
    final state. *)
Fixpoint run_bucket (b : qer_build) (qv : qer_val) (st : qer_bucket_state) (l : list arrival) :
    Z * qer_bucket_state :=
  match l with
  | [] => (0, st)
  | a :: l' =>
      let '(ok, st1) := bucket_step b qv st a in
      let '(adm, st2) := run_bucket b qv st1 l' in
      ((if ok then pkt_len a else 0) + adm, st2)
  end.

(** ** Hypotheses under which the arithmetic does not wrap *)

(** The configuration: [mbr * 10^9] fits a [__u64]. *)
Definition qer_fits (qv : qer_val) : Prop :=
  0 < mbr_ul_bps qv /\ 1000000000 * mbr_ul_bps qv < 2 ^ 64 /\ is_u32 (burst_bytes qv).

Definition bucket_wf (qv : qer_val) (st : qer_bucket_state) : Prop :=
  0 <= tokens_bytes st <= burst_bytes qv /\ is_u64 (last_ns st).

Definition arrival_wf (a : arrival) : Prop := 0 < at_ns a < 2 ^ 64 /\ 0 <= pkt_len a < 2 ^ 32.

(** Arrivals in timestamp order, the first not before [t]. *)
Fixpoint in_order (t : Z) (l : list arrival) : Prop :=
  match l with [] => True | a :: l' => t <= at_ns a /\ in_order (at_ns a) l' end.

Fixpoint last_at (t : Z) (l : list arrival) : Z :=
  match l with [] => t | a :: l' => last_at (at_ns a) l' end.

(** The time that passes forwards along a sequence of timestamps. *)
Fixpoint advances (t : Z) (l : list arrival) : Z :=
  match l with [] => 0 | a :: l' => Z.max 0 (at_ns a - t) + advances (at_ns a) l' end.

(** ** Lemmas *)

Lemma cap_elapsed_le e : 0 <= e -> 0 <= cap_elapsed e <= e /\ cap_elapsed e <= 1000000000.
Proof. unfold cap_elapsed. intros. destruct (Z.gtb_spec e 1000000000); lia. Qed.

(** Without wrap-around the refill is the rounded-down credit. *)
Lemma refill_bound qv e :
  qer_fits qv -> 0 <= e ->
  0 <= refill_of (cap_elapsed e) (mbr_ul_bps qv) < 2 ^ 32 /\
  8000000000 * refill_of (cap_elapsed e) (mbr_ul_bps qv) <= e * mbr_ul_bps qv.
Proof.
  intros (Hm & Hfit & _) He. unfold refill_of. destruct (cap_elapsed_le e He) as [[H0 Hle] Hcap].
  rewrite u64_small by nia.
  assert (cap_elapsed e * mbr_ul_bps qv < 2 ^ 64) by nia.
  pose proof (Z.div_pos (cap_elapsed e * mbr_ul_bps qv) 8000000000).
  pose proof (Z.mul_div_le (cap_elapsed e * mbr_ul_bps qv) 8000000000).
  assert (cap_elapsed e * mbr_ul_bps qv / 8000000000 < 2 ^ 32) by (apply Z.div_lt_upper_bound; lia).
  split; [lia|nia].
Qed.

Lemma refill_bucket_eq qv st elapsed now :
  refill_bucket qv st elapsed now =
    let tokens := u64 (tokens_bytes st + refill_of (cap_elapsed elapsed) (mbr_ul_bps qv)) in
    {| tokens_bytes := if tokens >? burst_bytes qv then burst_bytes qv else tokens; last_ns := now |}.
Proof. reflexivity. Qed.

Lemma refill_bucket_spec qv st e now :
  qer_fits qv -> bucket_wf qv st -> 0 <= e -> is_u64 now ->
  let st' := refill_bucket qv st e now in
  bucket_wf qv st' /\ last_ns st' = now /\
  8000000000 * tokens_bytes st' <= 8000000000 * tokens_bytes st + e * mbr_ul_bps qv.
Proof.
  intros Hq Hwf He Hnow st'. destruct (refill_bound qv e Hq He) as [[Hr0 Hr] Hcredit].
  destruct Hq as (_ & _ & Hb), Hwf as [Ht _]. subst st'. rewrite refill_bucket_eq. unfold bucket_wf. simpl.
  rewrite u64_small by lia.
  destruct (Z.gtb_spec (tokens_bytes st + refill_of (cap_elapsed e) (mbr_ul_bps qv)) (burst_bytes qv));
    lia.
Qed.

Lemma drain_spec qv st len ok st' :
  qer_fits qv -> bucket_wf qv st -> 0 <= len -> drain st len = (ok, st') ->
  bucket_wf qv st' /\ last_ns st' = last_ns st /\
  (if ok then len else 0) + tokens_bytes st' = tokens_bytes st.
Proof.
  intros (_ & _ & Hb) [Ht Hl] Hlen. unfold drain.
  destruct (Z.geb_spec (tokens_bytes st) len); intros [= <- <-]; simpl; [|unfold bucket_wf; lia].
  unfold bucket_wf. simpl. rewrite u64_small by lia. lia.
Qed.

Lemma drain_last st len ok st' : drain st len = (ok, st') -> last_ns st' = last_ns st.
Proof. unfold drain. destruct (_ >=? _); by intros [= <- <-]. Qed.

(** The elapsed time a build credits between two packets. *)
Definition credited (b : qer_build) (last now : Z) : Z :=
  match b with
  | PerCpu => u64 (now - last)
  | SharedLock => if now >? last then u64 (now - last) else 0
  end.

(** Both builds on a QER that does not change. *)
Lemma bucket_step_eq b qv st a :
  bucket_step b qv st a = drain
    (if last_ns st =? 0 then {| tokens_bytes := burst_bytes qv; last_ns := at_ns a |}
     else refill_bucket qv st (credited b (last_ns st) (at_ns a)) (at_ns a)) (pkt_len a).
Proof. destruct b; reflexivity. Qed.

Lemma bucket_step_last b qv st a ok st' : bucket_step b qv st a = (ok, st') -> last_ns st' = at_ns a.
Proof.
  rewrite bucket_step_eq. intros ->%drain_last. by destruct (last_ns st =? 0).
Qed.

Lemma credited_nonneg b l n : 0 <= credited b l n.
Proof.
  unfold credited. destruct b; [apply u64_range|]. destruct (n >? l); [apply u64_range|lia].
Qed.

(** One packet on a bucket in use. *)
Lemma bucket_step_spec b qv st a ok st' :
  qer_fits qv -> bucket_wf qv st -> last_ns st <> 0 -> arrival_wf a ->
  bucket_step b qv st a = (ok, st') ->
  bucket_wf qv st' /\ last_ns st' = at_ns a /\
  8000000000 * ((if ok then pkt_len a else 0) + tokens_bytes st') <=
    8000000000 * tokens_bytes st + credited b (last_ns st) (at_ns a) * mbr_ul_bps qv.
Proof.
  intros Hq Hwf Hl [Ht Hlen] Hstep.
  assert (Hd : drain (refill_bucket qv st (credited b (last_ns st) (at_ns a)) (at_ns a)) (pkt_len a) = (ok, st')).
  { rewrite bucket_step_eq in Hstep. by destruct (Z.eqb_spec (last_ns st) 0). }
  destruct (refill_bucket_spec qv st (credited b (last_ns st) (at_ns a)) (at_ns a))
    as (Hwf1 & Hl1 & Hc); [done|done|apply credited_nonneg|lia|].
  destruct (drain_spec qv _ _ _ _ Hq Hwf1 (proj1 Hlen) Hd) as (? & ? & Hsum). 
  split; [done|]. split; [congruence|]. lia.
Qed.

(** The first packet of a bucket finds it full. *)
Lemma bucket_step_fresh b qv st a ok st' :
  qer_fits qv -> last_ns st = 0 -> arrival_wf a -> bucket_step b qv st a = (ok, st') ->
  bucket_wf qv st' /\ last_ns st' = at_ns a /\
  (if ok then pkt_len a else 0) + tokens_bytes st' = burst_bytes qv.
Proof.
  intros Hq Hl [Ht Hlen] Hstep.
  assert (Hd : drain {| tokens_bytes := burst_bytes qv; last_ns := at_ns a |} (pkt_len a) = (ok, st')).
  { by rewrite bucket_step_eq, Hl in Hstep. }
  eapply drain_spec in Hd; [exact Hd|exact Hq| |lia].
  destruct Hq as (_ & _ & ?). unfold bucket_wf. simpl. lia.
Qed.

Lemma run_bucket_wf b qv st l adm st' :
  qer_fits qv -> bucket_wf qv st -> last_ns st <> 0 -> Forall arrival_wf l ->
  run_bucket b qv st l = (adm, st') ->
  bucket_wf qv st' /\ last_ns st' = last_at (last_ns st) l /\ last_ns st' <> 0.
Proof.
  intros Hq. revert st adm. induction l as [|a l IH]; intros st adm Hwf Hl Hf Hrun;
    simplify_eq/=; [done|].
  apply Forall_cons in Hf as [Ha Hf].
  destruct (bucket_step b qv st a) as [ok st1] eqn:Hs.
  destruct (run_bucket b qv st1 l) as [adm' st2] eqn:Hr. simplify_eq.
  destruct (bucket_step_spec _ _ _ _ _ _ Hq Hwf Hl Ha Hs) as (Hwf1 & Hl1 & _).
  destruct (IH st1 adm') as (? & Hlast & ?); [done| |done|done|].
  - rewrite Hl1. destruct Ha. lia.
  - by rewrite <-Hl1.
Qed.

(** The credit a build counts along a sequence of timestamps. *)
Fixpoint credit (b : qer_build) (t : Z) (l : list arrival) : Z :=
  match l with [] => 0 | a :: l' => credited b t (at_ns a) + credit b (at_ns a) l' end.

(** What a bucket in use admits is covered by its tokens and that credit. *)
Lemma run_bucket_credit b qv st l adm st' :
  qer_fits qv -> bucket_wf qv st -> last_ns st <> 0 -> Forall arrival_wf l ->
  run_bucket b qv st l = (adm, st') ->
  8000000000 * (adm + tokens_bytes st') <=
    8000000000 * tokens_bytes st + credit b (last_ns st) l * mbr_ul_bps qv.
Proof.
  intros Hq. revert st adm. induction l as [|a l IH]; intros st adm Hwf Hl Hf Hrun;
    simplify_eq/=; [lia|].
  apply Forall_cons in Hf as [Ha Hf].
  destruct (bucket_step b qv st a) as [ok st1] eqn:Hs.
  destruct (run_bucket b qv st1 l) as [adm' st2] eqn:Hr. simplify_eq.
  destruct (bucket_step_spec _ _ _ _ _ _ Hq Hwf Hl Ha Hs) as (Hwf1 & Hl1 & Hc1).
  specialize (IH st1 adm' Hwf1). rewrite Hl1 in IH.
  assert (at_ns a <> 0) by (destruct Ha; lia). specialize (IH ltac:(done) Hf Hr). lia.
Qed.

Lemma credited_in_order b t n : 0 <= t -> t <= n < 2 ^ 64 -> credited b t n = n - t.
Proof.
  intros Ht Hn. unfold credited. destruct b; [by apply u64_small; lia|].
  destruct (Z.gtb_spec n t); [apply u64_small; lia|lia].
Qed.

Lemma credit_in_order b t l :
  0 <= t -> Forall arrival_wf l -> in_order t l -> credit b t l = last_at t l - t.
Proof.
  revert t. induction l as [|a l IH]; intros t Ht Hf Ho; simpl in *; [lia|].
  apply Forall_cons in Hf as [[Ha _] Hf]. destruct Ho as [Hle Ho].
  rewrite credited_in_order by lia. rewrite IH by (try lia; done). lia.
Qed.

Lemma credit_shared t l :
  0 <= t -> Forall arrival_wf l -> credit SharedLock t l = advances t l.
Proof.
  revert t. induction l as [|a l IH]; intros t Ht Hf; simpl in *; [done|].
  apply Forall_cons in Hf as [[Ha _] Hf]. rewrite IH by (try lia; done).
  destruct (Z.gtb_spec (at_ns a) t); [rewrite u64_small by lia|]; lia.
Qed.

Lemma last_at_ge t l : in_order t l -> t <= last_at t l.
Proof.
  revert t. induction l as [|a l IH]; intros t Ho; simpl in *; [lia|].
  destruct Ho as [? Ho]. specialize (IH _ Ho). lia.
Qed.

(** Pushing a sequence into a fresh bucket: the first packet finds it full. *)
Lemma run_bucket_fresh b qv a l adm st' :
  qer_fits qv -> Forall arrival_wf (a :: l) -> run_bucket b qv fresh_bucket (a :: l) = (adm, st') ->
  8000000000 * (adm + tokens_bytes st') <=
    8000000000 * burst_bytes qv + credit b (at_ns a) l * mbr_ul_bps qv /\ bucket_wf qv st'.
Proof.
  intros Hq Hf Hrun. apply Forall_cons in Hf as [Ha Hf]. cbn [run_bucket] in Hrun.
  destruct (bucket_step b qv fresh_bucket a) as [ok st1] eqn:Hs.
  destruct (run_bucket b qv st1 l) as [adm' st2] eqn:Hr. simplify_eq.
  destruct (bucket_step_fresh _ _ fresh_bucket _ _ _ Hq eq_refl Ha Hs) as (Hwf1 & Hl1 & Hsum).
  assert (last_ns st1 <> 0) as Hl by (rewrite Hl1; destruct Ha; lia).
  pose proof (run_bucket_credit _ _ _ _ _ _ Hq Hwf1 Hl Hf Hr) as Hc. rewrite Hl1 in Hc.
  destruct (run_bucket_wf _ _ _ _ _ _ Hq Hwf1 Hl Hf Hr). split; [lia|done].
Qed.

(** Whatever the state of the bucket, the first packet brings it below the
    burst: after a change of the configuration, for instance. *)
Lemma bucket_step_any b qv st a ok st' :
  is_u32 (burst_bytes qv) -> arrival_wf a -> bucket_step b qv st a = (ok, st') ->
  bucket_wf qv st' /\ (if ok then pkt_len a else 0) + tokens_bytes st' <= burst_bytes qv.
Proof.
  intros Hb [Hat Hlen] Hstep.
  assert (exists st1, 0 <= tokens_bytes st1 <= burst_bytes qv /\ last_ns st1 = at_ns a /\
    drain st1 (pkt_len a) = (ok, st')) as (st1 & Ht & Hl & Hd).
  { assert (Hr : forall e, 0 <= tokens_bytes (refill_bucket qv st e (at_ns a)) <= burst_bytes qv).
    { intros e. rewrite refill_bucket_eq. cbn [tokens_bytes]. set (t := u64 _).
      pose proof (u64_range (tokens_bytes st + refill_of (cap_elapsed e) (mbr_ul_bps qv))). fold t in H.
      destruct (Z.gtb_spec t (burst_bytes qv)); lia. }
    rewrite bucket_step_eq in Hstep. destruct (last_ns st =? 0); (eexists; split_and!; [..|exact Hstep]); cbn; try lia; apply Hr. }
  revert Hd. unfold drain, bucket_wf.
  destruct (Z.geb_spec (tokens_bytes st1) (pkt_len a)); intros [= <- <-]; cbn; [rewrite u64_small by lia|]; lia.
Qed.

(** So a run on any bucket admits at most a burst and what its time earns. *)
Lemma run_bucket_any b qv st a l adm st' :
  qer_fits qv -> Forall arrival_wf (a :: l) -> in_order (at_ns a) l -> run_bucket b qv st (a :: l) = (adm, st') ->
  8000000000 * adm <= 8000000000 * burst_bytes qv + (last_at (at_ns a) l - at_ns a) * mbr_ul_bps qv.
Proof.
  intros Hq Hf Ho Hrun. apply Forall_cons in Hf as [Ha Hf]. cbn [run_bucket] in Hrun.
  destruct (bucket_step b qv st a) as [ok st1] eqn:Hs.
  destruct (run_bucket b qv st1 l) as [adm' st2] eqn:Hr. simplify_eq.
  destruct (bucket_step_any _ _ _ _ _ _ ltac:(apply Hq) Ha Hs) as [Hwf1 Hsum].
  pose proof (bucket_step_last _ _ _ _ _ _ Hs) as Hl1. destruct Ha as [Hat _].
  pose proof (run_bucket_credit _ _ _ _ _ _ Hq Hwf1 ltac:(lia) Hf Hr) as Hc. rewrite Hl1 in Hc.
  destruct (run_bucket_wf _ _ _ _ _ _ Hq Hwf1 ltac:(lia) Hf Hr) as ([Ht2 _] & _).
  rewrite credit_in_order in Hc by (try lia; done). lia.
Qed.

(** ** Properties *)

(** C16: token-bucket rate bound.  In either build, a bucket fed packets in
    timestamp order admits, from its first packet on, at most the configured
    burst plus the configured maximum bit rate over the elapsed time (in
    bits: [8 * admitted <= 8 * burst + mbr * seconds]), as long as
    [mbr * 10^9] fits a [__u64]; and the bucket never holds more than the
    burst. *)
Theorem token_bucket_rate b qv a l adm st' :
  qer_fits qv -> Forall arrival_wf (a :: l) -> in_order (at_ns a) l ->
  run_bucket b qv fresh_bucket (a :: l) = (adm, st') ->
  8000000000 * adm <= 8000000000 * burst_bytes qv
                      + (last_at (at_ns a) l - at_ns a) * mbr_ul_bps qv /\
  0 <= tokens_bytes st' <= burst_bytes qv.
Proof.
  intros Hq Hf Ho Hrun. destruct (run_bucket_fresh _ _ _ _ _ _ Hq Hf Hrun) as [Hc [Hwf _]].
  apply Forall_cons in Hf as [[Ha _] Hf]. rewrite credit_in_order in Hc by (try lia; done).
  split; [lia|done].
Qed.

Lemma token_bucket_rate_witness :
  let qv := {| mbr_ul_bps := 50000000; mbr_dl_bps := 0; burst_bytes := 1500 |} in
  let l := [{| at_ns := 1000; pkt_len := 1400 |}; {| at_ns := 2000; pkt_len := 1400 |};
            {| at_ns := 400000; pkt_len := 1400 |}] in
  run_bucket PerCpu qv fresh_bucket l = (2800, {| tokens_bytes := 100; last_ns := 400000 |}) /\
  8000000000 * 2800 <= 8000000000 * 1500 + (400000 - 1000) * 50000000.
Proof.
  intros qv l. split; [by vm_compute|].
  pose proof (token_bucket_rate PerCpu qv {| at_ns := 1000; pkt_len := 1400 |} (tail l) 2800
    {| tokens_bytes := 100; last_ns := 400000 |}) as H.
  apply H; [unfold qer_fits; simpl; lia| |simpl; lia|by vm_compute].
  repeat constructor; simpl; lia.
Defined.

(** [n] packets streams, one per CPU, each through the bucket of its CPU. *)
Definition run_cpus (qv : qer_val) (ls : list (list arrival)) : Z :=
  sumZ ((fun l => fst (run_bucket PerCpu qv fresh_bucket l)) <$> ls).

(** Per-CPU buckets over-admit by at most the number of CPUs, and do.
    Streams spread over [N] CPUs within a window of [T] ns admit together at
    most [N] times what one bucket may admit; and [N] CPUs that each receive
    one burst at the same instant admit [N] times the burst. *)
Theorem percpu_overshoot qv T ls :
  qer_fits qv -> 0 <= T ->
  (forall l, l ∈ ls -> exists a l', l = a :: l' /\ Forall arrival_wf l /\
     in_order (at_ns a) l' /\ last_at (at_ns a) l' - at_ns a <= T) ->
  8000000000 * run_cpus qv ls <=
    Z.of_nat (length ls) * (8000000000 * burst_bytes qv + T * mbr_ul_bps qv) /\
  run_cpus qv (replicate (length ls) [{| at_ns := 1; pkt_len := burst_bytes qv |}]) =
    Z.of_nat (length ls) * burst_bytes qv.
Proof.
  intros Hq HT Hls. split.
  - unfold run_cpus. induction ls as [|l ls IH]; [done|].
    specialize (IH (fun l Hl => Hls l (list_elem_of_further _ _ _ Hl))).
    destruct (Hls l) as (a & l' & -> & Hf & Ho & Hw); [set_solver|].
    destruct (run_bucket PerCpu qv fresh_bucket (a :: l')) as [adm st'] eqn:Hr.
    destruct (run_bucket_fresh _ _ _ _ _ _ Hq Hf Hr) as [Hc [Hwf _]].
    apply Forall_cons in Hf as [[Ha _] Hf]. rewrite credit_in_order in Hc by (try lia; done).
    rewrite fmap_cons, Hr. cbn [sumZ foldr fst length]. fold (sumZ ((fun l => fst (run_bucket PerCpu qv fresh_bucket l)) <$> ls)).
    rewrite Nat2Z.inj_succ, Z.mul_succ_l. destruct Hq as [Hm _].
    assert ((last_at (at_ns a) l' - at_ns a) * mbr_ul_bps qv <= T * mbr_ul_bps qv)
      by (apply Z.mul_le_mono_nonneg_r; lia). lia.
  - destruct Hq as (_ & _ & Hb). unfold run_cpus.
    assert (Hone : fst (run_bucket PerCpu qv fresh_bucket [{| at_ns := 1; pkt_len := burst_bytes qv |}]) = burst_bytes qv).
    { unfold run_bucket. rewrite bucket_step_eq. unfold drain, fresh_bucket. cbn [last_ns Z.eqb tokens_bytes pkt_len at_ns].
      rewrite (proj2 (Z.geb_le _ _)) by lia. cbn [fst]. lia. }
    induction (length ls) as [|n IH]; [done|]. rewrite replicate_S, fmap_cons, Hone.
    rewrite Nat2Z.inj_succ, Z.mul_succ_l, <-IH. cbn [sumZ foldr]. unfold sumZ. lia.
Qed.

Lemma percpu_overshoot_witness :
  let qv := {| mbr_ul_bps := 50000000; mbr_dl_bps := 0; burst_bytes := 65536 |} in
  let l := [{| at_ns := 5; pkt_len := 1400 |}; {| at_ns := 1005; pkt_len := 1400 |}] in
  8000000000 * run_cpus qv [l; l] <= 2 * (8000000000 * 65536 + 1000 * 50000000) /\
  run_cpus qv [[{| at_ns := 1; pkt_len := 65536 |}]; [{| at_ns := 1; pkt_len := 65536 |}]] = 131072.
Proof.
  intros qv l. apply (percpu_overshoot qv 1000 [l; l]); [unfold qer_fits; simpl; lia|lia|].
  intros l' Hl'. assert (l' = l) as -> by set_solver.
  eexists _, _. split; [reflexivity|]. split; [repeat constructor; simpl; lia|simpl; lia].
Defined.

(** The two builds agree on ordered traffic.  On packets in timestamp
    order the per-CPU arithmetic and the shared, guarded one take the same
    decision on every packet and leave the same bucket. *)
Theorem builds_agree_in_order qv st l :
  bucket_wf qv st -> Forall arrival_wf l -> in_order (last_ns st) l ->
  run_bucket PerCpu qv st l = run_bucket SharedLock qv st l.
Proof.
  intros [_ Hl] Hf. revert st Hl. induction l as [|a l IH]; intros st Hl Ho; [done|].
  apply Forall_cons in Hf as [[Ha Hlen] Hf]. destruct Ho as [Hle Ho]. cbn [run_bucket].
  assert (Hs : bucket_step PerCpu qv st a = bucket_step SharedLock qv st a).
  { rewrite !bucket_step_eq. destruct (last_ns st =? 0); [done|]. cbn [credited].
    do 2 f_equal. symmetry. rewrite u64_small by lia.
    destruct (Z.gtb_spec (at_ns a) (last_ns st)); lia. }
  rewrite Hs. destruct (bucket_step SharedLock qv st a) as [ok st1] eqn:Hst.
  pose proof (bucket_step_last _ _ _ _ _ _ Hst) as Hl1.
  rewrite IH; [done|done|rewrite Hl1; lia|by rewrite Hl1].
Qed.

Lemma builds_agree_in_order_witness :
  let qv := {| mbr_ul_bps := 50000000; mbr_dl_bps := 0; burst_bytes := 1500 |} in
  let l := [{| at_ns := 1000; pkt_len := 1400 |}; {| at_ns := 400000; pkt_len := 1400 |}] in
  run_bucket PerCpu qv fresh_bucket l = run_bucket SharedLock qv fresh_bucket l.
Proof.
  intros qv l. apply builds_agree_in_order;
    [unfold bucket_wf; simpl; lia|repeat constructor; simpl; lia|simpl; lia].
Defined.

(** C33: what the shared bucket guarantees under out-of-order timestamps.
    Whatever the order in which CPUs enter the critical section, the shared
    bucket admits at most the burst plus the rate over the sum of the forward
    steps of the timestamps it saw. *)
Theorem shared_bucket_rate qv a l adm st' :
  qer_fits qv -> Forall arrival_wf (a :: l) ->
  run_bucket SharedLock qv fresh_bucket (a :: l) = (adm, st') ->
  8000000000 * adm <= 8000000000 * burst_bytes qv + advances (at_ns a) l * mbr_ul_bps qv /\
  0 <= tokens_bytes st' <= burst_bytes qv.
Proof.
  intros Hq Hf Hrun. destruct (run_bucket_fresh _ _ _ _ _ _ Hq Hf Hrun) as [Hc [Hwf _]].
  apply Forall_cons in Hf as [[Ha _] Hf]. rewrite credit_shared in Hc by (try lia; done).
  split; [lia|done].
Qed.

Lemma shared_bucket_rate_witness :
  let qv := {| mbr_ul_bps := 8000000000; mbr_dl_bps := 0; burst_bytes := 1000 |} in
  let l := [{| at_ns := 2000; pkt_len := 1000 |}; {| at_ns := 1000; pkt_len := 1000 |};
            {| at_ns := 2000; pkt_len := 1000 |}] in
  8000000000 * 3000 <= 8000000000 * 1000 + 2000 * 8000000000.
Proof.
  intros qv l.
  apply (shared_bucket_rate qv {| at_ns := 1000; pkt_len := 1000 |} l 3000
    {| tokens_bytes := 0; last_ns := 2000 |});
    [unfold qer_fits; simpl; lia|repeat constructor; simpl; lia|by vm_compute].
Defined.

(** Packets that alternate between two timestamps [T] ns apart. *)
Fixpoint alternating (n : nat) (t T len : Z) : list arrival :=
  match n with
  | O => []
  | S n' => {| at_ns := t; pkt_len := len |} :: {| at_ns := t + T; pkt_len := len |} ::
            alternating n' t T len
  end.

(** The shared bucket credits an interval again each time the clock steps
    back.  [last_ns] is set to [now] also when [now] is older, so the same
    1000 ns window is credited once per round trip: at 1 byte/ns and a burst
    of 1000 bytes, [n] out-of-order rounds inside one 1000 ns window admit
    [1000 * (n + 1)] bytes, although burst plus rate is 2000. *)
Theorem shared_bucket_recredit n :
  fst (run_bucket SharedLock {| mbr_ul_bps := 8000000000; mbr_dl_bps := 0; burst_bytes := 1000 |}
         fresh_bucket (alternating (S n) 1000 1000 1000)) = 1000 * (Z.of_nat n + 2).
Proof.
  set (qv := {| mbr_ul_bps := 8000000000; mbr_dl_bps := 0; burst_bytes := 1000 |}).
  assert (Hloop : forall m, fst (run_bucket SharedLock qv {| tokens_bytes := 0; last_ns := 2000 |}
      (alternating m 1000 1000 1000)) = 1000 * Z.of_nat m).
  { induction m as [|m IH]; [done|]. cbn [alternating run_bucket].
    change (bucket_step SharedLock qv {| tokens_bytes := 0; last_ns := 2000 |} {| at_ns := 1000; pkt_len := 1000 |})
      with (false, {| tokens_bytes := 0; last_ns := 1000 |}). cbn iota beta.
    change (bucket_step SharedLock qv {| tokens_bytes := 0; last_ns := 1000 |} {| at_ns := 1000 + 1000; pkt_len := 1000 |})
      with (true, {| tokens_bytes := 0; last_ns := 2000 |}). cbn iota beta.
    destruct (run_bucket SharedLock qv {| tokens_bytes := 0; last_ns := 2000 |} (alternating m 1000 1000 1000)).
    cbn [fst pkt_len] in *. lia. }
  cbn [alternating run_bucket].
  change (bucket_step SharedLock qv fresh_bucket {| at_ns := 1000; pkt_len := 1000 |})
    with (true, {| tokens_bytes := 0; last_ns := 1000 |}). cbn iota beta.
  change (bucket_step SharedLock qv {| tokens_bytes := 0; last_ns := 1000 |} {| at_ns := 1000 + 1000; pkt_len := 1000 |})
    with (true, {| tokens_bytes := 0; last_ns := 2000 |}). cbn iota beta.
  specialize (Hloop n).
  destruct (run_bucket SharedLock qv {| tokens_bytes := 0; last_ns := 2000 |} (alternating n 1000 1000 1000)).
  cbn [fst pkt_len] in *. lia.
Qed.

(** The range of rates the refill arithmetic supports.  The product
    [elapsed * mbr_ul_bps] keeps within [__u64] for every elapsed time exactly
    when the rate is at most 18446744073 bit/s; above, a bucket idle for a
    second is credited a wrapped, too small, amount. *)
Theorem refill_exact_iff mbr :
  0 <= mbr < 2 ^ 64 ->
  (forall e, 0 <= e -> refill_of (cap_elapsed e) mbr = cap_elapsed e * mbr / 8000000000) <->
  mbr <= 18446744073.
Proof.
  intros Hm. split.
  - intros H. specialize (H 1000000000 ltac:(lia)). unfold refill_of in H.
    change (cap_elapsed 1000000000) with 1000000000 in H.
    destruct (Z.le_gt_cases mbr 18446744073) as [?|Hgt]; [done|exfalso].
    pose proof (u64_range (1000000000 * mbr)) as Hu.
    assert (1000000000 * mbr / 8000000000 = mbr / 8) as Hd.
    { change 8000000000 with (1000000000 * 8). by rewrite Z.div_mul_cancel_l. }
    rewrite Hd in H. pose proof (Z.mul_div_le (u64 (1000000000 * mbr)) 8000000000 ltac:(lia)).
    rewrite H in *. pose proof (Z.mul_succ_div_gt (u64 (1000000000 * mbr)) 8000000000 ltac:(lia)).
    rewrite H in *. pose proof (Z.mul_div_le mbr 8 ltac:(lia)).
    pose proof (Z.mul_succ_div_gt mbr 8 ltac:(lia)).
    unfold u64 in *. pose proof (Z.div_mod (1000000000 * mbr) (2 ^ 64) ltac:(lia)) as Hdm.
    pose proof (Z.div_pos (1000000000 * mbr) (2 ^ 64)).
    assert (1 <= 1000000000 * mbr / 2 ^ 64) by (apply Z.div_le_lower_bound; lia).
    lia.
  - intros Hle e He. unfold refill_of. destruct (cap_elapsed_le e He). by rewrite u64_small by nia.
Qed.

Lemma refill_exact_iff_witness :
  ((forall e, 0 <= e -> refill_of (cap_elapsed e) 20000000000 = cap_elapsed e * 20000000000 / 8000000000)
     <-> 20000000000 <= 18446744073) /\
  refill_of (cap_elapsed 1000000000) 18446744074 = 0.
Proof. split; [apply refill_exact_iff; lia|by vm_compute]. Defined.

(** Every gap between consecutive packets earns less than one byte. *)
Fixpoint starving (mbr t : Z) (l : list arrival) : Prop :=
  match l with
  | [] => True
  | a :: l' => t <= at_ns a /\ (at_ns a - t) * mbr < 8000000000 /\ starving mbr (at_ns a) l'
  end.

(** Truncation can starve a flow.  [refill] rounds down and [last_ns]
    advances on every packet, so while packets keep arriving less than
    [8e9 / mbr] ns apart the bucket earns nothing: whatever the duration, all
    the traffic admitted comes from the tokens it started with. *)
Theorem truncation_starves b qv st l adm st' :
  qer_fits qv -> bucket_wf qv st -> last_ns st <> 0 -> Forall arrival_wf l ->
  starving (mbr_ul_bps qv) (last_ns st) l -> run_bucket b qv st l = (adm, st') ->
  adm + tokens_bytes st' = tokens_bytes st.
Proof.
  intros Hq Hwf Hl Hf. revert st adm Hwf Hl. induction l as [|a l IH]; intros st adm Hwf Hl Hs Hr;
    simplify_eq/=; [done|].
  apply Forall_cons in Hf as [Ha Hf]. destruct Hs as (Hle & Hgap & Hs).
  destruct (bucket_step b qv st a) as [ok st1] eqn:Hst.
  destruct (run_bucket b qv st1 l) as [adm' st2] eqn:Hr'. simplify_eq.
  destruct (bucket_step_spec _ _ _ _ _ _ Hq Hwf Hl Ha Hst) as (Hwf1 & Hl1 & _).
  rewrite <-Hl1 in Hs.
  assert (last_ns st1 <> 0) as Hl1' by (rewrite Hl1; destruct Ha; lia).
  specialize (IH Hf st1 adm' Hwf1 Hl1' Hs Hr').
  assert (Hd : drain (refill_bucket qv st (credited b (last_ns st) (at_ns a)) (at_ns a)) (pkt_len a) = (ok, st1)).
  { rewrite bucket_step_eq in Hst. by destruct (Z.eqb_spec (last_ns st) 0). }
  destruct Hwf as [Htok Hln], Ha as [Hat Hlen], Hq as (Hm & Hfit & Hb).
  rewrite credited_in_order in Hd by lia.
  assert (refill_bucket qv st (at_ns a - last_ns st) (at_ns a) =
    {| tokens_bytes := tokens_bytes st; last_ns := at_ns a |}) as Heq.
  { rewrite refill_bucket_eq. unfold refill_of. destruct (cap_elapsed_le (at_ns a - last_ns st)) as [? _]; [lia|].
    rewrite (u64_small (_ * _)) by nia. rewrite Z.div_small by nia.
    rewrite Z.add_0_r, u64_small by lia. destruct (Z.gtb_spec (tokens_bytes st) (burst_bytes qv)); [lia|done]. }
  rewrite Heq in Hd. eapply drain_spec in Hd as (_ & _ & Hsum); [|done| |lia];
    [simpl in Hsum; lia|unfold bucket_wf; simpl; lia].
Qed.

Lemma truncation_starves_witness :
  let qv := {| mbr_ul_bps := 1000000; mbr_dl_bps := 0; burst_bytes := 1500 |} in
  let l := [{| at_ns := 8000; pkt_len := 100 |}; {| at_ns := 15000; pkt_len := 100 |};
            {| at_ns := 22000; pkt_len := 100 |}] in
  0 + 0 = 0 /\ run_bucket PerCpu qv {| tokens_bytes := 0; last_ns := 1000 |} l =
    (0, {| tokens_bytes := 0; last_ns := 22000 |}).
Proof.
  intros qv l. split; [|by vm_compute].
  apply (truncation_starves PerCpu qv {| tokens_bytes := 0; last_ns := 1000 |} l 0
    {| tokens_bytes := 0; last_ns := 22000 |});
    [unfold qer_fits; simpl; lia|unfold bucket_wf; simpl; lia|done
    |repeat constructor; simpl; lia|simpl; lia|by vm_compute].
Defined.
