(* ===== verification/QerLive.v ===== *)
(** * QER token buckets: decisions and liveness

    The decisions [upf_qer_admit] (upf_tc.c) takes along a sequence of packets,
    and the promises in the other direction from Qer.v: a flow within its rate
    loses nothing, and a packet that fits the burst gets through if it is
    retried. *)

From S2P Require Import Prelude UpfMaps Qer.

(** The verdict on each packet of a sequence. *)
Fixpoint verdicts (b : qer_build) (qv : qer_val) (st : qer_bucket_state) (l : list arrival) : list bool :=
  match l with
  | [] => []
  | a :: l' => let '(ok, st') := bucket_step b qv st a in ok :: verdicts b qv st' l'
  end.

Lemma length_verdicts b qv st l : length (verdicts b qv st l) = length l.
Proof.
  revert st. induction l as [|a l IH]; intros st; [done|]. cbn [verdicts].
  destruct (bucket_step b qv st a) as [ok st']. cbn [length]. by rewrite IH.
Qed.

(** The bytes admitted are those of the packets with verdict [true]. *)
Lemma run_bucket_verdicts b qv st l :
  fst (run_bucket b qv st l) =
    sumZ (zip_with (fun (ok : bool) a => if ok then pkt_len a else 0) (verdicts b qv st l) l).
Proof.
  revert st. induction l as [|a l IH]; intros st; [done|]. cbn [run_bucket verdicts].
  destruct (bucket_step b qv st a) as [ok st']. specialize (IH st').
  destruct (run_bucket b qv st' l) as [adm st2]. cbn [zip_with fst] in *. rewrite IH. done.
Qed.

(** A step on a bucket in use, as refill and drain. *)
Lemma bucket_step_used b qv st a :
  last_ns st <> 0 ->
  bucket_step b qv st a = drain (refill_bucket qv st (credited b (last_ns st) (at_ns a)) (at_ns a)) (pkt_len a).
Proof.
  intros Hl. by rewrite bucket_step_eq, (proj2 (Z.eqb_neq _ _) Hl).
Qed.

(** The tokens after a refill, without wrap-around. *)
Lemma refill_tokens qv st e now :
  qer_fits qv -> bucket_wf qv st -> 0 <= e ->
  tokens_bytes (refill_bucket qv st e now) =
    Z.min (burst_bytes qv) (tokens_bytes st + cap_elapsed e * mbr_ul_bps qv / 8000000000).
Proof.
  intros Hq [Ht _] He. destruct (refill_bound qv e Hq He) as [[Hr0 Hr] _].
  destruct (cap_elapsed_le e He) as [[? ?] ?]. destruct Hq as (Hm & Hfit & Hb).
  assert (Hex : refill_of (cap_elapsed e) (mbr_ul_bps qv) = cap_elapsed e * mbr_ul_bps qv / 8000000000)
    by (unfold refill_of; by rewrite u64_small by nia).
  rewrite refill_bucket_eq. cbn [tokens_bytes]. rewrite Hex in *. rewrite u64_small by lia.
  destruct (Z.gtb_spec (tokens_bytes st + cap_elapsed e * mbr_ul_bps qv / 8000000000) (burst_bytes qv)); lia.
Qed.

(** The bytes a pause of [d] ns earns. *)
Definition earned (qv : qer_val) (d : Z) : Z := cap_elapsed d * mbr_ul_bps qv / 8000000000.

Lemma cap_elapsed_mono d e : d <= e -> cap_elapsed d <= cap_elapsed e.
Proof.
  intros H. unfold cap_elapsed. destruct (Z.gtb_spec d 1000000000), (Z.gtb_spec e 1000000000); lia.
Qed.

Lemma earned_mono qv d e : qer_fits qv -> d <= e -> earned qv d <= earned qv e.
Proof.
  intros (Hm & _) H. unfold earned. apply Z.div_le_mono; [lia|].
  pose proof (cap_elapsed_mono d e H). nia.
Qed.

(** Arrivals at least [d] ns apart, the first at least [d] after [t]. *)
Fixpoint spaced (d t : Z) (l : list arrival) : Prop :=
  match l with [] => True | a :: l' => t + d <= at_ns a /\ spaced d (at_ns a) l' end.

(** A packet [d] ns after the last one: it is admitted, or the bucket has
    gained what the pause earned. *)
Lemma step_gains b qv st a d :
  qer_fits qv -> bucket_wf qv st -> last_ns st <> 0 -> arrival_wf a -> 0 <= d ->
  last_ns st + d <= at_ns a -> pkt_len a <= burst_bytes qv ->
  let '(ok, st') := bucket_step b qv st a in
  bucket_wf qv st' /\ last_ns st' = at_ns a /\
  (if ok then True else tokens_bytes st + earned qv d <= tokens_bytes st' < pkt_len a) /\
  (pkt_len a <= tokens_bytes st + earned qv d -> ok = true).
Proof.
  intros Hq Hwf Hl Ha Hd Hle Hb. destruct (bucket_step b qv st a) as [ok st'] eqn:Hs.
  destruct (bucket_step_spec _ _ _ _ _ _ Hq Hwf Hl Ha Hs) as (Hwf' & Hl' & _).
  rewrite bucket_step_used in Hs by done. destruct Ha as [Hat Hlen]. pose proof Hwf as [Htok Hlast].
  rewrite credited_in_order in Hs by lia.
  pose proof (refill_tokens qv st (at_ns a - last_ns st) (at_ns a) Hq Hwf ltac:(lia)) as Ht.
  pose proof (earned_mono qv d (at_ns a - last_ns st) Hq ltac:(lia)) as Hm. unfold earned in *.
  split; [done|]. split; [done|]. revert Hs. unfold drain.
  destruct (Z.geb_spec (tokens_bytes (refill_bucket qv st (at_ns a - last_ns st) (at_ns a))) (pkt_len a));
    intros [= <- <-]; [done|]. lia.
Qed.

(** C17: a packet that fits the burst gets through if it is retried.  In either
    build, on a bucket in any well-formed state, a packet of [len] bytes, no
    more than the burst, that is offered again and again at least [d] ns apart
    is admitted at the latest when the tokens left and the bytes the pauses
    earn cover it: among any [n] attempts with
    [len <= tokens + n * earned d], one is admitted. *)
Theorem retry_admitted b qv st d len l :
  qer_fits qv -> bucket_wf qv st -> last_ns st <> 0 -> 0 <= d -> len <= burst_bytes qv ->
  Forall (fun a => arrival_wf a /\ pkt_len a = len) l -> spaced d (last_ns st) l -> l <> [] ->
  len <= tokens_bytes st + Z.of_nat (length l) * earned qv d ->
  true ∈ verdicts b qv st l.
Proof.
  intros Hq Hwf Hl Hd Hb Hf. revert st Hwf Hl. induction l as [|a l IH]; intros st Hwf Hl Hs Hne Hcov; [done|].
  apply Forall_cons in Hf as [[Ha Hlen] Hf]. destruct Hs as [Hle Hs].
  pose proof (step_gains b qv st a d Hq Hwf Hl Ha Hd Hle ltac:(lia)) as Hstep. cbn [verdicts].
  destruct (bucket_step b qv st a) as [ok st']. destruct Hstep as (Hwf' & Hl' & Hrej & Hadm).
  destruct ok; [by left|]. right. apply IH; [done|done| |by rewrite Hl'| |].
  - rewrite Hl'. destruct Ha. lia.
  - intros ->. cbn [length] in Hcov. specialize (Hadm ltac:(lia)). done.
  - cbn [length] in Hcov. lia.
Qed.

Lemma retry_admitted_witness :
  let qv := {| mbr_ul_bps := 8000; mbr_dl_bps := 0; burst_bytes := 1500 |} in
  let st := {| tokens_bytes := 0; last_ns := 1 |} in
  let l := [{| at_ns := 5000000000; pkt_len := 1500 |}; {| at_ns := 9000000000; pkt_len := 1500 |}] in
  true ∈ verdicts PerCpu qv st l /\ verdicts PerCpu qv st l = [false; true].
Proof.
  intros qv st l. split; [|vm_compute; reflexivity].
  apply (retry_admitted PerCpu qv st 1000000000 1500 l).
  - unfold qer_fits. vm_compute. repeat split; discriminate.
  - unfold bucket_wf. vm_compute. repeat split; discriminate.
  - discriminate.
  - discriminate.
  - discriminate.
  - apply Forall_cons; split; [|apply Forall_cons; split; [|by apply Forall_nil]]; repeat split; discriminate.
  - vm_compute. repeat split; discriminate.
  - discriminate.
  - vm_compute. discriminate.
Defined.

(** Every packet fits the burst and what the pause before it earns. *)
Fixpoint within_rate (qv : qer_val) (t : Z) (l : list arrival) : Prop :=
  match l with
  | [] => True
  | a :: l' => t <= at_ns a /\ pkt_len a <= burst_bytes qv /\ pkt_len a <= earned qv (at_ns a - t) /\
               within_rate qv (at_ns a) l'
  end.

(** A flow within its rate loses nothing.  In either build, if the pause
    before each packet earns the packet and no packet exceeds the burst, every
    packet is admitted, whatever the tokens the bucket starts with. *)
Theorem within_rate_admitted b qv st l :
  qer_fits qv -> bucket_wf qv st -> last_ns st <> 0 -> Forall arrival_wf l ->
  within_rate qv (last_ns st) l ->
  Forall (fun ok => ok = true) (verdicts b qv st l) /\ fst (run_bucket b qv st l) = sumZ (pkt_len <$> l).
Proof.
  intros Hq Hwf Hl Hf Hr.
  assert (Hall : Forall (fun ok => ok = true) (verdicts b qv st l)).
  { revert st Hwf Hl Hr. induction l as [|a l IH]; intros st Hwf Hl Hr; [constructor|].
    apply Forall_cons in Hf as [Ha Hf]. destruct Hr as (Hle & Hb & He & Hr).
    pose proof (step_gains b qv st a (at_ns a - last_ns st) Hq Hwf Hl Ha ltac:(lia) ltac:(lia) Hb) as Hstep.
    cbn [verdicts]. destruct (bucket_step b qv st a) as [ok st']. destruct Hstep as (Hwf' & Hl' & _ & Hadm).
    destruct Hwf as [Htok _]. constructor; [apply Hadm; lia|]. apply IH; [done|done| |by rewrite Hl'].
    rewrite Hl'. destruct Ha. lia. }
  split; [done|]. rewrite run_bucket_verdicts. pose proof (length_verdicts b qv st l) as Hlen. revert Hlen Hall.
  generalize (verdicts b qv st l). clear. intros vs. revert l.
  induction vs as [|v vs IH]; intros [|a l] Hlen Hall; simplify_eq/=; [done|].
  apply Forall_cons in Hall as [-> Hall]. by rewrite IH.
Qed.

Lemma within_rate_admitted_witness :
  let qv := {| mbr_ul_bps := 50000000; mbr_dl_bps := 0; burst_bytes := 1500 |} in
  let st := {| tokens_bytes := 0; last_ns := 1000 |} in
  let l := [{| at_ns := 225000; pkt_len := 1400 |}; {| at_ns := 500000; pkt_len := 1500 |}] in
  fst (run_bucket SharedLock qv st l) = 2900.
Proof.
  intros qv st l. refine (proj2 (within_rate_admitted SharedLock qv st l _ _ _ _ _)).
  - unfold qer_fits. vm_compute. repeat split; discriminate.
  - unfold bucket_wf. vm_compute. repeat split; discriminate.
  - discriminate.
  - apply Forall_cons; split; [|apply Forall_cons; split; [|by apply Forall_nil]]; repeat split; discriminate.
  - vm_compute. repeat split; discriminate.
Defined.

(** However long a bucket has been idle, one packet finds at most one second of
    credit on top of its tokens: where the burst exceeds [mbr / 8] bytes, the
    bucket does not saturate. *)
Theorem idle_refill_capped qv st e now :
  qer_fits qv -> bucket_wf qv st -> 1000000000 <= e ->
  tokens_bytes (refill_bucket qv st e now) = Z.min (burst_bytes qv) (tokens_bytes st + mbr_ul_bps qv / 8).
Proof.
  intros Hq Hwf He. rewrite refill_tokens by (done || lia). do 2 f_equal.
  assert (Hc : cap_elapsed e = 1000000000).
  { unfold cap_elapsed. destruct (Z.gtb_spec e 1000000000); lia. }
  rewrite Hc. change 8000000000 with (1000000000 * 8). by rewrite Z.div_mul_cancel_l.
Qed.
