(* ===== verification/Datapath.v ===== *)
(** * upf_xdp.c and upf_tc.c: the uplink datapath

    The two programmes as functions of the packet memory, the maps and the
    state of the CPU they run on.  Packet memory is read with [rd], which has
    no value outside [data .. data_end): a programme whose result is [None]
    has read out of bounds.  The helpers that change the packet or leave the programme are
    parameters: [adjust_room] ([bpf_skb_adjust_room], [None] for a negative
    result) and [redirect] ([bpf_redirect]).

    The agent may write between two reads of the maps by one packet, so each
    lookup of a programme, and each load through a pointer to an element, has
    maps of its own ([reads], UpfMaps.v), numbered in the order of the code; the
    programmes without [_at] are those that see one state of the maps.  Race.v
    puts the reads at instants of an interleaving with the agent; Bundle.v
    treats a bundle that is overwritten under the reader. *)

From S2P Require Import Prelude UpfMaps Qer.

(** [n] bytes of packet memory at [off], as a little-endian host loads them. *)
Definition rd (p : bytes) (off n : nat) : option Z :=
  if decide (off + n <= length p)%nat then Some (load off n p) else None.

Definition bpf_htons (z : Z) : Z := le_combine (be_split 2 z).
Definition bpf_ntohl (z : Z) : Z := le_combine (be_split 4 z).

Definition ETH_P_IP : Z := 0x0800.
Definition IPPROTO_UDP : Z := 17.
Definition GTPU_PORT : Z := 2152.
Definition GTPU_GPDU : Z := 0xff.

Definition sizeof_ethhdr : nat := 14.
Definition sizeof_iphdr : nat := 20.
Definition sizeof_udphdr : nat := 8.

(** ** upf_xdp.c *)

Inductive xdp_action := XDP_DROP | XDP_PASS.

(** The verdict and the counters bumped, in order.  Reads 0 to 2. *)
Definition upf_xdp_uplink_at (m : reads) (p : bytes) : option (xdp_action * list metric_idx) :=
  let data_end := length p in
  let drop bumps := Some (XDP_DROP, M_RX_TOTAL :: bumps) in
  let pass bumps := Some (XDP_PASS, M_RX_TOTAL :: bumps) in
  (* L2: Ethernet *)
  if (data_end <? sizeof_ethhdr)%nat then drop [M_DROP_PARSE] else
  h_proto ← rd p 12 2;
  if negb (h_proto =? bpf_htons ETH_P_IP) then pass [] else
  (* L3: IPv4 *)
  let ip := sizeof_ethhdr in
  if (data_end <? ip + sizeof_iphdr)%nat then drop [M_DROP_PARSE] else
  protocol ← rd p (ip + 9) 1;
  if negb (protocol =? IPPROTO_UDP) then pass [] else
  vihl ← rd p ip 1;
  let ihl_bytes := Z.to_nat (Z.land vihl 15 * 4) in
  if (ihl_bytes <? sizeof_iphdr)%nat then drop [M_DROP_PARSE] else
  let l4 := (ip + ihl_bytes)%nat in
  if (data_end <? l4 + sizeof_udphdr)%nat then drop [M_DROP_PARSE] else
  (* L4: UDP *)
  dest ← rd p (l4 + 2) 2;
  if negb (dest =? bpf_htons GTPU_PORT) then pass [M_PASS_NONGTP] else
  (* GTP-U: 8-byte mandatory header *)
  let gtp := (l4 + sizeof_udphdr)%nat in
  if (data_end <? gtp + 8)%nat then drop [M_RX_GTPU; M_DROP_PARSE] else
  flags ← rd p gtp 1;
  msg_type ← rd p (gtp + 1) 1;
  teid_be ← rd p (gtp + 4) 4;
  let teid := bpf_ntohl teid_be in
  if negb (msg_type =? GTPU_GPDU) then pass [M_RX_GTPU; M_PASS_CTRL] else
  (* Session lookup *)
  match r_at m 0 "teid_session"%string (le_split 4 teid) with
  | None => drop [M_RX_GTPU; M_RX_GPDU; M_MISS_TEID]
  | Some v =>
      (* PDR lookup: the key is the memory of sess->pdr_id *)
      let sess := deref m 1 "teid_session"%string (le_split 4 teid) v in
      match r_at m 2 "pdr_table"%string (slice 0 4 sess) with
      | None => drop [M_RX_GTPU; M_RX_GPDU; M_MISS_PDR]
      | Some _ => pass [M_RX_GTPU; M_RX_GPDU; M_HIT]
      end
  end.

Definition upf_xdp_uplink (lookup : lookup_fn) : bytes -> option (xdp_action * list metric_idx) :=
  upf_xdp_uplink_at (still lookup).

(** ** The state of one CPU *)

Inductive perf_event :=
| EvBuffer (e : buffer_event)
| EvDecision (e : decision_event)
| EvLatency (e : latency_event).

Record cpu_state := {
  cpu_metrics : gmap nat Z;
  cpu_buckets : gmap Z qer_bucket_state;
  cpu_urr : gmap Z urr_val;
  cpu_events : list perf_event;
}.

Definition cpu_init : cpu_state :=
  {| cpu_metrics := ∅; cpu_buckets := ∅; cpu_urr := ∅; cpu_events := [] |}.

(** The value of a counter; array elements start at zero. *)
Definition metric (st : cpu_state) (m : metric_idx) : Z := default 0 (cpu_metrics st !! metric_num m).

Definition bump (m : metric_idx) (st : cpu_state) : cpu_state :=
  {| cpu_metrics := <[metric_num m := u64 (metric st m + 1)]> (cpu_metrics st);
     cpu_buckets := cpu_buckets st; cpu_urr := cpu_urr st; cpu_events := cpu_events st |}.

Definition bump_all (ms : list metric_idx) (st : cpu_state) : cpu_state :=
  foldl (fun st m => bump m st) st ms.

Definition set_buckets (b : gmap Z qer_bucket_state) (st : cpu_state) : cpu_state :=
  {| cpu_metrics := cpu_metrics st; cpu_buckets := b; cpu_urr := cpu_urr st; cpu_events := cpu_events st |}.
Definition set_urr (u : gmap Z urr_val) (st : cpu_state) : cpu_state :=
  {| cpu_metrics := cpu_metrics st; cpu_buckets := cpu_buckets st; cpu_urr := u; cpu_events := cpu_events st |}.
Definition emit (e : perf_event) (st : cpu_state) : cpu_state :=
  {| cpu_metrics := cpu_metrics st; cpu_buckets := cpu_buckets st; cpu_urr := cpu_urr st;
     cpu_events := cpu_events st ++ [e] |}.

(** ** upf_tc.c *)

Definition TC_ACT_OK : Z := 0.
Definition TC_ACT_SHOT : Z := 2.
Definition TC_ACT_REDIRECT : Z := 7.
Definition BPF_ADJ_ROOM_MAC : Z := 1.
Definition BPF_F_ADJ_ROOM_FIXED_GSO : Z := 1.
Definition MAX_URRS : Z := 4096.

(** A packet at the TC hook: the linear memory [data .. data_end) and the
    total length [skb->len]. *)
Record sk_buff := { skb_data : bytes; skb_len : Z }.

(** The build switches of upf_tc.c. *)
Record tc_build := { tc_qer : qer_build; tc_emit_decision : bool; tc_emit_latency : bool }.

(** The readings of [bpf_ktime_get_ns()] in one invocation. *)
Record ktimes := { kt_entry : Z; kt_qer : Z; kt_exit : Z; kt_buffer : Z }.

Definition upf_urr_update (urr_id len : Z) (st : cpu_state) : cpu_state :=
  if urr_id =? 0 then st else
  bump M_TC_URR_UPDATED
    match cpu_urr st !! urr_id with
    | Some uv => set_urr (<[urr_id := {| bytes_ul := u64 (bytes_ul uv + len); bytes_dl := bytes_dl uv;
                                        pkts_ul := u64 (pkts_ul uv + 1); pkts_dl := pkts_dl uv |}]> (cpu_urr st)) st
    | None =>
        if Z.of_nat (size (cpu_urr st)) <? MAX_URRS
        then set_urr (<[urr_id := {| bytes_ul := len; bytes_dl := 0; pkts_ul := 1; pkts_dl := 0 |}]> (cpu_urr st)) st
        else st
    end.

Section tc.
Context (build : tc_build).
Context (adjust_room : sk_buff -> Z -> Z -> Z -> option sk_buff).
Context (redirect : Z -> Z -> Z).

(** Reads 13 to 19 of the programme. *)
Definition upf_far_forward_at (m : reads) (kt : ktimes) (skb : sk_buff)
    (far_id qer_id urr_id pdr_id generation outer_hdr_len t_entry : Z) (st : cpu_state) :
    Z * sk_buff * cpu_state :=
  match adjust_room skb (- outer_hdr_len) BPF_ADJ_ROOM_MAC BPF_F_ADJ_ROOM_FIXED_GSO with
  | None => (TC_ACT_SHOT, skb, bump M_TC_DECAP_ERR st)
  | Some skb =>
      match r_at m 13 "far_table"%string (le_split 4 far_id) with
      | None => (TC_ACT_SHOT, skb, bump M_TC_DECAP_ERR st)
      | Some fv =>
          let len := skb_len skb in
          let '(admitted, buckets) :=
            upf_qer_admit_at (tc_qer build) m 14 (cpu_buckets st) qer_id len (kt_qer kt) in
          let st := set_buckets buckets st in
          if negb admitted then (TC_ACT_SHOT, skb, bump M_TC_QER_DROP st) else
          let st := bump M_TC_QER_PASS st in
          let st := upf_urr_update urr_id len st in
          let st := if tc_emit_decision build
                    then emit (EvDecision {| de_far_id := far_id; de_qer_id := qer_id;
                                             de_generation := generation; de_pdr_id := pdr_id |}) st
                    else st in
          let st := if tc_emit_latency build
                    then emit (EvLatency {| le_latency_ns := u64 (kt_exit kt - t_entry); le_pkt_len := len |}) st
                    else st in
          let st := bump M_TC_FAR_FORWARD st in
          let far := read_far_val (deref m 19 "far_table"%string (le_split 4 far_id) fv) in
          let ret := redirect (far_out_ifindex far) 0 in
          let st := if negb (ret =? TC_ACT_REDIRECT) then bump M_TC_REDIRECT_ERR st else st in
          (ret, skb, st)
      end
  end.

Definition upf_far_forward (lookup : lookup_fn) := upf_far_forward_at (still lookup).

(** [bundle->slot[active & 1]] *)
Definition named_slot (active : Z) (b : tc_bundle) : tc_bundle_slot :=
  if Z.land active 1 =? 0 then bundle_slot0 b else bundle_slot1 b.

(** [bundle->slot[bundle->active & 1]] *)
Definition live_slot (b : tc_bundle) : tc_bundle_slot := named_slot (bundle_active b) b.

(** [upf_tc_ingress] from the session lookup on. *)
Definition tc_session_at (m : reads) (kt : ktimes) (skb : sk_buff) (ihl_bytes : nat)
    (teid t_entry : Z) (st : cpu_state) : Z * sk_buff * cpu_state :=
  let skey := le_split 4 teid in
  match r_at m 0 "teid_session"%string skey with
  | None => (TC_ACT_OK, skb, bump M_TC_MISS_FAR st)
  | Some sv =>
      let sess i := deref m i "teid_session"%string skey sv in
      let bkey := slice 0 4 (sess 1%nat) in
      match r_at m 2 "tc_bundle_map"%string bkey with
      | None => (TC_ACT_OK, skb, bump M_TC_MISS_FAR st)
      | Some bv =>
          let bundle i := read_tc_bundle (deref m i "tc_bundle_map"%string bkey bv) in
          let active := bundle_active (bundle 3%nat) in
          let cur i := named_slot active (bundle i) in
          let fkey := le_split 4 (slot_far_id (cur 4%nat)) in
          match r_at m 5 "far_table"%string fkey with
          | None => (TC_ACT_OK, skb, bump M_TC_MISS_FAR st)
          | Some fv =>
              let far i := read_far_val (deref m i "far_table"%string fkey fv) in
              if far_action (far 6%nat) =? FAR_DROP then (TC_ACT_SHOT, skb, bump M_TC_FAR_DROP st)
              else if far_action (far 7%nat) =? FAR_BUFFER then
                let ev := EvBuffer {| be_teid := teid; be_pdr_id := sess_pdr_id (read_session_val (sess 8%nat));
                                      be_far_id := slot_far_id (cur 9%nat); be_pkt_len := skb_len skb;
                                      be_ts_ns := kt_buffer kt |} in
                (TC_ACT_SHOT, skb, bump M_TC_FAR_BUFFER (emit ev st))
              else
                let outer_hdr_len := Z.of_nat (ihl_bytes + sizeof_udphdr + 8) in
                upf_far_forward_at m kt skb (slot_far_id (cur 8%nat)) (slot_qer_id (cur 9%nat)) (slot_urr_id (cur 10%nat))
                        (sess_pdr_id (read_session_val (sess 11%nat))) (slot_generation (cur 12%nat)) outer_hdr_len t_entry st
          end
      end
  end.

Definition tc_session (lookup : lookup_fn) := tc_session_at (still lookup).

(** Reads 0 to 19. *)
Definition upf_tc_ingress_at (m : reads) (kt : ktimes) (skb : sk_buff) (st : cpu_state) :
    option (Z * sk_buff * cpu_state) :=
  let t_entry := if tc_emit_latency build then kt_entry kt else 0 in
  let p := skb_data skb in
  let data_end := length p in
  let ok := Some (TC_ACT_OK, skb, st) in
  if (data_end <? sizeof_ethhdr)%nat then ok else
  h_proto ← rd p 12 2;
  if negb (h_proto =? bpf_htons ETH_P_IP) then ok else
  let ip := sizeof_ethhdr in
  if (data_end <? ip + sizeof_iphdr)%nat then ok else
  protocol ← rd p (ip + 9) 1;
  if negb (protocol =? IPPROTO_UDP) then ok else
  vihl ← rd p ip 1;
  let ihl_bytes := Z.to_nat (Z.land vihl 15 * 4) in
  if (ihl_bytes <? sizeof_iphdr)%nat then ok else
  let l4 := (ip + ihl_bytes)%nat in
  if (data_end <? l4 + sizeof_udphdr)%nat then ok else
  dest ← rd p (l4 + 2) 2;
  if negb (dest =? bpf_htons GTPU_PORT) then ok else
  let gtp := (l4 + sizeof_udphdr)%nat in
  if (data_end <? gtp + 8)%nat then ok else
  msg_type ← rd p (gtp + 1) 1;
  if negb (msg_type =? GTPU_GPDU) then ok else
  teid_be ← rd p (gtp + 4) 4;
  let teid := bpf_ntohl teid_be in
  Some (tc_session_at m kt skb ihl_bytes teid t_entry st).

(** The maps come in with the session. *)
Lemma tc_ingress_session m m' kt skb st :
  (forall ihl_bytes teid t_entry, tc_session_at m kt skb ihl_bytes teid t_entry st = tc_session_at m' kt skb ihl_bytes teid t_entry st) ->
  upf_tc_ingress_at m kt skb st = upf_tc_ingress_at m' kt skb st.
Proof.
  intros H. unfold upf_tc_ingress_at. cbv zeta. revert H.
  generalize (tc_session_at m kt skb), (tc_session_at m' kt skb). intros F F' H.
  repeat match goal with
    | |- (if ?b then _ else _) = _ => destruct b; [exact eq_refl|]
    | |- mbind _ ?o = _ => destruct o as [?|]; cbn [mbind option_bind]; [|exact eq_refl]
    end. by rewrite H.
Qed.

Definition upf_tc_ingress (lookup : lookup_fn) := upf_tc_ingress_at (still lookup).
End tc.

(** On maps that do not change meanwhile a pointer reads what the lookup
    found. *)
Section still.
Context (build : tc_build) (adjust_room : sk_buff -> Z -> Z -> Z -> option sk_buff) (redirect : Z -> Z -> Z).
Context (lookup : lookup_fn) (kt : ktimes) (skb : sk_buff) (t_entry : Z) (st : cpu_state).

Lemma upf_far_forward_eq far_id qer_id urr_id pdr_id generation outer_hdr_len :
  upf_far_forward build adjust_room redirect lookup kt skb far_id qer_id urr_id pdr_id generation outer_hdr_len t_entry st =
  match adjust_room skb (- outer_hdr_len) BPF_ADJ_ROOM_MAC BPF_F_ADJ_ROOM_FIXED_GSO with
  | None => (TC_ACT_SHOT, skb, bump M_TC_DECAP_ERR st)
  | Some skb =>
      match lookup "far_table"%string (le_split 4 far_id) with
      | None => (TC_ACT_SHOT, skb, bump M_TC_DECAP_ERR st)
      | Some fv =>
          let '(admitted, buckets) :=
            upf_qer_admit (tc_qer build) lookup (cpu_buckets st) qer_id (skb_len skb) (kt_qer kt) in
          let st := set_buckets buckets st in
          if negb admitted then (TC_ACT_SHOT, skb, bump M_TC_QER_DROP st) else
          let st := upf_urr_update urr_id (skb_len skb) (bump M_TC_QER_PASS st) in
          let st := if tc_emit_decision build
                    then emit (EvDecision {| de_far_id := far_id; de_qer_id := qer_id;
                                             de_generation := generation; de_pdr_id := pdr_id |}) st
                    else st in
          let st := if tc_emit_latency build
                    then emit (EvLatency {| le_latency_ns := u64 (kt_exit kt - t_entry); le_pkt_len := skb_len skb |}) st
                    else st in
          let st := bump M_TC_FAR_FORWARD st in
          let ret := redirect (far_out_ifindex (read_far_val fv)) 0 in
          (ret, skb, if negb (ret =? TC_ACT_REDIRECT) then bump M_TC_REDIRECT_ERR st else st)
      end
  end.
Proof. reflexivity. Qed.

Lemma tc_session_eq ihl_bytes teid :
  tc_session build adjust_room redirect lookup kt skb ihl_bytes teid t_entry st =
  match lookup "teid_session"%string (le_split 4 teid) with
  | None => (TC_ACT_OK, skb, bump M_TC_MISS_FAR st)
  | Some sess =>
      match lookup "tc_bundle_map"%string (slice 0 4 sess) with
      | None => (TC_ACT_OK, skb, bump M_TC_MISS_FAR st)
      | Some bv =>
          match lookup "far_table"%string (le_split 4 (slot_far_id (live_slot (read_tc_bundle bv)))) with
          | None => (TC_ACT_OK, skb, bump M_TC_MISS_FAR st)
          | Some fv =>
              if far_action (read_far_val fv) =? FAR_DROP then (TC_ACT_SHOT, skb, bump M_TC_FAR_DROP st)
              else if far_action (read_far_val fv) =? FAR_BUFFER then
                (TC_ACT_SHOT, skb, bump M_TC_FAR_BUFFER (emit (EvBuffer
                  {| be_teid := teid; be_pdr_id := sess_pdr_id (read_session_val sess); be_far_id := slot_far_id (live_slot (read_tc_bundle bv));
                     be_pkt_len := skb_len skb; be_ts_ns := kt_buffer kt |}) st))
              else upf_far_forward build adjust_room redirect lookup kt skb (slot_far_id (live_slot (read_tc_bundle bv))) (slot_qer_id (live_slot (read_tc_bundle bv))) (slot_urr_id (live_slot (read_tc_bundle bv)))
                     (sess_pdr_id (read_session_val sess)) (slot_generation (live_slot (read_tc_bundle bv)))
                     (Z.of_nat (ihl_bytes + sizeof_udphdr + 8)) t_entry st
          end
      end
  end.
Proof. reflexivity. Qed.
End still.

(** ** Reading packets *)

Lemma rd_some p off n : (off + n <= length p)%nat -> rd p off n = Some (load off n p).
Proof. intros H. unfold rd. by rewrite decide_True. Qed.

Lemma rd_app_r a b off n : rd (a ++ b) (length a + off) n = rd b off n.
Proof.
  unfold rd. rewrite length_app. destruct (decide (off + n <= length b)%nat).
  - rewrite decide_True by lia. by rewrite load_app_r, Nat.add_comm, Nat.add_sub by lia.
  - by rewrite decide_False by lia.
Qed.

Ltac sizes := unfold sizeof_ethhdr, sizeof_iphdr, sizeof_udphdr in *.

(** Walk down the guards of a programme, resolving the loads they allow. *)
Ltac walk :=
  repeat (first
    [ rewrite rd_some by (sizes; lia); cbn [mbind option_bind]
    | match goal with
      | |- context [if ?b then _ else _] =>
          lazymatch b with
          | (_ <? _)%nat => let E := fresh "Eg" in destruct b eqn:E; breflect
          | negb _ => let E := fresh "Eg" in destruct b eqn:E; breflect
          end
      end ]).

Lemma xdp_in_bounds m p : is_Some (upf_xdp_uplink_at m p).
Proof. unfold upf_xdp_uplink_at. walk; eauto. repeat case_match; eauto. Qed.

(** C18: memory safety of the two uplink programmes.  Whatever the packet,
    neither the XDP programme nor the TC ingress programme reads packet memory
    outside [data .. data_end), even if the maps change between two of their
    reads: every load is covered by a bound check before it, so both always
    return a verdict. *)
Theorem datapath_memory_safe build adj redir m kt skb st :
  is_Some (upf_xdp_uplink_at m (skb_data skb)) /\
  is_Some (upf_tc_ingress_at build adj redir m kt skb st).
Proof.
  split.
  - apply xdp_in_bounds.
  - unfold upf_tc_ingress_at. walk; eauto.
Qed.

(** ** G-PDU packets *)

(** The fields of an uplink G-PDU frame: Ethernet, IPv4 (with options), UDP
    to port 2152, the 8-byte GTP-U header of type 0xff, and the payload. *)
Record gpdu := {
  g_mac : bytes; g_vihl : Init.Byte.byte; g_ip_head : bytes; g_ip_tail : bytes;
  g_sport : bytes; g_udp_tail : bytes; g_flags : Init.Byte.byte; g_len : bytes;
  g_teid : Z; g_payload : bytes;
}.

Definition gpdu_fields (g : gpdu) : list bytes :=
  [g_mac g; [Byte.x08; Byte.x00]; [g_vihl g]; g_ip_head g; [Byte.x11]; g_ip_tail g;
   g_sport g; [Byte.x08; Byte.x68]; g_udp_tail g;
   [g_flags g]; [Byte.xff]; g_len g; be_split 4 (g_teid g); g_payload g].

Definition gpdu_bytes (g : gpdu) : bytes := mjoin (gpdu_fields g).

(** The IP header length in bytes. *)
Definition g_ihl (g : gpdu) : nat := (10 + length (g_ip_tail g))%nat.

Record gpdu_wf (g : gpdu) : Prop := {
  wf_mac : length (g_mac g) = 12%nat;
  wf_head : length (g_ip_head g) = 8%nat;
  wf_tail : (10 <= length (g_ip_tail g))%nat;
  wf_ihl : Z.land (b2z (g_vihl g)) 15 * 4 = Z.of_nat (g_ihl g);
  wf_sport : length (g_sport g) = 2%nat;
  wf_udp : length (g_udp_tail g) = 4%nat;
  wf_len : length (g_len g) = 2%nat;
  wf_teid : is_u32 (g_teid g);
}.

(** Reading one field of a packet given as the list of its fields. *)
Lemma rd_field (fs : list bytes) i x off n :
  fs !! i = Some x -> off = length (mjoin (take i fs)) -> n = length x ->
  rd (mjoin fs) off n = Some (le_combine x).
Proof.
  intros Hi -> ->. rewrite <-(take_drop_middle fs i x Hi) at 1. rewrite join_app. simpl.
  rewrite <-(Nat.add_0_r (length _)), rd_app_r, rd_some by (rewrite length_app; lia).
  rewrite load_app_l by lia. unfold load. by rewrite slice_all.
Qed.

Lemma bpf_ntohl_be teid : is_u32 teid -> bpf_ntohl (le_combine (be_split 4 teid)) = teid.
Proof.
  intros H. unfold bpf_ntohl, be_split at 1.
  rewrite (split_le_combine' (be_split 4 teid) 4) by apply length_be_split.
  unfold be_split. rewrite reverse_involutive. by apply le_combine_split_small.
Qed.

(** The guards and loads of both programmes on a G-PDU. *)
Record gpdu_parsed (g : gpdu) : Prop := {
  gp_len : (14 + g_ihl g + 16 <= length (gpdu_bytes g))%nat;
  gp_proto : rd (gpdu_bytes g) 12 2 = Some (bpf_htons ETH_P_IP);
  gp_vihl : rd (gpdu_bytes g) 14 1 = Some (b2z (g_vihl g));
  gp_udp : rd (gpdu_bytes g) (14 + 9) 1 = Some IPPROTO_UDP;
  gp_dest : rd (gpdu_bytes g) (14 + g_ihl g + 2) 2 = Some (bpf_htons GTPU_PORT);
  gp_flags : rd (gpdu_bytes g) (14 + g_ihl g + 8) 1 = Some (b2z (g_flags g));
  gp_type : rd (gpdu_bytes g) (14 + g_ihl g + 8 + 1) 1 = Some GTPU_GPDU;
  gp_teid : rd (gpdu_bytes g) (14 + g_ihl g + 8 + 4) 4 = Some (le_combine (be_split 4 (g_teid g)));
}.

(** Lengths of field lists. *)
Ltac field_len :=
  unfold g_ihl, gpdu_fields; cbn [take mjoin list_join];
  rewrite ?length_app, ?length_be_split; cbn [length]; lia.

(** Field [i] of a G-PDU, at an offset given by the fields before it. *)
Ltac at_field i :=
  erewrite (rd_field _ i); [..|reflexivity| |];
  [try reflexivity|field_len|field_len].

Lemma gpdu_parse g : gpdu_wf g -> gpdu_parsed g.
Proof.
  intros [Hmac Hhead Htail Hihl Hsport Hudp Hlen Hteid].
  split; unfold gpdu_bytes.
  - field_len.
  - at_field 1%nat.
  - at_field 2%nat. f_equal. apply le_combine_1.
  - at_field 4%nat.
  - at_field 7%nat.
  - at_field 9%nat. f_equal. apply le_combine_1.
  - at_field 10%nat.
  - at_field 12%nat.
Qed.

(** The outcome of the XDP programme on a G-PDU with this TEID. *)
Definition xdp_classify_at (m : reads) (teid : Z) : xdp_action * metric_idx :=
  match r_at m 0 "teid_session"%string (le_split 4 teid) with
  | None => (XDP_DROP, M_MISS_TEID)
  | Some v =>
      let sess := deref m 1 "teid_session"%string (le_split 4 teid) v in
      match r_at m 2 "pdr_table"%string (slice 0 4 sess) with
      | None => (XDP_DROP, M_MISS_PDR)
      | Some _ => (XDP_PASS, M_HIT)
      end
  end.

Definition xdp_classify (lookup : lookup_fn) := xdp_classify_at (still lookup).

Lemma xdp_classify_eq lookup teid :
  xdp_classify lookup teid =
    match lookup "teid_session"%string (le_split 4 teid) with
    | None => (XDP_DROP, M_MISS_TEID)
    | Some sess =>
        match lookup "pdr_table"%string (slice 0 4 sess) with
        | None => (XDP_DROP, M_MISS_PDR)
        | Some _ => (XDP_PASS, M_HIT)
        end
    end.
Proof. reflexivity. Qed.

Lemma xdp_on_gpdu_at m g :
  gpdu_wf g ->
  upf_xdp_uplink_at m (gpdu_bytes g) =
    let '(act, bumped) := xdp_classify_at m (g_teid g) in
    Some (act, [M_RX_TOTAL; M_RX_GTPU; M_RX_GPDU; bumped]).
Proof.
  intros Hwf. destruct (gpdu_parse g Hwf) as [Hlen Hproto Hvihl Hudp Hdest Hflags Htype Hteid].
  assert (Hi : Z.to_nat (Z.land (b2z (g_vihl g)) 15 * 4) = g_ihl g) by (rewrite (wf_ihl _ Hwf); lia).
  assert (20 <= g_ihl g)%nat by (unfold g_ihl; pose proof (wf_tail _ Hwf); lia).
  unfold upf_xdp_uplink_at, xdp_classify_at. sizes.
  rewrite (proj2 (Nat.ltb_ge _ _)) by lia. rewrite Hproto. cbn [mbind option_bind].
  rewrite Z.eqb_refl. cbn [negb]. rewrite (proj2 (Nat.ltb_ge _ _)) by lia.
  rewrite Hudp. cbn [mbind option_bind]. rewrite Z.eqb_refl. cbn [negb].
  rewrite Hvihl. cbn [mbind option_bind]. rewrite Hi.
  do 2 rewrite (proj2 (Nat.ltb_ge _ _)) by lia.
  rewrite Hdest. cbn [mbind option_bind]. rewrite Z.eqb_refl. cbn [negb].
  rewrite (proj2 (Nat.ltb_ge _ _)) by lia.
  rewrite Hflags, Htype, Hteid. cbn [mbind option_bind]. rewrite Z.eqb_refl. cbn [negb].
  rewrite bpf_ntohl_be by apply Hwf. repeat case_match; by simplify_eq.
Qed.

Lemma xdp_on_gpdu lookup g :
  gpdu_wf g ->
  upf_xdp_uplink lookup (gpdu_bytes g) =
    let '(act, m) := xdp_classify lookup (g_teid g) in
    Some (act, [M_RX_TOTAL; M_RX_GTPU; M_RX_GPDU; m]).
Proof. apply xdp_on_gpdu_at. Qed.

Lemma tc_on_gpdu_at build adj redir m kt g len st :
  gpdu_wf g ->
  upf_tc_ingress_at build adj redir m kt {| skb_data := gpdu_bytes g; skb_len := len |} st =
    Some (tc_session_at build adj redir m kt {| skb_data := gpdu_bytes g; skb_len := len |} (g_ihl g)
      (g_teid g) (if tc_emit_latency build then kt_entry kt else 0) st).
Proof.
  intros Hwf. destruct (gpdu_parse g Hwf) as [Hlen Hproto Hvihl Hudp Hdest Hflags Htype Hteid].
  assert (Hi : Z.to_nat (Z.land (b2z (g_vihl g)) 15 * 4) = g_ihl g) by (rewrite (wf_ihl _ Hwf); lia).
  assert (20 <= g_ihl g)%nat by (unfold g_ihl; pose proof (wf_tail _ Hwf); lia).
  unfold upf_tc_ingress_at. cbn [skb_data]. sizes.
  rewrite (proj2 (Nat.ltb_ge _ _)) by lia. rewrite Hproto. cbn [mbind option_bind].
  rewrite Z.eqb_refl. cbn [negb]. rewrite (proj2 (Nat.ltb_ge _ _)) by lia.
  rewrite Hudp. cbn [mbind option_bind]. rewrite Z.eqb_refl. cbn [negb].
  rewrite Hvihl. cbn [mbind option_bind]. rewrite Hi.
  do 2 rewrite (proj2 (Nat.ltb_ge _ _)) by lia.
  rewrite Hdest. cbn [mbind option_bind]. rewrite Z.eqb_refl. cbn [negb].
  rewrite (proj2 (Nat.ltb_ge _ _)) by lia.
  rewrite Htype. cbn [mbind option_bind]. rewrite Z.eqb_refl. cbn [negb].
  rewrite Hteid. cbn [mbind option_bind]. by rewrite bpf_ntohl_be by apply Hwf.
Qed.

Lemma tc_on_gpdu build adj redir lookup kt g len st :
  gpdu_wf g ->
  upf_tc_ingress build adj redir lookup kt {| skb_data := gpdu_bytes g; skb_len := len |} st =
    Some (tc_session build adj redir lookup kt {| skb_data := gpdu_bytes g; skb_len := len |} (g_ihl g)
      (g_teid g) (if tc_emit_latency build then kt_entry kt else 0) st).
Proof. apply tc_on_gpdu_at. Qed.

(** ** Counters *)

Definition count (m : metric_idx) (ms : list metric_idx) : Z :=
  Z.of_nat (length (filter (fun x => x = m) ms)).

Lemma count_app m a b : count m (a ++ b) = count m a + count m b.
Proof. unfold count. rewrite filter_app, length_app. lia. Qed.

Lemma count_cons m x ms : count m (x :: ms) = (if decide (x = m) then 1 else 0) + count m ms.
Proof. unfold count. rewrite filter_cons. case_decide; [rewrite length_cons|]; lia. Qed.

Lemma metric_num_inj m1 m2 : metric_num m1 = metric_num m2 -> m1 = m2.
Proof. by destruct m1, m2; vm_compute. Qed.

Lemma metric_bump m m' st :
  metric (bump m st) m' = if decide (m = m') then u64 (metric st m' + 1) else metric st m'.
Proof.
  unfold metric at 1. simpl. rewrite lookup_insert. case_decide as Hn; case_decide as Hm; try done.
  - by subst m'.
  - by apply metric_num_inj in Hn.
  - congruence.
Qed.

(** The other updates of the CPU state leave the counters alone. *)
Lemma metric_emit e st m : metric (emit e st) m = metric st m.
Proof. done. Qed.
Lemma metric_set_buckets b st m : metric (set_buckets b st) m = metric st m.
Proof. done. Qed.
Lemma metric_set_urr u st m : metric (set_urr u st) m = metric st m.
Proof. done. Qed.
Lemma metric_bump_ne m m' st : m <> m' -> metric (bump m st) m' = metric st m'.
Proof. intros. by rewrite metric_bump, decide_False. Qed.
Lemma metric_urr_update urr_id len st m :
  m <> M_TC_URR_UPDATED -> metric (upf_urr_update urr_id len st) m = metric st m.
Proof.
  intros Hm. unfold upf_urr_update. case_match; [done|]. rewrite metric_bump_ne by done.
  repeat case_match; by rewrite ?metric_set_urr.
Qed.

Lemma u64_add_l a b : u64 (u64 a + b) = u64 (a + b).
Proof. unfold u64. by rewrite Zplus_mod_idemp_l. Qed.

Lemma u64_add_r a b : u64 (a + u64 b) = u64 (a + b).
Proof. unfold u64. by rewrite Zplus_mod_idemp_r. Qed.

Lemma u64_add3 a b c : u64 (u64 a + u64 b + u64 c) = u64 (a + b + c).
Proof.
  rewrite u64_add_r, <-!Z.add_assoc, u64_add_l, (Z.add_comm (u64 b)), Z.add_assoc, u64_add_r.
  f_equal. lia.
Qed.

Lemma metric_bump_all ms st m :
  is_u64 (metric st m) -> metric (bump_all ms st) m = u64 (metric st m + count m ms).
Proof.
  revert st. induction ms as [|x ms IH]; intros st Hr; simpl.
  - unfold count. simpl. by rewrite Z.add_0_r, u64_small.
  - rewrite IH by (rewrite metric_bump; case_decide; [apply u64_range|done]).
    rewrite metric_bump, count_cons. case_decide; [|done].
    rewrite u64_add_l. f_equal. lia.
Qed.

(** A CPU receiving packets, each with the maps as they are at that moment. *)
Fixpoint xdp_run (ps : list (lookup_fn * bytes)) (st : cpu_state) : list xdp_action * cpu_state :=
  match ps with
  | [] => ([], st)
  | (lookup, p) :: ps' =>
      match upf_xdp_uplink lookup p with
      | Some (act, bumps) => let '(acts, st') := xdp_run ps' (bump_all bumps st) in (act :: acts, st')
      | None => ([], st)
      end
  end.

Definition drops (acts : list xdp_action) : Z :=
  sumZ ((fun a => match a with XDP_DROP => 1 | XDP_PASS => 0 end) <$> acts).

(** What one packet adds to the counters. *)
Lemma xdp_bumps lookup p act bumps :
  upf_xdp_uplink lookup p = Some (act, bumps) ->
  count M_RX_TOTAL bumps = 1 /\
  count M_RX_GPDU bumps = count M_HIT bumps + count M_MISS_TEID bumps + count M_MISS_PDR bumps /\
  count M_RX_GPDU bumps + count M_PASS_CTRL bumps <= count M_RX_GTPU bumps /\
  (match act with XDP_DROP => 1 | XDP_PASS => 0 end) =
    count M_DROP_PARSE bumps + count M_MISS_TEID bumps + count M_MISS_PDR bumps.
Proof.
  unfold upf_xdp_uplink, upf_xdp_uplink_at. intros H.
  repeat (match type of H with
    | (if ?b then _ else _) = _ => destruct b
    | (mbind _ ?o) = _ => destruct o; cbn [mbind option_bind] in H
    | match ?o with _ => _ end = _ => destruct o
    end); simplify_eq; vm_compute; repeat split; done.
Qed.

(** All the bumps of a run, and the verdicts. *)
Lemma xdp_run_bumps ps st acts st' :
  xdp_run ps st = (acts, st') ->
  exists bumps, st' = bump_all bumps st /\ length acts = length ps /\
    count M_RX_TOTAL bumps = Z.of_nat (length ps) /\
    count M_RX_GPDU bumps = count M_HIT bumps + count M_MISS_TEID bumps + count M_MISS_PDR bumps /\
    count M_RX_GPDU bumps + count M_PASS_CTRL bumps <= count M_RX_GTPU bumps /\
    drops acts = count M_DROP_PARSE bumps + count M_MISS_TEID bumps + count M_MISS_PDR bumps.
Proof.
  revert st acts. induction ps as [|[lk p] ps IH]; intros st acts H; simplify_eq/=.
  - exists []. repeat split; done.
  - destruct (upf_xdp_uplink lk p) as [[act bumps]|] eqn:Hx; simplify_eq/=.
    2:{ exfalso. destruct (xdp_in_bounds (still lk) p) as [? Hb]. unfold upf_xdp_uplink in Hx. congruence. }
    destruct (xdp_run ps (bump_all bumps st)) as [acts' st1] eqn:Hr. simplify_eq.
    destruct (IH _ _ Hr) as (bs & -> & Hl & H1 & H2 & H3 & H4).
    destruct (xdp_bumps _ _ _ _ Hx) as (G1 & G2 & G3 & G4).
    exists (bumps ++ bs). split; [unfold bump_all; by rewrite foldl_app|].
    rewrite !count_app. unfold drops in *. cbn [length fmap list_fmap sumZ foldr].
    unfold sumZ in H4. lia.
Qed.

(** C27: the XDP counters account for every packet.  After any sequence of
    packets (with the maps changing between them) on a CPU whose counters
    start at zero, [rx_total] is the number of packets, [rx_gpdu] is [hit]
    plus the two misses, and the packets dropped are exactly those counted as
    [drop_parse], [miss_teid] or [miss_pdr] (all as 64-bit counters). *)
Theorem xdp_counters_account ps acts st :
  xdp_run ps cpu_init = (acts, st) ->
  length acts = length ps /\
  metric st M_RX_TOTAL = u64 (Z.of_nat (length ps)) /\
  metric st M_RX_GPDU = u64 (metric st M_HIT + metric st M_MISS_TEID + metric st M_MISS_PDR) /\
  u64 (drops acts) = u64 (metric st M_DROP_PARSE + metric st M_MISS_TEID + metric st M_MISS_PDR).
Proof.
  intros H. destruct (xdp_run_bumps _ _ _ _ H) as (bs & -> & Hl & H1 & H2 & _ & H4).
  rewrite !metric_bump_all by (vm_compute; done).
  change (metric cpu_init _) with 0. rewrite !Z.add_0_l.
  rewrite H1, H2, H4, !u64_add3. repeat split; done.
Qed.

(** A frame as gtpu_blast and send_gtpu build it: no IP options. *)
Definition plain_gpdu (teid : Z) (payload : bytes) : gpdu :=
  {| g_mac := replicate 12 Byte.xff; g_vihl := Byte.x45; g_ip_head := replicate 8 Byte.x00;
     g_ip_tail := replicate 10 Byte.x0a; g_sport := [Byte.x08; Byte.x68];
     g_udp_tail := replicate 4 Byte.x00; g_flags := Byte.x30; g_len := [Byte.x00; Byte.x00];
     g_teid := teid; g_payload := payload |}.

Lemma plain_gpdu_wf teid payload : is_u32 teid -> gpdu_wf (plain_gpdu teid payload).
Proof. intros H. split; simpl; try done. Qed.

Lemma xdp_counters_account_witness :
  let lookup : lookup_fn := fun m _ => if decide (m = "teid_session"%string) then None else Some [] in
  let ps := [(lookup, gpdu_bytes (plain_gpdu 0x1000 [])); (lookup, [Byte.x00])] in
  let st := bump_all [M_RX_TOTAL; M_RX_GTPU; M_RX_GPDU; M_MISS_TEID; M_RX_TOTAL; M_DROP_PARSE] cpu_init in
  xdp_run ps cpu_init = ([XDP_DROP; XDP_DROP], st) /\ metric st M_RX_TOTAL = 2.
Proof.
  intros lookup ps st. assert (xdp_run ps cpu_init = ([XDP_DROP; XDP_DROP], st)) as H by (vm_compute; reflexivity).
  split; [exact H|]. exact (proj1 (proj2 (xdp_counters_account ps _ _ H))).
Defined.

(** ** Metering *)

(** Packets handed to [upf_far_forward] for one FAR, QER and URR. *)
Section metering.
Context (build : tc_build).
Context (adjust_room : sk_buff -> Z -> Z -> Z -> option sk_buff).
Context (redirect : Z -> Z -> Z).
Context (lookup : lookup_fn) (far_id qer_id urr_id pdr_id generation outer : Z).

Fixpoint forward_run (l : list (sk_buff * ktimes)) (st : cpu_state) : cpu_state :=
  match l with
  | [] => st
  | (skb, kt) :: l' =>
      forward_run l' (upf_far_forward build adjust_room redirect lookup kt skb
        far_id qer_id urr_id pdr_id generation outer 0 st).2
  end.

(** The inner packets offered to the bucket. *)
Definition offered (l : list (sk_buff * ktimes)) : list arrival :=
  omap (fun '(skb, kt) =>
    inner ← adjust_room skb (- outer) BPF_ADJ_ROOM_MAC BPF_F_ADJ_ROOM_FIXED_GSO;
    Some {| at_ns := kt_qer kt; pkt_len := skb_len inner |}) l.

Definition urr_bytes (st : cpu_state) : Z := default 0 (bytes_ul <$> cpu_urr st !! urr_id).
Definition bucket_of (st : cpu_state) : qer_bucket_state := default fresh_bucket (cpu_buckets st !! qer_id).

Lemma bump_urr m st : cpu_urr (bump m st) = cpu_urr st.
Proof. done. Qed.

(** [upf_urr_update] adds one packet to the counter. *)
Lemma urr_update_bytes len st :
  urr_id <> 0 -> is_u32 len ->
  is_Some (cpu_urr st !! urr_id) \/ Z.of_nat (size (cpu_urr st)) < MAX_URRS ->
  urr_bytes (upf_urr_update urr_id len st) = u64 (urr_bytes st + len) /\
  is_Some (cpu_urr (upf_urr_update urr_id len st) !! urr_id) /\
  cpu_buckets (upf_urr_update urr_id len st) = cpu_buckets st.
Proof.
  intros Hid Hlen Hroom. unfold upf_urr_update, urr_bytes. rewrite (proj2 (Z.eqb_neq _ _)) by done.
  rewrite bump_urr. destruct (cpu_urr st !! urr_id) as [uv|] eqn:Hu; simpl.
  - rewrite lookup_insert_eq. by eauto.
  - destruct Hroom as [[? ?]|Hroom]; [done|]. rewrite (proj2 (Z.ltb_lt _ _)) by done. simpl.
    rewrite lookup_insert_eq. simpl. rewrite u64_small by lia. by eauto.
Qed.

Context (fv qv : bytes).
Hypothesis Hfar : lookup "far_table"%string (le_split 4 far_id) = Some fv.
Hypothesis Hqer : lookup "qer_table"%string (le_split 4 qer_id) = Some qv.
Hypothesis Hmbr : mbr_ul_bps (read_qer_val qv) <> 0.
Hypothesis Hid : 0 <= qer_id < 4096.
Hypothesis Hurr : urr_id <> 0.

(** One packet: the bucket takes its step, and an admitted length is added to
    the URR counter. *)
Lemma forward_step skb kt inner t_entry st :
  adjust_room skb (- outer) BPF_ADJ_ROOM_MAC BPF_F_ADJ_ROOM_FIXED_GSO = Some inner ->
  is_u32 (skb_len inner) ->
  is_Some (cpu_urr st !! urr_id) \/ Z.of_nat (size (cpu_urr st)) < MAX_URRS ->
  let '(ok, b') := bucket_step (tc_qer build) (read_qer_val qv) (bucket_of st)
                     {| at_ns := kt_qer kt; pkt_len := skb_len inner |} in
  let st' := (upf_far_forward build adjust_room redirect lookup kt skb
        far_id qer_id urr_id pdr_id generation outer t_entry st).2 in
  bucket_of st' = b' /\
  urr_bytes st' = (if ok then u64 (urr_bytes st + skb_len inner) else urr_bytes st) /\
  (is_Some (cpu_urr st' !! urr_id) \/ Z.of_nat (size (cpu_urr st')) < MAX_URRS).
Proof using Hfar Hqer Hmbr Hid Hurr.
  intros Hadj Hlen Hroom. rewrite upf_far_forward_eq, Hadj, Hfar, upf_qer_admit_eq, Hqer. rewrite (proj2 (Z.eqb_neq _ _)) by done.
  rewrite (proj2 (Z.ltb_lt _ _)) by lia. fold (bucket_of st).
  destruct (bucket_step _ _ (bucket_of st) _) as [ok b']. destruct ok; cbn [negb].
  2:{ unfold bucket_of, urr_bytes. simpl. by rewrite lookup_insert_eq. }
  set (st1 := bump M_TC_QER_PASS (set_buckets (<[qer_id := b']> (cpu_buckets st)) st)).
  destruct (urr_update_bytes (skb_len inner) st1) as (Hb & Hs & Hk); [done..|].
  set (st2 := upf_urr_update urr_id (skb_len inner) st1) in *.
  assert (Hfin : forall st3, cpu_urr st3 = cpu_urr st2 -> cpu_buckets st3 = cpu_buckets st2 ->
    bucket_of st3 = b' /\ urr_bytes st3 = u64 (urr_bytes st + skb_len inner) /\
    (is_Some (cpu_urr st3 !! urr_id) \/ Z.of_nat (size (cpu_urr st3)) < MAX_URRS)).
  { intros st3 H1 H2. unfold bucket_of, urr_bytes. rewrite H1, H2. split_and!; [|exact Hb|by left].
    rewrite Hk. simpl. by rewrite lookup_insert_eq. }
  apply Hfin; repeat case_match; done.
Qed.

(** ... and one of the two QER counters counts it. *)
Lemma forward_step_metrics skb kt inner t_entry st :
  adjust_room skb (- outer) BPF_ADJ_ROOM_MAC BPF_F_ADJ_ROOM_FIXED_GSO = Some inner ->
  let '(ok, _) := bucket_step (tc_qer build) (read_qer_val qv) (bucket_of st)
                    {| at_ns := kt_qer kt; pkt_len := skb_len inner |} in
  let st' := (upf_far_forward build adjust_room redirect lookup kt skb
        far_id qer_id urr_id pdr_id generation outer t_entry st).2 in
  metric st' M_TC_QER_PASS = (if ok then u64 (metric st M_TC_QER_PASS + 1) else metric st M_TC_QER_PASS) /\
  metric st' M_TC_QER_DROP = (if ok then metric st M_TC_QER_DROP else u64 (metric st M_TC_QER_DROP + 1)).
Proof using Hfar Hqer Hmbr Hid.
  intros Hadj. rewrite upf_far_forward_eq, Hadj, Hfar, upf_qer_admit_eq, Hqer. rewrite (proj2 (Z.eqb_neq _ _)) by done.
  rewrite (proj2 (Z.ltb_lt _ _)) by lia. fold (bucket_of st).
  destruct (bucket_step _ _ (bucket_of st) _) as [ok b']. destruct ok; cbn [negb snd].
  2:{ by rewrite !metric_bump, decide_False, decide_True. }
  destruct (tc_emit_decision build), (tc_emit_latency build), (negb _); cbn [snd]; split;
    repeat first [rewrite metric_bump_ne by done|rewrite metric_emit|rewrite metric_urr_update by done];
    first [by rewrite metric_bump, decide_True|done].
Qed.

(** C28: what is billed is what is metered.  Over any sequence of packets for
    one FAR, QER and URR, the URR byte counter grows by exactly the bytes the
    token bucket admitted, and the bucket ends where the bucket alone would:
    packets that fail to decapsulate or exceed the rate are never billed. *)
Theorem urr_counts_admitted l st :
  (forall skb kt inner, (skb, kt) ∈ l ->
     adjust_room skb (- outer) BPF_ADJ_ROOM_MAC BPF_F_ADJ_ROOM_FIXED_GSO = Some inner ->
     is_u32 (skb_len inner)) ->
  is_Some (cpu_urr st !! urr_id) \/ Z.of_nat (size (cpu_urr st)) < MAX_URRS ->
  is_u64 (urr_bytes st) ->
  urr_bytes (forward_run l st) = u64 (urr_bytes st +
    fst (run_bucket (tc_qer build) (read_qer_val qv) (bucket_of st) (offered l))) /\
  bucket_of (forward_run l st) =
    snd (run_bucket (tc_qer build) (read_qer_val qv) (bucket_of st) (offered l)).
Proof using Hfar Hqer Hmbr Hid Hurr.
  revert st. induction l as [|[skb kt] l IH]; intros st Hlen Hroom Hu.
  { simpl. by rewrite Z.add_0_r, u64_small. }
  unfold offered. cbn [omap list_omap forward_run]. fold (offered l).
  assert (Hlen' : forall skb kt inner, (skb, kt) ∈ l ->
     adjust_room skb (- outer) BPF_ADJ_ROOM_MAC BPF_F_ADJ_ROOM_FIXED_GSO = Some inner ->
     is_u32 (skb_len inner)) by (intros; eapply Hlen; [by right|done]).
  destruct (adjust_room skb _ _ _) as [inner|] eqn:Hadj; cbn [mbind option_bind].
  - pose proof (forward_step skb kt inner 0 st Hadj (Hlen _ _ _ ltac:(by left) Hadj) Hroom) as Hstep.
    cbn [run_bucket pkt_len]. destruct (bucket_step _ _ (bucket_of st) _) as [ok b1] eqn:Hb.
    destruct Hstep as (Hb1 & Hub & Hroom1).
    set (st1 := (upf_far_forward _ _ _ _ _ _ _ _ _ _ _ _ _ _).2) in *.
    specialize (IH st1 Hlen' Hroom1). rewrite Hb1, Hub in IH.
    destruct (run_bucket _ _ b1 (offered l)) as [adm b2]. cbn [fst snd] in *.
    destruct IH as [IH1 IH2]; [destruct ok; [apply u64_range|done]|].
    split; [|done]. rewrite IH1. destruct ok; [|f_equal; lia].
    rewrite u64_add_l. f_equal. lia.
  - assert (Hf : (upf_far_forward build adjust_room redirect lookup kt skb
        far_id qer_id urr_id pdr_id generation outer 0 st).2 = bump M_TC_DECAP_ERR st)
      by (by rewrite upf_far_forward_eq, Hadj).
    rewrite Hf. exact (IH (bump M_TC_DECAP_ERR st) Hlen' Hroom Hu).
Qed.
End metering.

Lemma urr_counts_admitted_witness :
  let build := {| tc_qer := PerCpu; tc_emit_decision := false; tc_emit_latency := false |} in
  let adj : sk_buff -> Z -> Z -> Z -> option sk_buff :=
    fun skb d _ _ => if skb_len skb + d <? 0 then None
                     else Some {| skb_data := skb_data skb; skb_len := skb_len skb + d |} in
  let fv := replicate 16 Byte.x00 in
  let qv := le_split 8 8000000 ++ replicate 8 Byte.x00 ++ le_split 4 100 ++ replicate 4 Byte.x00 in
  let lookup : lookup_fn := fun m _ => if decide (m = "far_table"%string) then Some fv else Some qv in
  let kt t := {| kt_entry := 0; kt_qer := t; kt_exit := 0; kt_buffer := 0 |} in
  let l := [({| skb_data := []; skb_len := 96 |}, kt 1000); ({| skb_data := []; skb_len := 96 |}, kt 2000)] in
  urr_bytes 5 (forward_run build adj (fun _ _ => 7) lookup 1 2 5 9 0 36 l cpu_init) = u64 (0 + 60) /\
  bucket_of 2 (forward_run build adj (fun _ _ => 7) lookup 1 2 5 9 0 36 l cpu_init) =
    {| tokens_bytes := 41; last_ns := 2000 |}.
Proof.
  intros build adj fv qv lookup kt l.
  assert (Hl : forall skb t inner, (skb, t) ∈ l ->
    adj skb (- 36) BPF_ADJ_ROOM_MAC BPF_F_ADJ_ROOM_FIXED_GSO = Some inner -> is_u32 (skb_len inner)).
  { intros skb t inner Hin. unfold l in Hin.
    apply elem_of_cons in Hin as [Heq|Hin]; [|apply elem_of_cons in Hin as [Heq|Hin]; [|by apply elem_of_nil in Hin]];
      injection Heq as -> ->; intros Hadj; vm_compute in Hadj; injection Hadj as <-; by vm_compute. }
  assert (H2 : 0 <= 2 < 4096) by (split; [discriminate|reflexivity]).
  assert (H5 : 5 <> 0) by discriminate.
  assert (Hfv : lookup "far_table"%string (le_split 4 1) = Some fv) by (vm_compute; reflexivity).
  assert (Hqv : lookup "qer_table"%string (le_split 4 2) = Some qv) by (vm_compute; reflexivity).
  assert (Hm : mbr_ul_bps (read_qer_val qv) <> 0) by (vm_compute; discriminate).
  assert (Hr : is_Some (cpu_urr cpu_init !! 5) \/ Z.of_nat (size (cpu_urr cpu_init)) < MAX_URRS)
    by (right; vm_compute; reflexivity).
  assert (Hu : is_u64 (urr_bytes 5 cpu_init)) by (vm_compute; split; [discriminate|reflexivity]).
  destruct (urr_counts_admitted build adj (fun _ _ => 7) lookup 1 2 5 9 0 36 fv qv
    Hfv Hqv Hm H2 H5 l cpu_init Hl Hr Hu) as [Hb1 Hb2].
  split; [rewrite Hb1|rewrite Hb2]; vm_compute; reflexivity.
Defined.
