(* ===== verification/Sender.v ===== *)
(** * The GTP-U packet sender

    test/send_gtpu.py: the frames it builds, the plan of a run and the total it
    prints.  scapy is not part of the repository: [raw] stands for
    [bytes(a / b / c)] and [sendp] for sending copies of a frame;
    [ScapyLaws] says what the code relies on, the layout of the headers and
    the protocol fields that scapy fills in from the layer above. *)

From S2P Require Import Prelude PyText PyFloat FloatBounds UpfMaps Qer Datapath.

Open Scope Z_scope.

(** ** The script *)

(** The layers used, with the fields the script sets. *)
Inductive layer :=
| Ether (dst : string)
| IP (src dst : string)
| UDP (sport dport : Z)
| GTP_U_Header (teid gtp_type : Z)
| Raw (load : bytes).

(** The options of [main]. *)
Record send_args := { sa_n : Z; sa_teid : Z; sa_mix : bool; sa_quiet : bool }.

(** What a run prints and sends. *)
Record send_report := { sr_lines : list string; sr_frames : list bytes; sr_total : Z; sr_ms : num; sr_pps : float }.

Section sender.
Context (raw : list layer -> res bytes) (sendp : bytes -> Z -> res (list bytes)).

Definition build_gpdu (teid payload_size : Z) : res bytes :=
  let inner := [IP "10.45.0.1" "8.8.8.8"; UDP 12345 53; Raw (replicate (Z.to_nat payload_size) (z2b 88))]%string in
  raw ([Ether "ff:ff:ff:ff:ff:ff"; IP "10.99.0.2" "10.99.0.1"; UDP 2152 2152; GTP_U_Header teid 0xff]%string ++ inner).

Definition build_ctrl_msg (teid : Z) : res bytes :=
  raw [Ether "ff:ff:ff:ff:ff:ff"; IP "10.99.0.2" "10.99.0.1"; UDP 2152 2152; GTP_U_Header teid 0x01; Raw []]%string.

Definition build_non_gtp : res bytes :=
  raw [Ether "ff:ff:ff:ff:ff:ff"; IP "10.99.0.2" "10.99.0.1"; UDP 12345 80; Raw (encode "hello")]%string.

Definition send_plan (args : send_args) : res (list (string * bytes * Z)) :=
  if sa_mix args then
    known ← build_gpdu (sa_teid args) 64;
    unknown ← build_gpdu 0xDEADBEEF 64;
    ctrl ← build_ctrl_msg (sa_teid args);
    non_gtp ← build_non_gtp;
    Ok [("known TEID  (G-PDU, hit)", known, sa_n args / 4); ("unknown TEID (G-PDU, miss)", unknown, sa_n args / 4);
        ("GTP-U control (echo)", ctrl, sa_n args / 4); ("non-GTP UDP", non_gtp, sa_n args / 4)]%string
  else
    g ← build_gpdu (sa_teid args) 64;
    Ok [("G-PDU teid=0x" ++ hex8 (sa_teid args), g, sa_n args)]%string.

(** The lines printed, the frames sent and the total. *)
Fixpoint send_loop (quiet : bool) (plan : list (string * bytes * Z)) (total : Z) : res (list string * list bytes * Z) :=
  match plan with
  | [] => Ok ([], [], total)
  | (label, pkt, count) :: plan' =>
      frames ← sendp pkt count;
      '(lines, rest, total) ← send_loop quiet plan' (total + count);
      Ok ((if quiet then lines else ("  -> sending " ++ str_Z count ++ " x " ++ label)%string :: lines), frames ++ rest, total)
  end.

(** [main], with the readings of [time.monotonic()]. *)
Definition send_main (args : send_args) (t0 t1 : float) : res send_report :=
  plan ← send_plan args;
  '(lines, frames, total) ← send_loop (sa_quiet args) plan 0;
  let dt := float_sub t1 t0 in
  ms ← num_mul (NFloat dt) (NInt 1000);
  pps ← num_div (NInt total) (NFloat dt);
  Ok {| sr_lines := lines; sr_frames := frames; sr_total := total; sr_ms := ms; sr_pps := pps |}.
End sender.

(** ** scapy *)

Definition dotted (s : string) : Prop := exists b, inet_aton s = Ok b.

(** Every layer is its header and what follows; Ethernet over IP has type
    0x0800, IP over UDP no options and protocol 17, and a GTP-U header without
    optional fields is 8 bytes. *)
Class ScapyLaws (raw : list layer -> res bytes) (sendp : bytes -> Z -> res (list bytes)) : Prop := {
  raw_load b : raw [Raw b] = Ok b;
  raw_gtp teid ty ls b : is_u32 teid -> 0 <= ty < 2 ^ 8 -> raw ls = Ok b -> (length b < 1000)%nat ->
    exists flags len, length len = 2%nat /\
      raw (GTP_U_Header teid ty :: ls) = Ok (mjoin [[flags]; [z2b ty]; len; be_split 4 teid; b]);
  raw_udp sport dport ls b : is_u16 sport -> is_u16 dport -> raw ls = Ok b -> (length b < 1000)%nat ->
    exists tail, length tail = 4%nat /\ raw (UDP sport dport :: ls) = Ok (mjoin [be_split 2 sport; be_split 2 dport; tail; b]);
  raw_ip src dst sport dport ls b : dotted src -> dotted dst -> raw (UDP sport dport :: ls) = Ok b -> (length b < 1000)%nat ->
    exists head tail, length head = 8%nat /\ length tail = 10%nat /\
      raw (IP src dst :: UDP sport dport :: ls) = Ok (mjoin [[Byte.x45]; head; [Byte.x11]; tail; b]);
  raw_ether src dst ls b : raw (IP src dst :: ls) = Ok b ->
    exists mac, length mac = 12%nat /\
      raw (Ether "ff:ff:ff:ff:ff:ff"%string :: IP src dst :: ls) = Ok (mjoin [mac; [Byte.x08; Byte.x00]; b]);
  sendp_copies pkt n : 0 <= n -> sendp pkt n = Ok (replicate (Z.to_nat n) pkt);
}.

(** ** The frames on the wire *)

(** Lengths of the fields of a frame. *)
Ltac frame_len :=
  cbn [app take mjoin list_join]; repeat (rewrite length_app || rewrite length_be_split || rewrite length_replicate || (progress cbn [length])); lia.

Section laws.
Context `{ScapyLaws raw sendp} (lookup : lookup_fn).

(** A frame over UDP. *)
Lemma udp_frame dport ls b :
  is_u16 dport -> raw ls = Ok b -> (length b < 900)%nat ->
  forall sport, is_u16 sport ->
  exists mac head tail utail, length mac = 12%nat /\ length head = 8%nat /\ length tail = 10%nat /\ length utail = 4%nat /\
    raw ([Ether "ff:ff:ff:ff:ff:ff"; IP "10.99.0.2" "10.99.0.1"; UDP sport dport]%string ++ ls) =
      Ok (mjoin [mac; [Byte.x08; Byte.x00]; [Byte.x45]; head; [Byte.x11]; tail; be_split 2 sport; be_split 2 dport; utail; b]).
Proof using All.
  intros Hd Hb Hl sport Hs. destruct (raw_udp sport dport ls b Hs Hd Hb ltac:(lia)) as (utail & Hu & Eu).
  destruct (raw_ip "10.99.0.2" "10.99.0.1" sport dport ls _ ltac:(by eexists) ltac:(by eexists) Eu) as (head & tail & Hh & Ht & Ei).
  { frame_len. }
  destruct (raw_ether "10.99.0.2" "10.99.0.1" _ _ Ei) as (mac & Hm & Ee).
  exists mac, head, tail, utail. split_and!; [done..|]. cbn [app]. rewrite Ee. f_equal. cbn [mjoin list_join].
  rewrite ?app_nil_r, <-?app_assoc. reflexivity.
Qed.

(** A G-PDU of the script. *)
Definition sends_gpdu (teid : Z) (frame : bytes) : Prop := exists g, gpdu_wf g /\ g_teid g = teid /\ frame = gpdu_bytes g.

Lemma inner_small : exists b, raw [IP "10.45.0.1" "8.8.8.8"; UDP 12345 53; Raw (replicate 64 (z2b 88))]%string = Ok b /\ (length b < 800)%nat.
Proof using All.
  destruct (raw_udp 12345 53 _ _ ltac:(done) ltac:(done) (raw_load (replicate 64 (z2b 88))) ltac:(rewrite length_replicate; lia)) as (t & Ht & Eu).
  destruct (raw_ip "10.45.0.1" "8.8.8.8" _ _ _ _ ltac:(by eexists) ltac:(by eexists) Eu) as (hd & tl & Hh & Htl & Ei).
  { frame_len. }
  eexists. split; [exact Ei|frame_len].
Qed.

Lemma build_gpdu_ok teid : is_u32 teid -> exists p, build_gpdu raw teid 64 = Ok p /\ sends_gpdu teid p.
Proof using All.
  intros Ht. destruct inner_small as (b & Hb & Hl).
  destruct (raw_gtp teid 0xff _ _ Ht ltac:(done) Hb ltac:(lia)) as (flags & len & Hlen & Eg).
  destruct (udp_frame 2152 _ _ ltac:(done) Eg) with (sport := 2152) as (mac & head & tail & utail & Hm & Hh & Htl & Hu & E); [|done|].
  { frame_len. }
  exists (mjoin [mac; [Byte.x08; Byte.x00]; [Byte.x45]; head; [Byte.x11]; tail; be_split 2 2152; be_split 2 2152; utail;
    mjoin [[flags]; [z2b 0xff]; len; be_split 4 teid; b]]). split; [exact E|].
  exists {| g_mac := mac; g_vihl := Byte.x45; g_ip_head := head; g_ip_tail := tail; g_sport := be_split 2 2152;
            g_udp_tail := utail; g_flags := flags; g_len := len; g_teid := teid; g_payload := b |}.
  split; [|split; [done|]].
  - split; cbn [g_mac g_vihl g_ip_head g_ip_tail g_sport g_udp_tail g_len g_teid]; try done; [lia|].
    unfold g_ihl. cbn [g_ip_tail]. by rewrite Htl.
  - unfold gpdu_bytes, gpdu_fields. cbn [g_mac g_vihl g_ip_head g_ip_tail g_sport g_udp_tail g_flags g_len g_teid g_payload mjoin list_join].
    rewrite ?app_nil_r, <-?app_assoc. reflexivity.
Qed.

(** What the XDP programme reads of a frame over UDP. *)
Record udp_reads (dport : Z) (p : bytes) : Prop := {
  ur_len : (42 <= length p)%nat;
  ur_proto : rd p 12 2 = Some (bpf_htons ETH_P_IP);
  ur_vihl : rd p 14 1 = Some 69;
  ur_udp : rd p (14 + 9) 1 = Some IPPROTO_UDP;
  ur_dest : rd p (34 + 2) 2 = Some (bpf_htons dport);
}.

Lemma frame_reads mac head tail sport dport utail rest :
  length mac = 12%nat -> length head = 8%nat -> length tail = 10%nat -> length utail = 4%nat ->
  udp_reads dport (mjoin ([mac; [Byte.x08; Byte.x00]; [Byte.x45]; head; [Byte.x11]; tail; be_split 2 sport; be_split 2 dport; utail] ++ rest)).
Proof using Type.
  intros Hm Hh Ht Hu. split.
  - frame_len.
  - apply (rd_field _ 1 [Byte.x08; Byte.x00]); [done|frame_len|done].
  - apply (rd_field _ 2 [Byte.x45]); [done|frame_len|done].
  - apply (rd_field _ 4 [Byte.x11]); [done|frame_len|done].
  - apply (rd_field _ 7 (be_split 2 dport)); [done|frame_len|by rewrite length_be_split].
Qed.

(** It goes on to the port. *)
Lemma xdp_on_udp dport p :
  udp_reads dport p ->
  upf_xdp_uplink lookup p =
    if negb (bpf_htons dport =? bpf_htons GTPU_PORT) then Some (XDP_PASS, [M_RX_TOTAL; M_PASS_NONGTP]) else
    if (length p <? 50)%nat then Some (XDP_DROP, [M_RX_TOTAL; M_RX_GTPU; M_DROP_PARSE]) else
    flags ← rd p 42 1;
    msg_type ← rd p 43 1;
    teid_be ← rd p 46 4;
    if negb (msg_type =? GTPU_GPDU) then Some (XDP_PASS, [M_RX_TOTAL; M_RX_GTPU; M_PASS_CTRL])
    else match xdp_classify lookup (bpf_ntohl teid_be) with (act, m) => Some (act, [M_RX_TOTAL; M_RX_GTPU; M_RX_GPDU; m]) end.
Proof using Type.
  intros [Hl R1 R2 R3 R4]. unfold upf_xdp_uplink, upf_xdp_uplink_at, xdp_classify, xdp_classify_at. sizes.
  rewrite !(proj2 (Nat.ltb_ge _ _)) by lia. rewrite R1. cbn [mbind option_bind]. rewrite Z.eqb_refl, R3. cbn [negb mbind option_bind].
  rewrite Z.eqb_refl, R2. cbn [negb mbind option_bind]. change (Z.to_nat (Z.land 69 15 * 4)) with 20%nat.
  change (20 <? 20)%nat with false. cbn [Nat.add] in R4 |- *. rewrite ?(proj2 (Nat.ltb_ge (length p) 42)) by lia.
  rewrite R4. cbn [mbind option_bind].
  destruct (bpf_htons dport =? bpf_htons GTPU_PORT); [|done]. cbn [negb].
  destruct (length p <? 50)%nat; [done|].
  destruct (rd p _ 1); [|done]. cbn [mbind option_bind]. destruct (rd p _ 1); [|done]. cbn [mbind option_bind].
  destruct (rd p _ 4); [|done]. cbn [mbind option_bind]. repeat case_match; by simplify_eq.
Qed.

(** The other two frames pass, counted as control traffic and as no GTP. *)
Definition passes_as (bumps : list metric_idx) (frame : bytes) : Prop := upf_xdp_uplink lookup frame = Some (XDP_PASS, bumps).

Lemma build_ctrl_ok teid :
  is_u32 teid -> exists p, build_ctrl_msg raw teid = Ok p /\ passes_as [M_RX_TOTAL; M_RX_GTPU; M_PASS_CTRL] p.
Proof using All.
  intros Ht. destruct (raw_gtp teid 0x01 _ _ Ht ltac:(done) (raw_load []) ltac:(cbn; lia)) as (flags & len & Hlen & Eg).
  destruct (udp_frame 2152 _ _ ltac:(done) Eg) with (sport := 2152) as (mac & head & tail & utail & Hm & Hh & Htl & Hu & E); [|done|].
  { frame_len. }
  eexists. split; [exact E|]. unfold passes_as.
  set (fs := [mac; [Byte.x08; Byte.x00]; [Byte.x45]; head; [Byte.x11]; tail; be_split 2 2152; be_split 2 2152; utail] ++
    [[flags]; [Byte.x01]; len; be_split 4 teid]).
  replace (mjoin _) with (mjoin fs) by (unfold fs; cbn [app mjoin list_join]; rewrite ?app_nil_r, <-?app_assoc; reflexivity).
  rewrite (xdp_on_udp 2152) by by apply frame_reads. rewrite Z.eqb_refl. cbn [negb].
  rewrite (proj2 (Nat.ltb_ge _ _)) by (unfold fs; frame_len).
  assert (R5 : rd (mjoin fs) 42 1 = Some (le_combine [flags])) by (apply (rd_field fs 9); [done|unfold fs; frame_len|done]).
  assert (R6 : rd (mjoin fs) 43 1 = Some 1) by (apply (rd_field fs 10 [Byte.x01]); [done|unfold fs; frame_len|done]).
  assert (R7 : rd (mjoin fs) 46 4 = Some (le_combine (be_split 4 teid))) by (apply (rd_field fs 12); [done|unfold fs; frame_len|frame_len]).
  rewrite R5, R6, R7.
  reflexivity.
Qed.

Lemma build_non_gtp_ok : exists p, build_non_gtp raw = Ok p /\ passes_as [M_RX_TOTAL; M_PASS_NONGTP] p.
Proof using All.
  destruct (udp_frame 80 _ _ ltac:(done) (raw_load (encode "hello"))) with (sport := 12345)
    as (mac & head & tail & utail & Hm & Hh & Htl & Hu & E); [cbn; lia|done|].
  eexists. split; [exact E|]. unfold passes_as. by rewrite (xdp_on_udp 80) by by apply (frame_reads mac head tail 12345 80 utail [_]).
Qed.

(** ** What a run sends *)

(** Copies of a frame on one CPU. *)
Lemma xdp_run_copies p act bumps n ps st :
  upf_xdp_uplink lookup p = Some (act, bumps) ->
  (xdp_run ((pair lookup <$> replicate n p) ++ ps) st).2 = (xdp_run ps (bump_all (concat (replicate n bumps)) st)).2.
Proof using Type.
  intros Hx. revert st. induction n as [|n IH]; intros st; [done|]. cbn [replicate fmap list_fmap app xdp_run concat]. rewrite Hx.
  unfold bump_all at 2. rewrite foldl_app. fold (bump_all bumps st). specialize (IH (bump_all bumps st)).
  destruct (xdp_run _ (bump_all bumps st)). exact IH.
Qed.

Lemma count_copies m bumps n : count m (concat (replicate n bumps)) = Z.of_nat n * count m bumps.
Proof using Type. induction n as [|n IH]; [done|]. cbn [replicate concat]. rewrite count_app, IH. lia. Qed.

(** The plan: frames, the bumps of each, and how many copies. *)
Definition planned (plan : list (string * bytes * Z)) (cats : list (list metric_idx * Z)) : Prop :=
  Forall2 (fun e c => 0 <= c.2 /\ e.2 = c.2 /\ exists act, upf_xdp_uplink lookup e.1.2 = Some (act, c.1)) plan cats.

Lemma send_loop_ok quiet plan cats total :
  planned plan cats ->
  exists lines frames, send_loop sendp quiet plan total = Ok (lines, frames, total + sumZ cats.*2) /\
    Z.of_nat (length frames) = sumZ cats.*2 /\ (length lines = if quiet then 0 else length plan)%nat /\
    forall st m, is_u64 (metric st m) ->
      metric (xdp_run (pair lookup <$> frames) st).2 m = u64 (metric st m + sumZ ((fun c => c.2 * count m c.1) <$> cats)).
Proof using All.
  intros Hp. revert total. induction Hp as [|[[label p] n] [bumps n'] plan cats (Hn & E & act & Hx) _ IH]; intros total.
  { exists [], []. cbn. rewrite Z.add_0_r. split; [done|]. split; [done|]. split; [by destruct quiet|].
    intros st m Hm. rewrite u64_small by lia. lia. }
  cbn [fst snd] in *. subst n'. destruct (IH (total + n)) as (lines & frames & El & Hl & Hc & Hm). cbn [send_loop].
  rewrite sendp_copies by done. cbn [mbind res_bind]. rewrite El. cbn [mbind res_bind]. eexists _, _.
  split; [|split; [|split]].
  - rewrite fmap_cons, sumZ_cons, Z.add_assoc. reflexivity.
  - rewrite length_app, length_replicate, fmap_cons, sumZ_cons. cbn [snd]. lia.
  - destruct quiet; [done|]. cbn [length]. by rewrite Hc.
  - intros st m Hu. rewrite fmap_app, (xdp_run_copies _ _ _ _ _ _ Hx), Hm.
    + rewrite metric_bump_all, count_copies, u64_add_l, Z2Nat.id by done. f_equal. rewrite fmap_cons, sumZ_cons. cbn [fst snd]. lia.
    + rewrite metric_bump_all by done. apply u64_range.
Qed.

(** The timing of a run whose clock has advanced. *)
Lemma send_rate total (dt : float) :
  0 <= total < 2 ^ 64 -> is_zero dt = false ->
  exists ms pps, num_mul (NFloat dt) (NInt 1000) = Ok ms /\ num_div (NInt total) (NFloat dt) = Ok pps.
Proof using Type.
  intros Ht Hd. unfold num_mul, num_op, num_div. cbn [to_float mbind res_bind].
  assert (Hf : forall z, 0 <= z < 2 ^ 64 -> float_of_int z = Ok (float_of_Z z)).
  { intros z Hz. destruct (decide (z = 0)) as [->|]; [done|]. apply float_of_int_ok. split; [lia|].
    eapply Z.lt_trans; [|by instantiate (1 := 2 ^ 64); vm_compute]. lia. }
  rewrite (Hf 1000), (Hf total) by done. cbn [mbind res_bind]. unfold float_div. rewrite Hd. by eexists _, _.
Qed.

(** A run of a plan whose copies fit a counter. *)
Lemma send_main_planned args t0 t1 plan cats :
  send_plan raw args = Ok plan -> planned plan cats -> sumZ cats.*2 < 2 ^ 64 -> is_zero (float_sub t1 t0) = false ->
  exists r, send_main raw sendp args t0 t1 = Ok r /\ sr_total r = sumZ cats.*2 /\ Z.of_nat (length (sr_frames r)) = sr_total r /\
    (length (sr_lines r) = if sa_quiet args then 0 else length plan)%nat /\
    forall m, metric (xdp_run (pair lookup <$> sr_frames r) cpu_init).2 m = u64 (sumZ ((fun c => c.2 * count m c.1) <$> cats)).
Proof using All.
  intros Hp Hc Hs Hd. destruct (send_loop_ok (sa_quiet args) plan cats 0 Hc) as (lines & frames & El & Hl & Hn & Hm).
  assert (H0 : 0 <= sumZ cats.*2) by lia. destruct (send_rate _ _ (conj H0 Hs) Hd) as (ms & pps & Hms & Hpps).
  unfold send_main. rewrite Hp. cbn [mbind res_bind]. rewrite El, Z.add_0_l. cbn [mbind res_bind]. rewrite Hms. cbn [mbind res_bind].
  rewrite Hpps. cbn [mbind res_bind]. eexists. split; [reflexivity|]. cbn [sr_total sr_frames sr_lines]. do 3 (split; [done|]).
  intros m. by rewrite Hm by by vm_compute.
Qed.

(** The two G-PDUs, by what the maps say of their TEIDs. *)
Lemma build_gpdu_counted teid act m :
  is_u32 teid -> xdp_classify lookup teid = (act, m) ->
  exists p, build_gpdu raw teid 64 = Ok p /\ upf_xdp_uplink lookup p = Some (act, [M_RX_TOTAL; M_RX_GTPU; M_RX_GPDU; m]).
Proof using All.
  intros Ht Hc. destruct (build_gpdu_ok _ Ht) as (p & Ep & g & Hg & Tg & ->). exists (gpdu_bytes g). split; [done|].
  by rewrite xdp_on_gpdu, Tg, Hc by done.
Qed.

(** The kinds of frames of a run, by what they count, and the copies of each. *)
Definition kinds (mix : bool) : list (list metric_idx) :=
  if mix then [[M_RX_TOTAL; M_RX_GTPU; M_RX_GPDU; M_HIT]; [M_RX_TOTAL; M_RX_GTPU; M_RX_GPDU; M_MISS_TEID];
               [M_RX_TOTAL; M_RX_GTPU; M_PASS_CTRL]; [M_RX_TOTAL; M_PASS_NONGTP]]
  else [[M_RX_TOTAL; M_RX_GTPU; M_RX_GPDU; M_HIT]].
Definition copies (args : send_args) : Z := if sa_mix args then sa_n args / 4 else sa_n args.

Lemma send_plan_kinds args :
  is_u32 (sa_teid args) -> 0 <= sa_n args ->
  xdp_classify lookup (sa_teid args) = (XDP_PASS, M_HIT) -> lookup "teid_session"%string (le_split 4 0xDEADBEEF) = None ->
  exists plan, send_plan raw args = Ok plan /\ planned plan ((fun b => (b, copies args)) <$> kinds (sa_mix args)) /\
    length plan = length (kinds (sa_mix args)).
Proof using All.
  intros Ht Hn Hhit Hmiss. pose proof (Z.div_pos (sa_n args) 4 Hn ltac:(lia)).
  destruct (build_gpdu_counted _ _ _ Ht Hhit) as (known & Ek & Xk).
  unfold send_plan, copies, kinds. rewrite Ek. cbn [mbind res_bind]. destruct (sa_mix args).
  - destruct (build_gpdu_counted 0xDEADBEEF XDP_DROP M_MISS_TEID ltac:(done)) as (unknown & -> & Xu); [by rewrite xdp_classify_eq, Hmiss|].
    destruct (build_ctrl_ok _ Ht) as (ctrl & Ec & Xc). destruct build_non_gtp_ok as (ng & En & Xn).
    cbn [mbind res_bind]. rewrite Ec. cbn [mbind res_bind]. rewrite En. cbn [mbind res_bind]. eexists. split; [reflexivity|].
    split; [|done]. repeat (apply List.Forall2_cons; [split; [done|]; split; [done|]; by eexists|]). apply List.Forall2_nil.
  - eexists. split; [reflexivity|]. split; [|done]. repeat (apply List.Forall2_cons; [split; [done|]; split; [done|]; by eexists|]). apply List.Forall2_nil.
Qed.

Lemma kinds_sum n m bs :
  sumZ ((fun b : list metric_idx => (b, n)) <$> bs).*2 = n * Z.of_nat (length bs) /\
  sumZ ((fun c => c.2 * count m c.1) <$> ((fun b => (b, n)) <$> bs)) = n * sumZ (count m <$> bs).
Proof using Type. induction bs as [|b bs [IH1 IH2]]; [cbn; lia|]. rewrite !fmap_cons, !sumZ_cons, IH1, IH2. cbn [fst snd length]. lia. Qed.

(** The kinds among which a counter goes up. *)
Definition kinds_of (mix : bool) (m : metric_idx) : Z := sumZ (count m <$> kinds mix).

Ltac kinds_count :=
  repeat match goal with
  | |- context [kinds_of ?b ?m] =>
      let v := eval vm_compute in (kinds_of b m) in replace (kinds_of b m) with v by (vm_compute; reflexivity)
  end.

(** C25: send_gtpu.py exercises the counters it is meant to.  With a session
    for its TEID in the maps and none for 0xDEADBEEF, [--mix] sends n // 4
    frames of each of its four kinds, and the XDP programme that receives them
    counts exactly those as hit, miss_teid, pass_ctrl and pass_nongtp; without
    [--mix] it sends [n] G-PDUs, counted as hits.  The total printed is
    the number of frames sent; nothing is printed per kind with [--quiet]. *)
Theorem sent_counted args t0 t1 :
  is_u32 (sa_teid args) -> 0 <= sa_n args < 2 ^ 60 -> is_zero (float_sub t1 t0) = false ->
  xdp_classify lookup (sa_teid args) = (XDP_PASS, M_HIT) ->
  lookup "teid_session"%string (le_split 4 0xDEADBEEF) = None ->
  exists r, send_main raw sendp args t0 t1 = Ok r /\ sr_total r = Z.of_nat (length (sr_frames r)) /\
    let st := (xdp_run (pair lookup <$> sr_frames r) cpu_init).2 in
    let n := sa_n args in
    metric st M_RX_TOTAL = sr_total r /\
    (if sa_mix args then
       sr_total r = 4 * (n / 4) /\ metric st M_HIT = n / 4 /\ metric st M_MISS_TEID = n / 4 /\
       metric st M_PASS_CTRL = n / 4 /\ metric st M_PASS_NONGTP = n / 4 /\ metric st M_DROP_PARSE = 0
     else sr_total r = n /\ metric st M_HIT = n /\ metric st M_RX_GPDU = n) /\
    length (sr_lines r) = if sa_quiet args then O else if sa_mix args then 4%nat else 1%nat.
Proof using All.
  intros Ht Hn Hdt Hhit Hmiss.
  assert (Hc : 0 <= copies args <= sa_n args).
  { unfold copies. destruct (sa_mix args); [|lia]. split; [apply Z.div_pos; lia|]. apply Z.div_le_upper_bound; lia. }
  destruct (send_plan_kinds args Ht ltac:(lia) Hhit Hmiss) as (plan & Ep & Hp & Hl).
  assert (Hk : (length (kinds (sa_mix args)) <= 4)%nat) by (unfold kinds; destruct (sa_mix args); cbn; lia).
  destruct (send_main_planned args t0 t1 plan _ Ep Hp) as (r & Hr & Htot & Hfr & Hli & Hm); [|done|].
  { rewrite (proj1 (kinds_sum (copies args) M_HIT _)). nia. }
  assert (Hm' : forall m, metric (xdp_run (pair lookup <$> sr_frames r) cpu_init).2 m = u64 (copies args * kinds_of (sa_mix args) m))
    by (intros m; by rewrite Hm, (proj2 (kinds_sum _ _ _))).
  rewrite (proj1 (kinds_sum (copies args) M_HIT _)) in Htot. clear Hm.
  exists r. split; [done|]. split; [done|]. cbv zeta. rewrite !Hm', Htot, Hli, Hl. unfold copies in *.
  destruct (sa_mix args); kinds_count; rewrite !u64_small by lia; cbn [kinds length]; split_and!; lia || done.
Qed.
End laws.

(** ** A concrete scapy: the headers without their checksums *)

Fixpoint demo_raw (ls : list layer) : res bytes :=
  match ls with
  | [] => Ok []
  | l :: ls' =>
      b ← demo_raw ls';
      let n := Z.of_nat (length b) in
      match l with
      | Ether _ => Ok (mjoin [replicate 12 Byte.xff; match ls' with IP _ _ :: _ => [Byte.x08; Byte.x00] | _ => [Byte.x90; Byte.x00] end; b])
      | IP src dst =>
          s ← inet_aton src;
          d ← inet_aton dst;
          Ok (mjoin [[Byte.x45]; [Byte.x00] ++ be_split 2 (20 + n) ++ [Byte.x00; Byte.x01; Byte.x00; Byte.x00] ++ [Byte.x40];
                     [match ls' with UDP _ _ :: _ => Byte.x11 | _ => Byte.x00 end]; replicate 2 Byte.x00 ++ s ++ d; b])
      | UDP sport dport => Ok (mjoin [be_split 2 sport; be_split 2 dport; be_split 2 (8 + n) ++ [Byte.x00; Byte.x00]; b])
      | GTP_U_Header teid ty => Ok (mjoin [[Byte.x30]; [z2b ty]; be_split 2 n; be_split 4 teid; b])
      | Raw load => Ok (load ++ b)
      end
  end.

Definition demo_sendp (pkt : bytes) (n : Z) : res (list bytes) := Ok (replicate (Z.to_nat n) pkt).

#[local] Instance demo_scapy : ScapyLaws demo_raw demo_sendp.
Proof.
  split.
  - intros b. cbn. by rewrite app_nil_r.
  - intros teid ty ls b _ _ Hb _. cbn [demo_raw]. rewrite Hb. by eexists _, (be_split 2 _).
  - intros sport dport ls b _ _ Hb _. cbn [demo_raw]. rewrite Hb. by exists (be_split 2 (8 + Z.of_nat (length b)) ++ [Byte.x00; Byte.x00]).
  - intros src dst sport dport ls b [s Hs] [d Hd] Hb _.
    change (demo_raw (IP src dst :: ?l)) with (b ← demo_raw l; s ← inet_aton src; d ← inet_aton dst;
      Ok (mjoin [[Byte.x45]; [Byte.x00] ++ be_split 2 (20 + Z.of_nat (length b)) ++ [Byte.x00; Byte.x01; Byte.x00; Byte.x00] ++ [Byte.x40];
                 [Byte.x11]; replicate 2 Byte.x00 ++ s ++ d; b])).
    rewrite Hb. cbn [mbind res_bind]. rewrite Hs. cbn [mbind res_bind]. rewrite Hd. cbn [mbind res_bind].
    pose proof (inet_aton_length _ _ Hs). pose proof (inet_aton_length _ _ Hd).
    exists ([Byte.x00] ++ be_split 2 (20 + Z.of_nat (length b)) ++ [Byte.x00; Byte.x01; Byte.x00; Byte.x00] ++ [Byte.x40]), (replicate 2 Byte.x00 ++ s ++ d).
    split; [frame_len|]. split; [frame_len|reflexivity].
  - intros src dst ls b Hb.
    change (demo_raw (Ether ?m :: IP src dst :: ls)) with (b ← demo_raw (IP src dst :: ls); Ok (mjoin [replicate 12 Byte.xff; [Byte.x08; Byte.x00]; b])).
    rewrite Hb. by exists (replicate 12 Byte.xff).
  - done.
Qed.

Lemma sent_counted_witness :
  let lookup : lookup_fn := fun m j =>
    if decide (m = "teid_session"%string) then (if decide (j = le_split 4 0x1000) then Some (le_split 4 0x2000) else None) else Some [] in
  let args := {| sa_n := 10; sa_teid := 0x1000; sa_mix := true; sa_quiet := false |} in
  exists r, send_main demo_raw demo_sendp args (float_of_Z 1) (float_of_Z 2) = Ok r /\ sr_total r = 8 /\
    metric (xdp_run (pair lookup <$> sr_frames r) cpu_init).2 M_MISS_TEID = 2.
Proof.
  intros lookup args.
  destruct (sent_counted lookup args (float_of_Z 1) (float_of_Z 2)) as (r & Hr & _ & _ & (Ht & _ & Hm & _) & _).
  - done.
  - done.
  - vm_compute. reflexivity.
  - vm_compute. reflexivity.
  - vm_compute. reflexivity.
  - exists r. split; [exact Hr|]. split; [exact Ht|exact Hm].
Defined.
