(* ===== verification/Metering.v ===== *)
(** * Metering on one CPU: runs of upf_tc.c over arbitrary packets

    Datapath.v follows the packets of one forwarding rule; here a CPU runs the
    whole TC programme on any packets, while every bundle of the map names the
    same QER and URR.  [tc_run] is that CPU, [metered] its abstraction: a
    sequence of arrivals at one bucket, with the two QER counters and the URR
    byte counter that account for them. *)

From S2P Require Import Prelude UpfMaps Qer QerLive Datapath.

Section metering.
Context (build : tc_build).
Context (adjust_room : sk_buff -> Z -> Z -> Z -> option sk_buff).
Context (redirect : Z -> Z -> Z).
Context (lookup : lookup_fn) (qer_id urr_id : Z).

(** One packet and the clock readings of its run. *)
Definition tc_step (st : cpu_state) (p : sk_buff * ktimes) : cpu_state :=
  match upf_tc_ingress build adjust_room redirect lookup p.2 p.1 st with
  | Some (_, _, st') => st'
  | None => st
  end.

(** The arrivals [arr] at the bucket took the CPU from [st] to [st']. *)
Record metered (qv : qer_val) (arr : list arrival) (st st' : cpu_state) : Prop := {
  mt_bucket : bucket_of qer_id st' = snd (run_bucket (tc_qer build) qv (bucket_of qer_id st) arr);
  mt_pass : metric st' M_TC_QER_PASS = u64 (metric st M_TC_QER_PASS +
    Z.of_nat (length (filter (fun ok => ok = true) (verdicts (tc_qer build) qv (bucket_of qer_id st) arr))));
  mt_drop : metric st' M_TC_QER_DROP = u64 (metric st M_TC_QER_DROP +
    Z.of_nat (length (filter (fun ok => ok = false) (verdicts (tc_qer build) qv (bucket_of qer_id st) arr))));
  mt_bytes : urr_bytes urr_id st' = u64 (urr_bytes urr_id st +
    fst (run_bucket (tc_qer build) qv (bucket_of qer_id st) arr));
}.

(** Room for the URR entry, and counters that are [__u64]s. *)
Record cpu_ok (st : cpu_state) : Prop := {
  ck_room : is_Some (cpu_urr st !! urr_id) \/ Z.of_nat (size (cpu_urr st)) < MAX_URRS;
  ck_pass : is_u64 (metric st M_TC_QER_PASS);
  ck_drop : is_u64 (metric st M_TC_QER_DROP);
  ck_bytes : is_u64 (urr_bytes urr_id st);
}.

Context (qb : bytes).
Hypothesis Hqer : lookup "qer_table"%string (le_split 4 qer_id) = Some qb.
Hypothesis Hmbr : mbr_ul_bps (read_qer_val qb) <> 0.
Hypothesis Hid : 0 <= qer_id < 4096.
Hypothesis Hurr : urr_id <> 0.
Hypothesis Hbundles : forall pk bv, lookup "tc_bundle_map"%string pk = Some bv ->
  slot_qer_id (live_slot (read_tc_bundle bv)) = qer_id /\ slot_urr_id (live_slot (read_tc_bundle bv)) = urr_id.
Hypothesis Hlens : forall skb d m f inner, adjust_room skb d m f = Some inner -> is_u32 (skb_len inner).

Abbreviation qv := (read_qer_val qb).

Lemma metered_nil st : cpu_ok st -> metered qv [] st st.
Proof using Type. intros [_ H1 H2 H3]. split; cbn; rewrite ?Z.add_0_r, ?u64_small; done. Qed.

Lemma metered_app a b st1 st2 st3 :
  metered qv a st1 st2 -> metered qv b st2 st3 -> metered qv (a ++ b) st1 st3.
Proof using Type.
  intros [B1 P1 D1 Y1] [B2 P2 D2 Y2].
  assert (Hrun : forall st, run_bucket (tc_qer build) qv st (a ++ b) =
    (fst (run_bucket (tc_qer build) qv st a) + fst (run_bucket (tc_qer build) qv (snd (run_bucket (tc_qer build) qv st a)) b),
     snd (run_bucket (tc_qer build) qv (snd (run_bucket (tc_qer build) qv st a)) b))).
  { clear. induction a as [|x a IH]; intros st; cbn [app run_bucket fst snd].
    - by rewrite Z.add_0_l, <-surjective_pairing.
    - destruct (bucket_step _ _ st x) as [ok st1]. rewrite IH.
      destruct (run_bucket _ _ st1 a) as [adm st2]. cbn [fst snd]. f_equal. lia. }
  assert (Hvs : forall st, verdicts (tc_qer build) qv st (a ++ b) =
    verdicts (tc_qer build) qv st a ++ verdicts (tc_qer build) qv (snd (run_bucket (tc_qer build) qv st a)) b).
  { clear. induction a as [|x a IH]; intros st; cbn [app run_bucket verdicts snd]; [done|].
    destruct (bucket_step _ _ st x) as [ok st1]. rewrite IH. by destruct (run_bucket _ _ st1 a). }
  split.
  - by rewrite B2, B1, Hrun.
  - rewrite P2, P1, B1, Hvs, filter_app, length_app, u64_add_l. f_equal. lia.
  - rewrite D2, D1, B1, Hvs, filter_app, length_app, u64_add_l. f_equal. lia.
  - rewrite Y2, Y1, B1, Hrun, u64_add_l. cbn [fst]. f_equal. lia.
Qed.

(** A packet that ends before the bucket leaves what is metered alone. *)
Lemma metered_bump st m :
  m <> M_TC_QER_PASS -> m <> M_TC_QER_DROP -> cpu_ok st -> metered qv [] st (bump m st) /\ cpu_ok (bump m st).
Proof using Type.
  intros H1 H2 Hok. destruct (metered_nil st Hok) as [B P D Y], Hok.
  split; split; rewrite ?metric_bump_ne by done; done.
Qed.

Lemma metered_emit st e :
  cpu_ok st -> metered qv [] st (emit e st) /\ cpu_ok (emit e st).
Proof using Type. intros Hok. destruct (metered_nil st Hok) as [B P D Y], Hok. split; split; done. Qed.

(** The arrivals a packet offers: none, or one at the time the bucket reads the
    clock. *)
Definition arrives (p : sk_buff * ktimes) (arr : list arrival) : Prop :=
  arr = [] \/ exists a, arr = [a] /\ at_ns a = kt_qer p.2 /\ is_u32 (pkt_len a).

Lemma far_forward_metered kt skb far_id pdr_id gen outer t_entry st :
  cpu_ok st ->
  let st' := (upf_far_forward build adjust_room redirect lookup kt skb
                far_id qer_id urr_id pdr_id gen outer t_entry st).2 in
  exists arr, arrives (skb, kt) arr /\ metered qv arr st st' /\ cpu_ok st'.
Proof using Hqer Hmbr Hid Hurr Hlens.
  intros Hok st'.
  destruct (adjust_room skb (- outer) BPF_ADJ_ROOM_MAC BPF_F_ADJ_ROOM_FIXED_GSO) as [inner|] eqn:Hadj.
  2:{ exists []. split; [by left|]. unfold st'. rewrite upf_far_forward_eq, Hadj. by apply metered_bump. }
  destruct (lookup "far_table"%string (le_split 4 far_id)) as [fv|] eqn:Hfar.
  2:{ exists []. split; [by left|]. unfold st'. rewrite upf_far_forward_eq, Hadj, Hfar. by apply metered_bump. }
  set (a := {| at_ns := kt_qer kt; pkt_len := skb_len inner |}).
  exists [a]. pose proof (Hlens _ _ _ _ _ Hadj) as Hlen. split; [right; by exists a|].
  pose proof (forward_step build adjust_room redirect lookup far_id qer_id urr_id pdr_id gen outer fv qb
    Hfar Hqer Hmbr Hid Hurr skb kt inner t_entry st Hadj Hlen (ck_room _ Hok)) as Hs.
  pose proof (forward_step_metrics build adjust_room redirect lookup far_id qer_id urr_id pdr_id gen outer fv qb
    Hfar Hqer Hmbr Hid skb kt inner t_entry st Hadj) as Hm.
  fold a in Hs, Hm. fold st' in Hs, Hm. destruct Hok as [_ O1 O2 O3].
  destruct (bucket_step (tc_qer build) qv (bucket_of qer_id st) a) as [ok b'] eqn:Hb.
  destruct Hs as (Hbk & Hub & Hroom). destruct Hm as [Hp Hd]. split.
  - split; cbn [run_bucket verdicts]; rewrite Hb; cbn [fst snd].
    + done.
    + rewrite Hp. destruct ok; [done|by cbn; rewrite Z.add_0_r, u64_small].
    + rewrite Hd. destruct ok; [by cbn; rewrite Z.add_0_r, u64_small|done].
    + rewrite Hub. destruct ok; cbn [pkt_len a]; [by rewrite Z.add_0_r|by rewrite Z.add_0_r, u64_small].
  - split; [done| | |].
    + rewrite Hp. destruct ok; [apply u64_range|done].
    + rewrite Hd. destruct ok; [done|apply u64_range].
    + rewrite Hub. destruct ok; [apply u64_range|done].
Qed.

(** One packet through the whole programme. *)
Lemma tc_step_metered p st :
  cpu_ok st -> exists arr, arrives p arr /\ metered qv arr st (tc_step st p) /\ cpu_ok (tc_step st p).
Proof using Hqer Hmbr Hid Hurr Hbundles Hlens.
  intros Hok. unfold tc_step.
  destruct (upf_tc_ingress build adjust_room redirect lookup p.2 p.1 st) as [[[ret skb'] st']|] eqn:E.
  2:{ exists []. split; [by left|]. split; [by apply metered_nil|done]. }
  assert (Hnone : st' = st -> exists arr, arrives p arr /\ metered qv arr st st' /\ cpu_ok st').
  { intros ->. exists []. split; [by left|]. split; [by apply metered_nil|done]. }
  assert (Hbump : forall m, m <> M_TC_QER_PASS -> m <> M_TC_QER_DROP -> st' = bump m st ->
    exists arr, arrives p arr /\ metered qv arr st st' /\ cpu_ok st').
  { intros m H1 H2 ->. exists []. split; [by left|]. by apply metered_bump. }
  revert E. unfold upf_tc_ingress, upf_tc_ingress_at. walk; try (intros [= <- <- <-]; by apply Hnone).
  intros Htc%(inj Some). fold (tc_session build adjust_room redirect lookup) in Htc. rewrite tc_session_eq in Htc. set (t := bpf_ntohl _) in Htc.
  destruct (lookup "teid_session"%string _) as [sess|]; [|injection Htc as <- <- <-; by apply (Hbump M_TC_MISS_FAR)].
  destruct (lookup "tc_bundle_map"%string _) as [bv|] eqn:Hbv; [|injection Htc as <- <- <-; by apply (Hbump M_TC_MISS_FAR)].
  destruct (Hbundles _ _ Hbv) as [Hq Hu]. rewrite Hq, Hu in Htc.
  destruct (lookup "far_table"%string _) as [fv|]; [|injection Htc as <- <- <-; by apply (Hbump M_TC_MISS_FAR)].
  destruct (far_action _ =? FAR_DROP); [injection Htc as <- <- <-; by apply (Hbump M_TC_FAR_DROP)|].
  destruct (far_action _ =? FAR_BUFFER).
  { injection Htc as <- <- <-. exists []. split; [by left|].
    match goal with |- context [emit ?e st] => destruct (metered_emit st e Hok) as [Hm Ho] end.
    match type of Ho with cpu_ok ?s => destruct (metered_bump s M_TC_FAR_BUFFER ltac:(done) ltac:(done) Ho) as [Hm2 Ho2] end.
    split; [|done]. exact (metered_app [] [] _ _ _ Hm Hm2). }
  fold (upf_far_forward build adjust_room redirect lookup) in Htc.
  match type of Htc with upf_far_forward _ _ _ _ ?kt ?skb ?far _ _ ?pdr ?gen ?outer ?te _ = _ =>
    pose proof (far_forward_metered kt skb far pdr gen outer te st Hok) as Hfw end.
  rewrite Htc in Hfw. by destruct p.
Qed.

End metering.

(** ** Whole runs *)

(** A packet with the maps it meets and the clock readings of its run: between
    two packets the maps may change. *)
Definition tc_packet : Type := lookup_fn * (sk_buff * ktimes).

(** The time at which the bucket sees the packet, if it does. *)
Definition seen_at (p : tc_packet) : Z := kt_qer p.2.2.

(** Every bundle of the maps names this QER, with the value [qb], and this URR. *)
Record meters (qer_id urr_id : Z) (qb : bytes) (lookup : lookup_fn) : Prop := {
  mm_qer : lookup "qer_table"%string (le_split 4 qer_id) = Some qb;
  mm_bundles : forall pk bv, lookup "tc_bundle_map"%string pk = Some bv ->
    slot_qer_id (live_slot (read_tc_bundle bv)) = qer_id /\ slot_urr_id (live_slot (read_tc_bundle bv)) = urr_id;
}.

(** The arrivals are a subsequence of the packets. *)
Inductive arrivals_of : list tc_packet -> list arrival -> Prop :=
| arrivals_nil : arrivals_of [] []
| arrivals_skip p l arr : arrivals_of l arr -> arrivals_of (p :: l) arr
| arrivals_take p l a arr :
    at_ns a = seen_at p -> is_u32 (pkt_len a) -> arrivals_of l arr -> arrivals_of (p :: l) (a :: arr).

Section runs.
Context (build : tc_build).
Context (adjust_room : sk_buff -> Z -> Z -> Z -> option sk_buff).
Context (redirect : Z -> Z -> Z).

(** A CPU working through its queue. *)
Definition tc_run (l : list tc_packet) (st : cpu_state) : cpu_state :=
  foldl (fun st p => tc_step build adjust_room redirect p.1 st p.2) st l.

Context (qer_id urr_id : Z) (qb : bytes).
Hypothesis Hmbr : mbr_ul_bps (read_qer_val qb) <> 0.
Hypothesis Hid : 0 <= qer_id < 4096.
Hypothesis Hurr : urr_id <> 0.
Hypothesis Hlens : forall skb d m f inner, adjust_room skb d m f = Some inner -> is_u32 (skb_len inner).

Lemma tc_run_metered l st :
  Forall (fun p => meters qer_id urr_id qb p.1) l -> cpu_ok urr_id st ->
  exists arr, arrivals_of l arr /\ metered build qer_id urr_id (read_qer_val qb) arr st (tc_run l st) /\ cpu_ok urr_id (tc_run l st).
Proof using Hmbr Hid Hurr Hlens.
  intros Hf. revert st. induction Hf as [|[lookup p] l [Hq Hb] _ IH]; intros st Hok.
  - exists []. split; [constructor|]. split; [by apply metered_nil|done].
  - destruct (tc_step_metered build adjust_room redirect lookup qer_id urr_id qb Hq Hmbr Hid Hurr Hb Hlens p st Hok)
      as (a1 & Ha & Hm1 & Ho1).
    destruct (IH _ Ho1) as (a2 & Hl & Hm2 & Ho2). exists (a1 ++ a2).
    split; [|split; [by eapply metered_app|done]].
    destruct Ha as [->|(a & -> & Hat & Hlen)]; [by apply arrivals_skip|by apply arrivals_take].
Qed.
End runs.

Lemma arrivals_length l arr : arrivals_of l arr -> (length arr <= length l)%nat.
Proof. induction 1; cbn; lia. Qed.

Lemma arrivals_wf l arr :
  arrivals_of l arr -> Forall (fun p => 0 < seen_at p < 2 ^ 64) l -> Forall arrival_wf arr.
Proof.
  induction 1 as [|p l arr _ IH|p l a arr Hat Hlen _ IH]; intros Hf; [constructor|..];
    apply Forall_cons in Hf as [Hp Hf]; [auto|]. constructor; [|auto]. split; [by rewrite Hat|done].
Qed.

(** Clock readings in order, from [t] on and up to [t']. *)
Fixpoint clocked (t t' : Z) (l : list tc_packet) : Prop :=
  match l with [] => t <= t' | p :: l' => t <= seen_at p /\ clocked (seen_at p) t' l' end.

Lemma clocked_weaken t s t' l : s <= t -> clocked t t' l -> clocked s t' l.
Proof. intros H. destruct l as [|p l]; cbn; [lia|]. intros []. split; [lia|done]. Qed.

Lemma arrivals_in_order l arr t t' :
  arrivals_of l arr -> clocked t t' l -> in_order t arr /\ t <= last_at t arr <= t'.
Proof.
  intros H. revert t. induction H as [|p l arr _ IH|p l a arr Hat _ _ IH]; intros t Hc.
  - cbn in *. lia.
  - destruct Hc as [Hle Hc]. apply IH. by eapply clocked_weaken.
  - destruct Hc as [Hle Hc]. cbn [in_order last_at]. rewrite Hat. destruct (IH _ Hc) as [? ?].
    split; [done|]. lia.
Qed.
