(* ===== verification/Egress.v ===== *)
(** * upf_tc_egress.c: downlink GTP-U encapsulation

    The programme as a function of the packet, the maps and the CPU state, in
    the style of Datapath.v; here the packet is written as well as read, and a
    store outside [data .. data_end) has no result either.
    [bpf_skb_adjust_room] is again a parameter.  The theorems follow a TEID from
    [install_dl_ue] (agent.py) through the encapsulation to the GTP-U parser of
    the uplink programmes. *)

From Stdlib Require Import Strings.Ascii.
From S2P Require Import Prelude Prog PyStruct PyText UpfMaps Kernel BpfSyscall Encoders Agent Qer Datapath.

(** A store of the bytes [b] at [off]. *)
Definition wr (p : bytes) (off : nat) (b : bytes) : option bytes :=
  if (off + length b <=? length p)%nat then Some (take off p ++ b ++ drop (off + length b) p) else None.

(** Stores in program order. *)
Fixpoint wr_all (p : bytes) (ws : list (nat * bytes)) : option bytes :=
  match ws with
  | [] => Some p
  | (off, b) :: ws' => p ← wr p off b; wr_all p ws'
  end.

(** The sum of the [n] 16-bit words at [off]. *)
Fixpoint sum_words (n off : nat) (hdr : bytes) : Z :=
  match n with
  | O => 0
  | S n' => load off 2 hdr + sum_words n' (off + 2) hdr
  end.

Definition fold_carry (sum : Z) : Z := u32 (Z.land sum 0xffff + Z.shiftr sum 16).

Definition ip_checksum20 (hdr : bytes) : Z :=
  let sum := u32 (sum_words 10 0 hdr) in
  let sum := fold_carry sum in
  let sum := fold_carry sum in
  u16 (Z.lnot sum).

Definition n3_addr (cfg : option bytes) : bytes :=
  match cfg with Some c => slice 0 4 c | None => le_split 4 0 end.

Section egress.
Context (adjust_room : sk_buff -> Z -> Z -> Z -> option sk_buff).

(** The part of the programme after [bpf_skb_adjust_room]: the outer headers.
    The bit fields [version = 4] and [ihl = 5] make up one byte. *)
Definition encap (ue : dl_ue_val) (n3_addr_be : bytes) (skb : sk_buff) (st : cpu_state) :
    option (Z * sk_buff * cpu_state) :=
  let p := skb_data skb in
  let data_end := length p in
  let err := Some (TC_ACT_SHOT, skb, bump M_TC_DL_ENCAP_ERR st) in
  let outer_ip := sizeof_ethhdr in
  let outer_udp := (outer_ip + sizeof_iphdr)%nat in
  let gtp := (outer_udp + sizeof_udphdr)%nat in
  if (data_end <? sizeof_ethhdr)%nat then err else
  if (data_end <? outer_ip + sizeof_iphdr)%nat then err else
  if (data_end <? outer_udp + sizeof_udphdr)%nat then err else
  if (data_end <? gtp + 8)%nat then err else
  let total_len := u32 (skb_len skb - Z.of_nat sizeof_ethhdr) in
  let udp_len := u32 (total_len - Z.of_nat sizeof_iphdr) in
  let gtp_paylen := u32 (udp_len - Z.of_nat sizeof_udphdr - 8) in
  p ← wr_all p [
    (outer_ip, [z2b 0x45]); ((outer_ip + 1)%nat, [z2b 0]);
    ((outer_ip + 2)%nat, le_split 2 (bpf_htons (u16 total_len)));
    ((outer_ip + 4)%nat, le_split 2 0); ((outer_ip + 6)%nat, le_split 2 0);
    ((outer_ip + 8)%nat, [z2b 64]); ((outer_ip + 9)%nat, [z2b IPPROTO_UDP]);
    ((outer_ip + 10)%nat, le_split 2 0);
    ((outer_ip + 12)%nat, n3_addr_be); ((outer_ip + 16)%nat, ue_gnb_ipv4_be ue)];
  p ← wr_all p [
    ((outer_ip + 10)%nat, le_split 2 (ip_checksum20 (slice outer_ip 20 p)));
    (outer_udp, le_split 2 (bpf_htons GTPU_PORT)); ((outer_udp + 2)%nat, le_split 2 (bpf_htons GTPU_PORT));
    ((outer_udp + 4)%nat, le_split 2 (bpf_htons (u16 udp_len))); ((outer_udp + 6)%nat, le_split 2 0);
    (gtp, [z2b 0x30]); ((gtp + 1)%nat, [z2b 0xff]);
    ((gtp + 2)%nat, le_split 2 (bpf_htons (u16 gtp_paylen))); ((gtp + 4)%nat, ue_teid_be ue)];
  Some (TC_ACT_OK, {| skb_data := p; skb_len := skb_len skb |}, st).

(** [udp->dest] of a packet that is UDP and holds its UDP header. *)
Definition already_gtpu (p : bytes) : option bool :=
  let ip := sizeof_ethhdr in
  protocol ← rd p (ip + 9) 1;
  if negb (protocol =? IPPROTO_UDP) then Some false else
  vihl ← rd p ip 1;
  let l4 := (ip + Z.to_nat (Z.land vihl 15 * 4))%nat in
  if (length p <? l4 + sizeof_udphdr)%nat then Some false else
  dest ← rd p (l4 + 2) 2;
  Some (dest =? bpf_htons GTPU_PORT).

(** Reads 1 and 2: the N3 address. *)
Definition read_n3 (m : reads) : bytes :=
  n3_addr (deref m 2 "upf_config_map"%string (le_split 4 0) <$> r_at m 1 "upf_config_map"%string (le_split 4 0)).

(** Reads 3 and 4: what the outer headers need of the UE. *)
Definition read_ue (m : reads) (key uv : bytes) : dl_ue_val :=
  let ue i := read_dl_ue_val (deref m i "dl_ue_map"%string key uv) in
  {| ue_teid_be := ue_teid_be (ue 4%nat); ue_gnb_ipv4_be := ue_gnb_ipv4_be (ue 3%nat); ue_qfi := ue_qfi (ue 4%nat) |}.

Lemma read_ue_still lookup key uv : read_ue (still lookup) key uv = read_dl_ue_val uv.
Proof. reflexivity. Qed.

Definition upf_tc_egress_at (m : reads) (skb : sk_buff) (st : cpu_state) :
    option (Z * sk_buff * cpu_state) :=
  let p := skb_data skb in
  let data_end := length p in
  let ok := Some (TC_ACT_OK, skb, st) in
  if (data_end <? sizeof_ethhdr)%nat then ok else
  h_proto ← rd p 12 2;
  if negb (h_proto =? bpf_htons ETH_P_IP) then ok else
  let ip := sizeof_ethhdr in
  if (data_end <? ip + sizeof_iphdr)%nat then ok else
  gtpu ← already_gtpu p;
  if (gtpu : bool) then ok else
  dst_ip ← rd p (ip + 16) 4;
  match r_at m 0 "dl_ue_map"%string (le_split 4 dst_ip) with
  | None => Some (TC_ACT_OK, skb, bump M_TC_DL_MISS st)
  | Some uv =>
      let st := bump M_TC_DL_HIT st in
      let n3_addr_be := read_n3 m in
      let add_len := Z.of_nat (sizeof_iphdr + sizeof_udphdr + 8) in
      match adjust_room skb add_len BPF_ADJ_ROOM_MAC BPF_F_ADJ_ROOM_FIXED_GSO with
      | None => Some (TC_ACT_SHOT, skb, bump M_TC_DL_ENCAP_ERR st)
      | Some skb => encap (read_ue m (le_split 4 dst_ip) uv) n3_addr_be skb st
      end
  end.

Definition upf_tc_egress (lookup : lookup_fn) := upf_tc_egress_at (still lookup).

End egress.

(** ** Memory safety *)

Lemma wr_some p off b :
  (off + length b <= length p)%nat -> exists p', wr p off b = Some p' /\ length p' = length p.
Proof.
  intros H. unfold wr. rewrite (proj2 (Nat.leb_le _ _)) by done. eexists. split; [reflexivity|].
  rewrite !length_app, length_take, length_drop. lia.
Qed.

Lemma wr_all_some ws p :
  Forall (fun w => w.1 + length w.2 <= length p)%nat ws ->
  exists p', wr_all p ws = Some p' /\ length p' = length p.
Proof.
  revert p. induction ws as [|[off b] ws IH]; intros p H; cbn [wr_all]; [by exists p|].
  apply Forall_cons in H as [Hw H]. destruct (wr_some p off b Hw) as (p1 & -> & Hl). cbn [mbind option_bind].
  destruct (IH p1) as (p2 & -> & Hl2); [|exists p2; split; [done|lia]].
  eapply Forall_impl; [exact H|]. intros w. by rewrite Hl.
Qed.

Lemma length_slice_le off n (b : bytes) : (length (slice off n b) <= n)%nat.
Proof. unfold slice. rewrite length_take. lia. Qed.

Lemma encap_in_bounds ue n3 skb st :
  (length n3 <= 4)%nat -> (length (ue_gnb_ipv4_be ue) <= 4)%nat -> (length (ue_teid_be ue) <= 4)%nat ->
  is_Some (encap ue n3 skb st).
Proof.
  intros Hn Hg Ht. unfold encap. sizes.
  repeat match goal with |- context [if (?a <? ?b)%nat then _ else _] =>
    destruct (Nat.ltb_spec a b); [by eexists|] end.
  edestruct wr_all_some as (p1 & -> & Hl1).
  { repeat (apply Forall_cons; split); try apply Forall_nil_2; cbn; rewrite ?length_le_split; lia. }
  cbn [mbind option_bind].
  edestruct wr_all_some as (p2 & -> & Hl2); [|by eexists].
  repeat (apply Forall_cons; split); try apply Forall_nil_2; cbn; rewrite ?length_le_split, Hl1; lia.
Qed.

Lemma already_gtpu_in_bounds p : (34 <= length p)%nat -> is_Some (already_gtpu p).
Proof.
  intros Hl. unfold already_gtpu. sizes. rewrite !rd_some by lia. cbn [mbind option_bind].
  destruct (negb (load (14 + 9) 1 p =? IPPROTO_UDP)); [by eexists|].
  destruct (Nat.ltb_spec (length p) (14 + Z.to_nat (Z.land (load 14 1 p) 15 * 4) + 8)); [by eexists|].
  rewrite rd_some by lia. by eexists.
Qed.

(** C36: memory safety of the downlink programme.  Whatever the packet, the
    maps, those of each read, and the effect of [bpf_skb_adjust_room],
    [upf_tc_egress] neither reads nor writes outside the packet, and returns a
    verdict. *)
Theorem egress_memory_safe adj m skb st : is_Some (upf_tc_egress_at adj m skb st).
Proof.
  unfold upf_tc_egress_at. sizes.
  destruct (Nat.ltb_spec (length (skb_data skb)) 14); [by eexists|].
  rewrite (rd_some _ 12) by lia. cbn [mbind option_bind]. destruct (negb (load 12 2 _ =? _)); [by eexists|].
  destruct (Nat.ltb_spec (length (skb_data skb)) (14 + 20)); [by eexists|].
  destruct (already_gtpu_in_bounds (skb_data skb)) as [[] ->]; [lia| |]; cbn [mbind option_bind]; [by eexists|].
  rewrite rd_some by lia. cbn [mbind option_bind].
  destruct (r_at m 0 "dl_ue_map"%string _) as [uv|]; [|by eexists].
  destruct (adj _ _ _ _) as [skb'|]; [|by eexists].
  apply encap_in_bounds; [|apply length_slice_le..]. unfold read_n3, n3_addr.
  by destruct (r_at m 1 "upf_config_map"%string _); cbn [fmap option_fmap option_map]; [apply length_slice_le|rewrite length_le_split].
Qed.

(** ** The checksum *)

(** [sum] after a fold: the same residue modulo [0xffff], no larger than the
    carries allow. *)
Lemma fold_carry_spec sum :
  0 <= sum < 2 ^ 32 ->
  fold_carry sum = sum mod 65536 + sum / 65536.
Proof.
  change (2 ^ 32) with 4294967296. intros H. unfold fold_carry. change 65535 with (Z.ones 16). rewrite Z.land_ones, Z.shiftr_div_pow2 by lia.
  change (2 ^ 16) with 65536. apply u32_small.
  pose proof (Z.mod_pos_bound sum 65536 ltac:(lia)).
  assert (0 <= sum / 65536 < 65536) by (split; [apply Z.div_pos; lia|apply Z.div_lt_upper_bound; lia]).
  split; [lia|]. apply (Z.lt_le_trans _ 131072); [lia|done].
Qed.

Lemma fold_twice sum :
  0 < sum <= 655350 ->
  let f := fold_carry (fold_carry sum) in 0 < f <= 65535 /\ exists q, sum = 65535 * q + f.
Proof.
  intros H f. unfold f. rewrite (fold_carry_spec sum) by (split; [lia|apply (Z.le_lt_trans _ 655350); [lia|done]]).
  pose proof (Z.div_mod sum 65536 ltac:(lia)) as E. pose proof (Z.mod_pos_bound sum 65536 ltac:(lia)) as Hr.
  assert (Hq : 0 <= sum / 65536 < 10) by (split; [apply Z.div_pos; lia|apply Z.div_lt_upper_bound; lia]).
  set (q := sum / 65536) in *. set (r := sum mod 65536) in *. clearbody q r.
  rewrite fold_carry_spec by lia.
  pose proof (Z.div_mod (r + q) 65536 ltac:(lia)) as E1. pose proof (Z.mod_pos_bound (r + q) 65536 ltac:(lia)) as Hr1.
  assert (Hq1 : 0 <= (r + q) / 65536 < 2) by (split; [apply Z.div_pos; lia|apply Z.div_lt_upper_bound; lia]).
  set (q1 := (r + q) / 65536) in *. set (r1 := (r + q) mod 65536) in *. clearbody q1 r1.
  split; [lia|]. exists (q + q1). lia.
Qed.

Lemma u16_lnot f : 0 <= f <= 65535 -> u16 (Z.lnot f) = 65535 - f.
Proof.
  intros H. unfold u16, Z.lnot, Z.pred. change (2 ^ 16) with 65536.
  symmetry. apply (Z.mod_unique _ _ (-1)); lia.
Qed.

(** The checksum of a header that carries its own checksum is zero. *)
Lemma checksum_closes rest :
  0 < rest <= 589815 ->
  let c := u16 (Z.lnot (fold_carry (fold_carry (u32 rest)))) in
  0 <= c < 65536 /\ u16 (Z.lnot (fold_carry (fold_carry (u32 (rest + c))))) = 0.
Proof.
  intros H c. unfold c. rewrite (u32_small rest) by lia. destruct (fold_twice rest) as (Hf & q & Hq); [lia|].
  set (f := fold_carry (fold_carry rest)) in *. clearbody f. rewrite u16_lnot by lia. split; [lia|].
  rewrite u32_small by lia. destruct (fold_twice (rest + (65535 - f))) as (Hg & q' & Hq'); [lia|].
  set (g := fold_carry (fold_carry (rest + (65535 - f)))) in *. clearbody g. rewrite u16_lnot by lia. lia.
Qed.

Lemma le_combine_2_range a b : 0 <= le_combine [a; b] <= 65535.
Proof. pose proof (le_combine_range [a; b]) as H. cbn [length] in H. change (2 ^ (Z.of_nat 2 * 8)) with 65536 in H. lia. Qed.

Lemma word_45_pos y : 0 < le_combine [Byte.x45; y].
Proof. destruct y; reflexivity. Qed.

(** Installing the checksum of an IPv4 header whose checksum field is zero. *)
Lemma ip_checksum20_verifies (h b : bytes) :
  length h = 9%nat -> length b = 8%nat ->
  let hdr c := Byte.x45 :: h ++ le_split 2 c ++ b in
  0 <= ip_checksum20 (hdr 0) < 65536 /\ ip_checksum20 (hdr (ip_checksum20 (hdr 0))) = 0.
Proof.
  intros Hh Hb hdr.
  assert (Hsum : exists rest, 0 < rest <= 589815 /\
    forall c, 0 <= c < 65536 -> sum_words 10 0 (hdr c) = rest + c).
  { do 9 (destruct h as [|? h]; [discriminate|]). destruct h; [|discriminate].
    do 8 (destruct b as [|? b]; [discriminate|]). destruct b; [|discriminate].
    eexists (sum_words 10 0 (hdr 0)). split.
    - unfold hdr. change (le_split 2 0) with [z2b 0; z2b (Z.shiftr 0 8)].
      cbn [sum_words app Nat.add]. unfold load, slice. cbn [drop take app].
      match goal with |- context [le_combine [Byte.x45; ?y]] => pose proof (word_45_pos y) end.
      change (le_combine [z2b 0; z2b (Z.shiftr 0 8)]) with 0.
      repeat match goal with |- context [le_combine [?x; ?y]] =>
        pose proof (le_combine_2_range x y); generalize dependent (le_combine [x; y]); intros end.
      lia.
    - intros c Hc. unfold hdr. change (le_split 2 0) with [z2b 0; z2b (Z.shiftr 0 8)].
      change (le_split 2 c) with [z2b c; z2b (Z.shiftr c 8)].
      cbn [sum_words app Nat.add]. unfold load, slice. cbn [drop take app].
      change (le_combine [z2b c; z2b (Z.shiftr c 8)]) with (le_combine (le_split 2 c)).
      change (le_combine [z2b 0; z2b (Z.shiftr 0 8)]) with 0. rewrite le_combine_split_small by done.
      repeat match goal with |- context [le_combine [?x; ?y]] => generalize (le_combine [x; y]); intros end.
      lia. }
  destruct Hsum as (rest & Hrest & Hsum). pose proof (checksum_closes rest Hrest) as [Hc H0].
  unfold ip_checksum20. rewrite (Hsum 0), Z.add_0_r by lia. split; [done|]. rewrite Hsum by done. exact H0.
Qed.

(** ** The encapsulated packet *)

Lemma le_split_htons z : le_split 2 (bpf_htons z) = be_split 2 z.
Proof. unfold bpf_htons. apply split_le_combine', length_be_split. Qed.

(** The first nine bytes of the outer IPv4 header after [0x45]. *)
Definition outer_head (total_len : Z) : bytes :=
  [Byte.x00] ++ be_split 2 (u16 total_len) ++ [Byte.x00; Byte.x00; Byte.x00; Byte.x00; Byte.x40].

Definition outer_csum (total_len : Z) (addrs : bytes) : Z :=
  ip_checksum20 (Byte.x45 :: (outer_head total_len ++ [Byte.x11]) ++ le_split 2 0 ++ addrs).

(** The G-PDU of an inner packet [rest], in a frame of [len] bytes. *)
Definition outer_gpdu (mac n3 gnb rest : bytes) (teid len : Z) : gpdu :=
  let total_len := u32 (len - 14) in
  let udp_len := u32 (total_len - 20) in
  let gtp_paylen := u32 (udp_len - 8 - 8) in
  {| g_mac := mac; g_vihl := Byte.x45; g_ip_head := outer_head total_len;
     g_ip_tail := le_split 2 (outer_csum total_len (n3 ++ gnb)) ++ n3 ++ gnb;
     g_sport := [Byte.x08; Byte.x68]; g_udp_tail := be_split 2 (u16 udp_len) ++ [Byte.x00; Byte.x00];
     g_flags := Byte.x30; g_len := be_split 2 (u16 gtp_paylen); g_teid := teid; g_payload := rest |}.

Lemma outer_gpdu_wf mac n3 gnb rest teid len :
  length mac = 12%nat -> length n3 = 4%nat -> length gnb = 4%nat -> is_u32 teid ->
  gpdu_wf (outer_gpdu mac n3 gnb rest teid len).
Proof.
  intros Hm Hn Hg Ht. split; unfold g_ihl; cbn [outer_gpdu g_mac g_vihl g_ip_head g_ip_tail g_sport g_udp_tail g_len g_teid];
    unfold outer_head; rewrite ?length_app, ?length_le_split, ?length_be_split, ?Hn, ?Hg; done.
Qed.

(** Explicit bytes of a list of known length. *)
Ltac explode l := repeat (destruct l as [|? l]; try discriminate).

(** The stores that build the IPv4 header, and those after the checksum. *)
Lemma ip_writes (m gap rest tot n3 gnb : bytes) :
  length m = 14%nat -> length gap = 36%nat -> length tot = 2%nat -> length n3 = 4%nat -> length gnb = 4%nat ->
  wr_all (m ++ gap ++ rest)
    [(14, [Byte.x45]); (15, [Byte.x00]); (16, tot); (18, [Byte.x00; Byte.x00]); (20, [Byte.x00; Byte.x00]);
     (22, [Byte.x40]); (23, [Byte.x11]); (24, [Byte.x00; Byte.x00]); (26, n3); (30, gnb)]%nat =
  Some (m ++ ((Byte.x45 :: Byte.x00 :: tot ++ [Byte.x00; Byte.x00; Byte.x00; Byte.x00; Byte.x40; Byte.x11]) ++
              [Byte.x00; Byte.x00] ++ n3 ++ gnb) ++ drop 20 gap ++ rest).
Proof.
  intros Hm Hg Ht Hn Hb. explode m. explode gap. explode tot. explode n3. explode gnb. vm_compute. reflexivity.
Qed.

Lemma udp_writes (m h cs0 addrs cs gap rest udp len teid : bytes) :
  length m = 14%nat -> length h = 10%nat -> length cs0 = 2%nat -> length addrs = 8%nat -> length cs = 2%nat ->
  length gap = 16%nat -> length udp = 2%nat -> length len = 2%nat -> length teid = 4%nat ->
  wr_all (m ++ (h ++ cs0 ++ addrs) ++ gap ++ rest)
    [(24, cs); (34, [Byte.x08; Byte.x68]); (36, [Byte.x08; Byte.x68]); (38, udp); (40, [Byte.x00; Byte.x00]);
     (42, [Byte.x30]); (43, [Byte.xff]); (44, len); (46, teid)]%nat =
  Some (m ++ (h ++ cs ++ addrs) ++ [Byte.x08; Byte.x68; Byte.x08; Byte.x68] ++ udp ++ [Byte.x00; Byte.x00] ++
        [Byte.x30; Byte.xff] ++ len ++ teid ++ rest).
Proof.
  intros Hm Hh H0 Ha Hc Hg Hu Hl Ht. explode m. explode h. explode cs0. explode addrs. explode cs. explode gap.
  explode udp. explode len. explode teid. vm_compute. reflexivity.
Qed.

Lemma encap_writes ue n3 mac gap rest teid len st :
  length mac = 12%nat -> length gap = 36%nat -> length n3 = 4%nat ->
  length (ue_gnb_ipv4_be ue) = 4%nat -> ue_teid_be ue = be_split 4 teid ->
  encap ue n3 {| skb_data := (mac ++ [Byte.x08; Byte.x00]) ++ gap ++ rest; skb_len := len |} st =
    Some (TC_ACT_OK,
      {| skb_data := gpdu_bytes (outer_gpdu mac n3 (ue_gnb_ipv4_be ue) rest teid len); skb_len := len |}, st).
Proof.
  intros Hm Hgap Hn Hg Ht. unfold encap. cbn [skb_data skb_len].
  assert (Hm' : length (mac ++ [Byte.x08; Byte.x00]) = 14%nat) by (rewrite length_app, Hm; done).
  assert (Hlen : length ((mac ++ [Byte.x08; Byte.x00]) ++ gap ++ rest) = (50 + length rest)%nat)
    by (rewrite (length_app (mac ++ _)), Hm', length_app, Hgap; cbn; lia).
  sizes. rewrite Hlen. repeat rewrite (proj2 (Nat.ltb_ge _ _)) by lia. clear Hlen.
  rewrite !le_split_htons, Ht. change (Z.of_nat 14) with 14. change (Z.of_nat 20) with 20. change (Z.of_nat 8) with 8.
  rewrite (ip_writes _ gap rest (be_split 2 (u16 (u32 (len - 14)))) n3 (ue_gnb_ipv4_be ue))
    by (done || apply length_be_split).
  cbn [mbind option_bind]. set (h := Byte.x45 :: _). set (m := mac ++ _) in *.
  assert (Hh : length h = 10%nat) by (unfold h; cbn [length]; rewrite length_app, length_be_split; done).
  assert (Hsl : slice 14 20 (m ++ (h ++ [Byte.x00; Byte.x00] ++ n3 ++ ue_gnb_ipv4_be ue) ++ drop 20 gap ++ rest) =
    h ++ [Byte.x00; Byte.x00] ++ n3 ++ ue_gnb_ipv4_be ue).
  { rewrite slice_app_r, slice_app_l by (rewrite ?length_app, Hm', ?Hh, ?Hn, ?Hg; cbn; lia). rewrite Hm', Nat.sub_diag.
    unfold slice. rewrite drop_0. apply firstn_all2. rewrite !length_app, Hh, Hn, Hg. cbn. lia. }
  rewrite Hsl. set (cs := ip_checksum20 _). change (be_split 2 GTPU_PORT) with [Byte.x08; Byte.x68].
  pose proof (udp_writes m h [Byte.x00; Byte.x00] (n3 ++ ue_gnb_ipv4_be ue) (le_split 2 cs) (drop 20 gap) rest
    (be_split 2 (u16 (u32 (u32 (len - 14) - 20)))) (be_split 2 (u16 (u32 (u32 (u32 (len - 14) - 20) - 8 - 8))))
    (be_split 4 teid) Hm' Hh eq_refl ltac:(rewrite length_app, Hn, Hg; done) (length_le_split _ _)
    ltac:(rewrite length_drop, Hgap; done) (length_be_split _ _) (length_be_split _ _) (length_be_split _ _)) as Hw.
  change (wr_all _ _) with (wr_all (m ++ (h ++ [Byte.x00; Byte.x00] ++ n3 ++ ue_gnb_ipv4_be ue) ++ drop 20 gap ++ rest)
    [(24, le_split 2 cs); (34, [Byte.x08; Byte.x68]); (36, [Byte.x08; Byte.x68]);
     (38, be_split 2 (u16 (u32 (u32 (len - 14) - 20)))); (40, [Byte.x00; Byte.x00]);
     (42, [Byte.x30]); (43, [Byte.xff]);
     (44, be_split 2 (u16 (u32 (u32 (u32 (len - 14) - 20) - 8 - 8)))); (46, be_split 4 teid)]%nat).
  rewrite Hw. clear Hw.
  cbn [mbind option_bind]. do 4 f_equal. unfold gpdu_bytes, gpdu_fields, outer_gpdu.
  cbn [g_mac g_vihl g_ip_head g_ip_tail g_sport g_udp_tail g_flags g_len g_teid g_payload mjoin list_join].
  unfold outer_csum, outer_head. rewrite app_nil_r.
  assert (Hcs : ip_checksum20 (Byte.x45 :: (([Byte.x00] ++ be_split 2 (u16 (u32 (len - 14))) ++
    [Byte.x00; Byte.x00; Byte.x00; Byte.x00; Byte.x40]) ++ [Byte.x11]) ++ le_split 2 0 ++ n3 ++ ue_gnb_ipv4_be ue) = cs).
  { reflexivity. }
  rewrite Hcs. clearbody cs. unfold h, m. cbn [app]. rewrite <-!app_assoc. cbn [app]. reflexivity.
Qed.

(** An uplink parser sees the header checksum and the lengths of the outer
    packet as they should be. *)
Lemma outer_gpdu_fields mac n3 gnb rest teid len :
  length mac = 12%nat -> length n3 = 4%nat -> length gnb = 4%nat -> 50 <= len < 65550 ->
  let p := gpdu_bytes (outer_gpdu mac n3 gnb rest teid len) in
  ip_checksum20 (slice 14 20 p) = 0 /\
  be_combine (slice 16 2 p) = len - 14 /\ be_combine (slice 38 2 p) = len - 34 /\
  be_combine (slice 44 2 p) = len - 50.
Proof.
  intros Hm Hn Hg Hlen p.
  assert (E1 : u32 (len - 14) = len - 14) by (apply u32_small; lia).
  assert (E2 : u32 (len - 14 - 20) = len - 34) by (rewrite u32_small; lia).
  assert (E3 : u32 (len - 34 - 8 - 8) = len - 50) by (rewrite u32_small; lia).
  unfold p, gpdu_bytes, outer_gpdu, gpdu_fields.
  cbn [g_mac g_vihl g_ip_head g_ip_tail g_sport g_udp_tail g_flags g_len g_teid g_payload].
  rewrite E1, E2, E3. clear E1 E2 E3 p. unfold outer_csum, outer_head.
  pose proof (ip_checksum20_verifies ([Byte.x00] ++ be_split 2 (u16 (len - 14)) ++ [Byte.x00; Byte.x00; Byte.x00; Byte.x00; Byte.x40] ++ [Byte.x11])
    (n3 ++ gnb)) as Hcs. rewrite !length_app, length_be_split, Hn, Hg in Hcs. destruct (Hcs eq_refl eq_refl) as [_ H0]. clear Hcs.
  assert (C1 : be_combine (be_split 2 (u16 (len - 14))) = len - 14).
  { rewrite be_combine_split. unfold u16. change (2 ^ (Z.of_nat 2 * 8)) with 65536. change (2 ^ 16) with 65536.
    rewrite Z.mod_mod by done. apply Z.mod_small. lia. }
  assert (C2 : be_combine (be_split 2 (u16 (len - 34))) = len - 34).
  { rewrite be_combine_split. unfold u16. change (2 ^ (Z.of_nat 2 * 8)) with 65536. change (2 ^ 16) with 65536.
    rewrite Z.mod_mod by done. apply Z.mod_small. lia. }
  assert (C3 : be_combine (be_split 2 (u16 (len - 50))) = len - 50).
  { rewrite be_combine_split. unfold u16. change (2 ^ (Z.of_nat 2 * 8)) with 65536. change (2 ^ 16) with 65536.
    rewrite Z.mod_mod by done. apply Z.mod_small. lia. }
  pose proof (length_be_split 2 (u16 (len - 14))) as L1. pose proof (length_be_split 2 (u16 (len - 34))) as L2.
  pose proof (length_be_split 2 (u16 (len - 50))) as L3.
  generalize dependent (be_split 2 (u16 (len - 14))). intros b1 H0 C1 L1.
  generalize dependent (be_split 2 (u16 (len - 34))). intros b2 C2 L2.
  generalize dependent (be_split 2 (u16 (len - 50))). intros b3 C3 L3.
  generalize dependent (be_split 4 teid). intros b4.
  explode mac. explode n3. explode gnb. explode b1. explode b2. explode b3.
  split_and!; [|exact C1|exact C2|exact C3]. exact H0.
Qed.

(** What [install_dl_ue] packs is what the programme reads. *)
Lemma read_dl_ue_packed teid gb qfi tl :
  length gb = 4%nat -> pack "<HH" [qfi; 0] = Ok tl ->
  read_dl_ue_val (be_split 4 teid ++ gb ++ tl) = {| ue_teid_be := be_split 4 teid; ue_gnb_ipv4_be := gb; ue_qfi := qfi |}.
Proof.
  intros Lg Hp.
  assert (Ht : is_u16 qfi /\ tl = le_split 2 qfi ++ le_split 2 0).
  { clear -Hp. unfold pack in Hp. cbn [parse_fmt] in Hp. pack_inv Hp. split; [lia|]. exact Hbytes. }
  destruct Ht as [Hq ->]. unfold read_dl_ue_val. f_equal.
  - rewrite slice_app_r, length_be_split, slice_app_l by (rewrite ?length_be_split; lia).
    pose proof (slice_all gb) as Hs. by rewrite Lg in Hs.
  - change (field L_dl_ue_val 2) with (load 8 2).
    rewrite app_assoc, load_app_r by (rewrite length_app, length_be_split, Lg; lia).
    rewrite length_app, length_be_split, Lg, load_app_l by (rewrite length_le_split; lia). by apply load_le_split.
Qed.

(** ** Plain packets *)

(** A plain IPv4 packet: what it goes to, and its frame. *)
Record dl_packet := { dp_mac : bytes; dp_inner : bytes; dp_len : Z }.

Definition dl_bytes (d : dl_packet) : bytes := (dp_mac d ++ [Byte.x08; Byte.x00]) ++ dp_inner d.
Definition dl_skb (d : dl_packet) : sk_buff := {| skb_data := dl_bytes d; skb_len := dp_len d |}.
Definition dl_dst (d : dl_packet) : bytes := slice 16 4 (dp_inner d).

Record dl_wf (d : dl_packet) : Prop := {
  dw_mac : length (dp_mac d) = 12%nat;
  dw_inner : (20 <= length (dp_inner d))%nat;
  dw_plain : already_gtpu (dl_bytes d) = Some false;
  dw_len : 14 <= dp_len d < 65514;
}.

(** [bpf_skb_adjust_room] opens 36 bytes after the Ethernet header. *)
Definition opens_room (adjust_room : sk_buff -> Z -> Z -> Z -> option sk_buff) (d : dl_packet) : Prop :=
  exists gap, length gap = 36%nat /\
    adjust_room (dl_skb d) 36 BPF_ADJ_ROOM_MAC BPF_F_ADJ_ROOM_FIXED_GSO =
      Some {| skb_data := (dp_mac d ++ [Byte.x08; Byte.x00]) ++ gap ++ dp_inner d; skb_len := dp_len d + 36 |}.

(** Up to the lookup of the UE. *)
Lemma egress_lookup adj m d st :
  dl_wf d -> length (dl_dst d) = 4%nat /\
  upf_tc_egress_at adj m (dl_skb d) st =
    match r_at m 0 "dl_ue_map"%string (dl_dst d) with
    | None => Some (TC_ACT_OK, dl_skb d, bump M_TC_DL_MISS st)
    | Some uv =>
        match adj (dl_skb d) 36 BPF_ADJ_ROOM_MAC BPF_F_ADJ_ROOM_FIXED_GSO with
        | None => Some (TC_ACT_SHOT, dl_skb d, bump M_TC_DL_ENCAP_ERR (bump M_TC_DL_HIT st))
        | Some skb => encap (read_ue m (dl_dst d) uv) (read_n3 m) skb (bump M_TC_DL_HIT st)
        end
    end.
Proof.
  intros [Hm Hin Hgt Hlen].
  assert (Ld : length (dl_dst d) = 4%nat) by (unfold dl_dst; rewrite length_slice; lia). split; [done|].
  set (p := dl_bytes d) in *.
  assert (Hp : length p = (14 + length (dp_inner d))%nat) by (unfold p, dl_bytes; rewrite !length_app, Hm; cbn; lia).
  assert (Hproto : rd p 12 2 = Some (bpf_htons ETH_P_IP)).
  { unfold p, dl_bytes. rewrite <-app_assoc, <-Hm, <-(Nat.add_0_r (length _)), rd_app_r, rd_some by (cbn; lia). reflexivity. }
  assert (Hd4 : rd p (14 + 16) 4 = Some (le_combine (dl_dst d))).
  { assert (Hm' : length (dp_mac d ++ [Byte.x08; Byte.x00]) = 14%nat) by (rewrite length_app, Hm; done).
    unfold p, dl_bytes. replace (14 + 16)%nat with (length (dp_mac d ++ [Byte.x08; Byte.x00]) + 16)%nat by lia.
    rewrite rd_app_r, rd_some by lia. done. }
  unfold upf_tc_egress_at, dl_skb. cbn [skb_data]. fold p. sizes. rewrite Hp. do 2 rewrite (proj2 (Nat.ltb_ge _ _)) by lia.
  rewrite Hproto. cbn [mbind option_bind]. rewrite Z.eqb_refl. cbn [negb]. rewrite Hgt. cbn [mbind option_bind].
  rewrite Hd4. cbn [mbind option_bind]. rewrite (split_le_combine' (dl_dst d) 4 Ld).
  change (Z.of_nat (20 + 8 + 8)) with 36. destruct (r_at m _ _ _); [|done]. by destruct (adj _ _ _ _).
Qed.

(** The G-PDU of a packet for a UE: the outer header says from where to where
    and how long, and carries the packet with the TEID. *)
Record carries (n3 gnb : bytes) (teid : Z) (d : dl_packet) (g : gpdu) : Prop := {
  ca_wf : gpdu_wf g;
  ca_teid : g_teid g = teid;
  ca_payload : g_payload g = dp_inner d;
  ca_checksum : ip_checksum20 (slice 14 20 (gpdu_bytes g)) = 0;
  ca_tot_len : be_combine (slice 16 2 (gpdu_bytes g)) = dp_len d + 22;
  ca_udp_len : be_combine (slice 38 2 (gpdu_bytes g)) = dp_len d + 2;
  ca_gtp_len : be_combine (slice 44 2 (gpdu_bytes g)) = dp_len d - 14;
  ca_source : slice 26 4 (gpdu_bytes g) = n3;
  ca_dest : slice 30 4 (gpdu_bytes g) = gnb;
}.

Lemma outer_gpdu_addrs mac n3 gnb rest teid len :
  length mac = 12%nat -> length n3 = 4%nat -> length gnb = 4%nat ->
  slice 26 4 (gpdu_bytes (outer_gpdu mac n3 gnb rest teid len)) = n3 /\
  slice 30 4 (gpdu_bytes (outer_gpdu mac n3 gnb rest teid len)) = gnb.
Proof.
  intros Hm Ln Lg. unfold gpdu_bytes, outer_gpdu, gpdu_fields, outer_head.
  cbn [g_mac g_vihl g_ip_head g_ip_tail g_sport g_udp_tail g_flags g_len g_teid g_payload].
  generalize (outer_csum (u32 (len - 14)) (n3 ++ gnb)). intros cs. pose proof (length_le_split 2 cs) as Lc.
  pose proof (length_be_split 2 (u16 (u32 (len - 14)))) as Lt.
  generalize dependent (le_split 2 cs). generalize dependent (be_split 2 (u16 (u32 (len - 14)))). intros b1 L1 b2 L2.
  explode mac. explode n3. explode gnb. explode b1. explode b2. by split.
Qed.

Lemma egress_carries adj m d st uv teid :
  dl_wf d -> opens_room adj d -> r_at m 0 "dl_ue_map"%string (dl_dst d) = Some uv ->
  let ue := read_ue m (dl_dst d) uv in
  ue_teid_be ue = be_split 4 teid -> is_u32 teid -> length (ue_gnb_ipv4_be ue) = 4%nat -> length (read_n3 m) = 4%nat ->
  exists g, upf_tc_egress_at adj m (dl_skb d) st =
      Some (TC_ACT_OK, {| skb_data := gpdu_bytes g; skb_len := dp_len d + 36 |}, bump M_TC_DL_HIT st) /\
    carries (read_n3 m) (ue_gnb_ipv4_be ue) teid d g.
Proof.
  intros Hd (gap & Hgap & Hadj) Hl ue Hteid Ht Lg. set (n3 := read_n3 m). intros Ln.
  destruct (egress_lookup adj m d st Hd) as [_ ->]. rewrite Hl, Hadj. fold ue n3. clearbody ue n3. destruct Hd as [Hm Hin Hgt Hlen]. set (gnb := ue_gnb_ipv4_be _) in *.
  exists (outer_gpdu (dp_mac d) n3 gnb (dp_inner d) teid (dp_len d + 36)).
  split; [by apply encap_writes|].
  destruct (outer_gpdu_fields (dp_mac d) n3 gnb (dp_inner d) teid (dp_len d + 36) Hm Ln Lg ltac:(lia)) as (F1 & F2 & F3 & F4).
  destruct (outer_gpdu_addrs (dp_mac d) n3 gnb (dp_inner d) teid (dp_len d + 36) Hm Ln Lg) as [F5 F6].
  split; try done; [by apply outer_gpdu_wf|rewrite F2; lia|rewrite F3; lia|rewrite F4; lia].
Qed.

(** ** From [install_dl_ue] to the G-PDU *)

Section downlink.
Context `{BpfKernelLaws K}.
Context (adjust_room : sk_buff -> Z -> Z -> Z -> option sk_buff).

(** Others leave one element of one map alone. *)
Definition keeps_elem (name : string) (key : bytes) (k k' : K) : Prop :=
  (kernel_ok k -> kernel_ok k') /\ fds_kept k k' /\ contents k' name key = contents k name key.

Lemma keeps_elem_stable name key : stable_rely (keeps_elem name key).
Proof.
  split.
  - intros k1 k2 k3 (?&?&?) (?&?&?). split_and!; [auto|by eapply fds_kept_trans|congruence].
  - by intros k k' (?&?&?).
  - by intros k k' (?&?&?).
  - intros k k' (?&?&?). by split_and!.
Qed.

(** The N3 address the programme reads has four bytes. *)
Lemma config_present k : kernel_ok k -> exists cfg, contents k "upf_config_map" (le_split 4 0) = Some cfg /\ length cfg = 4%nat.
Proof using Type*.
  intros Hk. destruct (proj2 (law_array k "upf_config_map" _ (le_split 4 0) Hk eq_refl eq_refl) eq_refl) as [cfg Hcfg].
  exists cfg. split; [done|]. by destruct (law_wf k "upf_config_map" _ _ _ Hk eq_refl eq_refl Hcfg) as [_ Lcfg].
Qed.

Lemma n3_length m k1 k2 :
  kernel_ok k1 -> kernel_ok k2 -> r_at m 1 "upf_config_map"%string = contents k1 "upf_config_map" ->
  r_at m 2 "upf_config_map"%string = contents k2 "upf_config_map" -> length (read_n3 m) = 4%nat.
Proof using Type*.
  intros Hk1 Hk2 E1 E2. destruct (config_present k1 Hk1) as (c1 & C1 & L1). destruct (config_present k2 Hk2) as (c2 & C2 & L2).
  unfold read_n3, deref. rewrite E1, E2, C1, C2. cbn [fmap option_fmap option_map n3_addr default].
  apply length_slice. destruct (r_in_place m _); cbn [default from_option id]; lia.
Qed.

(** What [install_dl_ue] stores. *)
Definition dl_installed (ue : string) (teid : Z) (gnb : string) (qfi : Z) (k : K) : Prop :=
  exists ue_be gnb_be tl, inet_aton ue = Ok ue_be /\ inet_aton gnb = Ok gnb_be /\ pack "<HH" [qfi; 0] = Ok tl /\ is_u32 teid /\
    contents k "dl_ue_map" ue_be = Some (be_split 4 teid ++ gnb_be ++ tl).

Lemma pack_teid teid b : pack ">I" [teid] = Ok b -> is_u32 teid /\ b = be_split 4 teid.
Proof.
  unfold pack. cbn [parse_fmt]. intros Hp. pack_inv Hp. by rewrite Hbytes.
Qed.

Lemma pwp_install_dl_ue ue teid gnb qfi ue_be s k :
  inet_aton ue = Ok ue_be -> cache_ok s k -> kernel_ok k ->
  pwp sys_bpf (keeps_elem "dl_ue_map" ue_be) (fun _ _ => True) (install_dl_ue ue teid gnb qfi) s
    (fun r _ k' => kernel_ok k' /\ (r = Ok tt -> dl_installed ue teid gnb qfi k')) k.
Proof using Type*.
  intros Hue Hs Hk. unfold install_dl_ue.
  unfold ip_to_be32_bytes. rewrite Hue. apply pwp_bind, pwp_lift.
  apply pwp_bind, pwp_lift. destruct (pack ">I" [teid]) as [tb|] eqn:Htb; [|by split].
  apply pack_teid in Htb as [Ht ->].
  apply pwp_bind, pwp_lift. destruct (inet_aton gnb) as [gb|] eqn:Hg; [|by split].
  apply pwp_bind, pwp_lift. destruct (pack "<HH" [qfi; 0]) as [tl|] eqn:Htl; [|by split].
  pose proof (pack_length _ _ _ Htl) as Ltl. pose proof (inet_aton_length _ _ Hg) as Lg.
  eapply pwp_map_update with (d := {| md_type := MT_HASH; md_ksize := 4; md_vsize := c_sizeof L_dl_ue_val; md_max := 65536 |});
    [apply keeps_elem_stable|done|reflexivity|reflexivity|by eapply inet_aton_length| |done|done| |].
  - rewrite !length_app, length_be_split, Lg, Ltl. reflexivity.
  - intros s' k1 e _ _ Hk1 _ _. split; [done|discriminate].
  - intros s' k1 k2 _ _ (Hc & _) _ Hk2 _. split; [done|]. split; [done|]. intros _. by exists ue_be, gb, tl.
Qed.

(** C10: a downlink packet is encapsulated for the session its UE was installed
    with.  After [install_dl_ue] of agent.py has returned, in any interleaving
    with others that leave this element alone, [upf_tc_egress] turns any plain
    IPv4 packet to that UE, provided [bpf_skb_adjust_room] opens 36 bytes after
    the Ethernet header, into a well-formed G-PDU with the installed TEID and
    the packet as payload, whose IPv4 checksum verifies and whose IPv4, UDP and
    GTP-U lengths are those of the frame: an uplink parser classifies it by
    that TEID. *)
Theorem downlink_roundtrip ue teid gnb qfi ue_be s k s' k' mac inner gap len st :
  inet_aton ue = Ok ue_be -> cache_ok s k -> kernel_ok k ->
  exec sys_bpf (keeps_elem "dl_ue_map" ue_be) (install_dl_ue ue teid gnb qfi s, k) (Ret (s', Ok tt), k') ->
  let p := (mac ++ [Byte.x08; Byte.x00]) ++ inner in
  length mac = 12%nat -> (20 <= length inner)%nat -> slice 16 4 inner = ue_be ->
  already_gtpu p = Some false -> 14 <= len < 65514 -> length gap = 36%nat ->
  adjust_room {| skb_data := p; skb_len := len |} 36 BPF_ADJ_ROOM_MAC BPF_F_ADJ_ROOM_FIXED_GSO =
    Some {| skb_data := (mac ++ [Byte.x08; Byte.x00]) ++ gap ++ inner; skb_len := len + 36 |} ->
  exists g, upf_tc_egress adjust_room (contents k') {| skb_data := p; skb_len := len |} st =
      Some (TC_ACT_OK, {| skb_data := gpdu_bytes g; skb_len := len + 36 |}, bump M_TC_DL_HIT st) /\
    gpdu_wf g /\ g_teid g = teid /\ g_payload g = inner /\
    ip_checksum20 (slice 14 20 (gpdu_bytes g)) = 0 /\
    be_combine (slice 16 2 (gpdu_bytes g)) = len + 22 /\
    be_combine (slice 38 2 (gpdu_bytes g)) = len + 2 /\
    be_combine (slice 44 2 (gpdu_bytes g)) = len - 14 /\
    forall lookup, upf_xdp_uplink lookup (gpdu_bytes g) =
      let '(act, m) := xdp_classify lookup teid in Some (act, [M_RX_TOTAL; M_RX_GTPU; M_RX_GPDU; m]).
Proof using Type*.
  intros Hue Hs Hk Hx p Hm Hin Hdst Hgt Hlen Hgap Hadj.
  destruct (wp_exec_ret _ _ _ _ _ _ _ _ (pwp_install_dl_ue ue teid gnb qfi ue_be s k Hue Hs Hk) Hx) as [Hk' Hd].
  destruct (Hd eq_refl) as (ue_be' & gb & tl & Hue' & Hgb & Htl & Ht & Hc). rewrite Hue in Hue'. injection Hue' as <-.
  pose proof (inet_aton_length _ _ Hgb) as Lg. pose proof (read_dl_ue_packed teid gb qfi tl Lg Htl) as Huv.
  set (d := {| dp_mac := mac; dp_inner := inner; dp_len := len |}).
  destruct (egress_carries adjust_room (still (contents k')) d st (be_split 4 teid ++ gb ++ tl) teid) as (g & Hg & Hcar).
  - by split.
  - by exists gap.
  - change (dl_dst d) with (slice 16 4 inner). by rewrite Hdst.
  - by rewrite read_ue_still, Huv.
  - done.
  - by rewrite read_ue_still, Huv.
  - by apply (n3_length _ k' k').
  - exists g. destruct Hcar as [W T P C L1 L2 L3 _ _]. split_and!; try done. intros lookup. rewrite <-T. by apply xdp_on_gpdu.
Qed.
End downlink.

Lemma downlink_roundtrip_witness :
  let adj : sk_buff -> Z -> Z -> Z -> option sk_buff := fun skb _ _ _ =>
    Some {| skb_data := take 14 (skb_data skb) ++ replicate 36 Byte.x00 ++ drop 14 (skb_data skb);
            skb_len := skb_len skb + 36 |} in
  let x := run ref_sys (install_dl_ue "10.45.0.1" 0x1234 "192.168.1.2" 9 ∅) ref_init in
  let inner := Byte.x45 :: replicate 15 Byte.x00 ++ (z2b <$> [10; 45; 0; 1]) in
  exists g, upf_tc_egress adj (contents x.1)
      {| skb_data := (replicate 12 Byte.xff ++ [Byte.x08; Byte.x00]) ++ inner; skb_len := 34 |} cpu_init =
      Some (TC_ACT_OK, {| skb_data := gpdu_bytes g; skb_len := 70 |}, bump M_TC_DL_HIT cpu_init) /\
    g_teid g = 0x1234 /\ g_payload g = inner.
Proof.
  intros adj x inner.
  assert (Hrefl : forall k : ref_kernel, keeps_elem "dl_ue_map" (z2b <$> [10; 45; 0; 1]) k k).
  { intros k. split; [done|]. split; [by intros ???|done]. }
  pose proof (run_exec_rely ref_sys _ (install_dl_ue "10.45.0.1" 0x1234 "192.168.1.2" 9 ∅) ref_init Hrefl) as Hx.
  fold x in Hx. assert (Hr : x.2.2 = Ok tt) by (vm_compute; reflexivity). destruct x as [k' [s' r]]. cbn in Hr. subst r.
  assert (Hs : cache_ok ∅ ref_init) by by intros ??.
  assert (Hk : kernel_ok ref_init) by (apply ref_ok_check_ok; vm_compute; reflexivity).
  assert (H1 : inet_aton "10.45.0.1" = Ok (z2b <$> [10; 45; 0; 1])) by (vm_compute; reflexivity).
  assert (H2 : slice 16 4 inner = z2b <$> [10; 45; 0; 1]) by (vm_compute; reflexivity).
  assert (H3 : already_gtpu ((replicate 12 Byte.xff ++ [Byte.x08; Byte.x00]) ++ inner) = Some false) by (vm_compute; reflexivity).
  assert (H4 : 14 <= 34 < 65514) by (split; [discriminate|reflexivity]).
  assert (H5 : (20 <= length inner)%nat) by apply Nat.le_refl.
  assert (H6 : adj {| skb_data := (replicate 12 Byte.xff ++ [Byte.x08; Byte.x00]) ++ inner; skb_len := 34 |} 36
      BPF_ADJ_ROOM_MAC BPF_F_ADJ_ROOM_FIXED_GSO =
    Some {| skb_data := (replicate 12 Byte.xff ++ [Byte.x08; Byte.x00]) ++ replicate 36 Byte.x00 ++ inner; skb_len := 34 + 36 |})
    by (vm_compute; reflexivity).
  destruct (downlink_roundtrip adj "10.45.0.1" 0x1234 "192.168.1.2" 9 _ ∅ ref_init s' k'
    (replicate 12 Byte.xff) inner (replicate 36 Byte.x00) 34 cpu_init H1 Hs Hk Hx eq_refl H5 H2 H3 H4 eq_refl H6)
    as (g & Hg & _ & Ht & Hp & _).
  exists g. split; [exact Hg|]. by split.
Defined.
