(* ===== verification/Bundle.v ===== *)
(** * Transactional consistency of PDR bundles

    [modify_tc_bundle] (agent.py) against the reader [live_slot] of
    [upf_tc_ingress] (upf_tc.c): the two-write double-buffer protocol.

    [live] is what the datapath would use at an instant.  The first section
    proves the protocol on any lawful kernel, in any interleaving with an
    environment that leaves the bundle of this PDR alone, bundles being replaced
    whole.  The second lets the bundle be overwritten under the reader while one
    modification runs, and shows a packet that two modifications tear.  The last
    is about several processes that modify one PDR: a pool of programmes whose
    system calls interleave ([pool_move], Sim.v). *)

From S2P Require Import Prelude Prog Sim PyStruct UpfMaps Kernel BpfSyscall Encoders Agent Qer Datapath.

(** The tuple a modification commits. *)
Definition updated (old : tc_bundle_slot) (far_id qer_id urr_id precedence : option Z) : tc_bundle_slot :=
  {| slot_far_id := default (slot_far_id old) far_id;
     slot_qer_id := default (slot_qer_id old) qer_id;
     slot_urr_id := default (slot_urr_id old) urr_id;
     slot_precedence := default (slot_precedence old) precedence;
     slot_generation := slot_generation old + 1 |}.

#[global] Instance slot_fits_dec sl : Decision (slot_fits sl).
Proof. unfold slot_fits. apply _. Defined.

(** The bundle with [cur] in slot [a], [new] in the other, and [act] live. *)
Definition prepared (a : nat) (act : Z) (cur new : tc_bundle_slot) : tc_bundle :=
  match a with
  | O => {| bundle_active := act; bundle_slot0 := cur; bundle_slot1 := new |}
  | _ => {| bundle_active := act; bundle_slot0 := new; bundle_slot1 := cur |}
  end.

Lemma enc_bundle_ok act b0 b1 : is_u32 act -> exists v, enc_bundle act b0 b1 = Ok v.
Proof.
  intros H. unfold enc_bundle, pack. cbn. rewrite decide_True by done.
  rewrite decide_True by by vm_compute. cbn. by eexists.
Qed.

Lemma land1_cases x : Z.land x 1 = 0 \/ Z.land x 1 = 1.
Proof.
  pose proof (Z.land_ones x 1 ltac:(lia)) as E. change (Z.ones 1) with 1 in E.
  change (2 ^ 1) with 2 in E. pose proof (Z.mod_pos_bound x 2). lia.
Qed.

(** The definition of [tc_bundle_map]. *)
Abbreviation bundle_def := {| md_type := MT_HASH; md_ksize := 4;
  md_vsize := c_sizeof L_tc_bundle; md_max := 4096 |}.

(** The live slot is the one [active & 1] names. *)
Definition active_slot (raw : bytes) : nat := Z.to_nat (Z.land (bundle_active (read_tc_bundle raw)) 1).

Lemma active_slot_lt raw : (active_slot raw < 2)%nat.
Proof. unfold active_slot. destruct (land1_cases (bundle_active (read_tc_bundle raw))) as [->| ->]; simpl; lia. Qed.

Lemma named_slot_read act v : named_slot act (read_tc_bundle v) = read_slot (Z.to_nat (Z.land act 1)) v.
Proof. unfold named_slot. by destruct (land1_cases act) as [->| ->]. Qed.

Lemma live_slot_read raw : live_slot (read_tc_bundle raw) = read_slot (active_slot raw) raw.
Proof. apply named_slot_read. Qed.

Lemma prepared_slots a act cur new v :
  (a < 2)%nat -> read_tc_bundle v = prepared a act cur new ->
  bundle_active (read_tc_bundle v) = act /\ read_slot a v = cur /\ read_slot (1 - a) v = new.
Proof. intros Ha H. destruct a as [|[|a]]; [..|lia]; unfold prepared, read_tc_bundle in *; by simplify_eq/=. Qed.

Lemma land_of_nat a : (a < 2)%nat -> Z.to_nat (Z.land (Z.of_nat a) 1) = a.
Proof. intros Ha. by destruct a as [|[|a]]; [..|lia]. Qed.

(** The bundle value of [modify_tc_bundle] reads back as [prepared]. *)
Lemma enc_prepared (a : nat) act cur new cb nb :
  (a < 2)%nat -> is_u32 act -> enc_slot cur = Ok cb -> enc_slot new = Ok nb ->
  let slots := <[(1 - a)%nat := Some nb]> (<[a := Some cb]> [None; None]) in
  exists b0 b1 v, slot_at slots 0 = Ok b0 /\ slot_at slots 1 = Ok b1 /\ enc_bundle act b0 b1 = Ok v /\
    read_tc_bundle v = prepared a act cur new /\ length v = c_sizeof L_tc_bundle.
Proof.
  intros Ha Hact Hc Hn slots.
  destruct a as [|[|a]]; [| |lia].
  - destruct (enc_bundle_ok act cb nb Hact) as [v Hv].
    destruct (enc_bundle_layout act _ _ _ _ _ Hc Hn Hv). by exists cb, nb, v.
  - destruct (enc_bundle_ok act nb cb Hact) as [v Hv].
    destruct (enc_bundle_layout act _ _ _ _ _ Hn Hc Hv). by exists nb, cb, v.
Qed.

(** A programme that finds [v] at each read of one bundle. *)
Definition with_bundle (key v : bytes) (m : reads) : reads := {|
  r_at i name j := if (String.eqb name "tc_bundle_map" && bool_decide (j = key))%bool then Some v else r_at m i name j;
  r_in_place := r_in_place m;
|}.

(** It does not tell [v] from the value [w 3] of [active] if the slot that one
    names reads the same at every later load. *)
Lemma tc_ingress_with_bundle m key (w : nat -> bytes) build adj redir kt skb st :
  r_in_place m "tc_bundle_map" = true ->
  (forall i, (i <= 12)%nat -> r_at m i "tc_bundle_map"%string key = Some (w i)) ->
  (forall i, (4 <= i <= 12)%nat ->
     named_slot (bundle_active (read_tc_bundle (w 3%nat))) (read_tc_bundle (w i)) = live_slot (read_tc_bundle (w 3%nat))) ->
  upf_tc_ingress_at build adj redir m kt skb st = upf_tc_ingress_at build adj redir (with_bundle key (w 3%nat) m) kt skb st.
Proof.
  intros Hp Hw Hn.
  apply tc_ingress_session. intros ihl teid t_entry. unfold tc_session_at.
  set (m' := with_bundle key (w 3%nat) m).
  assert (Hr : forall i name j, String.eqb name "tc_bundle_map" = false -> r_at m' i name j = r_at m i name j)
    by (intros i name j E; cbn [m' with_bundle r_at]; by rewrite E).
  assert (Hd : forall i name j v, String.eqb name "tc_bundle_map" = false -> deref m' i name j v = deref m i name j v)
    by (intros i name j v E; unfold deref; by rewrite Hr).
  assert (Hf : upf_far_forward_at build adj redir m' = upf_far_forward_at build adj redir m) by reflexivity.
  assert (Hb : forall i j, j <> key -> r_at m' i "tc_bundle_map"%string j = r_at m i "tc_bundle_map"%string j)
    by (intros i j E; cbn [m' with_bundle r_at]; by rewrite bool_decide_eq_false_2).
  assert (Hk : forall i, r_at m' i "tc_bundle_map"%string key = Some (w 3%nat))
    by (intros i; cbn [m' with_bundle r_at]; by rewrite bool_decide_eq_true_2).
  assert (Hp' : r_in_place m' "tc_bundle_map" = true) by exact Hp. rewrite Hf. clearbody m'. cbv zeta.
  rewrite !(Hr _ "teid_session"%string) by reflexivity.
  destruct (r_at m 0 "teid_session"%string (le_split 4 teid)) as [sv|]; [|done].
  rewrite !(Hd _ "teid_session"%string) by reflexivity. set (bkey := slice 0 4 _). clearbody bkey.
  destruct (decide (bkey = key)) as [->|Hne].
  - rewrite (Hw 2%nat), Hk by lia.
    assert (Hdm : forall i v, (i <= 12)%nat -> deref m i "tc_bundle_map" key v = w i)
      by (intros i v Hi; unfold deref; by rewrite Hp, Hw).
    assert (Hdm' : forall i v, deref m' i "tc_bundle_map" key v = w 3%nat) by (intros i v; unfold deref; by rewrite Hp', Hk).
    rewrite !Hdm', !Hdm by lia. rewrite !(Hn _) by lia. fold (live_slot (read_tc_bundle (w 3%nat))).
    rewrite !(Hr _ "far_table"%string) by reflexivity. destruct (r_at m 5 _ _); [|done].
    by rewrite !(Hd _ "far_table"%string) by reflexivity.
  - rewrite Hb by done. destruct (r_at m 2 _ bkey) as [bv|]; [|done].
    assert (Hdb : forall i, deref m' i "tc_bundle_map" bkey bv = deref m i "tc_bundle_map" bkey bv)
      by (intros i; unfold deref; by rewrite Hp, Hp', Hb).
    rewrite !Hdb, !(Hr _ "far_table"%string) by reflexivity. destruct (r_at m 5 _ _); [|done].
    by rewrite !(Hd _ "far_table"%string) by reflexivity.
Qed.

Section protocol.
Context `{BpfKernelLaws K}.
Context (pdr_id : Z) (Hpdr : is_u32 pdr_id).

Abbreviation key := (le_split 4 pdr_id).

(** The tuple the datapath would use for this PDR. *)
Definition live (k : K) : option tc_bundle_slot :=
  (fun v => live_slot (read_tc_bundle v)) <$> contents k "tc_bundle_map" key.

(** Others leave the bundle of this PDR alone. *)
Definition others (k k' : K) : Prop :=
  (kernel_ok k -> kernel_ok k') /\ fds_kept k k' /\
  contents k' "tc_bundle_map" key = contents k "tc_bundle_map" key.

(** Every step of the modification: only this bundle changes, and what is
    live goes from [old] to [new] or stays. *)
Definition commits (old new : tc_bundle_slot) (k k' : K) : Prop :=
  (forall n j, (n, j) <> ("tc_bundle_map"%string, key) -> contents k' n j = contents k n j) /\
  (live k = Some old -> live k' = Some old \/ live k' = Some new) /\
  (live k = Some new -> live k' = Some new).

Lemma others_stable : stable_rely others.
Proof.
  split.
  - intros k1 k2 k3 (?&?&?) (?&?&?). split_and!; [auto|by eapply fds_kept_trans|congruence].
  - by intros k k' (?&?&?).
  - by intros k k' (?&?&?).
  - intros k k' (?&?&?). by split_and!.
Qed.

Lemma quiet_commits old new k k' : quiet k k' -> commits old new k k'.
Proof.
  intros (Hs & _ & _). assert (live k' = live k) as Hl by (unfold live; by rewrite Hs).
  unfold commits. rewrite Hl. split_and!; auto.
Qed.

Lemma stored_bundle_live val k k' :
  stored "tc_bundle_map" key val k k' ->
  live k' = Some (live_slot (read_tc_bundle val)) /\
  (forall n j, (n, j) <> ("tc_bundle_map"%string, key) -> contents k' n j = contents k n j).
Proof.
  intros (Hc & Hf & _). split; [unfold live; by rewrite Hc|].
  intros n j Hne. destruct (Hf n j) as [?|(-> & Hl & _)]; [congruence|done|by vm_compute in Hl].
Qed.

(** The result of a modification: the cache only grows, what is live, and why
    it failed if it did; a successful one leaves the map open. *)
Definition modify_post (s : fd_cache) (old new : tc_bundle_slot) (r : res Z) (s' : fd_cache) (k : K) : Prop :=
  cache_ok s' k /\ kernel_ok k /\ s ⊆ s' /\
  match r with
  | Ok gen => live k = Some new /\ gen = slot_generation new /\ slot_fits new /\
      is_Some (s' !! "tc_bundle_map"%string)
  | Exc e => live k = Some old /\
      match e with
      | StructError => ~ slot_fits new
      | OSError _ => s !! "tc_bundle_map"%string = None
      | _ => False
      end
  end.

(** The two writes, once the slots are encoded. *)
Abbreviation two_writes v1 v2 gen :=
  (map_update "tc_bundle_map" key v1 ;;
   key2 ← lift (Ok key);
   val2 ← lift (Ok v2);
   map_update "tc_bundle_map" key2 val2 ;;
   mret (gen : Z)).

(** The handler up to them, against any environment: the values to write are
    made of the bundle it has read. *)
Lemma pwp_modify_body (rely guar : K -> K -> Prop) far_id qer_id urr_id precedence s k
    (Q : res Z -> fd_cache -> K -> Prop) :
  stable_rely rely -> (forall k k', quiet k k' -> guar k k') -> cache_ok s k -> kernel_ok k ->
  (forall s' k1 e, rely k k1 -> cache_ok s' k1 -> kernel_ok k1 -> s ⊆ s' ->
     (is_Some (s !! "tc_bundle_map"%string) -> e = ENOENT /\ contents k1 "tc_bundle_map" key = None) ->
     Q (Exc (OSError e)) s' k1) ->
  (forall s' k1 raw, rely k k1 -> cache_ok s' k1 -> kernel_ok k1 -> cached s s' "tc_bundle_map" ->
     contents k1 "tc_bundle_map" key = Some raw ->
     let a := active_slot raw in
     let cur := live_slot (read_tc_bundle raw) in
     let new := updated cur far_id qer_id urr_id precedence in
     (~ slot_fits new -> Q (Exc StructError) s' k1) /\
     forall v1 v2, slot_fits new -> length v1 = c_sizeof L_tc_bundle -> length v2 = c_sizeof L_tc_bundle ->
       read_tc_bundle v1 = prepared a (Z.of_nat a) cur new ->
       read_tc_bundle v2 = prepared a (Z.of_nat (1 - a)) cur new ->
       pwp sys_bpf rely guar (two_writes v1 v2 (slot_generation new)) s' Q k1) ->
  pwp sys_bpf rely guar (modify_tc_bundle pdr_id far_id qer_id urr_id precedence) s Q k.
Proof using Type*.
  intros Hrely Hguar Hs Hk HExc HOk. unfold modify_tc_bundle.
  apply pwp_bind, pwp_lift. rewrite enc_u32_ok by done. apply pwp_bind.
  eapply pwp_lookup with (d := bundle_def); [exact Hrely|exact Hguar|done|reflexivity|reflexivity|apply length_le_split|done..|exact HExc|].
  intros s' k1 raw Hr Hs1 Hk1 Hsub Hraw. destruct (HOk s' k1 raw Hr Hs1 Hk1 Hsub Hraw) as [HNo HWrite]. clear HExc HOk.
  destruct (law_wf k1 "tc_bundle_map" bundle_def _ _ Hk1 eq_refl eq_refl Hraw) as [_ Hlen].
  rewrite live_slot_read in *. destruct (unpack_bundle_header raw Hlen) as [pad ->].
  apply pwp_bind, pwp_lift. cbn [nth]. fold (active_slot raw). pose proof (active_slot_lt raw) as Ha.
  destruct (unpack_bundle_slot raw (active_slot raw) Hlen Ha) as [pad' ->].
  set (cur := read_slot (active_slot raw) raw) in *. set (new := updated cur far_id qer_id urr_id precedence) in *.
  apply pwp_bind, pwp_lift. cbn [nth].
  destruct (enc_slot_ok cur) as [cb Hcb]; [apply read_slot_fits|].
  apply pwp_bind, pwp_lift. fold (enc_slot cur). rewrite Hcb.
  apply pwp_bind, pwp_lift. change (enc_bundle_slot _ _ _ _ _) with (enc_slot new).
  destruct (enc_slot new) as [nb|e] eqn:Hnb.
  2:{ assert (~ slot_fits new) as Hnf by (intros Hf; destruct (enc_slot_ok _ Hf); congruence).
      rewrite (enc_slot_exc _ Hnf) in Hnb. injection Hnb as <-. by apply HNo. }
  set (a := active_slot raw) in *.
  destruct (enc_prepared a (Z.of_nat a) cur new cb nb Ha ltac:(lia) Hcb Hnb) as (b0 & b1 & v1 & E0 & E1 & E2 & R1 & L1).
  destruct (enc_prepared a (Z.of_nat (1 - a)) cur new cb nb Ha ltac:(lia) Hcb Hnb) as (b0' & b1' & v2 & E0' & E1' & E2' & R2 & L2).
  cbn zeta in *. rewrite E0 in E0'. rewrite E1 in E1'. simplify_eq.
  do 2 apply pwp_bind, pwp_lift. rewrite E0. apply pwp_bind, pwp_lift. rewrite E1.
  apply pwp_bind, pwp_lift. rewrite E2, E2'. apply HWrite; try done. by eapply enc_slot_fits.
Qed.

(** The bundle while it is modified: the live tuple stays in the slot [a], and
    the new one is in the other before [active] names it. *)
Definition slots_are (a : nat) (old : tc_bundle_slot) (new : option tc_bundle_slot) (k : K) : Prop :=
  exists v, contents k "tc_bundle_map" key = Some v /\ read_slot a v = old /\
    match new with Some new => read_slot (1 - a) v = new | None => active_slot v = a end.

Definition rewrites (a : nat) (old new : tc_bundle_slot) (k k' : K) : Prop :=
  contents k' "tc_bundle_map" key = contents k "tc_bundle_map" key \/
  slots_are a old (Some new) k' /\ (slots_are a old None k' \/ slots_are a old (Some new) k).

(** Every step of the modification. *)
Definition modifies (old new : tc_bundle_slot) (k0 k k' : K) : Prop :=
  commits old new k k' /\
  forall v, contents k0 "tc_bundle_map" key = Some v -> rewrites (active_slot v) old new k k'.

Lemma quiet_modifies old new k0 k k' : quiet k k' -> modifies old new k0 k k'.
Proof. intros Hq. split; [by apply quiet_commits|]. intros v _. left. by destruct Hq as (Hs & _). Qed.

Lemma pwp_two_writes k0 raw cur new s s0 k (v1 v2 : bytes) :
  let a := active_slot raw in
  contents k0 "tc_bundle_map" key = Some raw -> contents k "tc_bundle_map" key = Some raw ->
  live_slot (read_tc_bundle raw) = cur ->
  cache_ok s k -> kernel_ok k -> is_Some (s !! "tc_bundle_map"%string) -> s0 ⊆ s ->
  slot_fits new -> length v1 = c_sizeof L_tc_bundle -> length v2 = c_sizeof L_tc_bundle ->
  read_tc_bundle v1 = prepared a (Z.of_nat a) cur new ->
  read_tc_bundle v2 = prepared a (Z.of_nat (1 - a)) cur new ->
  pwp sys_bpf others (modifies cur new k0) (two_writes v1 v2 (slot_generation new)) s (modify_post s0 cur new) k.
Proof using Type*.
  intros a Hraw0 Hraw Hcur Hs Hk Hc Hsub0 Hfits Hl1 Hl2 Hr1 Hr2. apply pwp_bind. pose proof (active_slot_lt raw) as Ha. fold a in Ha.
  destruct (prepared_slots _ _ _ _ _ Ha Hr1) as (A1 & C1 & N1).
  destruct (prepared_slots _ _ _ _ _ Ha Hr2) as (A2 & C2 & N2).
  assert (Hact1 : active_slot v1 = a) by (unfold active_slot; rewrite A1; by apply land_of_nat).
  assert (Hact2 : active_slot v2 = (1 - a)%nat) by (unfold active_slot; rewrite A2; apply land_of_nat; lia).
  assert (Hpresent : forall k1, others k k1 -> contents k1 "tc_bundle_map" key = Some raw).
  { intros k1 (_ & _ & ->). done. }
  eapply pwp_map_update with (d := bundle_def);
    [apply others_stable|apply quiet_modifies|reflexivity|reflexivity|apply length_le_split|done..| |].
  { intros s' k1 e Hr _ _ _ He. destruct (He Hc) as [Hn _]. by rewrite (Hpresent k1 Hr) in Hn. }
  intros s1 k1 k2 Hr1' Hk1 Hst Hs2 Hk2 [Hsub1 Hc1]. destruct (stored_bundle_live _ _ _ Hst) as [Hl Hoth].
  rewrite live_slot_read, Hact1, C1 in Hl.
  assert (Hlive1 : live k1 = Some cur) by (unfold live; rewrite (Hpresent k1 Hr1'); cbn; by rewrite Hcur).
  assert (Hs12 : slots_are a cur (Some new) k2) by (exists v1; split; [by destruct Hst|done]).
  split.
  { split; [split_and!; [done|by left|intros Hn; congruence]|]. intros v Ev. right. split.
    - by replace v with raw by congruence.
    - left. replace v with raw by congruence. exists v1. split; [by destruct Hst|done]. }
  do 2 apply pwp_bind, pwp_lift. apply pwp_bind.
  eapply pwp_map_update with (d := bundle_def);
    [apply others_stable|apply quiet_modifies|reflexivity|reflexivity|apply length_le_split|done..| |].
  { intros s' k3 e (_ & _ & Hk3) _ _ _ He. exfalso.
    destruct (He Hc1) as [Hn _]. destruct Hst as [Hst _]. congruence. }
  intros s' k3 k4 Hr3 Hk3 Hst' Hs4 Hk4 [Hsub4 Hc4]. destruct (stored_bundle_live _ _ _ Hst') as [Hl' Hoth'].
  rewrite live_slot_read, Hact2, N2 in Hl'.
  split.
  { split; [split_and!; [done|by right|done]|]. intros v Ev. right. replace v with raw by congruence. split.
    - exists v2. split; [by destruct Hst'|done].
    - right. destruct Hs12 as (v' & Ev' & Hv'). exists v'. split; [|done]. by rewrite (proj2 (proj2 Hr3)). }
  apply pwp_ret. do 2 (split; [done|]). split; [by do 2 (etrans; [eassumption|])|]. by split_and!.
Qed.

(** The whole handler, in any interleaving with the environment. *)
Lemma pwp_modify_steps old far_id qer_id urr_id precedence s k :
  cache_ok s k -> kernel_ok k -> live k = Some old ->
  let new := updated old far_id qer_id urr_id precedence in
  pwp sys_bpf others (modifies old new k)
    (modify_tc_bundle pdr_id far_id qer_id urr_id precedence) s
    (modify_post s old new) k.
Proof using Type*.
  intros Hs Hk Hlive new.
  assert (Hkeep : forall k1, others k k1 -> live k1 = Some old).
  { intros k1 (_ & _ & Hr). unfold live. by rewrite Hr. }
  apply pwp_modify_body; [apply others_stable|apply quiet_modifies|done..| |].
  - intros s' k1 e Hr Hs1 Hk1 Hsub1 He. do 3 (split; [done|]). split; [by apply Hkeep|].
    destruct (s !! "tc_bundle_map"%string) eqn:Hc; [|done].
    destruct (He ltac:(by eexists)) as [_ Hn]. specialize (Hkeep k1 Hr). unfold live in Hkeep.
    by rewrite Hn in Hkeep.
  - intros s' k1 raw Hr Hs1 Hk1 [Hsub1 Hc1] Hraw. specialize (Hkeep k1 Hr). pose proof Hkeep as Hold. unfold live in Hold.
    rewrite Hraw in Hold. apply (inj Some) in Hold. rewrite Hold. fold new. split; [by intros Hnf; split_and!|].
    intros v1 v2 Hf L1 L2 R1 R2. eapply pwp_two_writes with (raw := raw); try done.
    by rewrite <-(proj2 (proj2 Hr)).
Qed.

Lemma pwp_modify_tc_bundle old far_id qer_id urr_id precedence s k :
  cache_ok s k -> kernel_ok k -> live k = Some old ->
  let new := updated old far_id qer_id urr_id precedence in
  pwp sys_bpf others (commits old new)
    (modify_tc_bundle pdr_id far_id qer_id urr_id precedence) s
    (modify_post s old new) k.
Proof using Type*.
  intros Hs Hk Hlive new. eapply pwp_mono; [by apply pwp_modify_steps| |done]. by intros k1 k2 [? _].
Qed.

(** C5: no hybrid is ever live.  At every point of every interleaving of
    [modify_tc_bundle] with an environment that leaves this PDR's bundle alone
    (other maps, other PDRs and the descriptor table may change at will), the
    tuple the datapath would use is the complete old tuple or the complete new
    one, and once the new one is live it stays live. *)
Theorem modify_never_hybrid old far_id qer_id urr_id precedence s k p1 k1 p2 k2 :
  cache_ok s k -> kernel_ok k -> live k = Some old ->
  let new := updated old far_id qer_id urr_id precedence in
  exec sys_bpf others (modify_tc_bundle pdr_id far_id qer_id urr_id precedence s, k) (p1, k1) ->
  exec sys_bpf others (p1, k1) (p2, k2) ->
  (live k1 = Some old \/ live k1 = Some new) /\
  (live k1 = Some new -> live k2 = Some new).
Proof using Type*.
  intros Hs Hk Hl new Hx1 Hx2.
  pose proof (pwp_modify_tc_bundle old far_id qer_id urr_id precedence s k Hs Hk Hl) as Hwp.
  assert (Hrely : forall k1 k2, others k1 k2 -> live k2 = live k1).
  { intros ?? (_ & _ & Hr). unfold live. by rewrite Hr. }
  split.
  - eapply (wp_exec_inv sys_bpf others (commits old new) (fun k => live k = Some old \/ live k = Some new));
      [|by intros ?? (_ & Ho & Hn) [?|?]; [apply Ho|right; apply Hn]|exact Hwp|exact Hx1|by left].
    intros ?? ->%Hrely; done.
  - eapply (wp_exec_inv sys_bpf others (commits old new) (fun k => live k = Some new));
      [|by intros ?? (_ & _ & Hn)|exact (wp_exec _ _ _ _ _ _ _ _ Hwp Hx1)|exact Hx2].
    intros ?? ->%Hrely; done.
Qed.

(** C12: the outcome of a modification.  With the bundle map already open, in
    any interleaving with such an environment, [modify_tc_bundle] that returns
    has either committed the new tuple and returned its generation, one more
    than the old one, which happens exactly when every field of the new tuple
    fits a [u32]; or has raised [struct.error] with the old tuple still live.
    No other result is possible. *)
Theorem modify_outcome old far_id qer_id urr_id precedence s k s' r k' :
  cache_ok s k -> kernel_ok k -> live k = Some old -> is_Some (s !! "tc_bundle_map"%string) ->
  let new := updated old far_id qer_id urr_id precedence in
  exec sys_bpf others (modify_tc_bundle pdr_id far_id qer_id urr_id precedence s, k) (Ret (s', r), k') ->
  if decide (slot_fits new)
  then r = Ok (slot_generation old + 1) /\ live k' = Some new
  else r = Exc StructError /\ live k' = Some old.
Proof using Type*.
  intros Hs Hk Hl Hc new Hx.
  assert (Hp : modify_post s old new r s' k')
    by exact (wp_exec_ret _ _ _ _ _ _ _ _ (pwp_modify_tc_bundle _ far_id qer_id urr_id precedence s k Hs Hk Hl) Hx).
  destruct Hp as (_ & _ & _ & Hp). destruct r as [gen|e].
  - destruct Hp as (? & -> & ? & _). by rewrite decide_True.
  - destruct Hp as [? He]. destruct e; try done; [by rewrite decide_False|].
    exfalso. rewrite He in Hc. by destruct Hc.
Qed.
(** ** A bundle that is overwritten under its reader

    bpf(2) replaces the elements of a hash map whole, but the comment of
    upf_maps.h describes [tc_bundle_map] as rewritten in place.  So suppose it
    is: upf_tc.c then loads [active], and each field of the slot, from memory
    that a write under way may or may not have reached. *)

Section in_place.
Context (old : tc_bundle_slot) (far_id qer_id urr_id precedence : option Z).

Abbreviation new := (updated old far_id qer_id urr_id precedence).

(** What a word of the bundle can be read from. *)
Definition filling (a : nat) (k : K) : Prop := slots_are a old None k \/ slots_are a old (Some new) k.

Lemma slots_others a new' k k' : others k k' -> slots_are a old new' k -> slots_are a old new' k'.
Proof. intros (_ & _ & E) (v & Hv & Hr). exists v. split; [by rewrite E|done]. Qed.

Lemma slots_rewrites a k k' : rewrites a old new k k' -> slots_are a old (Some new) k -> slots_are a old (Some new) k'.
Proof. intros [E|[Hn _]]; [|done]. intros (v & Hv & Hr). exists v. split; [by rewrite E|done]. Qed.

Lemma filling_rewrites a k k' : rewrites a old new k k' -> filling a k -> filling a k'.
Proof.
  intros [E|[Hn _]]; [|by right]. intros [(v & Hv & Hr)|(v & Hv & Hr)]; [left|right]; (exists v; split; [by rewrite E|done]).
Qed.

(** The bundles a watched modification shows to reads in order: each has the
    old tuple in the slot that was live, and once a read has found [active]
    naming the other, all later ones find the new tuple there. *)
Lemma modification_watched s k n ks ws :
  cache_ok s k -> kernel_ok k -> live k = Some old ->
  watched sys_bpf others n (modify_tc_bundle pdr_id far_id qer_id urr_id precedence s, k) ks ws ->
  exists a (w : nat -> bytes), (a < 2)%nat /\
    (forall i, (i <= n)%nat -> contents (ws i) "tc_bundle_map" key = Some (w i) /\ read_slot a (w i) = old) /\
    forall i j, (i <= j <= n)%nat -> active_slot (w i) <> a -> read_slot (1 - a) (w j) = new.
Proof using Type*.
  intros Hs Hk Hlive Hw.
  pose proof (pwp_modify_steps old far_id qer_id urr_id precedence s k Hs Hk Hlive) as Hwp.
  pose proof Hlive as Hv0. unfold live in Hv0. destruct (contents k "tc_bundle_map" key) as [v0|] eqn:E0; [|done].
  apply (inj Some) in Hv0. rewrite live_slot_read in Hv0. set (a := active_slot v0) in *.
  assert (Hg : forall k1 k2, modifies old new k k1 k2 -> rewrites a old new k1 k2) by (intros k1 k2 [_ Hg]; by apply Hg).
  destruct (wp_watched sys_bpf others (modifies old new k) n (modify_tc_bundle pdr_id far_id qer_id urr_id precedence s)
    k ks ws (sr_trans _ others_stable)) as (Hfrom & Hon & Hword); [eapply wp_mono; [| |exact Hwp]; done|exact Hw|].
  assert (Kf : kept_by others (modifies old new k) (filling a)).
  { split; [intros ?? Ho [?|?]; [left|right]; by eapply slots_others|]. intros ?? Hm. by apply filling_rewrites, Hg. }
  assert (Kn : kept_by others (modifies old new k) (slots_are a old (Some new))).
  { split; [intros ??; apply slots_others|]. intros ?? Hm. by apply slots_rewrites, Hg. }
  assert (Hstep : forall J i, kept_by others (modifies old new k) J -> (i <= n)%nat -> J (ks i) -> J (ws i)).
  { intros J i [JR JG] Hi Hks. destruct (Hword i Hi) as [->|(k1 & Hr & Hm)]; [done|]. eauto. }
  assert (Hfill : forall i, (i <= n)%nat -> filling a (ws i)).
  { intros i Hi. apply Hstep; [done..|]. apply Hfrom; [done..|]. left. by exists v0. }
  exists a, (fun i => default [] (contents (ws i) "tc_bundle_map" key)). split; [apply active_slot_lt|]. split.
  - intros i Hi. destruct (Hfill i Hi) as [(v & -> & ? & _)|(v & -> & ? & _)]; done.
  - intros i j Hij Hact.
    assert (Hks : slots_are a old (Some new) (ks i)).
    { destruct (Hfill i ltac:(lia)) as [(v & Ev & _ & Ha)|Hn]; [by rewrite Ev in Hact|].
      destruct (Hword i ltac:(lia)) as [<-|(k1 & Hr & Hm)]; [done|].
      assert (H1 : slots_are a old (Some new) k1).
      { destruct (Hg _ _ Hm) as [E|[_ [(v & Ev & _ & Ha)|H1]]]; [|by rewrite Ev in Hact|done].
        destruct Hn as (v & Hv & Hr'). exists v. split; [by rewrite <-E|done]. }
      destruct H1 as (v & Hv & Hr'). exists v. split; [by rewrite <-(proj2 (proj2 Hr))|done]. }
    destruct (Hstep _ j Kn ltac:(lia) (Hon _ i j Kn ltac:(lia) Hks)) as (v & -> & _ & Hnew). done.
Qed.

(** C29: one modification is safe even if the bundle is overwritten in place.
    While [modify_tc_bundle] runs, interleaved with an environment that leaves
    this PDR's bundle alone, let upf_tc.c load [active] and each field of the
    slot from the bundle as it is at that read, or as the write under way makes
    it; then there is one value of the bundle, whose live tuple is the complete
    old one or the complete new one, such that the programme does with any
    packet what it does if every read finds that value. *)
Theorem one_modification_never_torn s k ks ws (m : reads) :
  cache_ok s k -> kernel_ok k -> live k = Some old ->
  watched sys_bpf others 12 (modify_tc_bundle pdr_id far_id qer_id urr_id precedence s, k) ks ws ->
  r_in_place m "tc_bundle_map" = true ->
  (forall i, (i <= 12)%nat -> r_at m i "tc_bundle_map"%string key = contents (ws i) "tc_bundle_map" key) ->
  exists v, (live_slot (read_tc_bundle v) = old \/ live_slot (read_tc_bundle v) = new) /\
    forall build adj redir kt skb st,
      upf_tc_ingress_at build adj redir m kt skb st =
      upf_tc_ingress_at build adj redir (with_bundle key v m) kt skb st.
Proof using Type*.
  intros Hs Hk Hlive Hw Hp Hm. destruct (modification_watched s k 12 ks ws Hs Hk Hlive Hw) as (a & w & Ha & Hold & Hnew).
  assert (Hslot : forall i, (i <= 12)%nat -> active_slot (w i) = a \/ active_slot (w i) = (1 - a)%nat).
  { intros i Hi. pose proof (active_slot_lt (w i)). lia. }
  assert (Hread : forall i, (3 <= i <= 12)%nat -> read_slot (active_slot (w 3%nat)) (w i) = live_slot (read_tc_bundle (w 3%nat))).
  { intros i Hi. rewrite live_slot_read. destruct (Hslot 3%nat ltac:(lia)) as [->|E].
    - by rewrite (proj2 (Hold i ltac:(lia))), (proj2 (Hold 3%nat ltac:(lia))).
    - rewrite E, (Hnew 3%nat i), (Hnew 3%nat 3%nat) by lia. done. }
  exists (w 3%nat). split.
  - rewrite live_slot_read. destruct (Hslot 3%nat ltac:(lia)) as [->|E]; [left; apply Hold; lia|right].
    rewrite E. apply (Hnew 3%nat 3%nat); lia.
  - intros. apply (tc_ingress_with_bundle m key w); [done| |].
    + intros i Hi. rewrite Hm by done. by apply Hold.
    + intros i Hi. rewrite named_slot_read. apply Hread; lia.
Qed.
End in_place.
End protocol.

(** ** A run on the reference kernel *)

(** PDR 0x2000 installed with ids 1, 1, 1, precedence 100 and generation 0,
    the map open on descriptor 3. *)
Definition demo_cache : fd_cache := {["tc_bundle_map" := 3]}.
Definition demo_kernel : ref_kernel :=
  fst (run ref_sys (install_tc_bundle 0x2000 1 1 1 100 0 ∅) ref_init).
Definition demo_slot : tc_bundle_slot :=
  {| slot_far_id := 1; slot_qer_id := 1; slot_urr_id := 1; slot_precedence := 100; slot_generation := 0 |}.

Lemma demo_cache_ok : cache_ok demo_cache demo_kernel.
Proof. apply cache_check_ok. vm_compute. reflexivity. Qed.
Lemma demo_kernel_ok : kernel_ok demo_kernel.
Proof. apply ref_ok_check_ok. vm_compute. reflexivity. Qed.
Lemma demo_live : live 0x2000 demo_kernel = Some demo_slot.
Proof. vm_compute. reflexivity. Qed.

Lemma others_refl `{BpfKernel K} pdr_id (k : K) : others pdr_id k k.
Proof. unfold others. split; [done|]. split; [by intros ???|done]. Qed.

Lemma modify_never_hybrid_witness :
  let p := modify_tc_bundle 0x2000 (Some 3) (Some 3) None None demo_cache in
  let k' := fst (run ref_sys p demo_kernel) in
  live 0x2000 k' = Some demo_slot \/ live 0x2000 k' = Some (updated demo_slot (Some 3) (Some 3) None None).
Proof.
  intros p k'.
  exact (proj1 (modify_never_hybrid 0x2000 ltac:(by vm_compute) demo_slot (Some 3) (Some 3) None None
    demo_cache demo_kernel _ k' _ k' demo_cache_ok demo_kernel_ok demo_live
    (run_exec_rely ref_sys (others 0x2000) p demo_kernel (others_refl _)) (rtc_refl _ _))).
Defined.

Lemma modify_outcome_witness :
  let p := modify_tc_bundle 0x2000 (Some 3) (Some 3) None None demo_cache in
  (snd (run ref_sys p demo_kernel)).2 = Ok 1.
Proof.
  intros p.
  pose proof (run_exec_rely ref_sys (others 0x2000) p demo_kernel (others_refl _)) as Hx.
  destruct (snd (run ref_sys p demo_kernel)) as [s' r].
  pose proof (modify_outcome 0x2000 ltac:(by vm_compute) demo_slot (Some 3) (Some 3) None None
    demo_cache demo_kernel s' r _ demo_cache_ok demo_kernel_ok demo_live ltac:(by eexists) Hx) as H.
  cbn zeta in H. rewrite decide_True in H by by vm_compute. exact (proj1 H).
Defined.

(** The maps of a packet of session 0x1000 whose FARs all forward, but for the
    bundle of PDR 0x2000, read at the instants [ws]. *)
Definition demo_reads (ws : nat -> ref_kernel) : reads := {|
  r_at i name j :=
    if String.eqb name "tc_bundle_map" then contents (ws i) "tc_bundle_map" j
    else if String.eqb name "far_table" then Some (le_split 4 FAR_FORWARD ++ replicate 12 Byte.x00)
    else if String.eqb name "teid_session" then Some (le_split 4 0x2000 ++ replicate 12 Byte.x00)
    else None;
  r_in_place := fun name => String.eqb name "tc_bundle_map";
|}.

(** The decisions of upf_tc.c, built to report them, on that packet. *)
Definition demo_decisions (m : reads) : list perf_event :=
  cpu_events (tc_session_at {| tc_qer := PerCpu; tc_emit_decision := true; tc_emit_latency := false |}
    (fun skb _ _ _ => Some skb) (fun _ _ => TC_ACT_REDIRECT) m {| kt_entry := 0; kt_qer := 0; kt_exit := 0; kt_buffer := 0 |}
    {| skb_data := []; skb_len := 0 |} 20 0x1000 0 cpu_init).2.

(** A modification whose second write is under way at the load of [active],
    and done from the load of [qer_id] on. *)
Lemma one_modification_never_torn_witness :
  let p := modify_tc_bundle 0x2000 (Some 3) (Some 3) None None demo_cache in
  let at_request n := (after ref_sys n (p, demo_kernel)).2 in
  let m := demo_reads (fun i => at_request (if (i <=? 2) then 2 else if (i =? 3) then 3 else if (i <=? 8) then 2 else 3)%nat) in
  exists v, (live_slot (read_tc_bundle v) = demo_slot \/ live_slot (read_tc_bundle v) = updated demo_slot (Some 3) (Some 3) None None) /\
    forall build adj redir kt skb st,
      upf_tc_ingress_at build adj redir m kt skb st =
      upf_tc_ingress_at build adj redir (with_bundle (le_split 4 0x2000) v m) kt skb st.
Proof.
  intros p at_request m.
  refine (one_modification_never_torn 0x2000 _ demo_slot (Some 3) (Some 3) None None demo_cache demo_kernel
    (fun i => at_request (if (i <=? 8) then 2 else 3)%nat)
    (fun i => at_request (if (i <=? 2) then 2 else if (i =? 3) then 3 else if (i <=? 8) then 2 else 3)%nat)
    m demo_cache_ok demo_kernel_ok demo_live _ eq_refl (fun i _ => eq_refl)); [vm_compute; by split|].
  apply (after_watched ref_sys (others 0x2000) 12 (p, demo_kernel) (fun i => if (i <=? 8) then 2 else 3)%nat
    (fun i => if (i <=? 2) then 2 else if (i =? 3) then 3 else if (i <=? 8) then 2 else 3)%nat (others_refl 0x2000)).
  - intros i _. destruct (i <=? 8)%nat eqn:E, (S i <=? 8)%nat eqn:E'; breflect; lia.
  - intros i _. destruct (i <=? 2)%nat eqn:E, (i =? 3)%nat eqn:E', (i <=? 8)%nat eqn:E''; breflect; lia.
Defined.

(** The double buffer covers one modification at a time: a packet that loads
    [active] and [far_id] before two consecutive ones, and [qer_id] during the
    second, is policed by a tuple that was never live, FAR 1 with QER 5. *)
Theorem two_modifications_can_tear :
  let p := (modify_tc_bundle 0x2000 (Some 3) (Some 3) None None ;;
            modify_tc_bundle 0x2000 (Some 5) (Some 5) None None) demo_cache in
  exists ks ws, watched ref_sys (others 0x2000) 12 (p, demo_kernel) ks ws /\
    demo_decisions (demo_reads ws) =
      [EvDecision {| de_far_id := 1; de_qer_id := 5; de_generation := 2; de_pdr_id := 0x2000 |}].
Proof.
  intros p. set (ns i := (if (i <=? 8) then 0 else 5)%nat).
  exists (fun i => (after ref_sys (ns i) (p, demo_kernel)).2), (fun i => (after ref_sys (ns i) (p, demo_kernel)).2). split.
  - apply (after_watched ref_sys (others 0x2000) 12 (p, demo_kernel) ns ns (others_refl 0x2000)); [|by left].
    intros i _. unfold ns. destruct (i <=? 8)%nat eqn:E, (S i <=? 8)%nat eqn:E'; breflect; lia.
  - vm_compute. reflexivity.
Qed.

(** ** Several modifiers *)

Definition modification : Type := option Z * option Z * option Z * option Z.

Definition apply_modification (m : modification) (sl : tc_bundle_slot) : tc_bundle_slot :=
  let '(far_id, qer_id, urr_id, precedence) := m in updated sl far_id qer_id urr_id precedence.

(** A process that makes modifications of one PDR, one after the other. *)
Definition modifier (pdr_id : Z) (ms : list modification) : bpfM unit :=
  for_each ms (fun '(far_id, qer_id, urr_id, precedence) => modify_tc_bundle pdr_id far_id qer_id urr_id precedence ;; mret tt).

(** What their modifications make of a tuple. *)
Inductive composed (ms : list modification) (old : tc_bundle_slot) : tc_bundle_slot -> Prop :=
| composed_old : composed ms old old
| composed_with m sl : m ∈ ms -> composed ms old sl -> composed ms old (apply_modification m sl).

Section modifiers.
Context `{BpfKernelLaws K}.
Context (pdr_id : Z) (Hpdr : is_u32 pdr_id) (ms : list modification) (old : tc_bundle_slot).

Definition shows_composed (k : K) : Prop := exists sl, live pdr_id k = Some sl /\ composed ms old sl.

(** What each may assume of the others, and keeps. *)
Definition composes (k k' : K) : Prop :=
  (kernel_ok k -> kernel_ok k') /\ fds_kept k k' /\ (shows_composed k -> shows_composed k').

Lemma composes_live (k k' : K) :
  (kernel_ok k -> kernel_ok k') -> fds_kept k k' -> live pdr_id k' = live pdr_id k -> composes k k'.
Proof. intros Hk Hf E. split_and!; [done|done|]. unfold shows_composed. by rewrite E. Qed.

Lemma others_composes k k' : others pdr_id k k' -> composes k k'.
Proof. intros (Hk & Hf & E). apply composes_live; [done|done|]. unfold live. by rewrite E. Qed.

Lemma quiet_composes k k' : quiet k k' -> composes k k'.
Proof. intros (Hs & Hf & Hk). apply composes_live; [done|done|]. unfold live. by rewrite Hs. Qed.

Lemma composes_stable : stable_rely composes.
Proof.
  split.
  - intros k1 k2 k3 (?&?&?) (?&?&?). split_and!; [auto|by eapply fds_kept_trans|auto].
  - by intros k k' (?&?&?).
  - by intros k k' (?&?&?).
  - apply quiet_composes.
Qed.

(** A write of a tuple they compose. *)
Lemma stored_composes v (k k' : K) :
  stored "tc_bundle_map" (le_split 4 pdr_id) v k k' -> kernel_ok k' -> composed ms old (live_slot (read_tc_bundle v)) ->
  composes k k'.
Proof.
  intros Hst Hk Hc. split_and!; [done|by destruct Hst as (_ & _ & ?)|]. intros _.
  destruct (stored_bundle_live _ _ _ _ Hst) as [Hl _]. by eexists.
Qed.

Definition modifying (s : fd_cache) (k : K) : Prop := cache_ok s k /\ kernel_ok k /\ shows_composed k.

Lemma pwp_modify_composes far_id qer_id urr_id precedence s k :
  (far_id, qer_id, urr_id, precedence) ∈ ms -> modifying s k ->
  pwp sys_bpf composes composes (modify_tc_bundle pdr_id far_id qer_id urr_id precedence) s (fun _ s' k' => modifying s' k') k.
Proof using Type*.
  intros Hin (Hs & Hk & Hsh).
  apply pwp_modify_body; [done|apply composes_stable|apply quiet_composes|done|done| |].
  { intros s' k1 e (_ & _ & Hr) Hs1 Hk1 _ _. split_and!; auto. }
  intros s' k1 raw Hr Hs1 Hk1 [_ Hc] Hraw a cur new. destruct (proj2 (proj2 Hr) Hsh) as (sl & Hl & Hcomp).
  assert (Hcur : composed ms old cur).
  { unfold live in Hl. rewrite Hraw in Hl. apply (inj Some) in Hl. unfold cur. by rewrite Hl. }
  assert (Hnew : composed ms old new) by exact (composed_with _ _ _ _ Hin Hcur).
  split; [intros _; split_and!; [done..|by exists sl]|]. intros v1 v2 _ L1 L2 R1 R2.
  pose proof (active_slot_lt raw) as Ha. fold a in Ha.
  destruct (prepared_slots _ _ _ _ _ Ha R1) as (A1 & C1 & N1). destruct (prepared_slots _ _ _ _ _ Ha R2) as (A2 & C2 & N2).
  assert (Hv1 : composed ms old (live_slot (read_tc_bundle v1))).
  { rewrite live_slot_read. unfold active_slot. by rewrite A1, land_of_nat, C1. }
  assert (Hv2 : composed ms old (live_slot (read_tc_bundle v2))).
  { rewrite live_slot_read. unfold active_slot. rewrite A2, land_of_nat, N2 by lia. done. }
  assert (Hstep : forall v s1 k1, length v = c_sizeof L_tc_bundle -> composed ms old (live_slot (read_tc_bundle v)) -> modifying s1 k1 ->
    pwp sys_bpf composes composes (map_update "tc_bundle_map" (le_split 4 pdr_id) v) s1 (fun _ s' k' => modifying s' k') k1).
  { intros v s1 k2 Lv Cv (Hs2 & Hk2 & Hsh2).
    eapply pwp_map_update with (d := bundle_def);
      [apply composes_stable|apply quiet_composes|reflexivity|reflexivity|apply length_le_split|done..| |].
    - intros s3 k3 e (_ & _ & Hr3) Hs3 Hk3 _ _. split_and!; auto.
    - intros s3 k3 k4 Hr3 Hk3 Hst Hs4 Hk4 _. pose proof (stored_composes v k3 k4 Hst Hk4 Cv) as Hc4. split; [done|].
      split_and!; [done..|]. by apply Hc4, Hr3. }
  apply pwp_bind. eapply pwp_mono; [by apply Hstep; [..|split_and!; [done..|by exists sl]]|done|].
  intros [[]|e] s2 k2 Hm2; [|done]. do 2 apply pwp_bind, pwp_lift. apply pwp_bind.
  eapply pwp_mono; [by apply Hstep|done|]. intros [[]|e] s3 k3 Hm3; [|done]. by apply pwp_ret.
Qed.

Lemma pwp_modifier mine s k :
  mine ⊆ ms -> modifying s k ->
  pwp sys_bpf composes composes (modifier pdr_id mine) s (fun _ s' k' => modifying s' k') k.
Proof using Type*.
  intros Hsub Hm. apply (pwp_for_each _ _ _ _ _ (fun _ s k => modifying s k)) with (done_ := []); [done| |done].
  intros pre [[[far_id qer_id] urr_id] precedence] post s1 k1 -> Hm1. apply pwp_bind. eapply pwp_mono.
  - apply pwp_modify_composes; [apply Hsub; set_solver|exact Hm1].
  - done.
  - by intros [gen|e] s2 k2.
Qed.
End modifiers.

(** Two processes on the reference kernel, each with its own descriptors, one
    changing the FAR of the PDR and the other its QER. *)
Definition demo_modifiers : list (fd_cache * list modification) :=
  [(demo_cache, [(Some 3, None, None, None)]); (demo_cache, [(None, Some 5, None, None)])].

Abbreviation modifiers_of pdr_id := (fmap (fun w : fd_cache * list modification => modifier pdr_id w.2 w.1)).

Lemma demo_modifiers_ok : Forall (fun w => cache_ok w.1 demo_kernel) demo_modifiers.
Proof. do 2 (apply Forall_cons; split; [exact demo_cache_ok|]). by apply Forall_nil_2. Qed.

(** C30: concurrent modifiers of a PDR never expose a hybrid, but lose updates.
    Take any number of processes, each making any modifications of the PDR one
    after the other, and an environment that leaves its bundle alone: however
    their system calls interleave, the live tuple is always the old one with
    some of the modifications applied to it, in some order.  The protocol still
    needs a single writer: there are a machine and two processes such that
    after the second one has returned, its update live, the datapath goes back
    to the old tuple, and in the end the update is lost although both have
    succeeded. *)
Theorem concurrent_modifiers :
  (forall (K : Type) (HK : BpfKernel K) (HL : BpfKernelLaws K) pdr_id old
     (writers : list (fd_cache * list modification)) (k k' : K) ps,
     is_u32 pdr_id -> kernel_ok k -> live pdr_id k = Some old -> Forall (fun w => cache_ok w.1 k) writers ->
     rtc (pool_move sys_bpf (others pdr_id)) (modifiers_of pdr_id writers, k) (ps, k') ->
     exists sl, live pdr_id k' = Some sl /\ composed (writers ≫= snd) old sl) /\
  exists ps1 ps2 s1 s2 (k0 k1 k2 k3 : ref_kernel),
    kernel_ok k0 /\ Forall (fun w => cache_ok w.1 k0) demo_modifiers /\ live 0x2000 k0 = Some demo_slot /\
    rtc (pool_move ref_sys (others 0x2000)) (modifiers_of 0x2000 demo_modifiers, k0) (ps1, k1) /\
    ps1 !! 1%nat = Some (Ret (s2, Ok tt)) /\ live 0x2000 k1 = Some (updated demo_slot None (Some 5) None None) /\
    rtc (pool_move ref_sys (others 0x2000)) (ps1, k1) (ps2, k2) /\ live 0x2000 k2 = Some demo_slot /\
    rtc (pool_move ref_sys (others 0x2000)) (ps2, k2) ([Ret (s1, Ok tt); Ret (s2, Ok tt)], k3) /\
    live 0x2000 k3 = Some (updated demo_slot (Some 3) None None None).
Proof.
  split.
  - intros K HK HL pdr_id old writers k k' ps Hp Hk Hl Hw Hx.
    apply (pool_keeps sys_bpf (others pdr_id) (composes pdr_id (writers ≫= snd) old) (composes pdr_id (writers ≫= snd) old)
      (shows_composed pdr_id (writers ≫= snd) old) _ _ _ _ (sr_trans _ (composes_stable _ _ _)) (others_composes _ _ _)
      (fun _ _ h => h) (fun _ _ h => proj2 (proj2 h))) with (2 := Hx); [|exists old; split; [done|constructor]].
    apply Forall_forall. intros p (w & -> & Hin)%list_elem_of_fmap.
    eapply wp_mono; [done| |apply (pwp_modifier pdr_id Hp (writers ≫= snd) old w.2 w.1 k)]; [done| |].
    + intros m Hm. apply list_elem_of_bind. by exists w.
    + rewrite Forall_forall in Hw. split_and!; [by apply Hw|done|]. exists old. split; [done|constructor].
  - pose (c1 := pool_run ref_sys [0; 1; 1; 1]%nat (modifiers_of 0x2000 demo_modifiers, demo_kernel)).
    pose (c2 := pool_run ref_sys [0]%nat c1). pose (c3 := pool_run ref_sys [0]%nat c2).
    exists c1.1, c2.1, demo_cache, demo_cache, demo_kernel, c1.2, c2.2, c3.2.
    split; [exact demo_kernel_ok|]. split; [exact demo_modifiers_ok|]. split; [exact demo_live|].
    rewrite <-!surjective_pairing.
    split; [apply pool_run_moves, others_refl|]. split; [reflexivity|]. split; [vm_compute; reflexivity|].
    split; [apply pool_run_moves, others_refl|]. split; [vm_compute; reflexivity|].
    split; [|vm_compute; reflexivity].
    replace ([Ret (demo_cache, Ok ()); Ret (demo_cache, Ok ())], c3.2) with c3 by reflexivity.
    apply pool_run_moves, others_refl.
Qed.

Lemma concurrent_modifiers_witness :
  let c := pool_run ref_sys [0; 1; 1; 0; 1; 0]%nat (modifiers_of 0x2000 demo_modifiers, demo_kernel) in
  exists sl, live 0x2000 c.2 = Some sl /\ composed [(Some 3, None, None, None); (None, Some 5, None, None)] demo_slot sl.
Proof.
  intros c. refine (proj1 concurrent_modifiers ref_kernel _ _ 0x2000 demo_slot demo_modifiers demo_kernel c.2 c.1
    _ demo_kernel_ok demo_live _ _); [vm_compute; by split|exact demo_modifiers_ok|].
  rewrite <-surjective_pairing. apply (pool_run_moves ref_sys (others 0x2000)), others_refl.
Defined.
