(* ===== verification/Sessions.v ===== *)
(** * Sessions: the rules a packet needs, and the order they are written in

    [install_session] and [remove_session] (agent.py) keep an ordering
    discipline: [teid_session] is written last and removed first.  [complete]
    is what it buys: a TEID the datapath can find always leads to a PDR and a
    bundle, at every instant and whatever else runs. *)

From S2P Require Import Prelude Prog PyStruct UpfMaps Kernel BpfSyscall Encoders Agent Qer Datapath Bundle.

Section sessions.
Context `{BpfKernelLaws K}.

(** What follows a write or a removal in maps that are not LRU hashes. *)
Lemma frame_same name key k k' n j :
  frame name (Some key) k k' -> (n, j) <> (name, key) -> is_lru n = false \/ n <> name ->
  contents k' n j = contents k n j.
Proof.
  intros Hf Hne Hl. destruct (Hf n j) as [?|(-> & Hlru & _)]; [congruence|done|].
  destruct Hl; congruence.
Qed.

Lemma frame_sub name key k k' n j v :
  frame name (Some key) k k' -> (n, j) <> (name, key) ->
  contents k' n j = Some v -> contents k n j = Some v.
Proof. intros Hf Hne Hv. destruct (Hf n j) as [?|(_ & _ & ?)]; congruence. Qed.

(** Every session the datapath can find has its PDR and its bundle. *)
Definition complete (k : K) : Prop :=
  forall tk v, contents k "teid_session" tk = Some v ->
    is_Some (contents k "pdr_table" (slice 0 4 v)) /\
    is_Some (contents k "tc_bundle_map" (slice 0 4 v)).

(** Others may install and replace rules, and evict sessions, but they remove
    no PDR and no bundle and keep [complete] themselves. *)
Record keeps_rules (k k' : K) : Prop := {
  kr_ok : kernel_ok k -> kernel_ok k';
  kr_fds : fds_kept k k';
  kr_complete : complete k -> complete k';
  kr_pdr : forall j, is_Some (contents k "pdr_table" j) -> is_Some (contents k' "pdr_table" j);
  kr_bundle : forall j, is_Some (contents k "tc_bundle_map" j) -> is_Some (contents k' "tc_bundle_map" j);
}.

Lemma quiet_complete k k' : quiet k k' -> complete k -> complete k'.
Proof. intros (Hs & _ & _) Hc tk v. rewrite !Hs. apply Hc. Qed.

Lemma keeps_rules_stable : stable_rely keeps_rules.
Proof.
  split.
  - intros k1 k2 k3 [] []. split; eauto using fds_kept_trans.
  - by intros ?? [].
  - by intros ?? [].
  - intros k k' Hq. pose proof Hq as (Hs & ? & ?). split; [done|done|by apply quiet_complete|..];
      intros j; by rewrite Hs.
Qed.

Definition keeps_complete (k k' : K) : Prop := complete k -> complete k'.

Lemma quiet_keeps_complete k k' : quiet k k' -> keeps_complete k k'.
Proof. exact (quiet_complete k k'). Qed.

(** Storing a rule in a hash map keeps what is there and adds its key. *)
Lemma stored_present name key val k k' :
  is_lru name = false -> stored name key val k k' ->
  (forall n j, is_lru n = false -> is_Some (contents k n j) -> is_Some (contents k' n j)) /\
  (forall n j, n <> name -> contents k' n j = contents k n j).
Proof.
  intros Hl (Hc & Hf & _). split.
  - intros n j Hn Hj. destruct (decide ((n, j) = (name, key))) as [[= -> ->]|Hne]; [by rewrite Hc|].
    rewrite (frame_same _ _ _ _ _ _ Hf Hne); auto.
  - intros n j Hn. apply (frame_same _ _ _ _ _ _ Hf); [congruence|by right].
Qed.

Lemma stored_complete name key val k k' :
  is_lru name = false -> name <> "teid_session"%string -> stored name key val k k' -> keeps_complete k k'.
Proof.
  intros Hl Hn Hst Hc tk v. destruct (stored_present _ _ _ _ _ Hl Hst) as [Hkeep Hsame].
  rewrite Hsame by done. intros Hv. destruct (Hc _ _ Hv). split; by apply Hkeep.
Qed.

Lemma stored_session_complete tk v k k' :
  stored "teid_session" tk v k k' ->
  is_Some (contents k "pdr_table" (slice 0 4 v)) -> is_Some (contents k "tc_bundle_map" (slice 0 4 v)) ->
  keeps_complete k k'.
Proof.
  intros (Hc & Hf & _) Hp Hb Hk tk' v' Hv'.
  assert (Hsame : forall n j, n <> "teid_session"%string -> contents k' n j = contents k n j).
  { intros n j Hn. apply (frame_same _ _ _ _ _ _ Hf); [congruence|by right]. }
  rewrite !Hsame by done. destruct (decide (tk' = tk)) as [->|Hne].
  - rewrite Hc in Hv'. by simplify_eq.
  - apply (Hk tk'). eapply (frame_sub _ _ _ _ _ _ _ Hf); [congruence|done].
Qed.

(** The key of a session's PDR in its encoded value. *)
Lemma enc_session_key pdr qer far v : enc_session pdr qer far = Ok v -> slice 0 4 v = le_split 4 pdr.
Proof.
  unfold enc_session, pack. cbn [parse_fmt]. intros Hv. apply pack_codes_inv in Hv as [_ ->]. done.
Qed.

(** ** Writes in stages *)

Section stages.
Context (rely guar : K -> K -> Prop) (Hrely : stable_rely rely).
Context (Hguar : forall k k', quiet k k' -> guar k k').

(** One write, between assertions the environment keeps. *)
Lemma pwp_store (P Q : K -> Prop) name d key val s k :
  (forall k k', rely k k' -> P k -> P k') ->
  map_def_of name = Some d -> is_plain d = true ->
  length key = md_ksize d -> length val = md_vsize d ->
  cache_ok s k -> kernel_ok k -> P k ->
  (forall k1 k2, P k1 -> stored name key val k1 k2 -> guar k1 k2 /\ Q k2) ->
  pwp sys_bpf rely guar (map_update name key val) s
    (fun r s' k' => cache_ok s' k' /\ kernel_ok k' /\ s ⊆ s' /\
       match r with
       | Ok _ => Q k' /\ is_Some (s' !! name)
       | Exc (OSError _) => P k'
       | Exc _ => False
       end) k.
Proof using Type*.
  intros HP Hd Hp Hkey Hval Hs Hk HPk HQ.
  eapply pwp_map_update; [done..| |].
  - intros s' k1 e Hr Hs1 Hk1 Hsub _. split_and!; eauto.
  - intros s' k1 k2 Hr Hk1 Hst Hs2 Hk2 [Hsub Hc]. destruct (HQ k1 k2); [eauto|done|].
    split; [done|]. split_and!; done.
Qed.

(** [install_session]: three writes, [P0] to [P3] between them. *)
Definition rule_fits (pdr_id qer_id far_id precedence urr_id : Z) : Prop :=
  is_u32 pdr_id /\ is_u32 far_id /\ is_u32 qer_id /\ is_u32 precedence /\ is_u32 urr_id.

(** The maps of a session are open. *)
Definition rules_cached (s : fd_cache) : Prop :=
  forall name, name ∈ ["teid_session"; "pdr_table"; "tc_bundle_map"]%string -> is_Some (s !! name).

Lemma pwp_install_session (P0 P1 P2 P3 : K -> Prop) teid pdr_id qer_id far_id precedence urr_id s k :
  (forall k k', rely k k' -> P0 k -> P0 k') ->
  (forall k k', rely k k' -> P1 k -> P1 k') ->
  (forall k k', rely k k' -> P2 k -> P2 k') ->
  cache_ok s k -> kernel_ok k -> P0 k ->
  (forall v k1 k2, is_u32 pdr_id -> enc_pdr far_id qer_id precedence urr_id = Ok v -> P0 k1 ->
     stored "pdr_table" (le_split 4 pdr_id) v k1 k2 -> guar k1 k2 /\ P1 k2) ->
  (forall sl v k1 k2, enc_bundle_slot far_id qer_id urr_id precedence 0 = Ok sl -> enc_bundle 0 sl sl = Ok v -> P1 k1 ->
     stored "tc_bundle_map" (le_split 4 pdr_id) v k1 k2 -> guar k1 k2 /\ P2 k2) ->
  (forall v k1 k2, is_u32 teid -> enc_session pdr_id qer_id far_id = Ok v -> P2 k1 ->
     stored "teid_session" (le_split 4 teid) v k1 k2 -> guar k1 k2 /\ P3 k2) ->
  pwp sys_bpf rely guar (install_session teid pdr_id qer_id far_id precedence urr_id) s
    (fun r s' k' => cache_ok s' k' /\ kernel_ok k' /\ s ⊆ s' /\
       match r with
       | Ok _ => rule_fits pdr_id qer_id far_id precedence urr_id /\ is_u32 teid /\ P3 k' /\ rules_cached s'
       | Exc StructError =>
           ~ rule_fits pdr_id qer_id far_id precedence urr_id /\ P0 k' \/
           rule_fits pdr_id qer_id far_id precedence urr_id /\ ~ is_u32 teid /\ P2 k'
       | Exc (OSError _) => P0 k' \/ P1 k' \/ P2 k'
       | Exc _ => False
       end) k.
Proof using Type*.
  intros S0 S1 S2 Hs Hk HP0 W1 W2 W3. unfold install_session, install_tc_bundle.
  apply pwp_bind, pwp_lift. destruct (decide (is_u32 pdr_id)) as [Hp|Hp].
  2:{ rewrite enc_u32_exc by done. split_and!; [done..|]. left. split; [|done]. by intros []. }
  rewrite enc_u32_ok by done. apply pwp_bind, pwp_lift.
  destruct (enc_pdr far_id qer_id precedence urr_id) as [pv|e] eqn:Hpv.
  2:{ rewrite (pack_exc _ _ _ Hpv). split_and!; [done..|]. left. split; [|done].
      intros (_ & ? & ? & ? & ?). destruct (enc_pdr_ok far_id qer_id precedence urr_id) as [? E]; [done..|].
      congruence. }
  destruct (enc_pdr_inv _ _ _ _ _ Hpv) as (Hf & Hq & Hpr & Hu). destruct (enc_pdr_layout _ _ _ _ _ Hpv) as [_ Lpv].
  apply pwp_bind. eapply pwp_mono;
    [eapply (pwp_store P0 P1); [done|reflexivity|reflexivity|apply length_le_split|done..|]|done|].
  { intros k1 k2. by apply W1. }
  intros [[]|[]] s1 k1 (Hs1 & Hk1 & Hsub1 & H1); try done; [|by split_and!; eauto].
  destruct H1 as [H1 C1]. do 2 apply pwp_bind. apply pwp_lift.
  destruct (enc_slot_ok {| slot_far_id := far_id; slot_qer_id := qer_id; slot_urr_id := urr_id;
    slot_precedence := precedence; slot_generation := 0 |}) as [sl Hsl]; [repeat split; cbn; lia|].
  pose proof Hsl as Hsl'.
  change (enc_bundle_slot far_id qer_id urr_id precedence 0 = Ok sl) in Hsl. rewrite Hsl. apply pwp_bind, pwp_lift.
  apply pwp_bind, pwp_lift. destruct (enc_bundle_ok 0 sl sl) as [bv Hbv]; [done|]. rewrite Hbv.
  destruct (enc_bundle_layout 0 _ _ _ _ _ Hsl' Hsl' Hbv) as [_ Lbv].
  eapply pwp_mono;
    [eapply (pwp_store P1 P2); [done|reflexivity|reflexivity|apply length_le_split|done..|]|done|].
  { intros k2 k3. by apply (W2 sl bv). }
  intros [[]|[]] s2 k2 (Hs2 & Hk2 & Hsub2 & H2); try done; [|split_and!; [done|done|by etrans|by auto]].
  destruct H2 as [H2 C2]. apply pwp_bind, pwp_lift.
  destruct (decide (is_u32 teid)) as [Ht|Ht].
  2:{ rewrite enc_u32_exc by done. split_and!; [done|done|by etrans|]. right. by split_and!. }
  rewrite (enc_u32_ok teid) by done. apply pwp_bind, pwp_lift.
  destruct (enc_session_ok pdr_id qer_id far_id) as [sv Hsv]; [done..|]. rewrite Hsv.
  destruct (enc_session_layout _ _ _ _ Hsv) as [_ Lsv].
  eapply pwp_mono;
    [eapply (pwp_store P2 P3); [done|reflexivity|reflexivity|apply length_le_split|done..|]|done|].
  { intros k3 k4. by apply (W3 sv). }
  intros [[]|[]] s3 k3 (Hs3 & Hk3 & Hsub3 & H3); try done;
    (split; [done|]; split; [done|]; split; [by do 2 (etrans; [eassumption|])|]); [|by auto].
  destruct H3 as [H3 C3]. do 3 (split; [done|]). intros name.
  assert (Hin : forall s1 s2 : fd_cache, s1 ⊆ s2 -> is_Some (s1 !! name) -> is_Some (s2 !! name)).
  { intros ?? Hsub [f E]. exists f. by eapply lookup_weaken. }
  intros [->|[->|[->|[]%elem_of_nil]%elem_of_cons]%elem_of_cons]%elem_of_cons; eauto.
Qed.

(** One removal: nothing it raises reaches the caller. *)
Lemma pwp_erase (P Q : K -> Prop) name d key s k :
  (forall k k', rely k k' -> P k -> P k') ->
  map_def_of name = Some d -> is_plain d = true -> md_type d <> MT_ARRAY ->
  length key = md_ksize d -> cache_ok s k -> kernel_ok k -> P k ->
  (forall k1 k2, P k1 -> removed name key k1 k2 -> guar k1 k2 /\ Q k2) ->
  (forall k1, P k1 -> contents k1 name key = None -> Q k1) ->
  pwp sys_bpf rely guar (map_delete name key) s
    (fun r s' k' => cache_ok s' k' /\ kernel_ok k' /\ s ⊆ s' /\ r = Ok tt /\
       (Q k' \/ s !! name = None /\ P k')) k.
Proof using Type*.
  intros HP Hd Hp Ht Hkey Hs Hk HPk HQ HN.
  eapply pwp_map_delete; [done..| |].
  - intros s' k1 Hr Hs1 Hk1 Hsub Hn. assert (P k1) by eauto. do 4 (split; [done|]).
    destruct (s !! name); [left; eauto|by right].
  - intros s' k1 k2 Hr Hk1 Hst Hs2 Hk2 [Hsub Hc]. destruct (HQ k1 k2); [eauto|done|].
    split; [done|]. do 4 (split; [done|]). by left.
Qed.

Lemma pwp_remove_session (P0 P1 P2 P3 : K -> Prop) teid pdr_id s k :
  (forall k k', rely k k' -> P0 k -> P0 k') ->
  (forall k k', rely k k' -> P1 k -> P1 k') ->
  (forall k k', rely k k' -> P2 k -> P2 k') ->
  is_u32 teid -> is_u32 pdr_id -> rules_cached s ->
  cache_ok s k -> kernel_ok k -> P0 k ->
  (forall k1 k2, P0 k1 -> removed "teid_session" (le_split 4 teid) k1 k2 -> guar k1 k2 /\ P1 k2) ->
  (forall k1, P0 k1 -> contents k1 "teid_session" (le_split 4 teid) = None -> P1 k1) ->
  (forall k1 k2, P1 k1 -> removed "pdr_table" (le_split 4 pdr_id) k1 k2 -> guar k1 k2 /\ P2 k2) ->
  (forall k1, P1 k1 -> contents k1 "pdr_table" (le_split 4 pdr_id) = None -> P2 k1) ->
  (forall k1 k2, P2 k1 -> removed "tc_bundle_map" (le_split 4 pdr_id) k1 k2 -> guar k1 k2 /\ P3 k2) ->
  (forall k1, P2 k1 -> contents k1 "tc_bundle_map" (le_split 4 pdr_id) = None -> P3 k1) ->
  pwp sys_bpf rely guar (remove_session teid pdr_id) s
    (fun r s' k' => cache_ok s' k' /\ kernel_ok k' /\ s ⊆ s' /\ r = Ok tt /\ P3 k') k.
Proof using Type*.
  intros S0 S1 S2 Ht Hp Hc Hs Hk HP0 E1 N1 E2 N2 E3 N3. unfold remove_session.
  assert (Hin : forall (s' : fd_cache) name, s ⊆ s' ->
    name ∈ ["teid_session"; "pdr_table"; "tc_bundle_map"]%string -> s' !! name <> None).
  { intros s' name Hsub Hn E. destruct (Hc name Hn) as [f Hf].
    by rewrite (lookup_weaken _ _ _ _ Hf Hsub) in E. }
  apply pwp_bind, pwp_lift. rewrite (enc_u32_ok teid) by done. apply pwp_bind.
  eapply pwp_mono; [eapply (pwp_erase P0 P1); [done|reflexivity|reflexivity|done|apply length_le_split|eauto..]|done|].
  intros r s1 k1 (Hs1 & Hk1 & Hsub1 & -> & [H1|[Hn _]]); [|by destruct (Hin s "teid_session"%string); [|left|]].
  apply pwp_bind, pwp_lift. rewrite (enc_u32_ok pdr_id) by done. apply pwp_bind.
  eapply pwp_mono; [eapply (pwp_erase P1 P2); [done|reflexivity|reflexivity|done|apply length_le_split|eauto..]|done|].
  intros r s2 k2 (Hs2 & Hk2 & Hsub2 & -> & [H2|[Hn _]]); [|by destruct (Hin s1 "pdr_table"%string); [|right; left|]].
  apply pwp_bind, pwp_lift.
  eapply pwp_mono; [eapply (pwp_erase P2 P3); [done|reflexivity|reflexivity|done|apply length_le_split|eauto..]|done|].
  intros r s3 k3 (Hs3 & Hk3 & Hsub3 & -> & [H3|[Hn _]]);
    [|by destruct (Hin s2 "tc_bundle_map"%string); [by etrans|right; right; left|]].
  do 2 (split; [done|]). split; [by do 2 (etrans; [eassumption|])|done].
Qed.
End stages.

(** ** The ordering discipline *)

Abbreviation has k name key := (is_Some (contents k name key)).

(** C7: a TEID the datapath can find always has its rules, while a session is
    being installed.  At every point of every interleaving of
    [install_session] (any arguments, failing or not) with an environment that
    removes no PDR and no bundle, every entry of [teid_session] refers to a
    PDR in [pdr_table] and a bundle in [tc_bundle_map]. *)
Theorem install_session_complete teid pdr_id qer_id far_id precedence urr_id s k p' k' :
  cache_ok s k -> kernel_ok k -> complete k ->
  exec sys_bpf keeps_rules
    (install_session teid pdr_id qer_id far_id precedence urr_id s, k) (p', k') ->
  complete k'.
Proof.
  intros Hs Hk Hc Hx. set (pk := le_split 4 pdr_id).
  eapply (wp_exec_inv sys_bpf keeps_rules keeps_complete complete);
    [by intros ?? []|by intros ?? H1; apply H1| |exact Hx|done].
  eapply (pwp_install_session keeps_rules keeps_complete keeps_rules_stable quiet_keeps_complete
    (fun _ => True) (fun k => has k "pdr_table" pk) (fun k => has k "pdr_table" pk /\ has k "tc_bundle_map" pk)
    (fun _ => True)); try done.
  - intros ?? []. auto.
  - intros ?? [] []. auto.
  - intros v k1 k2 _ _ _ Hst. split; [by eapply stored_complete, Hst|]. destruct Hst as [Hst _]. by eexists.
  - intros sl v k1 k2 _ _ Hp Hst. split; [by eapply stored_complete, Hst|]. split.
    + by apply (stored_present "tc_bundle_map" _ _ _ _ eq_refl Hst).
    + destruct Hst as [Hst _]. by eexists.
  - intros v k1 k2 _ Hv [Hp Hb] Hst. split; [|done].
    eapply stored_session_complete; [done|..]; by rewrite (enc_session_key _ _ _ _ Hv).
Qed.

(** No session refers to this PDR. *)
Definition unlinked (pk : bytes) (k : K) : Prop :=
  forall tk v, contents k "teid_session" tk = Some v -> slice 0 4 v <> pk.

(** The environment of a removal also adds no session on the PDR removed. *)
Definition keeps_rules_unlinked (pk : bytes) (k k' : K) : Prop :=
  keeps_rules k k' /\
  forall tk v, contents k' "teid_session" tk = Some v -> slice 0 4 v = pk ->
    exists v', contents k "teid_session" tk = Some v' /\ slice 0 4 v' = pk.

Lemma keeps_rules_unlinked_stable pk : stable_rely (keeps_rules_unlinked pk).
Proof.
  pose proof keeps_rules_stable as [T O F Q]. split.
  - intros k1 k2 k3 [A1 B1] [A2 B2]. split; [by eapply T|].
    intros tk v Hv Hp. destruct (B2 _ _ Hv Hp) as (v' & Hv' & Hp'). eauto.
  - intros ?? [? _]. by apply O.
  - intros ?? [? _]. by apply F.
  - intros k k' Hq. split; [by apply Q|]. intros tk v. rewrite (proj1 Hq). eauto.
Qed.

(** Removing what no session refers to. *)
Lemma removed_complete name pk k k' :
  is_lru name = false -> name <> "teid_session"%string -> unlinked pk k -> removed name pk k k' ->
  keeps_complete k k' /\ unlinked pk k'.
Proof.
  intros Hl Hn Hu (Hc & Hf & _).
  assert (Hsess : forall tk, contents k' "teid_session" tk = contents k "teid_session" tk).
  { intros tk. apply (frame_same _ _ _ _ _ _ Hf); [congruence|by right]. }
  split; [|intros tk v; rewrite Hsess; apply Hu].
  intros Hk tk v. rewrite Hsess. intros Hv. specialize (Hu _ _ Hv). destruct (Hk _ _ Hv) as [Hp Hb].
  split; rewrite (frame_same _ _ _ _ _ _ Hf); try done; by (congruence || left).
Qed.

(** C14: the same while a session is removed, if it has its PDR to itself.  With
    the session maps open and [teid] the only TEID on [pdr_id], and an
    environment that removes no PDR and no bundle and points no session at that
    PDR, [remove_session] returns without raising, every entry of [teid_session]
    has its PDR and its bundle at every point of every interleaving, and at the
    end no session refers to the PDR.  ([shared_pdr_dangles] below: a second
    TEID on the PDR would be left without its rules.) *)
Theorem remove_session_complete teid pdr_id s k p' k' :
  cache_ok s k -> kernel_ok k -> complete k -> is_u32 teid -> is_u32 pdr_id -> rules_cached s ->
  (forall tk v, contents k "teid_session" tk = Some v -> slice 0 4 v = le_split 4 pdr_id -> tk = le_split 4 teid) ->
  exec sys_bpf (keeps_rules_unlinked (le_split 4 pdr_id)) (remove_session teid pdr_id s, k) (p', k') ->
  complete k' /\
  (forall s' r, p' = Ret (s', r) -> r = Ok tt /\ unlinked (le_split 4 pdr_id) k').
Proof.
  intros Hs Hk Hc Ht Hp Hca Hsole Hx. set (pk := le_split 4 pdr_id) in *. set (tk := le_split 4 teid) in *.
  set (sole := fun k : K => forall tk' v, contents k "teid_session" tk' = Some v -> slice 0 4 v = pk -> tk' = tk).
  assert (Hst : forall k1 k2, keeps_rules_unlinked pk k1 k2 -> unlinked pk k1 -> unlinked pk k2).
  { intros k1 k2 [_ Hn] Hu tk' v Hv Hpk. destruct (Hn _ _ Hv Hpk) as (v' & Hv' & Hpk'). by destruct (Hu _ _ Hv'). }
  assert (Hwp : pwp sys_bpf (keeps_rules_unlinked pk) keeps_complete (remove_session teid pdr_id) s
    (fun r s' k' => cache_ok s' k' /\ kernel_ok k' /\ s ⊆ s' /\ r = Ok tt /\ unlinked pk k') k).
  { apply (pwp_remove_session _ _ (keeps_rules_unlinked_stable pk) quiet_keeps_complete
      sole (unlinked pk) (unlinked pk) (unlinked pk)); try done.
    - intros k1 k2 [_ Hn] Hso tk' v Hv Hpk. destruct (Hn _ _ Hv Hpk) as (v' & Hv' & Hpk'). eauto.
    - intros k1 k2 Hso (Hgone & Hf & _). fold tk in Hgone, Hf.
      assert (Hback : forall tk' v, contents k2 "teid_session" tk' = Some v ->
        tk' <> tk /\ contents k1 "teid_session" tk' = Some v).
      { intros tk' v Hv. destruct (decide (tk' = tk)) as [->|Hne]; [congruence|].
        split; [done|]. eapply (frame_sub _ _ _ _ _ _ _ Hf); [congruence|done]. }
      split.
      + intros Hk1 tk' v Hv. destruct (Hback _ _ Hv) as [_ Hv1].
        rewrite !(frame_same _ _ _ _ _ _ Hf) by (first [congruence|by right]). by apply (Hk1 tk').
      + intros tk' v Hv Hpk. destruct (Hback _ _ Hv) as [Hne Hv1]. by destruct Hne; eapply Hso.
    - intros k1 Hso Hn tk' v Hv Hpk. pose proof (Hso _ _ Hv Hpk) as ->. fold tk in Hn. congruence.
    - intros k1 k2 Hu Hr. by eapply removed_complete, Hr.
    - intros k1 k2 Hu Hr. by eapply removed_complete, Hr. }
  split.
  - eapply (wp_exec_inv sys_bpf (keeps_rules_unlinked pk) keeps_complete complete); [by intros ?? [[] _]|by intros ?? H1; apply H1
      |exact Hwp|exact Hx|done].
  - intros s' r ->. by destruct (wp_exec_ret _ _ _ _ _ _ _ _ Hwp Hx) as (_ & _ & _ & ? & ?).
Qed.

(** ** The two stages agree *)

(** A lookup in an array map whose index is in range cannot miss. *)
Lemma far_table_total k far_id :
  kernel_ok k -> 0 <= far_id < 4096 -> is_Some (contents k "far_table" (le_split 4 far_id)).
Proof.
  intros Hk Hf. apply (law_array k "far_table"
    {| md_type := MT_ARRAY; md_ksize := 4; md_vsize := c_sizeof L_far_val; md_max := 4096 |} _ Hk eq_refl eq_refl).
  unfold array_index. cbn [md_ksize md_max]. rewrite bool_decide_eq_true_2 by apply length_le_split.
  rewrite le_combine_split_small by (change (2 ^ (Z.of_nat 4 * 8)) with (2 ^ 32); lia).
  apply Z.ltb_lt, Hf.
Qed.

Lemma far_forward_miss_far build adj redir lookup kt skb far_id qer_id urr_id pdr_id gen outer t_entry st :
  metric (upf_far_forward build adj redir lookup kt skb far_id qer_id urr_id pdr_id gen outer t_entry st).2 M_TC_MISS_FAR =
  metric st M_TC_MISS_FAR.
Proof.
  rewrite upf_far_forward_eq. repeat case_match; cbn [snd]; repeat case_match;
    rewrite ?metric_emit, ?metric_bump_ne, ?metric_emit, ?metric_bump_ne, ?metric_emit, ?metric_urr_update, ?metric_bump_ne,
      ?metric_set_buckets by done; done.
Qed.

(** What XDP lets through, TC can decide.  When every session has its
    rules and every live bundle names a FAR below 4096, a G-PDU that XDP passes
    as [hit] is never counted by TC as [tc_miss_far]: its session, its bundle
    and its FAR are all found. *)
Theorem hit_finds_far build adj redir kt len st g k ret skb' st' :
  kernel_ok k -> complete k -> gpdu_wf g ->
  (forall pk bv, contents k "tc_bundle_map" pk = Some bv ->
     0 <= slot_far_id (live_slot (read_tc_bundle bv)) < 4096) ->
  upf_xdp_uplink (contents k) (gpdu_bytes g) = Some (XDP_PASS, [M_RX_TOTAL; M_RX_GTPU; M_RX_GPDU; M_HIT]) ->
  upf_tc_ingress build adj redir (contents k) kt {| skb_data := gpdu_bytes g; skb_len := len |} st =
    Some (ret, skb', st') ->
  metric st' M_TC_MISS_FAR = metric st M_TC_MISS_FAR.
Proof.
  intros Hk Hc Hwf Hfar. rewrite xdp_on_gpdu, tc_on_gpdu, xdp_classify_eq, tc_session_eq by done.
  destruct (contents k "teid_session" _) as [v|] eqn:Hv; [|done].
  destruct (Hc _ _ Hv) as [[pv Hp] [bv Hb]]. rewrite Hp, Hb. intros _.
  destruct (far_table_total k _ Hk (Hfar _ _ Hb)) as [fv Hf]. rewrite Hf.
  repeat case_match; intros Hx; apply (inj Some) in Hx; subst.
  - injection Hx as <- <- <-. by rewrite metric_bump_ne.
  - injection Hx as <- <- <-. by rewrite metric_bump_ne, metric_emit.
  - change st' with (ret, skb', st').2. rewrite <-Hx. apply far_forward_miss_far.
  - change st' with (ret, skb', st').2. rewrite <-Hx. apply far_forward_miss_far.
Qed.
End sessions.

(** ** Runs on the reference kernel *)

(** [complete], as a check. *)
Definition complete_check (k : ref_kernel) : Prop :=
  map_Forall (fun _ v => is_Some (ref_contents k "pdr_table" (slice 0 4 v)) /\
                         is_Some (ref_contents k "tc_bundle_map" (slice 0 4 v))) (ref_map k "teid_session").

#[global] Instance complete_check_dec k : Decision (complete_check k) := _.

Lemma complete_check_ok k : bool_decide (complete_check k) = true -> complete k.
Proof.
  intros Hc%bool_decide_eq_true tk v Hv. apply (Hc tk v). cbn [contents ref_kernel_ops] in Hv.
  by rewrite (ref_contents_hash k "teid_session" _ _ eq_refl) in Hv.
Qed.

Lemma keeps_rules_refl `{BpfKernel K} (k : K) : keeps_rules k k.
Proof. split; [done|by intros ???|done..]. Qed.

(** A session on PDR 0x2000 with TEID 0x1000, all maps open. *)
Definition demo_session : ref_kernel * (fd_cache * res unit) :=
  run ref_sys (install_session 0x1000 0x2000 1 1 100 1 ∅) ref_init.

Lemma init_ok : kernel_ok ref_init.
Proof. apply ref_ok_check_ok. vm_compute. reflexivity. Qed.
Lemma empty_cache_ok k : cache_ok ∅ (k : ref_kernel).
Proof. by intros ??. Qed.
Lemma demo_session_ok : kernel_ok demo_session.1.
Proof. apply ref_ok_check_ok. vm_compute. reflexivity. Qed.
Lemma demo_session_cache : cache_ok demo_session.2.1 demo_session.1.
Proof. apply cache_check_ok. vm_compute. reflexivity. Qed.
Lemma demo_session_cached : rules_cached demo_session.2.1.
Proof. intros name. rewrite !elem_of_cons, elem_of_nil. intros [->|[->|[->|[]]]]; vm_compute; by eexists. Qed.
Lemma demo_session_complete : complete demo_session.1.
Proof. apply complete_check_ok. vm_compute. reflexivity. Qed.

Lemma install_session_complete_witness :
  complete demo_session.1 /\ is_Some (contents demo_session.1 "teid_session" (le_split 4 0x1000)).
Proof.
  split; [|vm_compute; by eexists].
  exact (install_session_complete 0x1000 0x2000 1 1 100 1 ∅ ref_init _ demo_session.1 (empty_cache_ok _) init_ok
    (complete_check_ok ref_init ltac:(vm_compute; reflexivity))
    (run_exec_rely ref_sys keeps_rules _ ref_init keeps_rules_refl)).
Defined.

Lemma remove_session_complete_witness :
  let x := run ref_sys (remove_session 0x1000 0x2000 demo_session.2.1) demo_session.1 in
  complete x.1 /\ unlinked (le_split 4 0x2000) x.1.
Proof.
  intros x.
  assert (Hr : forall k : ref_kernel, keeps_rules_unlinked (le_split 4 0x2000) k k).
  { intros k. split; [apply keeps_rules_refl|eauto]. }
  assert (Hsole : forall tk v, contents demo_session.1 "teid_session" tk = Some v ->
    slice 0 4 v = le_split 4 0x2000 -> tk = le_split 4 0x1000).
  { assert (Hall : map_Forall (fun tk v => tk = le_split 4 0x1000) (ref_map demo_session.1 "teid_session")).
    { apply (bool_decide_eq_true_1 _). vm_compute. reflexivity. }
    intros tk v Hv _. apply (Hall tk v). cbn [contents ref_kernel_ops] in Hv.
    by rewrite (ref_contents_hash _ "teid_session" _ _ eq_refl) in Hv. }
  pose proof (run_exec_rely ref_sys (keeps_rules_unlinked (le_split 4 0x2000))
    (remove_session 0x1000 0x2000 demo_session.2.1) demo_session.1 Hr) as Hx.
  fold x in Hx. destruct x as [k' [s' r]].
  destruct (remove_session_complete 0x1000 0x2000 demo_session.2.1 demo_session.1 _ k' demo_session_cache
    demo_session_ok demo_session_complete ltac:(by vm_compute) ltac:(by vm_compute) demo_session_cached Hsole Hx)
    as [Hc Hu].
  split; [exact Hc|]. exact (proj2 (Hu s' r eq_refl)).
Defined.

(** A PDR with two TEIDs: removing one of the sessions takes the rules of the
    other. *)
Lemma shared_pdr_dangles :
  let both := run ref_sys (install_session 0x1001 0x2000 1 1 100 1 demo_session.2.1) demo_session.1 in
  let x := run ref_sys (remove_session 0x1000 0x2000 both.2.1) both.1 in
  complete both.1 /\ x.2.2 = Ok tt /\ ~ complete x.1.
Proof.
  intros both x. split; [apply complete_check_ok; vm_compute; reflexivity|]. split; [vm_compute; reflexivity|].
  intros Hc. destruct (contents x.1 "teid_session" (le_split 4 0x1001)) as [v|] eqn:Ev; [|vm_compute in Ev; discriminate].
  destruct (Hc _ _ Ev) as [[b Hb] _]. assert (Hv : slice 0 4 v = le_split 4 0x2000).
  { vm_compute in Ev. injection Ev as <-. vm_compute. reflexivity. }
  rewrite Hv in Hb. vm_compute in Hb. discriminate.
Qed.

Lemma hit_finds_far_witness :
  let build := {| tc_qer := PerCpu; tc_emit_decision := true; tc_emit_latency := false |} in
  let adj : sk_buff -> Z -> Z -> Z -> option sk_buff := fun skb _ _ _ => Some skb in
  let kt := {| kt_entry := 0; kt_qer := 0; kt_exit := 0; kt_buffer := 0 |} in
  exists st', upf_tc_ingress build adj (fun _ _ => TC_ACT_REDIRECT) (contents demo_session.1) kt
      {| skb_data := gpdu_bytes (plain_gpdu 0x1000 []); skb_len := 50 |} cpu_init =
      Some (TC_ACT_SHOT, {| skb_data := gpdu_bytes (plain_gpdu 0x1000 []); skb_len := 50 |}, st') /\
    metric st' M_TC_MISS_FAR = 0.
Proof.
  intros build adj kt.
  destruct (upf_tc_ingress build adj (fun _ _ => TC_ACT_REDIRECT) (contents demo_session.1) kt
      {| skb_data := gpdu_bytes (plain_gpdu 0x1000 []); skb_len := 50 |} cpu_init) as [[[ret skb'] st']|] eqn:E;
    [|vm_compute in E; discriminate].
  exists st'.
  assert (Hf : forall pk bv, contents demo_session.1 "tc_bundle_map" pk = Some bv ->
     0 <= slot_far_id (live_slot (read_tc_bundle bv)) < 4096).
  { assert (Hall : map_Forall (fun _ bv => 0 <= slot_far_id (live_slot (read_tc_bundle bv)) < 4096)
      (ref_map demo_session.1 "tc_bundle_map")) by (apply (bool_decide_eq_true_1 _); vm_compute; reflexivity).
    intros pk bv Hv. apply (Hall pk bv). cbn [contents ref_kernel_ops] in Hv.
    by rewrite (ref_contents_hash _ "tc_bundle_map" _ _ eq_refl) in Hv. }
  assert (Hwf : gpdu_wf (plain_gpdu 0x1000 [])) by (apply plain_gpdu_wf; split; [discriminate|reflexivity]).
  assert (Hx : upf_xdp_uplink (contents demo_session.1) (gpdu_bytes (plain_gpdu 0x1000 [])) =
    Some (XDP_PASS, [M_RX_TOTAL; M_RX_GTPU; M_RX_GPDU; M_HIT])) by (vm_compute; reflexivity).
  pose proof (hit_finds_far build adj _ kt 50 cpu_init _ _ ret skb' st' demo_session_ok demo_session_complete Hwf Hf Hx E) as Hm.
  split; [|exact Hm]. assert (ret = TC_ACT_SHOT /\ skb' = {| skb_data := gpdu_bytes (plain_gpdu 0x1000 []); skb_len := 50 |})
    as [-> ->] by (vm_compute in E; injection E as <- <- _; by vm_compute). reflexivity.
Defined.
