(* ===== verification/Bootstrap.v ===== *)
(** * Batches of sessions: bootstrap and the rule-update benchmark

    [bootstrap_initial] and [measure_rule_update] (agent.py) against the
    datapath: what a packet finds after the first, and that the second leaves
    the rules as it found them.  The environment may evict sessions (the
    session map is an LRU hash) and nothing else. *)

From S2P Require Import Prelude Prog PyStruct UpfMaps Kernel BpfSyscall Encoders Agent Qer Datapath Bundle Sessions.

(** Keys of the rules of one session. *)
Definition rule_keys (teid pdr_id : Z) : list (string * bytes) :=
  [("teid_session"%string, le_split 4 teid); ("pdr_table"%string, le_split 4 pdr_id);
   ("tc_bundle_map"%string, le_split 4 pdr_id)].

Lemma rule_keys_inv teid pdr_id n j :
  (n, j) ∈ rule_keys teid pdr_id ->
  n = "teid_session"%string /\ j = le_split 4 teid \/
  (n = "pdr_table"%string \/ n = "tc_bundle_map"%string) /\ j = le_split 4 pdr_id.
Proof. unfold rule_keys. rewrite !elem_of_cons, elem_of_nil. naive_solver. Qed.

Section batches.
Context `{BpfKernelLaws K}.

(** Equal contents, up to evicted sessions. *)
Definition kept (k k' : K) (n : string) (j : bytes) : Prop :=
  contents k' n j = contents k n j \/ (is_lru n = true /\ contents k' n j = None).

Record evicts (k k' : K) : Prop := {
  ev_ok : kernel_ok k -> kernel_ok k';
  ev_fds : fds_kept k k';
  ev_kept : forall n j, kept k k' n j;
}.

Lemma kept_trans k1 k2 k3 n j : kept k1 k2 n j -> kept k2 k3 n j -> kept k1 k3 n j.
Proof. intros [E1|[L1 E1]] [E2|[L2 E2]]; unfold kept; rewrite ?E1 in *; auto; right; split; congruence. Qed.

Lemma evicts_stable : stable_rely evicts.
Proof.
  split.
  - intros k1 k2 k3 [] []. split; eauto using fds_kept_trans, kept_trans.
  - by intros ?? [].
  - by intros ?? [].
  - intros k k' (Hs & ? & ?). split; [done|done|]. intros n j. left. by rewrite Hs.
Qed.

Definition anything (k k' : K) : Prop := True.

(** Only the keys [ks] have changed since [k0]. *)
Definition same_but (ks : list (string * bytes)) (k0 k : K) : Prop :=
  forall n j, (n, j) ∉ ks -> kept k0 k n j.

Definition gone (ks : list (string * bytes)) (k : K) : Prop :=
  forall n j, (n, j) ∈ ks -> contents k n j = None.

Lemma same_but_evicts ks k0 k k' : evicts k k' -> same_but ks k0 k -> same_but ks k0 k'.
Proof. intros [] Hs n j Hj. eapply kept_trans; [by apply Hs|done]. Qed.

Lemma gone_evicts ks k k' : evicts k k' -> gone ks k -> gone ks k'.
Proof. intros [_ _ Hk] Hg n j Hj. destruct (Hk n j) as [->|[_ ->]]; auto. Qed.

Lemma frame_kept name key k k' n j : frame name (Some key) k k' -> (n, j) <> (name, key) -> kept k k' n j.
Proof. intros Hf Hne. destruct (Hf n j) as [?|(_ & ? & ?)]; [congruence|by left|by right]. Qed.

Lemma same_but_stored ks k0 name key val k k' :
  (name, key) ∈ ks -> stored name key val k k' -> same_but ks k0 k -> same_but ks k0 k'.
Proof.
  intros Hin (_ & Hf & _) Hs n j Hj. eapply kept_trans; [by apply Hs|].
  eapply frame_kept; [done|]. intros [= -> ->]. done.
Qed.

Lemma same_but_removed ks k0 name key k k' :
  (name, key) ∈ ks -> removed name key k k' -> same_but ks k0 k -> same_but ks k0 k'.
Proof.
  intros Hin (_ & Hf & _) Hs n j Hj. eapply kept_trans; [by apply Hs|].
  eapply frame_kept; [done|]. intros [= -> ->]. done.
Qed.

Lemma gone_removed ks name key k k' : removed name key k k' -> gone ks k -> gone ((name, key) :: ks) k'.
Proof.
  intros (Hc & Hf & _) Hg n j Hj. destruct (decide ((n, j) = (name, key))) as [[= -> ->]|Hne]; [done|].
  apply elem_of_cons in Hj as [?|Hj]; [done|].
  destruct (frame_kept _ _ _ _ _ _ Hf Hne) as [->|[_ ->]]; auto.
Qed.

Lemma gone_cons ks name key k : contents k name key = None -> gone ks k -> gone ((name, key) :: ks) k.
Proof. intros Hn Hg n j [[= -> ->]|Hj]%elem_of_cons; auto. Qed.

Lemma same_but_refl ks k : same_but ks k k.
Proof. intros n j _. by left. Qed.

Lemma quiet_touches ks k k' : quiet k k' -> same_but ks k k'.
Proof. intros (Hq & _) n j _. left. by rewrite Hq. Qed.

(** A write of one of its keys is within [ks], as a step and overall. *)
Lemma touches_stored ks k0 name key val k k' :
  (name, key) ∈ ks -> same_but ks k0 k -> stored name key val k k' -> same_but ks k k' /\ same_but ks k0 k'.
Proof. intros Hin Hs Hst. split; eapply same_but_stored; eauto using same_but_refl. Qed.

(** [install_session] touches its own keys only. *)
Lemma pwp_install_same ks k0 teid pdr_id qer_id far_id precedence urr_id s k :
  (is_u32 pdr_id -> rule_keys teid pdr_id ⊆ ks) -> cache_ok s k -> kernel_ok k -> same_but ks k0 k ->
  pwp sys_bpf evicts (same_but ks) (install_session teid pdr_id qer_id far_id precedence urr_id) s
    (fun r s' k' => cache_ok s' k' /\ kernel_ok k' /\ same_but ks k0 k' /\
       (r = Ok tt -> is_u32 teid /\ is_u32 pdr_id /\ rules_cached s')) k.
Proof.
  intros Hks Hs Hk H0'. assert (Hin : is_u32 pdr_id -> forall x, x ∈ rule_keys teid pdr_id -> x ∈ ks) by set_solver.
  set (P := fun k : K => same_but ks k0 k /\ is_u32 pdr_id).
  assert (HP : forall k k', evicts k k' -> P k -> P k').
  { intros k1 k2 He []. split; [by eapply same_but_evicts|done]. }
  assert (HW : forall name key v k1 k2, is_u32 pdr_id -> (name, key) ∈ rule_keys teid pdr_id ->
    same_but ks k0 k1 -> stored name key v k1 k2 -> same_but ks k1 k2 /\ P k2).
  { intros name key v k1 k2 Hp Hn Hs1 Hst. destruct (touches_stored ks k0 name key v k1 k2); [by apply Hin|done..|].
    split; [done|by split]. }
  eapply pwp_mono; [apply (pwp_install_session evicts (same_but ks) evicts_stable (quiet_touches ks)
    (same_but ks k0) P P (same_but ks k0)); try done; try apply HP; try (intros; by eapply same_but_evicts)|done|].
  - intros v k1 k2 Hp _ Hs1. apply HW; [done| |done]. right. by left.
  - intros sl v k1 k2 _ _ [Hs1 Hp]. apply HW; [done| |done]. right. right. by left.
  - intros v k1 k2 _ _ [Hs1 Hp] Hst. edestruct HW as [? []]; [exact Hp| |exact Hs1|exact Hst|done]. by left.
  - intros [[]|[]] s' k' (? & ? & _ & Hr); try done; do 2 (split; [done|]).
    + by destruct Hr as ((? & _) & ? & ? & ?).
    + split; [|done]. by destruct Hr as [[_ ?]|(_ & _ & ? & _)].
    + split; [|done]. by destruct Hr as [?|[[? _]|[? _]]].
Qed.

(** [remove_session] takes its keys away. *)
Lemma pwp_remove_gone ks k0 g teid pdr_id s k :
  rule_keys teid pdr_id ⊆ ks -> is_u32 teid -> is_u32 pdr_id -> rules_cached s ->
  cache_ok s k -> kernel_ok k -> same_but ks k0 k -> gone g k ->
  pwp sys_bpf evicts (same_but ks) (remove_session teid pdr_id) s
    (fun r s' k' => cache_ok s' k' /\ kernel_ok k' /\ s ⊆ s' /\ r = Ok tt /\
       same_but ks k0 k' /\ gone (reverse (rule_keys teid pdr_id) ++ g) k') k.
Proof.
  intros Hks Ht Hp Hc Hs Hk H0' Hg. assert (Hin : forall x, x ∈ rule_keys teid pdr_id -> x ∈ ks) by set_solver.
  set (P := fun l k => same_but ks k0 k /\ gone (l ++ g) k).
  assert (HP : forall l k k', evicts k k' -> P l k -> P l k').
  { intros l k1 k2 He []. split; [by eapply same_but_evicts|by eapply gone_evicts]. }
  assert (HR : forall l name key k1 k2, (name, key) ∈ rule_keys teid pdr_id -> P l k1 ->
    removed name key k1 k2 -> same_but ks k1 k2 /\ P ((name, key) :: l) k2).
  { intros l name key k1 k2 Hk1 [] Hr. split; [by eapply same_but_removed, same_but_refl; eauto|].
    split; [eapply same_but_removed; eauto|by eapply gone_removed]. }
  assert (HN : forall l name key k1, P l k1 -> contents k1 name key = None -> P ((name, key) :: l) k1).
  { intros l name key k1 [] Hn. split; [done|]. by apply gone_cons. }
  apply (pwp_remove_session evicts (same_but ks) evicts_stable (quiet_touches ks) (P [])
    (P [("teid_session"%string, le_split 4 teid)])
    (P [("pdr_table"%string, le_split 4 pdr_id); ("teid_session"%string, le_split 4 teid)])
    (P (reverse (rule_keys teid pdr_id)))); try done; try apply HP;
    try (intros ??; apply HR); try (intros ?; apply HN).
  - by left.
  - right. by left.
  - right. right. by left.
Qed.

(** ** measure_rule_update *)

(** The keys of a batch of sessions numbered from two bases. *)
Definition batch_keys (base_teid base_pdr : Z) (l : list Z) : list (string * bytes) :=
  l ≫= (fun i => rule_keys (base_teid + i) (base_pdr + i)).

Lemma batch_keys_in base_teid base_pdr l i : i ∈ l -> rule_keys (base_teid + i) (base_pdr + i) ⊆ batch_keys base_teid base_pdr l.
Proof. intros Hi x Hx. apply list_elem_of_bind. eauto. Qed.

Lemma batch_keys_snoc base_teid base_pdr l i : batch_keys base_teid base_pdr (l ++ [i]) = batch_keys base_teid base_pdr l ++ rule_keys (base_teid + i) (base_pdr + i).
Proof. unfold batch_keys. by rewrite bind_app. Qed.

Lemma gone_app ks1 ks2 k : gone (ks1 ++ ks2) k <-> gone ks1 k /\ gone ks2 k.
Proof.
  split; [intros Hg; split; intros n j Hj; apply Hg, elem_of_app; auto|].
  intros [] n j [?|?]%elem_of_app; auto.
Qed.

Lemma gone_reverse ks k : gone (reverse ks) k <-> gone ks k.
Proof. split; intros Hg n j Hj; apply Hg; by apply elem_of_reverse. Qed.

Lemma pwp_install_all base_teid base_pdr ks k0 l s k :
  (forall i, i ∈ l -> is_u32 (base_pdr + i) -> rule_keys (base_teid + i) (base_pdr + i) ⊆ ks) -> cache_ok s k -> kernel_ok k -> same_but ks k0 k ->
  pwp sys_bpf evicts (same_but ks)
    (for_each l (fun i => install_session_default (base_teid + i) (base_pdr + i))) s
    (fun r s' k' => cache_ok s' k' /\ kernel_ok k' /\ same_but ks k0 k' /\
       (r = Ok tt -> Forall (fun i => is_u32 (base_teid + i) /\ is_u32 (base_pdr + i)) l /\
                     (l <> [] -> rules_cached s'))) k.
Proof.
  intros Hl Hs Hk H0'.
  apply (pwp_for_each _ _ _ _ _ (fun done_ s k => cache_ok s k /\ kernel_ok k /\ same_but ks k0 k /\
    Forall (fun i => is_u32 (base_teid + i) /\ is_u32 (base_pdr + i)) done_ /\ (done_ <> [] -> rules_cached s)))
    with (done_ := []); simpl.
  - by split_and!.
  - intros pre i post s1 k1 -> (Hs1 & Hk1 & H1 & Hf & _).
    eapply pwp_mono; [apply (pwp_install_same ks k0); [|done..]|done|].
    { apply Hl. set_solver. }
    intros [[]|e] s2 k2 (? & ? & ? & Hr); [|by split_and!].
    destruct (Hr eq_refl) as (? & ? & ?). do 3 (split; [done|]). split; [|done].
    apply Forall_app. split; [done|]. apply Forall_cons. by split; [|constructor].
  - intros s1 k1 (? & ? & ? & ? & ?). by split_and!.
Qed.

Lemma pwp_remove_all base_teid base_pdr ks k0 l s k :
  (forall i, i ∈ l -> is_u32 (base_pdr + i) -> rule_keys (base_teid + i) (base_pdr + i) ⊆ ks) ->
  Forall (fun i => is_u32 (base_teid + i) /\ is_u32 (base_pdr + i)) l ->
  (l <> [] -> rules_cached s) -> cache_ok s k -> kernel_ok k -> same_but ks k0 k ->
  pwp sys_bpf evicts (same_but ks)
    (for_each l (fun i => remove_session (base_teid + i) (base_pdr + i))) s
    (fun r s' k' => cache_ok s' k' /\ kernel_ok k' /\ r = Ok tt /\ same_but ks k0 k' /\
       gone (batch_keys base_teid base_pdr l) k') k.
Proof.
  intros Hl Hf Hc Hs Hk H0'.
  apply (pwp_for_each _ _ _ _ _ (fun done_ s' k => cache_ok s' k /\ kernel_ok k /\ s ⊆ s' /\
    same_but ks k0 k /\ gone (batch_keys base_teid base_pdr done_) k)) with (done_ := []); simpl.
  - split_and!; try done. intros ?? []%elem_of_nil.
  - intros pre i post s1 k1 -> (Hs1 & Hk1 & Hsub & H1 & Hg).
    apply Forall_app in Hf as [_ [[Ht Hp] _]%Forall_cons].
    eapply pwp_mono; [apply (pwp_remove_gone ks k0 (batch_keys base_teid base_pdr pre)); try done|done|].
    { apply Hl; [set_solver|done]. }
    { intros name Hn. destruct (Hc ltac:(by destruct pre) name Hn) as [f E]. exists f. by eapply lookup_weaken. }
    intros r s2 k2 (? & ? & ? & -> & ? & [G1 G2]%gone_app). do 2 (split; [done|]). split; [by etrans|].
    split; [done|]. rewrite batch_keys_snoc. apply gone_app. split; [done|]. by apply gone_reverse.
  - intros s1 k1 (? & ? & _ & ? & ?). done.
Qed.

Lemma pwp_measure clock n_rules ks s k :
  (forall i, i ∈ range n_rules -> is_u32 (0x20000 + i) -> rule_keys (0x10000 + i) (0x20000 + i) ⊆ ks) ->
  cache_ok s k -> kernel_ok k ->
  pwp sys_bpf evicts (same_but ks) (measure_rule_update clock n_rules) s (fun r s' k' =>
    cache_ok s' k' /\ kernel_ok k' /\ same_but ks k k' /\
    (forall total samples, r = Ok (total, samples) ->
       gone (batch_keys 0x10000 0x20000 (range n_rules)) k' /\ length samples = Z.to_nat n_rules)) k.
Proof.
  intros Hks Hs Hk. unfold measure_rule_update. apply pwp_bind. eapply pwp_mono;
    [apply (pwp_install_all 0x10000 0x20000 ks k); [done..|apply same_but_refl]|done|].
  intros [[]|e] s1 k1 (Hs1 & Hk1 & H1 & Hr); [|by split_and!].
  destruct (Hr eq_refl) as [Hf Hc]. apply pwp_bind.
  eapply pwp_mono; [apply (pwp_remove_all 0x10000 0x20000 ks k (range n_rules)); done|done|].
  intros r1 s2 k2 (Hs2 & Hk2 & -> & H2 & Hg). apply pwp_ret. do 3 (split; [done|]).
  intros ? ? [= <- <-]. split; [done|]. by rewrite length_fmap, length_seq.
Qed.

(** C21: the rule-update benchmark is self-contained.  Whatever the outcome and
    the interleaving with session evictions, [measure_rule_update] changes no
    key outside its own 3 per session; and if it returns, with its keys unused
    beforehand, every map is as it was (up to evicted sessions), and there is
    one latency sample per session. *)
Theorem measure_restores clock n_rules s k s' r k' :
  cache_ok s k -> kernel_ok k ->
  exec sys_bpf evicts (measure_rule_update clock n_rules s, k) (Ret (s', r), k') ->
  same_but (batch_keys 0x10000 0x20000 (range n_rules)) k k' /\
  (forall total samples, r = Ok (total, samples) -> gone (batch_keys 0x10000 0x20000 (range n_rules)) k ->
     (forall n j, kept k k' n j) /\ length samples = Z.to_nat n_rules).
Proof.
  intros Hs Hk Hx. set (ks := batch_keys 0x10000 0x20000 (range n_rules)) in *.
  destruct (wp_exec_ret _ _ _ _ _ _ _ _ (pwp_measure clock n_rules ks s k
    ltac:(intros i Hi _; by apply batch_keys_in) Hs Hk) Hx) as (_ & _ & Hsame & Hr).
  fold ks in Hr. split; [done|].
  intros total samples -> Hg. destruct (Hr _ _ eq_refl) as [Hg' Hlen]. split; [|done].
  intros n j. destruct (decide ((n, j) ∈ ks)) as [Hin|Hin]; [|by apply Hsame].
  left. by rewrite (Hg _ _ Hin), (Hg' _ _ Hin).
Qed.

(** ** bootstrap_initial *)

Context (n out_ifindex : Z).

(** The slot of a bootstrapped bundle: the defaults of [install_session]. *)
Definition boot_slot : tc_bundle_slot :=
  {| slot_far_id := 1; slot_qer_id := 1; slot_urr_id := 1; slot_precedence := 100; slot_generation := 0 |}.

(** Session [i], if it is there (it may have been evicted), leads to its PDR
    and its bundle. *)
Definition serves (i : Z) (k : K) : Prop :=
  forall v, contents k "teid_session" (le_split 4 (0x1000 + i)) = Some v ->
    slice 0 4 v = le_split 4 (0x2000 + i) /\
    is_Some (contents k "pdr_table" (le_split 4 (0x2000 + i))) /\
    live (0x2000 + i) k = Some boot_slot.

Record booted (l : list Z) (k : K) : Prop := {
  bt_far : read_far_val <$> contents k "far_table" (le_split 4 1) =
    Some {| far_action := FAR_FORWARD; far_out_ifindex := out_ifindex; far_peer_ipv4_be := 0; far_out_teid_be := 0 |};
  bt_qer : (mbr_ul_bps ∘ read_qer_val) <$> contents k "qer_table" (le_split 4 1) = Some 0;
  bt_fits : Forall (fun i => is_u32 (0x1000 + i) /\ is_u32 (0x2000 + i)) l;
  bt_serves : Forall (fun i => serves i k) l;
}.

Lemma serves_kept i k k' :
  (forall n j, (n, j) ∈ rule_keys (0x1000 + i) (0x2000 + i) -> kept k k' n j) -> serves i k -> serves i k'.
Proof.
  intros Hk Hs v Hv.
  assert (Hp : contents k' "pdr_table" (le_split 4 (0x2000 + i)) = contents k "pdr_table" (le_split 4 (0x2000 + i))).
  { destruct (Hk "pdr_table"%string (le_split 4 (0x2000 + i))) as [?|[? _]]; [right; by left|done|done]. }
  assert (Hb : live (0x2000 + i) k' = live (0x2000 + i) k).
  { unfold live. f_equal. destruct (Hk "tc_bundle_map"%string (le_split 4 (0x2000 + i))) as [?|[? _]];
      [right; right; by left|done|done]. }
  rewrite Hp, Hb. apply Hs. destruct (Hk "teid_session"%string (le_split 4 (0x1000 + i))) as [<-|[_ ?]]; [by left|done|congruence].
Qed.

Lemma booted_kept l k k' :
  (forall n j, n = "far_table"%string \/ n = "qer_table"%string \/
     (exists i, i ∈ l /\ (n, j) ∈ rule_keys (0x1000 + i) (0x2000 + i)) -> kept k k' n j) ->
  booted l k -> booted l k'.
Proof.
  intros Hk [Hf Hq Hfit Hs]. split; [| |done|].
  - destruct (Hk "far_table"%string (le_split 4 1)) as [->|[? _]]; [by left|done|done].
  - destruct (Hk "qer_table"%string (le_split 4 1)) as [->|[? _]]; [right; by left|done|done].
  - apply Forall_forall. intros i Hi. rewrite Forall_forall in Hs. eapply serves_kept; [|by apply Hs].
    intros m j Hj. apply Hk. right. right. eauto.
Qed.

Lemma booted_evicts l k k' : evicts k k' -> booted l k -> booted l k'.
Proof. intros []. apply booted_kept. auto. Qed.

Lemma le_split_u32_inj x y : is_u32 x -> is_u32 y -> le_split 4 x = le_split 4 y -> x = y.
Proof.
  intros Hx Hy E. rewrite <-(le_combine_split_small 4 x), <-(le_combine_split_small 4 y), E by done. done.
Qed.

(** A write of session [i] leaves the others alone. *)
Lemma booted_stored l i name key val k k' :
  i ∉ l -> is_u32 (0x1000 + i) \/ name <> "teid_session"%string -> is_u32 (0x2000 + i) ->
  (name, key) ∈ rule_keys (0x1000 + i) (0x2000 + i) -> stored name key val k k' ->
  booted l k -> booted l k'.
Proof.
  intros Hi Ht Hp Hin (_ & Hf & _) Hb. eapply booted_kept; [|exact Hb]. intros m j Hm.
  eapply frame_kept; [exact Hf|]. intros [= -> ->].
  apply rule_keys_inv in Hin.
  destruct Hm as [->|[->|(i' & Hi' & Hj%rule_keys_inv)]]; [naive_solver..|].
  destruct Hb as [_ _ Hfit _]. rewrite Forall_forall in Hfit. destruct (Hfit _ Hi') as [Ht' Hp'].
  assert (i <> i') as Hne by congruence. apply Hne.
  destruct Hin as [[-> ->]|[Hn ->]], Hj as [[Hn' E]|[Hn' E]]; [|naive_solver..|].
  - destruct Ht as [Ht|]; [|done]. pose proof (le_split_u32_inj _ _ Ht Ht' E). lia.
  - pose proof (le_split_u32_inj _ _ Hp Hp' E). lia.
Qed.

Lemma stored_present_other name key val k k' :
  stored name key val k k' ->
  contents k' name key = Some val /\ (forall m j, m <> name -> contents k' m j = contents k m j).
Proof.
  intros (Hc & Hf & _). split; [done|]. intros m j Hm. apply (frame_same _ _ _ _ _ _ Hf); [congruence|by right].
Qed.

(** What an eviction cannot touch. *)
Lemma evicts_has k k' m j : is_lru m = false -> evicts k k' -> contents k' m j = contents k m j.
Proof. intros Hl []. destruct (ev_kept0 m j) as [?|[? _]]; [done|congruence]. Qed.

Lemma evicts_live k k' pdr_id : evicts k k' -> live pdr_id k' = live pdr_id k.
Proof. intros He. unfold live. by rewrite (evicts_has _ _ "tc_bundle_map" _ eq_refl He). Qed.

(** One more session. *)
Lemma pwp_boot_session l i s k :
  i ∉ l -> cache_ok s k -> kernel_ok k -> booted l k ->
  pwp sys_bpf evicts anything (install_session_default (0x1000 + i) (0x2000 + i)) s
    (fun r s' k' => cache_ok s' k' /\ kernel_ok k' /\ (r = Ok tt -> booted (l ++ [i]) k')) k.
Proof.
  intros Hi Hs Hk Hb. set (pk := le_split 4 (0x2000 + i)).
  set (P1 := fun k => booted l k /\ is_u32 (0x2000 + i) /\ is_Some (contents k "pdr_table" pk)).
  set (P2 := fun k => P1 k /\ live (0x2000 + i) k = Some boot_slot).
  assert (HP1 : forall k k', evicts k k' -> P1 k -> P1 k').
  { intros k1 k2 He (? & ? & ?). split; [by eapply booted_evicts|]. split; [done|].
    by rewrite (evicts_has _ _ "pdr_table" _ eq_refl He). }
  eapply pwp_mono; [apply (pwp_install_session evicts anything evicts_stable ltac:(done)
    (booted l) P1 P2 (booted (l ++ [i]))); try done| done|].
  - intros k1 k2. apply booted_evicts.
  - intros k1 k2 He []. split; [by eapply HP1|]. by rewrite (evicts_live _ _ _ He).
  - intros v k1 k2 Hp _ Hb1 Hst. split; [done|]. split; [|split; [done|destruct Hst as [Hst _]; by eexists]].
    eapply booted_stored; [exact Hi| |done| |exact Hst|done]; [by right|right; by left].
  - intros sl v k1 k2 Hsl Hv (Hb1 & Hp & Hhas) Hst. split; [done|]. split; [split; [|split; [done|]]|].
    + eapply booted_stored; [exact Hi| |done| |exact Hst|done]; [by right|right; right; by left].
    + by apply (stored_present "tc_bundle_map" _ _ _ _ eq_refl Hst).
    + rewrite (proj1 (stored_bundle_live _ _ _ _ Hst)).
      by rewrite (proj1 (enc_bundle_layout 0 boot_slot boot_slot _ _ _ Hsl Hsl Hv)).
  - intros v k1 k2 Ht Hv [(Hb1 & Hp & Hhas) Hl] Hst. split; [done|].
    assert (Hb2 : booted l k2).
    { eapply booted_stored; [exact Hi| |done| |exact Hst|done]; [by left|by left]. }
    destruct Hb2. split; [done|done|apply Forall_app; split; [done|]; apply Forall_cons; by split|].
    apply Forall_app. split; [done|]. apply Forall_cons. split; [|done]. intros v' Hv'.
    destruct (stored_present_other _ _ _ _ _ Hst) as [Hc Hoth]. rewrite Hc in Hv'. injection Hv' as <-.
    split; [by eapply enc_session_key|]. unfold live. by rewrite !Hoth.
  - intros [[]|[]] s' k' (? & ? & ? & Hr); try done; split_and!; try done.
    by destruct Hr as (_ & _ & ? & _).
Qed.

Lemma pwp_bootstrap s k :
  cache_ok s k -> kernel_ok k ->
  pwp sys_bpf evicts anything (bootstrap_initial n out_ifindex) s
    (fun r s' k' => r = Ok tt -> cache_ok s' k' /\ kernel_ok k' /\ booted (range n) k') k.
Proof.
  intros Hs Hk. unfold bootstrap_initial, install_far, install_qer. do 2 apply pwp_bind. apply pwp_lift.
  rewrite (enc_u32_ok 1) by done. apply pwp_bind, pwp_lift.
  destruct (enc_far FAR_FORWARD out_ifindex 0 0) as [fv|] eqn:Hfv; [|done].
  destruct (enc_far_layout _ _ _ _ _ Hfv) as [Rf Lf].
  set (F := fun k : K => contents k "far_table" (le_split 4 1) = Some fv).
  assert (HF : forall k k', evicts k k' -> F k -> F k').
  { intros k1 k2 He. unfold F. by rewrite (evicts_has _ _ "far_table" _ eq_refl He). }
  eapply pwp_mono; [eapply (pwp_store evicts anything evicts_stable ltac:(done) (fun _ => True) F);
    [done|reflexivity|reflexivity|apply length_le_split|done..|]|done|].
  { intros k1 k2 _ Hst. split; [done|]. by destruct Hst. }
  intros [[]|[]] s1 k1 (Hs1 & Hk1 & _ & HF1); try done. destruct HF1 as [HF1 _].
  do 2 apply pwp_bind. apply pwp_lift. apply pwp_bind, pwp_lift.
  assert (exists qv, enc_qer 0 0 0 = Ok qv) as [qv Hqv] by (eexists; vm_compute; reflexivity).
  rewrite Hqv. destruct (enc_qer_layout _ _ _ _ Hqv) as [Rq Lq].
  eapply pwp_mono; [eapply (pwp_store evicts anything evicts_stable ltac:(done) F (booted []));
    [done|reflexivity|reflexivity|apply length_le_split|done..|]|done|].
  { intros k2 k3 HF2 Hst. split; [done|]. destruct (stored_present_other _ _ _ _ _ Hst) as [Hc Ho]. split; [| |done|done].
    - rewrite Ho by done. rewrite HF2. by cbn; rewrite Rf.
    - rewrite Hc. cbn [fmap option_fmap option_map compose]. unfold compose. by rewrite Rq. }
  intros [[]|[]] s2 k2 (Hs2 & Hk2 & _ & HB); try done. destruct HB as [HB _].
  apply (pwp_for_each _ _ _ _ _ (fun l s k => cache_ok s k /\ kernel_ok k /\ booted l k)) with (done_ := []).
  - done.
  - intros pre i post s3 k3 Hl (Hs3 & Hk3 & HB3).
    eapply pwp_mono; [apply (pwp_boot_session pre); try done|done|].
    { assert (NoDup (range n)) as Hnd by (apply NoDup_fmap; [apply _|apply NoDup_seq]).
      rewrite Hl, NoDup_app in Hnd. destruct Hnd as (_ & Hd & _). intros Hin. apply (Hd _ Hin). by left. }
    intros [[]|e] s4 k4 (? & ? & Hr); [by auto|done].
  - intros s3 k3 (? & ? & ?) _. by split_and!.
Qed.

(** An unlimited QER: the packet is admitted and the buckets stay. *)
Lemma unlimited_admits b lookup buckets len now qv :
  lookup "qer_table"%string (le_split 4 1) = Some qv -> mbr_ul_bps (read_qer_val qv) = 0 ->
  upf_qer_admit b lookup buckets 1 len now = (true, buckets).
Proof. intros Hq Hm. by rewrite upf_qer_admit_eq, Hq, Hm. Qed.

(** What forwarding does to the counters, once the packet is admitted. *)
Lemma far_forward_admitted build adj redir lookup kt skb inner far_id urr_id pdr_id gen outer t_entry st fv qv :
  adj skb (- outer) BPF_ADJ_ROOM_MAC BPF_F_ADJ_ROOM_FIXED_GSO = Some inner ->
  lookup "far_table"%string (le_split 4 far_id) = Some fv ->
  lookup "qer_table"%string (le_split 4 1) = Some qv -> mbr_ul_bps (read_qer_val qv) = 0 ->
  redir (far_out_ifindex (read_far_val fv)) 0 = TC_ACT_REDIRECT ->
  exists st', upf_far_forward build adj redir lookup kt skb far_id 1 urr_id pdr_id gen outer t_entry st =
      (TC_ACT_REDIRECT, inner, st') /\
    metric st' M_TC_FAR_FORWARD = u64 (metric st M_TC_FAR_FORWARD + 1).
Proof.
  intros Hadj Hf Hq Hm Hr. rewrite upf_far_forward_eq. rewrite Hadj, Hf.
  rewrite (unlimited_admits _ _ _ _ _ qv) by done. cbn [negb]. rewrite Hr.
  eexists. split; [reflexivity|]. cbn [negb Z.eqb Pos.eqb TC_ACT_REDIRECT].
  rewrite metric_bump, decide_True by done. do 2 f_equal.
  repeat case_match; rewrite ?metric_emit, metric_urr_update, metric_bump_ne, metric_set_buckets by done; done.
Qed.

Lemma range_in i m : i ∈ range m <-> 0 <= i < m.
Proof.
  unfold range. rewrite list_elem_of_fmap. setoid_rewrite elem_of_seq. split.
  - intros (j & -> & ?). lia.
  - intros ?. exists (Z.to_nat i). lia.
Qed.

(** What becomes of an uplink G-PDU of session [i]. *)
Definition forwards (k : K) (i : Z) : Prop :=
  forall g, gpdu_wf g -> g_teid g = 0x1000 + i ->
  upf_xdp_uplink (contents k) (gpdu_bytes g) =
    Some (XDP_DROP, [M_RX_TOTAL; M_RX_GTPU; M_RX_GPDU; M_MISS_TEID]) \/
  upf_xdp_uplink (contents k) (gpdu_bytes g) =
    Some (XDP_PASS, [M_RX_TOTAL; M_RX_GTPU; M_RX_GPDU; M_HIT]) /\
  forall build (adj : sk_buff -> Z -> Z -> Z -> option sk_buff) (redir : Z -> Z -> Z) kt len st inner,
    adj {| skb_data := gpdu_bytes g; skb_len := len |} (- Z.of_nat (g_ihl g + 16))
      BPF_ADJ_ROOM_MAC BPF_F_ADJ_ROOM_FIXED_GSO = Some inner ->
    redir out_ifindex 0 = TC_ACT_REDIRECT ->
    exists st', upf_tc_ingress build adj redir (contents k) kt
        {| skb_data := gpdu_bytes g; skb_len := len |} st = Some (TC_ACT_REDIRECT, inner, st') /\
      metric st' M_TC_FAR_FORWARD = u64 (metric st M_TC_FAR_FORWARD + 1).

Lemma booted_forwards k i : booted (range n) k -> 0 <= i < n -> forwards k i.
Proof.
  intros [Hf Hq Hfit Hserv] Hi g Hwf Hteid.
  rewrite Forall_forall in Hserv. specialize (Hserv i (proj2 (range_in i n) Hi)).
  rewrite xdp_on_gpdu, xdp_classify_eq, Hteid by done.
  destruct (contents k "teid_session" (le_split 4 (0x1000 + i))) as [v|] eqn:Hv; [right|by left].
  destruct (Hserv v Hv) as (Hkey & [pv Hp] & Hl). rewrite Hkey, Hp. split; [done|].
  intros build adj redir kt len st inner Hadj Hr. rewrite tc_on_gpdu, tc_session_eq by done.
  rewrite Hteid, Hv, Hkey. unfold live in Hl.
  destruct (contents k "tc_bundle_map" (le_split 4 (0x2000 + i))) as [bv|]; [|done].
  injection Hl as ->. cbn [boot_slot slot_far_id slot_qer_id slot_urr_id slot_generation].
  destruct (contents k "far_table" (le_split 4 1)) as [fv|] eqn:Hfv; [|done].
  destruct (contents k "qer_table" (le_split 4 1)) as [qv|] eqn:Hqv; [|done].
  apply (inj Some) in Hf. apply (inj Some) in Hq. unfold compose in Hq. rewrite Hf. cbn [far_action far_out_ifindex].
  change (FAR_FORWARD =? FAR_DROP) with false. change (FAR_FORWARD =? FAR_BUFFER) with false. cbn iota.
  edestruct (far_forward_admitted build adj redir (contents k) kt {| skb_data := gpdu_bytes g; skb_len := len |}
    inner 1) as (st' & Hfw & Hm); [|exact Hfv|exact Hqv|exact Hq| |].
  - replace (Z.of_nat (g_ihl g + 16)) with (Z.of_nat (g_ihl g + sizeof_udphdr + 8)) in Hadj; [exact Hadj|].
    unfold sizeof_udphdr. lia.
  - by rewrite Hf.
  - exists st'. fold (upf_far_forward build adj redir (contents k)). by rewrite Hfw.
Qed.

(** A booted agent forwards.  When [bootstrap_initial n out_ifindex]
    returns without an exception, in any interleaving with session evictions,
    every uplink G-PDU of session [i < n] either finds its TEID evicted and is
    dropped by XDP as [miss_teid], or is passed by XDP as [hit] and, once the
    outer headers are off, redirected by TC to [out_ifindex] and counted in
    [tc_far_forward], whatever the build and the state of the CPU. *)
Theorem bootstrap_forwards s k s' k' i :
  cache_ok s k -> kernel_ok k ->
  exec sys_bpf evicts (bootstrap_initial n out_ifindex s, k) (Ret (s', Ok tt), k') ->
  0 <= i < n -> forwards k' i.
Proof.
  intros Hs Hk Hx Hi. apply booted_forwards; [|done].
  by destruct (wp_exec_ret _ _ _ _ _ _ _ _ (pwp_bootstrap s k Hs Hk) Hx eq_refl) as (_ & _ & Hb).
Qed.
End batches.

(** ** Runs on the reference kernel *)

Lemma evicts_refl `{BpfKernel K} (k : K) : evicts k k.
Proof. split; [done|by intros ???|by left]. Qed.

Lemma measure_restores_witness :
  let x := run ref_sys (measure_rule_update (fun i => 10 * Z.of_nat i) 2 ∅) ref_init in
  x.2.2 = Ok (50, [10; 10]) /\ forall n j, kept ref_init x.1 n j.
Proof.
  intros x. assert (Hr : x.2.2 = Ok (50, [10; 10])) by (vm_compute; reflexivity). split; [exact Hr|].
  pose proof (run_exec_rely ref_sys evicts (measure_rule_update (fun i => 10 * Z.of_nat i) 2 ∅) ref_init evicts_refl) as Hx.
  fold x in Hx. clearbody x. destruct x as [k' [s' r]]. cbn [fst snd] in *.
  destruct (measure_restores _ 2 ∅ ref_init s' r k' (empty_cache_ok _) init_ok Hx) as [_ Hk].
  refine (proj1 (Hk _ _ Hr _)). intros n j Hin.
  assert (Forall (fun p => ref_contents ref_init p.1 p.2 = None) (batch_keys 0x10000 0x20000 (range 2))) as Hall.
  { apply (bool_decide_eq_true_1 _). vm_compute. reflexivity. }
  rewrite Forall_forall in Hall. exact (Hall _ Hin).
Defined.

Lemma bootstrap_forwards_witness :
  let x := run ref_sys (bootstrap_initial 1 2 ∅) ref_init in
  x.2.2 = Ok tt /\
  upf_xdp_uplink (contents x.1) (gpdu_bytes (plain_gpdu 0x1000 [])) =
    Some (XDP_PASS, [M_RX_TOTAL; M_RX_GTPU; M_RX_GPDU; M_HIT]).
Proof.
  intros x. assert (Hr : x.2.2 = Ok tt) by (vm_compute; reflexivity). split; [exact Hr|].
  assert (Hne : upf_xdp_uplink (contents x.1) (gpdu_bytes (plain_gpdu 0x1000 [])) <>
    Some (XDP_DROP, [M_RX_TOTAL; M_RX_GTPU; M_RX_GPDU; M_MISS_TEID])) by (vm_compute; discriminate).
  pose proof (run_exec_rely ref_sys evicts (bootstrap_initial 1 2 ∅) ref_init evicts_refl) as Hx.
  fold x in Hx. clearbody x. destruct x as [k' [s' r]]. cbn [fst snd] in *. subst r.
  assert (H01 : 0 <= 0 < 1) by (split; [discriminate|reflexivity]).
  assert (Hwf : gpdu_wf (plain_gpdu 0x1000 [])) by (apply plain_gpdu_wf; split; [discriminate|reflexivity]).
  pose proof (bootstrap_forwards 1 2 ∅ ref_init s' k' 0 (empty_cache_ok _) init_ok Hx
    H01 (plain_gpdu 0x1000 []) Hwf eq_refl) as [E|[E _]]; [destruct (Hne E)|exact E].
Defined.
