(* ===== verification/Metrics.v ===== *)
(** * Reading the counters: from map dumps to the Prometheus page and back

    [read_metrics], [read_urr] and [prometheus_text] (agent.py), the parser
    [metrics_counter] (native_throughput.py) and [percpu_metric]
    (qer_contention.py).  [bpftool map dump -j] is not part of the repository:
    the JSON it prints comes from the [host]; [renders] says what the code
    relies on, that keys and values are lists of ["0x.."] strings, one per
    byte. *)

From Stdlib Require Import Strings.Ascii.
From S2P Require Import Prelude PyStruct PyText PyFloat Json Bpftool UpfMaps Qer Datapath.

Open Scope string_scope.
Open Scope Z_scope.

(** ** agent.py *)

Definition METRIC_NAMES : list string :=
  ["rx_total"; "rx_gtpu"; "rx_gpdu";
   "hit"; "miss_teid"; "miss_pdr";
   "pass_nongtp"; "pass_ctrl"; "drop_parse";
   "tc_miss_far"; "tc_far_drop"; "tc_far_forward"; "tc_far_buffer";
   "tc_decap_err"; "tc_redirect_err"; "tc_qer_pass"; "tc_qer_drop";
   "tc_urr_updated"; "tc_dl_hit"; "tc_dl_miss"; "tc_dl_encap_err"].

(** [_bytes_to_hexargs] *)
Definition bytes_to_hexargs (b : bytes) : list string := hex_byte <$> b.

(** [bytes(int(b, 0) for b in l)] *)
Definition bytes_of_hexargs (l : json) : res bytes := bytes_of_json (int_base int0) l.

(** The sum over the CPUs of one entry. *)
Fixpoint sum_values (fmt : string) (vs : list json) (total : Z) : res Z :=
  match vs with
  | [] => Ok total
  | v :: vs' =>
      val ← getitem v "value";
      b ← bytes_of_hexargs val;
      x ← unpack_head fmt b;
      sum_values fmt vs' (total + x)
  end.

Fixpoint read_metrics_loop (raw : list json) (out : gmap string Z) : res (gmap string Z) :=
  match raw with
  | [] => Ok out
  | entry :: raw' =>
      key ← getitem entry "key";
      kb ← bytes_of_hexargs key;
      idx ← unpack_head "<I" kb;
      if Z.of_nat (length METRIC_NAMES) <=? idx then read_metrics_loop raw' out else
      values ← get entry "values" (JList []);
      vs ← py_iter values;
      total ← sum_values "<Q" vs 0;
      name ← of_option IndexError (METRIC_NAMES !! Z.to_nat idx);
      read_metrics_loop raw' (<[name := total]> out)
  end.

Definition read_metrics (h : host) : res (gmap string Z) :=
  raw ← map_dump h "metrics";
  entries ← py_iter raw;
  read_metrics_loop entries ∅.

(** One line of the page. *)
Definition metric_line (m : gmap string Z) (name : string) : string :=
  "upf_packets_total{stage=" ++ quote ++ name ++ quote ++ "} " ++ str_Z (default 0 (m !! name)).

(** The text [prometheus_text] makes of the counters. *)
Definition metrics_page (m : gmap string Z) : string :=
  let lines := (["# HELP upf_packets_total UPF packet counters by stage";
                 "# TYPE upf_packets_total counter"] ++ (metric_line m <$> METRIC_NAMES))%list in
  join_with newline lines ++ newline.

Definition prometheus_text (h : host) : res string := m ← read_metrics h; Ok (metrics_page m).

Record urr_sum := { us_bytes_ul : Z; us_pkts_ul : Z }.

Fixpoint sum_urr (vs : list json) (acc : urr_sum) : res urr_sum :=
  match vs with
  | [] => Ok acc
  | v :: vs' =>
      val ← getitem v "value";
      b ← bytes_of_hexargs val;
      x ← unpack "<QQQQ" b;
      sum_urr vs' {| us_bytes_ul := us_bytes_ul acc + nth 0 x 0; us_pkts_ul := us_pkts_ul acc + nth 2 x 0 |}
  end.

Fixpoint read_urr_loop (raw : list json) (urr_id : Z) : res (option urr_sum) :=
  match raw with
  | [] => Ok None
  | entry :: raw' =>
      k ← getitem entry "key";
      kb ← bytes_of_hexargs k;
      key ← unpack_head "<I" kb;
      if negb (key =? urr_id) then read_urr_loop raw' urr_id else
      values ← get entry "values" (JList []);
      vs ← py_iter values;
      s ← sum_urr vs {| us_bytes_ul := 0; us_pkts_ul := 0 |};
      Ok (Some s)
  end.

Definition read_urr (h : host) (urr_id : Z) : res (option urr_sum) :=
  raw ← map_dump h "urr_counters";
  entries ← py_iter raw;
  read_urr_loop entries urr_id.

(** ** qer_contention.py *)

(** A key or a value: [int.from_bytes(bytes(int(x, 16) for x in j), "little")]
    of a list, [int(j)] of anything else. *)
Definition int_of_element (j : json) : res Z :=
  match j with
  | JList _ => b ← bytes_of_json (int_base int16) j; Ok (le_combine b)
  | _ => py_int j
  end.

Fixpoint percpu_metric_loop (dump : list json) (idx : Z) : res (list Z) :=
  match dump with
  | [] => Ok []
  | entry :: dump' =>
      key ← get entry "key" JNull;
      k ← int_of_element key;
      if negb (k =? idx) then percpu_metric_loop dump' idx
      else
        values ← get entry "values" (JList []);
        vs ← py_iter values;
        map_res (fun v => val ← get v "value" JNull; int_of_element val) vs
  end.

Definition percpu_metric (dump : json) (idx : Z) : res (list Z) :=
  entries ← py_iter dump; percpu_metric_loop entries idx.

(** ** native_throughput.py: [metrics_counter] *)

(** [\s+(\d+)]: at least one blank, then as many digits as there are. *)
Definition blanks_number (s : string) : option Z :=
  match s with
  | String a s' =>
      if is_space a then
        match lstrip s' with
        | String d _ as t => if is_digit d then Some (fst (take_digits 10 t 0)) else None
        | EmptyString => None
        end
      else None
  | EmptyString => None
  end.

(** [re.search(prefix + tail, s)], where [after] reads what [tail] takes: the
    first position that matches. *)
Fixpoint search_with (after : string -> option Z) (prefix s : string) : option Z :=
  match (match strip_prefix prefix s with Some t => after t | None => None end) with
  | Some v => Some v
  | None => match s with String _ s' => search_with after prefix s' | EmptyString => None end
  end.

(** [re.search(prefix + r"\s+(\d+)", s)] *)
Definition search_number : string -> string -> option Z := search_with blanks_number.

Definition stage_prefix (stage : string) : string :=
  "upf_packets_total{stage=" ++ quote ++ stage ++ quote ++ "}".

Definition metrics_counter (out stage : string) : Z :=
  default 0 (search_number (stage_prefix stage) out).

(** ** Searching text *)

(** [p] and [t] differ within the shorter of the two. *)
Fixpoint mismatch (p t : string) : bool :=
  match p, t with
  | String a p', String b t' => if ascii_dec a b then mismatch p' t' else true
  | _, _ => false
  end.

(** No occurrence of [p] starts in [t], whatever follows it. *)
Fixpoint skippable (p t : string) : bool :=
  match t with
  | EmptyString => true
  | String _ t' => mismatch p t && skippable p t'
  end.

Lemma mismatch_strip p t x : mismatch p t = true -> strip_prefix p (t ++ x) = None.
Proof.
  revert t. induction p as [|a p IH]; intros [|b t]; try done.
  rewrite append_cons. simpl. destruct (ascii_dec a b); [apply IH|done].
Qed.

Lemma search_skippable after p t x : skippable p t = true -> search_with after p (t ++ x) = search_with after p x.
Proof.
  induction t as [|a t IH]; [done|]. cbn [skippable]. intros [Hm Hs]%andb_true_iff.
  pose proof (mismatch_strip _ _ x Hm) as Hn. rewrite append_cons in Hn |- *.
  cbn [search_with]. rewrite Hn. by apply IH.
Qed.

Lemma search_hit after p t v : after t = Some v -> search_with after p (p ++ t) = Some v.
Proof.
  intros Hb. pose proof (strip_prefix_app p t) as Hp.
  destruct (p ++ t); cbn [search_with]; by rewrite Hp, Hb.
Qed.

Lemma digit_not_u d t p :
  0 <= d < 10 -> mismatch (String "u" p) (String (ascii_of_N (Z.to_N (48 + d))) t) = true.
Proof.
  intros Hd. assert (d = 0 \/ d = 1 \/ d = 2 \/ d = 3 \/ d = 4 \/ d = 5 \/ d = 6 \/ d = 7 \/ d = 8 \/ d = 9) as Hc by lia.
  repeat (destruct Hc as [->|Hc]; [reflexivity|]). by subst.
Qed.

Lemma dec_digits_skippable p fuel z acc :
  0 <= z -> skippable (String "u" p) acc = true -> skippable (String "u" p) (dec_digits fuel z acc) = true.
Proof.
  revert z acc. induction fuel as [|fuel IH]; intros z acc Hz Ha; [done|].
  pose proof (Z.mod_pos_bound z 10 ltac:(lia)). rewrite dec_digits_step.
  assert (Hs : skippable (String "u" p) (String (ascii_of_N (Z.to_N (48 + z mod 10))) acc) = true).
  { cbn [skippable]. by rewrite digit_not_u, Ha. }
  destruct (z <? 10); [done|]. apply IH; [apply Z.div_pos; lia|done].
Qed.

(** ** The page read back *)

Definition page_lines (m : gmap string Z) (names : list string) : string :=
  foldr (fun name rest => metric_line m name ++ newline ++ rest) "" names.

Lemma join_lines (l : list string) :
  l <> []%list -> join_with newline l ++ newline = foldr (fun x rest => x ++ newline ++ rest) "" l.
Proof.
  induction l as [|x [|y l] IH]; intros Hne; [done|by rewrite <-(append_nil_r newline) at 1|].
  change (foldr ?f "" (x :: y :: l)) with (x ++ newline ++ foldr f "" (y :: l)).
  change (join_with newline (x :: y :: l)) with (x ++ newline ++ join_with newline (y :: l)).
  rewrite <-IH by done. by rewrite !append_assoc.
Qed.

Lemma metrics_page_lines m :
  metrics_page m =
    ("# HELP upf_packets_total UPF packet counters by stage" ++ newline ++
     "# TYPE upf_packets_total counter" ++ newline) ++ page_lines m METRIC_NAMES.
Proof.
  unfold metrics_page. rewrite join_lines by done. cbn [app foldr]. rewrite !append_assoc.
  reflexivity.
Qed.

Lemma metric_line_eq m name :
  metric_line m name = stage_prefix name ++ " " ++ str_Z (default 0 (m !! name)).
Proof. unfold metric_line, stage_prefix. rewrite !append_assoc. reflexivity. Qed.

(** The stage names do not hide one another. *)
Lemma names_distinguishable stage name :
  stage ∈ METRIC_NAMES -> name ∈ METRIC_NAMES -> name <> stage ->
  skippable (stage_prefix stage) (stage_prefix name ++ " ") = true.
Proof.
  intros Hs Hn Hne.
  assert (Hall : forallb (fun s => forallb (fun n =>
    bool_decide (n = s) || skippable (stage_prefix s) (stage_prefix n ++ " ")) METRIC_NAMES) METRIC_NAMES = true)
    by (vm_compute; reflexivity).
  rewrite forallb_forall in Hall. specialize (Hall stage (proj1 (list_elem_of_In _ _) Hs)).
  rewrite forallb_forall in Hall. specialize (Hall name (proj1 (list_elem_of_In _ _) Hn)).
  by rewrite bool_decide_eq_false_2 in Hall.
Qed.

Lemma blanks_number_str z rest :
  0 <= z -> blanks_number (" " ++ str_Z z ++ newline ++ rest) = Some z.
Proof.
  intros Hz. pose proof (take_str_Z z (newline ++ rest) Hz) as Ht.
  destruct (str_Z_head z Hz) as (d & t & Hd & Hr). rewrite Hd in Ht |- *. rewrite append_cons in Ht |- *.
  assert (Hc : d = 0 \/ d = 1 \/ d = 2 \/ d = 3 \/ d = 4 \/ d = 5 \/ d = 6 \/ d = 7 \/ d = 8 \/ d = 9) by lia.
  assert (Hsp : is_space (ascii_of_N (Z.to_N (48 + d))) = false).
  { clear Hd Ht. repeat (destruct Hc as [->|Hc]; [reflexivity|]). by subst. }
  assert (Hdg : is_digit (ascii_of_N (Z.to_N (48 + d))) = true).
  { unfold is_digit. rewrite digit_in_dec by done. reflexivity. }
  set (c := ascii_of_N _) in *. clearbody c. clear Hd Hc Hr.
  rewrite append_cons. change (is_space " ") with true. unfold blanks_number. change (is_space " ") with true.
  change ("" ++ ?x) with x. cbn [lstrip]. rewrite Hsp. cbn iota. rewrite Hdg, Ht. reflexivity.
Qed.

Lemma search_lines m stage names :
  stage ∈ METRIC_NAMES -> (forall name, name ∈ names -> name ∈ METRIC_NAMES) ->
  (forall name, 0 <= default 0 (m !! name)) -> stage ∈ names ->
  search_number (stage_prefix stage) (page_lines m names) = Some (default 0 (m !! stage)).
Proof.
  unfold search_number. intros Hs Hn Hpos. induction names as [|name names IH]; [by intros ?%elem_of_nil|]. intros Hin.
  unfold page_lines. cbn [foldr]. fold (page_lines m names). rewrite metric_line_eq, !append_assoc.
  destruct (decide (name = stage)) as [->|Hne].
  - apply search_hit, blanks_number_str, Hpos.
  - rewrite <-(append_assoc (stage_prefix name) " "), search_skippable
      by (apply names_distinguishable; auto; apply Hn; by left).
    unfold stage_prefix, str_Z. rewrite (proj2 (Z.ltb_ge _ _)) by apply Hpos.
    rewrite append_cons. rewrite search_skippable by (by apply dec_digits_skippable).
    rewrite (search_skippable _ _ newline) by reflexivity.
    apply IH; [intros x Hx; apply Hn; by right|]. by apply elem_of_cons in Hin as [?|?].
Qed.

Lemma metrics_counter_page m stage :
  stage ∈ METRIC_NAMES -> (forall name, 0 <= default 0 (m !! name)) ->
  metrics_counter (metrics_page m) stage = default 0 (m !! stage).
Proof.
  intros Hs Hpos. unfold metrics_counter, search_number. rewrite metrics_page_lines, search_skippable.
  - fold search_number. by rewrite search_lines.
  - assert (Hall : forallb (fun s => skippable (stage_prefix s)
      ("# HELP upf_packets_total UPF packet counters by stage" ++ newline ++
       "# TYPE upf_packets_total counter" ++ newline)) METRIC_NAMES = true) by (vm_compute; reflexivity).
    rewrite forallb_forall in Hall. exact (Hall stage (proj1 (list_elem_of_In _ _) Hs)).
Qed.

(** ** Dumps *)

(** A list of strings that both [int(x, 0)] and [int(x, 16)] read as [b]. *)
Definition renders_bytes (j : json) (b : bytes) : Prop :=
  exists l, j = JList (JStr <$> l) /\ Forall2 (fun s x => int0 s = Ok (b2z x) /\ int16 s = Ok (b2z x)) l b.

(** The values of the CPUs of an entry; bpftool also names the CPU of each. *)
Definition renders_values (j : json) (vals : list bytes) : Prop :=
  exists l, j = JList l /\ Forall2 (fun e b => exists o v, e = JObj o /\ obj_get "value" o = Some v /\ renders_bytes v b) l vals.

(** An entry of a per-CPU map: its key, the value on each CPU. *)
Definition renders_entry (e : json) (key : bytes) (vals : list bytes) : Prop :=
  exists o k v, e = JObj o /\ obj_get "key" o = Some k /\ obj_get "values" o = Some v /\
    renders_bytes k key /\ renders_values v vals.

(** An entry of a map of [__u64]. *)
Definition renders (e : json) (idx : Z) (vals : list Z) : Prop :=
  renders_entry e (le_split 4 idx) (le_split 8 <$> vals).

Lemma map_res_int (conv : string -> res Z) (l : list string) (b : bytes) :
  Forall2 (fun s x => conv s = Ok (b2z x)) l b ->
  bytes_of_json (int_base conv) (JList (JStr <$> l)) = Ok b.
Proof.
  unfold bytes_of_json. cbn [py_iter]. change (Ok ?l ≫= ?f) with (f l). cbv beta. set (f := fun x : json => _).
  induction 1 as [|s x l b Hs _ IH]; [done|]. rewrite fmap_cons. cbn [map_res].
  assert (f (JStr s) = Ok x) as ->; [|by rewrite IH].
  unfold f, byte_of_int. cbn [int_base]. rewrite Hs. cbn [mbind res_bind]. pose proof (byte.unsigned_range x).
  rewrite (proj2 (Z.leb_le _ _)), (proj2 (Z.ltb_lt _ _)) by lia. by rewrite byte.of_Z_unsigned.
Qed.

Lemma bytes_of_hexargs_ok j b : renders_bytes j b -> bytes_of_hexargs j = Ok b.
Proof.
  intros (l & -> & H). apply map_res_int. eapply Forall2_impl; [exact H|]. by intros ?? [].
Qed.

Lemma int_of_element_ok j b : renders_bytes j b -> int_of_element j = Ok (le_combine b).
Proof.
  intros (l & -> & H). cbn [int_of_element]. rewrite (map_res_int int16 l b); [done|].
  eapply Forall2_impl; [exact H|]. by intros ?? [].
Qed.

(** A dump as bpftool prints it. *)
Definition hexargs_json (b : bytes) : json := JList (JStr <$> bytes_to_hexargs b).

Fixpoint values_json (cpu : Z) (vals : list bytes) : list json :=
  match vals with
  | [] => []
  | v :: vals' => JObj [("cpu", JInt cpu); ("value", hexargs_json v)] :: values_json (cpu + 1) vals'
  end%list.

Definition entry_json (key : bytes) (vals : list bytes) : json :=
  JObj [("key", hexargs_json key); ("values", JList (values_json 0 vals))]%list.

Lemma hexargs_render b : renders_bytes (hexargs_json b) b.
Proof.
  exists (bytes_to_hexargs b). split; [done|]. unfold bytes_to_hexargs. apply Forall2_fmap_l, Forall_Forall2_diag, Forall_true.
  intros x. split; [apply int0_hex_byte|apply int16_hex_byte].
Qed.

Lemma entry_renders key vals : renders_entry (entry_json key vals) key vals.
Proof.
  eexists _, _, _. split; [done|]. do 2 (split; [reflexivity|]). split; [apply hexargs_render|]. eexists. split; [done|].
  generalize 0. induction vals as [|v vals IH]; intros cpu; [constructor|]. cbn [values_json]. constructor; [|apply IH].
  eexists _, _. split; [done|]. split; [reflexivity|]. apply hexargs_render.
Qed.

Lemma unpack_head_I i : is_u32 i -> unpack_head "<I" (le_split 4 i) = Ok i.
Proof.
  intros Hi. assert (Hp : pack "<I" [i]%list = Ok (le_split 4 i)).
  { unfold pack. cbn. rewrite decide_True by done. cbn. by rewrite app_nil_r. }
  unfold unpack_head. by rewrite (unpack_pack _ _ _ Hp).
Qed.

Lemma unpack_head_Q v : is_u64 v -> unpack_head "<Q" (le_split 8 v) = Ok v.
Proof.
  intros Hv. assert (Hp : pack "<Q" [v]%list = Ok (le_split 8 v)).
  { unfold pack. change (parse_fmt "<Q") with (Some (LE, [fQ]%list)). cbn [pack_codes].
    rewrite decide_True by done. cbn [mbind res_bind]. rewrite app_nil_r. reflexivity. }
  unfold unpack_head. by rewrite (unpack_pack _ _ _ Hp).
Qed.

Lemma sum_values_ok ls vals total :
  Forall2 (fun e b => exists o v, e = JObj o /\ obj_get "value" o = Some v /\ renders_bytes v b) ls (le_split 8 <$> vals) ->
  Forall (fun v => is_u64 v) vals -> sum_values "<Q" ls total = Ok (total + sumZ vals).
Proof.
  revert ls total. induction vals as [|v vals IH]; intros ls total H Hv.
  - apply Forall2_nil_inv_r in H as ->. cbn. f_equal. lia.
  - apply Forall2_cons_inv_r in H as (l & ls' & (o & j & -> & Ho & Hj) & H & ->). apply Forall_cons in Hv as [Hv Hvs].
    cbn [sum_values getitem]. rewrite Ho. cbn [of_option mbind res_bind]. rewrite (bytes_of_hexargs_ok _ _ Hj).
    cbn [mbind res_bind]. rewrite unpack_head_Q by done. cbn [mbind res_bind].
    rewrite IH by done. f_equal. unfold sumZ. cbn [foldr]. lia.
Qed.

(** The name of a counter, as both programmes number them. *)
Definition metric_name (m : metric_idx) : string := default "" (METRIC_NAMES !! metric_num m).

Definition all_metrics : list metric_idx := take (metric_num M_MAX) metric_enum.*1.

Lemma metric_name_lookup m : m <> M_MAX -> METRIC_NAMES !! metric_num m = Some (metric_name m).
Proof. by destruct m. Qed.

Lemma metric_name_inj m m' : m <> M_MAX -> m' <> M_MAX -> metric_name m = metric_name m' -> m = m'.
Proof.
  intros Hm Hm' E. apply metric_num_inj.
  assert (Hnd : NoDup METRIC_NAMES) by (apply (bool_decide_eq_true_1 _); vm_compute; reflexivity).
  eapply (NoDup_lookup _ _ _ _ Hnd); [by apply metric_name_lookup|]. rewrite E. by apply metric_name_lookup.
Qed.

Lemma metric_num_small m : is_u32 (Z.of_nat (metric_num m)).
Proof. by destruct m. Qed.

Definition collect (S : metric_idx -> Z) (ms : list metric_idx) (out : gmap string Z) : gmap string Z :=
  foldl (fun o m => <[metric_name m := S m]> o) out ms.

Lemma collect_lookup S ms out m :
  m <> M_MAX -> Forall (fun m => m <> M_MAX) ms ->
  m ∈ ms \/ out !! metric_name m = Some (S m) -> collect S ms out !! metric_name m = Some (S m).
Proof.
  intros Hm Hms. revert out. induction Hms as [|m' ms Hm' Hms IH]; intros out Hin.
  - destruct Hin as [[]%elem_of_nil|?]. done.
  - cbn. apply IH. destruct (decide (m' = m)) as [->|Hne]; [right; apply lookup_insert_eq|].
    rewrite lookup_insert_ne by (by intros ?%metric_name_inj).
    destruct Hin as [[?|?]%elem_of_cons|?]; [congruence|by left|by right].
Qed.

Section dumps.
Context (cpus : list cpu_state).
Context (Hu64 : forall st m, st ∈ cpus -> is_u64 (metric st m)).

(** The counter on every CPU, and its sum. *)
Definition per_cpu (m : metric_idx) : list Z := (fun st => metric st m) <$> cpus.
Definition total (m : metric_idx) : Z := sumZ (per_cpu m).

Lemma per_cpu_u64 m : Forall (fun v => is_u64 v) (per_cpu m).
Proof using Hu64. apply Forall_fmap, Forall_forall. intros st Hst. by apply Hu64. Qed.

Lemma read_metrics_loop_ok raw ms out :
  Forall2 (fun e m => renders e (Z.of_nat (metric_num m)) (per_cpu m)) raw ms ->
  Forall (fun m => m <> M_MAX) ms ->
  read_metrics_loop raw out = Ok (collect total ms out).
Proof using Hu64.
  intros H. revert out. induction H as [|e m raw ms (o & k & v & -> & Hk & Hv & Rk & l & -> & Rv) _ IH]; intros out Hms; [done|].
  apply Forall_cons in Hms as [Hm Hms]. cbn [read_metrics_loop getitem get]. rewrite Hk, Hv.
  cbn [of_option mbind res_bind from_option id]. rewrite (bytes_of_hexargs_ok _ _ Rk).
  cbn [mbind res_bind]. rewrite unpack_head_I by apply metric_num_small. cbn [mbind res_bind].
  rewrite (proj2 (Z.leb_gt _ _)) by (destruct m; done). cbn [py_iter mbind res_bind].
  rewrite (sum_values_ok _ _ _ Rv) by apply per_cpu_u64. cbn [mbind res_bind].
  rewrite Nat2Z.id, metric_name_lookup by done. cbn [mbind res_bind of_option]. rewrite Z.add_0_l.
  by rewrite IH.
Qed.

Lemma total_nonneg m : 0 <= total m.
Proof using Hu64.
  unfold total. pose proof (per_cpu_u64 m) as H. unfold sumZ.
  induction H as [|v l Hv _ IH]; cbn; lia.
Qed.
End dumps.

(** ** What is scraped *)

(** The two ends number the counters alike.  [METRIC_NAMES] (agent.py) is
    [enum metric_idx] (upf_maps.h) with the [M_] prefix dropped and in lower
    case, enumerator by enumerator, and it stops where [M_MAX] does; so the
    index the datapath bumps is the index the agent names. *)
Theorem metric_names_match_enum :
  (fun p => Some (lower p.2)) <$> take (metric_num M_MAX) metric_enum =
    (fun n => Some ("m_" ++ n)) <$> METRIC_NAMES /\
  length METRIC_NAMES = metric_num M_MAX /\
  length METRIC_NAMES = length all_metrics /\
  map_def_of "metrics" = Some {| md_type := MT_PERCPU_ARRAY; md_ksize := 4; md_vsize := 8;
                                 md_max := Z.of_nat (length METRIC_NAMES) |}.
Proof. split_and!; vm_compute; reflexivity. Qed.

Lemma all_metrics_spec m : m <> M_MAX -> m ∈ all_metrics.
Proof. intros Hm. apply (bool_decide_eq_true_1 _). by destruct m. Qed.

Lemma all_metrics_max : Forall (fun m => m <> M_MAX) all_metrics.
Proof. apply (bool_decide_eq_true_1 _). vm_compute. reflexivity. Qed.

Lemma percpu_values_ok ls vals :
  Forall2 (fun e b => exists o v, e = JObj o /\ obj_get "value" o = Some v /\ renders_bytes v b) ls (le_split 8 <$> vals) ->
  Forall (fun v => is_u64 v) vals ->
  map_res (fun v => val ← get v "value" JNull; int_of_element val) ls = Ok vals.
Proof.
  revert ls. induction vals as [|v vals IH]; intros ls H Hv.
  - by apply Forall2_nil_inv_r in H as ->.
  - apply Forall2_cons_inv_r in H as (l & ls' & (o & j & -> & Ho & Hj) & H & ->). apply Forall_cons in Hv as [Hv Hvs].
    cbn [map_res get]. rewrite Ho. cbn [from_option id mbind res_bind]. rewrite (int_of_element_ok _ _ Hj).
    cbn [mbind res_bind]. rewrite le_combine_split_small by (change (2 ^ (Z.of_nat 8 * 8)) with (2 ^ 64); done).
    by rewrite IH.
Qed.

Lemma percpu_metric_ok cpus ms raw m :
  Forall2 (fun e m => renders e (Z.of_nat (metric_num m)) (per_cpu cpus m)) raw ms -> m ∈ ms ->
  Forall (fun v => is_u64 v) (per_cpu cpus m) ->
  percpu_metric (JList raw) (Z.of_nat (metric_num m)) = Ok (per_cpu cpus m).
Proof.
  unfold percpu_metric. cbn [py_iter mbind res_bind].
  intros H Hin Hu. revert Hin.
  induction H as [|e m' raw ms (o & k & v & -> & Hk & Hv & Rk & l & -> & Rv) _ IH]; [by intros ?%elem_of_nil|]. intros Hin.
  cbn [percpu_metric_loop get]. rewrite Hk, Hv. cbn [from_option id mbind res_bind]. rewrite (int_of_element_ok _ _ Rk). cbn [mbind res_bind].
  rewrite le_combine_split_small by (change (2 ^ (Z.of_nat 4 * 8)) with (2 ^ 32); apply metric_num_small).
  destruct (decide (m' = m)) as [->|Hne].
  - rewrite Z.eqb_refl. cbn [negb py_iter mbind res_bind]. by apply percpu_values_ok.
  - rewrite (proj2 (Z.eqb_neq _ _)) by (intros ?%Nat2Z.inj%metric_num_inj; done).
    apply elem_of_cons in Hin as [?|?]; [congruence|auto].
Qed.

(** C23: what reading a map through bpftool can give.  If the command cannot be
    run, [map_dump] raises that error; if it fails, [CalledProcessError] with
    its exit status; otherwise [json.loads], which ends on any output, gives
    the value printed, and [ValueError] if the output is no JSON.  The errors
    of the dump are those of the Prometheus page and of [read_urr]. *)
Theorem map_dump_outcome h name :
  match subprocess_run h (map_dump_cmd h name) with
  | Exc e => map_dump h name = Exc e
  | Ok p =>
      if returncode p =? 0 then
        (forall j, plain j = true -> stdout p = json_text j -> map_dump h name = Ok j) /\
        ((exists j, map_dump h name = Ok j) \/ map_dump h name = Exc ValueError)
      else map_dump h name = Exc (CalledProcessError (returncode p))
  end /\
  (forall e, map_dump h "metrics" = Exc e -> read_metrics h = Exc e /\ prometheus_text h = Exc e) /\
  (forall e id, map_dump h "urr_counters" = Exc e -> read_urr h id = Exc e).
Proof.
  split; [|split].
  - unfold map_dump, run_cmd. destruct (subprocess_run h _) as [p|e]; [|done]. cbn [mbind res_bind andb].
    destruct (returncode p =? 0); [|done]. cbn [negb mbind res_bind]. split; [|apply json_loads_total].
    intros j Hj ->. by apply json_text_read.
  - intros e He. unfold prometheus_text, read_metrics. by rewrite He.
  - intros e id He. unfold read_urr. by rewrite He.
Qed.

(** What bpftool shows of the counters of these CPUs. *)
Definition shows_metrics (h : host) (cpus : list cpu_state) : Prop :=
  exists raw, dumps_json h "metrics" raw /\
    Forall2 (fun e m => renders e (Z.of_nat (metric_num m)) (per_cpu cpus m)) raw all_metrics.

Section scrape.
Context (cpus : list cpu_state).
Context (Hu64 : forall st m, st ∈ cpus -> is_u64 (metric st m)).
Context (h : host) (Hh : shows_metrics h cpus).

Lemma read_metrics_ok : read_metrics h = Ok (collect (total cpus) all_metrics ∅).
Proof using Hu64 Hh.
  destruct Hh as (raw & Hd & Hraw). unfold read_metrics. rewrite (map_dump_ok _ _ _ Hd). cbn [mbind res_bind py_iter].
  by rewrite (read_metrics_loop_ok cpus Hu64 _ all_metrics) by (exact Hraw || exact all_metrics_max).
Qed.

Lemma collect_nonneg name : 0 <= default 0 (collect (total cpus) all_metrics ∅ !! name).
Proof using Hu64.
  assert (forall ms out, 0 <= default 0 (out !! name) ->
    0 <= default 0 (collect (total cpus) ms out !! name)) as Hg.
  { unfold collect. induction ms as [|m ms IH]; intros out Ho; [done|]. cbn [foldl]. apply IH.
    rewrite lookup_insert. case_decide; [by apply total_nonneg|done]. }
  apply Hg. by rewrite lookup_empty.
Qed.

Lemma scraped_total m :
  m <> M_MAX -> exists out page, read_metrics h = Ok out /\ out !! metric_name m = Some (total cpus m) /\
    prometheus_text h = Ok page /\ metrics_counter page (metric_name m) = total cpus m.
Proof using Hu64 Hh.
  intros Hm. eexists _, _. split; [exact read_metrics_ok|].
  assert (Hl : collect (total cpus) all_metrics ∅ !! metric_name m = Some (total cpus m)).
  { apply collect_lookup; [done|apply all_metrics_max|left; by apply all_metrics_spec]. }
  split; [done|]. unfold prometheus_text. rewrite read_metrics_ok. split; [reflexivity|]. rewrite metrics_counter_page.
  - by rewrite Hl.
  - apply list_elem_of_lookup. eexists. by apply metric_name_lookup.
  - apply collect_nonneg.
Qed.

Lemma percpu_shown m :
  m <> M_MAX -> exists d, map_dump h "metrics" = Ok d /\ percpu_metric d (Z.of_nat (metric_num m)) = Ok (per_cpu cpus m).
Proof using Hu64 Hh.
  intros Hm. destruct Hh as (raw & Hd & Hraw). eexists. split; [by apply map_dump_ok|].
  apply (percpu_metric_ok _ all_metrics); [exact Hraw|by apply all_metrics_spec|by apply per_cpu_u64].
Qed.

(** C19: the metrics page tells the truth.  When bpftool shows the per-CPU
    counter map, [read_metrics] gives every counter its sum over the CPUs; what
    [metrics_counter] (native_throughput.py) finds on the page
    [prometheus_text] prints is that sum, although the stages share prefixes;
    and [percpu_metric] (qer_contention.py) gives the counter of every CPU. *)
Theorem metrics_roundtrip m :
  m <> M_MAX ->
  (exists out page, read_metrics h = Ok out /\ out !! metric_name m = Some (total cpus m) /\
     prometheus_text h = Ok page /\ metrics_counter page (metric_name m) = total cpus m) /\
  exists d, map_dump h "metrics" = Ok d /\ percpu_metric d (Z.of_nat (metric_num m)) = Ok (per_cpu cpus m).
Proof using Hu64 Hh. intros Hm. split; [by apply scraped_total|by apply percpu_shown]. Qed.
End scrape.

(** CPUs that have each received a sequence of packets since boot. *)
Definition received (runs : list (list (lookup_fn * bytes))) : list cpu_state :=
  (fun ps => (xdp_run ps cpu_init).2) <$> runs.

Lemma received_u64 runs st m : st ∈ received runs -> is_u64 (metric st m).
Proof.
  intros (ps & -> & _)%list_elem_of_fmap. destruct (xdp_run ps cpu_init) as [acts st'] eqn:Hx.
  destruct (xdp_run_bumps _ _ _ _ Hx) as (bs & -> & _). cbn [snd].
  rewrite metric_bump_all by by vm_compute. apply u64_range.
Qed.

Lemma received_total runs :
  Forall (fun ps : list (lookup_fn * bytes) => Z.of_nat (length ps) < 2 ^ 64) runs ->
  total (received runs) M_RX_TOTAL = Z.of_nat (length (concat runs)).
Proof.
  unfold total, per_cpu, received. induction 1 as [|ps runs Hps _ IH]; [done|].
  cbn [fmap list_fmap concat]. rewrite length_app, Nat2Z.inj_add, <-IH. unfold sumZ. cbn [foldr]. f_equal.
  destruct (xdp_run ps cpu_init) as [acts st'] eqn:Hx.
  destruct (xdp_run_bumps _ _ _ _ Hx) as (bs & -> & _ & Hrx & _). cbn [snd].
  rewrite metric_bump_all by by vm_compute. rewrite Hrx.
  change (metric cpu_init M_RX_TOTAL) with 0. apply u64_small. lia.
Qed.

(** The cross-check of native_throughput.py is sound.  When the packets of
    a run are spread over the CPUs in any way, the [rx_total] scraped from the
    metrics page is exactly the number of packets the XDP programme received. *)
Theorem scraped_rx_total runs h :
  Forall (fun ps : list (lookup_fn * bytes) => Z.of_nat (length ps) < 2 ^ 64) runs ->
  shows_metrics h (received runs) ->
  exists page, prometheus_text h = Ok page /\ metrics_counter page "rx_total" = Z.of_nat (length (concat runs)).
Proof.
  intros Hruns Hh.
  destruct (scraped_total (received runs) (received_u64 runs) h Hh M_RX_TOTAL) as (_ & page & _ & _ & Hp & Hm); [done|].
  exists page. split; [done|]. rewrite <-received_total by done. exact Hm.
Qed.

(** The dump of the counters of these CPUs, and a machine that prints it. *)
Definition dump_of (cpus : list cpu_state) : list json :=
  (fun m => entry_json (le_split 4 (Z.of_nat (metric_num m))) (le_split 8 <$> per_cpu cpus m)) <$> all_metrics.

Lemma dump_of_renders cpus :
  Forall2 (fun e m => renders e (Z.of_nat (metric_num m)) (per_cpu cpus m)) (dump_of cpus) all_metrics.
Proof. unfold dump_of. apply Forall2_fmap_l, Forall_Forall2_diag, Forall_true. intros m. apply entry_renders. Qed.

Lemma entry_json_plain key vals : plain (entry_json key vals) = true.
Proof.
  assert (Hb : forall b, plain (hexargs_json b) = true).
  { intros b. cbn [plain hexargs_json]. generalize (bytes_to_hexargs b). induction l; [done|exact IHl]. }
  cbn [plain entry_json forallb snd fmap list_fmap fst]. rewrite Hb, andb_true_r. cbn [andb].
  rewrite andb_true_l || idtac. generalize 0. induction vals as [|v vals IH]; intros cpu; [done|].
  cbn [values_json forallb]. rewrite IH. cbn [plain forallb snd fst fmap list_fmap]. by rewrite Hb.
Qed.

(** A machine on which bpftool prints these two maps, and fails otherwise. *)
Definition demo_host (metrics urrs : list json) : host :=
  let cmd := map_dump_cmd (host_of "6.8.0" []) in
  host_of "6.8.0" [(cmd "metrics", JList metrics); (cmd "urr_counters", JList urrs)]%list.

Lemma demo_host_dumps metrics urrs :
  forallb plain metrics = true -> forallb plain urrs = true ->
  dumps_json (demo_host metrics urrs) "metrics" metrics /\ dumps_json (demo_host metrics urrs) "urr_counters" urrs.
Proof.
  intros Hm Hu. split; (eexists; split; [reflexivity|]; split; [done|]; by apply json_text_read).
Qed.

Lemma dump_of_plain cpus : forallb plain (dump_of cpus) = true.
Proof. unfold dump_of. induction all_metrics as [|m ms IH]; [done|]. cbn [fmap list_fmap forallb]. by rewrite entry_json_plain. Qed.

Lemma demo_host_shows cpus : shows_metrics (demo_host (dump_of cpus) []) cpus.
Proof.
  exists (dump_of cpus). split; [|apply dump_of_renders]. apply demo_host_dumps; [apply dump_of_plain|done].
Qed.

Definition demo_cpus : list cpu_state :=
  [bump_all [M_RX_TOTAL; M_TC_QER_PASS] cpu_init; bump_all [M_RX_TOTAL; M_RX_TOTAL] cpu_init].

Lemma metrics_roundtrip_witness :
  exists page, prometheus_text (demo_host (dump_of demo_cpus) []) = Ok page /\
    metrics_counter page "rx_total" = 3.
Proof.
  assert (Hu : forall st m, st ∈ demo_cpus -> is_u64 (metric st m)).
  { intros st m Hst. unfold demo_cpus in Hst.
    apply elem_of_cons in Hst as [->|Hst]; [|apply elem_of_cons in Hst as [->|[]%elem_of_nil]];
      rewrite metric_bump_all by (by vm_compute); apply u64_range. }
  destruct (metrics_roundtrip demo_cpus Hu _ (demo_host_shows _) M_RX_TOTAL ltac:(discriminate))
    as [(out & page & _ & _ & Hp & Hc) _].
  exists page. split; [exact Hp|]. etransitivity; [exact Hc|]. vm_compute. reflexivity.
Defined.

Lemma scraped_rx_total_witness :
  let runs := [[((fun _ _ => None) : lookup_fn, [Byte.x00]); ((fun _ _ => None) : lookup_fn, [])]; []]%list in
  exists page, prometheus_text (demo_host (dump_of (received runs)) []) = Ok page /\
    metrics_counter page "rx_total" = 2.
Proof.
  intros runs. refine (scraped_rx_total runs _ _ (demo_host_shows _)).
  apply (bool_decide_eq_true_1 _). vm_compute. reflexivity.
Defined.

Lemma map_dump_outcome_witness :
  let h := host_of "6.8.0" [(map_dump_cmd (host_of "6.8.0" []) "metrics", JList [JInt 1; JNull]%list)] in
  map_dump h "metrics" = Ok (JList [JInt 1; JNull]%list) /\ map_dump h "urr_counters" = Exc (CalledProcessError 1) /\
  read_urr h 1 = Exc (CalledProcessError 1).
Proof.
  intros h. destruct (map_dump_outcome h "urr_counters") as (H1 & _ & H3).
  destruct (map_dump_outcome h "metrics") as (H2 & _). cbn in H1. split; [|split; [exact H1|by apply H3]].
  exact (proj1 H2 (JList [JInt 1; JNull]%list) eq_refl eq_refl).
Defined.
