(* ===== verification/Contention.v ===== *)
(** * The QER contention experiment

    test/qer_contention.py: [nflows] sessions share one QER, traffic is blasted
    at them, and the counters before and after give the packets admitted and
    rejected, the CPUs engaged, the bytes admitted and the overshoot.  The
    traffic generator and [bpftool] are outside: a [host] says what they answer
    at each snapshot.  The figures are computed in doubles. *)

From S2P Require Import Prelude Prog PyStruct PyText PyFloat FloatBounds Json Bpftool UpfMaps Kernel BpfSyscall Encoders Agent Qer QerLive Datapath Metering Bundle Sessions Bootstrap Metrics.

Open Scope Z_scope.

(** ** The script *)

(** [agent.METRIC_NAMES.index(name)]; both names are in the list. *)
Definition metric_index (name : string) : Z :=
  match list_find (fun n => n = name) METRIC_NAMES with Some (i, _) => Z.of_nat i | None => -1 end.

Definition QER_PASS_IDX : Z := metric_index "tc_qer_pass".
Definition QER_DROP_IDX : Z := metric_index "tc_qer_drop".
Definition TEID_BASE : Z := 0x7000.
Definition PDR_BASE : Z := 0x7000.

Definition TC_PROG_PIN : string := "/sys/fs/bpf/upf/tc_prog/classifier".

Definition prog_show_cmd : list string := ["bpftool"; "-j"; "prog"; "show"; "pinned"; TC_PROG_PIN]%string.

(** [prog_stats]: whatever [json.loads] raises, both are 0. *)
Definition prog_stats (h : host) : res (json * json) :=
  out ← subprocess_run h prog_show_cmd;
  match json_loads (stdout out) with
  | Exc _ => Ok (JInt 0, JInt 0)
  | Ok j =>
      j ← match j with JList l => of_option IndexError (head l) | _ => Ok j end;
      rt ← get j "run_time_ns" (JInt 0);
      rc ← get j "run_cnt" (JInt 0);
      Ok (rt, rc)
  end.

Record snap := { sn_pass : list Z; sn_drop : list Z; sn_bytes : Z; sn_run_ns : json; sn_run_cnt : json }.

Definition snapshot (h : host) : res snap :=
  d ← map_dump h "metrics";
  urr ← read_urr h 1;
  let urr := default {| us_bytes_ul := 0; us_pkts_ul := 0 |} urr in
  '(rt, rc) ← prog_stats h;
  pass ← percpu_metric d QER_PASS_IDX;
  drop ← percpu_metric d QER_DROP_IDX;
  Ok {| sn_pass := pass; sn_drop := drop; sn_bytes := us_bytes_ul urr; sn_run_ns := rt; sn_run_cnt := rc |}.

(** The figures printed. *)
Record run_report := {
  rp_admitted : Z; rp_rejected : Z; rp_cpus_engaged : Z; rp_admitted_bytes : Z;
  rp_metered_pkt_bytes : num; rp_admitted_bps : float; rp_overshoot : float; rp_ns_per_run : float; rp_prog_runs : num;
}.

(** [per_cpu_pass[i] > 0 or (i < m and per_cpu_drop[i] > 0)] *)
Definition engaged (per_cpu_pass per_cpu_drop : list Z) (i : nat) : bool :=
  (0 <? nth i per_cpu_pass 0) || ((i <? length per_cpu_drop)%nat && (0 <? nth i per_cpu_drop 0)).

Definition contention_report (duration mbr_bps : Z) (before after : snap) : res run_report :=
  let per_cpu_pass := zip_with Z.sub (sn_pass after) (sn_pass before) in
  let per_cpu_drop := zip_with Z.sub (sn_drop after) (sn_drop before) in
  let admitted := sumZ per_cpu_pass in
  let rejected := sumZ per_cpu_drop in
  let cpus_engaged := sumZ ((fun i => if engaged per_cpu_pass per_cpu_drop i then 1 else 0)
                              <$> seq 0 (length per_cpu_pass)) in
  let admitted_bytes := sn_bytes after - sn_bytes before in
  metered_pkt_bytes ← (if admitted =? 0 then Ok (NInt 0) else q ← int_div admitted_bytes admitted; Ok (NFloat q));
  admitted_bps ← int_div (admitted_bytes * 8) duration;
  overshoot ← (if mbr_bps =? 0 then Ok S754_nan else num_div (NFloat admitted_bps) (NInt mbr_bps));
  rt_a ← as_num (sn_run_ns after); rt_b ← as_num (sn_run_ns before); d_rt ← num_sub rt_a rt_b;
  rc_a ← as_num (sn_run_cnt after); rc_b ← as_num (sn_run_cnt before); d_rc ← num_sub rc_a rc_b;
  ns_per_run ← (if num_true d_rc then num_div d_rt d_rc else Ok (S754_zero false));
  Ok {| rp_admitted := admitted; rp_rejected := rejected; rp_cpus_engaged := cpus_engaged;
        rp_admitted_bytes := admitted_bytes; rp_metered_pkt_bytes := metered_pkt_bytes;
        rp_admitted_bps := admitted_bps; rp_overshoot := overshoot; rp_ns_per_run := ns_per_run;
        rp_prog_runs := d_rc |}.

(** The rules: one FAR, one shared QER, [nflows] sessions. *)
Definition contention_setup (nflows mbr_bps burst out_ifindex : Z) : bpfM unit :=
  install_far 1 FAR_FORWARD out_ifindex 0 0 ;;
  install_qer 1 mbr_bps 0 burst ;;
  for_each (range nflows) (fun i => install_session_default (TEID_BASE + i) (PDR_BASE + i)).

(** The options of [main]. *)
Record contention_args := {
  ca_nflows : Z; ca_pps : Z; ca_duration : Z; ca_mbr_bps : Z; ca_burst : Z;
  ca_iface : string; ca_netns : string; ca_out_ifindex : Z;
}.

(** The traffic generator; [blast] is the path of qer_blast. *)
Definition blast_cmd (args : contention_args) (blast : string) : list string :=
  ["ip"; "netns"; "exec"; ca_netns args; blast; ca_iface args; str_Z (ca_pps args); str_Z (ca_duration args);
   py_hex TEID_BASE; str_Z (ca_nflows args)]%string.

(** [main]; [before], [during] and [after] are the machine at the two snapshots
    and at the start of the traffic.  It returns the figures and the line of
    the generator it prints. *)
Definition contention_main (args : contention_args) (blast : string) (before during after : host) : bpfM (run_report * string) :=
  contention_setup (ca_nflows args) (ca_mbr_bps args) (ca_burst args) (ca_out_ifindex args) ;;
  b ← lift (snapshot before);
  out ← lift (subprocess_run during (blast_cmd args blast));
  a ← lift (snapshot after);
  r ← lift (contention_report (ca_duration args) (ca_mbr_bps args) b a);
  for_each (range (ca_nflows args)) (fun i => remove_session (TEID_BASE + i) (PDR_BASE + i)) ;;
  mret (r, strip (stdout out)).

Example blast_cmd_ex :
  blast_cmd {| ca_nflows := 8; ca_pps := 200000; ca_duration := 10; ca_mbr_bps := 50000000; ca_burst := 65536;
    ca_iface := "enp24s0f1"; ca_netns := "upf_hw_test"; ca_out_ifindex := 2 |} "qer_blast" =
  ["ip"; "netns"; "exec"; "upf_hw_test"; "qer_blast"; "enp24s0f1"; "200000"; "10"; "0x7000"; "8"]%string.
Proof. vm_compute. reflexivity. Qed.

Example engaged_ex : (engaged [0; 3; 0] [0; 0; 2] <$> seq 0 3) = [false; true; true].
Proof. reflexivity. Qed.

(** The indices are the enumerators the datapath bumps. *)
Lemma qer_indices :
  QER_PASS_IDX = Z.of_nat (metric_num M_TC_QER_PASS) /\ QER_DROP_IDX = Z.of_nat (metric_num M_TC_QER_DROP).
Proof. split; vm_compute; reflexivity. Qed.

(** ** Reading the URR back *)

Definition zero_urr : urr_val := {| bytes_ul := 0; bytes_dl := 0; pkts_ul := 0; pkts_dl := 0 |}.

(** The bytes of a [struct urr_val]. *)
Definition urr_image (v : urr_val) : bytes :=
  le_split 8 (bytes_ul v) ++ le_split 8 (bytes_dl v) ++ le_split 8 (pkts_ul v) ++ le_split 8 (pkts_dl v).

Definition urr_of (urr_id : Z) (st : cpu_state) : urr_val := default zero_urr (cpu_urr st !! urr_id).

(** A dump of the per-CPU hash of these CPUs: entries for [ids], each with the
    value of every CPU, and no other entry in use on any CPU. *)
Record renders_urrs (cpus : list cpu_state) (raw : list json) (ids : list Z) : Prop := {
  ru_entries : Forall2 (fun e id => is_u32 id /\
    renders_entry e (le_split 4 id) ((fun st => urr_image (urr_of id st)) <$> cpus)) raw ids;
  ru_all : forall st id, st ∈ cpus -> is_Some (cpu_urr st !! id) -> id ∈ ids;
}.

Lemma le_split_u64 z : le_split 8 (u64 z) = le_split 8 z.
Proof. unfold u64. change (2 ^ 64) with (2 ^ (Z.of_nat 8 * 8)). symmetry. apply le_split_mod. Qed.

Lemma unpack_urr v :
  unpack "<QQQQ" (urr_image v) = Ok [u64 (bytes_ul v); u64 (bytes_dl v); u64 (pkts_ul v); u64 (pkts_dl v)].
Proof.
  apply unpack_pack. unfold pack. change (parse_fmt "<QQQQ") with (Some (LE, [fQ; fQ; fQ; fQ])).
  unfold urr_image. rewrite <-(le_split_u64 (bytes_ul v)), <-(le_split_u64 (bytes_dl v)),
    <-(le_split_u64 (pkts_ul v)), <-(le_split_u64 (pkts_dl v)).
  assert (Hr : forall z, in_range fQ (u64 z)) by (intros z; exact (u64_range z)).
  generalize (Hr (bytes_ul v)), (Hr (bytes_dl v)), (Hr (pkts_ul v)), (Hr (pkts_dl v)).
  generalize (u64 (bytes_ul v)), (u64 (bytes_dl v)), (u64 (pkts_ul v)), (u64 (pkts_dl v)).
  intros a b c d Ha Hb Hc Hd.
  rewrite (pack_codes_ok LE [fQ; fQ; fQ; fQ] [a; b; c; d]) by (repeat (apply Forall2_cons; split; [assumption|]); constructor).
  reflexivity.
Qed.

Lemma sum_urr_ok ls sts urr_id acc :
  Forall2 (fun e b => exists o v, e = JObj o /\ obj_get "value" o = Some v /\ renders_bytes v b) ls
    ((fun st => urr_image (urr_of urr_id st)) <$> sts) ->
  Forall (fun st => is_u64 (urr_bytes urr_id st)) sts ->
  exists acc', sum_urr ls acc = Ok acc' /\ us_bytes_ul acc' = us_bytes_ul acc + sumZ (urr_bytes urr_id <$> sts).
Proof.
  revert ls acc. induction sts as [|st sts IH]; intros ls acc H Hu.
  - apply Forall2_nil_inv_r in H as ->. eexists. split; [reflexivity|]. cbn. lia.
  - apply Forall2_cons_inv_r in H as (l & ls' & (o & j & -> & Ho & Hj) & H & ->). apply Forall_cons in Hu as [Hu Hus].
    cbn [sum_urr getitem]. rewrite Ho. cbn [of_option mbind res_bind]. rewrite (bytes_of_hexargs_ok _ _ Hj). cbn [mbind res_bind].
    rewrite unpack_urr. cbn [mbind res_bind nth].
    assert (Hb : u64 (bytes_ul (urr_of urr_id st)) = urr_bytes urr_id st).
    { unfold urr_of, urr_bytes in *. destruct (cpu_urr st !! urr_id); [by apply u64_small|done]. }
    rewrite Hb.
    destruct (IH ls' {| us_bytes_ul := us_bytes_ul acc + urr_bytes urr_id st;
                    us_pkts_ul := us_pkts_ul acc + u64 (pkts_ul (urr_of urr_id st)) |} H Hus) as (acc' & E & S).
    exists acc'. split; [exact E|]. rewrite S. cbn [us_bytes_ul fmap list_fmap sumZ foldr]. unfold sumZ. lia.
Qed.

(** [read_urr] gives the sum over the CPUs, [None] standing for 0. *)
Lemma read_urr_ok cpus h raw ids urr_id :
  dumps_json h "urr_counters" raw -> renders_urrs cpus raw ids -> is_u32 urr_id ->
  Forall (fun st => is_u64 (urr_bytes urr_id st)) cpus ->
  exists o, read_urr h urr_id = Ok o /\
    us_bytes_ul (default {| us_bytes_ul := 0; us_pkts_ul := 0 |} o) = sumZ (urr_bytes urr_id <$> cpus).
Proof.
  intros Hd [He Hall] Hid Hu.
  assert (Hin : urr_id ∈ ids \/ sumZ (urr_bytes urr_id <$> cpus) = 0).
  { destruct (decide (urr_id ∈ ids)) as [?|Hn]; [by left|right]. clear He Hu.
    induction cpus as [|st cpus IH]; [done|]. cbn. fold (sumZ (urr_bytes urr_id <$> cpus)). rewrite IH.
    - unfold urr_bytes. destruct (cpu_urr st !! urr_id) eqn:E; [|done].
      destruct Hn. apply (Hall st); [by left|by rewrite E].
    - intros st' id Hst. apply Hall. by right. }
  unfold read_urr. rewrite (map_dump_ok _ _ _ Hd). cbn [mbind res_bind py_iter]. clear Hall Hd.
  induction He as [|e uid raw ids (Hid' & o & k & v & -> & Hk & Hv & Rk & l & -> & Rv) _ IH].
  - exists None. split; [done|]. by destruct Hin as [?%elem_of_nil| ->].
  - cbn [read_urr_loop getitem get]. rewrite Hk, Hv. cbn [of_option mbind res_bind from_option id].
    rewrite (bytes_of_hexargs_ok _ _ Rk). cbn [mbind res_bind].
    rewrite unpack_head_I by done. cbn [mbind res_bind]. destruct (Z.eqb_spec uid urr_id) as [->|Hne]; cbn [negb py_iter mbind res_bind].
    + destruct (sum_urr_ok _ _ _ {| us_bytes_ul := 0; us_pkts_ul := 0 |} Rv Hu) as (acc & -> & S).
      cbn [mbind res_bind]. eexists. split; [reflexivity|]. exact S.
    + apply IH. destruct Hin as [[?|?]%elem_of_cons|?]; [congruence|by left|by right].
Qed.

(** One snapshot of these CPUs: the two dumps, and the statistics of the
    programme, which are [__u64]s. *)
Record snapshot_of (cpus : list cpu_state) (h : host) : Prop := {
  so_metrics : shows_metrics h cpus;
  so_urrs : exists raw ids, dumps_json h "urr_counters" raw /\ renders_urrs cpus raw ids;
  so_stats : exists rt rc, prog_stats h = Ok (JInt rt, JInt rc) /\ is_u64 rt /\ is_u64 rc;
}.

(** The snapshot of CPUs whose counters fit. *)
Record shows_snap (cpus : list cpu_state) (sn : snap) : Prop := {
  ss_pass : sn_pass sn = per_cpu cpus M_TC_QER_PASS;
  ss_drop : sn_drop sn = per_cpu cpus M_TC_QER_DROP;
  ss_bytes : sn_bytes sn = sumZ (urr_bytes 1 <$> cpus);
  ss_stats : exists rt rc, sn_run_ns sn = JInt rt /\ sn_run_cnt sn = JInt rc /\ is_u64 rt /\ is_u64 rc;
}.

Lemma snapshot_ok cpus h :
  snapshot_of cpus h -> Forall (cpu_ok 1) cpus -> exists sn, snapshot h = Ok sn /\ shows_snap cpus sn.
Proof.
  intros [(raw & Hd & Hraw) (rawu & ids & Hdu & Hu) (rt & rc & Hs & Hrt & Hrc)] Hok. unfold snapshot.
  destruct qer_indices as [-> ->]. rewrite (map_dump_ok _ _ _ Hd). cbn [mbind res_bind].
  assert (HB : Forall (fun st => is_u64 (urr_bytes 1 st)) cpus) by (eapply Forall_impl; [exact Hok|by intros ? []]).
  destruct (read_urr_ok _ _ _ _ 1 Hdu Hu ltac:(done) HB) as (o & -> & So). cbn [mbind res_bind].
  rewrite Hs. cbn [mbind res_bind].
  rewrite !(percpu_metric_ok cpus all_metrics) by first [exact Hraw|by apply all_metrics_spec|
    apply Forall_fmap; eapply Forall_impl; [exact Hok|by intros ? []]].
  cbn [mbind res_bind]. eexists. split; [reflexivity|]. split; [done..|exact So|]. by exists rt, rc.
Qed.

(** The report, where no division fails. *)
Lemma contention_report_ok duration mbr b a rt rc rt' rc' :
  duration <> 0 -> Z.abs mbr < 2 ^ 970 -> Z.abs (sn_bytes a - sn_bytes b) < 2 ^ 960 ->
  sn_run_ns b = JInt rt -> sn_run_cnt b = JInt rc -> sn_run_ns a = JInt rt' -> sn_run_cnt a = JInt rc' ->
  is_u64 rt -> is_u64 rc -> is_u64 rt' -> is_u64 rc' ->
  exists r, contention_report duration mbr b a = Ok r /\
    rp_admitted r = sumZ (zip_with Z.sub (sn_pass a) (sn_pass b)) /\
    rp_rejected r = sumZ (zip_with Z.sub (sn_drop a) (sn_drop b)) /\
    rp_cpus_engaged r = sumZ ((fun i => if engaged (zip_with Z.sub (sn_pass a) (sn_pass b))
      (zip_with Z.sub (sn_drop a) (sn_drop b)) i then 1 else 0) <$> seq 0 (length (zip_with Z.sub (sn_pass a) (sn_pass b)))) /\
    rp_admitted_bytes r = sn_bytes a - sn_bytes b.
Proof.
  intros Hd Hm Hb E1 E2 E3 E4 H1 H2 H3 H4. unfold contention_report. rewrite E1, E2, E3, E4.
  set (adm := sumZ (zip_with Z.sub (sn_pass a) (sn_pass b))).
  assert (Hmet : exists q, (if adm =? 0 then Ok (NInt 0) else q ← int_div (sn_bytes a - sn_bytes b) adm; Ok (NFloat q)) = Ok q).
  { destruct (Z.eqb_spec adm 0) as [|Ha]; [by eexists|].
    destruct (int_div_ok (sn_bytes a - sn_bytes b) adm) as [q ->]; [|done|by eexists].
    eapply Z.lt_trans; [exact Hb|by vm_compute]. }
  destruct Hmet as [q ->]. cbn [mbind res_bind].
  destruct (int_div_ok ((sn_bytes a - sn_bytes b) * 8) duration) as [bps ->]; [|done|].
  { change (2 ^ 970) with (2 ^ 960 * 1024). lia. }
  cbn [mbind res_bind].
  assert (Hov : exists o, (if mbr =? 0 then Ok S754_nan else num_div (NFloat bps) (NInt mbr)) = Ok o).
  { destruct (Z.eqb_spec mbr 0) as [|Hn]; [by eexists|]. destruct (float_of_int_ok mbr) as [E Hz]; [lia|].
    cbn [num_div to_float mbind res_bind]. rewrite E. cbn [mbind res_bind]. unfold float_div. rewrite Hz. by eexists. }
  destruct Hov as [o ->]. cbn [mbind res_bind as_num num_sub num_op].
  assert (Hns : exists x, (if num_true (NInt (rc' - rc)) then num_div (NInt (rt' - rt)) (NInt (rc' - rc)) else Ok (S754_zero false)) = Ok x).
  { cbn [num_true num_div]. destruct (Z.eqb_spec (rc' - rc) 0) as [|Hn]; [by eexists|]. cbn [negb].
    apply int_div_ok; [|done]. eapply Z.lt_trans; [|by instantiate (1 := 2 ^ 65); vm_compute]. change (2 ^ 65) with (2 * 2 ^ 64). lia. }
  destruct Hns as [x Hx]. unfold num_sub, num_op. cbn [mbind res_bind]. rewrite Hx. cbn [mbind res_bind]. by eexists.
Qed.

(** [cpus_engaged] counts the CPUs whose counters moved. *)
Lemma engaged_count (ps ds : list Z) :
  length ps = length ds ->
  sumZ ((fun i => if engaged ps ds i then 1 else 0) <$> seq 0 (length ps)) =
    sumZ (zip_with (fun p d => if (0 <? p) || (0 <? d) then 1 else 0) ps ds).
Proof.
  revert ds. induction ps as [|p ps IH]; intros [|d ds] Hl; simplify_eq/=; [done|].
  rewrite <-fmap_S_seq, <-list_fmap_compose. rewrite <-(IH ds) by done. done.
Qed.

(** ** One CPU under load *)

(** The state of a CPU and the packets steered to it. *)
Record cpu_load := { cl_state : cpu_state; cl_queue : list tc_packet }.

Section load.
Context (build : tc_build).
Context (adjust_room : sk_buff -> Z -> Z -> Z -> option sk_buff).
Context (redirect : Z -> Z -> Z).
Context (qv : qer_val) (t T : Z).

Definition cl_after (c : cpu_load) : cpu_state := tc_run build adjust_room redirect (cl_queue c) (cl_state c).

(** Of the arrivals at the bucket of this CPU, those with the given verdict,
    and the bytes admitted. *)
Definition decided (ok : bool) (c : cpu_load) (arr : list arrival) : Z :=
  Z.of_nat (length (filter (fun v => v = ok) (verdicts (tc_qer build) qv (bucket_of 1 (cl_state c)) arr))).
Definition bytes_admitted (c : cpu_load) (arr : list arrival) : Z :=
  fst (run_bucket (tc_qer build) qv (bucket_of 1 (cl_state c)) arr).

(** Counters with room for the run, and clock readings within the window. *)
Record load_ok (c : cpu_load) : Prop := {
  lo_cpu : cpu_ok 1 (cl_state c);
  lo_pass : metric (cl_state c) M_TC_QER_PASS < 2 ^ 63;
  lo_drop : metric (cl_state c) M_TC_QER_DROP < 2 ^ 63;
  lo_bytes : urr_bytes 1 (cl_state c) < 2 ^ 63;
  lo_len : Z.of_nat (length (cl_queue c)) < 2 ^ 31;
  lo_clock : clocked t (t + T) (cl_queue c);
}.

(** What the experiment reads of a CPU: exactly the verdicts of its bucket. *)
Record measures (c : cpu_load) (arr : list arrival) : Prop := {
  ms_arrivals : arrivals_of (cl_queue c) arr;
  ms_after : cpu_ok 1 (cl_after c);
  ms_pass : metric (cl_after c) M_TC_QER_PASS - metric (cl_state c) M_TC_QER_PASS = decided true c arr;
  ms_drop : metric (cl_after c) M_TC_QER_DROP - metric (cl_state c) M_TC_QER_DROP = decided false c arr;
  ms_bytes : urr_bytes 1 (cl_after c) - urr_bytes 1 (cl_state c) = bytes_admitted c arr;
  ms_all : decided true c arr + decided false c arr = Z.of_nat (length arr);
  ms_bound : 8000000000 * bytes_admitted c arr <=
    if decide (arr = []) then 0 else 8000000000 * burst_bytes qv + T * mbr_ul_bps qv;
}.

Lemma clocked_range s s' l : clocked s s' l -> Forall (fun p => s <= seen_at p <= s') l /\ s <= s'.
Proof using Type.
  revert s. induction l as [|p l IH]; intros s; cbn; [done|]. intros [Hle Hc]. destruct (IH _ Hc) as [Hf ?].
  split; [|lia]. constructor; [lia|]. eapply Forall_impl; [exact Hf|]. cbn. lia.
Qed.

Lemma filter_both (vs : list bool) :
  (length (filter (fun v => v = true) vs) + length (filter (fun v => v = false) vs) = length vs)%nat.
Proof using Type.
  induction vs as [|v vs IH]; [done|]. destruct v; rewrite !filter_cons;
    [rewrite decide_True, decide_False by done|rewrite decide_False, decide_True by done]; cbn [length]; lia.
Qed.

Lemma run_bucket_total b q st l :
  Forall arrival_wf l -> 0 <= fst (run_bucket b q st l) <= Z.of_nat (length l) * 2 ^ 32.
Proof using Type.
  intros Hf. revert st. induction Hf as [|a l [_ Ha] _ IH]; intros st; [done|]. cbn [run_bucket].
  destruct (bucket_step b q st a) as [ok st1]. specialize (IH st1).
  destruct (run_bucket b q st1 l) as [adm st2]. cbn [fst length] in *. destruct ok; lia.
Qed.

Lemma load_measures qb c :
  qer_fits qv -> read_qer_val qb = qv -> 0 < t -> t + T < 2 ^ 64 ->
  (forall skb d m f inner, adjust_room skb d m f = Some inner -> is_u32 (skb_len inner)) ->
  load_ok c -> Forall (fun p => meters 1 1 qb p.1) (cl_queue c) -> exists arr, measures c arr.
Proof using Type.
  intros Hfits Hqv Ht HT Hlens [Hok Hp Hd Hb Hl Hc] Hm.
  assert (Hmbr : mbr_ul_bps (read_qer_val qb) <> 0) by (rewrite Hqv; destruct Hfits; lia).
  destruct (tc_run_metered build adjust_room redirect 1 1 qb Hmbr ltac:(done) ltac:(done) Hlens _ _ Hm Hok)
    as (arr & Harr & [_ Mp Md My] & Hok'). rewrite Hqv in *. fold (cl_after c) in *.
  destruct (clocked_range _ _ _ Hc) as [Hr _].
  assert (Hwf : Forall arrival_wf arr).
  { eapply arrivals_wf; [exact Harr|]. eapply Forall_impl; [exact Hr|]. cbn. lia. }
  destruct (arrivals_in_order _ _ _ _ Harr Hc) as [Hord _]. pose proof (arrivals_length _ _ Harr) as Hlen.
  assert (Hall : decided true c arr + decided false c arr = Z.of_nat (length arr)).
  { unfold decided. rewrite <-Nat2Z.inj_add, filter_both, length_verdicts. done. }
  pose proof (run_bucket_total (tc_qer build) qv (bucket_of 1 (cl_state c)) arr Hwf) as Htot.
  fold (decided true c arr) in Mp. fold (decided false c arr) in Md. fold (bytes_admitted c arr) in My, Htot.
  destruct Hok as [_ [Op _] [Od _] [Ob _]].
  assert (0 <= decided true c arr /\ 0 <= decided false c arr) by (unfold decided; lia).
  exists arr. split; [done|done| | | |done|].
  - rewrite Mp, u64_small by lia. lia.
  - rewrite Md, u64_small by lia. lia.
  - rewrite My, u64_small by lia. lia.
  - destruct arr as [|a arr]; [done|]. rewrite decide_False by done. unfold bytes_admitted.
    destruct (run_bucket _ _ (bucket_of 1 (cl_state c)) (a :: arr)) as [adm st'] eqn:Hrun.
    destruct Hord as [Hta Hord]. pose proof (run_bucket_any _ _ _ _ _ _ _ Hfits Hwf Hord Hrun) as Hany. cbn [fst].
    assert (Hlast : t <= at_ns a /\ last_at (at_ns a) arr <= t + T)
      by (split; [done|]; exact (proj2 (proj2 (arrivals_in_order _ _ _ _ Harr Hc)))).
    destruct Hfits as [? _]. assert ((last_at (at_ns a) arr - at_ns a) * mbr_ul_bps qv <= T * mbr_ul_bps qv)
      by (apply Z.mul_le_mono_nonneg_r; lia). lia.
Qed.
End load.

(** ** The report of a run *)

Lemma Forall_choose {A B} (P : A -> B -> Prop) l : Forall (fun x => exists y, P x y) l -> exists k, Forall2 P l k.
Proof.
  induction 1 as [|x l [y Hy] _ [k Hk]]; [by exists []|]. exists (y :: k). by constructor.
Qed.

Section experiment.
Context (build : tc_build).
Context (adjust_room : sk_buff -> Z -> Z -> Z -> option sk_buff).
Context (redirect : Z -> Z -> Z).
Context (qv : qer_val) (T : Z).

Abbreviation after := (cl_after build adjust_room redirect).

(** The figures of a report are those of the buckets. *)
Record reports (loads : list cpu_load) (arrs : list (list arrival)) (r : run_report) : Prop := {
  re_admitted : rp_admitted r = sumZ (zip_with (decided build qv true) loads arrs);
  re_rejected : rp_rejected r = sumZ (zip_with (decided build qv false) loads arrs);
  re_engaged : rp_cpus_engaged r = sumZ ((fun arr => if decide (arr = []) then 0 else 1) <$> arrs);
  re_bytes : rp_admitted_bytes r = sumZ (zip_with (bytes_admitted build qv) loads arrs);
}.

Lemma zip_diff (f : cpu_state -> Z) (h : cpu_load -> list arrival -> Z) loads arrs :
  Forall2 (fun c arr => f (after c) - f (cl_state c) = h c arr) loads arrs ->
  zip_with Z.sub (f <$> (after <$> loads)) (f <$> (cl_state <$> loads)) = zip_with h loads arrs.
Proof using Type. induction 1 as [|c arr loads arrs E _ IH]; [done|]. cbn. by rewrite E, <-IH. Qed.

Lemma sum_diff (f : cpu_state -> Z) (h : cpu_load -> list arrival -> Z) loads arrs :
  Forall2 (fun c arr => f (after c) - f (cl_state c) = h c arr) loads arrs ->
  sumZ (f <$> (after <$> loads)) - sumZ (f <$> (cl_state <$> loads)) = sumZ (zip_with h loads arrs).
Proof using Type. unfold sumZ. induction 1 as [|c arr loads arrs E _ IH]; [done|]. cbn in *. lia. Qed.

Lemma measures_report duration mbr loads arrs before_ after_ :
  duration <> 0 -> is_u64 mbr -> Z.of_nat (length loads) < 2 ^ 32 ->
  Forall (fun c => cpu_ok 1 (cl_state c)) loads ->
  Forall2 (measures build adjust_room redirect qv T) loads arrs ->
  snapshot_of (cl_state <$> loads) before_ -> snapshot_of (after <$> loads) after_ ->
  exists sb sa r, snapshot before_ = Ok sb /\ snapshot after_ = Ok sa /\
    contention_report duration mbr sb sa = Ok r /\ reports loads arrs r.
Proof using Type.
  intros Hd Hmbr Hlen Hok Hms Hb Ha.
  assert (Hok' : Forall (fun c => cpu_ok 1 (after c)) loads).
  { clear -Hms. induction Hms as [|c arr l l' [] _ IH]; by constructor. }
  destruct (snapshot_ok _ _ Hb) as (sb & Eb & [Pb Db Bb (rt1 & rc1 & Rt1 & Rc1 & ? & ?)]); [by apply Forall_fmap|].
  destruct (snapshot_ok _ _ Ha) as (sa & Ea & [Pa Da Ba (rt2 & rc2 & Rt2 & Rc2 & ? & ?)]); [by apply Forall_fmap|].
  assert (Hbytes : forall f, Forall (fun c => cpu_ok 1 (f c)) loads ->
    0 <= sumZ (urr_bytes 1 <$> (f <$> loads)) <= 2 ^ 32 * 2 ^ 64).
  { intros f Hf. rewrite <-list_fmap_compose.
    assert (0 <= sumZ (urr_bytes 1 ∘ f <$> loads) <= Z.of_nat (length loads) * 2 ^ 64).
    { clear -Hf. unfold sumZ. induction Hf as [|c l [] _ IH]; [done|]. cbn [fmap list_fmap foldr length compose]. lia. }
    lia. }
  destruct (contention_report_ok duration mbr sb sa rt1 rc1 rt2 rc2 Hd) as (r & Hr & R1 & R2 & R3 & R4); try done.
  { eapply Z.lt_trans with (2 ^ 65); [change (2 ^ 65) with (2 * 2 ^ 64); lia|by vm_compute]. }
  { rewrite Bb, Ba. pose proof (Hbytes _ Hok). pose proof (Hbytes _ Hok').
    eapply Z.lt_trans with (2 ^ 97); [change (2 ^ 97) with (2 * (2 ^ 32 * 2 ^ 64)); lia|by vm_compute]. }
  rewrite Pb, Pa in R1, R3. rewrite Db, Da in R2, R3. rewrite Bb, Ba in R4.
  unfold per_cpu in R1, R2, R3.
  rewrite engaged_count in R3 by (by rewrite !length_zip_with, !length_fmap).
  rewrite !(zip_diff _ (decided build qv true) loads arrs) in R1, R3
    by (eapply Forall2_impl; [exact Hms|by intros ?? []]).
  rewrite !(zip_diff _ (decided build qv false) loads arrs) in R2, R3
    by (eapply Forall2_impl; [exact Hms|by intros ?? []]).
  rewrite (sum_diff _ (bytes_admitted build qv) loads arrs) in R4
    by (eapply Forall2_impl; [exact Hms|by intros ?? []]).
  exists sb, sa, r. split; [exact Eb|]. split; [exact Ea|]. split; [exact Hr|]. split; [done|done| |done].
  rewrite R3. clear -Hms.
  induction Hms as [|c arr l l' Hm _ IH]; [done|]. cbn [zip_with fmap list_fmap]. unfold sumZ in *. cbn [foldr].
  rewrite <-IH. f_equal. pose proof (ms_all _ _ _ _ _ _ _ Hm) as Hall.
  assert (0 <= decided build qv true c arr /\ 0 <= decided build qv false c arr) by (unfold decided; lia).
  revert Hall H. generalize (decided build qv true c arr), (decided build qv false c arr). intros x y Hall Hxy.
  destruct arr as [|a arr]; [rewrite decide_True by done|rewrite decide_False by done]; cbn [length] in Hall;
    destruct (Z.ltb_spec 0 x), (Z.ltb_spec 0 y); cbn; lia.
Qed.

(** Together the CPUs admit what each may, the idle ones nothing. *)
Lemma measures_bound loads arrs :
  Forall2 (measures build adjust_room redirect qv T) loads arrs ->
  8000000000 * sumZ (zip_with (bytes_admitted build qv) loads arrs) <=
    sumZ ((fun arr : list arrival => if decide (arr = []) then 0 else 1) <$> arrs) *
      (8000000000 * burst_bytes qv + T * mbr_ul_bps qv).
Proof using Type.
  unfold sumZ. induction 1 as [|c arr l l' Hm _ IH]; [done|]. cbn [zip_with fmap list_fmap foldr].
  pose proof (ms_bound _ _ _ _ _ _ _ Hm) as Hb. destruct (decide (arr = [])); lia.
Qed.
End experiment.

(** ** The rules of the experiment *)

Section kernel.
Context `{BpfKernelLaws K}.

(** Every bundle installed names QER 1 and URR 1. *)
Definition bundles_shared (k : K) : Prop :=
  forall pk bv, contents k "tc_bundle_map" pk = Some bv ->
    slot_qer_id (live_slot (read_tc_bundle bv)) = 1 /\ slot_urr_id (live_slot (read_tc_bundle bv)) = 1.

Lemma bundles_shared_other k k' :
  (forall j, contents k' "tc_bundle_map" j = contents k "tc_bundle_map" j) -> bundles_shared k -> bundles_shared k'.
Proof. intros E Hb pk bv. rewrite E. apply Hb. Qed.

Lemma bundles_shared_evicts k k' : evicts k k' -> bundles_shared k -> bundles_shared k'.
Proof. intros He. apply bundles_shared_other. intros j. by apply evicts_has. Qed.

(** The bundle [install_session] writes. *)
Lemma default_bundle sl v :
  enc_bundle_slot 1 1 1 100 0 = Ok sl -> enc_bundle 0 sl sl = Ok v -> live_slot (read_tc_bundle v) = boot_slot.
Proof. intros Hsl Hv. by rewrite (proj1 (enc_bundle_layout 0 boot_slot boot_slot _ _ _ Hsl Hsl Hv)). Qed.

Lemma bundles_shared_stored key sl v k k' :
  enc_bundle_slot 1 1 1 100 0 = Ok sl -> enc_bundle 0 sl sl = Ok v ->
  stored "tc_bundle_map" key v k k' -> bundles_shared k -> bundles_shared k'.
Proof.
  intros Hsl Hv Hst Hb pk bv Hc. destruct (decide (pk = key)) as [->|Hne].
  - destruct Hst as [Hst _]. rewrite Hst in Hc. injection Hc as <-. by rewrite (default_bundle _ _ Hsl Hv).
  - apply (Hb pk). rewrite <-Hc. destruct Hst as (_ & Hf & _).
    destruct (Hf "tc_bundle_map"%string pk) as [E|(_ & E & _)]; [congruence|done|by vm_compute in E].
Qed.

Lemma enc_qer_burst ul dl burst b : enc_qer ul dl burst = Ok b -> is_u32 burst.
Proof.
  intros Hq. destruct (pack_codes_inv LE [fQ; fQ; fI; fI] _ _ Hq) as [Hf _].
  by apply Forall2_cons in Hf as [_ [_ [Hb _]%Forall2_cons]%Forall2_cons].
Qed.

(** The setup leaves QER 1 configured and every bundle sharing it. *)
Lemma pwp_contention_setup nflows mbr burst out_ifindex s k :
  cache_ok s k -> kernel_ok k -> bundles_shared k ->
  pwp sys_bpf evicts anything (contention_setup nflows mbr burst out_ifindex) s
    (fun r s' k' => r = Ok tt -> is_u32 burst /\ exists qb,
       read_qer_val qb = {| mbr_ul_bps := mbr; mbr_dl_bps := 0; burst_bytes := burst |} /\
       meters 1 1 qb (contents k')) k.
Proof.
  intros Hs Hk Hb. unfold contention_setup, install_far, install_qer. do 2 apply pwp_bind. apply pwp_lift.
  rewrite (enc_u32_ok 1) by done. apply pwp_bind, pwp_lift.
  destruct (enc_far FAR_FORWARD out_ifindex 0 0) as [fv|] eqn:Hfv; [|done].
  destruct (enc_far_layout _ _ _ _ _ Hfv) as [_ Lf].
  eapply pwp_mono; [eapply (pwp_store evicts anything evicts_stable ltac:(done) bundles_shared bundles_shared);
    [apply bundles_shared_evicts|reflexivity|reflexivity|apply length_le_split|done..|]|done|].
  { intros k1 k2 Hb1 Hst. split; [done|]. eapply bundles_shared_other; [|exact Hb1]. intros j.
    by apply (proj2 (stored_present_other _ _ _ _ _ Hst)). }
  intros [[]|[]] s1 k1 (Hs1 & Hk1 & _ & H1); try done. destruct H1 as [Hb1 _].
  do 2 apply pwp_bind. apply pwp_lift. apply pwp_bind, pwp_lift.
  destruct (enc_qer mbr 0 burst) as [qb|] eqn:Hqb; [|done]. destruct (enc_qer_layout _ _ _ _ Hqb) as [Rq Lq].
  set (P := fun k : K => contents k "qer_table" (le_split 4 1) = Some qb /\ bundles_shared k).
  assert (HP : forall k k', evicts k k' -> P k -> P k').
  { intros k2 k3 He [Hq2 Hb2]. split; [by rewrite (evicts_has _ _ "qer_table" _ eq_refl He)|by eapply bundles_shared_evicts]. }
  eapply pwp_mono; [eapply (pwp_store evicts anything evicts_stable ltac:(done) bundles_shared P);
    [apply bundles_shared_evicts|reflexivity|reflexivity|apply length_le_split|done..|]|done|].
  { intros k2 k3 Hb2 Hst. destruct (stored_present_other _ _ _ _ _ Hst) as [Hc Ho].
    split; [done|]. split; [exact Hc|]. eapply bundles_shared_other; [|exact Hb2]. intros j. by apply Ho. }
  intros [[]|[]] s2 k2 (Hs2 & Hk2 & _ & H2); try done. destruct H2 as [HP2 _].
  apply (pwp_for_each _ _ _ _ _ (fun _ s k => cache_ok s k /\ kernel_ok k /\ P k)) with (done_ := []).
  - done.
  - intros pre i post s3 k3 _ (Hs3 & Hk3 & HP3).
    eapply pwp_mono; [apply (pwp_install_session evicts anything evicts_stable ltac:(done) P P P P); try done|done|].
    + intros v k4 k5 _ _ [Hq4 Hb4] Hst. destruct (stored_present_other _ _ _ _ _ Hst) as [_ Ho].
      split; [done|]. split; [by rewrite Ho|]. eapply bundles_shared_other; [|exact Hb4]. intros j. by apply Ho.
    + intros sl v k4 k5 Hsl Hv [Hq4 Hb4] Hst. destruct (stored_present_other _ _ _ _ _ Hst) as [_ Ho].
      split; [done|]. split; [by rewrite Ho|]. by eapply bundles_shared_stored.
    + intros v k4 k5 _ _ [Hq4 Hb4] Hst. destruct (stored_present_other _ _ _ _ _ Hst) as [_ Ho].
      split; [done|]. split; [by rewrite Ho|]. eapply bundles_shared_other; [|exact Hb4]. intros j. by apply Ho.
    + intros [[]|[]] s4 k4 (? & ? & ? & Hr); try done. by destruct Hr as (_ & _ & ? & _).
  - intros s3 k3 (_ & _ & Hq3 & Hb3) _. split; [by eapply enc_qer_burst|]. exists qb. by split.
Qed.

(** C11: the contention experiment measures the buckets, and a per-CPU QER
    admits at most one rate per CPU engaged.  Start from maps in which every
    bundle names QER 1 and URR 1.  When the setup of qer_contention.py returns,
    let any CPUs run the per-CPU build on any packets, in timestamp order and
    within a window of [T] ns, while sessions may be evicted.  If the counters
    do not wrap, the report computed from the dumps before and after gives
    exactly the packets the buckets admitted and rejected, the number of CPUs
    with an arrival and the bytes admitted; and those bytes are at most
    [cpus_engaged] times a burst and what the MBR allows over [T]. *)
Theorem contention_bound build (adjust_room : sk_buff -> Z -> Z -> Z -> option sk_buff) (redirect : Z -> Z -> Z)
    nflows mbr burst out_ifindex duration s k s' k' loads t T before_ after_ :
  tc_qer build = PerCpu ->
  (forall skb d m f inner, adjust_room skb d m f = Some inner -> is_u32 (skb_len inner)) ->
  0 < mbr -> 1000000000 * mbr < 2 ^ 64 -> duration <> 0 -> 0 < t -> t + T < 2 ^ 64 ->
  Z.of_nat (length loads) < 2 ^ 32 -> cache_ok s k -> kernel_ok k -> bundles_shared k ->
  exec sys_bpf evicts (contention_setup nflows mbr burst out_ifindex s, k) (Ret (s', Ok tt), k') ->
  Forall (fun c => load_ok t T c /\ Forall (fun p => exists k2, evicts k' k2 /\ p.1 = contents k2) (cl_queue c)) loads ->
  snapshot_of (cl_state <$> loads) before_ ->
  snapshot_of (cl_after build adjust_room redirect <$> loads) after_ ->
  let qv := {| mbr_ul_bps := mbr; mbr_dl_bps := 0; burst_bytes := burst |} in
  exists sb sa r arrs,
    snapshot before_ = Ok sb /\ snapshot after_ = Ok sa /\ contention_report duration mbr sb sa = Ok r /\
    Forall2 (fun c arr => arrivals_of (cl_queue c) arr) loads arrs /\ reports build qv loads arrs r /\
    8000000000 * rp_admitted_bytes r <= rp_cpus_engaged r * (8000000000 * burst + T * mbr).
Proof.
  intros _ Hlens Hm0 Hm1 Hd Ht HT Hcpus Hs Hk Hb Hx Hl Hbef Haft qv.
  destruct (wp_exec_ret _ _ _ _ _ _ _ _ (pwp_contention_setup nflows mbr burst out_ifindex s k Hs Hk Hb) Hx eq_refl)
    as (Hburst & qb & Hqv & Hmet).
  assert (Hfits : qer_fits qv) by (by split).
  destruct (Forall_choose (measures build adjust_room redirect qv T) loads) as [arrs Hms].
  { eapply Forall_impl; [exact Hl|]. intros c [Hc Hq].
    apply (load_measures build adjust_room redirect qv t T qb); [done..|].
    eapply Forall_impl; [exact Hq|]. intros p (k2 & He & E). destruct Hmet as [M1 M2]. unfold lookup_fn in *. split.
    - rewrite E. by rewrite (evicts_has _ _ "qer_table" _ eq_refl He).
    - intros pk bv. rewrite E, (evicts_has _ _ "tc_bundle_map" _ eq_refl He). apply M2. }
  destruct (measures_report build adjust_room redirect qv T duration mbr loads arrs before_ after_)
    as (sb & sa & r & E1 & E2 & E3 & Hr); try done; [lia|..].
  { eapply Forall_impl; [exact Hl|]. by intros c [[] _]. }
  exists sb, sa, r, arrs. do 3 (split; [done|]). split; [eapply Forall2_impl; [exact Hms|by intros ?? []]|].
  split; [exact Hr|]. pose proof (measures_bound build adjust_room redirect qv T loads arrs Hms) as Hbound.
  destruct Hr as [_ _ -> ->]. exact Hbound.
Qed.

(** The keys of the experiment. *)
Definition contention_keys (nflows : Z) : list (string * bytes) :=
  ("far_table"%string, le_split 4 1) :: ("qer_table"%string, le_split 4 1) ::
  batch_keys TEID_BASE PDR_BASE (range nflows).

Lemma pwp_contention_main args blast before_ during after_ s k :
  cache_ok s k -> kernel_ok k ->
  pwp sys_bpf evicts anything (contention_main args blast before_ during after_) s
    (fun r _ k' => same_but (contention_keys (ca_nflows args)) k k' /\
       (forall rep, r = Ok rep -> gone (batch_keys TEID_BASE PDR_BASE (range (ca_nflows args))) k' /\
          exists sb sa, snapshot before_ = Ok sb /\ snapshot after_ = Ok sa /\
            contention_report (ca_duration args) (ca_mbr_bps args) sb sa = Ok rep.1)) k.
Proof.
  intros Hs Hk. destruct args as [nflows pps duration mbr burst iface netns out_ifindex].
  unfold contention_main. cbn [ca_nflows ca_mbr_bps ca_burst ca_out_ifindex ca_duration].
  set (out_cmd := blast_cmd _ _). clearbody out_cmd.
  set (ks := contention_keys nflows). set (l := range nflows).
  assert (Hsub : forall i, i ∈ l -> is_u32 (PDR_BASE + i) -> rule_keys (TEID_BASE + i) (PDR_BASE + i) ⊆ ks).
  { intros i Hi _ x Hx. do 2 right. by eapply batch_keys_in. }
  assert (H0' : same_but ks k k) by (intros n j _; by left).
  unfold contention_setup, install_far, install_qer. do 3 apply pwp_bind. apply pwp_lift.
  rewrite (enc_u32_ok 1) by done. apply pwp_bind, pwp_lift.
  destruct (enc_far FAR_FORWARD out_ifindex 0 0) as [fv|] eqn:Hfv; [|done].
  destruct (enc_far_layout _ _ _ _ _ Hfv) as [_ Lf].
  eapply pwp_mono; [eapply (pwp_store evicts anything evicts_stable ltac:(done) (same_but ks k) (same_but ks k));
    [intros; by eapply same_but_evicts|reflexivity|reflexivity|apply length_le_split|done..|]|done|].
  { intros k1 k2 Hb1 Hst. split; [done|]. eapply same_but_stored; [|done..]. by left. }
  intros [[]|[]] s1 k1 (Hs1 & Hk1 & _ & H1); try done. destruct H1 as [H1 _].
  do 2 apply pwp_bind. apply pwp_lift. apply pwp_bind, pwp_lift.
  destruct (enc_qer mbr 0 burst) as [qb|] eqn:Hqb; [|done]. destruct (enc_qer_layout _ _ _ _ Hqb) as [_ Lq].
  eapply pwp_mono; [eapply (pwp_store evicts anything evicts_stable ltac:(done) (same_but ks k) (same_but ks k));
    [intros; by eapply same_but_evicts|reflexivity|reflexivity|apply length_le_split|done..|]|done|].
  { intros k2 k3 Hb2 Hst. split; [done|]. eapply same_but_stored; [|done..]. right. by left. }
  intros [[]|[]] s2 k2 (Hs2 & Hk2 & _ & H2); try done. destruct H2 as [H2 _].
  eapply pwp_mono; [apply (pwp_install_all TEID_BASE PDR_BASE ks k l); done|done|].
  intros [[]|e] s3 k3 (Hs3 & Hk3 & H3 & Hr); [|by split]. destruct (Hr eq_refl) as [Hf Hc].
  apply pwp_bind, pwp_lift. destruct (snapshot before_) as [sb|]; [|done].
  apply pwp_bind, pwp_lift. destruct (subprocess_run during out_cmd) as [out|]; [|done].
  apply pwp_bind, pwp_lift. destruct (snapshot after_) as [sa|]; [|done].
  apply pwp_bind, pwp_lift. destruct (contention_report duration mbr sb sa) as [rep|] eqn:Hrep; [|done].
  apply pwp_bind. eapply pwp_mono; [apply (pwp_remove_all TEID_BASE PDR_BASE ks k l); done|done|].
  intros r s4 k4 (_ & _ & -> & H4 & Hg). apply pwp_ret. split; [done|]. intros ? [= <-]. split; [done|]. eauto.
Qed.

(** The contention experiment cleans up, unless it fails.  In any
    interleaving with session evictions qer_contention.py changes FAR 1, QER 1
    and the keys of its own sessions only; if it prints a report, that report is
    computed from its two snapshots and the sessions are gone; and with
    [--duration 0] there is never a report: it raises [ZeroDivisionError]
    before the cleanup, if nothing failed earlier. *)
Theorem contention_cleanup args blast before_ during after_ s k s' r k' :
  cache_ok s k -> kernel_ok k ->
  exec sys_bpf evicts (contention_main args blast before_ during after_ s, k) (Ret (s', r), k') ->
  same_but (contention_keys (ca_nflows args)) k k' /\
  (forall rep, r = Ok rep -> ca_duration args <> 0 /\ gone (batch_keys TEID_BASE PDR_BASE (range (ca_nflows args))) k' /\
     exists sb sa, snapshot before_ = Ok sb /\ snapshot after_ = Ok sa /\
       contention_report (ca_duration args) (ca_mbr_bps args) sb sa = Ok rep.1).
Proof.
  intros Hs Hk Hx.
  destruct (wp_exec_ret _ _ _ _ _ _ _ _ (pwp_contention_main args blast before_ during after_ s k Hs Hk) Hx)
    as [Hsame Hr]. split; [done|]. intros rep E. destruct (Hr rep E) as [Hg (sb & sa & E1 & E2 & E3)].
  split; [|by eauto 6]. intros Hz. unfold contention_report in E3. rewrite Hz in E3. cbv zeta in E3.
  destruct (if sumZ _ =? 0 then _ else _) as [q|] in E3; [|done]. discriminate E3.
Qed.
End kernel.

(** ** A run on the reference kernel *)

(** The URRs in use on some CPU. *)
Definition ids_of (cpus : list cpu_state) : list Z := cpus ≫= (fun st => (map_to_list (cpu_urr st)).*1).

Definition urr_dump_of (cpus : list cpu_state) : list json :=
  (fun id => entry_json (le_split 4 id) ((fun st => urr_image (urr_of id st)) <$> cpus)) <$> ids_of cpus.

(** A machine that shows these CPUs, without statistics of the programme. *)
Definition host_showing (cpus : list cpu_state) : host := demo_host (dump_of cpus) (urr_dump_of cpus).

Lemma host_showing_snapshot cpus : Forall (fun id => is_u32 id) (ids_of cpus) -> snapshot_of cpus (host_showing cpus).
Proof.
  intros Hids. destruct (demo_host_dumps (dump_of cpus) (urr_dump_of cpus)) as [Hm Hu]; [apply dump_of_plain| |].
  { unfold urr_dump_of. induction (ids_of cpus) as [|id ids IH]; [done|]. apply Forall_cons in Hids as [_ Hids].
    cbn [fmap list_fmap forallb]. by rewrite entry_json_plain, IH. }
  split.
  - exists (dump_of cpus). split; [done|apply dump_of_renders].
  - exists (urr_dump_of cpus), (ids_of cpus). split; [done|]. split.
    + unfold urr_dump_of. apply Forall2_fmap_l, Forall_Forall2_diag. eapply Forall_impl; [exact Hids|].
      intros id Hid. split; [done|]. apply entry_renders.
    + intros st id Hst [uv Hv]. apply list_elem_of_bind. exists st. split; [|done].
      apply list_elem_of_fmap. exists (id, uv). split; [done|]. by apply elem_of_map_to_list.
  - exists 0, 0. split; [reflexivity|]. done.
Qed.

Lemma cpu_init_ok urr_id : cpu_ok urr_id cpu_init.
Proof. split; [right; vm_compute; reflexivity|..]; vm_compute; split; (discriminate || reflexivity). Qed.

Definition demo_adjust (skb : sk_buff) (d _ _ : Z) : option sk_buff :=
  Some {| skb_data := skb_data skb; skb_len := u32 (skb_len skb + d) |}.

Definition demo_load (lookup : lookup_fn) : cpu_load :=
  let pkt t : tc_packet := (lookup, ({| skb_data := gpdu_bytes (plain_gpdu 0x7000 []); skb_len := 1436 |},
    {| kt_entry := 0; kt_qer := t; kt_exit := 0; kt_buffer := 0 |})) in
  {| cl_state := cpu_init; cl_queue := [pkt 1000; pkt 2000] |}.

Lemma demo_load_ok lookup : load_ok 1000 1000 (demo_load lookup).
Proof. split; [apply cpu_init_ok|..]; try reflexivity. repeat split; discriminate. Qed.

(** One CPU, one flow, two packets of 1400 bytes on a burst of 1500. *)
Lemma contention_bound_witness :
  let x := run ref_sys (contention_setup 1 50000000 1500 2 ∅) ref_init in
  let loads := [demo_load (contents x.1)] in
  let build := {| tc_qer := PerCpu; tc_emit_decision := false; tc_emit_latency := false |} in
  exists sb sa r, snapshot (host_showing (cl_state <$> loads)) = Ok sb /\
    snapshot (host_showing (cl_after build demo_adjust (fun _ _ => TC_ACT_REDIRECT) <$> loads)) = Ok sa /\
    contention_report 10 50000000 sb sa = Ok r /\
    8000000000 * rp_admitted_bytes r <= rp_cpus_engaged r * (8000000000 * 1500 + 1000 * 50000000) /\
    (rp_admitted r, rp_rejected r, rp_cpus_engaged r, rp_admitted_bytes r) = (1, 1, 1, 1400).
Proof.
  intros x loads build.
  set (redir := fun _ _ : Z => TC_ACT_REDIRECT). set (before_ := host_showing (cl_state <$> loads)).
  set (after_ := host_showing (cl_after build demo_adjust redir <$> loads)).
  assert (Hr : x.2.2 = Ok tt) by (vm_compute; reflexivity).
  assert (Hids : Forall (fun id => is_u32 id) (ids_of (cl_after build demo_adjust redir <$> loads)))
    by (apply (bool_decide_eq_true_1 _); vm_compute; reflexivity).
  assert (Hval : (fun r => (rp_admitted r, rp_rejected r, rp_cpus_engaged r, rp_admitted_bytes r)) <$>
    res_opt (sb ← snapshot before_; sa ← snapshot after_; contention_report 10 50000000 sb sa) = Some (1, 1, 1, 1400))
    by (vm_compute; reflexivity).
  assert (Hids0 : Forall (fun id => is_u32 id) (ids_of (cl_state <$> loads)))
    by (apply (bool_decide_eq_true_1 _); vm_compute; reflexivity).
  pose proof (host_showing_snapshot _ Hids0) as Hb.
  pose proof (host_showing_snapshot _ Hids) as Ha. fold before_ in Hb. fold after_ in Ha.
  pose proof (run_exec_rely ref_sys evicts (contention_setup 1 50000000 1500 2 ∅) ref_init evicts_refl) as Hx.
  fold x in Hx.
  assert (Hload : Forall (fun c => load_ok 1000 1000 c /\
    Forall (fun p => exists k2, evicts x.1 k2 /\ p.1 = contents k2) (cl_queue c)) loads).
  { apply Forall_cons; split; [|by apply Forall_nil]. split; [apply demo_load_ok|].
    apply Forall_cons; split; [|apply Forall_cons; split; [|by apply Forall_nil]];
      (exists x.1; split; [apply evicts_refl|reflexivity]). }
  assert (Hlens : forall skb d m f inner, demo_adjust skb d m f = Some inner -> is_u32 (skb_len inner)).
  { intros skb d m f inner [= <-]. apply u32_range. }
  assert (Hsh : bundles_shared ref_init) by (intros pk bv Hc; vm_compute in Hc; discriminate Hc).
  assert (Hcpus : Z.of_nat (length loads) < 2 ^ 32) by (vm_compute; reflexivity).
  clearbody before_ after_ loads x. destruct x as [k' [s' r']]. cbn [fst snd] in *. subst r'.
  destruct (contention_bound build demo_adjust redir 1 50000000 1500 2 10 ∅ ref_init s' k' loads 1000 1000 before_ after_
    eq_refl Hlens eq_refl eq_refl ltac:(discriminate) eq_refl eq_refl Hcpus (empty_cache_ok _) init_ok Hsh Hx Hload Hb Ha)
    as (sb & sa & r & arrs & E1 & E2 & E3 & _ & _ & Hbound).
  exists sb, sa, r. do 3 (split; [done|]). split; [exact Hbound|].
  rewrite E1, E2 in Hval. cbn [mbind res_bind] in Hval. rewrite E3 in Hval. by apply (inj Some) in Hval.
Defined.

(** Two flows on the reference kernel: nothing but FAR 1 and QER 1 is left. *)
Lemma contention_cleanup_witness :
  let h := host_showing [cpu_init] in
  let during := {| release := ""; subprocess_run := fun _ => Ok {| returncode := 0; stdout := "sent=0 " |} |}%string in
  let args := {| ca_nflows := 2; ca_pps := 200000; ca_duration := 10; ca_mbr_bps := 50000000; ca_burst := 65536;
    ca_iface := "enp24s0f1"; ca_netns := "upf_hw_test"; ca_out_ifindex := 2 |}%string in
  let x := run ref_sys (contention_main args "qer_blast" h during h ∅) ref_init in
  (fun r => (rp_admitted r.1, r.2)) <$> res_opt x.2.2 = Some (0, "sent=0"%string) /\
  same_but (contention_keys 2) ref_init x.1 /\ gone (batch_keys TEID_BASE PDR_BASE (range 2)) x.1.
Proof.
  intros h during args x.
  assert (Hr : (fun r => (rp_admitted r.1, r.2)) <$> res_opt x.2.2 = Some (0, "sent=0"%string)) by (vm_compute; reflexivity).
  split; [exact Hr|].
  pose proof (run_exec_rely ref_sys evicts (contention_main args "qer_blast" h during h ∅) ref_init evicts_refl) as Hx.
  fold x in Hx. clearbody h during x. destruct x as [k' [s' r]]. cbn [fst snd] in *.
  destruct (contention_cleanup args "qer_blast" h during h ∅ ref_init s' r k' (empty_cache_ok _) init_ok Hx) as [Hs Hg].
  split; [exact Hs|]. destruct r as [rep|]; [|discriminate Hr]. exact (proj1 (proj2 (Hg rep eq_refl))).
Defined.
