(* ===== verification/Netlink.v ===== *)
(** * gtp5g_genl.py and gtp5g_link_add.py: netlink by hand

    Attribute encoders, the message builders of the PDR, FAR and link
    requests, and the two request/reply exchanges.  The kernel's side is a
    parameter: a program sends and receives datagrams on a socket
    ([nl_call]); nothing is assumed of the answers except where a theorem
    says so. *)

From S2P Require Import Prelude Prog PyStruct PyText.

(** ** Constants *)

Definition GENL_ID_CTRL : Z := 0x10.
Definition CTRL_CMD_GETFAMILY : Z := 3.
Definition CTRL_ATTR_FAMILY_ID : Z := 1.
Definition CTRL_ATTR_FAMILY_NAME : Z := 2.
Definition NLM_F_REQUEST : Z := 0x1.
Definition NLM_F_ACK : Z := 0x4.
Definition NLMSG_ERROR : Z := 2.
Definition GTP5G_CMD_ADD_PDR : Z := 1.
Definition GTP5G_CMD_ADD_FAR : Z := 2.
Definition GTP5G_LINK : Z := 1.
Definition GTP5G_PDR_ID : Z := 3.
Definition GTP5G_PDR_PRECEDENCE : Z := 4.
Definition GTP5G_PDR_PDI : Z := 5.
Definition GTP5G_OUTER_HEADER_REMOVAL : Z := 6.
Definition GTP5G_PDR_FAR_ID : Z := 7.
Definition GTP5G_PDI_UE_ADDR_IPV4 : Z := 1.
Definition GTP5G_PDI_F_TEID : Z := 2.
Definition GTP5G_PDI_SRC_INTF : Z := 4.
Definition GTP5G_F_TEID_I_TEID : Z := 1.
Definition GTP5G_F_TEID_GTPU_ADDR_IPV4 : Z := 2.
Definition GTP5G_FAR_ID : Z := 3.
Definition GTP5G_FAR_APPLY_ACTION : Z := 4.
Definition GTP5G_FAR_FORWARDING_PARAMETER : Z := 5.
Definition GTP5G_FORWARDING_PARAMETER_OUTER_HEADER_CREATION : Z := 1.
Definition GTP5G_OUTER_HEADER_CREATION_DESCRIPTION : Z := 1.
Definition GTP5G_OUTER_HEADER_CREATION_O_TEID : Z := 2.
Definition GTP5G_OUTER_HEADER_CREATION_PEER_ADDR_IPV4 : Z := 3.
Definition GTP5G_OUTER_HEADER_CREATION_PORT : Z := 4.
Definition FAR_ACTION_DROP : Z := 0x01.
Definition FAR_ACTION_FORW : Z := 0x02.
Definition GTP5G_OUTER_HEADER_CREATION_GTPU_UDP_IPV4 : Z := 0x0100.

(** ** Attributes *)

(** [b"\x00" * pad_len] up to the next multiple of four *)
Definition nla_pad (length : Z) : bytes := replicate (Z.to_nat ((4 - length mod 4) mod 4)) Byte.x00.

Definition nla (nla_type : Z) (payload : bytes) : res bytes :=
  let len := 4 + Z.of_nat (length payload) in
  header ← pack "=HH" [len; nla_type];
  Ok ((header ++ payload) ++ nla_pad len).

Definition nla_nested (nla_type : Z) (attrs : list bytes) : res bytes := nla nla_type (mjoin attrs).

Definition nla_u8 (nla_type value : Z) : res bytes := p ← pack "=B" [value]; nla nla_type p.
Definition nla_u16 (nla_type value : Z) : res bytes := p ← pack "=H" [value]; nla nla_type p.
Definition nla_u32 (nla_type value : Z) : res bytes := p ← pack "=I" [value]; nla nla_type p.
Definition nla_be32 (nla_type value : Z) : res bytes := p ← pack "!I" [value]; nla nla_type p.

(** ** Message bodies *)

(** The attributes of [add_far], in the order the code appends them. *)
Definition far_attrs (ifindex far_id action : Z) (o_teid peer_ipv4 : option Z) (port : Z) : res bytes :=
  a1 ← nla_u32 GTP5G_LINK ifindex;
  a2 ← nla_u32 GTP5G_FAR_ID far_id;
  a3 ← nla_u16 GTP5G_FAR_APPLY_ACTION action;
  let attrs := (a1 ++ a2) ++ a3 in
  match o_teid, peer_ipv4 with
  | Some o_teid, Some peer_ipv4 =>
      if action =? FAR_ACTION_FORW then
        o1 ← nla_u16 GTP5G_OUTER_HEADER_CREATION_DESCRIPTION GTP5G_OUTER_HEADER_CREATION_GTPU_UDP_IPV4;
        o2 ← nla_u32 GTP5G_OUTER_HEADER_CREATION_O_TEID o_teid;
        o3 ← nla_be32 GTP5G_OUTER_HEADER_CREATION_PEER_ADDR_IPV4 peer_ipv4;
        o4 ← nla_u16 GTP5G_OUTER_HEADER_CREATION_PORT port;
        let ohc := ((o1 ++ o2) ++ o3) ++ o4 in
        fwd_param ← nla_nested GTP5G_FORWARDING_PARAMETER_OUTER_HEADER_CREATION [ohc];
        a4 ← nla_nested GTP5G_FAR_FORWARDING_PARAMETER [fwd_param];
        Ok (attrs ++ a4)
      else Ok attrs
  | _, _ => Ok attrs
  end.

(** [x += f(v) if v is not None] *)
Definition append_opt (acc : bytes) (f : Z -> res bytes) (v : option Z) : res bytes :=
  match v with Some z => a ← f z; Ok (acc ++ a) | None => Ok acc end.

(** The packet detection information nested in a PDR. *)
Definition pdi_attrs (ue_addr_ipv4 i_teid gtpu_addr_ipv4 src_intf : option Z) : res bytes :=
  pdi ← append_opt [] (nla_be32 GTP5G_PDI_UE_ADDR_IPV4) ue_addr_ipv4;
  pdi ← match i_teid, gtpu_addr_ipv4 with
        | None, None => Ok pdi
        | _, _ =>
            f_teid ← append_opt [] (nla_u32 GTP5G_F_TEID_I_TEID) i_teid;
            f_teid ← append_opt f_teid (nla_be32 GTP5G_F_TEID_GTPU_ADDR_IPV4) gtpu_addr_ipv4;
            a ← nla_nested GTP5G_PDI_F_TEID [f_teid];
            Ok (pdi ++ a)
        end;
  append_opt pdi (nla_u8 GTP5G_PDI_SRC_INTF) src_intf.

Definition pdr_attrs (ifindex pdr_id precedence far_id : Z)
    (ue_addr_ipv4 i_teid gtpu_addr_ipv4 src_intf outer_header_removal : option Z) : res bytes :=
  a1 ← nla_u32 GTP5G_LINK ifindex;
  a2 ← nla_u16 GTP5G_PDR_ID pdr_id;
  a3 ← nla_u32 GTP5G_PDR_PRECEDENCE precedence;
  attrs ← append_opt ((a1 ++ a2) ++ a3) (nla_u8 GTP5G_OUTER_HEADER_REMOVAL) outer_header_removal;
  pdi ← pdi_attrs ue_addr_ipv4 i_teid gtpu_addr_ipv4 src_intf;
  attrs ← match pdi with
          | [] => Ok attrs
          | _ => a ← nla_nested GTP5G_PDR_PDI [pdi]; Ok (attrs ++ a)
          end;
  a ← nla_u32 GTP5G_PDR_FAR_ID far_id;
  Ok (attrs ++ a).

(** ** The generic-netlink socket *)

Inductive nl_call :=
| UdpBind (port : Z)          (* socket, SO_REUSEADDR, bind, fileno *)
| NlBind (protocol : Z)       (* a raw netlink socket, bound to (0, 0) *)
| NlSend (msg : bytes)
| NlRecv (bufsize : Z)
| NlClose.

Inductive nl_reply :=
| NlErr (errno : Z)           (* the socket call raises OSError *)
| NlFd (fd : Z)
| NlData (b : bytes)
| NlDone.

(** [GenlSocket]: the sequence number and the family it has resolved. *)
Record GenlSocket := { gs_seq : Z; gs_family_id : option Z }.

Definition gs_init : GenlSocket := {| gs_seq := 0; gs_family_id := None |}.

Abbreviation nlM S := (py nl_call nl_reply S).

(** One socket call whose reply is a byte string. *)
Definition sock {S} (c : nl_call) : nlM S bytes :=
  r ← request c;
  match r with
  | NlErr e => raise (OSError e)
  | NlData b => mret b
  | _ => mret []
  end.

(** [GenlSocket._send_recv] *)
Definition _send_recv (msg_type flags : Z) (payload : bytes) : nlM GenlSocket (Z * bytes) :=
  gs ← get_state;
  put_state {| gs_seq := gs_seq gs + 1; gs_family_id := gs_family_id gs |} ;;
  let seq := gs_seq gs + 1 in
  let total_len := 16 + Z.of_nat (length payload) in
  hdr ← lift (pack "=IHHII" [total_len; msg_type; flags; seq; 0]);
  sock (NlSend (hdr ++ payload)) ;;
  resp ← sock (NlRecv 65536);
  h ← lift (unpack_from "=IHHII" resp 0);
  mret (nth 1 h 0, resp).

(** [raise OSError(-errno_val, os.strerror(-errno_val))]: [strerror] takes a C int. *)
Definition raise_errno {S A} (errno_val : Z) : nlM S A :=
  if decide (- errno_val < 2 ^ 31) then raise (OSError (- errno_val)) else raise OverflowError.

Definition set_family (f : Z) : nlM GenlSocket unit :=
  gs ← get_state; put_state {| gs_seq := gs_seq gs; gs_family_id := Some f |}.

(** The attribute loop of [resolve_family]; [None] when the fuel is spent. *)
Fixpoint scan_attrs (fuel : nat) (resp : bytes) (off end_ : Z) : nlM GenlSocket (option unit) :=
  match fuel with
  | O => mret None
  | S fuel' =>
      if off <? end_ then
        h ← lift (unpack_from "=HH" resp (Z.to_nat off));
        let a_len := nth 0 h 0 in
        let a_type := nth 1 h 0 in
        if a_len <? 4 then mret (Some tt) else
        (if a_type =? CTRL_ATTR_FAMILY_ID then
           f ← lift (unpack_from "=H" resp (Z.to_nat (off + 4)));
           set_family (nth 0 f 0)
         else mret tt) ;;
        let pad := (4 - a_len mod 4) mod 4 in
        scan_attrs fuel' resp (off + (a_len + pad)) end_
      else mret (Some tt)
  end.

Definition r_len_from (resp : bytes) : res Z :=
  h ← unpack_from "=I" resp 0; Ok (nth 0 h 0).

(** Enough for every attribute loop that starts at [off]. *)
Definition scan_fuel (off end_ : Z) : nat := S (Z.to_nat (end_ - off)).

Definition resolve_family (name : string) : nlM GenlSocket Z :=
  genlhdr ← lift (pack "=BBH" [CTRL_CMD_GETFAMILY; 1; 0]);
  a ← lift (nla CTRL_ATTR_FAMILY_NAME (encode name ++ [Byte.x00]));
  '(r_type, resp) ← _send_recv GENL_ID_CTRL (Z.lor NLM_F_REQUEST NLM_F_ACK) (genlhdr ++ a);
  if r_type =? NLMSG_ERROR then
    e ← lift (unpack_from "=i" resp 16);
    raise_errno (nth 0 e 0)
  else
    end_ ← lift (r_len_from resp);
    scan_attrs (scan_fuel 20 end_) resp 20 end_ ;;
    gs ← get_state;
    match gs_family_id gs with
    | None => raise RuntimeError
    | Some f => mret f
    end.

(** [GenlSocket.cmd]; an unresolved family is [None], which [pack] refuses. *)
Definition cmd (command : Z) (payload : bytes) (ack : bool) : nlM GenlSocket bytes :=
  genlhdr ← lift (pack "=BBH" [command; 1; 0]);
  let flags := Z.lor NLM_F_REQUEST (if ack then NLM_F_ACK else 0) in
  gs ← get_state;
  match gs_family_id gs with
  | None => put_state {| gs_seq := gs_seq gs + 1; gs_family_id := None |} ;; raise StructError
  | Some family_id =>
      '(r_type, resp) ← _send_recv family_id flags (genlhdr ++ payload);
      if r_type =? NLMSG_ERROR then
        e ← lift (unpack_from "=i" resp 16);
        if negb (nth 0 e 0 =? 0) then raise_errno (nth 0 e 0) else mret resp
      else mret resp
  end.

Definition add_far (ifindex far_id action : Z) (o_teid peer_ipv4 : option Z) (port : Z) : nlM GenlSocket unit :=
  attrs ← lift (far_attrs ifindex far_id action o_teid peer_ipv4 port);
  cmd GTP5G_CMD_ADD_FAR attrs true ;;
  mret tt.

Definition add_pdr (ifindex pdr_id precedence far_id : Z)
    (ue_addr_ipv4 i_teid gtpu_addr_ipv4 src_intf outer_header_removal : option Z) : nlM GenlSocket unit :=
  attrs ← lift (pdr_attrs ifindex pdr_id precedence far_id ue_addr_ipv4 i_teid gtpu_addr_ipv4 src_intf
                  outer_header_removal);
  cmd GTP5G_CMD_ADD_PDR attrs true ;;
  mret tt.

(** ** gtp5g_link_add.py *)

Definition RTM_NEWLINK : Z := 16.
Definition NLM_F_CREATE : Z := 0x400.
Definition NLM_F_EXCL : Z := 0x200.
Definition IFLA_IFNAME : Z := 3.
Definition IFLA_LINKINFO : Z := 18.
Definition IFLA_INFO_KIND : Z := 1.
Definition IFLA_INFO_DATA : Z := 2.
Definition IFLA_GTP5G_FD1 : Z := 1.
Definition IFLA_GTP5G_PDR_HASHSIZE : Z := 2.
Definition NETLINK_ROUTE : Z := 0.

(** The script has its own copies of three of the attribute encoders. *)
Definition link_nla (nla_type : Z) (payload : bytes) : res bytes :=
  let len := 4 + Z.of_nat (length payload) in
  header ← pack "=HH" [len; nla_type];
  Ok ((header ++ payload) ++ nla_pad len).

Definition link_nla_nested (nla_type : Z) (attrs : list bytes) : res bytes := link_nla nla_type (mjoin attrs).

Definition link_nla_u32 (nla_type value : Z) : res bytes := p ← pack "=I" [value]; link_nla nla_type p.

Definition nla_str (nla_type : Z) (value : string) : res bytes := link_nla nla_type (encode value ++ [Byte.x00]).

(** The RTM_NEWLINK message; [pid] is [os.getpid()]. *)
Definition newlink_message (ifname : string) (fd1 pdr_hashsize pid : Z) : res bytes :=
  d1 ← link_nla_u32 IFLA_GTP5G_FD1 fd1;
  d2 ← link_nla_u32 IFLA_GTP5G_PDR_HASHSIZE pdr_hashsize;
  info_data ← link_nla_nested IFLA_INFO_DATA [d1; d2];
  kind ← nla_str IFLA_INFO_KIND "gtp5g";
  link_info ← link_nla_nested IFLA_LINKINFO [kind; info_data];
  ifname_attr ← nla_str IFLA_IFNAME ifname;
  ifinfomsg ← pack "=BBHiII" [0; 0; 0; 0; 0; 0];
  let payload := (ifinfomsg ++ ifname_attr) ++ link_info in
  let seq := Z.land pid 0xffff in
  let nlmsg_flags := Z.lor (Z.lor (Z.lor NLM_F_REQUEST NLM_F_ACK) NLM_F_CREATE) NLM_F_EXCL in
  let total_len := 16 + Z.of_nat (length payload) in
  nlmsghdr ← pack "=IHHII" [total_len; RTM_NEWLINK; nlmsg_flags; seq; 0];
  Ok (nlmsghdr ++ payload).

(** The value is the descriptor of the UDP socket handed to the caller. *)
Definition create_gtp5g_link (ifname : string) (gtpu_port pdr_hashsize pid : Z) : nlM unit Z :=
  r ← request (UdpBind gtpu_port);
  match r with
  | NlErr e => raise (OSError e)
  | NlFd fd1 =>
      msg ← lift (newlink_message ifname fd1 pdr_hashsize pid);
      sock (NlBind NETLINK_ROUTE) ;;
      sock (NlSend msg) ;;
      resp ← sock (NlRecv 65536);
      h ← lift (unpack_from "=IHHII" resp 0);
      (if nth 1 h 0 =? 2 then
         e ← lift (unpack_from "=i" resp 16);
         if negb (nth 0 e 0 =? 0) then raise_errno (nth 0 e 0) else mret tt
       else mret tt) ;;
      sock NlClose ;;
      mret fd1
  | _ => raise TypeError
  end.

(** ** Attributes: layout *)

Lemma nla_ok t p :
  is_u16 t -> 4 + Z.of_nat (length p) < 2 ^ 16 ->
  nla t p = Ok ((le_split 2 (4 + Z.of_nat (length p)) ++ le_split 2 t) ++ p ++ nla_pad (4 + Z.of_nat (length p))).
Proof.
  intros Ht Hp. unfold nla, pack. change (parse_fmt "=HH") with (Some (LE, [fH; fH])). cbn [pack_codes].
  rewrite !decide_True by (unfold in_range; cbn [fsigned]; change (2 ^ fbits fH) with (2 ^ 16); lia). cbn [mbind res_bind enc_field fsize].
  by rewrite app_nil_r, <-app_assoc.
Qed.

Lemma nla_exc t p :
  ~ (is_u16 t /\ 4 + Z.of_nat (length p) < 2 ^ 16) -> nla t p = Exc StructError.
Proof.
  intros Hn. destruct (nla t p) as [b|e] eqn:E; unfold nla in E.
  - destruct (pack "=HH" _) as [h|] eqn:Hh; [|done]. destruct Hn. unfold pack in Hh.
    change (parse_fmt "=HH") with (Some (LE, [fH; fH])) in Hh.
    apply pack_codes_inv in Hh as [Hr _]. apply Forall2_cons_1 in Hr as [H1 Hr].
    apply Forall2_cons_1 in Hr as [H2 _]. unfold in_range in *. cbn [fsigned] in *. change (2 ^ fbits fH) with (2 ^ 16) in *. lia.
  - destruct (pack "=HH" _) as [h|] eqn:Hh; [done|]. by rewrite (pack_exc _ _ _ Hh) in E; simplify_eq.
Qed.

Lemma pad_range n : 0 <= (4 - n mod 4) mod 4 < 4.
Proof. apply Z.mod_pos_bound. lia. Qed.

Lemma pad_aligned n : (n + (4 - n mod 4) mod 4) mod 4 = 0.
Proof.
  rewrite Zplus_mod_idemp_r. replace (n + (4 - n mod 4)) with (n - n mod 4 + 1 * 4) by lia.
  rewrite Z_mod_plus_full, Zminus_mod_idemp_r. by rewrite Z.sub_diag.
Qed.

Lemma nla_length t p b :
  nla t p = Ok b -> Z.of_nat (length b) = 4 + Z.of_nat (length p) + (4 - (4 + Z.of_nat (length p)) mod 4) mod 4.
Proof.
  intros Hb. destruct (decide (is_u16 t /\ 4 + Z.of_nat (length p) < 2 ^ 16)) as [[Ht Hp]|Hn].
  2:{ by rewrite (nla_exc _ _ Hn) in Hb. }
  rewrite nla_ok in Hb by done. apply Ok_inj in Hb as <-. unfold nla_pad.
  rewrite !length_app, !length_le_split, length_replicate. pose proof (pad_range (4 + Z.of_nat (length p))). lia.
Qed.

(** C34: every attribute is well formed.  [nla] succeeds exactly when the type
    and the length fit 16 bits, and then writes the unpadded length, the type
    and the payload, followed by zeros up to the next multiple of four; any
    concatenation of attributes is therefore aligned. *)
Theorem nla_wellformed t p :
  match nla t p with
  | Ok b => is_u16 t /\ load 0 2 b = 4 + Z.of_nat (length p) /\ load 2 2 b = t /\
      slice 4 (length p) b = p /\ Z.of_nat (length b) mod 4 = 0 /\
      4 + Z.of_nat (length p) <= Z.of_nat (length b) < 4 + Z.of_nat (length p) + 4 /\
      Forall (fun x => x = Byte.x00) (drop (4 + length p) b)
  | Exc e => e = StructError /\ ~ (is_u16 t /\ 4 + Z.of_nat (length p) < 2 ^ 16)
  end.
Proof.
  destruct (decide (is_u16 t /\ 4 + Z.of_nat (length p) < 2 ^ 16)) as [[Ht Hp]|Hn]; [|by rewrite nla_exc].
  pose proof (nla_length t p) as Hlen. rewrite nla_ok in Hlen |- * by done.
  set (n := 4 + Z.of_nat (length p)) in *. pose proof (pad_range n). specialize (Hlen _ eq_refl).
  rewrite Hlen. split; [done|].
  assert (H0 : load 0 2 ((le_split 2 n ++ le_split 2 t) ++ p ++ nla_pad n) = n).
  { unfold load, slice. rewrite drop_0, <-!app_assoc, take_app_length' by (by rewrite length_le_split).
    apply le_combine_split_small. lia. }
  assert (H2 : load 2 2 ((le_split 2 n ++ le_split 2 t) ++ p ++ nla_pad n) = t).
  { unfold load, slice. rewrite <-!app_assoc, drop_app_length' by (by rewrite length_le_split).
    rewrite take_app_length' by (by rewrite length_le_split). apply le_combine_split_small. lia. }
  split_and!; try done; try lia.
  - unfold slice. rewrite drop_app_length' by (by rewrite length_app, !length_le_split).
    by rewrite take_app_length.
  - apply pad_aligned.
  - rewrite app_assoc, drop_app_length' by (rewrite !length_app, !length_le_split; lia).
    apply Forall_replicate. done.
Qed.

(** ** Reading attributes back *)

(** The stream a netlink peer parses: aligned attributes up to the end. *)
Fixpoint parse_attrs (fuel : nat) (b : bytes) : option (list (Z * bytes)) :=
  match fuel with
  | O => None
  | S fuel' =>
      if decide (b = []) then Some [] else
      if decide (length b < 4)%nat then None else
      let len := load 0 2 b in
      if decide (4 <= len <= Z.of_nat (length b)) then
        rest ← parse_attrs fuel' (drop (Z.to_nat (len + (4 - len mod 4) mod 4)) b);
        Some ((load 2 2 b, slice 4 (Z.to_nat len - 4) b) :: rest)
      else None
  end.

Definition parsed (b : bytes) : option (list (Z * bytes)) := parse_attrs (S (length b)) b.

(** What a well-formed attribute looks like at the head of a stream. *)
Lemma nla_app t p b rest :
  nla t p = Ok b ->
  let n := 4 + Z.of_nat (length p) in
  is_u16 t /\ is_u16 n /\ (4 <= length b)%nat /\
  load 0 2 (b ++ rest) = n /\ load 2 2 (b ++ rest) = t /\ slice 4 (length p) (b ++ rest) = p /\
  drop (Z.to_nat (n + (4 - n mod 4) mod 4)) (b ++ rest) = rest.
Proof.
  intros Hb n. pose proof (nla_wellformed t p) as Hw. pose proof (nla_length t p b Hb) as Hl. rewrite Hb in Hw.
  destruct Hw as (Ht & H0 & H2 & Hs & _ & Hr & _). fold n in H0, Hr, Hl.
  pose proof (load_range 0 2 b) as Hn. rewrite H0 in Hn. change (2 ^ (Z.of_nat 2 * 8)) with (2 ^ 16) in Hn.
  split_and!; try done; try lia.
  - by rewrite load_app_l by lia.
  - by rewrite load_app_l by lia.
  - unfold slice in *. rewrite drop_app_le, take_app_le by (rewrite ?length_drop; lia). done.
  - rewrite <-Hl, Nat2Z.id. apply drop_app_length.
Qed.

Lemma parse_attrs_nla fuel t p b rest :
  nla t p = Ok b -> parse_attrs (S fuel) (b ++ rest) = l ← parse_attrs fuel rest; Some ((t, p) :: l).
Proof.
  intros Hb. destruct (nla_app t p b rest Hb) as (Ht & Hn & Hlen & H0 & H2 & Hs & Hd).
  set (n := 4 + Z.of_nat (length p)) in *. cbn [parse_attrs].
  rewrite decide_False by (destruct b; [cbn in Hlen; lia|done]).
  rewrite decide_False by (rewrite length_app; lia). rewrite H0, H2.
  rewrite decide_True.
  - rewrite Hd. replace (Z.to_nat n - 4)%nat with (length p) by lia. by rewrite Hs.
  - pose proof (nla_length t p b Hb) as Hl. fold n in Hl. pose proof (pad_range n). rewrite length_app. lia.
Qed.

Lemma parse_attrs_more fuel fuel' b l :
  parse_attrs fuel b = Some l -> (fuel <= fuel')%nat -> parse_attrs fuel' b = Some l.
Proof.
  revert fuel' b l. induction fuel as [|fuel IH]; intros fuel' b l H Hf; [done|].
  destruct fuel' as [|fuel']; [lia|]. cbn [parse_attrs] in *. repeat case_decide; try done.
  destruct (parse_attrs fuel _) as [l'|] eqn:E; [|done]. by rewrite (IH fuel' _ _ E) by lia.
Qed.

Lemma nla_nonempty t p b : nla t p = Ok b -> (4 <= length b)%nat.
Proof. intros Hb. by destruct (nla_app t p b [] Hb) as (_ & _ & ? & _). Qed.

Lemma parsed_nil : parsed [] = Some [].
Proof. reflexivity. Qed.

Lemma parsed_cons t p b rest l : nla t p = Ok b -> parsed rest = Some l -> parsed (b ++ rest) = Some ((t, p) :: l).
Proof.
  intros Hb Hl. unfold parsed. rewrite length_app. pose proof (nla_nonempty _ _ _ Hb).
  rewrite (parse_attrs_nla _ t p) by done. by rewrite (parse_attrs_more (S (length rest)) _ _ l) by (done || lia).
Qed.

Lemma parsed_one t p b : nla t p = Ok b -> parsed b = Some [(t, p)].
Proof. intros Hb. rewrite <-(app_nil_r b). by eapply parsed_cons. Qed.

(** The payloads of the integer attributes. *)
Lemma nla_u8_inv t v b : nla_u8 t v = Ok b -> nla t [z2b v] = Ok b /\ 0 <= v < 2 ^ 8.
Proof.
  unfold nla_u8, pack. change (parse_fmt "=B") with (Some (LE, [fB])). cbn [pack_codes].
  destruct (decide (in_range fB v)) as [Hr|]; [|done]. intros Hb. by split.
Qed.

Lemma nla_u16_inv t v b : nla_u16 t v = Ok b -> nla t (le_split 2 v) = Ok b /\ is_u16 v.
Proof.
  unfold nla_u16, pack. change (parse_fmt "=H") with (Some (LE, [fH])). cbn [pack_codes].
  destruct (decide (in_range fH v)) as [Hr|]; [|done]. intros Hb. by split.
Qed.

Lemma nla_u32_inv t v b : nla_u32 t v = Ok b -> nla t (le_split 4 v) = Ok b /\ is_u32 v.
Proof.
  unfold nla_u32, pack. change (parse_fmt "=I") with (Some (LE, [fI])). cbn [pack_codes].
  destruct (decide (in_range fI v)) as [Hr|]; [|done]. intros Hb. by split.
Qed.

Lemma nla_be32_inv t v b : nla_be32 t v = Ok b -> nla t (be_split 4 v) = Ok b /\ is_u32 v.
Proof.
  unfold nla_be32, pack. change (parse_fmt "!I") with (Some (BE, [fI])). cbn [pack_codes].
  destruct (decide (in_range fI v)) as [Hr|]; [|done]. cbn [mbind res_bind].
  rewrite app_nil_r. intros Hb. by split.
Qed.

(** Take a chain of [res] binds apart. *)
Ltac ok_inv H :=
  repeat match type of H with
  | mbind _ ?m = Ok _ =>
      let x := fresh "a" in let E := fresh "E" in
      destruct m as [x|] eqn:E; [|discriminate H]; cbn [mbind res_bind] in H
  end.

Lemma nla_nested_one t x b : nla_nested t [x] = Ok b -> nla t x = Ok b.
Proof. unfold nla_nested. cbn. by rewrite app_nil_r. Qed.

(** The outer-header-creation attributes of a forwarding FAR. *)
Definition ohc_attrs (o_teid peer_ipv4 port : Z) : list (Z * bytes) :=
  [(GTP5G_OUTER_HEADER_CREATION_DESCRIPTION, le_split 2 GTP5G_OUTER_HEADER_CREATION_GTPU_UDP_IPV4);
   (GTP5G_OUTER_HEADER_CREATION_O_TEID, le_split 4 o_teid);
   (GTP5G_OUTER_HEADER_CREATION_PEER_ADDR_IPV4, be_split 4 peer_ipv4);
   (GTP5G_OUTER_HEADER_CREATION_PORT, le_split 2 port)].

(** A FAR request says what it was asked to say: when [add_far] builds
    its attributes, a netlink parser reads back the link, the FAR id and the
    action, and, exactly for a FORW action with both a TEID and a peer, the
    two nested levels of outer-header creation with the description, the TEID
    (host order), the peer address (network order) and the port. *)
Lemma far_attrs_parse ifindex far_id action o_teid peer_ipv4 port b :
  far_attrs ifindex far_id action o_teid peer_ipv4 port = Ok b ->
  let base := [(GTP5G_LINK, le_split 4 ifindex); (GTP5G_FAR_ID, le_split 4 far_id);
               (GTP5G_FAR_APPLY_ACTION, le_split 2 action)] in
  match o_teid, peer_ipv4 with
  | Some teid, Some peer =>
      if action =? FAR_ACTION_FORW then
        exists fwd ohc,
          parsed b = Some (base ++ [(GTP5G_FAR_FORWARDING_PARAMETER, fwd)]) /\
          parsed fwd = Some [(GTP5G_FORWARDING_PARAMETER_OUTER_HEADER_CREATION, ohc)] /\
          parsed ohc = Some (ohc_attrs teid peer port)
      else parsed b = Some base
  | _, _ => parsed b = Some base
  end.
Proof.
  unfold far_attrs. intros Hb. ok_inv Hb.
  destruct (nla_u32_inv _ _ _ E) as [E' _], (nla_u32_inv _ _ _ E0) as [E0' _], (nla_u16_inv _ _ _ E1) as [E1' _].
  assert (Hbase : forall rest l, parsed rest = Some l -> parsed (((a ++ a0) ++ a1) ++ rest) =
    Some ([(GTP5G_LINK, le_split 4 ifindex); (GTP5G_FAR_ID, le_split 4 far_id);
           (GTP5G_FAR_APPLY_ACTION, le_split 2 action)] ++ l)).
  { intros rest l Hl. rewrite <-!app_assoc. do 3 (eapply parsed_cons; [done|]). done. }
  pose proof (Hbase [] [] parsed_nil) as Hnone. rewrite !app_nil_r in Hnone.
  destruct o_teid as [teid|], peer_ipv4 as [peer|]; try (by apply Ok_inv in Hb as <-); try (by simplify_eq).
  destruct (action =? FAR_ACTION_FORW); [|by apply Ok_inj in Hb as <-].
  ok_inv Hb. apply Ok_inj in Hb as <-.
  apply nla_nested_one in E6, E7.
  destruct (nla_u16_inv _ _ _ E2) as [E2' _], (nla_u32_inv _ _ _ E3) as [E3' _],
    (nla_be32_inv _ _ _ E4) as [E4' _], (nla_u16_inv _ _ _ E5) as [E5' _].
  eexists _, _. split; [apply Hbase; by eapply parsed_one|]. split; [by eapply parsed_one|].
  rewrite <-!app_assoc. do 3 (eapply parsed_cons; [done|]). by eapply parsed_one.
Qed.

(** An optional attribute, as a parser sees it. *)
Definition opt_attr (t : Z) (f : Z -> bytes) (v : option Z) : list (Z * bytes) :=
  match v with Some z => [(t, f z)] | None => [] end.

Lemma parsed_app b1 l1 b2 l2 :
  (forall rest l, parsed rest = Some l -> parsed (b1 ++ rest) = Some (l1 ++ l)) ->
  parsed b2 = Some l2 -> parsed (b1 ++ b2) = Some (l1 ++ l2).
Proof. auto. Qed.

(** Bytes that are a sequence of whole attributes. *)
Definition streams (b : bytes) (l : list (Z * bytes)) : Prop :=
  forall rest l', parsed rest = Some l' -> parsed (b ++ rest) = Some (l ++ l').

Lemma streams_nil : streams [] [].
Proof. by intros ???. Qed.

Lemma streams_one t p b : nla t p = Ok b -> streams b [(t, p)].
Proof. intros Hb rest l' Hl. by eapply parsed_cons. Qed.

Lemma streams_app b1 l1 b2 l2 : streams b1 l1 -> streams b2 l2 -> streams (b1 ++ b2) (l1 ++ l2).
Proof. intros H1 H2 rest l' Hl. rewrite <-!app_assoc. by apply H1, H2. Qed.

Lemma streams_parsed b l : streams b l -> parsed b = Some l.
Proof. intros Hs. specialize (Hs [] [] parsed_nil). by rewrite !app_nil_r in Hs. Qed.

Lemma append_opt_streams acc l f t g v b :
  (forall z a, f z = Ok a -> nla t (g z) = Ok a) ->
  streams acc l -> append_opt acc f v = Ok b -> streams b (l ++ opt_attr t g v).
Proof.
  intros Hf Ha. unfold append_opt. destruct v as [z|]; intros Hb.
  - ok_inv Hb. apply Ok_inj in Hb as <-. apply streams_app; [done|]. apply streams_one. by apply Hf.
  - apply Ok_inj in Hb as <-. cbn [opt_attr]. by rewrite app_nil_r.
Qed.

Lemma append_opt_nonempty acc f v b : append_opt acc f v = Ok b -> (length acc <= length b)%nat.
Proof.
  unfold append_opt. destruct v; intros Hb; [|by apply Ok_inj in Hb as <-].
  ok_inv Hb. apply Ok_inj in Hb as <-. rewrite length_app. lia.
Qed.

Lemma opt_attr_some t f v : opt_attr t f v = [] -> v = None.
Proof. by destruct v. Qed.

(** The packet detection information a parser finds. *)
Definition pdi_spec (ue_addr i_teid gtpu_addr src_intf : option Z) (l : list (Z * bytes)) : Prop :=
  exists fteid,
    parsed fteid = Some (opt_attr GTP5G_F_TEID_I_TEID (le_split 4) i_teid ++
                         opt_attr GTP5G_F_TEID_GTPU_ADDR_IPV4 (be_split 4) gtpu_addr) /\
    l = opt_attr GTP5G_PDI_UE_ADDR_IPV4 (be_split 4) ue_addr ++
        (if decide (i_teid = None /\ gtpu_addr = None) then [] else [(GTP5G_PDI_F_TEID, fteid)]) ++
        opt_attr GTP5G_PDI_SRC_INTF (fun z => [z2b z]) src_intf.

Lemma pdi_attrs_streams ue i_teid gtpu src b :
  pdi_attrs ue i_teid gtpu src = Ok b -> exists l, pdi_spec ue i_teid gtpu src l /\ streams b l.
Proof.
  unfold pdi_attrs. intros Hb. ok_inv Hb.
  assert (Ha : streams a (opt_attr GTP5G_PDI_UE_ADDR_IPV4 (be_split 4) ue)).
  { eapply (append_opt_streams [] []); [|apply streams_nil|exact E]. intros z x Hx. by apply nla_be32_inv. }
  assert (Hm : exists fteid,
    parsed fteid = Some (opt_attr GTP5G_F_TEID_I_TEID (le_split 4) i_teid ++
                         opt_attr GTP5G_F_TEID_GTPU_ADDR_IPV4 (be_split 4) gtpu) /\
    streams a0 (opt_attr GTP5G_PDI_UE_ADDR_IPV4 (be_split 4) ue ++
      (if decide (i_teid = None /\ gtpu = None) then [] else [(GTP5G_PDI_F_TEID, fteid)]))).
  { destruct (decide (i_teid = None /\ gtpu = None)) as [[-> ->]|Hn].
    - exists []. split; [done|]. apply Ok_inj in E0 as <-. by rewrite app_nil_r.
    - assert (E1 : (f_teid ← append_opt [] (nla_u32 GTP5G_F_TEID_I_TEID) i_teid;
            f_teid ← append_opt f_teid (nla_be32 GTP5G_F_TEID_GTPU_ADDR_IPV4) gtpu;
            x ← nla_nested GTP5G_PDI_F_TEID [f_teid]; Ok (a ++ x)) = Ok a0).
      { destruct i_teid, gtpu; try done. by destruct Hn. }
      clear E0. ok_inv E1. apply Ok_inj in E1 as <-. apply nla_nested_one in E3.
      exists a2. split; [|apply streams_app; [done|by apply streams_one]].
      apply streams_parsed. eapply append_opt_streams; [|eapply (append_opt_streams [] [])|exact E2].
      + intros z x Hx. by apply nla_be32_inv.
      + intros z x Hx. by apply nla_u32_inv.
      + apply streams_nil.
      + done. }
  destruct Hm as (fteid & Hf & Hs). eexists. split; [exists fteid; split; [exact Hf|reflexivity]|].
  rewrite app_assoc. eapply append_opt_streams; [|exact Hs|exact Hb]. intros z x Hx. by apply nla_u8_inv.
Qed.

(** A PDR request says what it was asked to say: when [add_pdr] builds
    its attributes, a netlink parser reads back link, id and precedence, the
    outer-header removal if given, the FAR id last, and, when any detection
    field is given, one PDI attribute whose payload parses to exactly the
    fields given, with the F-TEID nested. *)
Lemma pdr_attrs_parse ifindex pdr_id precedence far_id ue i_teid gtpu src ohr b :
  pdr_attrs ifindex pdr_id precedence far_id ue i_teid gtpu src ohr = Ok b ->
  exists pdi lp, parsed pdi = Some lp /\ pdi_spec ue i_teid gtpu src lp /\
    parsed b = Some ([(GTP5G_LINK, le_split 4 ifindex); (GTP5G_PDR_ID, le_split 2 pdr_id);
                      (GTP5G_PDR_PRECEDENCE, le_split 4 precedence)] ++
                     opt_attr GTP5G_OUTER_HEADER_REMOVAL (fun z => [z2b z]) ohr ++
                     (if decide (lp = []) then [] else [(GTP5G_PDR_PDI, pdi)]) ++
                     [(GTP5G_PDR_FAR_ID, le_split 4 far_id)]).
Proof.
  unfold pdr_attrs. intros Hb. ok_inv Hb. apply Ok_inj in Hb as <-.
  destruct (pdi_attrs_streams _ _ _ _ _ E3) as (lp & Hlp & Hs). exists a3, lp.
  pose proof (streams_parsed _ _ Hs) as Hp. split; [done|]. split; [done|].
  apply nla_u32_inv in E as [E _], E1 as [E1 _], E5 as [E5 _]. apply nla_u16_inv in E0 as [E0 _].
  assert (H0 : streams a2 ([(GTP5G_LINK, le_split 4 ifindex); (GTP5G_PDR_ID, le_split 2 pdr_id);
      (GTP5G_PDR_PRECEDENCE, le_split 4 precedence)] ++ opt_attr GTP5G_OUTER_HEADER_REMOVAL (fun z => [z2b z]) ohr)).
  { eapply append_opt_streams; [|exact (streams_app _ _ _ _ (streams_app _ _ _ _ (streams_one _ _ _ E) (streams_one _ _ _ E0))
      (streams_one _ _ _ E1))|exact E2]. intros z x Hx. by apply nla_u8_inv. }
  assert (H1 : streams a4 (([(GTP5G_LINK, le_split 4 ifindex); (GTP5G_PDR_ID, le_split 2 pdr_id);
      (GTP5G_PDR_PRECEDENCE, le_split 4 precedence)] ++ opt_attr GTP5G_OUTER_HEADER_REMOVAL (fun z => [z2b z]) ohr) ++
      (if decide (lp = []) then [] else [(GTP5G_PDR_PDI, a3)]))).
  { destruct a3 as [|x a3].
    - rewrite parsed_nil in Hp. injection Hp as <-. apply Ok_inj in E4 as <-. by rewrite app_nil_r.
    - rewrite decide_False. 2:{ intros ->. unfold parsed in Hp. cbn [parse_attrs] in Hp. repeat case_decide; try done.
        by destruct (parse_attrs _ _). }
      ok_inv E4. apply Ok_inj in E4 as <-. apply streams_app; [done|]. apply streams_one. by apply nla_nested_one. }
  apply streams_parsed. pose proof (streams_app _ _ _ _ H1 (streams_one _ _ _ E5)) as H2.
  by rewrite <-!app_assoc in H2.
Qed.

(** C32: a rule request says what it was asked to say.  When [add_far] builds its
    attributes, a netlink parser reads back the link, the FAR id and the
    action, and, exactly for a FORW action with both a TEID and a peer, the
    two nested levels of outer-header creation with the description, the TEID
    (host order), the peer address (network order) and the port.  When
    [add_pdr] builds its attributes, it reads back link, id and precedence, the
    outer-header removal if given, the FAR id last, and, when any detection
    field is given, one PDI attribute whose payload parses to exactly the
    fields given, with the F-TEID nested. *)
Theorem rule_attrs_parse :
  (forall ifindex far_id action o_teid peer_ipv4 port b,
    far_attrs ifindex far_id action o_teid peer_ipv4 port = Ok b ->
    let base := [(GTP5G_LINK, le_split 4 ifindex); (GTP5G_FAR_ID, le_split 4 far_id);
                 (GTP5G_FAR_APPLY_ACTION, le_split 2 action)] in
    match o_teid, peer_ipv4 with
    | Some teid, Some peer =>
        if action =? FAR_ACTION_FORW then
          exists fwd ohc,
            parsed b = Some (base ++ [(GTP5G_FAR_FORWARDING_PARAMETER, fwd)]) /\
            parsed fwd = Some [(GTP5G_FORWARDING_PARAMETER_OUTER_HEADER_CREATION, ohc)] /\
            parsed ohc = Some (ohc_attrs teid peer port)
        else parsed b = Some base
    | _, _ => parsed b = Some base
    end) /\
  (forall ifindex pdr_id precedence far_id ue i_teid gtpu src ohr b,
    pdr_attrs ifindex pdr_id precedence far_id ue i_teid gtpu src ohr = Ok b ->
    exists pdi lp, parsed pdi = Some lp /\ pdi_spec ue i_teid gtpu src lp /\
      parsed b = Some ([(GTP5G_LINK, le_split 4 ifindex); (GTP5G_PDR_ID, le_split 2 pdr_id);
                        (GTP5G_PDR_PRECEDENCE, le_split 4 precedence)] ++
                       opt_attr GTP5G_OUTER_HEADER_REMOVAL (fun z => [z2b z]) ohr ++
                       (if decide (lp = []) then [] else [(GTP5G_PDR_PDI, pdi)]) ++
                       [(GTP5G_PDR_FAR_ID, le_split 4 far_id)])).
Proof. split; [exact far_attrs_parse|exact pdr_attrs_parse]. Qed.

Lemma load_skip n m (a b : bytes) : load (length a + n) m (a ++ b) = load n m b.
Proof. unfold load, slice. by rewrite drop_app_add. Qed.

Lemma slice_all' n (b rest : bytes) : n = length b -> slice 0 n (b ++ rest) = b.
Proof. intros ->. unfold slice. rewrite drop_0. apply take_app_length. Qed.

(** A netlink message header, and what follows it. *)
Lemma nlmsghdr_layout len t fl seq h rest :
  pack "=IHHII" [len; t; fl; seq; 0] = Ok h ->
  length h = 16%nat /\ load 0 4 (h ++ rest) = len /\ load 4 2 (h ++ rest) = t /\
  load 8 4 (h ++ rest) = seq /\ drop 16 (h ++ rest) = rest.
Proof.
  intros Hp. assert (Hl : length h = 16%nat) by exact (pack_length _ _ _ Hp).
  unfold pack in Hp. change (parse_fmt "=IHHII") with (Some (LE, [fI; fH; fH; fI; fI])) in Hp.
  apply pack_codes_inv in Hp as [Hr Hb]. unfold in_range in Hr.
  apply Forall2_cons_1 in Hr as [H1 Hr]. apply Forall2_cons_1 in Hr as [H2 Hr].
  apply Forall2_cons_1 in Hr as [H3 Hr]. apply Forall2_cons_1 in Hr as [H4 _].
  cbn [fsigned] in *. change (2 ^ fbits fI) with (2 ^ 32) in *. change (2 ^ fbits fH) with (2 ^ 16) in *.
  assert (Heq : h ++ rest = le_split 4 len ++ le_split 2 t ++ le_split 2 fl ++ le_split 4 seq ++ le_split 4 0 ++ rest).
  { rewrite Hb. reflexivity. }
  split; [done|]. split_and!.
  - rewrite Heq. unfold load. rewrite slice_all' by (by rewrite length_le_split).
    by apply le_combine_split_small.
  - rewrite Heq. change 4%nat with (length (le_split 4 len) + 0)%nat. rewrite load_skip.
    unfold load. rewrite slice_all' by (by rewrite length_le_split).
    by apply le_combine_split_small.
  - rewrite Heq. rewrite (app_assoc _ (le_split 2 t)), (app_assoc _ (le_split 2 fl)).
    change 8%nat with (length ((le_split 4 len ++ le_split 2 t) ++ le_split 2 fl) + 0)%nat. rewrite load_skip.
    unfold load. rewrite slice_all' by (by rewrite length_le_split).
    by apply le_combine_split_small.
  - rewrite <-Hl. apply drop_app_length.
Qed.

(** The link request is well formed.  The RTM_NEWLINK message of
    [create_gtp5g_link] carries its own length and type, and after the two
    fixed headers a parser reads the interface name and the link info, in it
    the kind and the data, and in that the descriptor of the bound UDP socket
    and the hash size. *)
Theorem newlink_message_parse ifname fd1 pdr_hashsize pid b :
  newlink_message ifname fd1 pdr_hashsize pid = Ok b ->
  load 0 4 b = Z.of_nat (length b) /\ load 4 2 b = RTM_NEWLINK /\ load 8 4 b = Z.land pid 0xffff /\
  exists info data,
    parsed (drop 32 b) = Some [(IFLA_IFNAME, encode ifname ++ [Byte.x00]); (IFLA_LINKINFO, info)] /\
    parsed info = Some [(IFLA_INFO_KIND, encode "gtp5g" ++ [Byte.x00]); (IFLA_INFO_DATA, data)] /\
    parsed data = Some [(IFLA_GTP5G_FD1, le_split 4 fd1); (IFLA_GTP5G_PDR_HASHSIZE, le_split 4 pdr_hashsize)].
Proof.
  unfold newlink_message, nla_str. change link_nla_nested with nla_nested. change link_nla_u32 with nla_u32.
  change link_nla with nla. intros Hb. ok_inv Hb. apply Ok_inj in Hb as <-.
  unfold nla_nested in E1, E3. cbn [mjoin list_join] in E1, E3. rewrite app_nil_r in E1, E3.
  apply nla_u32_inv in E as [E _], E0 as [E0 _].
  assert (Hifi : length a5 = 16%nat) by exact (pack_length _ _ _ E5).
  destruct (nlmsghdr_layout _ _ _ _ _ ((a5 ++ a4) ++ a3) E6) as (Hl & H0 & H4 & H8 & Hd).
  rewrite H0, H4, H8, (length_app a6), Hl. split; [lia|]. split; [done|]. split; [done|].
  eexists _, _. split_and!.
  - change 32%nat with (16 + 16)%nat. rewrite <-drop_drop, Hd, <-app_assoc, drop_app_length' by done.
    eapply parsed_cons; [exact E4|]. by eapply parsed_one.
  - eapply parsed_cons; [exact E2|]. by eapply parsed_one.
  - eapply parsed_cons; [exact E|]. by eapply parsed_one.
Qed.

(** ** The attribute loop of [resolve_family] *)

Lemma unpack_HH b off :
  unpack_from "=HH" b off =
    if decide (off + 4 <= length b)%nat then Ok [load off 2 b; load (off + 2) 2 b] else Exc StructError.
Proof.
  unfold unpack_from. change (parse_fmt "=HH") with (Some (LE, [fH; fH])). cbn [calcsize_codes fsize].
  change (2 + (2 + 0))%nat with 4%nat. case_decide; [|done]. cbn [unpack_codes]. unfold dec_field, load, slice.
  cbn [fsigned andb dec_unsigned fsize]. by rewrite drop_drop.
Qed.

Lemma unpack_H b off :
  unpack_from "=H" b off = if decide (off + 2 <= length b)%nat then Ok [load off 2 b] else Exc StructError.
Proof. reflexivity. Qed.

(** The attribute loop terminates.  Whatever the peer sends and wherever
    the loop starts, it makes no request and never runs out of the fuel
    [scan_fuel] gives it: a length below four leaves the loop, any other moves
    the offset forward. *)
Theorem scan_attrs_terminates resp off end_ gs :
  exists gs' r, scan_attrs (scan_fuel off end_) resp off end_ gs = Ret (gs', r) /\ r <> Ok None.
Proof.
  unfold scan_fuel. remember (Z.to_nat (end_ - off)) as n eqn:Hn.
  assert (Hle : (Z.to_nat (end_ - off) <= n)%nat) by lia. clear Hn.
  assert (Hg : forall f, (n < f)%nat ->
    exists gs' r, scan_attrs f resp off end_ gs = Ret (gs', r) /\ r <> Ok None); [|apply Hg; lia].
  revert off gs Hle. induction n as [n IH] using lt_wf_ind. intros off gs Hle f Hf.
  destruct f as [|f]; [lia|]. cbn [scan_attrs]. destruct (Z.ltb_spec off end_) as [Hlt|]; [|by eexists _, _].
  rewrite unpack_HH. case_decide; [|by eexists _, _].
  unfold lift, mbind, py_bind. cbn [prog_bind nth]. destruct (Z.ltb_spec (load (Z.to_nat off) 2 resp) 4); [by eexists _, _|].
  pose proof (pad_range (load (Z.to_nat off) 2 resp)).
  assert (Hnext : forall gs1, exists gs' r, scan_attrs f resp
      (off + (load (Z.to_nat off) 2 resp + (4 - load (Z.to_nat off) 2 resp mod 4) mod 4)) end_ gs1 = Ret (gs', r) /\
      r <> Ok None).
  { intros gs1. destruct (decide (n = 0%nat)) as [->|]; [lia|]. eapply (IH (n - 1)%nat); lia. }
  destruct (_ =? CTRL_ATTR_FAMILY_ID); [|apply Hnext].
  rewrite unpack_H. case_decide; [|by eexists _, _]. cbn [prog_bind]. apply Hnext.
Qed.

(** The family a list of attributes names: the last identifier wins. *)
Definition family_of (attrs : list (Z * bytes)) (f : option Z) : option Z :=
  foldl (fun f '(t, p) => if t =? CTRL_ATTR_FAMILY_ID then Some (load 0 2 p) else f) f attrs.

Definition encodes (ap : Z * bytes) (b : bytes) : Prop := nla ap.1 ap.2 = Ok b.

Lemma load_app_r' off n (a b : bytes) : off = length a -> load off n (a ++ b) = load 0 n b.
Proof. intros ->. unfold load, slice. by rewrite drop_app_length, drop_0. Qed.

Lemma scan_attrs_stream attrs bs pre gs f :
  Forall2 encodes attrs bs ->
  Forall (fun ap => ap.1 = CTRL_ATTR_FAMILY_ID -> (2 <= length ap.2)%nat) attrs ->
  (length attrs < f)%nat ->
  scan_attrs f (pre ++ mjoin bs) (Z.of_nat (length pre)) (Z.of_nat (length (pre ++ mjoin bs))) gs =
    Ret ({| gs_seq := gs_seq gs; gs_family_id := family_of attrs (gs_family_id gs) |}, Ok (Some tt)).
Proof.
  intros H. revert pre gs f. induction H as [|[t p] b attrs bs Hb _ IH]; intros pre gs f Hf Hlt.
  - destruct f as [|f]; [lia|]. cbn [scan_attrs mjoin list_join]. rewrite app_nil_r, Z.ltb_irrefl. by destruct gs.
  - apply Forall_cons in Hf as [Hid Hf]. unfold encodes in Hb. cbn [fst snd] in Hb, Hid.
    destruct (nla_app t p b (mjoin bs) Hb) as (Ht & Hn & Hlen & H0 & H2 & Hs & _).
    pose proof (nla_length t p b Hb) as Hl. set (n := 4 + Z.of_nat (length p)) in *. pose proof (pad_range n) as Hpad.
    destruct f as [|f]; [cbn in Hlt; lia|]. change (mjoin (b :: bs)) with (b ++ mjoin bs). cbn [scan_attrs].
    rewrite (proj2 (Z.ltb_lt _ _)) by (rewrite !length_app; lia). rewrite Nat2Z.id, unpack_HH.
    rewrite decide_True by (rewrite !length_app; lia). rewrite bind_lift_ok.
    cbn [nth]. rewrite load_app_r' by done. rewrite (load_skip 2). rewrite H0, H2.
    rewrite (proj2 (Z.ltb_ge _ _)) by lia.
    replace (Z.of_nat (length pre) + (n + (4 - n mod 4) mod 4)) with (Z.of_nat (length (pre ++ b)))
      by (rewrite length_app; lia).
    rewrite app_assoc. cbn [length] in Hlt.
    assert (Hnext : forall gs1, scan_attrs f ((pre ++ b) ++ mjoin bs) (Z.of_nat (length (pre ++ b)))
      (Z.of_nat (length ((pre ++ b) ++ mjoin bs))) gs1 =
      Ret ({| gs_seq := gs_seq gs1; gs_family_id := family_of attrs (gs_family_id gs1) |}, Ok (Some tt)))
      by (intros gs1; apply IH; [done|lia]).
    unfold family_of. cbn [foldl]. destruct (Z.eqb_spec t CTRL_ATTR_FAMILY_ID) as [->|Hne].
    + replace (Z.to_nat (Z.of_nat (length pre) + 4)) with (length pre + 4)%nat by lia.
      specialize (Hid eq_refl).
      assert (Hroom : (4 + length p <= length b)%nat) by lia.
      rewrite unpack_H, decide_True by (rewrite !length_app; lia).
      assert (Hf4 : load (length pre + 4) 2 ((pre ++ b) ++ mjoin bs) = load 0 2 p).
      { rewrite <-app_assoc, load_skip. rewrite <-Hs. unfold load, slice.
        by rewrite drop_0, take_take, Nat.min_l by lia. }
      rewrite Hf4. exact (Hnext {| gs_seq := gs_seq gs; gs_family_id := Some (load 0 2 p) |}).
    + rewrite bind_ret. apply Hnext.
Qed.

(** ** Exchanges *)

(** A socket whose peer answers each message with some datagrams, queued
    behind those not yet read ([EAGAIN] stands for a read that would wait). *)
Definition EAGAIN : Z := 11.

Section peer.
Context (answer : bytes -> list bytes).

Definition fifo (c : nl_call) (queue : list bytes) : list bytes * nl_reply :=
  match c with
  | NlSend m => (queue ++ answer m, NlDone)
  | NlRecv _ => match queue with [] => ([], NlErr EAGAIN) | d :: q => (q, NlData d) end
  | _ => (queue, NlDone)
  end.

(** The message of one exchange. *)
Definition message (msg_type flags seq : Z) (payload : bytes) : res bytes :=
  hdr ← pack "=IHHII" [16 + Z.of_nat (length payload); msg_type; flags; seq; 0]; Ok (hdr ++ payload).

Lemma run_send_recv t fl p gs q m d q' h :
  message t fl (gs_seq gs + 1) p = Ok m -> q ++ answer m = d :: q' ->
  unpack_from "=IHHII" d 0 = Ok h ->
  run fifo (_send_recv t fl p gs) q =
    (q', ({| gs_seq := gs_seq gs + 1; gs_family_id := gs_family_id gs |}, Ok (nth 1 h 0, d))).
Proof.
  intros Hm Hq Hh. unfold message in Hm. destruct (pack _ _) as [hdr|] eqn:Hp; [|done]. apply Ok_inj in Hm as <-.
  unfold _send_recv, get_state, put_state, sock, request, raise. unfold mbind, py_bind. cbn [prog_bind].
  unfold lift. rewrite Hp. cbn -[unpack_from pack Z.add]. rewrite Hq. cbn -[unpack_from pack Z.add].
  rewrite Hh. reflexivity.
Qed.

(** The result of [cmd] on a datagram. *)
Definition cmd_result (d : bytes) (r_type : Z) : res bytes :=
  if r_type =? NLMSG_ERROR then
    match unpack_from "=i" d 16 with
    | Ok e => let errno_val := nth 0 e 0 in
              if errno_val =? 0 then Ok d
              else if decide (- errno_val < 2 ^ 31) then Exc (OSError (- errno_val)) else Exc OverflowError
    | Exc x => Exc x
    end
  else Ok d.

Lemma run_cmd command payload gs fam q g m d q' h :
  gs_family_id gs = Some fam -> pack "=BBH" [command; 1; 0] = Ok g ->
  message fam (Z.lor NLM_F_REQUEST NLM_F_ACK) (gs_seq gs + 1) (g ++ payload) = Ok m ->
  q ++ answer m = d :: q' -> unpack_from "=IHHII" d 0 = Ok h ->
  run fifo (cmd command payload true gs) q =
    (q', ({| gs_seq := gs_seq gs + 1; gs_family_id := Some fam |}, cmd_result d (nth 1 h 0))).
Proof.
  intros Hf Hg Hm Hq Hh. unfold cmd. rewrite Hg, bind_lift_ok. unfold get_state, mbind at 1, py_bind at 1.
  cbn [prog_bind]. rewrite Hf. unfold mbind at 1, py_bind at 1. rewrite run_bind.
  rewrite (run_send_recv _ _ _ _ _ _ _ _ _ Hm Hq Hh). cbn [fst snd]. unfold cmd_result. rewrite Hf.
  destruct (nth 1 h 0 =? NLMSG_ERROR); [|done].
  destruct (unpack_from "=i" d 16) as [e|x]; [|done]. rewrite bind_lift_ok.
  destruct (nth 0 e 0 =? 0); cbn [negb]; [done|]. unfold raise_errno. by case_decide.
Qed.

(** [cmd] reports whatever datagram is first in the queue.  With the
    family resolved and a message that packs, the sequence number goes up by
    one, one datagram is consumed, and the result is decided by that datagram
    alone: success unless it is an error with a non-zero code [e], which raises
    [OSError(-e)].  The sequence number of the reply is never compared. *)
Theorem cmd_outcome command payload gs fam q g m d q' h :
  gs_family_id gs = Some fam -> pack "=BBH" [command; 1; 0] = Ok g ->
  message fam (Z.lor NLM_F_REQUEST NLM_F_ACK) (gs_seq gs + 1) (g ++ payload) = Ok m ->
  q ++ answer m = d :: q' -> unpack_from "=IHHII" d 0 = Ok h ->
  run fifo (cmd command payload true gs) q =
    (q', ({| gs_seq := gs_seq gs + 1; gs_family_id := Some fam |}, cmd_result d (nth 1 h 0))).
Proof. apply run_cmd. Qed.

(** The request of [resolve_family], as the first message on a socket. *)
Definition getfamily_message (name : string) : res bytes :=
  genlhdr ← pack "=BBH" [CTRL_CMD_GETFAMILY; 1; 0];
  a ← nla CTRL_ATTR_FAMILY_NAME (encode name ++ [Byte.x00]);
  message GENL_ID_CTRL (Z.lor NLM_F_REQUEST NLM_F_ACK) 1 (genlhdr ++ a).

(** A reply: a 20-byte header that is not an error and carries its own length,
    then attributes. *)
Record family_reply (d hdr : bytes) (bs : list bytes) (attrs : list (Z * bytes)) : Prop := {
  fr_eq : d = hdr ++ mjoin bs;
  fr_len : length hdr = 20%nat;
  fr_total : r_len_from d = Ok (Z.of_nat (length d));
  fr_type : exists h, unpack_from "=IHHII" d 0 = Ok h /\ nth 1 h 0 <> NLMSG_ERROR;
  fr_enc : Forall2 encodes attrs bs;
  fr_ids : Forall (fun ap => ap.1 = CTRL_ATTR_FAMILY_ID -> (2 <= length ap.2)%nat) attrs;
}.

Lemma run_resolve name q m d q' hdr bs attrs fam :
  getfamily_message name = Ok m -> q ++ answer m = d :: q' ->
  family_reply d hdr bs attrs -> family_of attrs None = Some fam ->
  run fifo (resolve_family name gs_init) q =
    (q', ({| gs_seq := 1; gs_family_id := Some fam |}, Ok fam)).
Proof.
  intros Hm Hq [Hd Hlen Htot (h & Hh & Ht) Henc Hids] Hfam.
  unfold getfamily_message in Hm. unfold resolve_family.
  destruct (pack "=BBH" _) as [g|] eqn:Hg; [|done]. cbn [mbind res_bind] in Hm. rewrite bind_lift_ok.
  destruct (nla CTRL_ATTR_FAMILY_NAME _) as [a|] eqn:Ha; [|done]. cbn [mbind res_bind] in Hm. rewrite bind_lift_ok.
  unfold mbind at 1, py_bind at 1. rewrite run_bind, (run_send_recv _ _ _ gs_init _ _ _ _ _ Hm Hq Hh). cbn [fst snd].
  rewrite (proj2 (Z.eqb_neq _ _)) by done. rewrite Htot, bind_lift_ok.
  unfold mbind at 1, py_bind at 1. rewrite run_bind.
  pose proof (scan_attrs_stream attrs bs hdr {| gs_seq := gs_seq gs_init + 1; gs_family_id := gs_family_id gs_init |}
    (scan_fuel 20 (Z.of_nat (length d))) Henc Hids) as Hs.
  rewrite <-Hd, Hlen in Hs. change (Z.of_nat 20) with 20 in Hs. rewrite Hs.
  - cbn [gs_seq gs_family_id gs_init]. rewrite Hfam. reflexivity.
  - unfold scan_fuel. rewrite Hd, length_app, Hlen.
    assert (length attrs <= length (mjoin bs))%nat; [|lia]. clear -Henc.
    induction Henc as [|[t p] b attrs bs Hb _ IH]; [done|]. change (mjoin (b :: bs)) with (b ++ mjoin bs).
    rewrite length_app. pose proof (nla_nonempty _ _ _ Hb). cbn [length]. lia.
Qed.

(** C31: [resolve_family] finds the family.  When the first datagram is a
    reply made of well-formed attributes, the loop walks all of them, padding
    included, and the result is the last family identifier among them,
    remembered on the socket. *)
Theorem resolve_family_finds name q m d q' hdr bs attrs fam :
  getfamily_message name = Ok m -> q ++ answer m = d :: q' ->
  family_reply d hdr bs attrs -> family_of attrs None = Some fam ->
  run fifo (resolve_family name gs_init) q =
    (q', ({| gs_seq := 1; gs_family_id := Some fam |}, Ok fam)).
Proof. apply run_resolve. Qed.

(** An acknowledgement is taken for the answer to a later request.
    [resolve_family] asks for an acknowledgement ([NLM_F_ACK]) but reads one
    datagram only.  When the kernel sends the reply and then the
    acknowledgement, as the flag asks, [add_far] on the same socket reads that
    acknowledgement: it succeeds whatever the kernel answers to the FAR
    request, and that answer is left unread. *)
Theorem stale_ack_hides_error name m1 d hdr bs attrs fam ackd h e
    ifindex far_id action o_teid peer_ipv4 port b g m2 :
  getfamily_message name = Ok m1 -> answer m1 = [d; ackd] ->
  family_reply d hdr bs attrs -> family_of attrs None = Some fam ->
  unpack_from "=IHHII" ackd 0 = Ok h -> nth 1 h 0 = NLMSG_ERROR ->
  unpack_from "=i" ackd 16 = Ok e -> nth 0 e 0 = 0 ->
  far_attrs ifindex far_id action o_teid peer_ipv4 port = Ok b ->
  pack "=BBH" [GTP5G_CMD_ADD_FAR; 1; 0] = Ok g ->
  message fam (Z.lor NLM_F_REQUEST NLM_F_ACK) 2 (g ++ b) = Ok m2 ->
  run fifo ((resolve_family name ;; add_far ifindex far_id action o_teid peer_ipv4 port) gs_init) [] =
    (answer m2, ({| gs_seq := 2; gs_family_id := Some fam |}, Ok tt)).
Proof.
  intros Hm1 Ha Hr Hfam Hh Ht He Hz Hb Hg Hm2. unfold mbind at 1, py_bind at 1. rewrite run_bind.
  rewrite (run_resolve name [] m1 d [ackd] hdr bs attrs fam Hm1 Ha Hr Hfam). cbn [fst snd].
  unfold add_far. rewrite Hb, bind_lift_ok. unfold mbind at 1, py_bind at 1. rewrite run_bind.
  rewrite (run_cmd GTP5G_CMD_ADD_FAR b {| gs_seq := 1; gs_family_id := Some fam |} fam [ackd] g m2 ackd (answer m2) h
    eq_refl Hg Hm2 eq_refl Hh).
  cbn [fst snd gs_seq]. unfold cmd_result. rewrite Ht, Z.eqb_refl, He. cbv beta zeta. rewrite Hz. reflexivity.
Qed.
End peer.

(** ** A peer *)

(** A reply naming family 0x1c, an acknowledgement, and a refusal ([EPERM]). *)
Definition demo_hdr : bytes :=
  le_split 4 28 ++ le_split 2 0x10 ++ le_split 2 0 ++ le_split 4 1 ++ le_split 4 0 ++ [z2b 1; z2b 2; z2b 0; z2b 0].
Definition demo_attr : bytes := le_split 2 6 ++ le_split 2 1 ++ le_split 2 0x1c ++ [z2b 0; z2b 0].
Definition demo_error (seq errno_val : Z) : bytes :=
  le_split 4 36 ++ le_split 2 2 ++ le_split 2 0 ++ le_split 4 seq ++ le_split 4 0 ++ le_split 4 errno_val ++
  replicate 16 Byte.x00.

Definition demo_answer (m : bytes) : list bytes :=
  if load 4 2 m =? GENL_ID_CTRL then [demo_hdr ++ demo_attr; demo_error 1 0] else [demo_error 2 (-1)].

Lemma demo_reply : family_reply (demo_hdr ++ demo_attr) demo_hdr [demo_attr] [(1, le_split 2 0x1c)].
Proof.
  split; [reflexivity|reflexivity|vm_compute; reflexivity| | |].
  - eexists. split; [vm_compute; reflexivity|vm_compute; discriminate].
  - constructor; [vm_compute; reflexivity|constructor].
  - constructor; [intros _; cbn [snd]; rewrite length_le_split; lia|constructor].
Qed.

Lemma resolve_family_finds_witness :
  (run (fifo demo_answer) (resolve_family "gtp5g" gs_init) []).2.2 = Ok 0x1c.
Proof.
  destruct (getfamily_message "gtp5g") as [m|] eqn:Hm; [|vm_compute in Hm; discriminate].
  assert (Ha : demo_answer m = [demo_hdr ++ demo_attr; demo_error 1 0])
    by (vm_compute in Hm; apply Ok_inj in Hm; rewrite <-Hm; vm_compute; reflexivity).
  rewrite (resolve_family_finds demo_answer "gtp5g" [] m _ _ _ _ _ 0x1c Hm Ha demo_reply eq_refl). reflexivity.
Defined.

Lemma cmd_outcome_witness :
  run (fifo demo_answer) (cmd GTP5G_CMD_ADD_FAR [] true {| gs_seq := 1; gs_family_id := Some 0x1c |}) [] =
    ([], ({| gs_seq := 2; gs_family_id := Some 0x1c |}, Exc (OSError 1))).
Proof.
  destruct (pack "=BBH" [GTP5G_CMD_ADD_FAR; 1; 0]) as [g|] eqn:Hg; [|vm_compute in Hg; discriminate].
  destruct (message 0x1c (Z.lor NLM_F_REQUEST NLM_F_ACK) 2 (g ++ [])) as [m|] eqn:Hm;
    [|vm_compute in Hg; apply Ok_inj in Hg; rewrite <-Hg in Hm; vm_compute in Hm; discriminate].
  assert (Ha : demo_answer m = [demo_error 2 (-1)]).
  { vm_compute in Hg. apply Ok_inj in Hg. rewrite <-Hg in Hm. vm_compute in Hm. apply Ok_inj in Hm.
    rewrite <-Hm. vm_compute. reflexivity. }
  rewrite (cmd_outcome demo_answer GTP5G_CMD_ADD_FAR [] {| gs_seq := 1; gs_family_id := Some 0x1c |} 0x1c [] g m
    (demo_error 2 (-1)) [] [36; 2; 0; 2; 0] eq_refl Hg Hm Ha ltac:(vm_compute; reflexivity)).
  vm_compute. reflexivity.
Defined.

Lemma stale_ack_hides_error_witness :
  run (fifo demo_answer) ((resolve_family "gtp5g" ;; add_far 7 1 FAR_ACTION_DROP None None 2152) gs_init) [] =
    ([demo_error 2 (-1)], ({| gs_seq := 2; gs_family_id := Some 0x1c |}, Ok tt)).
Proof.
  destruct (getfamily_message "gtp5g") as [m1|] eqn:Hm1; [|vm_compute in Hm1; discriminate].
  assert (Ha : demo_answer m1 = [demo_hdr ++ demo_attr; demo_error 1 0])
    by (vm_compute in Hm1; apply Ok_inj in Hm1; rewrite <-Hm1; vm_compute; reflexivity).
  destruct (far_attrs 7 1 FAR_ACTION_DROP None None 2152) as [b|] eqn:Hb; [|vm_compute in Hb; discriminate].
  destruct (pack "=BBH" [GTP5G_CMD_ADD_FAR; 1; 0]) as [g|] eqn:Hg; [|vm_compute in Hg; discriminate].
  assert (Hgb : exists m2, message 0x1c (Z.lor NLM_F_REQUEST NLM_F_ACK) 2 (g ++ b) = Ok m2 /\
    demo_answer m2 = [demo_error 2 (-1)]).
  { vm_compute in Hg. apply Ok_inj in Hg. vm_compute in Hb. apply Ok_inj in Hb. subst g b.
    eexists. split; [vm_compute; reflexivity|vm_compute; reflexivity]. }
  destruct Hgb as (m2 & Hm2 & Ha2).
  rewrite (stale_ack_hides_error demo_answer "gtp5g" m1 (demo_hdr ++ demo_attr) demo_hdr [demo_attr]
    [(1, le_split 2 0x1c)] 0x1c (demo_error 1 0) [36; 2; 0; 1; 0] [0] 7 1 FAR_ACTION_DROP None None 2152 b g m2
    Hm1 Ha demo_reply eq_refl ltac:(vm_compute; reflexivity) eq_refl ltac:(vm_compute; reflexivity) eq_refl Hb Hg Hm2).
  rewrite Ha2. reflexivity.
Defined.

Lemma rule_attrs_parse_witness :
  (exists b fwd ohc, far_attrs 7 2 FAR_ACTION_FORW (Some 0x1000) (Some 0x0a000002) 2152 = Ok b /\
     parsed fwd = Some [(GTP5G_FORWARDING_PARAMETER_OUTER_HEADER_CREATION, ohc)] /\
     parsed ohc = Some (ohc_attrs 0x1000 0x0a000002 2152)) /\
  exists b pdi lp, pdr_attrs 7 1 100 1 None (Some 0x1000) None None (Some 0) = Ok b /\
    parsed pdi = Some lp /\ pdi_spec None (Some 0x1000) None None lp.
Proof.
  destruct rule_attrs_parse as [Hfar Hpdr]. split.
  - destruct (far_attrs 7 2 FAR_ACTION_FORW (Some 0x1000) (Some 0x0a000002) 2152) as [b|] eqn:Hb;
      [|vm_compute in Hb; discriminate].
    destruct (Hfar _ _ _ _ _ _ _ Hb) as (fwd & ohc & _ & H1 & H2). by exists b, fwd, ohc.
  - destruct (pdr_attrs 7 1 100 1 None (Some 0x1000) None None (Some 0)) as [b|] eqn:Hb;
      [|vm_compute in Hb; discriminate].
    destruct (Hpdr _ _ _ _ _ _ _ _ _ _ Hb) as (pdi & lp & H1 & H2 & _). by exists b, pdi, lp.
Defined.

Lemma newlink_message_parse_witness :
  exists b, newlink_message "gtp5gtest0" 3 128 4242 = Ok b /\ load 0 4 b = Z.of_nat (length b).
Proof.
  destruct (newlink_message "gtp5gtest0" 3 128 4242) as [b|] eqn:Hb; [|vm_compute in Hb; discriminate].
  exists b. split; [done|]. exact (proj1 (newlink_message_parse _ _ _ _ _ Hb)).
Defined.
