(* ===== verification/Gtp5g.v ===== *)
(** * The two gtp5g scripts, from their command lines

    The main programmes of gtp5g_genl.py and gtp5g_link_add.py on top of
    Netlink.v: which messages they put on their sockets and what they report
    of the kernel's answers. *)

From S2P Require Import Prelude Prog PyStruct PyText Netlink.

Definition NETLINK_GENERIC : Z := 16.

(** [GenlSocket()]: a bound socket, no message sent, no family known. *)
Definition genl_open : nlM GenlSocket unit :=
  sock (NlBind NETLINK_GENERIC) ;; put_state gs_init.

(** [GenlSocket.close] *)
Definition genl_close : nlM GenlSocket unit := sock NlClose ;; mret tt.

(** The rule a step adds; [false] when the step is unknown, which is printed. *)
Definition genl_step (step : string) (ifindex : Z) : nlM GenlSocket bool :=
  if decide (step = "far_drop"%string) then add_far ifindex 1 FAR_ACTION_DROP None None 2152 ;; mret true
  else if decide (step = "far_forw"%string) then
    addr ← lift (inet_aton "10.0.0.2");
    peer_ipv4 ← lift (unpack_head "!I" addr);
    add_far ifindex 2 FAR_ACTION_FORW (Some 0x1000) (Some peer_ipv4) 2152 ;; mret true
  else if decide (step = "pdr"%string) then add_pdr ifindex 1 100 1 None None None None (Some 0) ;; mret true
  else mret false.

(** The main programme; [if_nametoindex] is the operating system's. *)
Definition genl_main (if_nametoindex : string -> res Z) (argv : list string) : nlM GenlSocket bool :=
  let ifname := default "gtp5gtest0"%string (argv !! 1%nat) in
  ifindex ← lift (if_nametoindex ifname);
  genl_open ;;
  resolve_family "gtp5g" ;;
  let step := default "far_drop"%string (argv !! 2%nat) in
  known ← genl_step step ifindex;
  genl_close ;;
  mret known.

(** gtp5g_link_add.py; the socket it returns is dropped. *)
Definition link_main (argv : list string) (pid : Z) : nlM unit unit :=
  create_gtp5g_link (default "gtp5gtest0"%string (argv !! 1%nat)) 2152 128 pid ;;
  mret tt.

(** ** The rule of a step *)

(** Command and attributes; [None] for an unknown step. *)
Definition step_request (step : string) (ifindex : Z) : option (Z * res bytes) :=
  if decide (step = "far_drop"%string) then
    Some (GTP5G_CMD_ADD_FAR, far_attrs ifindex 1 FAR_ACTION_DROP None None 2152)
  else if decide (step = "far_forw"%string) then
    Some (GTP5G_CMD_ADD_FAR, far_attrs ifindex 2 FAR_ACTION_FORW (Some 0x1000) (Some 0x0a000002) 2152)
  else if decide (step = "pdr"%string) then
    Some (GTP5G_CMD_ADD_PDR, pdr_attrs ifindex 1 100 1 None None None None (Some 0))
  else None.

Section rule.
Context {K : Type} (sys : nl_call -> K -> K * nl_reply).

Lemma run_rule command b gs q :
  let p := ((attrs ← lift (Ok b); cmd command attrs true ;; mret tt) ;; mret true) gs in
  let x := run sys (cmd command b true gs) q in
  run sys p q = (x.1, (x.2.1, _ ← x.2.2; Ok true)) /\ run_trace sys p q = run_trace sys (cmd command b true gs) q.
Proof using Type.
  intros p x. unfold p. rewrite run_py_bind, run_trace_py_bind, bind_lift_ok, run_py_bind, run_trace_py_bind. fold x.
  destruct x as [q' [gs' [y|e]]] eqn:E; cbn; rewrite !app_nil_r; done.
Qed.

Lemma genl_step_rule step ifindex command b gs q :
  step_request step ifindex = Some (command, Ok b) ->
  let x := run sys (cmd command b true gs) q in
  run sys (genl_step step ifindex gs) q = (x.1, (x.2.1, _ ← x.2.2; Ok true)) /\
  run_trace sys (genl_step step ifindex gs) q = run_trace sys (cmd command b true gs) q.
Proof using Type.
  assert (Haddr : inet_aton "10.0.0.2" = Ok (be_split 4 0x0a000002)) by (vm_compute; reflexivity).
  assert (Hpeer : unpack_head "!I" (be_split 4 0x0a000002) = Ok 0x0a000002) by (vm_compute; reflexivity).
  unfold genl_step, step_request, add_far, add_pdr.
  repeat case_decide; intros [= <- Hb]; rewrite ?Haddr, ?bind_lift_ok, ?Hpeer, ?bind_lift_ok, Hb; apply run_rule.
Qed.
End rule.

(** ** The messages on the socket *)

Section peer.
Context (answer : bytes -> list bytes).

Lemma trace_send_recv t fl p gs q m :
  message t fl (gs_seq gs + 1) p = Ok m ->
  run_trace (fifo answer) (_send_recv t fl p gs) q = [NlSend m; NlRecv 65536].
Proof using Type.
  unfold message. intros Hm. destruct (pack _ _) as [hdr|] eqn:Hp; [|done]. apply Ok_inj in Hm as <-.
  unfold _send_recv, get_state, put_state, sock, request, raise. unfold mbind, py_bind. cbn [prog_bind].
  unfold lift. rewrite Hp. cbn -[unpack_from pack Z.add].
  destruct (q ++ answer (hdr ++ p)); cbn -[unpack_from pack Z.add]; [done|]. destruct (unpack_from _ _ _); reflexivity.
Qed.

Lemma trace_resolve name q m d q' hdr bs attrs fam :
  getfamily_message name = Ok m -> q ++ answer m = d :: q' ->
  family_reply d hdr bs attrs -> family_of attrs None = Some fam ->
  run_trace (fifo answer) (resolve_family name gs_init) q = [NlSend m; NlRecv 65536].
Proof using Type.
  intros Hm Hq Hr Hfam. pose proof Hr as [_ _ Htot (h & Hh & Ht) _ _]. unfold getfamily_message in Hm. unfold resolve_family.
  destruct (pack "=BBH" _) as [g|] eqn:Hg; [|done]. cbn [mbind res_bind] in Hm. rewrite bind_lift_ok.
  destruct (nla CTRL_ATTR_FAMILY_NAME _) as [a|] eqn:Ha; [|done]. cbn [mbind res_bind] in Hm. rewrite bind_lift_ok.
  rewrite run_trace_py_bind, (trace_send_recv _ _ _ gs_init _ m Hm), (run_send_recv answer _ _ _ gs_init _ _ _ _ _ Hm Hq Hh).
  rewrite (proj2 (Z.eqb_neq _ _)) by done. rewrite Htot, bind_lift_ok, run_trace_py_bind.
  match goal with |- context [scan_attrs (scan_fuel ?o ?e) d _ _ ?gs] =>
    destruct (scan_attrs_terminates d o e gs) as (gs' & r & Hs & _) end.
  rewrite Hs. cbn [run_trace run]. destruct r as [r|]; [|reflexivity]. destruct gs' as [sq [f|]]; reflexivity.
Qed.

Lemma trace_cmd command payload gs fam q g m :
  gs_family_id gs = Some fam -> pack "=BBH" [command; 1; 0] = Ok g ->
  message fam (Z.lor NLM_F_REQUEST NLM_F_ACK) (gs_seq gs + 1) (g ++ payload) = Ok m ->
  run_trace (fifo answer) (cmd command payload true gs) q = [NlSend m; NlRecv 65536].
Proof using Type.
  intros Hf Hg Hm. unfold cmd. rewrite Hg, bind_lift_ok. unfold get_state at 1, mbind at 1, py_bind at 1.
  cbn [prog_bind]. rewrite Hf, run_trace_py_bind, (trace_send_recv _ _ _ _ _ _ Hm).
  destruct (run _ _ q) as [q' [gs' [[t d]|e]]]; [|done].
  destruct (t =? NLMSG_ERROR); [|done]. destruct (unpack_from _ _ _) as [e|]; [|done]. rewrite bind_lift_ok.
  destruct (negb _); [|done]. unfold raise_errno. by case_decide.
Qed.

(** C38: gtp5g_genl.py reports success whatever the kernel answers.  Run from
    its command line against a kernel that, as the [NLM_F_ACK] flag asks, sends
    the family reply and an acknowledgement, the script sends exactly two
    messages, the family request and the rule of its step, reads one datagram
    after each, closes the socket and ends without an exception; the answer to
    the rule, whatever it is, is still in the queue. *)
Theorem genl_main_hides_refusal if_nametoindex argv ifindex m1 d hdr bs attrs fam ackd h e command b g m2 :
  if_nametoindex (default "gtp5gtest0"%string (argv !! 1%nat)) = Ok ifindex ->
  getfamily_message "gtp5g" = Ok m1 -> answer m1 = [d; ackd] ->
  family_reply d hdr bs attrs -> family_of attrs None = Some fam ->
  unpack_from "=IHHII" ackd 0 = Ok h -> nth 1 h 0 = NLMSG_ERROR ->
  unpack_from "=i" ackd 16 = Ok e -> nth 0 e 0 = 0 ->
  step_request (default "far_drop"%string (argv !! 2%nat)) ifindex = Some (command, Ok b) ->
  pack "=BBH" [command; 1; 0] = Ok g ->
  message fam (Z.lor NLM_F_REQUEST NLM_F_ACK) 2 (g ++ b) = Ok m2 ->
  run (fifo answer) (genl_main if_nametoindex argv gs_init) [] =
    (answer m2, ({| gs_seq := 2; gs_family_id := Some fam |}, Ok true)) /\
  run_trace (fifo answer) (genl_main if_nametoindex argv gs_init) [] =
    [NlBind NETLINK_GENERIC; NlSend m1; NlRecv 65536; NlSend m2; NlRecv 65536; NlClose].
Proof using Type.
  intros Hi Hm1 Ha Hr Hfam Hh Ht He Hz Hstep Hg Hm2. unfold genl_main. rewrite Hi, bind_lift_ok.
  pose proof (run_resolve answer "gtp5g" [] m1 d [ackd] hdr bs attrs fam Hm1 Ha Hr Hfam) as R1.
  pose proof (trace_resolve "gtp5g" [] m1 d [ackd] hdr bs attrs fam Hm1 Ha Hr Hfam) as T1.
  set (gs := {| gs_seq := 1; gs_family_id := Some fam |}) in *.
  destruct (genl_step_rule (fifo answer) _ _ _ _ gs [ackd] Hstep) as [R2 T2].
  rewrite (run_cmd answer command b gs fam [ackd] g m2 ackd (answer m2) h eq_refl Hg Hm2 eq_refl Hh) in R2.
  rewrite (trace_cmd command b gs fam [ackd] g m2 eq_refl Hg Hm2) in T2.
  cbn [fst snd] in R2. unfold cmd_result in R2. rewrite Ht, Z.eqb_refl, He in R2. cbv beta zeta in R2. rewrite Hz in R2.
  split.
  - rewrite run_py_bind. change (run (fifo answer) (genl_open gs_init) []) with (([] : list bytes), (gs_init, Ok tt)).
    cbv beta iota. rewrite run_py_bind, R1. cbv beta iota zeta. rewrite run_py_bind, R2. reflexivity.
  - rewrite run_trace_py_bind. change (run (fifo answer) (genl_open gs_init) []) with (([] : list bytes), (gs_init, Ok tt)).
    cbv beta iota. rewrite run_trace_py_bind, R1, T1. cbv beta iota zeta. rewrite run_trace_py_bind, R2, T2. reflexivity.
Qed.
End peer.

(** ** gtp5g_link_add.py *)

(** A system that gives the UDP socket descriptor [fd] and answers the link
    request with the datagram [d]. *)
Definition one_answer (fd : Z) (d : bytes) (c : nl_call) (k : unit) : unit * nl_reply :=
  (k, match c with UdpBind _ => NlFd fd | NlRecv _ => NlData d | _ => NlDone end).

(** Gtp5g_link_add.py reports the kernel's answer.  It binds the GTP-U port
    first, sends one RTM_NEWLINK request for the descriptor it got and the name
    on its command line, and reads one datagram, which decides: an error with a
    non-zero code raises [OSError] and leaves the netlink socket open; an
    acknowledgement, or a datagram of any other type, ends the script normally
    with the socket closed. *)
Theorem link_main_outcome argv pid fd msg d h :
  newlink_message (default "gtp5gtest0"%string (argv !! 1%nat)) fd 128 pid = Ok msg ->
  unpack_from "=IHHII" d 0 = Ok h ->
  let out := _ ← cmd_result d (nth 1 h 0); Ok tt in
  run (one_answer fd d) (link_main argv pid tt) tt = (tt, (tt, out)) /\
  run_trace (one_answer fd d) (link_main argv pid tt) tt =
    [UdpBind 2152; NlBind NETLINK_ROUTE; NlSend msg; NlRecv 65536] ++
    (if decide (out = Ok tt) then [NlClose] else []).
Proof.
  intros Hm Hh out. unfold out, cmd_result, link_main, create_gtp5g_link. clear out. change NLMSG_ERROR with 2.
  unfold sock, request, mbind, py_bind. cbn -[unpack_from newlink_message]. rewrite Hm.
  cbn -[unpack_from]. rewrite Hh. destruct (nth 1 h 0 =? 2); [|split; reflexivity].
  cbn -[unpack_from]. destruct (unpack_from "=i" d 16) as [e|x]; cbn; [|by split].
  destruct (nth 0 e 0 =? 0); cbn; [by split|]. unfold raise_errno. case_decide; by split.
Qed.

(** ** Runs *)

Lemma genl_main_hides_refusal_witness :
  let x := genl_main (fun _ => Ok 7) ["gtp5g_genl.py"; "upfgtp"; "pdr"]%string gs_init in
  run (fifo demo_answer) x [] = ([demo_error 2 (-1)], ({| gs_seq := 2; gs_family_id := Some 0x1c |}, Ok true)).
Proof.
  intros x.
  destruct (getfamily_message "gtp5g") as [m1|] eqn:Hm1; [|vm_compute in Hm1; discriminate].
  assert (Ha : demo_answer m1 = [demo_hdr ++ demo_attr; demo_error 1 0])
    by (vm_compute in Hm1; apply Ok_inj in Hm1; rewrite <-Hm1; vm_compute; reflexivity).
  destruct (pdr_attrs 7 1 100 1 None None None None (Some 0)) as [b|] eqn:Hb; [|vm_compute in Hb; discriminate].
  destruct (pack "=BBH" [GTP5G_CMD_ADD_PDR; 1; 0]) as [g|] eqn:Hg; [|vm_compute in Hg; discriminate].
  assert (Hdemo : match message 0x1c (Z.lor NLM_F_REQUEST NLM_F_ACK) 2 (g ++ b) with
    | Ok m2 => bool_decide (demo_answer m2 = [demo_error 2 (-1)]) | Exc _ => false end = true).
  { apply (f_equal res_opt) in Hg, Hb. vm_compute in Hg, Hb. apply (inj Some) in Hg, Hb. rewrite <-Hg, <-Hb.
    vm_compute. reflexivity. }
  destruct (message _ _ _ _) as [m2|] eqn:Hm2; [|discriminate Hdemo].
  apply bool_decide_eq_true_1 in Hdemo. rewrite <-Hdemo.
  assert (Hstep : step_request "pdr" 7 = Some (GTP5G_CMD_ADD_PDR, Ok b)) by (rewrite <-Hb; reflexivity).
  exact (proj1 (genl_main_hides_refusal demo_answer (fun _ => Ok 7) ["gtp5g_genl.py"; "upfgtp"; "pdr"]%string 7 m1
    (demo_hdr ++ demo_attr) demo_hdr [demo_attr] [(1, le_split 2 0x1c)] 0x1c (demo_error 1 0) [36; 2; 0; 1; 0] [0]
    GTP5G_CMD_ADD_PDR b g m2 eq_refl Hm1 Ha demo_reply eq_refl ltac:(vm_compute; reflexivity) eq_refl
    ltac:(vm_compute; reflexivity) eq_refl Hstep Hg Hm2)).
Defined.

Lemma link_main_outcome_witness :
  let x := link_main ["gtp5g_link_add.py"]%string 4242 tt in
  run (one_answer 3 (demo_error 4242 (-17))) x tt = (tt, (tt, Exc (OSError 17))).
Proof.
  intros x. destruct (newlink_message "gtp5gtest0" 3 128 4242) as [m|] eqn:Hm; [|vm_compute in Hm; discriminate].
  exact (proj1 (link_main_outcome ["gtp5g_link_add.py"]%string 4242 3 m (demo_error 4242 (-17)) [36; 2; 0; 4242; 0] Hm
    ltac:(vm_compute; reflexivity))).
Defined.
