(* ===== verification/Http.v ===== *)
(** * The HTTP endpoint and the latency percentiles

    [Handler.do_GET] (agent.py) and the statistics of the two rule-update
    benchmarks: [/ruleupdate] of the agent and [bench]
    (bench_eupf_ruleupdate.py).  [int(len * 0.95)] is a double-precision
    product (PyFloat.v).  Samples are kept in
    nanoseconds; the code divides each by [1000.0], which does not change their
    order. *)

From Stdlib Require Import Strings.Ascii.
From stdpp Require Import sorting.
From S2P Require Import Prelude Prog PyText PyFloat Bpftool Kernel BpfSyscall Agent Qer Datapath Metrics.

Open Scope string_scope.
Open Scope Z_scope.

(** The literals of the sources, [m * 2^-53] each. *)
Definition f0_50 : spec_float := S754_finite false 4503599627370496 (-53).
Definition f0_95 : spec_float := S754_finite false 8556839292003942 (-53).
Definition f0_99 : spec_float := S754_finite false 8917127262193582 (-53).

(** ** Statistics *)

#[global] Instance Z_le_dec' (x y : Z) : Decision (x <= y) := _.

(** [sorted(l)] *)
Definition sorted (l : list Z) : list Z := merge_sort Z.le l.

(** [l[i]] for a non-negative index *)
Definition index (l : list Z) (i : Z) : res Z := of_option IndexError (l !! Z.to_nat i).

Record rule_stats := {
  rs_n_rules : Z; rs_total : Z;
  rs_p50 : Z; rs_p95 : Z; rs_p99 : Z; rs_min : Z; rs_max : Z;
}.

(** [min(l)] and [max(l)] raise [ValueError] on an empty list. *)
Definition min_of (l : list Z) : res Z :=
  match l with [] => Exc ValueError | x :: l' => Ok (foldl Z.min x l') end.
Definition max_of (l : list Z) : res Z :=
  match l with [] => Exc ValueError | x :: l' => Ok (foldl Z.max x l') end.

(** The body of the [/ruleupdate] response. *)
Definition ruleupdate_body (n total : Z) (per_us : list Z) : res rule_stats :=
  let len := Z.of_nat (length per_us) in
  p50 ← index (sorted per_us) (len / 2);
  p95 ← index (sorted per_us) (int_of_float (float_mul (float_of_Z len) f0_95));
  p99 ← index (sorted per_us) (int_of_float (float_mul (float_of_Z len) f0_99));
  mn ← min_of per_us;
  mx ← max_of per_us;
  Ok {| rs_n_rules := n; rs_total := total; rs_p50 := p50; rs_p95 := p95; rs_p99 := p99; rs_min := mn; rs_max := mx |}.

(** [pct(p)] of [bench], on the sorted samples of [n] requests *)
Definition bench_pct (ss : list Z) (n : Z) (p : spec_float) : res Z :=
  index ss (int_of_float (float_mul p (float_of_Z (n - 1)))).

(** What [bench] prints, from the samples of its [n] requests: [min], [p50],
    [p95], [p99] and [max].  The mean divides by [n] first. *)
Definition bench_report (n : Z) (samples : list Z) : res (list Z) :=
  if n =? 0 then Exc ZeroDivisionError else
  let ss := sorted samples in
  mn ← index ss 0;
  p50 ← bench_pct ss n f0_50;
  p95 ← bench_pct ss n f0_95;
  p99 ← bench_pct ss n f0_99;
  mx ← of_option IndexError (last ss);
  Ok [mn; p50; p95; p99; mx]%list.

(** ** Query strings *)

Fixpoint split_on (c : ascii) (s : string) : list string :=
  match s with
  | EmptyString => [""]%list
  | String a s' =>
      if ascii_dec a c then ("" :: split_on c s')%list
      else match split_on c s' with
           | x :: l => (String a x :: l)%list
           | [] => [String a ""]%list
           end
  end.

(** The part before the first [c] and, if there is one, the part after it. *)
Fixpoint partition (c : ascii) (s : string) : string * option string :=
  match s with
  | EmptyString => ("", None)
  | String a s' =>
      if ascii_dec a c then ("", Some s')
      else let '(x, y) := partition c s' in (String a x, y)
  end.

(** [unquote_plus] *)
Fixpoint unquote (s : string) : string :=
  match s with
  | EmptyString => ""
  | String a s' =>
      if ascii_dec a "+" then String " " (unquote s')
      else match s' with
           | String h (String l s'') =>
               match (if ascii_dec a "%" then (digit_in 16 h, digit_in 16 l) else (None, None)) with
               | (Some h, Some l) => String (ascii_of_N (Z.to_N (h * 16 + l))) (unquote s'')
               | _ => String a (unquote s')
               end
           | _ => String a (unquote s')
           end
  end.

(** [urlparse(path).query] *)
Definition url_query (path : string) : string :=
  match snd (partition "?" (fst (partition "#" path))) with Some q => q | None => "" end.

(** [parse_qs(query).get(name)[0]]: blank values are dropped. *)
Definition query_first (name query : string) : option string :=
  head (omap (fun nv =>
    match partition "=" nv with
    | (k, Some v) => if decide (unquote k = name /\ v <> "") then Some (unquote v) else None
    | (_, None) => None
    end) (split_on "&" query)).

(** ** The handler *)

Inductive response :=
| RespText (code : Z) (body : string)
| RespStats (code : Z) (body : rule_stats).

(** [Handler.do_GET] *)
Definition do_GET (h : host) (clock : nat -> Z) (path : string) : bpfM response :=
  if decide (path = "/metrics") then
    page ← lift (prometheus_text h);
    mret (RespText 200 page)
  else if starts_with "/ruleupdate" path then
    n ← lift (int10 (default "100" (query_first "n" (url_query path))));
    '(total, per_us) ← measure_rule_update clock n;
    body ← lift (ruleupdate_body n total per_us);
    mret (RespStats 200 body)
  else if decide (path = "/healthz") then mret (RespText 200 ("ok" ++ newline))
  else mret (RespText 404 ("not found" ++ newline)).

Example query_ex :
  (query_first "n" (url_query "/ruleupdate?x=1&n=&n=2%35&n=7#n=9"), query_first "n" (url_query "/ruleupdate")) =
    (Some "25", None).
Proof. reflexivity. Qed.

(** ** Ranks *)

(** The double products truncate to the exact quotients, for every number of
    samples up to the capacity of [pdr_table]. *)
Definition ranks_exact (n : Z) : bool :=
  (int_of_float (float_mul (float_of_Z n) f0_95) =? 95 * n / 100) &&
  (int_of_float (float_mul (float_of_Z n) f0_99) =? 99 * n / 100) &&
  (int_of_float (float_mul f0_50 (float_of_Z (n - 1))) =? (n - 1) / 2) &&
  (int_of_float (float_mul f0_95 (float_of_Z (n - 1))) =? 95 * (n - 1) / 100) &&
  (int_of_float (float_mul f0_99 (float_of_Z (n - 1))) =? 99 * (n - 1) / 100).

Lemma ranks_exact_all : forallb (fun i => ranks_exact (Z.of_nat i)) (seq 1 4096) = true.
Proof. vm_compute. reflexivity. Qed.

Lemma ranks n :
  1 <= n <= 4096 ->
  int_of_float (float_mul (float_of_Z n) f0_95) = 95 * n / 100 /\
  int_of_float (float_mul (float_of_Z n) f0_99) = 99 * n / 100 /\
  int_of_float (float_mul f0_50 (float_of_Z (n - 1))) = (n - 1) / 2 /\
  int_of_float (float_mul f0_95 (float_of_Z (n - 1))) = 95 * (n - 1) / 100 /\
  int_of_float (float_mul f0_99 (float_of_Z (n - 1))) = 99 * (n - 1) / 100.
Proof.
  intros Hn. pose proof ranks_exact_all as H. rewrite forallb_forall in H.
  specialize (H (Z.to_nat n) ltac:(apply in_seq; lia)). rewrite Z2Nat.id in H by lia.
  unfold ranks_exact in H. repeat (apply andb_true_iff in H as [H ?]).
  split_and!; by apply Z.eqb_eq.
Qed.

Lemma sorted_perm l : sorted l ≡ₚ l.
Proof. apply merge_sort_Permutation. Qed.

Lemma sorted_sorted l : StronglySorted Z.le (sorted l).
Proof. apply (StronglySorted_merge_sort Z.le). Qed.

Lemma length_sorted l : length (sorted l) = length l.
Proof. by rewrite sorted_perm. Qed.

Lemma sorted_mono l i j x y :
  (i <= j)%nat -> sorted l !! i = Some x -> sorted l !! j = Some y -> x <= y.
Proof.
  pose proof (sorted_sorted l) as Hs. revert i j x y. generalize dependent (sorted l). clear l. intros m Hs.
  induction Hs as [|a m Hm IH Hall]; intros i j x y Hij Hi Hj; [done|].
  destruct j as [|j], i as [|i]; simplify_eq/=; [done|lia| |eapply (IH i j); eauto with lia].
  rewrite Forall_forall in Hall. apply Hall. by eapply list_elem_of_lookup_2.
Qed.

Lemma index_ok l i : 0 <= i < Z.of_nat (length l) -> exists x, index l i = Ok x /\ l !! Z.to_nat i = Some x.
Proof.
  intros Hi. unfold index. destruct (lookup_lt_is_Some_2 l (Z.to_nat i)) as [x ->]; [lia|]. by exists x.
Qed.

Lemma foldl_min_spec l x : foldl Z.min x l <= x /\ (forall y, y ∈ l -> foldl Z.min x l <= y) /\ foldl Z.min x l ∈ (x :: l)%list.
Proof.
  revert x. induction l as [|a l IH]; intros x; cbn [foldl].
  - split; [lia|]. split; [by intros ? ?%elem_of_nil|by left].
  - destruct (IH (Z.min x a)) as (H1 & H2 & H3). split; [lia|]. split.
    + intros y [->|Hy]%elem_of_cons; [lia|auto].
    + apply elem_of_cons in H3 as [H3|H3]; [|by right; right].
      destruct (Z.min_spec x a) as [[_ E]|[_ E]]; rewrite E in H3 at 2; rewrite H3; [left|right; left].
Qed.

Lemma foldl_max_spec l x : x <= foldl Z.max x l /\ (forall y, y ∈ l -> y <= foldl Z.max x l) /\ foldl Z.max x l ∈ (x :: l)%list.
Proof.
  revert x. induction l as [|a l IH]; intros x; cbn [foldl].
  - split; [lia|]. split; [by intros ? ?%elem_of_nil|by left].
  - destruct (IH (Z.max x a)) as (H1 & H2 & H3). split; [lia|]. split.
    + intros y [->|Hy]%elem_of_cons; [lia|auto].
    + apply elem_of_cons in H3 as [H3|H3]; [|by right; right].
      destruct (Z.max_spec x a) as [[_ E]|[_ E]]; rewrite E in H3 at 2; rewrite H3; [right; left|left].
Qed.

Lemma min_of_spec l : l <> []%list -> exists m, min_of l = Ok m /\ m ∈ l /\ forall y, y ∈ l -> m <= y.
Proof.
  destruct l as [|x l]; [done|]. intros _. destruct (foldl_min_spec l x) as (H1 & H2 & H3).
  eexists. split; [reflexivity|]. split; [done|]. by intros y [->|Hy]%elem_of_cons; auto.
Qed.

Lemma max_of_spec l : l <> []%list -> exists m, max_of l = Ok m /\ m ∈ l /\ forall y, y ∈ l -> y <= m.
Proof.
  destruct l as [|x l]; [done|]. intros _. destruct (foldl_max_spec l x) as (H1 & H2 & H3).
  eexists. split; [reflexivity|]. split; [done|]. by intros y [->|Hy]%elem_of_cons; auto.
Qed.

Lemma quotient_rank c n : 0 <= c < 100 -> 1 <= n -> 0 <= c * n / 100 < n.
Proof. intros Hc Hn. split; [apply Z.div_pos; nia|]. apply Z.div_lt_upper_bound; nia. Qed.

(** C37: the percentiles of [/ruleupdate] are well defined and ordered.  For
    any batch of 1 to 4096 samples (a larger one cannot be installed: the PDR
    table holds 4096) no index is out of range although the ranks are computed
    in floating point; the ranks are the exact quotients [95 n / 100] and
    [99 n / 100] of the sorted samples, and
    [min <= p50 <= p95 <= p99 <= max]. *)
Theorem ruleupdate_percentiles n total l :
  1 <= Z.of_nat (length l) <= 4096 ->
  exists b, ruleupdate_body n total l = Ok b /\
    rs_min b <= rs_p50 b <= rs_p95 b /\ rs_p95 b <= rs_p99 b <= rs_max b /\
    sorted l !! (length l / 2)%nat = Some (rs_p50 b) /\
    sorted l !! Z.to_nat (95 * Z.of_nat (length l) / 100) = Some (rs_p95 b) /\
    sorted l !! Z.to_nat (99 * Z.of_nat (length l) / 100) = Some (rs_p99 b).
Proof.
  intros Hn. destruct (ranks _ Hn) as (R95 & R99 & _). unfold ruleupdate_body. rewrite R95, R99.
  set (len := Z.of_nat (length l)) in *. assert (Hne : l <> []%list) by (intros E; unfold len in Hn; rewrite E in Hn; cbn in Hn; lia).
  assert (Hls : Z.of_nat (length (sorted l)) = len) by (by rewrite length_sorted).
  pose proof (quotient_rank 95 len) as Q95. pose proof (quotient_rank 99 len) as Q99.
  assert (Q50 : 0 <= len / 2 < len) by (split; [apply Z.div_pos; lia|apply Z.div_lt_upper_bound; lia]).
  assert (H59 : len / 2 <= 95 * len / 100)
    by (apply Z.div_le_lower_bound; [lia|]; pose proof (Z.mul_div_le len 2 ltac:(lia)); lia).
  assert (H99 : 95 * len / 100 <= 99 * len / 100) by (apply Z.div_le_mono; lia).
  destruct (index_ok (sorted l) (len / 2)) as (p50 & -> & E50); [lia|].
  destruct (index_ok (sorted l) (95 * len / 100)) as (p95 & -> & E95); [lia|].
  destruct (index_ok (sorted l) (99 * len / 100)) as (p99 & -> & E99); [lia|].
  destruct (min_of_spec l Hne) as (mn & -> & _ & Hmin). destruct (max_of_spec l Hne) as (mx & -> & _ & Hmax).
  assert (Hin : forall i x, sorted l !! i = Some x -> x ∈ l).
  { intros i x Hx. rewrite <-sorted_perm. by eapply list_elem_of_lookup_2. }
  eexists. split; [reflexivity|]. cbn [rs_min rs_p50 rs_p95 rs_p99 rs_max].
  split; [split; [by eapply Hmin, Hin|eapply sorted_mono; [|exact E50|exact E95]; lia]|].
  split; [split; [eapply sorted_mono; [|exact E95|exact E99]; lia|by eapply Hmax, Hin]|].
  split; [|done]. rewrite <-E50. f_equal. unfold len. rewrite <-(Nat2Z.id (length l / 2)). f_equal.
  by rewrite Nat2Z.inj_div.
Qed.

Lemma ruleupdate_percentiles_witness :
  exists b, ruleupdate_body 4 90 [30; 10; 40; 10] = Ok b /\
    (rs_min b, rs_p50 b, rs_p95 b, rs_p99 b, rs_max b) = (10, 30, 40, 40, 40).
Proof.
  destruct (ruleupdate_percentiles 4 90 [30; 10; 40; 10]%list) as (b & Hb & _);
    [split; [discriminate|discriminate]|].
  exists b. split; [exact Hb|]. vm_compute in Hb. apply Ok_inj in Hb. by rewrite <-Hb.
Defined.

(** An empty batch crashes the endpoint.  For [/ruleupdate] with an [n]
    that is zero or negative the handler installs nothing and then raises
    [IndexError] on [sorted([])[0]]: no HTTP response is sent. *)
Theorem ruleupdate_empty_batch h clock path n s :
  starts_with "/ruleupdate" path = true ->
  int10 (default "100" (query_first "n" (url_query path))) = Ok n -> n <= 0 ->
  do_GET h clock path s = Ret (s, Exc IndexError).
Proof.
  intros Hp Hq Hn. unfold do_GET. rewrite decide_False by (intros ->; discriminate Hp). rewrite Hp, Hq, bind_lift_ok.
  unfold measure_rule_update, range. rewrite Z2Nat.nonpos by done. reflexivity.
Qed.

Lemma ruleupdate_empty_batch_witness :
  do_GET (demo_host [] []) (fun _ => 0) "/ruleupdate?n=0" ∅ = Ret (∅, Exc IndexError).
Proof. by apply (ruleupdate_empty_batch (demo_host [] []) (fun _ => 0) "/ruleupdate?n=0" 0 ∅). Defined.

(** The two benchmarks that are compared use different ranks.  On the
    same 2 to 100 samples the agent's [p99] is the largest sample, whereas
    [bench] of bench_eupf_ruleupdate.py takes the sample of rank
    [99 (n - 1) / 100], which is never the last one. *)
Theorem p99_ranks_differ n total l :
  2 <= Z.of_nat (length l) <= 100 ->
  (exists b, ruleupdate_body n total l = Ok b /\ last (sorted l) = Some (rs_p99 b)) /\
  exists p99, bench_pct (sorted l) (Z.of_nat (length l)) f0_99 = Ok p99 /\
    exists i, sorted l !! i = Some p99 /\ (i + 1 < length l)%nat.
Proof.
  intros Hn. destruct (ranks (Z.of_nat (length l))) as (R95 & R99 & _ & _ & B99); [lia|].
  set (len := Z.of_nat (length l)) in *. assert (Hls : Z.of_nat (length (sorted l)) = len) by (by rewrite length_sorted).
  assert (Q99 : 99 * len / 100 = len - 1) by (symmetry; apply (Z.div_unique _ _ _ (100 - len)); lia).
  assert (Qb : 0 <= 99 * (len - 1) / 100 < len - 1).
  { split; [apply Z.div_pos; lia|]. apply Z.div_lt_upper_bound; lia. }
  split.
  - assert (Hne : l <> []%list) by (intros E; unfold len in Hn; rewrite E in Hn; cbn in Hn; lia).
    unfold ruleupdate_body. fold len. rewrite R95, R99, Q99.
    pose proof (quotient_rank 95 len) as Q95.
    destruct (index_ok (sorted l) (len / 2)) as (p50 & -> & _);
      [split; [apply Z.div_pos; lia|apply Z.div_lt_upper_bound; lia]|].
    destruct (index_ok (sorted l) (95 * len / 100)) as (p95 & -> & _); [lia|].
    destruct (index_ok (sorted l) (len - 1)) as (p99 & -> & E99); [lia|].
    destruct (min_of_spec l Hne) as (mn & -> & _). destruct (max_of_spec l Hne) as (mx & -> & _).
    eexists. split; [reflexivity|]. cbn [rs_p99]. rewrite <-E99, last_lookup, length_sorted. f_equal. lia.
  - unfold bench_pct. rewrite B99. destruct (index_ok (sorted l) (99 * (len - 1) / 100)) as (x & -> & Ex); [lia|].
    exists x. split; [done|]. eexists. split; [exact Ex|]. lia.
Qed.

Lemma p99_ranks_differ_witness :
  exists p99, bench_pct (sorted [30; 10; 40; 10]) 4 f0_99 = Ok p99 /\
    exists i, sorted [30; 10; 40; 10] !! i = Some p99 /\ (i + 1 < 4)%nat.
Proof.
  refine (proj2 (p99_ranks_differ 4 90 [30; 10; 40; 10]%list _)). split; discriminate.
Defined.
