(* ===== verification/Serve.v ===== *)
(** * The agent serving requests

    [Handler._send], the server loop and [main] (agent.py) on top of
    [bootstrap_initial] and [do_GET]: every request gets an answer or fails on
    its own, and serving them never disturbs the sessions the agent booted
    with.  The server of the Standard Library handles one request at a time
    and survives an exception in the handler; it also adds the [Server] and
    [Date] headers, which are left out. *)

From S2P Require Import Prelude Prog PyStruct PyText Json Bpftool UpfMaps Kernel BpfSyscall Agent Qer Datapath Bundle Sessions Bootstrap Metrics Http.

Open Scope string_scope.
Open Scope Z_scope.

Record http_response := { hr_code : Z; hr_headers : list (string * string); hr_body : bytes }.

(** [Handler._send] of a [str] *)
Definition _send (code : Z) (body ctype : string) : http_response :=
  let b := encode body in
  {| hr_code := code;
     hr_headers := [("Content-Type", ctype); ("Content-Length", str_Z (Z.of_nat (length b)))];
     hr_body := b |}.

Definition text_plain : string := "text/plain; charset=utf-8".

(** A request, with the machine and the clock while it is handled. *)
Record http_request := { rq_path : string; rq_host : host; rq_clock : nat -> Z }.

(** The options of [main] and their defaults. *)
Record agent_args := { arg_addr : string; arg_port : Z; arg_initial : Z; arg_out_ifindex : Z }.

Definition default_args : agent_args :=
  {| arg_addr := "127.0.0.1"; arg_port := 9090; arg_initial := 10; arg_out_ifindex := 2 |}.

Section server.
(** [json.dumps(body, indent=2)] of the statistics, which are floats. *)
Context (dumps : rule_stats -> string).

Definition send_response (r : response) : http_response :=
  match r with
  | RespText code body => _send code body text_plain
  | RespStats code body => _send code (dumps body) "application/json"
  end.

(** One request: no response when the handler raises. *)
Definition handle (rq : http_request) : bpfM (option http_response) :=
  r ← attempt (do_GET (rq_host rq) (rq_clock rq) (rq_path rq));
  mret (send_response <$> r).

(** [serve_forever], over the requests that come. *)
Fixpoint serve (rqs : list http_request) : bpfM (list (option http_response)) :=
  match rqs with
  | [] => mret []%list
  | rq :: rqs' => r ← handle rq; rs ← serve rqs'; mret (r :: rs)
  end.

(** [main], after [parse_args] *)
Definition agent_main (args : agent_args) (rqs : list http_request) : bpfM (list (option http_response)) :=
  bootstrap_initial (arg_initial args) (arg_out_ifindex args) ;;
  serve rqs.
End server.

(** ** What serving leaves alone *)

(** The keys of [/ruleupdate?n=m] that fit the maps. *)
Definition bench_keys (m : Z) : list (string * bytes) :=
  batch_keys 0x10000 0x20000 (filter (fun i => is_u32 (0x20000 + i)) (range m)).

(** None of these keys is of a booted rule. *)
Definition spares (n : Z) (ks : list (string * bytes)) : Prop :=
  forall name j, (name, j) ∈ ks ->
    name <> "far_table" /\ name <> "qer_table" /\
    forall i, i ∈ range n -> (name, j) ∉ rule_keys (0x1000 + i) (0x2000 + i).

Lemma bench_keys_spare n m : n <= 0xF000 -> spares n (bench_keys m).
Proof.
  intros Hn name j Hj. unfold bench_keys, batch_keys in Hj. apply list_elem_of_bind in Hj as (i & Hj & Hi).
  apply list_elem_of_filter in Hi as [Hfit Hi]. apply range_in in Hi.
  apply rule_keys_inv in Hj. split; [naive_solver|]. split; [naive_solver|].
  intros i' Hi' Hj'%rule_keys_inv. apply range_in in Hi'.
  destruct Hj as [[-> ->]|[Hname ->]], Hj' as [[Hname' E]|[Hname' E]]; [|naive_solver..|];
    apply le_split_u32_inj in E; lia.
Qed.

Lemma bench_keys_in m i :
  i ∈ range m -> is_u32 (0x20000 + i) -> rule_keys (0x10000 + i) (0x20000 + i) ⊆ bench_keys m.
Proof. intros Hi Hf. apply batch_keys_in. by apply list_elem_of_filter. Qed.

Section kernel.
Context `{BpfKernelLaws K} (dumps : rule_stats -> string).

(** A step of the server: keys of some [/ruleupdate] batch. *)
Definition benches (n : Z) (k k' : K) : Prop := exists ks, spares n ks /\ same_but ks k k'.

Lemma benches_refl n k k' : quiet k k' -> benches n k k'.
Proof. intros Hq. exists []%list. split; [by intros ?? ?%elem_of_nil|by apply quiet_touches]. Qed.

Lemma benches_booted n out_ifindex k k' :
  benches n k k' -> booted out_ifindex (range n) k -> booted out_ifindex (range n) k'.
Proof.
  intros (ks & Hsp & Hs). apply booted_kept. intros name j Hj. apply Hs. intros Hin.
  destruct (Hsp _ _ Hin) as (? & ? & Hr). destruct Hj as [->|[->|(i & Hi & Hj)]]; [done..|by apply (Hr i)].
Qed.

Lemma pwp_do_GET n h clock path s k :
  n <= 0xF000 -> cache_ok s k -> kernel_ok k ->
  pwp sys_bpf evicts (benches n) (do_GET h clock path) s (fun _ s' k' => cache_ok s' k' /\ kernel_ok k') k.
Proof.
  intros Hn Hs Hk. unfold do_GET. case_decide.
  { apply pwp_bind, pwp_lift. by destruct (prometheus_text h). }
  destruct (starts_with _ _); [|by case_decide].
  apply pwp_bind, pwp_lift. destruct (int10 _) as [m|]; [|done].
  apply pwp_bind. eapply pwp_mono.
  - apply (pwp_measure clock m (bench_keys m)); [apply bench_keys_in|done..].
  - intros k1 k2 Hst. exists (bench_keys m). split; [by apply bench_keys_spare|done].
  - intros [[total per_us]|e] s1 k1 (? & ? & _); [|done]. apply pwp_bind, pwp_lift. by destruct (ruleupdate_body _ _ _).
Qed.

Lemma pwp_serve n rqs s k :
  n <= 0xF000 -> cache_ok s k -> kernel_ok k ->
  pwp sys_bpf evicts (benches n) (serve dumps rqs) s (fun _ s' k' => cache_ok s' k' /\ kernel_ok k') k.
Proof.
  intros Hn. revert s k. induction rqs as [|rq rqs IH]; intros s k Hs Hk; [done|].
  cbn [serve]. apply pwp_bind. unfold handle. apply pwp_bind, pwp_attempt.
  eapply pwp_mono; [by apply pwp_do_GET|done|]. intros r s1 k1 [? ?]. apply pwp_ret, pwp_bind.
  eapply pwp_mono; [by apply IH|done|]. by intros [rs|e] s2 k2 [? ?].
Qed.

(** C9: serving never disturbs the booted sessions.  Boot the agent with at
    most 0xf000 sessions (the benchmark's TEIDs start at 0x10000, the booted
    ones at 0x1000) and let it serve any requests, [/ruleupdate] batches of any
    size included, whether or not they fail.  Then at every point of every
    interleaving with session evictions every uplink G-PDU of a booted session
    is forwarded ([forwards]), unless its TEID has been evicted. *)
Theorem serving_forwards args rqs s k s1 k1 p k2 i :
  cache_ok s k -> kernel_ok k -> arg_initial args <= 0xF000 ->
  exec sys_bpf evicts (bootstrap_initial (arg_initial args) (arg_out_ifindex args) s, k) (Ret (s1, Ok tt), k1) ->
  exec sys_bpf evicts (serve dumps rqs s1, k1) (p, k2) ->
  0 <= i < arg_initial args -> forwards (arg_out_ifindex args) k2 i.
Proof.
  intros Hs Hk Hn Hx1 Hx2 Hi.
  destruct (wp_exec_ret _ _ _ _ _ _ _ _ (pwp_bootstrap _ _ s k Hs Hk) Hx1 eq_refl) as (Hs1 & Hk1 & Hb).
  eapply booted_forwards; [|exact Hi].
  refine (wp_exec_inv sys_bpf evicts (benches (arg_initial args)) (booted (arg_out_ifindex args) (range (arg_initial args)))
    _ _ _ _ _ _ _ (pwp_serve _ rqs s1 k1 Hn Hs1 Hk1) Hx2 Hb).
  - intros ??. apply booted_evicts.
  - intros ??. apply benches_booted.
Qed.
End kernel.

(** ** The answers *)

Section answers.
Context {K : Type} (sys : bpf_call -> K -> K * sysret) (dumps : rule_stats -> string).

(** What may come back for a request. *)
Record answered (rq : http_request) (o : option http_response) : Prop := {
  an_length : forall r, o = Some r -> exists ctype len,
    hr_headers r = [("Content-Type", ctype); ("Content-Length", len)]%list /\
    take_digits 10 len 0 = (Z.of_nat (length (hr_body r)), "");
  an_metrics : rq_path rq = "/metrics" ->
    o = (fun page => _send 200 page text_plain) <$> res_opt (prometheus_text (rq_host rq));
  an_ruleupdate : starts_with "/ruleupdate" (rq_path rq) = true -> forall r, o = Some r ->
    exists b, r = _send 200 (dumps b) "application/json";
  an_healthz : rq_path rq = "/healthz" -> o = Some (_send 200 ("ok" ++ newline) text_plain);
  an_unknown : rq_path rq <> "/metrics" -> starts_with "/ruleupdate" (rq_path rq) = false ->
    rq_path rq <> "/healthz" -> o = Some (_send 404 ("not found" ++ newline) text_plain);
}.

Lemma send_length code body ctype : exists ct len,
  hr_headers (_send code body ctype) = [("Content-Type", ct); ("Content-Length", len)]%list /\
  take_digits 10 len 0 = (Z.of_nat (length (hr_body (_send code body ctype))), "").
Proof using Type.
  eexists _, _. split; [reflexivity|]. cbn [_send hr_body].
  rewrite <-(append_nil_r (str_Z _)), take_str_Z by lia. reflexivity.
Qed.

Lemma run_do_GET h clock path s k :
  let r := (run sys (do_GET h clock path s) k).2.2 in
  (path = "/metrics" -> r = (page ← prometheus_text h; Ok (RespText 200 page))) /\
  (starts_with "/ruleupdate" path = true -> forall x, r = Ok x -> exists b, x = RespStats 200 b) /\
  (path = "/healthz" -> r = Ok (RespText 200 ("ok" ++ newline))) /\
  (path <> "/metrics" -> starts_with "/ruleupdate" path = false -> path <> "/healthz" ->
     r = Ok (RespText 404 ("not found" ++ newline))).
Proof using Type.
  cbv zeta. unfold do_GET. destruct (decide (path = "/metrics")) as [->|Hm].
  { split; [intros _; by destruct (prometheus_text h)|]. split; [intros [=]|]. split; [intros [=]|done]. }
  destruct (starts_with "/ruleupdate" path) eqn:Hr.
  - split; [done|]. split; [|split; [intros ->; discriminate Hr|done]]. intros _ x.
    destruct (int10 _) as [n|]; [|intros [=]]. rewrite bind_lift_ok, run_py_bind.
    destruct (run sys _ k) as [k1 [s1 [[total per_us]|e]]]; [|intros [=]].
    destruct (ruleupdate_body n total per_us) as [b|]; [|intros [=]]. intros [= <-]. by exists b.
  - do 2 (split; [done|]). split; [by intros ->|]. intros _ _ Hh. by rewrite decide_False.
Qed.

Lemma run_handle rq s k :
  exists k' s' o, run sys (handle dumps rq s) k = (k', (s', Ok o)) /\ answered rq o.
Proof using Type.
  unfold handle. rewrite run_py_bind. unfold attempt. rewrite run_bind.
  pose proof (run_do_GET (rq_host rq) (rq_clock rq) (rq_path rq) s k) as Hr.
  destruct (run sys (do_GET _ _ _ s) k) as [k1 [s1 r]]. cbn [fst snd] in *. destruct Hr as (H1 & H2 & H3 & H4).
  exists k1, s1, (send_response dumps <$> match r with Ok a => Some a | Exc _ => None end). split; [reflexivity|].
  split.
  - intros x Hx. destruct r as [[]|]; [injection Hx as <-; apply send_length..|discriminate Hx].
  - intros Hp. rewrite (H1 Hp). by destruct (prometheus_text (rq_host rq)).
  - intros Hp x Hx. destruct r as [r|]; [|discriminate Hx]. destruct (H2 Hp r eq_refl) as [b ->].
    injection Hx as <-. by exists b.
  - intros Hp. by rewrite (H3 Hp).
  - intros Hp Hq Hh. by rewrite (H4 Hp Hq Hh).
Qed.

(** C39: the server answers and survives.  Against any kernel the server takes
    every request in turn, whatever happened to the ones before: [/healthz]
    gets 200, [/metrics] the page of the counters (or no response, if they
    cannot be read), [/ruleupdate] a JSON body or, if the handler raised, no
    response, and any other path 404; the [Content-Length] of every response
    reads back as the number of bytes of its body. *)
Theorem serve_answers rqs s k :
  exists k' s' rs, run sys (serve dumps rqs s) k = (k', (s', Ok rs)) /\ Forall2 answered rqs rs.
Proof using Type.
  revert s k. induction rqs as [|rq rqs IH]; intros s k.
  { exists k, s, []%list. split; [reflexivity|constructor]. }
  cbn [serve]. rewrite run_py_bind. destruct (run_handle rq s k) as (k1 & s1 & o & -> & Ho).
  rewrite run_py_bind. destruct (IH s1 k1) as (k2 & s2 & rs & -> & Hrs).
  exists k2, s2, (o :: rs)%list. split; [reflexivity|by constructor].
Qed.
End answers.

(** Two sessions booted, a batch measured and a bad request. *)
Lemma serving_forwards_witness :
  let args := {| arg_addr := "127.0.0.1"; arg_port := 9090; arg_initial := 2; arg_out_ifindex := 3 |} in
  let rqs := [{| rq_path := "/ruleupdate?n=2"; rq_host := demo_host [] []; rq_clock := fun i => 10 * Z.of_nat i |};
              {| rq_path := "/ruleupdate?n=0"; rq_host := demo_host [] []; rq_clock := fun _ => 0 |}]%list in
  let x := run ref_sys (bootstrap_initial 2 3 ∅) ref_init in
  let y := run ref_sys (serve (fun _ => "{}") rqs x.2.1) x.1 in
  forwards 3 y.1 0 /\ forwards 3 y.1 1.
Proof.
  intros args rqs x y. assert (Hr : x.2.2 = Ok tt) by (vm_compute; reflexivity).
  pose proof (run_exec_rely ref_sys evicts (bootstrap_initial 2 3 ∅) ref_init evicts_refl) as Hx. fold x in Hx.
  pose proof (run_exec_rely ref_sys evicts (serve (fun _ => "{}") rqs x.2.1) x.1 evicts_refl) as Hy. fold y in Hy.
  clearbody y. clearbody x. destruct x as [k1 [s1 r1]]. cbn [fst snd] in *. subst r1.
  pose proof (serving_forwards (fun _ => "{}") args rqs ∅ ref_init s1 k1 (Ret y.2) y.1) as H.
  split; (apply H; [apply empty_cache_ok|apply init_ok|discriminate|exact Hx|exact Hy|split; [discriminate|reflexivity]]).
Defined.
