(* ===== verification/Rules.v ===== *)
(** * The agent refines a table of rules

    What the control plane promises the datapath, as an abstract
    specification: the rules are seven partial functions ([rules]) and an
    operation of agent.py is a sequence of atomic writes to them ([plan]).  An
    abstract machine makes these writes one at a time ([agenda_step]); the
    functions of agent.py simulate it: at every point of every script of
    operations, interleaved with session evictions, the maps hold the table of
    an agenda the machine reaches.  Fate.v says what the table means for a
    packet. *)

From stdpp Require Import functions.
From S2P Require Import Prelude Prog Sim PyStruct PyText Bpftool UpfMaps Kernel BpfSyscall Encoders Agent Qer Datapath Egress Bundle Sessions Bootstrap Metrics Http.

Open Scope Z_scope.

(** ** The specification *)

(** The rules by identifier: sessions by TEID, PDRs and their live tuples by
    PDR, FARs and QERs; UEs by their address (the word the programmes load),
    and the N3 address, element 0 of an array. *)
Record rules := {
  ru_session : Z -> option session_val;
  ru_pdr : Z -> option pdr_val;
  ru_bundle : Z -> option tc_bundle_slot;
  ru_far : Z -> option far_val;
  ru_qer : Z -> option qer_val;
  ru_ue : Z -> option dl_ue_val;
  ru_n3 : Z -> option bytes;
}.

(** An atomic write; [None] removes the rule. *)
Inductive write :=
| WSession (teid : Z) (v : option session_val)
| WPdr (pdr_id : Z) (v : option pdr_val)
| WBundle (pdr_id : Z) (v : option tc_bundle_slot)
| WFar (far_id : Z) (v : option far_val)
| WQer (qer_id : Z) (v : option qer_val)
| WUe (ue_ip : Z) (v : option dl_ue_val)
| WN3 (i : Z) (v : option bytes).

Definition commit (w : write) (a : rules) : rules :=
  match w with
  | WSession x v => {| ru_session := <[x := v]> (ru_session a); ru_pdr := ru_pdr a; ru_bundle := ru_bundle a;
                  ru_far := ru_far a; ru_qer := ru_qer a; ru_ue := ru_ue a; ru_n3 := ru_n3 a |}
  | WPdr x v => {| ru_session := ru_session a; ru_pdr := <[x := v]> (ru_pdr a); ru_bundle := ru_bundle a;
                  ru_far := ru_far a; ru_qer := ru_qer a; ru_ue := ru_ue a; ru_n3 := ru_n3 a |}
  | WBundle x v => {| ru_session := ru_session a; ru_pdr := ru_pdr a; ru_bundle := <[x := v]> (ru_bundle a);
                  ru_far := ru_far a; ru_qer := ru_qer a; ru_ue := ru_ue a; ru_n3 := ru_n3 a |}
  | WFar x v => {| ru_session := ru_session a; ru_pdr := ru_pdr a; ru_bundle := ru_bundle a;
                  ru_far := <[x := v]> (ru_far a); ru_qer := ru_qer a; ru_ue := ru_ue a; ru_n3 := ru_n3 a |}
  | WQer x v => {| ru_session := ru_session a; ru_pdr := ru_pdr a; ru_bundle := ru_bundle a;
                  ru_far := ru_far a; ru_qer := <[x := v]> (ru_qer a); ru_ue := ru_ue a; ru_n3 := ru_n3 a |}
  | WUe x v => {| ru_session := ru_session a; ru_pdr := ru_pdr a; ru_bundle := ru_bundle a; ru_far := ru_far a;
                  ru_qer := ru_qer a; ru_ue := <[x := v]> (ru_ue a); ru_n3 := ru_n3 a |}
  | WN3 x v => {| ru_session := ru_session a; ru_pdr := ru_pdr a; ru_bundle := ru_bundle a; ru_far := ru_far a;
                  ru_qer := ru_qer a; ru_ue := ru_ue a; ru_n3 := <[x := v]> (ru_n3 a) |}
  end.

Definition commits_all (ws : list write) (a : rules) : rules := foldl (fun a w => commit w a) a ws.

(** The operations of the agent. *)
Inductive op :=
| OpInstallFar (far_id action out_ifindex peer_ipv4_be out_teid_be : Z)
| OpInstallQer (qer_id mbr_ul_bps mbr_dl_bps burst_bytes : Z)
| OpInstallSession (teid pdr_id qer_id far_id precedence urr_id : Z)
| OpRemoveSession (teid pdr_id : Z)
| OpModify (pdr_id : Z) (far_id qer_id urr_id precedence : option Z)
| OpInstallDlUe (ue_ip_dotted : string) (teid : Z) (gnb_ip_dotted : string) (qfi : Z)
| OpInstallConfig (n3_addr_dotted : string)
| OpBootstrap (n out_ifindex : Z)
| OpGet (h : host) (clock : nat -> Z) (path : string).

Definition perform (o : op) : bpfM unit :=
  match o with
  | OpInstallFar i a x p t => install_far i a x p t
  | OpInstallQer i ul dl b => install_qer i ul dl b
  | OpInstallSession t p q f pr u => install_session t p q f pr u
  | OpRemoveSession t p => remove_session t p
  | OpModify p f q u pr => modify_tc_bundle p f q u pr ;; mret tt
  | OpInstallDlUe ue t gnb qfi => install_dl_ue ue t gnb qfi
  | OpInstallConfig n3 => install_upf_config n3
  | OpBootstrap n x => bootstrap_initial n x
  | OpGet h clock path => do_GET h clock path ;; mret tt
  end.

(** [install_session]: the session goes last; [remove_session]: it goes first. *)
Definition session_writes (teid pdr_id qer_id far_id precedence urr_id : Z) : list write :=
  [WPdr pdr_id (Some {| pdr_far_id := far_id; pdr_qer_id := qer_id; pdr_precedence := precedence; pdr_urr_id := urr_id |});
   WBundle pdr_id (Some {| slot_far_id := far_id; slot_qer_id := qer_id; slot_urr_id := urr_id;
                           slot_precedence := precedence; slot_generation := 0 |});
   WSession teid (Some {| sess_pdr_id := pdr_id; sess_qer_id := qer_id; sess_far_id := far_id |})].

Definition removal_writes (teid pdr_id : Z) : list write := [WSession teid None; WPdr pdr_id None; WBundle pdr_id None].

(** A batch numbered from two bases, with the defaults of [install_session]. *)
Definition batch_writes (base_teid base_pdr n : Z) : list write :=
  range n ≫= (fun i => session_writes (base_teid + i) (base_pdr + i) 1 1 100 1).

(** [/ruleupdate?n=m]: install and remove [m] sessions. *)
Definition get_writes (path : string) : list write :=
  if decide (path = "/metrics"%string) then []
  else if starts_with "/ruleupdate" path then
    match int10 (default "100"%string (query_first "n" (url_query path))) with
    | Ok n => batch_writes 0x10000 0x20000 n ++ (range n ≫= (fun i => removal_writes (0x10000 + i) (0x20000 + i)))
    | Exc _ => []
    end
  else [].

(** The writes of an operation that succeeds, on the table it starts from. *)
Definition plan (o : op) (a : rules) : list write :=
  match o with
  | OpInstallFar i act x p t =>
      [WFar i (Some {| far_action := act; far_out_ifindex := x; far_peer_ipv4_be := p; far_out_teid_be := t |})]
  | OpInstallQer i ul dl b => [WQer i (Some {| mbr_ul_bps := ul; mbr_dl_bps := dl; burst_bytes := b |})]
  | OpInstallSession t p q f pr u => session_writes t p q f pr u
  | OpRemoveSession t p => removal_writes t p
  | OpModify p f q u pr =>
      match ru_bundle a p with Some old => [WBundle p (Some (updated old f q u pr))] | None => [] end
  | OpInstallDlUe ue t gnb qfi =>
      match inet_aton ue, inet_aton gnb with
      | Ok ue_be, Ok gnb_be =>
          [WUe (le_combine ue_be) (Some {| ue_teid_be := be_split 4 t; ue_gnb_ipv4_be := gnb_be; ue_qfi := qfi |})]
      | _, _ => []
      end
  | OpInstallConfig n3 => match inet_aton n3 with Ok n3_be => [WN3 0 (Some n3_be)] | Exc _ => [] end
  | OpBootstrap n x =>
      WFar 1 (Some {| far_action := FAR_FORWARD; far_out_ifindex := x; far_peer_ipv4_be := 0; far_out_teid_be := 0 |}) ::
      WQer 1 (Some {| mbr_ul_bps := 0; mbr_dl_bps := 0; burst_bytes := 0 |}) :: batch_writes 0x1000 0x2000 n
  | OpGet _ _ path => get_writes path
  end.

(** A script: an operation that raises does not stop the next one.  The result
    says which ones returned. *)
Fixpoint script (ops : list op) : bpfM (list bool) :=
  match ops with
  | [] => mret []
  | o :: ops' =>
      r ← attempt (perform o);
      rs ← script ops';
      mret (match r with Some _ => true | None => false end :: rs)
  end.

(** The table after a script: an operation that returned made all of its
    writes, one that raised the first few. *)
Inductive runs : rules -> list op -> list bool -> rules -> Prop :=
| runs_nil a : runs a [] [] a
| runs_ok a o ops rs a' :
    runs (commits_all (plan o a) a) ops rs a' -> runs a (o :: ops) (true :: rs) a'
| runs_raised a o ops rs a' i :
    runs (commits_all (take i (plan o a)) a) ops rs a' -> runs a (o :: ops) (false :: rs) a'.

(** The same as a transition system: a table, the writes left of the operation
    under way, and the operations left.  An operation is abandoned when it
    raises; the next one is planned on the table it finds. *)
Record agenda := { ag_table : rules; ag_writes : list write; ag_ops : list op }.

Inductive agenda_step : agenda -> agenda -> Prop :=
| step_write a w ws ops :
    agenda_step {| ag_table := a; ag_writes := w :: ws; ag_ops := ops |}
      {| ag_table := commit w a; ag_writes := ws; ag_ops := ops |}
| step_next a ws o ops :
    agenda_step {| ag_table := a; ag_writes := ws; ag_ops := o :: ops |}
      {| ag_table := a; ag_writes := plan o a; ag_ops := ops |}.

(** Its steps one by one: taking up the next operation, which nobody sees, and
    a write. *)
Definition next_step (g g' : agenda) : Prop := exists o ops, ag_ops g = o :: ops /\
  g' = {| ag_table := ag_table g; ag_writes := plan o (ag_table g); ag_ops := ops |}.

Definition write_step (g g' : agenda) : Prop := exists w ws, ag_writes g = w :: ws /\
  g' = {| ag_table := commit w (ag_table g); ag_writes := ws; ag_ops := ag_ops g |}.

(** A system call makes one write at most. *)
Definition request_step (g g' : agenda) : Prop :=
  exists g1, rtc next_step g g1 /\ (g' = g1 \/ write_step g1 g').

Lemma agenda_step_inv g g' : agenda_step g g' <-> write_step g g' \/ next_step g g'.
Proof.
  split; [destruct 1; [left|right]; by eexists _, _|]. destruct g as [a ws ops].
  intros [(w & ws' & E & ->)|(o & ops' & E & ->)]; cbn in E; subst; constructor.
Qed.

Lemma request_refl g : request_step g g.
Proof. exists g. by split; [|left]. Qed.

Lemma request_silent g g1 g2 : rtc next_step g g1 -> request_step g1 g2 -> request_step g g2.
Proof. intros Hg (g3 & Hn & Hw). exists g3. by split; [etrans|]. Qed.

Lemma request_agenda g g' : request_step g g' -> rtc agenda_step g g'.
Proof.
  intros (g1 & Hn & Hw). etrans; [eapply rtc_subrel, Hn; intros ???; apply agenda_step_inv; by right|].
  destruct Hw as [->|Hw]; [done|]. apply rtc_once, agenda_step_inv. by left.
Qed.

Lemma any_agenda g g' : any_step next_step request_step g g' -> rtc agenda_step g g'.
Proof. intros [Hn|Hr]; [apply rtc_once, agenda_step_inv; by right|by apply request_agenda]. Qed.

Definition start (a : rules) (ops : list op) : agenda := {| ag_table := a; ag_writes := []; ag_ops := ops |}.

(** ** The maps and the table *)

Section refinement.
Context `{BpfKernelLaws K}.

(** The table the maps hold. *)
Definition view (k : K) : rules := {|
  ru_session t := read_session_val <$> contents k "teid_session" (le_split 4 t);
  ru_pdr p := read_pdr_val <$> contents k "pdr_table" (le_split 4 p);
  ru_bundle p := live p k;
  ru_far i := read_far_val <$> contents k "far_table" (le_split 4 i);
  ru_qer i := read_qer_val <$> contents k "qer_table" (le_split 4 i);
  ru_ue i := read_dl_ue_val <$> contents k "dl_ue_map" (le_split 4 i);
  ru_n3 i := slice 0 4 <$> contents k "upf_config_map" (le_split 4 i);
|}.

(** The maps hold [a]; a session may have been evicted. *)
Record models (a : rules) (k : K) : Prop := {
  mo_session : forall t, is_u32 t -> ru_session (view k) t = None \/ ru_session (view k) t = ru_session a t;
  mo_pdr : forall p, is_u32 p -> ru_pdr (view k) p = ru_pdr a p;
  mo_bundle : forall p, is_u32 p -> ru_bundle (view k) p = ru_bundle a p;
  mo_far : forall i, is_u32 i -> ru_far (view k) i = ru_far a i;
  mo_qer : forall i, is_u32 i -> ru_qer (view k) i = ru_qer a i;
  mo_ue : forall i, is_u32 i -> ru_ue (view k) i = ru_ue a i;
  mo_n3 : forall i, is_u32 i -> ru_n3 (view k) i = ru_n3 a i;
}.

Lemma models_view k : models (view k) k.
Proof. split; auto. Qed.

(** Equal contents up to evicted sessions: the same table. *)
Lemma models_kept a k k' : (forall n i, kept k k' n (le_split 4 i)) -> models a k -> models a k'.
Proof.
  intros Hk [M1 M2 M3 M4 M5 M6 M7].
  assert (Hs : forall n i, is_lru n = false -> contents k' n (le_split 4 i) = contents k n (le_split 4 i)).
  { intros n i Hl. destruct (Hk n i) as [?|[? _]]; [done|congruence]. }
  split; intros x Hx; cbn [view ru_session ru_pdr ru_bundle ru_far ru_qer ru_ue ru_n3] in *; unfold live in *;
    rewrite ?(Hs "pdr_table"%string), ?(Hs "tc_bundle_map"%string), ?(Hs "far_table"%string), ?(Hs "qer_table"%string),
      ?(Hs "dl_ue_map"%string), ?(Hs "upf_config_map"%string) by done;
    auto.
  destruct (Hk "teid_session"%string x) as [->|[_ ->]]; [by apply M1|by left].
Qed.

Lemma models_evicts a k k' : evicts k k' -> models a k -> models a k'.
Proof. intros []. apply models_kept. auto. Qed.

Lemma models_quiet a k k' : quiet k k' -> models a k -> models a k'.
Proof. intros (Hs & _). apply models_kept. intros n i. left. apply Hs. Qed.

(** The element a write is about. *)
Definition target (w : write) : string * Z :=
  match w with
  | WSession t _ => ("teid_session"%string, t)
  | WPdr p _ => ("pdr_table"%string, p)
  | WBundle p _ => ("tc_bundle_map"%string, p)
  | WFar i _ => ("far_table"%string, i)
  | WQer i _ => ("qer_table"%string, i)
  | WUe i _ => ("dl_ue_map"%string, i)
  | WN3 i _ => ("upf_config_map"%string, i)
  end.

(** The maps agree with a write on its element. *)
Definition agrees (w : write) (k : K) : Prop :=
  match w with
  | WSession t v => ru_session (view k) t = v
  | WPdr p v => ru_pdr (view k) p = v
  | WBundle p v => ru_bundle (view k) p = v
  | WFar i v => ru_far (view k) i = v
  | WQer i v => ru_qer (view k) i = v
  | WUe i v => ru_ue (view k) i = v
  | WN3 i v => ru_n3 (view k) i = v
  end.

(** One element of a map, replaced or removed: one write to the table. *)
Lemma models_commit w a k k' :
  is_u32 (target w).2 -> frame (target w).1 (Some (le_split 4 (target w).2)) k k' -> agrees w k' ->
  models a k -> models (commit w a) k'.
Proof.
  intros Hw Hf Ha [M1 M2 M3 M4 M5 M6 M7].
  assert (Hk : forall n i, is_u32 i -> (n, i) <> target w -> kept k k' n (le_split 4 i)).
  { intros n i Hi Hne. eapply frame_kept; [exact Hf|]. intros [-> Ei]%pair_eq. apply Hne.
    rewrite (le_split_u32_inj i (target w).2 Hi Hw Ei). by destruct (target w). }
  assert (Hs : forall n i, is_u32 i -> (n, i) <> target w -> is_lru n = false ->
    contents k' n (le_split 4 i) = contents k n (le_split 4 i)).
  { intros n i Hi Hne Hl. destruct (Hk n i Hi Hne) as [?|[? _]]; [done|congruence]. }
  assert (Hsess : forall t, is_u32 t -> ("teid_session"%string, t) <> target w ->
    ru_session (view k') t = None \/ ru_session (view k') t = ru_session a t).
  { intros t Ht Hne. cbn [view ru_session].
    destruct (Hk "teid_session"%string t Ht Hne) as [->|[_ ->]]; [by apply M1|by left]. }
  assert (Hpdr : forall p, is_u32 p -> ("pdr_table"%string, p) <> target w -> ru_pdr (view k') p = ru_pdr a p).
  { intros p Hp Hne. cbn [view ru_pdr]. rewrite (Hs _ _ Hp Hne eq_refl). by apply M2. }
  assert (Hbun : forall p, is_u32 p -> ("tc_bundle_map"%string, p) <> target w -> ru_bundle (view k') p = ru_bundle a p).
  { intros p Hp Hne. cbn [view ru_bundle]. unfold live. rewrite (Hs _ _ Hp Hne eq_refl). by apply M3. }
  assert (Hfar : forall i, is_u32 i -> ("far_table"%string, i) <> target w -> ru_far (view k') i = ru_far a i).
  { intros i Hi Hne. cbn [view ru_far]. rewrite (Hs _ _ Hi Hne eq_refl). by apply M4. }
  assert (Hqer : forall i, is_u32 i -> ("qer_table"%string, i) <> target w -> ru_qer (view k') i = ru_qer a i).
  { intros i Hi Hne. cbn [view ru_qer]. rewrite (Hs _ _ Hi Hne eq_refl). by apply M5. }
  assert (Hue : forall i, is_u32 i -> ("dl_ue_map"%string, i) <> target w -> ru_ue (view k') i = ru_ue a i).
  { intros i Hi Hne. cbn [view ru_ue]. rewrite (Hs _ _ Hi Hne eq_refl). by apply M6. }
  assert (Hn3 : forall i, is_u32 i -> ("upf_config_map"%string, i) <> target w -> ru_n3 (view k') i = ru_n3 a i).
  { intros i Hi Hne. cbn [view ru_n3]. rewrite (Hs _ _ Hi Hne eq_refl). by apply M7. }
  clear Hf Hk Hs M1 M2 M3 M4 M5 M6 M7.
  destruct w as [y v|y v|y v|y v|y v|y v|y v]; cbn [target agrees commit fst snd] in *;
    split; cbn [ru_session ru_pdr ru_bundle ru_far ru_qer ru_ue ru_n3]; intros x Hx; auto;
    (destruct (decide (x = y)) as [->|Hxy];
      [rewrite fn_lookup_insert; auto|rewrite fn_lookup_insert_ne by congruence; auto with congruence]).
  all: match goal with Ht : forall _, _ -> _ <> _ -> _ |- _ => apply Ht; [done|congruence] end.
Qed.
(** ** Operations that follow a plan *)

Lemma commits_all_app ws1 ws2 a : commits_all (ws1 ++ ws2) a = commits_all ws2 (commits_all ws1 a).
Proof. apply foldl_app. Qed.

(** The state an operation starts from. *)
Record ready (s : fd_cache) (k : K) : Prop := {
  rd_open : rules_cached s;
  rd_cache : cache_ok s k;
  rd_kernel : kernel_ok k;
}.

Lemma rules_cached_sub (s s' : fd_cache) : s ⊆ s' -> rules_cached s -> rules_cached s'.
Proof. intros Hsub Hc name Hn. destruct (Hc name Hn) as [f E]. exists f. by eapply lookup_weaken. Qed.

Lemma ready_evicts s k k' : evicts k k' -> ready s k -> ready s k'.
Proof.
  intros He [Ho Hs Hk]. split; [done|..|by eapply sr_ok; [apply evicts_stable|..]].
  eapply cache_ok_kept; [exact Hs|]. by eapply sr_fds; [apply evicts_stable|].
Qed.

(** The maps hold the table of an agenda. *)
Definition holds (g : agenda) (k : K) : Prop := models (ag_table g) k.

Lemma holds_evicts g k k' : evicts k k' -> holds g k -> holds g k'.
Proof. apply models_evicts. Qed.

(** What is proved of an operation with writes [ws] on the table [a]: it
    carries out the agenda that starts with them, and has done all of them when
    it returns, some when it raises. *)
Definition follows {A} (m : bpfM A) (ws : list write) (a : rules) : Prop :=
  forall s k rest ops, ready s k -> models a k ->
  psim sys_bpf next_step request_step holds evicts m s (fun r s' g k' => ready s' k' /\
    match r with
    | Ok _ => g = {| ag_table := commits_all ws a; ag_writes := rest; ag_ops := ops |}
    | Exc _ => exists i, (i <= length ws)%nat /\
        g = {| ag_table := commits_all (take i ws) a; ag_writes := drop i ws ++ rest; ag_ops := ops |}
    end) {| ag_table := a; ag_writes := ws ++ rest; ag_ops := ops |} k.

Lemma follows_lift {A} (r : res A) a : follows (lift r) [] a.
Proof.
  intros s k rest ops Hr Ha. apply psim_lift; [exact Ha|]. split; [done|]. destruct r; [done|]. by exists 0%nat.
Qed.

Lemma follows_ret {A} (x : A) a : follows (mret x) [] a.
Proof. apply (follows_lift (Ok x)). Qed.

(** Plans compose as the code does. *)
Lemma follows_bind {A B} (m : bpfM A) (f : A -> bpfM B) ws1 ws2 a :
  follows m ws1 a -> (forall x, follows (f x) ws2 (commits_all ws1 a)) -> follows (m ≫= f) (ws1 ++ ws2) a.
Proof.
  intros Hm Hf s k rest ops Hr Ha. apply psim_bind; [exact request_silent|]. rewrite <-app_assoc. eapply psim_mono; [by apply Hm|].
  intros [x|e] s1 g1 k1 _ [Hr1 Hg].
  - subst g1. intros Ha1. eapply psim_mono; [by apply Hf|]. intros r s2 g2 k2 _ [Hr2 Hg]. split; [done|].
    rewrite commits_all_app. destruct r as [y|e]; [done|]. destruct Hg as (i & Hi & ->).
    exists (length ws1 + i)%nat. rewrite length_app, take_app_add, drop_app_add, commits_all_app. split; [lia|done].
  - split; [done|]. destruct Hg as (i & Hi & ->). exists i. rewrite length_app, take_app_le, drop_app_le by done.
    rewrite <-app_assoc. split; [lia|done].
Qed.

(** A bind whose plan is known only if the first part returns. *)
Lemma follows_lift_bind {A B} (r : res A) (f : A -> bpfM B) ws a :
  (forall x, r = Ok x -> follows (f x) ws a) -> follows (x ← lift r; f x) ws a.
Proof.
  intros Hf s k rest ops Hr Ha. apply psim_bind; [exact request_silent|]. apply psim_lift; [exact Ha|].
  destruct r as [x|e]; [intros _; by apply Hf|]. split; [done|]. exists 0%nat. split; [lia|done].
Qed.

Lemma follows_for_each {X} (l : list X) (f : X -> bpfM unit) (ws : X -> list write) a :
  (forall x a, x ∈ l -> follows (f x) (ws x) a) -> follows (for_each l f) (l ≫= ws) a.
Proof.
  revert a. induction l as [|x l IH]; intros a Hf; [apply follows_ret|]. cbn [for_each mbind list_bind].
  apply follows_bind; [apply Hf; by left|]. intros _. apply IH. intros y b Hy. apply Hf. by right.
Qed.

(** The steps of an operation that makes one write. *)
Definition once (w : write) (a : rules) (k1 k2 : K) : Prop :=
  (models a k1 -> models a k2 \/ models (commit w a) k2) /\ (models (commit w a) k1 -> models (commit w a) k2).

Lemma quiet_once w a k1 k2 : quiet k1 k2 -> once w a k1 k2.
Proof. intros Hq. split; [left|]; by eapply models_quiet. Qed.

(** A computation that does not succeed without a system call. *)
Definition asks {A} (m : bpfM A) : Prop := forall s, match m s with Ret (_, Ok _) => False | _ => True end.

Lemma asks_bind {A B} (m : bpfM A) (f : A -> bpfM B) : asks m -> asks (m ≫= f).
Proof. intros Hm s. specialize (Hm s). unfold mbind, py_bind. by destruct (m s) as [[s' [x|e]]|e c]. Qed.

Lemma asks_lift_bind {A B} (r : res A) (f : A -> bpfM B) : (forall x, asks (f x)) -> asks (x ← lift r; f x).
Proof. intros Hf s. destruct r as [x|e]; [apply Hf|done]. Qed.

(** One that starts with a system call. *)
Definition calls {A} (m : bpfM A) : Prop := forall s, match m s with Ret _ => False | Call _ _ => True end.

Lemma asks_calls {A} (m : bpfM A) : calls m -> asks m.
Proof. intros Hm s. specialize (Hm s). by destruct (m s). Qed.

Lemma calls_bpf {A} cmd attr size (f : sysret -> bpfM A) : calls (r ← _bpf cmd attr size; f r).
Proof. by intros s. Qed.

Lemma calls_fd {A} name (f : Z -> bpfM A) : (forall fd, calls (f fd)) -> calls (fd ← PinnedMapCache.fd PIN_BASE name; f fd).
Proof.
  intros Hf s. unfold PinnedMapCache.fd, mbind, py_bind. cbn [prog_bind get_state].
  destruct (s !! name) as [fd|]; [apply Hf|done].
Qed.

Lemma calls_try {A} (m h : bpfM A) : calls m -> calls (try_oserror m h).
Proof. intros Hm s. specialize (Hm s). unfold try_oserror. by destruct (m s). Qed.

Lemma calls_update name key val : calls (map_update name key val).
Proof. apply calls_fd. intros fd. apply calls_bpf. Qed.

Lemma calls_delete name key : calls (map_delete name key).
Proof. apply calls_try, calls_fd. intros fd. apply calls_bpf. Qed.

Lemma calls_lookup name key n : calls (PinnedMapCache.lookup PIN_BASE name key n).
Proof. apply calls_fd. intros fd. apply calls_bpf. Qed.

Lemma follows_once {A} (m : bpfM A) w a :
  asks m ->
  (forall s k, ready s k -> models a k ->
   pwp sys_bpf evicts (once w a) m s (fun r s' k' => ready s' k' /\
     match r with Ok _ => models a k' -> models (commit w a) k' | Exc _ => True end) k) ->
  follows m [w] a.
Proof.
  intros Hask Hm s k rest ops Hr Ha. pose proof (Hm s k Hr Ha) as Hwp.
  apply (sim_once sys_bpf _ _ _ _ request_refl (once w a) _ (fun '(s', r) k' => ready s' k' /\
     match r with Ok _ => models a k' -> models (commit w a) k' | Exc _ => True end) _ _
    {| ag_table := commit w a; ag_writes := rest; ag_ops := ops |}); [| | | |done| |exact Hwp|done].
  - eexists. split; [reflexivity|]. right. by eexists _, _.
  - specialize (Hask s). unfold pwp in Hwp. destruct (m s) as [[s' [x|e]]|e c]; [done| |done]. cbn in Hwp.
    split; [apply Hwp|]. exists 0%nat. split; [lia|done].
  - intros ??; apply holds_evicts.
  - intros ??; apply holds_evicts.
  - intros [s' r] k' [Hr' H']. split; intros Hk; destruct r as [x|e].
    + right. split; [by apply H'|done].
    + left. split; [done|]. exists 0%nat. split; [lia|done].
    + done.
    + split; [done|]. exists 1%nat. split; [done|done].
Qed.

(** ** The writes of the agent *)

(** Maps with the keys of identifiers. *)
Definition rule_map (name : string) (d : map_def) : Prop :=
  map_def_of name = Some d /\ is_plain d = true /\ md_ksize d = 4%nat.

Lemma follows_store w name x d val a :
  target w = (name, x) -> rule_map name d -> length val = md_vsize d -> is_u32 x ->
  (forall k, contents k name (le_split 4 x) = Some val -> agrees w k) ->
  follows (map_update name (le_split 4 x) val) [w] a.
Proof.
  intros Et (Hd & Hp & Hks) Hv Hw Ha. apply follows_once; [apply asks_calls, calls_update|]. intros s k [Ho Hs Hk] Hm.
  eapply pwp_mono; [eapply (pwp_store evicts _ evicts_stable (quiet_once w a) (models a) (models (commit w a)));
    [intros ??; apply models_evicts|done|done|rewrite length_le_split; congruence|done..|]|done|].
  - intros k1 k2 Hm1 Hst. assert (Hm2 : models (commit w a) k2).
    { destruct Hst as (Hc & Hf & _). eapply models_commit; rewrite ?Et; eauto. }
    split; [|done]. split; auto.
  - intros r s1 k1 (Hs1 & Hk1 & Hsub & Hr). split; [split; [by eapply rules_cached_sub|done|done]|].
    destruct r as [[]|[]]; try done. by destruct Hr.
Qed.

Lemma follows_erase w name x d a :
  target w = (name, x) -> rule_map name d -> md_type d <> MT_ARRAY -> is_u32 x ->
  name ∈ ["teid_session"; "pdr_table"; "tc_bundle_map"]%string ->
  (forall k, contents k name (le_split 4 x) = None -> agrees w k) ->
  follows (map_delete name (le_split 4 x)) [w] a.
Proof.
  intros Et (Hd & Hp & Hks) Ht Hw Hin Ha. apply follows_once; [apply asks_calls, calls_delete|]. intros s k [Ho Hs Hk] Hm.
  eapply pwp_mono; [eapply (pwp_erase evicts _ evicts_stable (quiet_once w a) (models a) (models (commit w a)));
    [intros ??; apply models_evicts|done|done|done|rewrite length_le_split; congruence|done..| |]|done|].
  - intros k1 k2 Hm1 Hst. assert (Hm2 : models (commit w a) k2).
    { destruct Hst as (Hc & Hf & _). eapply models_commit; rewrite ?Et; eauto. }
    split; [|done]. split; auto.
  - intros k1 Hm1 Hn. eapply models_commit; [by rewrite Et|rewrite Et|by apply Ha|exact Hm1]. by left.
  - intros r s1 k1 (Hs1 & Hk1 & Hsub & -> & Hr). split; [split; [by eapply rules_cached_sub|done|done]|].
    destruct Hr as [Hr|[Hn _]]; [done|]. destruct (Ho _ Hin). congruence.
Qed.

Lemma follows_install_far i act x p t a : follows (install_far i act x p t) (plan (OpInstallFar i act x p t) a) a.
Proof.
  unfold install_far. apply follows_lift_bind. intros key [Hi ->]%enc_u32_inv. apply follows_lift_bind.
  intros v Hv. destruct (enc_far_layout _ _ _ _ _ Hv) as [R L].
  eapply (follows_store (WFar i _)); [done|by repeat split|done|done|]. intros k Hc. cbn. by rewrite Hc, <-R.
Qed.

Lemma follows_install_qer i ul dl b a : follows (install_qer i ul dl b) (plan (OpInstallQer i ul dl b) a) a.
Proof.
  unfold install_qer. apply follows_lift_bind. intros key [Hi ->]%enc_u32_inv. apply follows_lift_bind.
  intros v Hv. destruct (enc_qer_layout _ _ _ _ Hv) as [R L].
  eapply (follows_store (WQer i _)); [done|by repeat split|done|done|]. intros k Hc. cbn. by rewrite Hc, <-R.
Qed.

Lemma follows_install_session teid pdr_id qer_id far_id precedence urr_id a :
  follows (install_session teid pdr_id qer_id far_id precedence urr_id)
    (session_writes teid pdr_id qer_id far_id precedence urr_id) a.
Proof.
  unfold install_session, install_tc_bundle, session_writes.
  apply follows_lift_bind. intros key [Hp ->]%enc_u32_inv. apply follows_lift_bind.
  intros pv Hpv. destruct (enc_pdr_layout _ _ _ _ _ Hpv) as [Rp Lp].
  apply (follows_bind _ _ [_] [_; _]).
  { eapply (follows_store (WPdr pdr_id _)); [done|by repeat split|done|done|]. intros k Hc. cbn. by rewrite Hc, <-Rp. }
  intros _. apply (follows_bind _ _ [_] [_]).
  - apply follows_lift_bind. intros sl Hsl. apply follows_lift_bind. intros key' [_ ->]%enc_u32_inv.
    apply follows_lift_bind. intros bv Hbv. set (slot := Build_tc_bundle_slot far_id qer_id urr_id precedence 0).
    destruct (enc_bundle_layout 0 slot slot _ _ _ Hsl Hsl Hbv) as [Rb Lb].
    eapply (follows_store (WBundle pdr_id _)); [done|by repeat split|done|done|].
    intros k Hc. cbn [agrees view ru_bundle target fst snd] in *. unfold live. by rewrite Hc; cbn; rewrite Rb.
  - intros _. apply follows_lift_bind. intros tk [Ht ->]%enc_u32_inv. apply follows_lift_bind.
    intros sv Hsv. destruct (enc_session_layout _ _ _ _ Hsv) as [Rs Ls].
    eapply (follows_store (WSession teid _)); [done|by repeat split|done|done|]. intros k Hc. cbn. by rewrite Hc, <-Rs.
Qed.

Lemma follows_remove_session teid pdr_id a : follows (remove_session teid pdr_id) (removal_writes teid pdr_id) a.
Proof.
  unfold remove_session, removal_writes.
  apply follows_lift_bind. intros tk [Ht ->]%enc_u32_inv. apply (follows_bind _ _ [_] [_; _]).
  { eapply (follows_erase (WSession teid None)); [done|by repeat split|done|done|set_solver|].
    intros k Hc. cbn. by rewrite Hc. }
  intros _. apply follows_lift_bind. intros pk [Hp ->]%enc_u32_inv. apply (follows_bind _ _ [_] [_]).
  { eapply (follows_erase (WPdr pdr_id None)); [done|by repeat split|done|done|set_solver|].
    intros k Hc. cbn. by rewrite Hc. }
  intros _. apply follows_lift_bind. intros pk' [_ ->]%enc_u32_inv.
  eapply (follows_erase (WBundle pdr_id None)); [done|by repeat split|done|done|set_solver|].
  intros k Hc. cbn [agrees view ru_bundle target fst snd] in *. unfold live. by rewrite Hc.
Qed.
(** *** modify_tc_bundle *)

(** Writing what is there changes nothing. *)
Lemma models_same_bundle p v a k : ru_bundle a p = v -> models (commit (WBundle p v) a) k -> models a k.
Proof.
  intros Hv [M1 M2 M3 M4 M5 M6 M7]. split; try done. intros x Hx. rewrite (M3 x Hx). cbn.
  destruct (decide (x = p)) as [->|Hne]; [by rewrite fn_lookup_insert|by rewrite fn_lookup_insert_ne].
Qed.

Lemma commits_once p old new a k1 k2 :
  is_u32 p -> ru_bundle a p = Some old -> commits p old new k1 k2 -> once (WBundle p (Some new)) a k1 k2.
Proof.
  intros Hp Ha (Hoth & Ho & Hn).
  assert (Hc : forall b, models b k1 -> models (commit (WBundle p (live p k2)) b) k2).
  { intros b Hb. eapply models_commit; [done| |done|exact Hb].
    intros n j Hne. left. apply Hoth. cbn in Hne. congruence. }
  split; intros Hm; pose proof (Hc _ Hm) as H2; pose proof (mo_bundle _ _ Hm p Hp) as Hl;
    cbn [view ru_bundle commit] in Hl.
  - rewrite Ha in Hl. destruct (Ho Hl) as [E|E]; rewrite E in H2; [left|by right]. by eapply models_same_bundle.
  - rewrite fn_lookup_insert in Hl. rewrite (Hn Hl) in H2. eapply models_same_bundle; [|exact H2].
    apply fn_lookup_insert.
Qed.

Lemma evicts_others p (k k' : K) : evicts k k' -> others p k k'.
Proof. intros He. pose proof He as []. split_and!; [done|done|by apply (evicts_has _ _ "tc_bundle_map")]. Qed.

Lemma follows_modify p f q u pr a : follows (modify_tc_bundle p f q u pr) (plan (OpModify p f q u pr) a) a.
Proof.
  cbn [plan]. destruct (decide (is_u32 p)) as [Hp|Hp].
  2:{ unfold modify_tc_bundle. rewrite enc_u32_exc by done. by apply follows_lift_bind. }
  destruct (ru_bundle a p) as [old|] eqn:Ha.
  - apply follows_once; [apply asks_lift_bind; intros ?; apply asks_bind, asks_calls, calls_lookup|].
    intros s k [Ho Hs Hk] Hm. pose proof (mo_bundle _ _ Hm p Hp) as Hl.
    cbn [view ru_bundle] in Hl. rewrite Ha in Hl.
    pose proof (pwp_modify_tc_bundle p Hp old f q u pr s k Hs Hk Hl) as Hwp.
    apply (wp_rely _ _ evicts) in Hwp; [|intros ??; apply evicts_others]. eapply wp_mono; [| |exact Hwp].
    + intros k1 k2. by apply commits_once.
    + intros [s' r] k' (Hs' & Hk' & Hsub & Hr). split; [split; [by eapply rules_cached_sub|done|done]|].
      destruct r as [gen|e]; [|done]. destruct Hr as (Hl' & _ & _). intros Hu.
      pose proof (mo_bundle _ _ Hu p Hp) as E. cbn [view ru_bundle] in E.
      rewrite Hl', Ha in E. apply (inj Some), (f_equal slot_generation) in E. cbn in E. lia.
  - intros s k rest ops Hr Hm.
    apply (sim_still sys_bpf _ _ _ _ request_refl (fun k1 k2 => models a k1 -> models a k2) _
      (fun '(s', r) k' => ready s' k' /\ exists e, r = Exc e)); [intros ??; apply holds_evicts|done| | |done].
    { intros [s' r] k' [Hr' [e ->]] _. split; [done|]. by exists 0%nat. }
    destruct Hr as [Ho Hs Hk]. unfold modify_tc_bundle. apply pwp_bind, pwp_lift. rewrite enc_u32_ok by done. apply pwp_bind.
    eapply pwp_lookup with (d := bundle_def);
      [apply evicts_stable|intros ??; apply models_quiet|done|reflexivity|reflexivity|apply length_le_split|done..| |].
    + intros s' k1 e _ Hs1 Hk1 Hsub _. split; [split; [by eapply rules_cached_sub|done|done]|by eexists].
    + intros s' k1 v Hrel _ _ _ Hv. pose proof (mo_bundle _ _ (models_evicts _ _ _ Hrel Hm) p Hp) as E.
      cbn [view ru_bundle] in E. unfold live in E. by rewrite Hv, Ha in E.
Qed.


(** *** The other operations *)

Lemma follows_install_dl_ue ue teid gnb qfi a :
  follows (install_dl_ue ue teid gnb qfi) (plan (OpInstallDlUe ue teid gnb qfi) a) a.
Proof.
  unfold install_dl_ue. apply follows_lift_bind. intros key Hk. apply follows_lift_bind. intros tb [Ht ->]%pack_teid.
  apply follows_lift_bind. intros gb Hg. apply follows_lift_bind. intros tl Htl. cbn [plan].
  unfold ip_to_be32_bytes in *. rewrite Hk, Hg. pose proof (inet_aton_length _ _ Hk) as Lk. pose proof (inet_aton_length _ _ Hg) as Lg.
  pose proof (read_dl_ue_packed teid gb qfi tl Lg Htl) as R. apply pack_length in Htl.
  rewrite <-(split_le_combine' key 4 Lk) at 1.
  eapply (follows_store (WUe (le_combine key) _)); [done|by repeat split| | |].
  - rewrite !length_app, length_be_split, Lg, Htl. done.
  - pose proof (le_combine_range key) as Hr. by rewrite Lk in Hr.
  - intros k Hc. cbn. by rewrite Hc, <-R.
Qed.

Lemma follows_install_config n3 a : follows (install_upf_config n3) (plan (OpInstallConfig n3) a) a.
Proof.
  unfold install_upf_config. apply follows_lift_bind. intros key [_ ->]%enc_u32_inv. apply follows_lift_bind.
  unfold ip_to_be32_bytes. cbn [plan]. intros v Hv. rewrite Hv. pose proof (inet_aton_length _ _ Hv) as Lv.
  eapply (follows_store (WN3 0 _)); [done|by repeat split|done|done|].
  intros k Hc. cbn. rewrite Hc. cbn. f_equal. pose proof (slice_all v) as Hs. by rewrite Lv in Hs.
Qed.

Lemma follows_batch base_teid base_pdr n a :
  follows (for_each (range n) (fun i => install_session_default (base_teid + i) (base_pdr + i)))
    (batch_writes base_teid base_pdr n) a.
Proof. apply (follows_for_each _ _ _ a). intros i b _. apply follows_install_session. Qed.

Lemma follows_bootstrap n x a : follows (bootstrap_initial n x) (plan (OpBootstrap n x) a) a.
Proof.
  unfold bootstrap_initial. apply (follows_bind _ _ [_] (_ :: _)); [apply follows_install_far|].
  intros _. apply (follows_bind _ _ [_]); [apply follows_install_qer|]. intros _. apply follows_batch.
Qed.

Lemma follows_measure clock n a :
  follows (measure_rule_update clock n)
    (batch_writes 0x10000 0x20000 n ++ (range n ≫= (fun i => removal_writes (0x10000 + i) (0x20000 + i)))) a.
Proof.
  unfold measure_rule_update. apply follows_bind; [apply follows_batch|]. intros _.
  rewrite <-(app_nil_r (range n ≫= _)). apply follows_bind; [|intros _; apply follows_ret].
  apply (follows_for_each _ _ _ _). intros i b _. apply follows_remove_session.
Qed.

Lemma follows_get h clock path a : follows (do_GET h clock path) (get_writes path) a.
Proof.
  unfold do_GET, get_writes. destruct (decide (path = "/metrics"%string)).
  { apply follows_lift_bind. intros m _. apply follows_ret. }
  destruct (starts_with "/ruleupdate" path); [|destruct (decide _); apply follows_ret].
  apply follows_lift_bind. intros m ->.
  rewrite <-(app_nil_r (batch_writes _ _ _ ++ _)). apply follows_bind; [apply follows_measure|].
  intros [total per_us]. apply follows_lift_bind. intros body _. apply follows_ret.
Qed.

Lemma follows_perform o a : follows (perform o) (plan o a) a.
Proof.
  destruct o; cbn [perform].
  - apply follows_install_far.
  - apply follows_install_qer.
  - apply follows_install_session.
  - apply follows_remove_session.
  - rewrite <-(app_nil_r (plan _ a)). apply follows_bind; [apply follows_modify|intros _; apply follows_ret].
  - apply follows_install_dl_ue.
  - apply follows_install_config.
  - apply follows_bootstrap.
  - rewrite <-(app_nil_r (plan _ a)). apply follows_bind; [apply follows_get|intros _; apply follows_ret].
Qed.

(** ** Scripts *)

Lemma sim_script ops a ws s k :
  ready s k -> models a k ->
  psim sys_bpf next_step request_step holds evicts (script ops) s
    (fun r s' g k' => ready s' k' /\ exists rs, r = Ok rs /\ runs a ops rs (ag_table g) /\ ag_ops g = [])
    {| ag_table := a; ag_writes := ws; ag_ops := ops |} k.
Proof.
  revert a ws s k. induction ops as [|o ops IH]; intros a ws s k Hr Hm.
  { apply psim_lift; [exact Hm|]. split; [done|]. exists []. split; [done|]. by split; [constructor|]. }
  cbn [script]. apply (sim_steps sys_bpf _ _ _ _ request_silent _ _ _ {| ag_table := a; ag_writes := plan o a; ag_ops := ops |});
    [apply rtc_once; by eexists _, _|].
  apply psim_bind; [exact request_silent|]. apply psim_attempt; [exact request_silent|].
  rewrite <-(app_nil_r (plan o a)). eapply psim_mono; [by apply follows_perform|].
  assert (Hnext : forall i (ok : bool) ws1 s1 k1, (ok = true -> take i (plan o a) = plan o a) ->
    ready s1 k1 -> models (commits_all (take i (plan o a)) a) k1 ->
    psim sys_bpf next_step request_step holds evicts (rs ← script ops; mret (ok :: rs)) s1
      (fun r s' g k' => ready s' k' /\ exists rs, r = Ok rs /\ runs a (o :: ops) rs (ag_table g) /\ ag_ops g = [])
      {| ag_table := commits_all (take i (plan o a)) a; ag_writes := ws1; ag_ops := ops |} k1).
  { intros i ok ws1 s1 k1 Hi Hr1 Hm1. apply psim_bind; [exact request_silent|]. eapply psim_mono; [by apply IH|].
    intros r s2 g k2 _ (Hr2 & rs & -> & Hrun & Hops) Hg. apply psim_lift; [done|]. split; [done|].
    exists (ok :: rs). split; [done|]. split; [|done]. destruct ok; [|by eapply runs_raised].
    apply runs_ok. by rewrite Hi in Hrun. }
  intros [[]|e] s1 g1 k1 Hg [Hr1 H1].
  - subst g1. intros _. cbn [holds ag_table] in Hg.
    pose proof (Hnext (length (plan o a)) true [] s1 k1) as Hn. rewrite firstn_all in Hn. by apply Hn.
  - destruct H1 as (i & _ & ->). intros _. by apply (Hnext i false).
Qed.

(** Who looks on while a script runs sees the tables of its agendas, in
    order. *)
Lemma script_looks ops s k p k' :
  rules_cached s -> cache_ok s k -> kernel_ok k ->
  rtc (look sys_bpf evicts) (script ops s, k) (p, k') ->
  exists g, rtc agenda_step (start (view k) ops) g /\ holds g k' /\
    sim sys_bpf next_step request_step holds evicts p
      (fun '(s', r) g k' => ready s' k' /\ exists rs, r = Ok rs /\ runs (view k) ops rs (ag_table g) /\ ag_ops g = []) g k'.
Proof.
  intros Ho Hs Hk Hx.
  destruct (sim_look sys_bpf next_step request_step holds evicts (sr_trans _ evicts_stable) holds_evicts (script ops s)
    (fun '(s', r) g k' => ready s' k' /\ exists rs, r = Ok rs /\ runs (view k) ops rs (ag_table g) /\ ag_ops g = [])
    (start (view k) ops) k p k') as (g & Hg & Hk' & Hp); [|exact Hx|apply models_view| |].
  - intros [s' r] g k1 k2 He [Hr HQ]. split; [by eapply ready_evicts|done].
  - apply (sim_script ops (view k) [] s k); [by split|apply models_view].
  - exists g. split; [|by split]. clear -Hg. induction Hg as [|g1 g2 g3 H1 _ IH]; [done|]. etrans; [by apply any_agenda|exact IH].
Qed.

(** The tables a script goes through. *)
Lemma script_refines ops s k p k' :
  rules_cached s -> cache_ok s k -> kernel_ok k ->
  exec sys_bpf evicts (script ops s, k) (p, k') ->
  (exists g, rtc agenda_step (start (view k) ops) g /\ models (ag_table g) k') /\
  (forall s' r, p = Ret (s', r) -> exists rs a, r = Ok rs /\ runs (view k) ops rs a /\ models a k').
Proof.
  intros Ho Hs Hk Hx%exec_look. destruct (script_looks _ _ _ _ _ Ho Hs Hk Hx) as (g & Hg & Hh & Hp).
  split; [by exists g|]. intros s' r ->. destruct Hp as (g' & _ & Hh' & _ & rs & -> & Hruns & _).
  by exists rs, (ag_table g').
Qed.

(** C3: the agent implements the table of rules.  Take any script of the
    agent's operations (rules, sessions, modifications, start-up, HTTP
    requests), the maps open, and the table the maps hold.  At every point of
    every interleaving with session evictions the maps hold the table of an
    agenda reached from the script: the writes of the plans of its operations,
    in order, an operation abandoned only when it raises; and when the script
    ends it has returned the outcome of each operation, those that returned
    having made all their writes. *)
Theorem agent_refines ops s k p k' :
  rules_cached s -> cache_ok s k -> kernel_ok k ->
  exec sys_bpf evicts (script ops s, k) (p, k') ->
  (exists g, rtc agenda_step (start (view k) ops) g /\ models (ag_table g) k') /\
  (forall s' r, p = Ret (s', r) -> exists rs a, r = Ok rs /\ runs (view k) ops rs a /\ models a k').
Proof. apply script_refines. Qed.
End refinement.

(** ** Runs on the reference kernel *)

(** A modification, a session whose TEID does not fit (the PDR and the tuple
    are written, then it raises), a benchmark, a removal. *)
Definition demo_ops : list op :=
  [OpModify 0x2000 (Some 3) None None None; OpInstallSession (2 ^ 32) 0x2001 1 1 100 1;
   OpGet (demo_host [] []) (fun i => 10 * Z.of_nat i) "/ruleupdate?n=1"; OpRemoveSession 0x1000 0x2000].

Lemma agent_refines_witness :
  let x := run ref_sys (script demo_ops demo_session.2.1) demo_session.1 in
  exists a, runs (view demo_session.1) demo_ops [true; false; true; true] a /\ models a x.1.
Proof.
  intros x. assert (Hr : x.2.2 = Ok [true; false; true; true]) by (vm_compute; reflexivity).
  pose proof (run_exec_rely ref_sys evicts (script demo_ops demo_session.2.1) demo_session.1 evicts_refl) as Hx.
  fold x in Hx. clearbody x. destruct x as [k' [s' r]]. cbn [fst snd] in *.
  destruct (agent_refines demo_ops demo_session.2.1 demo_session.1 _ k' demo_session_cached demo_session_cache
    demo_session_ok Hx) as [_ H]. destruct (H s' r eq_refl) as (rs & a & E & Hruns & Hm).
  exists a. rewrite Hr in E. apply Ok_inj in E. subst rs. by split.
Defined.
