(* ===== verification/Fate.v ===== *)
(** * What the table of rules means for a packet

    An uplink G-PDU has a [fate] and a downlink packet a [dl_fate] that only
    the table of Rules.v decides; when the maps hold the table, the programmes
    of upf_xdp.c, upf_tc.c and upf_tc_egress.c treat the packet that way.  If
    the agent writes while a packet is under way, each lookup reads a table of
    its own, and they make up a [race_fate]. *)

From S2P Require Import Prelude Prog Sim PyStruct PyText UpfMaps Kernel BpfSyscall Encoders Agent Qer Datapath Egress Bundle Sessions Bootstrap Metrics Http Rules.

Open Scope Z_scope.

(** ** The specification *)

(** [upf_qer_admit] on what it reads of the rule instead of its map element. *)
Definition police (b : qer_build) (qer : option qer_reads) (buckets : gmap Z qer_bucket_state) (qer_id len now : Z) :
    bool * gmap Z qer_bucket_state :=
  match qer with
  | None => (true, buckets)
  | Some q =>
      if q_limited q =? 0 then (true, buckets)
      else if qer_id <? 4096 then
        let '(ok, st') := bucket_step_at b q (default fresh_bucket (buckets !! qer_id)) {| at_ns := now; pkt_len := len |} in
        (ok, <[qer_id := st']> buckets)
      else (true, buckets)
  end.

(** What the rules make of an uplink G-PDU with a TEID. *)
Inductive verdict :=
| MissTeid
| MissPdr
| MissFar
| FarDrop
| FarBuffer (pdr_id far_id : Z)
| FarForward (sl : tc_bundle_slot) (far : far_val) (qer : option qer_reads)
| FarGone.

Definition fate (a : rules) (teid : Z) : verdict :=
  match ru_session a teid with
  | None => MissTeid
  | Some sess =>
      match ru_pdr a (sess_pdr_id sess) with
      | None => MissPdr
      | Some _ =>
          match ru_bundle a (sess_pdr_id sess) with
          | None => MissFar
          | Some sl =>
              match ru_far a (slot_far_id sl) with
              | None => MissFar
              | Some far =>
                  if far_action far =? FAR_DROP then FarDrop
                  else if far_action far =? FAR_BUFFER then FarBuffer (sess_pdr_id sess) (slot_far_id sl)
                  else FarForward sl far (steady <$> ru_qer a (slot_qer_id sl))
              end
          end
      end
  end.

(** What the tables of its reads make of it.  Hash elements are replaced whole:
    a programme keeps what its lookup, in [tb], finds: the session and its PDR
    in XDP (reads 0 and 2), the session again (3) and its tuple (5).  Array
    elements are overwritten in place: each load through a pointer reads the
    table of [wb] at its own moment.  Those are the FAR (found at 8, its action
    compared at 9 and 10; found again at 16, its interface loaded at 22) and the
    QER (17 to 21). *)
Definition qer_seen (wb : nat -> rules) (i : nat) (qer_id : Z) : option qer_reads :=
  match ru_qer (wb i) qer_id with
  | None => None
  | Some v =>
      let qv j := default v (ru_qer (wb (i + j)%nat) qer_id) in
      Some {| q_limited := mbr_ul_bps (qv 1%nat); q_first := burst_bytes (qv 2%nat); q_rate := mbr_ul_bps (qv 2%nat);
              q_over := burst_bytes (qv 3%nat); q_cap := burst_bytes (qv 4%nat) |}
  end.

Definition race_fate (tb wb : nat -> rules) (teid : Z) : verdict :=
  match ru_session (tb 0%nat) teid with
  | None => MissTeid
  | Some sess =>
      match ru_pdr (tb 2%nat) (sess_pdr_id sess) with
      | None => MissPdr
      | Some _ =>
          match ru_session (tb 3%nat) teid with
          | None => MissFar
          | Some sess =>
              match ru_bundle (tb 5%nat) (sess_pdr_id sess) with
              | None => MissFar
              | Some sl =>
                  match ru_far (wb 8%nat) (slot_far_id sl) with
                  | None => MissFar
                  | Some far =>
                      let action i := far_action (default far (ru_far (wb i) (slot_far_id sl))) in
                      if action 9%nat =? FAR_DROP then FarDrop
                      else if action 10%nat =? FAR_BUFFER then FarBuffer (sess_pdr_id sess) (slot_far_id sl)
                      else match ru_far (wb 16%nat) (slot_far_id sl) with
                           | None => FarGone
                           | Some far => FarForward sl (default far (ru_far (wb 22%nat) (slot_far_id sl)))
                                           (qer_seen wb 17 (slot_qer_id sl))
                           end
                  end
              end
          end
      end
  end.

Lemma qer_seen_same a i qer_id : qer_seen (fun _ => a) i qer_id = steady <$> ru_qer a qer_id.
Proof. unfold qer_seen, steady. by destruct (ru_qer a qer_id). Qed.

Lemma race_fate_same a teid : race_fate (fun _ => a) (fun _ => a) teid = fate a teid.
Proof.
  unfold race_fate, fate. destruct (ru_session a teid) as [sess|]; [|done]. destruct (ru_pdr a _); [|done].
  destruct (ru_bundle a _) as [sl|]; [|done]. rewrite qer_seen_same. by destruct (ru_far a _).
Qed.

(** What they make of a plain IPv4 packet on its way out of the N3 interface. *)
Inductive dl_verdict :=
| DlMiss
| DlEncap (ue : dl_ue_val) (n3 : bytes).

Definition dl_fate (a : rules) (dst : Z) : dl_verdict :=
  match ru_ue a dst with
  | None => DlMiss
  | Some ue => DlEncap ue (default (le_split 4 0) (ru_n3 a 0))
  end.

(** What the tables of its reads make of it: the UE is found in a hash at read
    0, the N3 address in an array at 1 and loaded at 2. *)
Definition dl_race_fate (tb wb : nat -> rules) (dst : Z) : dl_verdict :=
  match ru_ue (tb 0%nat) dst with
  | None => DlMiss
  | Some ue => DlEncap ue (match ru_n3 (wb 1%nat) 0 with Some n3 => default n3 (ru_n3 (wb 2%nat) 0) | None => le_split 4 0 end)
  end.

Lemma dl_race_fate_same a dst : dl_race_fate (fun _ => a) (fun _ => a) dst = dl_fate a dst.
Proof. unfold dl_race_fate, dl_fate. by destruct (ru_n3 a 0). Qed.

(** ** The programmes *)

Section datapath.
Context `{BpfKernelLaws K}.

(** The reads of a packet from number [n] on: those of hash maps see the states
    [ks], those of array maps [ws]. *)
Definition maps_at (ks ws : nat -> K) (n : nat) : reads := {|
  r_at i name := contents (if in_place name then ws (n + i)%nat else ks (n + i)%nat) name;
  r_in_place := in_place;
|}.

Lemma deref_hash ks ws n i name key v : in_place name = false -> deref (maps_at ks ws n) i name key v = v.
Proof. unfold deref. cbn. by intros ->. Qed.

Lemma deref_array ks ws n i name key v :
  in_place name = true -> deref (maps_at ks ws n) i name key v = default v (contents (ws (n + i)%nat) name key).
Proof. unfold deref. cbn. by intros ->. Qed.

(** A value read through a function of the element. *)
Lemma fmap_default {A B} (f : A -> B) v o : f (default v o) = default (f v) (f <$> o).
Proof. by destruct o. Qed.

(** What the two uplink programmes do with a packet whose reads see these maps,
    XDP from 0 and TC from 3 on: the specification of each verdict. *)
Definition treats_at (ks ws : nat -> K) (g : gpdu) (v : verdict) : Prop :=
  let xdp := upf_xdp_uplink_at (maps_at ks ws 0) (gpdu_bytes g) in
  let classified act m := xdp = Some (act, [M_RX_TOTAL; M_RX_GTPU; M_RX_GPDU; m]) in
  match v with
  | MissTeid => classified XDP_DROP M_MISS_TEID
  | MissPdr => classified XDP_DROP M_MISS_PDR
  | _ =>
      classified XDP_PASS M_HIT /\
      forall build (adj : sk_buff -> Z -> Z -> Z -> option sk_buff) (redir : Z -> Z -> Z) kt len st,
      let skb := {| skb_data := gpdu_bytes g; skb_len := len |} in
      let tc := upf_tc_ingress_at build adj redir (maps_at ks ws 3) kt skb st in
      let room := adj skb (- Z.of_nat (g_ihl g + 16)) BPF_ADJ_ROOM_MAC BPF_F_ADJ_ROOM_FIXED_GSO in
      match v with
      | FarDrop => tc = Some (TC_ACT_SHOT, skb, bump M_TC_FAR_DROP st)
      | FarBuffer pdr_id far_id =>
          tc = Some (TC_ACT_SHOT, skb, bump M_TC_FAR_BUFFER
            (emit (EvBuffer {| be_teid := g_teid g; be_pdr_id := pdr_id; be_far_id := far_id; be_pkt_len := len;
                               be_ts_ns := kt_buffer kt |}) st))
      | FarForward sl far qer =>
          match room with
          | None => tc = Some (TC_ACT_SHOT, skb, bump M_TC_DECAP_ERR st)
          | Some inner =>
              let '(ok, buckets) :=
                police (tc_qer build) qer (cpu_buckets st) (slot_qer_id sl) (skb_len inner) (kt_qer kt) in
              exists st', tc = Some (if ok then redir (far_out_ifindex far) 0 else TC_ACT_SHOT, inner, st') /\
                cpu_buckets st' = buckets /\
                cpu_urr st' = (if ok then cpu_urr (upf_urr_update (slot_urr_id sl) (skb_len inner) st) else cpu_urr st)
          end
      | FarGone => tc = Some (TC_ACT_SHOT, default skb room, bump M_TC_DECAP_ERR st)
      | _ => tc = Some (TC_ACT_OK, skb, bump M_TC_MISS_FAR st)
      end
  end.

(** The maps do not change meanwhile. *)
Definition treats (k : K) : gpdu -> verdict -> Prop := treats_at (fun _ => k) (fun _ => k).

(** The bucket on the rule and on its element. *)
Lemma police_admit b ks ws n i qer_id buckets len now :
  upf_qer_admit_at b (maps_at ks ws n) i buckets qer_id len now =
  police b (qer_seen (fun i => view (ws i)) (n + i) qer_id) buckets qer_id len now.
Proof.
  unfold upf_qer_admit_at, police, qer_seen. cbn [maps_at r_at view ru_qer].
  change (in_place "qer_table") with true. cbv beta iota.
  destruct (contents (ws (n + i)%nat) "qer_table" (le_split 4 qer_id)) as [v|]; [|done]. cbn [fmap option_fmap option_map].
  cbv zeta. cbn [q_limited]. rewrite !deref_array, !(fmap_default read_qer_val), !Nat.add_assoc by reflexivity. done.
Qed.

Lemma urr_update_same urr_id len st st' :
  cpu_urr st' = cpu_urr st -> cpu_urr (upf_urr_update urr_id len st') = cpu_urr (upf_urr_update urr_id len st).
Proof.
  intros E. unfold upf_urr_update. destruct (urr_id =? 0); [done|]. cbn [bump cpu_urr]. rewrite E.
  destruct (cpu_urr st !! urr_id); [done|]. by destruct (_ <? _).
Qed.

Lemma urr_update_buckets urr_id len st : cpu_buckets (upf_urr_update urr_id len st) = cpu_buckets st.
Proof.
  unfold upf_urr_update. destruct (urr_id =? 0); [done|]. cbn [bump cpu_buckets].
  destruct (cpu_urr st !! urr_id); [done|]. by destruct (_ <? _).
Qed.

(** Forwarding, in terms of the rules. *)
Lemma far_forward_police build adj redir ks ws n kt skb sl pdr_id outer t_entry st fv :
  contents (ws (n + 13)%nat) "far_table" (le_split 4 (slot_far_id sl)) = Some fv ->
  let tc := upf_far_forward_at build adj redir (maps_at ks ws n) kt skb (slot_far_id sl) (slot_qer_id sl)
              (slot_urr_id sl) pdr_id (slot_generation sl) outer t_entry st in
  match adj skb (- outer) BPF_ADJ_ROOM_MAC BPF_F_ADJ_ROOM_FIXED_GSO with
  | None => tc = (TC_ACT_SHOT, skb, bump M_TC_DECAP_ERR st)
  | Some inner =>
      let '(ok, buckets) := police (tc_qer build) (qer_seen (fun i => view (ws i)) (n + 14) (slot_qer_id sl)) (cpu_buckets st)
                              (slot_qer_id sl) (skb_len inner) (kt_qer kt) in
      exists st', tc = (if ok then redir (far_out_ifindex (default (read_far_val fv)
                          (ru_far (view (ws (n + 19)%nat)) (slot_far_id sl)))) 0 else TC_ACT_SHOT, inner, st') /\
        cpu_buckets st' = buckets /\
        cpu_urr st' = (if ok then cpu_urr (upf_urr_update (slot_urr_id sl) (skb_len inner) st) else cpu_urr st)
  end.
Proof.
  intros Hf. cbv zeta. unfold upf_far_forward_at. destruct (adj skb _ _ _) as [inner|]; [|done].
  cbn [maps_at r_at]. change (in_place "far_table") with true. cbv beta iota.
  rewrite Hf. fold (maps_at ks ws n). rewrite police_admit. destruct (police _ _ _ _ _ _) as [ok buckets].
  rewrite deref_array, (fmap_default read_far_val) by reflexivity. destruct ok; cbn [negb].
  - eexists. split; [reflexivity|].
    destruct (tc_emit_decision build), (tc_emit_latency build), (redir _ 0 =? TC_ACT_REDIRECT);
      cbn [negb bump emit cpu_buckets cpu_urr]; rewrite urr_update_buckets; (split; [done|]);
      by apply urr_update_same.
  - eexists. split; [reflexivity|]. done.
Qed.

Lemma session_key v :
  length v = c_sizeof L_session_val ->
  is_u32 (sess_pdr_id (read_session_val v)) /\ slice 0 4 v = le_split 4 (sess_pdr_id (read_session_val v)).
Proof.
  intros Hl. split; [apply (load_range 0 4 v)|]. change (sess_pdr_id (read_session_val v)) with (le_combine (slice 0 4 v)).
  symmetry. assert (Hs : length (slice 0 4 v) = 4%nat) by (unfold slice; rewrite length_take, length_drop, Hl; reflexivity).
  rewrite <-Hs at 1. apply split_le_combine.
Qed.

Lemma live_far_u32 p k sl : live p k = Some sl -> is_u32 (slot_far_id sl) /\ is_u32 (slot_qer_id sl).
Proof.
  unfold live. destruct (contents k _ _) as [v|]; [|done]. intros [= <-]. rewrite live_slot_read.
  by destruct (read_slot_fits (Z.to_nat (Z.land (bundle_active (read_tc_bundle v)) 1)) v) as (? & ? & _).
Qed.

(** The programmes on the maps' own tables. *)
Lemma view_treats_at ks ws g :
  (forall i, (i <= 22)%nat -> kernel_ok (ks i)) -> gpdu_wf g ->
  treats_at ks ws g (race_fate (fun i => view (ks i)) (fun i => view (ws i)) (g_teid g)).
Proof.
  intros Hk Hg. unfold race_fate. cbn [view ru_session ru_pdr ru_bundle ru_far].
  pose proof (xdp_on_gpdu_at (maps_at ks ws 0) g Hg) as Hx. unfold xdp_classify_at in Hx.
  cbn [maps_at r_at Nat.add] in Hx. change (in_place "teid_session") with false in Hx. change (in_place "pdr_table") with false in Hx.
  cbv beta iota in Hx. fold (maps_at ks ws 0) in Hx.
  destruct (contents (ks 0%nat) "teid_session" (le_split 4 (g_teid g))) as [sv|] eqn:Hsv; [|exact Hx].
  cbn [fmap option_fmap option_map]. cbv zeta in Hx. rewrite deref_hash in Hx by reflexivity.
  destruct (law_wf (ks 0%nat) "teid_session" _ _ _ (Hk 0%nat ltac:(lia)) eq_refl eq_refl Hsv) as [_ Lsv].
  rewrite (proj2 (session_key sv Lsv)) in Hx.
  destruct (contents (ks 2%nat) "pdr_table" _) as [pv|]; [|exact Hx]. cbn [fmap option_fmap option_map].
  clear sv Hsv Lsv pv. cbv beta iota in Hx.
  assert (Htc : forall build adj redir kt len st,
    upf_tc_ingress_at build adj redir (maps_at ks ws 3) kt {| skb_data := gpdu_bytes g; skb_len := len |} st =
    Some (tc_session_at build adj redir (maps_at ks ws 3) kt
      {| skb_data := gpdu_bytes g; skb_len := len |} (g_ihl g)
      (g_teid g) (if tc_emit_latency build then kt_entry kt else 0) st)) by (intros; by apply tc_on_gpdu_at).
  assert (Hsess : forall i, r_at (maps_at ks ws 3) i "teid_session" = contents (ks (3 + i)%nat) "teid_session") by reflexivity.
  assert (Hbun : forall i, r_at (maps_at ks ws 3) i "tc_bundle_map" = contents (ks (3 + i)%nat) "tc_bundle_map") by reflexivity.
  assert (Hfar : forall i, r_at (maps_at ks ws 3) i "far_table" = contents (ws (3 + i)%nat) "far_table") by reflexivity.
  assert (Dsess : forall i key v, deref (maps_at ks ws 3) i "teid_session" key v = v) by (intros; by apply deref_hash).
  assert (Dbun : forall i key v, deref (maps_at ks ws 3) i "tc_bundle_map" key v = v) by (intros; by apply deref_hash).
  assert (Dfar : forall i key v, deref (maps_at ks ws 3) i "far_table" key v = default v (contents (ws (3 + i)%nat) "far_table" key))
    by (intros; by apply deref_array).
  unfold tc_session_at in Htc. cbv zeta in Htc. rewrite Hsess in Htc. cbn [Nat.add] in Htc.
  destruct (contents (ks 3%nat) "teid_session" (le_split 4 (g_teid g))) as [sv|] eqn:Hsv;
    cbn [fmap option_fmap option_map]; [|split; [exact Hx|exact Htc]].
  rewrite !Dsess, Hbun in Htc. cbn [Nat.add] in Htc.
  destruct (law_wf (ks 3%nat) "teid_session" _ _ _ (Hk 3%nat ltac:(lia)) eq_refl eq_refl Hsv) as [_ Lsv].
  rewrite (proj2 (session_key sv Lsv)) in Htc. set (pdr := sess_pdr_id (read_session_val sv)) in *. unfold live.
  destruct (contents (ks 5%nat) "tc_bundle_map" (le_split 4 pdr)) as [bv|]; cbn [fmap option_fmap option_map];
    [|split; [exact Hx|exact Htc]].
  rewrite !Dbun, Hfar in Htc. cbn [Nat.add] in Htc.
  change (named_slot (bundle_active (read_tc_bundle bv)) (read_tc_bundle bv)) with (live_slot (read_tc_bundle bv)) in Htc.
  set (sl := live_slot (read_tc_bundle bv)) in *.
  destruct (contents (ws 8%nat) "far_table" (le_split 4 (slot_far_id sl))) as [fv|]; cbn [fmap option_fmap option_map];
    [|split; [exact Hx|exact Htc]].
  rewrite !Dfar, !(fmap_default read_far_val) in Htc. cbn [Nat.add] in Htc. cbv zeta.
  destruct (far_action (default _ (_ <$> contents (ws 9%nat) _ _)) =? FAR_DROP); [split; [exact Hx|exact Htc]|].
  destruct (far_action (default _ (_ <$> contents (ws 10%nat) _ _)) =? FAR_BUFFER); [split; [exact Hx|exact Htc]|].
  destruct (contents (ws 16%nat) "far_table" (le_split 4 (slot_far_id sl))) as [fv2|] eqn:Hfv; cbn [fmap option_fmap option_map];
    (split; [exact Hx|]); intros build adj redir kt len st; cbv zeta; rewrite Htc;
    replace (Z.of_nat (g_ihl g + 16)) with (Z.of_nat (g_ihl g + sizeof_udphdr + 8)) by (unfold sizeof_udphdr; lia).
  - pose proof (far_forward_police build adj redir ks ws 3 kt {| skb_data := gpdu_bytes g; skb_len := len |}
      sl pdr (Z.of_nat (g_ihl g + sizeof_udphdr + 8)) (if tc_emit_latency build then kt_entry kt else 0) st fv2 Hfv) as Hp.
    cbv zeta in Hp. cbn [Nat.add] in Hp.
    destruct (adj _ _ _ _) as [inner|]; [|by f_equal]. destruct (police _ _ _ _ _ _) as [ok buckets].
    destruct Hp as (st' & E & Hb & Hu). exists st'. split; [by f_equal|done].
  - unfold upf_far_forward_at. destruct (adj _ _ _ _) as [inner|]; [|done]. rewrite Hfar. cbn [Nat.add]. by rewrite Hfv.
Qed.

Lemma view_treats k g :
  kernel_ok k -> gpdu_wf g -> treats k g (fate (view k) (g_teid g)).
Proof. intros Hk Hg. rewrite <-race_fate_same. by apply (view_treats_at (fun _ => k)). Qed.

(** The fate of a packet reads the table at words only. *)
Lemma fate_models a k t :
  kernel_ok k -> models a k -> is_u32 t -> fate (view k) t = MissTeid \/ fate (view k) t = fate a t.
Proof.
  intros Hk [M1 M2 M3 M4 M5 _ _] Ht. unfold fate. destruct (M1 t Ht) as [->|E]; [by left|]. rewrite <-E.
  destruct (ru_session (view k) t) as [sess|] eqn:Es; [right|by left].
  assert (Hp : is_u32 (sess_pdr_id sess)).
  { cbn in Es. destruct (contents k "teid_session" _) as [v|] eqn:Hv; [|done]. injection Es as <-.
    apply session_key. by destruct (law_wf k "teid_session" _ _ _ Hk eq_refl eq_refl Hv). }
  rewrite <-(M2 _ Hp), <-(M3 _ Hp). destruct (ru_pdr (view k) _); [|done].
  destruct (ru_bundle (view k) _) as [sl|] eqn:Hl; [|done]. destruct (live_far_u32 _ _ _ Hl) as [Hf Hq].
  by rewrite <-(M4 _ Hf), <-(M5 _ Hq).
Qed.

(** The uplink datapath decides by the table.  When the maps hold a table of
    rules, XDP and TC together treat every uplink G-PDU as the table's fate of
    its TEID says: dropped for want of a session or a PDR, let through to the
    stack for want of a tuple or a FAR, dropped or buffered by its FAR, or
    decapsulated, policed by its QER, accounted to its URR and redirected to
    the interface of its FAR; or, if the session has been evicted, dropped as
    unknown. *)
Theorem uplink_treats a k g :
  kernel_ok k -> models a k -> gpdu_wf g ->
  treats k g MissTeid \/ treats k g (fate a (g_teid g)).
Proof.
  intros Hk Hm Hg. pose proof (view_treats k g Hk Hg) as Ht.
  destruct (fate_models a k (g_teid g) Hk Hm (wf_teid _ Hg)) as [E|E]; rewrite E in Ht; [by left|by right].
Qed.

(** What the downlink programme does with a packet. *)
Definition dl_treats_at (ks ws : nat -> K) (d : dl_packet) (v : dl_verdict) : Prop :=
  forall (adj : sk_buff -> Z -> Z -> Z -> option sk_buff) st,
  let tc := upf_tc_egress_at adj (maps_at ks ws 0) (dl_skb d) st in
  match v with
  | DlMiss => tc = Some (TC_ACT_OK, dl_skb d, bump M_TC_DL_MISS st)
  | DlEncap ue n3 =>
      (adj (dl_skb d) 36 BPF_ADJ_ROOM_MAC BPF_F_ADJ_ROOM_FIXED_GSO = None ->
       tc = Some (TC_ACT_SHOT, dl_skb d, bump M_TC_DL_ENCAP_ERR (bump M_TC_DL_HIT st))) /\
      (opens_room adj d ->
       exists g, tc = Some (TC_ACT_OK, {| skb_data := gpdu_bytes g; skb_len := dp_len d + 36 |}, bump M_TC_DL_HIT st) /\
         carries n3 (ue_gnb_ipv4_be ue) (be_combine (ue_teid_be ue)) d g)
  end.

Definition dl_treats (k : K) : dl_packet -> dl_verdict -> Prop := dl_treats_at (fun _ => k) (fun _ => k).

(** The downlink datapath decides by the tables of its reads: that of the first
    says whether the destination is a UE and which, those of the next two the N3
    address.  A plain IPv4 packet for no UE passes untouched; one for a UE
    becomes a well-formed G-PDU from the N3 address to the gNB of the UE, with
    its TEID and the packet as payload, a header checksum that verifies and the
    lengths of the frame; if the kernel refuses the room, the packet is dropped
    and counted. *)
Theorem downlink_treats_at tb wb ks ws d :
  (forall i, (i <= 2)%nat -> (kernel_ok (ks i) /\ models (tb i) (ks i)) /\ (kernel_ok (ws i) /\ models (wb i) (ws i))) -> dl_wf d ->
  dl_treats_at ks ws d (dl_race_fate tb wb (le_combine (dl_dst d))).
Proof.
  intros Hm Hd adj st. cbv zeta. destruct (egress_lookup adj (maps_at ks ws 0) d st Hd) as [Ld E].
  destruct (Hm 0%nat ltac:(lia)) as [[Hk Hm0] _]. destruct (Hm 1%nat ltac:(lia)) as [_ [Hk1 Hm1]].
  destruct (Hm 2%nat ltac:(lia)) as [_ [Hk2 Hm2]]. clear Hm.
  assert (Hdst : is_u32 (le_combine (dl_dst d))).
  { pose proof (le_combine_range (dl_dst d)) as Hr. by rewrite Ld in Hr. }
  unfold dl_race_fate. rewrite <-(mo_ue _ _ Hm0 _ Hdst), <-(mo_n3 _ _ Hm1 0 ltac:(done)), <-(mo_n3 _ _ Hm2 0 ltac:(done)).
  cbn [view ru_ue ru_n3]. rewrite (split_le_combine' (dl_dst d) 4 Ld).
  change (r_at (maps_at ks ws 0) 0 "dl_ue_map") with (contents (ks 0%nat) "dl_ue_map") in E.
  assert (Hue : forall uv, read_ue (maps_at ks ws 0) (dl_dst d) uv = read_dl_ue_val uv).
  { intros uv. unfold read_ue. by rewrite !deref_hash by reflexivity. }
  assert (Hn3 : read_n3 (maps_at ks ws 0) =
    match slice 0 4 <$> contents (ws 1%nat) "upf_config_map" (le_split 4 0) with
    | Some n3 => default n3 (slice 0 4 <$> contents (ws 2%nat) "upf_config_map" (le_split 4 0)) | None => le_split 4 0 end).
  { unfold read_n3. change (r_at (maps_at ks ws 0) 1 "upf_config_map") with (contents (ws 1%nat) "upf_config_map").
    destruct (contents (ws 1%nat) "upf_config_map" (le_split 4 0)) as [c|]; [|done]. cbn [fmap option_fmap option_map n3_addr].
    rewrite deref_array by reflexivity. by rewrite (fmap_default (slice 0 4)). }
  rewrite <-Hn3. destruct (contents (ks 0%nat) "dl_ue_map" (dl_dst d)) as [uv|] eqn:Huv; [|exact E].
  cbn [fmap option_fmap option_map].
  destruct (law_wf (ks 0%nat) "dl_ue_map" _ _ _ Hk eq_refl eq_refl Huv) as [_ Luv].
  assert (Lt : length (ue_teid_be (read_dl_ue_val uv)) = 4%nat) by (apply length_slice; rewrite Luv; apply Nat.leb_le; reflexivity).
  assert (Lg : length (ue_gnb_ipv4_be (read_dl_ue_val uv)) = 4%nat) by (apply length_slice; rewrite Luv; apply Nat.leb_le; reflexivity).
  split.
  - intros Ha. by rewrite E, Ha.
  - intros Ho. rewrite <-(Hue uv). rewrite <-(Hue uv) in Lt, Lg. apply (egress_carries adj (maps_at ks ws 0)); try done.
    + rewrite <-Lt. symmetry. apply split_be_combine.
    + pose proof (be_combine_range (ue_teid_be (read_ue (maps_at ks ws 0) (dl_dst d) uv))) as Hr. by rewrite Lt in Hr.
    + by apply (n3_length _ (ws 1%nat) (ws 2%nat)).
Qed.

Lemma downlink_treats a k d :
  kernel_ok k -> models a k -> dl_wf d -> dl_treats k d (dl_fate a (le_combine (dl_dst d))).
Proof.
  intros Hk Hm Hd. rewrite <-dl_race_fate_same. by apply (downlink_treats_at (fun _ => a) (fun _ => a) (fun _ => k) (fun _ => k)).
Qed.

(** C2: agent and datapath together.  Take any script of the agent's
    operations, interleaved with session evictions.  At every point of it there
    is one table of rules, that of the operations done and the first few writes
    of the one under way, and it decides every packet: each uplink G-PDU of any
    TEID is treated as its fate in the table says, or as unknown if its session
    has been evicted, and each downlink packet as the table says of its
    destination.  When the script has ended, the table is that of its
    outcomes. *)
Theorem packets_follow_agent ops s k p k' :
  rules_cached s -> cache_ok s k -> kernel_ok k ->
  exec sys_bpf evicts (script ops s, k) (p, k') ->
  exists a, rtc agenda_step (start (view k) ops) a /\
    (forall g, gpdu_wf g -> treats k' g MissTeid \/ treats k' g (fate (ag_table a) (g_teid g))) /\
    (forall d, dl_wf d -> dl_treats k' d (dl_fate (ag_table a) (le_combine (dl_dst d)))) /\
    (forall s' r, p = Ret (s', r) -> exists rs a', r = Ok rs /\ runs (view k) ops rs a' /\
       (forall g, gpdu_wf g -> treats k' g MissTeid \/ treats k' g (fate a' (g_teid g))) /\
       forall d, dl_wf d -> dl_treats k' d (dl_fate a' (le_combine (dl_dst d)))).
Proof.
  intros Ho Hs Hk Hx. assert (Hk' : kernel_ok k') by (apply (exec_kernel_ok _ _ _ (fun _ _ He => ev_ok _ _ He) Hx); exact Hk).
  destruct (script_refines ops s k p k' Ho Hs Hk Hx) as [(a & Ha & Hm) Hret]. exists a. split; [done|].
  assert (Hboth : forall a, models a k' ->
    (forall g, gpdu_wf g -> treats k' g MissTeid \/ treats k' g (fate a (g_teid g))) /\
    forall d, dl_wf d -> dl_treats k' d (dl_fate a (le_combine (dl_dst d)))).
  { intros b Hb. split; intros; [by apply uplink_treats|by apply downlink_treats]. }
  destruct (Hboth _ Hm) as [Hu Hd]. split; [done|]. split; [done|]. intros s' r Hp.
  destruct (Hret s' r Hp) as (rs & a' & Hr & Hruns & Hm'). exists rs, a'. split; [done|]. split; [done|]. by apply Hboth.
Qed.
End datapath.

(** A machine whose agent has installed its N3 address and one UE. *)
Definition demo_downlink : ref_kernel * (fd_cache * res unit) :=
  run ref_sys ((install_upf_config "10.99.0.1" ;; install_dl_ue "10.45.0.1" 0x1234 "192.168.1.2" 9) ∅) ref_init.

Definition demo_room : sk_buff -> Z -> Z -> Z -> option sk_buff := fun skb _ _ _ =>
  Some {| skb_data := take 14 (skb_data skb) ++ replicate 36 Byte.x00 ++ drop 14 (skb_data skb); skb_len := skb_len skb + 36 |}.

Definition demo_packet : dl_packet :=
  {| dp_mac := replicate 12 Byte.xff; dp_inner := Byte.x45 :: replicate 15 Byte.x00 ++ (z2b <$> [10; 45; 0; 1]); dp_len := 34 |}.

Lemma demo_downlink_encapsulated :
  exists g, upf_tc_egress_at demo_room (maps_at (fun _ => demo_downlink.1) (fun _ => demo_downlink.1) 0) (dl_skb demo_packet) cpu_init =
      Some (TC_ACT_OK, {| skb_data := gpdu_bytes g; skb_len := 70 |}, bump M_TC_DL_HIT cpu_init) /\
    carries (z2b <$> [10; 99; 0; 1]) (z2b <$> [192; 168; 1; 2]) 0x1234 demo_packet g.
Proof.
  assert (Hk : kernel_ok demo_downlink.1) by (apply ref_ok_check_ok; vm_compute; reflexivity).
  assert (Hf : dl_fate (view demo_downlink.1) (le_combine (dl_dst demo_packet)) =
    DlEncap {| ue_teid_be := be_split 4 0x1234; ue_gnb_ipv4_be := z2b <$> [192; 168; 1; 2]; ue_qfi := 9 |} (z2b <$> [10; 99; 0; 1]))
    by (vm_compute; reflexivity).
  assert (Hd : dl_wf demo_packet) by (split; [done|apply Nat.leb_le; reflexivity|vm_compute; reflexivity|done]).
  assert (Ho : opens_room demo_room demo_packet) by (exists (replicate 36 Byte.x00); split; [done|vm_compute; reflexivity]).
  revert Hk Hf. generalize demo_downlink.1. intros k Hk Hf.
  pose proof (downlink_treats (view k) k demo_packet Hk (models_view k) Hd demo_room cpu_init) as H.
  rewrite Hf in H. exact (proj2 H Ho).
Qed.

(** A script on the machine of the demonstration, a FAR that forwards and a
    session whose TEID does not fit; then the packet of its session. *)
Definition demo_script : list op :=
  [OpInstallFar 1 FAR_FORWARD 5 0 0; OpInstallSession (2 ^ 32) 0x2001 1 1 100 1].

Lemma packets_follow_agent_witness :
  let x := run ref_sys (script demo_script demo_session.2.1) demo_session.1 in
  exists a, x.2.2 = Ok [true; false] /\ runs (view demo_session.1) demo_script [true; false] a /\
    (treats x.1 (plain_gpdu 0x1000 []) MissTeid \/ treats x.1 (plain_gpdu 0x1000 []) (fate a 0x1000)).
Proof.
  intros x. assert (Hr : x.2.2 = Ok [true; false]) by (vm_compute; reflexivity).
  pose proof (run_exec_rely ref_sys evicts (script demo_script demo_session.2.1) demo_session.1 evicts_refl) as Hx.
  fold x in Hx. clearbody x. destruct x as [k' [s' r]]. cbn [fst snd] in *.
  destruct (packets_follow_agent demo_script demo_session.2.1 demo_session.1 _ k' demo_session_cached demo_session_cache
    demo_session_ok Hx) as (_ & _ & _ & _ & H). destruct (H s' r eq_refl) as (rs & a & E & Hruns & Hu & _).
  assert (Ers : rs = [true; false]) by (apply Ok_inj; by rewrite <-E, <-Hr). subst rs. exists a. split; [exact Hr|]. split; [exact Hruns|].
  refine (Hu (plain_gpdu 0x1000 []) (plain_gpdu_wf 0x1000 [] _)). split; [discriminate|reflexivity].
Defined.
