(* ===== verification/Race.v ===== *)
(** * Packets that race with the agent

    The agent writes rules one map element at a time while packets are under
    way, and each read of a packet, a lookup or a load through a pointer,
    happens at an instant of its own.  Whatever the instants, the lookups read
    tables of the agendas of Rules.v, in order, a load from an array element
    that is being overwritten may be one write ahead, and the fate they make up
    (Fate.v) is the packet's.  Some operations are such that the packet cannot
    tell: it is treated as one table says.  What the others can do to it is
    bounded, and one race is exhibited: upf_tc.c redirects by a FAR it has
    looked up again, without its action. *)

From stdpp Require Import functions.
From S2P Require Import Prelude Prog Sim PyStruct PyText UpfMaps Kernel BpfSyscall Encoders Agent Qer Datapath Egress Bundle Sessions Bootstrap Metrics Http Rules Fate.

Open Scope Z_scope.

(** ** Agendas *)

(** What an operation may write to without an uplink packet noticing more than
    one change: the tuples; the downlink tables never matter. *)
Definition bundle_write (w : write) : Prop :=
  match w with WBundle _ _ | WUe _ _ | WN3 _ _ => True | _ => False end.

Definition plans_only (C : write -> Prop) (ops : list op) : Prop :=
  forall o a, o ∈ ops -> Forall C (plan o a).

(** What these writes leave alone. *)
Lemma agenda_keeps {X} (C : write -> Prop) (field : rules -> X) ops a g :
  plans_only C ops -> (forall w a, C w -> field (commit w a) = field a) ->
  rtc agenda_step (start a ops) g -> field (ag_table g) = field a.
Proof.
  intros Hops Hf Hx.
  enough (forall g1 g2, rtc agenda_step g1 g2 -> plans_only C (ag_ops g1) -> Forall C (ag_writes g1) ->
    field (ag_table g2) = field (ag_table g1)) as Hgen by (by apply (Hgen _ _ Hx); [|constructor]).
  clear -Hf. intros g1 g2 Hx. induction Hx as [|g1 g2 g3 Hs _ IH]; [done|]. intros Ho Hw.
  destruct Hs as [b w ws ops|b ws o ops]; cbn [ag_table ag_ops ag_writes] in *.
  - rewrite IH; [|done|by apply Forall_inv_tail in Hw]. apply Hf. by apply Forall_inv in Hw.
  - apply IH; [|apply Ho; by left]. intros o' b' Ho'. apply Ho. by right.
Qed.

(** The agendas of one operation: how many of its writes are done. *)
Definition stage (o : op) (a : rules) (g : agenda) : nat :=
  match ag_ops g with [] => length (plan o a) - length (ag_writes g) | _ => 0 end.

Definition staged (o : op) (a : rules) (g : agenda) : Prop :=
  g = start a [o] \/ exists i, (i <= length (plan o a))%nat /\
    g = {| ag_table := commits_all (take i (plan o a)) a; ag_writes := drop i (plan o a); ag_ops := [] |}.

Lemma staged_table o a g :
  staged o a g -> ag_table g = commits_all (take (stage o a g) (plan o a)) a /\ (stage o a g <= length (plan o a))%nat.
Proof.
  intros [->|(i & Hi & ->)]; [split; [done|apply Nat.le_0_l]|]. unfold stage. cbn. rewrite length_drop.
  replace (_ - _)%nat with i by lia. done.
Qed.

Lemma stage_climbs o a g g' :
  rtc agenda_step g g' -> staged o a g -> staged o a g' /\ (stage o a g <= stage o a g')%nat.
Proof.
  intros Hx. induction Hx as [|g1 g2 g3 Hs _ IH]; [done|]. intros Hg.
  assert (H2 : staged o a g2 /\ (stage o a g1 <= stage o a g2)%nat).
  { destruct Hg as [->|(i & Hi & ->)];
      destruct (proj1 (agenda_step_inv _ _) Hs) as [(w & ws & Ew & ->)|(o' & ops & Eo & ->)];
      cbn [start ag_table ag_writes ag_ops] in *; try discriminate.
    - injection Eo as <- <-. split; [right; exists 0%nat; split; [lia|done]|apply Nat.le_0_l].
    - assert (Hw : plan o a !! i = Some w) by (by rewrite <-(Nat.add_0_r i), <-lookup_drop, Ew).
      pose proof (lookup_lt_Some _ _ _ Hw) as Hlt.
      assert (Ews : ws = drop (S i) (plan o a)) by (rewrite (drop_S _ _ _ Hw) in Ew; by simplify_eq).
      split; [right; exists (S i); split; [lia|]|unfold stage; cbn [ag_ops ag_writes]; rewrite Ews, !length_drop; lia].
      by rewrite (take_S_r _ _ _ Hw), commits_all_app, Ews. }
  destruct H2 as [H2 Hle]. destruct (IH H2). split; [done|lia].
Qed.

Lemma agenda_stage o a g : rtc agenda_step (start a [o]) g -> exists i, ag_table g = commits_all (take i (plan o a)) a.
Proof. intros Hx. exists (stage o a g). apply staged_table, (stage_climbs o a _ _ Hx). by left. Qed.

Lemma climb_stages n o a gs :
  climb agenda_step n (start a [o]) gs ->
  exists st : nat -> nat, (forall i j, (i <= j <= n)%nat -> (st i <= st j)%nat) /\
    forall i, (i <= n)%nat -> ag_table (gs i) = commits_all (take (st i) (plan o a)) a.
Proof.
  intros Hc. assert (Hs : forall i, (i <= n)%nat -> staged o a (gs i)).
  { intros i Hi. apply (stage_climbs o a _ _ (climb_from _ _ _ _ _ Hc Hi)). by left. }
  exists (fun i => stage o a (gs i)). split.
  - intros i j Hij. apply (stage_climbs o a _ _ (climb_le _ _ _ _ _ _ Hc Hij)), Hs. lia.
  - intros i Hi. by apply staged_table, Hs.
Qed.

(** ** What the fates of the operations can be *)

(** A rule written on a table, pointwise. *)
Lemma fn_insert_at {T} (f : Z -> T) x v y (b : bool) :
  (if b then <[x := v]> f else f) y = if decide (y = x /\ b = true) then v else f y.
Proof.
  destruct b; [|by rewrite decide_False by naive_solver]. destruct (decide (y = x)) as [->|Hne].
  - by rewrite fn_lookup_insert, decide_True.
  - by rewrite fn_lookup_insert_ne, decide_False by naive_solver.
Qed.

Lemma fn_insert_none {T} (f : Z -> option T) x y v : <[x := None]> f y = Some v -> f y = Some v.
Proof. destruct (decide (x = y)) as [->|Hne]; [by rewrite fn_lookup_insert|by rewrite fn_lookup_insert_ne]. Qed.

(** The tables of an installation. *)
Lemma session_stage a teid pdr_id qer_id far_id precedence urr_id n :
  let b := commits_all (take n (session_writes teid pdr_id qer_id far_id precedence urr_id)) a in
  (forall t, ru_session b t = if decide (t = teid /\ (3 <=? n)%nat = true)
     then Some {| sess_pdr_id := pdr_id; sess_qer_id := qer_id; sess_far_id := far_id |} else ru_session a t) /\
  (forall x, ru_pdr b x = if decide (x = pdr_id /\ (1 <=? n)%nat = true)
     then Some {| pdr_far_id := far_id; pdr_qer_id := qer_id; pdr_precedence := precedence; pdr_urr_id := urr_id |}
     else ru_pdr a x) /\
  (forall x, x <> pdr_id -> ru_bundle b x = ru_bundle a x) /\
  ru_far b = ru_far a /\ ru_qer b = ru_qer a.
Proof.
  cbv zeta. split_and!.
  - intros t. rewrite <-fn_insert_at. destruct n as [|[|[|n]]]; cbn [session_writes take]; by rewrite ?take_nil.
  - intros x. rewrite <-fn_insert_at. destruct n as [|[|[|n]]]; cbn [session_writes take]; by rewrite ?take_nil.
  - intros x Hx. destruct n as [|[|[|n]]]; cbn [session_writes take]; rewrite ?take_nil;
      cbn [commits_all foldl commit ru_bundle]; by rewrite ?fn_lookup_insert_ne.
  - destruct n as [|[|[|n]]]; cbn [session_writes take]; by rewrite ?take_nil.
  - destruct n as [|[|[|n]]]; cbn [session_writes take]; by rewrite ?take_nil.
Qed.

(** A FAR that neither drops nor buffers. *)
Definition forwards (far : far_val) : bool := negb (far_action far =? FAR_DROP) && negb (far_action far =? FAR_BUFFER).

(** A policing whose loads each see one of two QERs. *)
Record one_of (old qer : qer_val) (q : qer_reads) : Prop := {
  oo_limited : q_limited q = mbr_ul_bps old \/ q_limited q = mbr_ul_bps qer;
  oo_first : q_first q = burst_bytes old \/ q_first q = burst_bytes qer;
  oo_rate : q_rate q = mbr_ul_bps old \/ q_rate q = mbr_ul_bps qer;
  oo_over : q_over q = burst_bytes old \/ q_over q = burst_bytes qer;
  oo_cap : q_cap q = burst_bytes old \/ q_cap q = burst_bytes qer;
}.

Section fates.
Context (a : rules) (t : Z) (tb wb : nat -> rules).

(** Sessions, PDRs, FARs and QERs stay: the table of the tuple decides. *)
Lemma race_bundles :
  (forall i, (i <= 22)%nat -> ru_session (tb i) = ru_session a /\ ru_pdr (tb i) = ru_pdr a /\
     ru_far (tb i) = ru_far a /\ ru_qer (tb i) = ru_qer a) ->
  (forall i, (i <= 22)%nat -> ru_far (wb i) = ru_far a /\ ru_qer (wb i) = ru_qer a) ->
  race_fate tb wb t = fate (tb 5%nat) t.
Proof.
  intros Hk Hw. unfold race_fate, fate, qer_seen. cbn [Nat.add].
  destruct (Hk 0%nat ltac:(lia)) as (-> & _). destruct (Hk 2%nat ltac:(lia)) as (_ & -> & _).
  destruct (Hk 3%nat ltac:(lia)) as (-> & _). destruct (Hk 5%nat ltac:(lia)) as (-> & -> & -> & ->).
  rewrite !(fun i Hi => proj1 (Hw i Hi)), !(fun i Hi => proj2 (Hw i Hi)) by lia.
  destruct (ru_session a t) as [sess|]; [|done]. destruct (ru_pdr a _); [|done].
  destruct (ru_bundle (tb 5%nat) _) as [sl|]; [|done]. destruct (ru_far a _); [|done]. by destruct (ru_qer a _).
Qed.

(** From the readings of the FAR on, with the QERs of [a]. *)
Definition decide_far (pdr_id : Z) (sl : tc_bundle_slot) (far : option far_val) : verdict :=
  match far with
  | None => MissFar
  | Some far =>
      if far_action far =? FAR_DROP then FarDrop
      else if far_action far =? FAR_BUFFER then FarBuffer pdr_id (slot_far_id sl)
      else FarForward sl far (steady <$> ru_qer a (slot_qer_id sl))
  end.

(** From the tuple on, with the FARs and QERs of [a]. *)
Definition decide_tuple (pdr_id : Z) (tuple : option tc_bundle_slot) : verdict :=
  match tuple with
  | None => MissFar
  | Some sl => decide_far pdr_id sl (ru_far a (slot_far_id sl))
  end.

Lemma fate_tuple b sess :
  ru_far b = ru_far a -> ru_qer b = ru_qer a -> ru_session b t = Some sess -> is_Some (ru_pdr b (sess_pdr_id sess)) ->
  fate b t = decide_tuple (sess_pdr_id sess) (ru_bundle b (sess_pdr_id sess)).
Proof.
  intros Hf Hq Hs [pv Hp]. unfold fate, decide_tuple, decide_far. by rewrite Hs, Hp, Hf, Hq.
Qed.

Lemma race_tuple sess1 sess2 :
  (forall i, (i <= 22)%nat -> ru_far (wb i) = ru_far a /\ ru_qer (wb i) = ru_qer a) ->
  ru_session (tb 0%nat) t = Some sess1 -> is_Some (ru_pdr (tb 2%nat) (sess_pdr_id sess1)) ->
  ru_session (tb 3%nat) t = Some sess2 ->
  race_fate tb wb t = decide_tuple (sess_pdr_id sess2) (ru_bundle (tb 5%nat) (sess_pdr_id sess2)).
Proof.
  intros Hw H0 [pv H1] H2. unfold race_fate, decide_tuple, decide_far, qer_seen. cbn [Nat.add]. rewrite H0, H1, H2.
  rewrite !(fun i Hi => proj1 (Hw i Hi)), !(fun i Hi => proj2 (Hw i Hi)) by lia.
  destruct (ru_bundle (tb 5%nat) _) as [sl|]; [|done]. destruct (ru_far a _); [|done]. by destruct (ru_qer a _).
Qed.

(** Replacing a FAR or a QER: sessions, PDRs and tuples stay. *)
Definition on_tuple (f : Z -> tc_bundle_slot -> verdict) : verdict :=
  match ru_session a t with
  | None => MissTeid
  | Some sess =>
      match ru_pdr a (sess_pdr_id sess) with
      | None => MissPdr
      | Some _ => match ru_bundle a (sess_pdr_id sess) with None => MissFar | Some sl => f (sess_pdr_id sess) sl end
      end
  end.

Lemma on_tuple_cases f : on_tuple f ∈ [MissTeid; MissPdr; MissFar] /\ (forall f', on_tuple f' = on_tuple f) \/
  exists pdr_id sl, forall f', on_tuple f' = f' pdr_id sl.
Proof.
  unfold on_tuple. destruct (ru_session a t) as [sess|]; [|left; split; [set_solver|done]].
  destruct (ru_pdr a _); [|left; split; [set_solver|done]].
  destruct (ru_bundle a _) as [sl|]; [right; by exists (sess_pdr_id sess), sl|left; split; [set_solver|done]].
Qed.

Definition same_tuples (b : rules) : Prop :=
  ru_session b = ru_session a /\ ru_pdr b = ru_pdr a /\ ru_bundle b = ru_bundle a.

Lemma fate_on_tuple b :
  same_tuples b -> ru_qer b = ru_qer a -> fate b t = on_tuple (fun pdr_id sl => decide_far pdr_id sl (ru_far b (slot_far_id sl))).
Proof. intros (S & P & B) Q. unfold fate, on_tuple, decide_far. by rewrite S, P, B, Q. Qed.

(** From the tuple on, with the tables of the reads. *)
Definition race_tuples (pdr_id : Z) (sl : tc_bundle_slot) : verdict :=
  match ru_far (wb 8%nat) (slot_far_id sl) with
  | None => MissFar
  | Some far =>
      let action i := far_action (default far (ru_far (wb i) (slot_far_id sl))) in
      if action 9%nat =? FAR_DROP then FarDrop
      else if action 10%nat =? FAR_BUFFER then FarBuffer pdr_id (slot_far_id sl)
      else match ru_far (wb 16%nat) (slot_far_id sl) with
           | None => FarGone
           | Some far => FarForward sl (default far (ru_far (wb 22%nat) (slot_far_id sl))) (qer_seen wb 17 (slot_qer_id sl))
           end
  end.

Lemma race_on_tuple :
  (forall i, (i <= 22)%nat -> same_tuples (tb i)) -> race_fate tb wb t = on_tuple race_tuples.
Proof using Type.
  intros Hk. unfold race_fate, on_tuple, race_tuples. destruct (Hk 0%nat ltac:(lia)) as (-> & _).
  destruct (Hk 2%nat ltac:(lia)) as (_ & -> & _). destruct (Hk 3%nat ltac:(lia)) as (-> & _).
  destruct (Hk 5%nat ltac:(lia)) as (_ & _ & ->). by destruct (ru_session a t).
Qed.

Section far.
Context (far_id : Z) (old far : far_val) (Hold : ru_far a far_id = Some old).

Abbreviation after_far := (commit (WFar far_id (Some far)) a).

Hypothesis Htb : forall i, (i <= 22)%nat -> same_tuples (tb i).
Hypothesis Hwb : forall i, (i <= 22)%nat -> wb i = a \/ wb i = after_far.

Lemma far_seen i x : (i <= 22)%nat ->
  if decide (x = far_id) then ru_far (wb i) x = Some old \/ ru_far (wb i) x = Some far else ru_far (wb i) x = ru_far a x.
Proof using Hwb Hold.
  intros Hi. destruct (decide (x = far_id)) as [->|Hne].
  - destruct (Hwb i Hi) as [->| ->]; [by left|right]. cbn. by rewrite fn_lookup_insert.
  - destruct (Hwb i Hi) as [->| ->]; [done|]. cbn. by rewrite fn_lookup_insert_ne by congruence.
Qed.

Lemma far_qer_seen i x : (i <= 18)%nat -> qer_seen wb i x = steady <$> ru_qer a x.
Proof using Hwb.
  intros Hi. assert (Hq : forall j, (j <= 22)%nat -> ru_qer (wb j) = ru_qer a) by (intros j Hj; by destruct (Hwb j Hj) as [->| ->]).
  unfold qer_seen. rewrite !Hq by lia. by destruct (ru_qer a x).
Qed.

(** A packet can be forwarded by neither of the two FARs, if the loads of the
    action see different ones, and to the interface of one that does not
    forward. *)
Lemma race_far :
  race_fate tb wb t = fate a t \/ race_fate tb wb t = fate after_far t \/
  exists sl far', slot_far_id sl = far_id /\ (far' = old \/ far' = far) /\ forwards far' = false /\
    ~ (far_action old = FAR_DROP /\ far_action far = FAR_DROP) /\
    ~ (far_action old = FAR_BUFFER /\ far_action far = FAR_BUFFER) /\
    race_fate tb wb t = FarForward sl far' (steady <$> ru_qer a (slot_qer_id sl)).
Proof using Htb Hwb Hold.
  rewrite (race_on_tuple Htb), (fate_on_tuple a), (fate_on_tuple after_far) by (repeat split; done).
  destruct (on_tuple_cases race_tuples) as [[_ E]|(pdr_id & sl & E)]; [left; symmetry; apply E|]. rewrite !E. clear E.
  unfold race_tuples. rewrite far_qer_seen by lia. cbv zeta.
  pose proof (fun i => far_seen i (slot_far_id sl)) as Hs. destruct (decide (slot_far_id sl = far_id)) as [Hid|Hne].
  2:{ left. rewrite !Hs by lia. unfold decide_far. by destruct (ru_far a (slot_far_id sl)). }
  cbn [commit ru_far]. rewrite Hid in *. rewrite fn_lookup_insert, Hold. unfold decide_far. rewrite Hid.
  assert (H8 : exists f8, ru_far (wb 8%nat) far_id = Some f8) by (destruct (Hs 8%nat ltac:(lia)) as [->| ->]; by eexists).
  assert (H16 : exists f16, ru_far (wb 16%nat) far_id = Some f16) by (destruct (Hs 16%nat ltac:(lia)) as [->| ->]; by eexists).
  destruct H8 as [f8 ->], H16 as [f16 ->].
  assert (Hd : forall f i, (i <= 22)%nat -> default f (ru_far (wb i) far_id) = old \/ default f (ru_far (wb i) far_id) = far).
  { intros f i Hi. destruct (Hs i Hi) as [->| ->]; [by left|by right]. }
  pose proof (Hd f8 9%nat ltac:(lia)) as H9. pose proof (Hd f8 10%nat ltac:(lia)) as H10. pose proof (Hd f16 22%nat ltac:(lia)) as H22.
  set (g9 := default f8 (ru_far (wb 9%nat) far_id)) in *. set (g10 := default f8 (ru_far (wb 10%nat) far_id)) in *.
  set (g22 := default f16 (ru_far (wb 22%nat) far_id)) in *. clearbody g9 g10 g22. clear Hd Hs.
  destruct (Z.eqb_spec (far_action g9) FAR_DROP) as [D9|D9].
  { destruct H9 as [-> | ->]; [left|right; left]; by rewrite D9. }
  destruct (Z.eqb_spec (far_action g10) FAR_BUFFER) as [B10|B10].
  { destruct H10 as [-> | ->]; [left|right; left]; by rewrite B10. }
  destruct (forwards g22) eqn:Ef.
  { unfold forwards in Ef. apply andb_true_iff in Ef as [ED EB]. apply negb_true_iff in ED, EB.
    destruct H22 as [-> | ->]; [left|right; left]; by rewrite ED, EB. }
  right. right. exists sl, g22. split_and!; [done|done|done| | |done].
  - intros [? ?]. destruct H9; congruence.
  - intros [? ?]. destruct H10; congruence.
Qed.
End far.

Section qer.
Context (qer_id : Z) (old qer : qer_val) (Hold : ru_qer a qer_id = Some old).

Abbreviation after_qer := (commit (WQer qer_id (Some qer)) a).

Hypothesis Htb : forall i, (i <= 22)%nat -> same_tuples (tb i).
Hypothesis Hwb : forall i, (i <= 22)%nat -> wb i = a \/ wb i = after_qer.

Lemma race_qer :
  race_fate tb wb t = fate a t \/
  exists sl far q, slot_qer_id sl = qer_id /\ fate a t = FarForward sl far (Some (steady old)) /\ one_of old qer q /\
    race_fate tb wb t = FarForward sl far (Some q).
Proof using Htb Hwb Hold.
  rewrite (race_on_tuple Htb), (fate_on_tuple a) by (repeat split; done).
  destruct (on_tuple_cases race_tuples) as [[_ E]|(pdr_id & sl & E)]; [left; symmetry; apply E|]. rewrite !E. clear E.
  assert (Hf : forall i, (i <= 22)%nat -> ru_far (wb i) = ru_far a) by (intros j Hj; by destruct (Hwb j Hj) as [->| ->]).
  unfold race_tuples, decide_far. rewrite !Hf by lia. cbv zeta. destruct (ru_far a _) as [far|]; [|by left]. cbn [default from_option id].
  destruct (far_action far =? FAR_DROP); [by left|]. destruct (far_action far =? FAR_BUFFER); [by left|].
  destruct (decide (slot_qer_id sl = qer_id)) as [Hid|Hne].
  - right. rewrite Hid, Hold.
    assert (Hq : forall i, (i <= 22)%nat -> ru_qer (wb i) qer_id = Some old \/ ru_qer (wb i) qer_id = Some qer).
    { intros i Hi. destruct (Hwb i Hi) as [->| ->]; [by left|right]. cbn. by rewrite fn_lookup_insert. }
    assert (H17 : exists q17, ru_qer (wb 17%nat) qer_id = Some q17) by (destruct (Hq 17%nat ltac:(lia)) as [->| ->]; by eexists).
    unfold qer_seen. destruct H17 as [q17 ->]. cbn [Nat.add]. eexists sl, far, _. do 2 (split; [done|]). split; [|done].
    assert (Hd : forall i, (i <= 22)%nat -> default q17 (ru_qer (wb i) qer_id) = old \/ default q17 (ru_qer (wb i) qer_id) = qer).
    { intros i Hi. destruct (Hq i Hi) as [->| ->]; [by left|by right]. }
    split; cbn; [destruct (Hd 18%nat ltac:(lia)) as [->| ->]|destruct (Hd 19%nat ltac:(lia)) as [->| ->]|
      destruct (Hd 19%nat ltac:(lia)) as [->| ->]|destruct (Hd 20%nat ltac:(lia)) as [->| ->]|
      destruct (Hd 21%nat ltac:(lia)) as [->| ->]]; auto.
  - left. unfold qer_seen.
    assert (Hq : forall i, (i <= 22)%nat -> ru_qer (wb i) (slot_qer_id sl) = ru_qer a (slot_qer_id sl)).
    { intros i Hi. destruct (Hwb i Hi) as [->| ->]; [done|]. cbn. by rewrite fn_lookup_insert_ne by congruence. }
    rewrite !Hq by lia. by destruct (ru_qer a (slot_qer_id sl)).
Qed.
End qer.

(** One operation, [st i] of its writes done at read [i]. *)
Context (st : nat -> nat).
Hypothesis Hmono : forall i j, (i <= j <= 22)%nat -> (st i <= st j)%nat.

(** Installing a session: the programmes read the last write first. *)
Section install.
Context (teid pdr_id qer_id far_id precedence urr_id : Z).
Hypothesis Htb : forall i, (i <= 22)%nat ->
  tb i = commits_all (take (st i) (session_writes teid pdr_id qer_id far_id precedence urr_id)) a.

Hypothesis Hwb : forall i, (i <= 22)%nat -> ru_far (wb i) = ru_far a /\ ru_qer (wb i) = ru_qer a.

Abbreviation sess0 := {| sess_pdr_id := pdr_id; sess_qer_id := qer_id; sess_far_id := far_id |}.
Abbreviation installed i := (t = teid /\ (3 <=? st i)%nat = true).

Lemma install_rest i :
  (i <= 22)%nat -> ru_session (tb i) t = (if decide (installed i) then Some sess0 else ru_session a t) /\
  (forall x, x <> pdr_id -> ru_bundle (tb i) x = ru_bundle a x) /\ ru_far (tb i) = ru_far a /\ ru_qer (tb i) = ru_qer a.
Proof using Htb.
  intros Hi. rewrite (Htb i Hi).
  by destruct (session_stage a teid pdr_id qer_id far_id precedence urr_id (st i)) as (S & _ & B & F & Q).
Qed.

Lemma install_pdr i j x :
  (i <= j <= 22)%nat -> is_Some (ru_pdr (tb i) x) \/ installed j /\ x = pdr_id -> is_Some (ru_pdr (tb j) x).
Proof using Htb Hmono.
  intros Hij. pose proof (Hmono i j Hij). rewrite (Htb i), (Htb j) by lia.
  destruct (session_stage a teid pdr_id qer_id far_id precedence urr_id (st i)) as (_ & Pi & _).
  destruct (session_stage a teid pdr_id qer_id far_id precedence urr_id (st j)) as (_ & Pj & _). rewrite Pi, Pj. clear Pi Pj.
  destruct (decide (x = pdr_id /\ (1 <=? st j)%nat = true)) as [|Hn]; [by eexists|].
  rewrite decide_False by (intros [? ?]; apply Hn; breflect; split; [done|apply Nat.leb_le; lia]).
  intros [?|[[_ ?] ->]]; [done|]. exfalso. apply Hn. breflect. split; [done|apply Nat.leb_le; lia].
Qed.

(** From the reading of the PDR on, the packet's session is the one it found or the
    new one, and has its PDR. *)
Lemma install_kept s1 i :
  ru_session (tb 0%nat) t = Some s1 -> is_Some (ru_pdr (tb 2%nat) (sess_pdr_id s1)) -> (2 <= i <= 22)%nat ->
  exists s, ru_session (tb i) t = Some s /\ is_Some (ru_pdr (tb i) (sess_pdr_id s)) /\
    (installed i /\ s = sess0 \/ ~ installed i /\ s = s1).
Proof using Htb Hmono.
  intros E0 E1 Hi. destruct (install_rest 0 ltac:(lia)) as [S0 _]. destruct (install_rest i ltac:(lia)) as [-> _].
  rewrite E0 in S0. pose proof (Hmono 0 i ltac:(lia)).
  destruct (decide (installed i)) as [Hin|Hn].
  - exists sess0. split; [done|]. split; [apply (install_pdr i i); [lia|by right]|by left].
  - exists s1. rewrite decide_False in S0 by (intros [? ?]; apply Hn; breflect; split; [done|apply Nat.leb_le; lia]).
    split; [done|]. split; [apply (install_pdr 2 i); [lia|by left]|by right].
Qed.

Lemma race_install : exists j, (j <= 22)%nat /\ race_fate tb wb t = fate (tb j) t.
Proof using Htb Hwb Hmono.
  destruct (ru_session (tb 0%nat) t) as [s1|] eqn:E0; [|exists 0%nat; unfold race_fate, fate; rewrite E0; split; [lia|done]].
  destruct (ru_pdr (tb 2%nat) (sess_pdr_id s1)) as [pv|] eqn:E1.
  2:{ exists 0%nat. split; [lia|]. unfold race_fate, fate. rewrite E0, E1. destruct (ru_pdr (tb 0%nat) _) eqn:E; [|done].
      destruct (install_pdr 0 2 (sess_pdr_id s1)) as [? Hp]; [lia|left; by eexists|congruence]. }
  apply mk_is_Some in E1. pose proof (Hmono 3 5 ltac:(lia)).
  destruct (install_kept s1 3 E0 E1 ltac:(lia)) as (s2 & E2 & P2 & C2).
  destruct (install_kept s1 5 E0 E1 ltac:(lia)) as (s3 & E3 & P3 & C3).
  assert (Hst : forall i, (i <= 22)%nat -> ru_far (tb i) = ru_far a /\ ru_qer (tb i) = ru_qer a) by (intros; by apply install_rest).
  rewrite (race_tuple s1 s2) by done. destruct (decide (sess_pdr_id s2 = sess_pdr_id s3)) as [E|Hne].
  - exists 5%nat. split; [lia|]. destruct (Hst 5%nat ltac:(lia)). by rewrite (fate_tuple _ s3), E.
  - exists 3%nat. split; [lia|]. destruct (Hst 3%nat ltac:(lia)). rewrite (fate_tuple _ s2) by done. f_equal.
    assert (sess_pdr_id s2 <> pdr_id) as Hx.
    { intros Hx. apply Hne. rewrite Hx. destruct C3 as [[_ ->]|[Hold ->]]; [done|].
      destruct C2 as [[[? ?] _]|[_ ->]]; [|done]. exfalso. apply Hold. breflect. split; [done|apply Nat.leb_le; lia]. }
    destruct (install_rest 3 ltac:(lia)) as (_ & B2 & _). destruct (install_rest 5 ltac:(lia)) as (_ & B3 & _).
    by rewrite B2, B3.
Qed.
End install.

(** Removing one: a packet that found the session may miss the rest. *)
Lemma race_remove teid pdr_id :
  (forall i, (i <= 22)%nat -> tb i = commits_all (take (st i) (removal_writes teid pdr_id)) a) ->
  (forall i, (i <= 22)%nat -> ru_far (wb i) = ru_far a /\ ru_qer (wb i) = ru_qer a) ->
  race_fate tb wb t = fate a t \/ race_fate tb wb t ∈ [MissTeid; MissPdr; MissFar].
Proof using Hmono.
  intros Htb Hwb.
  assert (Hst : forall i, (i <= 22)%nat ->
    (forall x v, ru_session (tb i) x = Some v -> ru_session a x = Some v) /\
    (forall x v, ru_pdr (tb i) x = Some v -> ru_pdr a x = Some v) /\
    (forall x v, ru_bundle (tb i) x = Some v -> ru_bundle a x = Some v)).
  { intros i Hi. rewrite (Htb i Hi). destruct (st i) as [|[|[|n]]]; cbn [removal_writes take]; rewrite ?take_nil;
      cbn [commits_all foldl commit ru_session ru_pdr ru_bundle ru_far ru_qer]; split_and!;
      try done; intros x v; apply fn_insert_none. }
  destruct (ru_session (tb 0%nat) t) as [s1|] eqn:E0; [|right; unfold race_fate; rewrite E0; set_solver].
  destruct (ru_pdr (tb 2%nat) (sess_pdr_id s1)) as [pv|] eqn:E1; [|right; unfold race_fate; rewrite E0, E1; set_solver].
  destruct (ru_session (tb 3%nat) t) as [s2|] eqn:E2; [|right; unfold race_fate; rewrite E0, E1, E2; set_solver].
  rewrite (race_tuple s1 s2) by first [done|by eexists].
  destruct (ru_bundle (tb 5%nat) (sess_pdr_id s2)) as [sl|] eqn:E3; [left|right; set_solver].
  apply (Hst 0%nat) in E0; [|lia]. apply (Hst 2%nat) in E1; [|lia]. apply (Hst 3%nat) in E2; [|lia].
  apply (Hst 5%nat) in E3; [|lia]. rewrite E0 in E2. injection E2 as <-.
  rewrite (fate_tuple a s1) by (try done; by eexists). by rewrite E3.
Qed.

End fates.

(** ** The races *)

(** Operations that change an uplink packet's rules by its tuple alone. *)
Definition retuples (o : op) : Prop :=
  match o with OpModify _ _ _ _ _ | OpInstallDlUe _ _ _ _ | OpInstallConfig _ => True | _ => False end.

Lemma retuples_plans ops : Forall retuples ops -> plans_only bundle_write ops.
Proof.
  rewrite Forall_forall. intros Hops o a Ho. specialize (Hops o Ho). destruct o; try done; cbn [plan];
    repeat case_match; by repeat constructor.
Qed.

(** The scripts no uplink packet can tell from one atomic change. *)
Inductive one_decision : list op -> Prop :=
| od_session teid pdr_id qer_id far_id precedence urr_id :
    one_decision [OpInstallSession teid pdr_id qer_id far_id precedence urr_id]
| od_tuples ops : Forall retuples ops -> one_decision ops.

(** The tables a packet reads, on the way of a script: those of its lookups in
    order, and those of its loads a write ahead of them at most. *)
Definition glimpses (n : nat) (a : rules) (ops : list op) (gs hs : nat -> agenda) : Prop :=
  climb agenda_step n (start a ops) gs /\ forall i, (i <= n)%nat -> request_step (gs i) (hs i).

Lemma glimpses_from n a ops gs hs i :
  glimpses n a ops gs hs -> (i <= n)%nat -> rtc agenda_step (start a ops) (gs i) /\ rtc agenda_step (start a ops) (hs i).
Proof.
  intros [Hc Hr] Hi. pose proof (climb_from _ _ _ _ _ Hc Hi) as Hg. split; [done|]. etrans; [exact Hg|]. by apply request_agenda, Hr.
Qed.

Lemma glimpses_one_decision ops a gs hs t :
  one_decision ops -> glimpses 22 a ops gs hs ->
  exists j, (j <= 22)%nat /\ race_fate (fun i => ag_table (gs i)) (fun i => ag_table (hs i)) t = fate (ag_table (gs j)) t.
Proof.
  intros Hops Hgl. pose proof (fun i => glimpses_from _ _ _ _ _ i Hgl) as Hfrom. destruct Hgl as [Hc _].
  destruct Hops as [teid pdr_id qer_id far_id precedence urr_id|ops Hops].
  - destruct (climb_stages _ _ _ _ Hc) as (st & Hmono & Htb). refine (race_install a t _ _ st Hmono _ _ _ _ _ _ Htb _).
    intros i Hi. destruct (agenda_stage _ _ _ (proj2 (Hfrom i Hi))) as [n ->]. apply session_stage.
  - exists 5%nat. split; [lia|]. pose proof (retuples_plans _ Hops) as Hp.
    apply (race_bundles a t (fun i => ag_table (gs i)) (fun i => ag_table (hs i))); intros i Hi; destruct (Hfrom i Hi) as [Hg Hh];
      split_and!; by eapply (agenda_keeps bundle_write); [exact Hp|by intros []|].
Qed.

(** An operation of one write. *)
Lemma glimpses_once o a w gs hs :
  plan o a = [w] -> glimpses 22 a [o] gs hs ->
  forall i, (i <= 22)%nat -> (ag_table (gs i) = a \/ ag_table (gs i) = commit w a) /\
    (ag_table (hs i) = a \/ ag_table (hs i) = commit w a).
Proof.
  intros Hp Hgl i Hi. destruct (glimpses_from _ _ _ _ _ i Hgl Hi) as [Hg Hh].
  assert (Hone : forall g, rtc agenda_step (start a [o]) g -> ag_table g = a \/ ag_table g = commit w a).
  { intros g Hx. destruct (agenda_stage _ _ _ Hx) as [n ->]. rewrite Hp. destruct n; [by left|right]. cbn. by rewrite take_nil. }
  split; by apply Hone.
Qed.

Section races.
Context `{BpfKernelLaws K}.

(** A packet whose reads see the maps of [ks] and [ws] is treated by a verdict;
    or its session has been evicted before XDP, or before TC, looked it up. *)
Definition raced (ks ws : nat -> K) (g : gpdu) (v : verdict) : Prop :=
  treats_at ks ws g v \/
  ru_session (view (ks 0%nat)) (g_teid g) = None /\ treats_at ks ws g MissTeid \/
  ru_session (view (ks 3%nat)) (g_teid g) = None /\ treats_at ks ws g MissFar.

(** The maps of the reads hold tables. *)
Definition read_tables (n : nat) (tb wb : nat -> rules) (ks ws : nat -> K) : Prop :=
  forall i, (i <= n)%nat -> (kernel_ok (ks i) /\ models (tb i) (ks i)) /\ (kernel_ok (ws i) /\ models (wb i) (ws i)).

Lemma qer_seen_models tb wb ks ws i x :
  read_tables 22 tb wb ks ws -> (i <= 18)%nat -> is_u32 x -> qer_seen (fun j => view (ws j)) i x = qer_seen wb i x.
Proof.
  intros Hm Hi Hx. unfold qer_seen. assert (Hq : forall j, (j <= 22)%nat -> ru_qer (view (ws j)) x = ru_qer (wb j) x)
    by (intros j Hj; by apply (mo_qer _ _ (proj2 (proj2 (Hm j Hj))))). by rewrite !Hq by lia.
Qed.

Lemma uplink_treats_at tb wb ks ws g :
  read_tables 22 tb wb ks ws -> gpdu_wf g -> raced ks ws g (race_fate tb wb (g_teid g)).
Proof.
  intros Hm Hg. assert (Hk : forall i, (i <= 22)%nat -> kernel_ok (ks i)) by (intros; by apply Hm).
  pose proof (view_treats_at ks ws g Hk Hg) as Ht. pose proof (wf_teid _ Hg) as Hteid. revert Ht. unfold raced, race_fate. cbv zeta.
  assert (Hpdr : forall i t sess, (i <= 22)%nat -> ru_session (view (ks i)) t = Some sess -> is_u32 (sess_pdr_id sess)).
  { intros i t sess Hi Es. cbn in Es. destruct (contents (ks i) "teid_session" _) as [v|] eqn:Hv; [|done]. injection Es as <-.
    apply session_key. by destruct (law_wf (ks i) "teid_session" _ _ _ (Hk i Hi) eq_refl eq_refl Hv). }
  assert (Hmo : forall i, (i <= 22)%nat -> models (tb i) (ks i)) by (intros; by apply Hm).
  assert (Hmw : forall i, (i <= 22)%nat -> models (wb i) (ws i)) by (intros; by apply Hm).
  destruct (mo_session _ _ (Hmo 0%nat ltac:(lia)) _ Hteid) as [E0|E0]; [rewrite E0; intros Ht; right; left; by split|].
  rewrite <-E0. destruct (ru_session (view (ks 0%nat)) (g_teid g)) as [s1|] eqn:E0'; [|by left].
  rewrite <-(mo_pdr _ _ (Hmo 2%nat ltac:(lia)) _ (Hpdr 0%nat _ _ ltac:(lia) E0')).
  destruct (ru_pdr (view (ks 2%nat)) _); [|by left].
  destruct (mo_session _ _ (Hmo 3%nat ltac:(lia)) _ Hteid) as [E2|E2]; [rewrite E2; intros Ht; right; right; by split|].
  rewrite <-E2. destruct (ru_session (view (ks 3%nat)) (g_teid g)) as [s2|] eqn:E2'; [|by left].
  rewrite <-(mo_bundle _ _ (Hmo 5%nat ltac:(lia)) _ (Hpdr 3%nat _ _ ltac:(lia) E2')).
  destruct (ru_bundle (view (ks 5%nat)) _) as [sl|] eqn:Hl; [|by left]. destruct (live_far_u32 _ _ _ Hl) as [Hf Hq].
  rewrite (qer_seen_models tb wb ks ws) by (try done; lia).
  rewrite <-(mo_far _ _ (Hmw 8%nat ltac:(lia)) _ Hf), <-(mo_far _ _ (Hmw 9%nat ltac:(lia)) _ Hf),
    <-(mo_far _ _ (Hmw 10%nat ltac:(lia)) _ Hf), <-(mo_far _ _ (Hmw 16%nat ltac:(lia)) _ Hf),
    <-(mo_far _ _ (Hmw 22%nat ltac:(lia)) _ Hf). by left.
Qed.

(** The tables a packet of a script reads. *)
Lemma script_watched n ops s k ks ws :
  rules_cached s -> cache_ok s k -> kernel_ok k -> watched sys_bpf evicts n (script ops s, k) ks ws ->
  exists gs hs, glimpses n (view k) ops gs hs /\
    read_tables n (fun i => ag_table (gs i)) (fun i => ag_table (hs i)) ks ws.
Proof.
  intros Ho Hs Hk Hw.
  destruct (sim_watch sys_bpf next_step request_step holds evicts request_refl (sr_trans _ evicts_stable) holds_evicts n (script ops s)
    (fun '(s', r) g k' => ready s' k' /\ exists rs, r = Ok rs /\ runs (view k) ops rs (ag_table g) /\ ag_ops g = [])
    (start (view k) ops) k ks ws) as (gs & hs & Hc & HT); [|exact Hw|apply models_view| |].
  - intros [s' r] g k1 k2 He [Hr HQ]. split; [by eapply ready_evicts|done].
  - apply (sim_script ops (view k) [] s k); [by split|apply models_view].
  - exists gs, hs. split; [split|].
    + eapply climb_mono; [|exact Hc]. apply any_agenda.
    + intros i Hi. by apply HT.
    + intros i Hi. destruct (HT i Hi) as (Hg & _ & Hh).
      destruct (watched_kernel_ok evicts n _ ks ws i (sr_ok _ evicts_stable) Hw Hk Hi). done.
Qed.

(** C1: packets may race with the agent.  Take any script of the agent's
    operations, interleaved with session evictions, and a packet each of whose
    reads happens at an instant of that interleaving, in order; a read of an
    array element that a system call is overwriting may see it done already.
    There is a climb of the agenda, one table per read, each after the writes of
    the one before, and for the array reads tables at most one write ahead, such
    that an uplink G-PDU is treated as the fate these tables make up (or its
    session has been evicted), and a downlink packet as theirs. *)
Theorem packets_race_agent ops s k ks ws :
  rules_cached s -> cache_ok s k -> kernel_ok k -> watched sys_bpf evicts 22 (script ops s, k) ks ws ->
  exists gs hs, climb agenda_step 22 (start (view k) ops) gs /\ (forall i, (i <= 22)%nat -> request_step (gs i) (hs i)) /\
    (forall g, gpdu_wf g ->
       raced ks ws g (race_fate (fun i => ag_table (gs i)) (fun i => ag_table (hs i)) (g_teid g))) /\
    (forall d, dl_wf d ->
       dl_treats_at ks ws d (dl_race_fate (fun i => ag_table (gs i)) (fun i => ag_table (hs i)) (le_combine (dl_dst d)))).
Proof.
  intros Ho Hs Hk Hw. destruct (script_watched 22 ops s k ks ws Ho Hs Hk Hw) as (gs & hs & [Hc Hr] & Hm). exists gs, hs.
  do 2 (split; [done|]). split; [intros g Hg; by apply uplink_treats_at|]. intros d Hd. apply downlink_treats_at; [|done].
  intros i Hi. apply Hm. lia.
Qed.

(** C4: installing a session changes a packet's rules atomically, and so does
    any number of modifications of PDRs, with downlink rules installed at will
    in between.  Sessions, PDRs and tuples are in hash maps, whose elements
    bpf(2) replaces atomically, FARs and QERs in arrays, which the packet may
    read while they are overwritten.  Whatever the instants of its reads, an
    uplink G-PDU is treated as one table of the script says, or its session has
    been evicted. *)
Theorem race_one_decision ops s k ks ws g :
  rules_cached s -> cache_ok s k -> kernel_ok k -> watched sys_bpf evicts 22 (script ops s, k) ks ws ->
  one_decision ops -> gpdu_wf g ->
  exists a, rtc agenda_step (start (view k) ops) a /\ raced ks ws g (fate (ag_table a) (g_teid g)).
Proof.
  intros Ho Hs Hk Hw Hops Hg. destruct (script_watched 22 ops s k ks ws Ho Hs Hk Hw) as (gs & hs & Hgl & Hm).
  destruct (glimpses_one_decision ops (view k) gs hs (g_teid g) Hops Hgl) as (j & Hj & E). exists (gs j).
  split; [apply (glimpses_from _ _ _ _ _ j Hgl Hj)|]. rewrite <-E. by apply uplink_treats_at.
Qed.

(** The elements of the FAR and QER arrays are always there. *)
Lemma array_present k name d x :
  kernel_ok k -> map_def_of name = Some d -> md_type d = MT_ARRAY -> md_ksize d = 4%nat -> 0 <= x < md_max d -> md_max d <= 2 ^ 32 ->
  is_Some (contents k name (le_split 4 x)).
Proof.
  intros Hk Hd Ht Hks Hx Hmax. apply (law_array k name d (le_split 4 x) Hk Hd Ht). unfold array_index.
  rewrite bool_decide_eq_true_2 by (rewrite length_le_split; congruence). rewrite le_combine_split_small; [apply Z.ltb_lt; lia|].
  change (2 ^ (Z.of_nat 4 * 8)) with (2 ^ 32). lia.
Qed.

(** C6: what a race can do at worst, when the packet reads a FAR or a QER while
    it is overwritten (one the array has).  A packet that meets [install_far] is
    treated as the table before or after says; or, when the two FARs do not both drop or both buffer,
    it may be redirected to the interface of either even if that one does not
    forward.  One that meets [install_qer] is treated as before, but for its
    policing, each of whose loads sees the old QER or the new one.  One that
    meets [remove_session] is treated as before the removal, or dropped or let
    through for want of its session, its PDR or its tuple. *)
Theorem race_at_worst s k ks ws g :
  rules_cached s -> cache_ok s k -> kernel_ok k -> gpdu_wf g ->
  (forall far_id action out_ifindex peer_ipv4_be out_teid_be, 0 <= far_id < 4096 ->
     let o := OpInstallFar far_id action out_ifindex peer_ipv4_be out_teid_be in
     let far := {| far_action := action; far_out_ifindex := out_ifindex;
                   far_peer_ipv4_be := peer_ipv4_be; far_out_teid_be := out_teid_be |} in
     watched sys_bpf evicts 22 (script [o] s, k) ks ws ->
     raced ks ws g (fate (view k) (g_teid g)) \/
     raced ks ws g (fate (commit (WFar far_id (Some far)) (view k)) (g_teid g)) \/
     exists old sl far', ru_far (view k) far_id = Some old /\ slot_far_id sl = far_id /\
       (far' = old \/ far' = far) /\ forwards far' = false /\
       ~ (far_action old = FAR_DROP /\ far_action far = FAR_DROP) /\
       ~ (far_action old = FAR_BUFFER /\ far_action far = FAR_BUFFER) /\
       raced ks ws g (FarForward sl far' (steady <$> ru_qer (view k) (slot_qer_id sl)))) /\
  (forall qer_id mbr_ul_bps mbr_dl_bps burst_bytes, 0 <= qer_id < 4096 ->
     watched sys_bpf evicts 22 (script [OpInstallQer qer_id mbr_ul_bps mbr_dl_bps burst_bytes] s, k) ks ws ->
     raced ks ws g (fate (view k) (g_teid g)) \/
     exists old sl far q, ru_qer (view k) qer_id = Some old /\ slot_qer_id sl = qer_id /\
       fate (view k) (g_teid g) = FarForward sl far (Some (steady old)) /\
       one_of old {| mbr_ul_bps := mbr_ul_bps; mbr_dl_bps := mbr_dl_bps; burst_bytes := burst_bytes |} q /\
       raced ks ws g (FarForward sl far (Some q))) /\
  (forall teid pdr_id,
     watched sys_bpf evicts 22 (script [OpRemoveSession teid pdr_id] s, k) ks ws ->
     raced ks ws g (fate (view k) (g_teid g)) \/ exists v, v ∈ [MissTeid; MissPdr; MissFar] /\ raced ks ws g v).
Proof.
  intros Ho Hs Hk Hg. split; [|split].
  - intros far_id action x p t Hid o far Hw. destruct (script_watched 22 _ s k ks ws Ho Hs Hk Hw) as (gs & hs & Hgl & Hm).
    pose proof (uplink_treats_at _ _ ks ws g Hm Hg) as Hr. pose proof (glimpses_once o (view k) (WFar far_id (Some far)) gs hs eq_refl Hgl) as Hone.
    assert (Hold : exists old, ru_far (view k) far_id = Some old).
    { destruct (array_present k "far_table" _ far_id Hk eq_refl eq_refl eq_refl Hid) as [v Hv]; [done|].
      cbn. rewrite Hv. by eexists. }
    destruct Hold as [old Hold].
    destruct (race_far (view k) (g_teid g) (fun i => ag_table (gs i)) (fun i => ag_table (hs i)) far_id old far Hold)
      as [E|[E|(sl & far' & E1 & E2 & E3 & E4 & E5 & E)]]; [| |rewrite E in Hr; by left|rewrite E in Hr; right; by left|].
    + intros i Hi. by destruct (proj1 (Hone i Hi)) as [->| ->].
    + intros i Hi. apply Hone. done.
    + rewrite E in Hr. right. right. by exists old, sl, far'.
  - intros qer_id ul dl b Hid Hw. destruct (script_watched 22 _ s k ks ws Ho Hs Hk Hw) as (gs & hs & Hgl & Hm).
    pose proof (uplink_treats_at _ _ ks ws g Hm Hg) as Hr. pose proof (glimpses_once (OpInstallQer qer_id ul dl b) (view k) _ gs hs eq_refl Hgl) as Hone.
    assert (Hold : exists old, ru_qer (view k) qer_id = Some old).
    { destruct (array_present k "qer_table" _ qer_id Hk eq_refl eq_refl eq_refl Hid) as [v Hv]; [done|].
      cbn. rewrite Hv. by eexists. }
    destruct Hold as [old Hold].
    destruct (race_qer (view k) (g_teid g) (fun i => ag_table (gs i)) (fun i => ag_table (hs i)) qer_id old
      {| mbr_ul_bps := ul; mbr_dl_bps := dl; burst_bytes := b |} Hold)
      as [E|(sl & far & q & E1 & E2 & E3 & E)]; [| |rewrite E in Hr; by left|].
    + intros i Hi. by destruct (proj1 (Hone i Hi)) as [->| ->].
    + intros i Hi. apply Hone. done.
    + rewrite E in Hr. right. by exists old, sl, far, q.
  - intros teid pdr_id Hw. destruct (script_watched 22 _ s k ks ws Ho Hs Hk Hw) as (gs & hs & Hgl & Hm).
    pose proof (uplink_treats_at _ _ ks ws g Hm Hg) as Hr. destruct (climb_stages _ _ _ _ (proj1 Hgl)) as (st & Hmono & Htb).
    destruct (race_remove (view k) (g_teid g) (fun i => ag_table (gs i)) (fun i => ag_table (hs i)) st Hmono teid pdr_id Htb) as [E|Hin].
    + intros i Hi. destruct (agenda_stage _ _ _ (proj2 (glimpses_from _ _ _ _ _ i Hgl Hi))) as [n ->].
      destruct n as [|[|[|n]]]; cbn; by rewrite ?take_nil.
    + left. by rewrite E in Hr.
    + right. by eexists.
Qed.
End races.

(** ** Runs on the reference kernel *)

(** The session of the demonstration, its FAR forwarding to interface 5. *)
Definition demo_forwarding : ref_kernel * (fd_cache * res unit) :=
  run ref_sys (install_far 1 FAR_FORWARD 5 0 0 demo_session.2.1) demo_session.1.

(** The agent makes it drop, after the packet's action has been decided and
    before the FAR is looked up again. *)
Definition far_to_drop : list op := [OpInstallFar 1 FAR_DROP 0 0 0].

Definition race_instants (i : nat) : ref_kernel :=
  (after ref_sys (if (i <=? 10)%nat then 0 else 9)%nat (script far_to_drop demo_forwarding.2.1, demo_forwarding.1)).2.

Lemma demo_forwarding_ready :
  kernel_ok demo_forwarding.1 /\ cache_ok demo_forwarding.2.1 demo_forwarding.1 /\ rules_cached demo_forwarding.2.1.
Proof.
  split; [apply ref_ok_check_ok; vm_compute; reflexivity|]. split; [apply cache_check_ok; vm_compute; reflexivity|].
  intros name. rewrite !elem_of_cons, elem_of_nil. intros [->|[->|[->|[]]]]; (eexists; vm_compute; reflexivity).
Qed.

Lemma race_instants_watched :
  watched ref_sys evicts 22 (script far_to_drop demo_forwarding.2.1, demo_forwarding.1) race_instants race_instants.
Proof.
  apply (after_watched ref_sys evicts 22 _ (fun i => if (i <=? 10)%nat then 0 else 9)%nat
    (fun i => if (i <=? 10)%nat then 0 else 9)%nat evicts_refl); [|by left].
  intros i _. destruct (i <=? 10)%nat eqn:E, (S i <=? 10)%nat eqn:E'; breflect; lia.
Qed.

Definition torn_slot : tc_bundle_slot :=
  {| slot_far_id := 1; slot_qer_id := 1; slot_urr_id := 1; slot_precedence := 100; slot_generation := 0 |}.
Definition drop_far : far_val :=
  {| far_action := FAR_DROP; far_out_ifindex := 0; far_peer_ipv4_be := 0; far_out_teid_be := 0 |}.

Definition unlimited : qer_reads := steady {| mbr_ul_bps := 0; mbr_dl_bps := 0; burst_bytes := 0 |}.

Lemma race_instants_fate :
  race_fate (fun i => view (race_instants i)) (fun i => view (race_instants i)) 0x1000 =
    FarForward torn_slot drop_far (Some unlimited).
Proof. vm_compute. reflexivity. Qed.

(** C15: the FAR looked up twice.  There is a machine, a session whose FAR
    forwards to an interface, and a run of [install_far] that makes it drop,
    during which a packet of the session is redirected to the interface of the
    dropping FAR, 0, though none of its reads meets a write under way: treated
    as no table of the run says. *)
Theorem race_forwards_dropped :
  exists (k : ref_kernel) s ks g sl far qer,
    rules_cached s /\ cache_ok s k /\ kernel_ok k /\ gpdu_wf g /\
    watched sys_bpf evicts 22 (script far_to_drop s, k) ks ks /\
    treats_at ks ks g (FarForward sl far qer) /\ far_action far = FAR_DROP /\ far_out_ifindex far = 0 /\
    forall a, rtc agenda_step (start (view k) far_to_drop) a -> fate (ag_table a) (g_teid g) <> FarForward sl far qer.
Proof.
  destruct demo_forwarding_ready as (Hk & Hs & Ho).
  exists demo_forwarding.1, demo_forwarding.2.1, race_instants, (plain_gpdu 0x1000 []), torn_slot, drop_far, (Some unlimited).
  pose proof race_instants_watched as Hw.
  assert (Hg : gpdu_wf (plain_gpdu 0x1000 [])) by (apply plain_gpdu_wf; split; [discriminate|reflexivity]).
  split_and!; [exact Ho|exact Hs|exact Hk|exact Hg|exact Hw| |done|done|].
  - rewrite <-race_instants_fate. apply (view_treats_at race_instants race_instants); [|exact Hg]. intros i Hi.
    eapply (watched_kernel_ok evicts); [apply (sr_ok _ evicts_stable)|exact Hw|exact Hk|exact Hi].
  - intros a Ha. destruct (agenda_stage _ _ _ Ha) as [[|i] ->]; cbn [plan far_to_drop take commits_all foldl]; rewrite ?take_nil;
      vm_compute; discriminate.
Qed.

Lemma packets_race_agent_witness :
  exists gs hs, climb agenda_step 22 (start (view demo_forwarding.1) far_to_drop) gs /\
    raced race_instants race_instants (plain_gpdu 0x1000 [])
      (race_fate (fun i => ag_table (gs i)) (fun i => ag_table (hs i)) 0x1000).
Proof.
  destruct demo_forwarding_ready as (Hk & Hs & Ho). pose proof race_instants_watched as Hw.
  revert Hk Hs Ho Hw. generalize demo_forwarding.2.1, race_instants, demo_forwarding.1. intros s ks k Hk Hs Ho Hw.
  destruct (packets_race_agent far_to_drop s k ks ks Ho Hs Hk Hw) as (gs & hs & Hc & _ & Hu & _). exists gs, hs. split; [exact Hc|].
  refine (Hu (plain_gpdu 0x1000 []) (plain_gpdu_wf 0x1000 [] _)). split; [discriminate|reflexivity].
Defined.

(** A modification of the tuple between the reads of XDP and those of TC. *)
Definition demo_modification : list op := [OpModify 0x2000 (Some 3) (Some 3) None None].

Definition modify_instants (i : nat) : ref_kernel :=
  (after ref_sys (if (i <=? 2)%nat then 0 else i)%nat (script demo_modification demo_session.2.1, demo_session.1)).2.

Lemma modify_instants_watched :
  watched ref_sys evicts 22 (script demo_modification demo_session.2.1, demo_session.1) modify_instants
    (fun i => if (i =? 4)%nat then modify_instants 5 else modify_instants i).
Proof.
  pose (ns := fun i : nat => (if (i <=? 2)%nat then 0 else i)%nat).
  pose (c := (script demo_modification demo_session.2.1, demo_session.1)).
  assert (Hw : watched ref_sys evicts 22 c (fun i => (after ref_sys (ns i) c).2)
    (fun i => (after ref_sys (if (i =? 4)%nat then 5 else ns i)%nat c).2)).
  { apply (after_watched ref_sys evicts 22 c ns _ evicts_refl).
    - intros i _. unfold ns. destruct (i <=? 2)%nat eqn:E, (S i <=? 2)%nat eqn:E'; breflect; lia.
    - intros i _. unfold ns. destruct (i =? 4)%nat eqn:E, (i <=? 2)%nat eqn:E'; breflect; lia. }
  destruct Hw as (ps & H0 & Hn & Hw). exists ps. split; [exact H0|]. split; [exact Hn|]. intros i Hi. specialize (Hw i Hi).
  cbv beta in Hw. destruct (i =? 4)%nat; exact Hw.
Qed.

Lemma race_one_decision_witness :
  exists a, rtc agenda_step (start (view demo_session.1) demo_modification) a /\
    raced modify_instants (fun i => if (i =? 4)%nat then modify_instants 5 else modify_instants i)
      (plain_gpdu 0x1000 []) (fate (ag_table a) 0x1000).
Proof.
  pose proof demo_session_ok as Hk. pose proof demo_session_cache as Hs. pose proof demo_session_cached as Ho.
  pose proof modify_instants_watched as Hw.
  assert (Hops : one_decision demo_modification) by (apply od_tuples; repeat constructor).
  revert Hk Hs Ho Hw. generalize (fun i => if (i =? 4)%nat then modify_instants 5 else modify_instants i).
  generalize demo_session.2.1, modify_instants, demo_session.1. intros s ks k ws Hk Hs Ho Hw.
  refine (race_one_decision demo_modification s k ks ws (plain_gpdu 0x1000 []) Ho Hs Hk Hw Hops (plain_gpdu_wf 0x1000 [] _)).
  split; [discriminate|reflexivity].
Defined.

Lemma race_at_worst_witness :
  raced race_instants race_instants (plain_gpdu 0x1000 []) (fate (view demo_forwarding.1) 0x1000) \/
  raced race_instants race_instants (plain_gpdu 0x1000 [])
    (fate (commit (WFar 1 (Some drop_far)) (view demo_forwarding.1)) 0x1000) \/
  exists sl far', forwards far' = false /\
    raced race_instants race_instants (plain_gpdu 0x1000 [])
      (FarForward sl far' (steady <$> ru_qer (view demo_forwarding.1) (slot_qer_id sl))).
Proof.
  destruct demo_forwarding_ready as (Hk & Hs & Ho). pose proof race_instants_watched as Hw.
  revert Hk Hs Ho Hw. generalize demo_forwarding.2.1, race_instants, demo_forwarding.1. intros s ks k Hk Hs Ho Hw.
  assert (Hg : gpdu_wf (plain_gpdu 0x1000 [])) by (apply plain_gpdu_wf; split; [discriminate|reflexivity]).
  destruct (proj1 (race_at_worst s k ks ks (plain_gpdu 0x1000 []) Ho Hs Hk Hg) 1 FAR_DROP 0 0 0 (conj Z.le_0_1 eq_refl) Hw)
    as [H|[H|(old & sl & far' & _ & _ & _ & H1 & _ & _ & H2)]]; [left; exact H|right; left; exact H|right; right].
  exists sl, far'. split; [exact H1|exact H2].
Defined.
