(* ===== verification/Eupf.v ===== *)
(** * The two clients that drive eUPF for comparison

    bench_eupf_ruleupdate.py: timed PUT requests to eUPF's REST API, whose
    statistics are in Http.v; and pfcp_session_establish.py: one PFCP session
    establishment.  eUPF, the HTTP library and scapy's PFCP layer are outside:
    requests to the first two are calls, the packet a tree of information
    elements that scapy encodes ([pfcp_bytes]) and decodes ([pfcp_type]). *)

From S2P Require Import Prelude Prog PyStruct PyText Agent Metrics Http.

Open Scope string_scope.
Open Scope Z_scope.

(** ** bench_eupf_ruleupdate.py *)

Definition BASE : string := "http://127.0.0.1:8080/api/v1".

Record put_request := { pr_url : string; pr_body : string; pr_headers : list (string * string) }.

(** What the benchmark asks of the outside: the clock, and a PUT answered within
    5 seconds. *)
Inductive eupf_call := MonotonicNs | UrlOpen (r : put_request).
Inductive eupf_reply := Ns (t : Z) | Response | UrlError (errno : Z).

Abbreviation eupfM := (py eupf_call eupf_reply unit).

Definition monotonic_ns : eupfM Z :=
  r ← request MonotonicNs; match r with Ns t => mret t | _ => raise TypeError end.

Definition json_field (name : string) (v : Z) : string := quote ++ name ++ quote ++ ": " ++ str_Z v.

(** [put_pdr(pdr_id, far_id=2, qer_id=0)]; [URLError] is an [OSError]. *)
Definition put_request_of (pdr_id far_id qer_id : Z) : put_request :=
  {| pr_url := BASE ++ "/uplink_pdr_map/" ++ str_Z pdr_id;
     pr_body := "{" ++ join_with ", " [json_field "id" pdr_id; json_field "outer_header_removal" 1;
                                       json_field "far_id" far_id; json_field "qer_id" qer_id] ++ "}";
     pr_headers := [("Content-Type", "application/json")]%list |}.

Definition put_pdr (pdr_id far_id qer_id : Z) : eupfM unit :=
  r ← request (UrlOpen (put_request_of pdr_id far_id qer_id));
  match r with UrlError e => raise (OSError e) | _ => mret tt end.

(** The loop over [range(n)], collecting samples in nanoseconds. *)
Fixpoint bench_loop (l : list Z) (base_id : Z) (samples : list Z) : eupfM (list Z) :=
  match l with
  | [] => mret samples
  | i :: l' =>
      s ← monotonic_ns;
      put_pdr (base_id + i) 2 0 ;;
      e ← monotonic_ns;
      bench_loop l' base_id (samples ++ [e - s])%list
  end.

(** [bench(n, base_id)]: the total, the samples and the figures printed. *)
Definition bench (n base_id : Z) : eupfM (Z * list Z * list Z) :=
  t_start ← monotonic_ns;
  samples ← bench_loop (range n) base_id [];
  t_end ← monotonic_ns;
  figures ← lift (bench_report n samples);
  mret (t_end - t_start, samples, figures).

(** The script, with [int(sys.argv[1])] or 100. *)
Definition bench_main (argv : list string) : eupfM (Z * list Z * list Z) :=
  n ← lift (match (argv !! 1%nat : option string) with Some a => int10 a | None => Ok 100 end);
  bench n 20000.

Example put_request_ex :
  pr_body (put_request_of 20000 2 0) =
    "{" ++ quote ++ "id" ++ quote ++ ": 20000, " ++ quote ++ "outer_header_removal" ++ quote ++ ": 1, " ++
    quote ++ "far_id" ++ quote ++ ": 2, " ++ quote ++ "qer_id" ++ quote ++ ": 0}".
Proof. reflexivity. Qed.

(** ** pfcp_session_establish.py *)

Inductive ie_value := VInt (z : Z) | VStr (s : string).

(** An information element: its scapy class, its fields, its [IE_list]. *)
Inductive ie := IE (name : string) (fields : list (string * ie_value)) (IE_list : list ie).

Record pfcp_message := { pm_header : list (string * Z); pm_body : ie }.

Definition UPF_ADDR : string * Z := ("127.0.0.1", 8805).

(** The request [main] builds. *)
Definition sess_est : pfcp_message :=
  {| pm_header := [("version", 1); ("S", 1); ("seq", 10); ("seid", 0); ("spare_oct", 0)]%list;
     pm_body := IE "PFCPSessionEstablishmentRequest" [] [
       IE "IE_CreateFAR" [] [
         IE "IE_ApplyAction" [("FORW", VInt 1)] [];
         IE "IE_FAR_Id" [("id", VInt 2)] [];
         IE "IE_ForwardingParameters" [] [
           IE "IE_DestinationInterface" [("interface", VStr "Access")] [];
           IE "IE_NetworkInstance" [("instance", VStr "access")] []]];
       IE "IE_CreatePDR" [] [
         IE "IE_FAR_Id" [("id", VInt 2)] [];
         IE "IE_OuterHeaderRemoval" [("header", VStr "GTP-U/UDP/IPv4")] [];
         IE "IE_PDI" [] [
           IE "IE_FTEID" [("V4", VInt 1); ("TEID", VInt 0x00001001); ("ipv4", VStr "10.99.0.1")] [];
           IE "IE_NetworkInstance" [("instance", VStr "access")] [];
           IE "IE_SourceInterface" [("interface", VStr "Access")] []];
         IE "IE_PDR_Id" [("id", VInt 2)] [];
         IE "IE_Precedence" [("precedence", VInt 100)] []];
       IE "IE_FSEID" [("v4", VInt 1); ("seid", VInt 0x2); ("ipv4", VStr "127.0.0.1")] [];
       IE "IE_NodeId" [("id_type", VStr "FQDN"); ("id", VStr "test-smf")] []]%list |}.

(** The UDP socket; a receive may time out. *)
Inductive udp_call := UdpSocket | UdpBindAddr (addr : string * Z) | SendTo (b : bytes) (addr : string * Z)
| SetTimeout (seconds : Z) | RecvFrom (bufsize : Z) | UdpClose.
Inductive udp_reply := UdpOk | UdpData (b : bytes) | UdpTimeout | UdpError (errno : Z).

Abbreviation udpM := (py udp_call udp_reply unit).

(** A socket call that returns nothing. *)
Definition udp (c : udp_call) : udpM unit :=
  r ← request c; match r with UdpError e => raise (OSError e) | _ => mret tt end.

Section pfcp.
(** scapy: [bytes(pkt)] and [PFCP(data).message_type]. *)
Context (pfcp_bytes : pfcp_message -> bytes) (pfcp_type : bytes -> Z).

(** [send_recv]; the value is the message type printed, [None] on a timeout. *)
Definition send_recv (pkt : pfcp_message) : udpM (option Z) :=
  udp (SendTo (pfcp_bytes pkt) UPF_ADDR) ;;
  udp (SetTimeout 3) ;;
  r ← request (RecvFrom 4096);
  match r with
  | UdpData data => mret (Some (pfcp_type data))
  | UdpTimeout => mret None
  | UdpError e => raise (OSError e)
  | UdpOk => raise TypeError
  end.

Definition pfcp_main : udpM (option Z) :=
  udp UdpSocket ;;
  udp (UdpBindAddr ("0.0.0.0", 0)) ;;
  r ← send_recv sess_est;
  udp UdpClose ;;
  mret r.
End pfcp.

(** ** A run of the benchmark *)

(** A server that takes every PUT except those [refuses] gives an error number,
    and a clock; the state is the number of readings so far. *)
Definition rest (clock : nat -> Z) (refuses : put_request -> option Z) (c : eupf_call) (i : nat) : nat * eupf_reply :=
  match c with
  | MonotonicNs => (S i, Ns (clock i))
  | UrlOpen r => (i, match refuses r with Some e => UrlError e | None => Response end)
  end.

(** The PUT requests among the calls. *)
Definition puts (tr : list eupf_call) : list put_request :=
  omap (fun c => match c with UrlOpen r => Some r | _ => None end) tr.

Section bench.
Context (clock : nat -> Z) (refuses : put_request -> option Z) (base_id : Z).

Definition puts_of (l : list Z) : list put_request := (fun i => put_request_of (base_id + i) 2 0) <$> l.

Lemma puts_app a b : puts (a ++ b) = (puts a ++ puts b)%list.
Proof using Type. apply omap_app. Qed.

(** One turn of the loop. *)
Lemma bench_turn x l samples j :
  let r := put_request_of (base_id + x) 2 0 in
  let later := bench_loop l base_id (samples ++ [clock (S j) - clock j])%list tt in
  run (rest clock refuses) (bench_loop (x :: l) base_id samples tt) j =
    match refuses r with
    | Some e => (S j, (tt, Exc (OSError e)))
    | None => run (rest clock refuses) later (S (S j))
    end /\
  puts (run_trace (rest clock refuses) (bench_loop (x :: l) base_id samples tt) j) =
    (r :: match refuses r with Some _ => [] | None => puts (run_trace (rest clock refuses) later (S (S j))) end)%list.
Proof using Type.
  intros r later. cbn [bench_loop]. rewrite run_py_bind, run_trace_py_bind.
  change (run (rest clock refuses) (monotonic_ns tt) j) with (S j, (tt, Ok (clock j) : res Z)). cbv beta iota.
  assert (Hput : run (rest clock refuses) (put_pdr (base_id + x) 2 0 tt) (S j) =
      (S j, (tt, match refuses r with Some e => Exc (OSError e) | None => Ok tt end)) /\
    run_trace (rest clock refuses) (put_pdr (base_id + x) 2 0 tt) (S j) = [UrlOpen r]%list).
  { unfold put_pdr. rewrite run_py_bind, run_trace_py_bind. cbn -[put_request_of]. fold r. by destruct (refuses r). }
  destruct Hput as [Hput Htr]. rewrite run_py_bind, run_trace_py_bind, Hput, Htr.
  destruct (refuses r) as [e|]; [done|].
  rewrite run_py_bind, run_trace_py_bind.
  change (run (rest clock refuses) (monotonic_ns tt) (S j)) with (S (S j), (tt, Ok (clock (S j)) : res Z)). cbv beta iota.
  by rewrite !puts_app.
Qed.

Lemma bench_loop_ok l samples j :
  Forall (fun r => refuses r = None) (puts_of l) ->
  run (rest clock refuses) (bench_loop l base_id samples tt) j =
    ((j + 2 * length l)%nat, (tt, Ok (samples ++ ((fun i => clock (j + 2 * i + 1)%nat - clock (j + 2 * i)%nat) <$> seq 0 (length l)))%list)) /\
  puts (run_trace (rest clock refuses) (bench_loop l base_id samples tt) j) = puts_of l.
Proof using Type.
  revert samples j. induction l as [|x l IH]; intros samples j Hf.
  { cbn. rewrite app_nil_r. split; [do 2 f_equal; lia|done]. }
  apply Forall_cons in Hf as [Hx Hf]. destruct (bench_turn x l samples j) as [-> ->]. rewrite Hx.
  destruct (IH (samples ++ [clock (S j) - clock j])%list (S (S j)) Hf) as [-> Ht]. rewrite Ht. split; [|done].
  cbn [length]. f_equal; [lia|]. do 2 f_equal. rewrite <-app_assoc. f_equal. cbn [app seq fmap list_fmap].
  f_equal; [f_equal; f_equal; lia|]. change (list_fmap _ _ ?f ?x) with (f <$> x).
  rewrite <-fmap_S_seq, <-list_fmap_compose. apply list_fmap_ext. intros i y _. cbn.
  f_equal; f_equal; lia.
Qed.

(** The first refusal ends it. *)
Lemma bench_loop_refused l samples j k r e :
  puts_of l !! k = Some r -> refuses r = Some e -> Forall (fun r => refuses r = None) (take k (puts_of l)) ->
  run (rest clock refuses) (bench_loop l base_id samples tt) j = ((j + 2 * k + 1)%nat, (tt, Exc (OSError e))) /\
  puts (run_trace (rest clock refuses) (bench_loop l base_id samples tt) j) = take (S k) (puts_of l).
Proof using Type.
  revert samples j k. induction l as [|x l IH]; intros samples j k Hr He Hf; [done|].
  destruct (bench_turn x l samples j) as [-> ->]. destruct k as [|k]; cbn [puts_of fmap list_fmap lookup list_lookup take] in *.
  - injection Hr as ->. rewrite He. split; [f_equal; lia|done].
  - apply Forall_cons in Hf as [Hx Hf]. rewrite Hx.
    destruct (IH (samples ++ [clock (S j) - clock j])%list (S (S j)) k Hr He Hf) as [-> ->]. split; [f_equal; lia|done].
Qed.
End bench.

(** The figures printed are in order. *)
Lemma bench_report_ok l :
  1 <= Z.of_nat (length l) <= 4096 ->
  exists mn p50 p95 p99 mx, bench_report (Z.of_nat (length l)) l = Ok [mn; p50; p95; p99; mx]%list /\
    mn <= p50 <= p95 /\ p95 <= p99 <= mx /\ forall x, x ∈ l -> mn <= x <= mx.
Proof.
  intros Hn. destruct (ranks _ Hn) as (_ & _ & R50 & R95 & R99).
  set (n := Z.of_nat (length l)) in *. assert (Hl : Z.of_nat (length (sorted l)) = n) by (by rewrite length_sorted).
  unfold bench_report, bench_pct. rewrite (proj2 (Z.eqb_neq _ _)), R50, R95, R99 by lia.
  assert (Q : forall c, 0 <= c < 100 -> 0 <= c * (n - 1) / 100 < n).
  { intros c Hc. split; [apply Z.div_pos; nia|apply Z.div_lt_upper_bound; nia]. }
  pose proof (Q 95 ltac:(lia)) as Q95. pose proof (Q 99 ltac:(lia)) as Q99.
  assert (Q50 : 0 <= (n - 1) / 2 < n) by (split; [apply Z.div_pos; lia|apply Z.div_lt_upper_bound; lia]).
  assert (H59 : (n - 1) / 2 <= 95 * (n - 1) / 100)
    by (apply Z.div_le_lower_bound; [lia|]; pose proof (Z.mul_div_le (n - 1) 2 ltac:(lia)); lia).
  assert (H99 : 95 * (n - 1) / 100 <= 99 * (n - 1) / 100) by (apply Z.div_le_mono; lia).
  destruct (index_ok (sorted l) 0) as (mn & -> & E0); [lia|].
  destruct (index_ok (sorted l) ((n - 1) / 2)) as (p50 & -> & E50); [lia|].
  destruct (index_ok (sorted l) (95 * (n - 1) / 100)) as (p95 & -> & E95); [lia|].
  destruct (index_ok (sorted l) (99 * (n - 1) / 100)) as (p99 & -> & E99); [lia|].
  destruct (lookup_lt_is_Some_2 (sorted l) (pred (length (sorted l)))) as [mx Emx]; [lia|].
  rewrite last_lookup, Emx. exists mn, p50, p95, p99, mx. split; [reflexivity|].
  split; [split; (eapply sorted_mono; [|eassumption..]; lia)|].
  split; [split; (eapply sorted_mono; [|eassumption..]; lia)|].
  intros x Hx. rewrite <-sorted_perm in Hx. apply list_elem_of_lookup in Hx as [i Hi].
  pose proof (lookup_lt_Some _ _ _ Hi). split; (eapply sorted_mono; [|eassumption..]; lia).
Qed.

(** Under a clock that does not go back, the samples fit in the total. *)
Lemma samples_within clock n :
  (forall i, clock i <= clock (S i)) ->
  sumZ ((fun i => clock (2 * i + 2)%nat - clock (2 * i + 1)%nat) <$> seq 0 n) <= clock (2 * n + 1)%nat - clock 0%nat.
Proof.
  intros Hc. induction n as [|n IH]; [specialize (Hc 0%nat); cbn in *; lia|].
  rewrite seq_S, fmap_app, sumZ_app. pose proof (Hc (2 * n + 2)%nat) as H2.
  replace (S (2 * n + 2)) with (2 * S n + 1)%nat in H2 by lia.
  change (sumZ ((fun i => clock (2 * i + 2)%nat - clock (2 * i + 1)%nat) <$> [0 + n]%nat%list))
    with (clock (2 * n + 2)%nat - clock (2 * n + 1)%nat + 0). lia.
Qed.

Lemma put_url_inj x y : 0 <= x -> 0 <= y -> pr_url (put_request_of x 2 0) = pr_url (put_request_of y 2 0) -> x = y.
Proof.
  intros Hx Hy E. cbn [put_request_of pr_url] in E.
  assert (Hcancel : forall p a b : string, p ++ a = p ++ b -> a = b).
  { induction p as [|c p IH]; intros a b Hab; [done|]. rewrite !append_cons in Hab. injection Hab as Hab. by apply IH. }
  apply Hcancel, Hcancel in E. pose proof (take_str_Z x "" Hx) as T. rewrite append_nil_r, E in T.
  pose proof (take_str_Z y "" Hy) as T'. rewrite append_nil_r, T in T'. by injection T'.
Qed.

(** C40: the eUPF benchmark times what it claims to.  For 1 to 4096 requests
    that the server accepts, [bench] makes exactly one PUT per rule, in order
    and each to its own URL, between two readings of the clock; its samples are
    those differences, the total spans them all, and what it prints is ordered:
    [min <= p50 <= p95 <= p99 <= max], with every sample between the first and
    the last.  The first request that is refused ends it: no other is made, the
    error is raised and no figure is printed. *)
Theorem bench_outcome clock refuses n base_id :
  1 <= n <= 4096 -> 0 <= base_id ->
  let reqs := puts_of base_id (range n) in
  let made := puts (run_trace (rest clock refuses) (bench n base_id tt) 0%nat) in
  NoDup (pr_url <$> reqs) /\
  (Forall (fun r => refuses r = None) reqs ->
   exists samples mn p50 p95 p99 mx j,
     run (rest clock refuses) (bench n base_id tt) 0%nat =
       (j, (tt, Ok (clock (2 * Z.to_nat n + 1)%nat - clock 0%nat, samples, [mn; p50; p95; p99; mx]%list))) /\
     samples = ((fun i => clock (2 * i + 2)%nat - clock (2 * i + 1)%nat) <$> seq 0 (Z.to_nat n)) /\
     made = reqs /\
     mn <= p50 <= p95 /\ p95 <= p99 <= mx /\ (forall x, x ∈ samples -> mn <= x <= mx) /\
     ((forall i, clock i <= clock (S i)) -> sumZ samples <= clock (2 * Z.to_nat n + 1)%nat - clock 0%nat)) /\
  (forall k r e, reqs !! k = Some r -> refuses r = Some e -> Forall (fun r => refuses r = None) (take k reqs) ->
     run (rest clock refuses) (bench n base_id tt) 0%nat = ((2 * k + 2)%nat, (tt, Exc (OSError e))) /\
     made = take (S k) reqs).
Proof.
  intros Hn Hb reqs made. split; [|split].
  - unfold reqs, puts_of, range. rewrite <-!list_fmap_compose. apply NoDup_fmap_2_strong; [|apply NoDup_seq].
    intros x y _ _ E. apply put_url_inj in E; lia.
  - intros Hf. set (samples := (fun i => clock (2 * i + 2)%nat - clock (2 * i + 1)%nat) <$> seq 0 (Z.to_nat n)).
    assert (Hlen : length (range n) = Z.to_nat n) by (unfold range; by rewrite length_fmap, length_seq).
    destruct (bench_loop_ok clock refuses base_id (range n) [] 1 Hf) as [Hl Ht]. rewrite Hlen in Hl. cbn [app] in Hl.
    assert (Hs : ((fun i => clock (1 + 2 * i + 1)%nat - clock (1 + 2 * i)%nat) <$> seq 0 (Z.to_nat n)) = samples).
    { apply list_fmap_ext. intros i y _. f_equal; f_equal; lia. }
    rewrite Hs in Hl. assert (Hls : Z.of_nat (length samples) = n) by (unfold samples; rewrite length_fmap, length_seq; lia).
    destruct (bench_report_ok samples) as (mn & p50 & p95 & p99 & mx & Hr & H1 & H2 & H3); [lia|]. rewrite Hls in Hr.
    exists samples, mn, p50, p95, p99, mx, (S (1 + 2 * Z.to_nat n)).
    unfold made, bench. rewrite run_py_bind, run_trace_py_bind.
    change (run (rest clock refuses) (monotonic_ns tt) 0%nat) with (1%nat, (tt, Ok (clock 0%nat) : res Z)). cbv beta iota.
    rewrite run_py_bind, run_trace_py_bind, Hl. rewrite run_py_bind, run_trace_py_bind.
    change (run (rest clock refuses) (monotonic_ns tt) ?j) with (S j, (tt, Ok (clock j) : res Z)). cbv beta iota.
    rewrite Hr, bind_lift_ok. split.
    { cbn [run mret py_ret]. do 6 f_equal. f_equal. lia. }
    split; [done|]. split.
    { rewrite !puts_app, Ht. cbn. by rewrite app_nil_r. }
    split; [done|split; [done|split; [done|apply samples_within]]].
  - intros k r e Hr He Hf. destruct (bench_loop_refused clock refuses base_id (range n) [] 1 k r e Hr He Hf) as [Hl Ht].
    unfold made, bench. rewrite run_py_bind, run_trace_py_bind.
    change (run (rest clock refuses) (monotonic_ns tt) 0%nat) with (1%nat, (tt, Ok (clock 0%nat) : res Z)). cbv beta iota.
    rewrite run_py_bind, run_trace_py_bind, Hl. split; [f_equal; lia|]. rewrite !puts_app, Ht. cbn. by rewrite app_nil_r.
Qed.

(** Three requests; then the second one refused. *)
Lemma bench_outcome_witness :
  let clock i := 10 * Z.of_nat i in
  let refuses (r : put_request) := if String.eqb (pr_url r) (BASE ++ "/uplink_pdr_map/20001") then Some 111 else None in
  (exists samples figures j,
     run (rest clock (fun _ => None)) (bench 3 20000 tt) 0%nat = (j, (tt, Ok (70, samples, figures))) /\ sumZ samples <= 70) /\
  run (rest clock refuses) (bench 3 20000 tt) 0%nat = (4%nat, (tt, Exc (OSError 111))) /\
  length (puts (run_trace (rest clock refuses) (bench 3 20000 tt) 0%nat)) = 2%nat.
Proof.
  intros clock refuses. assert (Hn : 1 <= 3 <= 4096) by (split; discriminate). assert (Hb : 0 <= 20000) by discriminate. split.
  - destruct (bench_outcome clock (fun _ => None) 3 20000 Hn Hb) as (_ & Hok & _).
    destruct Hok as (samples & mn & p50 & p95 & p99 & mx & j & Hr & _ & _ & _ & _ & _ & Hs); [apply Forall_true; reflexivity|].
    exists samples, [mn; p50; p95; p99; mx]%list, j. split; [exact Hr|]. apply Hs. intros i. unfold clock. lia.
  - destruct (bench_outcome clock refuses 3 20000 Hn Hb) as (_ & _ & Hno).
    destruct (Hno 1%nat (put_request_of 20001 2 0) 111) as [Hr Ht]; [reflexivity..| |].
    + apply Forall_cons. split; [reflexivity|apply Forall_nil_2].
    + split; [exact Hr|]. rewrite Ht. reflexivity.
Defined.

(** ** The PFCP exchange *)

(** A socket on which everything works but the receive, which gives [r]. *)
Definition udp_peer (r : udp_reply) (c : udp_call) (k : unit) : unit * udp_reply :=
  (k, match c with RecvFrom _ => r | _ => UdpOk end).

Definition ie_name (x : ie) : string := match x with IE name _ _ => name end.
Definition ie_fields (x : ie) : list (string * ie_value) := match x with IE _ fields _ => fields end.
Definition ie_children (x : ie) : list ie := match x with IE _ _ l => l end.

(** The field [id] of the elements [inner] within the elements [outer] of a
    message. *)
Definition ids_in (outer inner : string) (m : pfcp_message) : list ie_value :=
  filter (fun x => ie_name x = outer) (ie_children (pm_body m)) ≫= (fun x =>
    filter (fun y => ie_name y = inner) (ie_children x) ≫= (fun y =>
      snd <$> filter (fun f => f.1 = "id") (ie_fields y))).

(** The PFCP client establishes its session in one datagram.  It sends one
    request to eUPF, in which the FAR every PDR names is created too, waits
    once for a datagram of at most 4096 bytes and 3 seconds, and then reports
    the type of the answer, or a timeout, and closes the socket; any other
    error of the receive is raised, with the socket left open. *)
Theorem pfcp_main_outcome pfcp_bytes pfcp_type r :
  r <> UdpOk ->
  let out := match r with
    | UdpData data => Ok (Some (pfcp_type data)) | UdpTimeout => Ok None
    | UdpError e => Exc (OSError e) | UdpOk => Exc TypeError end in
  run (udp_peer r) (pfcp_main pfcp_bytes pfcp_type tt) tt = (tt, (tt, out)) /\
  run_trace (udp_peer r) (pfcp_main pfcp_bytes pfcp_type tt) tt =
    ([UdpSocket; UdpBindAddr ("0.0.0.0", 0); SendTo (pfcp_bytes sess_est) UPF_ADDR; SetTimeout 3; RecvFrom 4096] ++
     (match out with Ok _ => [UdpClose] | Exc _ => [] end))%list /\
  ids_in "IE_CreatePDR" "IE_PDR_Id" sess_est = [VInt 2]%list /\
  ids_in "IE_CreatePDR" "IE_FAR_Id" sess_est ⊆ ids_in "IE_CreateFAR" "IE_FAR_Id" sess_est.
Proof.
  intros Hr out. split; [|split; [|split; [reflexivity|]]].
  - by destruct r.
  - by destruct r.
  - intros x Hx. exact Hx.
Qed.

Lemma pfcp_main_outcome_witness :
  run (udp_peer (UdpData [z2b 0x21; z2b 51])) (pfcp_main (fun _ => []) (fun b => load 1 1 b) tt) tt =
    (tt, (tt, Ok (Some 51))).
Proof.
  exact (proj1 (pfcp_main_outcome (fun _ => []%list) (fun b => load 1 1 b) (UdpData [z2b 0x21; z2b 51]%list) ltac:(discriminate))).
Defined.
