(* ===== verification/Plots.v ===== *)
(** * The plotting scripts

    make_plots.py and make_plot_contention.py as programmes over drawing and
    printing calls: which curves, bars and tables they draw from which data.
    numpy and pandas are outside; the functions the scripts call are arguments,
    and what a theorem relies on is one of its hypotheses.  Data are rationals,
    which numpy rounds to doubles. *)

From Stdlib Require Import QArith.QArith_base Lqa.
From stdpp Require Import sorting.
From S2P Require Import Prelude Prog PyStruct PyText Agent Metrics Http.

Open Scope string_scope.
Open Scope Z_scope.

(** What a script does, in order.  The style arguments of curves and axes are
    kept as text; those of bars, marks, tables and saved files (transparency,
    edges, padding) are left out. *)
Inductive plot_call :=
| Subplots (width height : Q)
| Plot (xs ys : list Q) (style : list string) (label : string)
| Bar (xs : list Q) (heights : list (option Q)) (width : Q) (color label : string)
| Marks (xs : list Q) (ys : list (option Q)) (style : string)
| SetXticks (xs : list Q) (labels : list string)
| AxCall (method : string) (args : list string)
| SaveFig (path : string)
| CloseFig
| ToCsv (path : string) (columns : list string) (table : list (list Q))
| PrintTable (columns : list string) (table : list (list Q))
| PrintText (text : string)
| PrintInt (label : string) (value : Z)
| PrintHeadline (rate n : Z) (total p50 p95 p99 : Q)
| PrintLoss (total_packets total_loss : Z) (percent : Q).

Abbreviation plotM := (py plot_call unit unit).

(** A call of which only the effect matters. *)
Definition call (c : plot_call) : plotM unit := request c ;; mret tt.

Definition calls (cs : list plot_call) : plotM unit := for_each cs call.

(** [s.replace(old, new)]; [skip] counts the characters of a match already
    consumed. *)
Fixpoint replace_from (skip : nat) (old new s : string) : string :=
  match s with
  | EmptyString => ""
  | String a s' =>
      match skip with
      | S k => replace_from k old new s'
      | O => match strip_prefix old s with
             | Some _ => new ++ replace_from (String.length old - 1) old new s'
             | None => String a (replace_from 0 old new s')
             end
      end
  end.
Definition str_replace (old new s : string) : string := replace_from 0 old new s.

Example replace_ex : str_replace ".pdf" ".png" "a.pdf/fig.pdf" = "a.png/fig.png".
Proof. reflexivity. Qed.

(** ** make_plots.py *)

Section make_plots.
(** The [results] directory; the [update_us] column of a CSV file, if the file
    exists; and numpy. *)
Context (RESULTS : string) (read_update_us : string -> option (list Q)).
Context (np_sort : list Q -> list Q) (np_mean np_min np_max : list Q -> Q) (np_percentile : list Q -> Z -> Q).

Definition path_join (a b : string) : string := a ++ "/" ++ b.

Definition load_clean (n : Z) : option (list Q) :=
  read_update_us (path_join RESULTS ("clean_n" ++ str_Z n ++ ".csv")).

(** [x is None or len(x) == 0] skips the case. *)
Definition clean_data (n : Z) : option (list Q) :=
  match load_clean n with Some [] | None => None | Some x => Some x end.

(** [np.arange(1, len(xs) + 1) / len(xs)] *)
Definition cdf_steps (len : nat) : list Q := (fun i => inject_Z (Z.of_nat i) / inject_Z (Z.of_nat len))%Q <$> seq 1 len.

(** The curve of one case. *)
Definition cdf_curve (x : list Q) (n : Z) (c : string) : plot_call :=
  let xs := np_sort x in
  Plot xs (cdf_steps (length xs)) [c; "lw=1.5"]%list ("$N=" ++ str_Z n ++ "$ rules").

(** [zip(cases, colors, markers)] *)
Definition cdf_cases : list (Z * string * string) :=
  zip (zip [10; 100; 1000] ["tab:blue"; "tab:orange"; "tab:green"]) ["o"; "s"; "^"]%list.

Definition save_both (out : string) : plotM unit :=
  call (SaveFig out) ;; call (SaveFig (str_replace ".pdf" ".png" out)).

Definition fig_cdf : plotM unit :=
  call (Subplots (35 # 10) (24 # 10)) ;;
  for_each cdf_cases (fun '(n, c, m) =>
    match clean_data n with Some x => call (cdf_curve x n c) | None => mret tt end) ;;
  calls [AxCall "set_xlabel" ["Per-rule update latency ($\mu$s)"]; AxCall "set_ylabel" ["Empirical CDF"];
         AxCall "set_xscale" ["log"]; AxCall "grid" ["which=both"; "linestyle=:"; "linewidth=0.5"; "alpha=0.7"];
         AxCall "set_ylim" ["0"; "1.01"]; AxCall "legend" ["lower right"; "framealpha=0.9"];
         AxCall "set_title" ["Rule-update latency distribution"]; AxCall "tight_layout" ["pad=0.4"]]%list ;;
  let out := path_join RESULTS "fig_ruleupdate_cdf.pdf" in
  save_both out ;;
  call (PrintText ("  wrote " ++ out)) ;;
  call CloseFig.

(** The series [fig_scaling] collects. *)
Record scaling := { sc_Ns : list Z; sc_means : list Q; sc_p50 : list Q; sc_p95 : list Q; sc_p99 : list Q;
                    sc_mins : list Q; sc_maxs : list Q }.

Definition sc_empty : scaling :=
  {| sc_Ns := []; sc_means := []; sc_p50 := []; sc_p95 := []; sc_p99 := []; sc_mins := []; sc_maxs := [] |}.

Definition sc_append (s : scaling) (n : Z) : scaling :=
  match clean_data n with
  | None => s
  | Some x =>
      {| sc_Ns := sc_Ns s ++ [n]; sc_means := sc_means s ++ [np_mean x]; sc_p50 := sc_p50 s ++ [np_percentile x 50];
         sc_p95 := sc_p95 s ++ [np_percentile x 95]; sc_p99 := sc_p99 s ++ [np_percentile x 99];
         sc_mins := sc_mins s ++ [np_min x]; sc_maxs := sc_maxs s ++ [np_max x] |}%list
  end.

Definition scaling_data : scaling := foldl sc_append sc_empty [1; 10; 50; 100; 500; 1000; 2000].

Definition fig_scaling : plotM unit :=
  let s := scaling_data in
  let Ns := inject_Z <$> sc_Ns s in
  call (Subplots (35 # 10) (26 # 10)) ;;
  calls [Plot Ns (sc_means s) ["o-"; "tab:blue"; "lw=1.5"; "ms=4.5"] "mean";
         Plot Ns (sc_p50 s) ["s--"; "tab:gray"; "lw=1.2"; "ms=4.0"] "p50";
         Plot Ns (sc_p95 s) ["^-"; "tab:orange"; "lw=1.5"; "ms=4.5"] "p95";
         Plot Ns (sc_p99 s) ["v-"; "tab:red"; "lw=1.5"; "ms=4.5"] "p99";
         AxCall "set_xscale" ["log"]; AxCall "set_xlabel" ["Batch size $N$ (rules per install)"];
         AxCall "set_ylabel" ["Per-rule latency ($\mu$s)"];
         AxCall "grid" ["which=both"; "linestyle=:"; "linewidth=0.5"; "alpha=0.7"];
         AxCall "legend" ["upper left"; "framealpha=0.9"; "ncol=2"];
         AxCall "set_title" ["Per-rule update latency vs batch size"]; AxCall "set_ylim" ["bottom=0"];
         AxCall "tight_layout" ["pad=0.4"]]%list ;;
  let out := path_join RESULTS "fig_ruleupdate_scaling.pdf" in
  save_both out ;;
  call (PrintText ("  wrote " ++ out)) ;;
  call CloseFig.

Definition make_plots : plotM unit :=
  call (PrintText ("reading CSVs from: " ++ RESULTS)) ;;
  fig_cdf ;;
  fig_scaling ;;
  call (PrintText "done.").
End make_plots.

(** ** make_plot_contention.py *)

(** A row of contention_repeats_raw.csv, the columns the script uses. *)
Record row := { target_pps : Z; n_rules : Z; total_ms : Q; mean_us : Q; p50_us : Q; p95_us : Q; p99_us : Q;
                blast_sent : Z; hit_d : Z; miss_d : Z }.

Section make_plot_contention.
(** The data frame; and pandas: the sum of a column of integers; the median of
    a column; the distinct values of a column; the table of a grouped
    aggregation; and [groupby(key)[col].median()] as a series, looked up by
    [reindex]. *)
Context (RESULTS : string) (df : list row).
Context (col_sum : list Z -> Z) (median : list Q -> Q) (unique : list Z -> list Z).
Context (groupby_agg : list row -> list string -> list string -> list string -> list (list Q)).
Context (groupby_median : list row -> (row -> Z) -> (row -> Q) -> Z -> option Q).

Definition agg_keys : list string := ["target_pps"; "n_rules"]%list.
Definition metric_cols : list string := ["total_ms"; "mean_us"; "p50_us"; "p95_us"; "p99_us"]%list.
Definition agg_funs : list string := ["median"; "min"; "max"]%list.

(** The two-level columns of the aggregation, flattened. *)
Definition agg_columns : list string :=
  (["target_pps"; "n_rules"] ++ (metric_cols ≫= (fun a => (fun b => a ++ "_" ++ b)%string <$> agg_funs)))%list.

Definition rates : list Z := sorted (unique (target_pps <$> df)).
Definition all_Ns : list Z := sorted (unique (n_rules <$> df)).

Definition width : Q := 27 # 100.

(** [colors[str(n)]] *)
Definition colors : gmap string string :=
  list_to_map [("100", "tab:blue"); ("500", "tab:orange"); ("1000", "tab:green")]%list.
Definition color_of (n : Z) : res string := of_option KeyError (colors !! str_Z n).

(** [x + (i - 1) * width], [x] the positions of the rates *)
Definition bar_xs (i : nat) : list Q :=
  (fun j => inject_Z (Z.of_nat j) + (inject_Z (Z.of_nat i) - 1) * width)%Q <$> seq 0 (length rates).

Definition select_n (n : Z) : list row := filter (fun r => n_rules r = n) df.

(** One pass of the drawing loop; [sort_values] only reorders the rows the
    medians are taken of. *)
Definition draw_n (i : nat) (n : Z) : plotM unit :=
  let sub := select_n n in
  let med := groupby_median sub target_pps p99_us <$> rates in
  let med50 := groupby_median sub target_pps p50_us <$> rates in
  color ← lift (color_of n);
  call (Bar (bar_xs i) med (width * (95 # 100))%Q color ("N=" ++ str_Z n ++ " (p99)")) ;;
  call (Marks (bar_xs i) med50 "kx").

(** [f"{r//1000}k" if r else "0"] *)
Definition rate_label (r : Z) : string := if r =? 0 then "0" else str_Z (r / 1000) ++ "k".

Definition headline (r n : Z) : plotM unit :=
  let sub := filter (fun x => target_pps x = r /\ n_rules x = n) df in
  match sub with
  | [] => mret tt
  | _ => call (PrintHeadline r n (median (total_ms <$> sub)) (median (p50_us <$> sub))
                 (median (p95_us <$> sub)) (median (p99_us <$> sub)))
  end.

(** The lines of [main] before the figure, ... *)
Definition contention_table : plotM unit :=
  calls [PrintInt "rows:" (Z.of_nat (length df)); PrintInt "packets sent total:" (col_sum (blast_sent <$> df));
         PrintInt "packets miss total:" (col_sum (miss_d <$> df)); PrintInt "packets hit  total:" (col_sum (hit_d <$> df))]%list ;;
  let agg := groupby_agg df agg_keys metric_cols agg_funs in
  let out_csv := path_join RESULTS "contention_agg.csv" in
  call (ToCsv out_csv agg_columns agg) ;;
  calls [PrintText (newline ++ "wrote " ++ out_csv ++ newline); PrintTable agg_columns agg]%list.

(** ... those that finish and save it, ... *)
Definition contention_axes : plotM unit :=
  calls [SetXticks ((fun j => inject_Z (Z.of_nat j)) <$> seq 0 (length rates)) (rate_label <$> rates);
         AxCall "set_xlabel" ["Concurrent traffic rate (pps)"]; AxCall "set_ylabel" ["Per-rule update latency ($\mu$s)"];
         AxCall "set_title" ["Rule-update tail vs concurrent load (median of 5 runs)"];
         AxCall "grid" ["axis=y"; "linestyle=:"; "linewidth=0.5"; "alpha=0.7"];
         AxCall "legend" ["upper left"; "framealpha=0.9"; "ncol=3"];
         AxCall "fig.text" ["0.5"; "-0.02"; "(black ×) p50; bars are p99"; "ha=center"; "fontsize=7"; "color=dimgray"];
         AxCall "tight_layout" ["pad=0.4"]]%list ;;
  let out := path_join RESULTS "fig_contention.pdf" in
  save_both out ;;
  call (PrintText (newline ++ "wrote " ++ out)).

(** ... and the summary after it. *)
Definition contention_summary : plotM unit :=
  call (PrintText (newline ++ "=== headline numbers (medians) ===")) ;;
  for_each rates (fun r => for_each [100; 500; 1000] (headline r)) ;;
  let total_packets := col_sum (blast_sent <$> df) in
  let total_loss := col_sum (miss_d <$> df) in
  call (PrintLoss total_packets total_loss
          (inject_Z 100 * inject_Z total_loss / inject_Z (Z.max 1 total_packets))%Q).

Definition contention_plot : plotM unit :=
  contention_table ;;
  call (Subplots (35 # 10) (26 # 10)) ;;
  for_each (zip (seq 0 (length all_Ns)) all_Ns) (fun '(i, n) => draw_n i n) ;;
  contention_axes ;;
  contention_summary.
End make_plot_contention.

(** ** Running a script *)

Definition draw (c : plot_call) (k : unit) : unit * unit := (k, tt).

(** The script ends normally, having made these calls. *)
Definition makes (m : plotM unit) (tr : list plot_call) : Prop :=
  run draw (m tt) tt = (tt, (tt, Ok tt)) /\ run_trace draw (m tt) tt = tr.

Lemma makes_call c : makes (call c) [c]%list.
Proof. by split. Qed.

Lemma makes_ret : makes (mret tt) []%list.
Proof. by split. Qed.

Lemma makes_bind m1 m2 a b : makes m1 a -> makes m2 b -> makes (m1 ;; m2) (a ++ b)%list.
Proof.
  intros [R1 T1] [R2 T2]. split; [by rewrite run_py_bind, R1|by rewrite run_trace_py_bind, R1, T1, T2].
Qed.

Lemma makes_for_each {X} (l : list X) (f : X -> plotM unit) (g : X -> list plot_call) :
  (forall x, makes (f x) (g x)) -> makes (for_each l f) (l ≫= g).
Proof.
  intros Hf. induction l as [|x l IH]; [apply makes_ret|]. exact (makes_bind _ _ _ _ (Hf x) IH).
Qed.

Lemma makes_calls cs : makes (calls cs) cs.
Proof.
  induction cs as [|c cs IH]; [apply makes_ret|]. exact (makes_bind _ _ _ _ (makes_call c) IH).
Qed.

Lemma makes_save out : makes (save_both out) [SaveFig out; SaveFig (str_replace ".pdf" ".png" out)]%list.
Proof. by split. Qed.

(** ** The empirical CDF *)

(** How many samples are at most, or less than, [v]. *)
Definition at_most (l : list Q) (v : Q) : nat := length (filter (fun u => Qle_bool u v = true) l).
Definition below (l : list Q) (v : Q) : nat := length (filter (fun u => Qle_bool v u = false) l).

Lemma count_all (P : Q -> Prop) `{forall q, Decision (P q)} l : Forall P l -> length (filter P l) = length l.
Proof. induction 1 as [|x l Hx _ IH]; [done|]. rewrite filter_cons, decide_True by done. cbn. by rewrite IH. Qed.

Lemma count_none (P : Q -> Prop) `{forall q, Decision (P q)} l : Forall (fun q => ~ P q) l -> filter P l = []%list.
Proof. induction 1 as [|x l Hx _ IH]; [done|]. by rewrite filter_cons, decide_False by done. Qed.

(** In a sorted list the element of index [i] has at most [i] samples below it
    and more than [i] at most its value. *)
Lemma sorted_rank l i v :
  StronglySorted Qle l -> l !! i = Some v -> (below l v <= i < at_most l v)%nat.
Proof.
  intros Hs Hi. pose proof (take_drop_middle l i v Hi) as Hl. pose proof (lookup_lt_Some _ _ _ Hi) as Hlt.
  rewrite <-Hl in Hs.
  assert (Hlo : Forall (fun u => Qle_bool u v = true) (take i l)).
  { apply Forall_forall. intros u Hu. apply Qle_bool_iff. eapply StronglySorted_app_1_elem_of; [exact Hs|done|by left]. }
  assert (Hhi : Forall (fun u => Qle_bool v u = true) (drop (S i) l)).
  { apply StronglySorted_app_1_r, StronglySorted_cons in Hs as [Hs _]. eapply Forall_impl; [exact Hs|].
    intros u. apply Qle_bool_iff. }
  assert (Hv : Qle_bool v v = true) by (apply Qle_bool_iff, Qle_refl).
  unfold below, at_most. rewrite <-Hl, !filter_app, !length_app, !filter_cons. split.
  - rewrite decide_False by congruence. rewrite (count_none _ (drop _ _)); [|eapply Forall_impl; [exact Hhi|congruence]].
    pose proof (length_filter (fun u => Qle_bool v u = false) (take i l)) as Hc. rewrite length_take in Hc. cbn [length]. lia.
  - rewrite decide_True by done. rewrite (count_all _ (take i l)) by done. rewrite length_take. cbn [length]. lia.
Qed.

Section make_plots_facts.
Context (RESULTS : string) (read_update_us : string -> option (list Q)).
Context (np_sort : list Q -> list Q) (np_mean np_min np_max : list Q -> Q) (np_percentile : list Q -> Z -> Q).
Hypothesis np_sort_spec : forall l, np_sort l ≡ₚ l /\ StronglySorted Qle (np_sort l).

(** A curve that passes, at its [i]-th point, between the fraction of samples
    below and the fraction of samples up to it. *)
Definition empirical (x : list Q) (c : plot_call) : Prop :=
  match c with
  | Plot xs ys _ _ =>
      length xs = length x /\ length ys = length x /\
      forall i v y, xs !! i = Some v -> ys !! i = Some y ->
        (y == inject_Z (Z.of_nat (S i)) / inject_Z (Z.of_nat (length x)))%Q /\
        (below x v < S i <= at_most x v)%nat
  | _ => False
  end.

Lemma cdf_curve_empirical x n c : empirical x (cdf_curve np_sort x n c).
Proof using np_sort_spec.
  destruct (np_sort_spec x) as [Hp Hs]. unfold cdf_curve, empirical, cdf_steps.
  assert (Hl : length (np_sort x) = length x) by (by rewrite Hp). rewrite length_fmap, length_seq, Hl.
  do 2 (split; [done|]). intros i v y Hv Hy. split.
  - rewrite list_lookup_fmap in Hy. pose proof (lookup_lt_Some _ _ _ Hv) as Hi. rewrite Hl in Hi.
    rewrite lookup_seq_lt in Hy by done. injection Hy as <-. reflexivity.
  - destruct (sorted_rank _ _ _ Hs Hv) as [Hb Ha]. unfold below, at_most in *. rewrite Hp in Hb, Ha. lia.
Qed.

(** The curves among the calls. *)
Definition curves (tr : list plot_call) : list plot_call :=
  filter (fun c => match c with Plot _ _ _ _ => true | _ => false end = true) tr.

Lemma makes_fig_cdf : exists tr,
  makes (fig_cdf RESULTS read_update_us np_sort) tr /\
  curves tr = omap (fun '(n, c, m) => (fun x => cdf_curve np_sort x n c) <$> clean_data RESULTS read_update_us n) cdf_cases.
Proof using Type.
  eexists. split.
  - unfold fig_cdf. apply makes_bind; [apply makes_call|]. apply makes_bind; [|apply makes_bind; [apply makes_calls|]].
    + apply (makes_for_each _ _ (fun '(n, c, m) =>
        match clean_data RESULTS read_update_us n with Some x => [cdf_curve np_sort x n c]%list | None => []%list end)).
      intros [[n c] m]. destruct (clean_data _ _ n); [apply makes_call|apply makes_ret].
    + apply makes_bind; [apply makes_save|]. apply makes_bind; apply makes_call.
  - unfold curves. cbn [app]. rewrite filter_cons, decide_False by done. rewrite filter_app.
    match goal with |- (?a ++ ?b)%list = _ => assert (Hb : b = []%list) by reflexivity; rewrite Hb, app_nil_r end.
    unfold cdf_cases. cbn [zip zip_with mbind list_bind app omap list_omap].
    repeat destruct (clean_data _ _ _); reflexivity.
Qed.

(** fig_ruleupdate_cdf shows the empirical distribution.  The script draws
    one curve for each of 10, 100 and 1000 rules whose file exists and is not
    empty, in this order and no other; the [i]-th point of a curve has height
    [i / n] for its [n] samples, and at that value fewer than [i] samples are
    smaller and at least [i] are not larger, ties included: it lies on the
    empirical distribution function. *)
Theorem cdf_curves_empirical :
  exists tr, run_trace draw (fig_cdf RESULTS read_update_us np_sort tt) tt = tr /\
  (run draw (fig_cdf RESULTS read_update_us np_sort tt) tt).2.2 = Ok tt /\
  Forall2 empirical (omap (clean_data RESULTS read_update_us) [10; 100; 1000]%list) (curves tr).
Proof using np_sort_spec.
  destruct makes_fig_cdf as (tr & [Hr Ht] & Hc). exists tr. split; [done|]. split; [by rewrite Hr|]. rewrite Hc.
  unfold cdf_cases. cbn [zip zip_with omap list_omap].
  repeat (destruct (clean_data RESULTS read_update_us _) as [?|]; cbn [fmap option_fmap option_map omap list_omap]);
    repeat (apply Forall2_cons; split; [apply cdf_curve_empirical|]); constructor.
Qed.

(** The files [fig_scaling] reads, with their samples. *)
Definition scaling_files (ns : list Z) : list (Z * list Q) :=
  omap (fun n => (n,.) <$> clean_data RESULTS read_update_us n) ns.

Definition scaling_of (fs : list (Z * list Q)) : scaling :=
  {| sc_Ns := fs.*1; sc_means := np_mean <$> fs.*2; sc_p50 := (fun x => np_percentile x 50) <$> fs.*2;
     sc_p95 := (fun x => np_percentile x 95) <$> fs.*2; sc_p99 := (fun x => np_percentile x 99) <$> fs.*2;
     sc_mins := np_min <$> fs.*2; sc_maxs := np_max <$> fs.*2 |}.

Lemma scaling_files_cons n ns :
  scaling_files (n :: ns) =
    (match clean_data RESULTS read_update_us n with Some x => [(n, x)] | None => [] end ++ scaling_files ns)%list.
Proof using Type. unfold scaling_files. cbn [omap list_omap]. by destruct (clean_data _ _ n). Qed.

Lemma scaling_fold ns fs :
  foldl (sc_append RESULTS read_update_us np_mean np_min np_max np_percentile) (scaling_of fs) ns =
    scaling_of (fs ++ scaling_files ns).
Proof using Type.
  revert fs. induction ns as [|n ns IH]; intros fs; [by rewrite app_nil_r|].
  rewrite scaling_files_cons, app_assoc, <-IH. cbn [foldl]. f_equal.
  unfold sc_append. destruct (clean_data _ _ n) as [x|]; [|by rewrite app_nil_r].
  unfold scaling_of. by rewrite !fmap_app.
Qed.

(** The series of fig_ruleupdate_scaling are aligned.  All seven series
    have one entry per batch size whose file exists and is not empty, in
    increasing order of the size, and the entries of one size are the
    statistics of the samples of that file: no series is shifted against
    another by a missing file. *)
Theorem scaling_series_aligned :
  let fs := scaling_files [1; 10; 50; 100; 500; 1000; 2000]%list in
  scaling_data RESULTS read_update_us np_mean np_min np_max np_percentile = scaling_of fs /\
  StronglySorted Z.lt fs.*1 /\
  (forall n x, (n, x) ∈ fs <-> n ∈ [1; 10; 50; 100; 500; 1000; 2000]%list /\ load_clean RESULTS read_update_us n = Some x /\ x <> []%list).
Proof using Type.
  intros fs. split; [exact (scaling_fold _ [])|]. split.
  - assert (Hsub : forall ns, StronglySorted Z.lt ns -> StronglySorted Z.lt (scaling_files ns).*1 /\
      forall a, Forall (Z.lt a) ns -> Forall (Z.lt a) (scaling_files ns).*1).
    { induction ns as [|n ns IH]; intros Hs; [by split; [constructor|]|].
      apply StronglySorted_cons in Hs as [Hn Hs]. destruct (IH Hs) as [IH1 IH2].
      rewrite scaling_files_cons, fmap_app. destruct (clean_data _ _ n); cbn [fmap list_fmap fst app].
      - split; [apply StronglySorted_cons; split; [by apply IH2|done]|].
        intros a [Ha Hns]%Forall_cons. apply Forall_cons. split; [done|by apply IH2].
      - split; [done|]. intros a [Ha Hns]%Forall_cons. by apply IH2. }
    apply Hsub. repeat constructor; lia.
  - intros n x. unfold fs, scaling_files. rewrite list_elem_of_omap. split.
    + intros (m & Hm & Hx). unfold clean_data in Hx. destruct (load_clean _ _ m) as [[|]|] eqn:E; simplify_eq/=. done.
    + intros (Hn & Hl & Hx). exists n. split; [done|]. unfold clean_data. rewrite Hl. by destruct x.
Qed.
End make_plots_facts.

(** ** The contention figure *)

(** The script raises, having made these calls. *)
Definition fails (m : plotM unit) (tr : list plot_call) (e : exn) : Prop :=
  run draw (m tt) tt = (tt, (tt, Exc e)) /\ run_trace draw (m tt) tt = tr.

Lemma fails_l m1 m2 a e : fails m1 a e -> fails (m1 ;; m2) a e.
Proof. intros [R T]. split; [by rewrite run_py_bind, R|by rewrite run_trace_py_bind, R, T, app_nil_r]. Qed.

Lemma fails_r m1 m2 a b e : makes m1 a -> fails m2 b e -> fails (m1 ;; m2) (a ++ b)%list e.
Proof.
  intros [R1 T1] [R2 T2]. split; [by rewrite run_py_bind, R1|by rewrite run_trace_py_bind, R1, T1, T2].
Qed.

Lemma str_Z_nonneg_inj x y : 0 <= x -> 0 <= y -> str_Z x = str_Z y -> x = y.
Proof.
  intros Hx Hy E. pose proof (take_str_Z x "" Hx) as T. rewrite append_nil_r, E in T.
  pose proof (take_str_Z y "" Hy) as T'. rewrite append_nil_r, T in T'. by injection T'.
Qed.

(** There is a colour for three values of N. *)
Lemma color_known n : is_Some (colors !! str_Z n) <-> n ∈ [100; 500; 1000]%list.
Proof.
  split.
  - intros [c Hc]. apply elem_of_list_to_map_2 in Hc.
    assert (Hs : str_Z n ∈ [str_Z 100; str_Z 500; str_Z 1000]%list).
    { change [str_Z 100; str_Z 500; str_Z 1000]%list with
        ([("100", "tab:blue"); ("500", "tab:orange"); ("1000", "tab:green")]%list.*1).
      apply list_elem_of_fmap. by exists (str_Z n, c). }
    assert (Hn : 0 <= n).
    { destruct (decide (0 <= n)) as [|Hneg]; [done|]. exfalso. unfold str_Z at 1 in Hs.
      rewrite (proj2 (Z.ltb_lt _ _)) in Hs by lia.
      repeat (apply elem_of_cons in Hs as [Hs|Hs]; [discriminate Hs|]). by apply elem_of_nil in Hs. }
    repeat (apply elem_of_cons in Hs as [Hs|Hs];
      [apply str_Z_nonneg_inj in Hs as ->; [repeat (first [by left|right])|done|done]|]). by apply elem_of_nil in Hs.
  - intros Hn. repeat (apply elem_of_cons in Hn as [->|Hn]; [by eexists; vm_compute; reflexivity|]). by apply elem_of_nil in Hn.
Qed.

Definition saves (tr : list plot_call) : list string :=
  omap (fun c => match c with SaveFig p => Some p | _ => None end) tr.

(** The bars drawn: their centres and widths. *)
Definition bars (tr : list plot_call) : list (Q * Q) :=
  tr ≫= (fun c => match c with Bar xs _ w _ _ => (., w) <$> xs | _ => []%list end).

(** No two bars overlap. *)
Definition bars_apart (bs : list (Q * Q)) : Prop :=
  forall a b p q, a <> b -> bs !! a = Some p -> bs !! b = Some q ->
    (p.1 + (p.2 + q.2) * (1 # 2) <= q.1 \/ q.1 + (p.2 + q.2) * (1 # 2) <= p.1)%Q.

(** ** The bars *)

Definition centre (i j : nat) : Q := (inject_Z (Z.of_nat j) + (inject_Z (Z.of_nat i) - 1) * width)%Q.

Lemma centres_apart i j i' j' :
  (i <= 2)%nat -> (i' <= 2)%nat -> (i, j) <> (i', j') ->
  let w := (width * (95 # 100))%Q in
  (centre i j + (w + w) * (1 # 2) <= centre i' j' \/ centre i' j' + (w + w) * (1 # 2) <= centre i j)%Q.
Proof.
  intros Hi Hi' Hne. unfold centre, width.
  assert (Hj : j = j' \/ (j < j')%nat \/ (j' < j)%nat) by lia.
  assert (Hq : forall a b : nat, (a < b)%nat -> (inject_Z (Z.of_nat a) + 1 <= inject_Z (Z.of_nat b))%Q).
  { intros a b Hab. change 1%Q with (inject_Z 1). rewrite <-inject_Z_plus, <-Zle_Qle. lia. }
  assert (i = 0 \/ i = 1 \/ i = 2)%nat as Hci by lia. assert (i' = 0 \/ i' = 1 \/ i' = 2)%nat as Hci' by lia.
  destruct Hj as [->|[Hlt|Hlt]].
  - destruct Hci as [->|[->| ->]], Hci' as [->|[->| ->]]; try done; cbv zeta;
      change (inject_Z (Z.of_nat 0)) with 0%Q; change (inject_Z (Z.of_nat 1)) with 1%Q;
      change (inject_Z (Z.of_nat 2)) with 2%Q; first [left; lra|right; lra].
  - left. apply Hq in Hlt. destruct Hci as [->|[->| ->]], Hci' as [->|[->| ->]]; cbv zeta;
      change (inject_Z (Z.of_nat 0)) with 0%Q; change (inject_Z (Z.of_nat 1)) with 1%Q;
      change (inject_Z (Z.of_nat 2)) with 2%Q; lra.
  - right. apply Hq in Hlt. destruct Hci as [->|[->| ->]], Hci' as [->|[->| ->]]; cbv zeta;
      change (inject_Z (Z.of_nat 0)) with 0%Q; change (inject_Z (Z.of_nat 1)) with 1%Q;
      change (inject_Z (Z.of_nat 2)) with 2%Q; lra.
Qed.

Definition grid (l : list nat) (cols : nat) : list (nat * nat) := l ≫= (fun i => (i,.) <$> seq 0 cols).

Lemma grid_NoDup l cols : NoDup l -> NoDup (grid l cols).
Proof.
  intros Hl. apply NoDup_bind; [|intros i _; apply NoDup_fmap; [by intros ?? [=]|apply NoDup_seq]|done].
  intros i i' p _ _ (j & -> & _)%list_elem_of_fmap (j' & [= -> ->] & _)%list_elem_of_fmap. done.
Qed.

Lemma grid_apart l cols :
  NoDup l -> Forall (fun i => i <= 2)%nat l ->
  bars_apart ((fun '(i, j) => (centre i j, width * (95 # 100))%Q) <$> grid l cols).
Proof.
  intros Hnd Hl a b p q Hab Ha Hb.
  apply list_lookup_fmap_Some_1 in Ha as ([i j] & -> & Ha). apply list_lookup_fmap_Some_1 in Hb as ([i' j'] & -> & Hb).
  assert (Hin : forall c x y, grid l cols !! c = Some (x, y) -> (x <= 2)%nat).
  { intros c x y Hc. apply list_elem_of_lookup_2 in Hc. unfold grid in Hc. apply list_elem_of_bind in Hc as (z & Hz & Hzl).
    apply list_elem_of_fmap in Hz as (? & [= <- <-] & _). rewrite Forall_forall in Hl. by apply Hl. }
  apply (centres_apart i j i' j'); [by eapply Hin|by eapply Hin|].
  intros E. apply Hab. rewrite E in Ha. by eapply (NoDup_lookup _ _ _ _ (grid_NoDup l cols Hnd)).
Qed.

Section contention_facts.
Context (RESULTS : string) (df : list row).
Context (col_sum : list Z -> Z) (median : list Q -> Q) (unique : list Z -> list Z).
Context (groupby_agg : list row -> list string -> list string -> list string -> list (list Q)).
Context (groupby_median : list row -> (row -> Z) -> (row -> Q) -> Z -> option Q).
Hypothesis unique_spec : forall l, NoDup (unique l) /\ forall x, x ∈ unique l <-> x ∈ l.

Abbreviation Ns := (all_Ns df unique).
Abbreviation draw_one := (draw_n df unique groupby_median).

Lemma Ns_in n : n ∈ Ns <-> exists r, r ∈ df /\ n_rules r = n.
Proof using unique_spec.
  unfold all_Ns. rewrite sorted_perm, (proj2 (unique_spec _)), list_elem_of_fmap. split; intros (r & H1 & H2); by exists r.
Qed.

(** What the drawing loop draws for one N. *)
Definition drawn (i : nat) (n : Z) : list plot_call :=
  match color_of n with
  | Ok color =>
      [Bar (bar_xs df unique i) (groupby_median (select_n df n) target_pps p99_us <$> rates df unique)
         (width * (95 # 100))%Q color ("N=" ++ str_Z n ++ " (p99)");
       Marks (bar_xs df unique i) (groupby_median (select_n df n) target_pps p50_us <$> rates df unique) "kx"]%list
  | Exc _ => []%list
  end.

Lemma draw_one_makes i n : n ∈ [100; 500; 1000]%list -> makes (draw_one i n) (drawn i n).
Proof using Type.
  intros [c Hc]%color_known. unfold draw_n, drawn, color_of. rewrite Hc. by split.
Qed.

Lemma draw_one_fails i n : n ∉ [100; 500; 1000]%list -> fails (draw_one i n) [] KeyError.
Proof using Type.
  intros Hn. unfold draw_n, color_of. destruct (colors !! str_Z n) eqn:E; [|by split].
  destruct Hn. apply color_known. by rewrite E.
Qed.

Lemma draw_loop (l : list (nat * Z)) :
  (Forall (fun p => p.2 ∈ [100; 500; 1000]%list) l /\ makes (for_each l (fun '(i, n) => draw_one i n)) (l ≫= (fun '(i, n) => drawn i n))) \/
  (Exists (fun p => p.2 ∉ [100; 500; 1000]%list) l /\ exists tr,
     fails (for_each l (fun '(i, n) => draw_one i n)) tr KeyError /\ saves tr = []%list).
Proof using Type.
  induction l as [|[i n] l IH]; [left; split; [constructor|apply makes_ret]|].
  destruct (decide (n ∈ [100; 500; 1000]%list)) as [Hn|Hn].
  - pose proof (draw_one_makes i n Hn) as Hm. destruct IH as [[Hf IH]|[He (tr & IH & Hs)]]; [left|right].
    + split; [by constructor|]. exact (makes_bind _ _ _ _ Hm IH).
    + split; [by right|]. eexists. split; [exact (fails_r _ _ _ _ _ Hm IH)|].
      unfold saves. rewrite omap_app. fold (saves tr). rewrite Hs, app_nil_r. unfold drawn. by destruct (color_of n).
  - right. split; [by left|]. eexists. split; [exact (fails_l _ _ _ _ (draw_one_fails i n Hn))|done].
Qed.

(** The bars of the loop, when every N has a colour. *)
Lemma bars_drawn l :
  Forall (fun p : nat * Z => p.2 ∈ [100; 500; 1000]%list) l ->
  bars (l ≫= (fun '(i, n) => drawn i n)) =
    (fun '(i, j) => (centre i j, width * (95 # 100))%Q) <$> grid l.*1 (length (rates df unique)).
Proof using Type.
  induction 1 as [|[i n] l Hn _ IH]; [done|]. unfold bars, grid in *. cbn [mbind list_bind fmap list_fmap fst].
  rewrite bind_app, IH, fmap_app. f_equal.
  destruct (proj2 (color_known n) Hn) as [c Hc]. unfold drawn, color_of. rewrite Hc.
  cbn [mbind list_bind of_option app]. rewrite app_nil_r. unfold bar_xs. rewrite <-!list_fmap_compose. done.
Qed.

(** At most three values of N have a colour. *)
Lemma Ns_few : Forall (fun n => n ∈ [100; 500; 1000]%list) Ns -> (length Ns <= 3)%nat.
Proof using unique_spec.
  intros Hf. change 3%nat with (length [100; 500; 1000]). apply submseteq_length, NoDup_submseteq.
  - unfold all_Ns. rewrite sorted_perm. apply unique_spec.
  - by apply Forall_forall.
Qed.

(** Calls that save nothing and draw no bars. *)
Definition quiet_calls (tr : list plot_call) : Prop := saves tr = []%list /\ bars tr = []%list.

Lemma quiet_app a b : quiet_calls a -> quiet_calls b -> quiet_calls (a ++ b).
Proof using Type. intros [S1 B1] [S2 B2]. split; unfold saves, bars in *; by rewrite ?omap_app, ?bind_app, ?S1, ?S2, ?B1, ?B2. Qed.

Lemma makes_quiet_loop {X} (f : X -> plotM unit) l :
  (forall x, exists tr, makes (f x) tr /\ quiet_calls tr) -> exists tr, makes (for_each l f) tr /\ quiet_calls tr.
Proof using Type.
  intros Hf. induction l as [|x l (tr & Hm & Hq)]; [exists []%list; by split; [apply makes_ret|]|].
  destruct (Hf x) as (tr1 & Hm1 & Hq1). exists (tr1 ++ tr)%list. split; [exact (makes_bind _ _ _ _ Hm1 Hm)|by apply quiet_app].
Qed.

Lemma makes_summary : exists tr, makes (contention_summary df col_sum median unique) tr /\ quiet_calls tr.
Proof using Type.
  destruct (makes_quiet_loop (fun r => for_each [100; 500; 1000]%list (headline df median r)) (rates df unique)) as (tr & Hm & Hq).
  { intros r. apply makes_quiet_loop. intros n. unfold headline. destruct (filter _ df); eexists; (split; [by split|done]). }
  eexists. split; [apply makes_bind; [apply makes_call|apply makes_bind; [exact Hm|apply makes_call]]|].
  apply quiet_app; [done|]. by apply quiet_app.
Qed.

Definition agg_csv : plot_call :=
  ToCsv (path_join RESULTS "contention_agg.csv") agg_columns (groupby_agg df agg_keys metric_cols agg_funs).

Lemma makes_table : exists tr, makes (contention_table RESULTS df col_sum groupby_agg) tr /\ quiet_calls tr /\ agg_csv ∈ tr.
Proof using Type.
  eexists. split; [apply makes_bind; [apply makes_calls|apply makes_bind; [apply makes_call|apply makes_calls]]|].
  split; [done|]. apply elem_of_app. right. by left.
Qed.

Definition contention_files : list string :=
  let out := path_join RESULTS "fig_contention.pdf" in [out; str_replace ".pdf" ".png" out]%list.

Lemma makes_axes : exists tr, makes (contention_axes RESULTS df unique) tr /\ saves tr = contention_files /\ bars tr = []%list.
Proof using Type.
  eexists. split; [apply makes_bind; [apply makes_calls|apply makes_bind; [apply makes_save|apply makes_call]]|].
  split; reflexivity.
Qed.

(** The whole script, when every N has a colour, ... *)
Lemma contention_plot_makes :
  Forall (fun n => n ∈ [100; 500; 1000]%list) Ns -> exists tr,
  makes (contention_plot RESULTS df col_sum median unique groupby_agg groupby_median) tr /\
  agg_csv ∈ tr /\ bars_apart (bars tr) /\ saves tr = contention_files.
Proof using unique_spec.
  intros HN. set (l := zip (seq 0 (length Ns)) Ns).
  assert (Hl1 : l.*1 = seq 0 (length Ns)) by (apply fst_zip; by rewrite length_seq).
  assert (Hf : Forall (fun p : nat * Z => p.2 ∈ [100; 500; 1000]%list) l).
  { assert (Hl2 : l.*2 = Ns) by (apply snd_zip; by rewrite length_seq). rewrite <-Hl2 in HN. by apply Forall_fmap in HN. }
  destruct (draw_loop l) as [[_ Hloop]|[He _]]; 
    [|apply Exists_exists in He as (p & Hp & Hn); rewrite Forall_forall in Hf; by destruct Hn; apply Hf].
  destruct makes_table as (tr1 & M1 & [S1 B1] & Hcsv). destruct makes_axes as (tr2 & M2 & S2 & B2).
  destruct makes_summary as (tr3 & M3 & S3 & B3).
  eexists. split; [apply makes_bind; [exact M1|apply makes_bind; [apply makes_call|apply makes_bind; [exact Hloop|
    apply makes_bind; [exact M2|exact M3]]]]|].
  split; [apply elem_of_app; by left|]. pose proof (bars_drawn l Hf) as Hb.
  assert (Sl : saves (l ≫= (fun '(i, n) => drawn i n)) = []%list).
  { clear. induction l as [|[i n] l IH]; [done|]. unfold saves in *. cbn [mbind list_bind].
    rewrite omap_app, IH, app_nil_r. unfold drawn. by destruct (color_of n). }
  unfold saves, bars in *. rewrite !omap_app, !bind_app, S1, S2, S3, B1, B2, B3, Sl, Hb, !app_nil_r.
  split; [|reflexivity]. rewrite Hl1. apply grid_apart; [apply NoDup_seq|]. apply Forall_forall. intros i Hi%elem_of_seq.
  pose proof (Ns_few HN). lia.
Qed.

(** ... and when one has none. *)
Lemma contention_plot_fails :
  Exists (fun n => n ∉ [100; 500; 1000]%list) Ns -> exists tr,
  fails (contention_plot RESULTS df col_sum median unique groupby_agg groupby_median) tr KeyError /\
  agg_csv ∈ tr /\ saves tr = []%list.
Proof using Type.
  intros HN. set (l := zip (seq 0 (length Ns)) Ns).
  destruct (draw_loop l) as [[Hf _]|[_ (tr2 & Hloop & S2)]].
  { exfalso. assert (Hl2 : l.*2 = Ns) by (apply snd_zip; by rewrite length_seq).
    apply Exists_exists in HN as (n & Hn & Hx). rewrite <-Hl2 in Hn. apply list_elem_of_fmap in Hn as (p & -> & Hp).
    rewrite Forall_forall in Hf. by apply Hx, Hf. }
  destruct makes_table as (tr1 & M1 & [S1 _] & Hcsv).
  eexists. split; [apply fails_r; [exact M1|apply fails_r; [apply makes_call|apply fails_l; exact Hloop]]|].
  split; [apply elem_of_app; by left|]. unfold saves in *. by rewrite !omap_app, S1, S2.
Qed.

(** C35: the contention figure is drawn for the three sizes it knows.  If every
    row of the data has 100, 500 or 1000 rules, make_plot_contention.py ends
    normally, saves the figure as PDF and as PNG, and no two of its bars
    overlap; if any row has another number of rules it raises [KeyError] after
    writing the aggregated table and before saving any figure. *)
Theorem contention_plot_outcome :
  let m := contention_plot RESULTS df col_sum median unique groupby_agg groupby_median in
  let r := (run draw (m tt) tt).2.2 in
  let tr := run_trace draw (m tt) tt in
  agg_csv ∈ tr /\
  (Forall (fun x => n_rules x ∈ [100; 500; 1000]%list) df /\ r = Ok tt /\ bars_apart (bars tr) /\ saves tr = contention_files \/
   Exists (fun x => n_rules x ∉ [100; 500; 1000]%list) df /\ r = Exc KeyError /\ saves tr = []%list).
Proof using unique_spec.
  intros m r tr. destruct (decide (Forall (fun n => n ∈ [100; 500; 1000]%list) Ns)) as [HN|HN].
  - destruct (contention_plot_makes HN) as (tr' & [Hr Ht] & Hcsv & Hb & Hs). unfold r, tr, m. rewrite Hr, Ht.
    split; [done|]. left. split; [|done]. apply Forall_forall. intros x Hx. rewrite Forall_forall in HN.
    apply HN, Ns_in. by exists x.
  - apply not_Forall_Exists in HN; [|apply _]. destruct (contention_plot_fails HN) as (tr' & [Hr Ht] & Hcsv & Hs).
    unfold r, tr, m. rewrite Hr, Ht. split; [done|]. right. split; [|done].
    apply Exists_exists in HN as (n & (x & Hx & Hxn)%Ns_in & Hn). apply Exists_exists. exists x. split; [done|].
    cbn beta. by rewrite Hxn.
Qed.
End contention_facts.

(** ** Runs *)

#[global] Instance Qle_dec' : RelDecision Qle.
Proof. intros x y. destruct (Qle_bool x y) eqn:E; [left; by apply Qle_bool_iff|right; intros H%Qle_bool_iff; congruence]. Defined.
#[global] Instance Qle_total' : Total Qle.
Proof. intros x y. destruct (Qlt_le_dec x y); [left; by apply Qlt_le_weak|by right]. Qed.
#[global] Instance Qle_trans' : Transitive Qle := Qle_trans.

(** [numpy.sort] *)
Definition demo_sort (l : list Q) : list Q := merge_sort Qle l.

Lemma demo_sort_spec l : demo_sort l ≡ₚ l /\ StronglySorted Qle (demo_sort l).
Proof. split; [apply merge_sort_Permutation|apply (StronglySorted_merge_sort Qle)]. Qed.

(** One file of three samples; the other two cases are skipped. *)
Lemma cdf_curves_empirical_witness :
  let data := [9 # 1; 6 # 1; 9 # 1]%list in
  let read p := if decide (p = "r/clean_n10.csv") then Some data else None in
  Forall2 (fun x c => empirical x c) [data]%list (curves (run_trace draw (fig_cdf "r" read demo_sort tt) tt)).
Proof.
  intros data read. destruct (cdf_curves_empirical "r" read demo_sort demo_sort_spec) as (tr & <- & _ & H). exact H.
Defined.

Definition demo_row (n : Z) : row :=
  {| target_pps := 10000; n_rules := n; total_ms := 1; mean_us := 8 # 1; p50_us := 7 # 1; p95_us := 9 # 1;
     p99_us := 11 # 1; blast_sent := 0; hit_d := 0; miss_d := 0 |}.

Lemma contention_plot_outcome_witness :
  let uniq := remove_dups : list Z -> list Z in
  let m df := contention_plot "r" df sumZ (fun _ => 0%Q) uniq (fun _ _ _ _ => []%list) (fun _ _ _ _ => None) in
  bars_apart (bars (run_trace draw (m [demo_row 100; demo_row 500]%list tt) tt)) /\
  (run draw (m [demo_row 50]%list tt) tt).2.2 = Exc KeyError.
Proof.
  intros uniq m.
  assert (Hu : forall l, NoDup (uniq l) /\ forall x, x ∈ uniq l <-> x ∈ l)
    by (intros l; split; [apply NoDup_remove_dups|intros x; apply elem_of_remove_dups]).
  split.
  - destruct (contention_plot_outcome "r" [demo_row 100; demo_row 500]%list sumZ (fun _ => 0%Q) uniq (fun _ _ _ _ => []%list)
      (fun _ _ _ _ => None) Hu) as [_ [(_ & _ & Hb & _)|(He & _)]]; [exact Hb|].
    exfalso. apply Exists_exists in He as (x & Hx & Hn). apply Hn.
    repeat (apply elem_of_cons in Hx as [->|Hx]; [apply (bool_decide_eq_true_1 _); reflexivity|]). by apply elem_of_nil in Hx.
  - destruct (contention_plot_outcome "r" [demo_row 50]%list sumZ (fun _ => 0%Q) uniq (fun _ _ _ _ => []%list)
      (fun _ _ _ _ => None) Hu) as [_ [(Hf & _)|(_ & Hr & _)]]; [|exact Hr].
    exfalso. apply Forall_cons in Hf as [Hf _]. apply (bool_decide_eq_false_1 (50 ∈ [100; 500; 1000]%list)); [reflexivity|exact Hf].
Defined.
