(* ===== verification/Consistency.v ===== *)
(** * The transactional-consistency experiment

    test/toggle_bundle.py (the writer), the decision events upf_tc.c emits
    (the readers) and results_native/transactional_consistency/analyze.py,
    whose capture parser analyze_latency.py shares.  [print] calls and the
    reading of the capture file are left out: [parse] takes the lines
    [f.readlines()] returns, and the capture format of [bpftool map
    event_pipe], which is not part of the repository, is the relation
    [capture]. *)

From Stdlib Require Import Strings.Ascii.
From S2P Require Import Prelude Prog PyStruct PyText PyFloat UpfMaps Kernel BpfSyscall Encoders Agent Qer Datapath Bundle.

(** ** toggle_bundle.py *)

Definition toggle_pdr_id : Z := 0x2000.
Definition pairs : list (Z * Z) := [(1, 1); (3, 3)].

(** [pairs[i % 2]] *)
Definition pair_at (i : nat) : Z * Z := nth (i mod 2) pairs (0, 0).

(** The loop of [main]: [clock n] is the [n]-th reading of
    [time.monotonic()], a double.  The result is [count] and [gen]; [None] if
    the loop would go on after [fuel] rounds. *)
Fixpoint toggle_loop (fuel : nat) (clock : nat -> float) (t_end : float) (i count : nat) (gen : option Z) :
    bpfM (option (nat * option Z)) :=
  match fuel with
  | O => mret None
  | S fuel' =>
      if SFltb (clock (S i)) t_end then
        let '(far_id, qer_id) := pair_at i in
        g ← modify_tc_bundle toggle_pdr_id (Some far_id) (Some qer_id) None None;
        toggle_loop fuel' clock t_end (i + 1) (count + 1) (Some g)
      else mret (Some (count, gen))
  end.

(** [main] from the line after the one that reads [duration], any double. *)
Definition toggle_main (fuel : nat) (clock : nat -> float) (duration : float) : bpfM (option (nat * option Z)) :=
  let t_end := float_add (clock 0%nat) duration in
  toggle_loop fuel clock t_end 0 0 None.

(** The tuple after [n] toggles of [old]. *)
Fixpoint toggled (old : tc_bundle_slot) (n : nat) : tc_bundle_slot :=
  match n with
  | O => old
  | S n' => updated (toggled old n') (Some (fst (pair_at n'))) (Some (snd (pair_at n'))) None None
  end.

(** What [gen] holds after [n] toggles. *)
Definition toggled_gen (old : tc_bundle_slot) (n : nat) : option Z :=
  match n with O => None | _ => Some (slot_generation (toggled old n)) end.

Lemma toggled_generation old n : slot_generation (toggled old n) = slot_generation old + Z.of_nat n.
Proof. induction n as [|n IH]; cbn [toggled updated slot_generation]; lia. Qed.

Lemma toggled_inj old n m : toggled old n = toggled old m -> n = m.
Proof. intros H%(f_equal slot_generation). rewrite !toggled_generation in H. lia. Qed.

Lemma toggled_pair old n :
  (slot_far_id (toggled old (S n)), slot_qer_id (toggled old (S n))) = if Nat.even n then (1, 1) else (3, 3).
Proof.
  cbn [toggled updated slot_far_id slot_qer_id default from_option id]. rewrite <-surjective_pairing.
  unfold pair_at. destruct (Nat.even n) eqn:E.
  - apply Nat.even_spec in E as [m ->]. by rewrite Nat.mul_comm, Nat.Div0.mod_mul.
  - assert (Nat.Odd n) as [m ->] by (apply Nat.odd_spec; unfold Nat.odd; by rewrite E).
    by rewrite Nat.add_comm, Nat.mul_comm, Nat.Div0.mod_add.
Qed.

Section toggle.
Context `{BpfKernelLaws K}.
Context (old : tc_bundle_slot).

Abbreviation live := (Bundle.live toggle_pdr_id).
Abbreviation others := (Bundle.others toggle_pdr_id).

(** Each step of the experiment keeps the live tuple or moves it one toggle
    on. *)
Definition toggles (k k' : K) : Prop :=
  exists i j, (i <= j <= S i)%nat /\ live k = Some (toggled old i) /\ live k' = Some (toggled old j).

Lemma others_live k k' : others k k' -> live k' = live k.
Proof. intros (_ & _ & Hr). unfold Bundle.live. by rewrite Hr. Qed.

(** One call of [modify_tc_bundle] by the loop, as a step of the experiment. *)
Lemma pwp_toggle i s k :
  cache_ok s k -> kernel_ok k -> live k = Some (toggled old i) ->
  pwp sys_bpf others toggles
    (modify_tc_bundle toggle_pdr_id (Some (fst (pair_at i))) (Some (snd (pair_at i))) None None) s
    (modify_post toggle_pdr_id s (toggled old i) (toggled old (S i))) k.
Proof using Type*.
  intros Hs Hk Hl. set (I := fun k => live k = Some (toggled old i) \/ live k = Some (toggled old (S i))).
  pose proof (pwp_modify_tc_bundle toggle_pdr_id ltac:(by vm_compute) (toggled old i)
    (Some (fst (pair_at i))) (Some (snd (pair_at i))) None None s k Hs Hk Hl) as Hwp.
  cbv zeta in Hwp. change (updated _ _ _ _ _) with (toggled old (S i)) in Hwp.
  apply (wp_keep sys_bpf others _ I) in Hwp.
  - eapply wp_mono; [| |exact Hwp].
    + intros k1 k2 [(_ & Ho & Hn) [H1|H1]].
      * exists i. destruct (Ho H1); [exists i|exists (S i)]; auto with lia.
      * exists (S i), (S i). auto with lia.
    + by intros [s' r] k' [Hp _].
  - intros k1 k2 Hr [H1|H1]; [left|right]; by rewrite (others_live _ _ Hr).
  - intros k1 k2 (_ & Ho & Hn) [H1|H1]; [destruct (Ho H1); [by left|by right]|right; auto].
  - by left.
Qed.

(** The loop from round [i]: it ends by the clock, by [fuel], or by an
    exception of [modify_tc_bundle] with the last good tuple live. *)
Lemma pwp_toggle_loop fuel clock t_end i s k :
  cache_ok s k -> kernel_ok k -> live k = Some (toggled old i) ->
  pwp sys_bpf others toggles (toggle_loop fuel clock t_end i i (toggled_gen old i)) s
    (fun r s' k' => exists j, (i <= j <= i + fuel)%nat /\ live k' = Some (toggled old j) /\
       (forall m, (i <= m < j)%nat -> SFltb (clock (S m)) t_end = true) /\
       match r with
       | Ok None => j = (i + fuel)%nat
       | Ok (Some (count, gen)) => count = j /\ gen = toggled_gen old j /\ SFltb (clock (S j)) t_end = false
       | Exc StructError => SFltb (clock (S j)) t_end = true /\ ~ slot_fits (toggled old (S j))
       | Exc (OSError _) => j = i /\ s !! "tc_bundle_map"%string = None
       | _ => False
       end) k.
Proof using Type*.
  revert i s k. induction fuel as [|fuel IH]; intros i s k Hs Hk Hl.
  - apply pwp_ret. exists i. split_and!; auto with lia.
  - cbn [toggle_loop]. destruct (SFltb (clock (S i)) t_end) eqn:Hlt.
    2:{ apply pwp_ret. exists i. split_and!; auto with lia. }
    rewrite (surjective_pairing (pair_at i)). apply pwp_bind.
    eapply pwp_mono; [by apply pwp_toggle|done|]. intros [g|e] s' k'.
    + intros (Hs' & Hk' & _ & Hl' & -> & _ & Ho). rewrite Nat.add_1_r.
      change (Some (slot_generation (toggled old (S i)))) with (toggled_gen old (S i)).
      eapply pwp_mono; [by apply IH|done|]. intros r s2 k2 (j & Hj & Hl2 & Hc & Hr).
      exists j. split_and!; [lia|lia|done| |].
      * intros m Hm. destruct (decide (m = i)) as [->|]; [done|]. apply Hc. lia.
      * destruct r as [[[count gen]|]|[]]; try done; [lia|]. destruct Hr as [_ Hn]. rewrite Hn in Ho. by destruct Ho.
    + intros (_ & _ & _ & Hl' & He). exists i. split_and!; [lia|lia|done| |by destruct e]. intros m Hm. lia.
Qed.

Lemma live_fits (k : K) sl : live k = Some sl -> slot_fits sl.
Proof.
  unfold Bundle.live. destruct (contents k _ _) as [v|]; [|done]. intros [= <-].
  rewrite live_slot_read. apply read_slot_fits.
Qed.


(** The experiment exposes only its own tuples, in order.  At every point
    of every interleaving of toggle_bundle.py with an environment that leaves
    the bundle alone, the live tuple is the initial one after some number of
    whole toggles, and that number never goes down. *)
Theorem toggle_never_hybrid fuel clock duration s k p1 k1 p2 k2 :
  cache_ok s k -> kernel_ok k -> live k = Some old ->
  exec sys_bpf others (toggle_main fuel clock duration s, k) (p1, k1) ->
  exec sys_bpf others (p1, k1) (p2, k2) ->
  exists i j, (i <= j)%nat /\ live k1 = Some (toggled old i) /\ live k2 = Some (toggled old j).
Proof using Type*.
  intros Hs Hk Hl Hx1 Hx2.
  pose proof (pwp_toggle_loop fuel clock (float_add (clock 0%nat) duration) 0 s k Hs Hk Hl) as Hwp.
  assert (Hinv : forall i k1 k2, others k1 k2 \/ toggles k1 k2 ->
    (exists j, (i <= j)%nat /\ live k1 = Some (toggled old j)) ->
    exists j, (i <= j)%nat /\ live k2 = Some (toggled old j)).
  { intros i ka kb [Hr|(a & b & Hab & Ha & Hb)] (j & Hj & Hlj).
    - exists j. by rewrite (others_live _ _ Hr).
    - rewrite Ha in Hlj. injection Hlj as ->%toggled_inj. exists b. split; [lia|done]. }
  destruct (wp_exec_inv sys_bpf others toggles (fun k => exists j, (0 <= j)%nat /\ live k = Some (toggled old j))
    _ _ _ _ _ (fun a b H => Hinv 0%nat a b (or_introl H)) (fun a b H => Hinv 0%nat a b (or_intror H))
    Hwp Hx1 (ex_intro _ 0%nat (conj (le_n _) Hl))) as (i & _ & Hi).
  destruct (wp_exec_inv sys_bpf others toggles (fun k => exists j, (i <= j)%nat /\ live k = Some (toggled old j))
    _ _ _ _ _ (fun a b H => Hinv i a b (or_introl H)) (fun a b H => Hinv i a b (or_intror H))
    (wp_exec _ _ _ _ _ _ _ _ Hwp Hx1) Hx2 (ex_intro _ i (conj (le_n _) Hi))) as (j & Hj & Hlj).
  by exists i, j.
Qed.

End toggle.

(** A clock that allows two toggles in [demo_duration]. *)
Definition demo_clock (n : nat) : float := float_of_Z (4 * Z.of_nat n).
Definition demo_duration : float := float_of_dec false 95 (-1).

Lemma toggle_never_hybrid_witness :
  let p := toggle_main 5 demo_clock demo_duration demo_cache in
  exists i j, (i <= j)%nat /\
    Bundle.live toggle_pdr_id (fst (run ref_sys p demo_kernel)) = Some (toggled demo_slot i) /\
    Bundle.live toggle_pdr_id (fst (run ref_sys p demo_kernel)) = Some (toggled demo_slot j).
Proof.
  intros p.
  exact (toggle_never_hybrid demo_slot 5 demo_clock demo_duration demo_cache demo_kernel _ _ _ _
    demo_cache_ok demo_kernel_ok demo_live
    (run_exec_rely ref_sys (others toggle_pdr_id) p demo_kernel (others_refl _)) (rtc_refl _ _)).
Defined.


(** ** The capture and its parsers *)

(** [.strip().replace(' ', '')] *)
Fixpoint remove_spaces (s : string) : string :=
  match s with
  | EmptyString => EmptyString
  | String a s' => if ascii_dec a " " then remove_spaces s' else String a (remove_spaces s')
  end.

Definition clean (line : string) : string := remove_spaces (strip line).

(** [bytes.fromhex(s)]: pairs of hexadecimal digits, blanks between them. *)
Fixpoint fromhex (s : string) : res bytes :=
  match s with
  | EmptyString => Ok []
  | String a s' =>
      if c_isspace a then fromhex s' else
      match s' with
      | String b s'' =>
          match digit_in 16 a, digit_in 16 b with
          | Some h, Some l => bs ← fromhex s''; Ok (z2b (16 * h + l) :: bs)
          | _, _ => Exc ValueError
          end
      | EmptyString => Exc ValueError
      end
  end.

(** [int.from_bytes(raw[i:j], 'little')] *)
Definition from_bytes (raw : bytes) (i j : nat) : Z := le_combine (slice i (j - i) raw).

(** The loop both parsers share; they differ in the tuple they make of the 16
    bytes. *)
Fixpoint parse_lines {A} (fields : bytes -> A) (lines : list string) : res (list A) :=
  match lines with
  | [] => Ok []
  | line :: lines1 =>
      if starts_with "==" line then
        match lines1 with
        | [] => Exc IndexError
        | [l1] =>
            raw ← fromhex (clean l1 ++ "");
            Ok [fields (take 16 raw)]
        | l1 :: l2 :: lines2 =>
            raw ← fromhex (clean l1 ++ clean l2);
            events ← parse_lines fields lines2;
            Ok (fields (take 16 raw) :: events)
        end
      else parse_lines fields lines1
  end.

(** [(far_id, qer_id, generation, pdr_id)] *)
Definition decision_tuple : Type := Z * Z * Z * Z.

(** [parse] of analyze.py *)
Definition parse (lines : list string) : res (list decision_tuple) :=
  parse_lines (fun raw => (from_bytes raw 0 4, from_bytes raw 4 8, from_bytes raw 8 12, from_bytes raw 12 16)) lines.

(** [parse] of analyze_latency.py *)
Definition parse_latency (lines : list string) : res (list (Z * Z)) :=
  parse_lines (fun raw => (from_bytes raw 0 8, from_bytes raw 8 12)) lines.

(** The memory of the two event structs. *)
Definition enc_decision (e : decision_event) : bytes :=
  le_split 4 (de_far_id e) ++ le_split 4 (de_qer_id e) ++ le_split 4 (de_generation e) ++ le_split 4 (de_pdr_id e).
Definition enc_latency (e : latency_event) : bytes :=
  le_split 8 (le_latency_ns e) ++ le_split 4 (le_pkt_len e) ++ le_split 4 0.

Fixpoint hex (b : bytes) : string :=
  match b with
  | [] => ""
  | x :: b' => String (hex_digit (b2z x / 16)) (String (hex_digit (b2z x mod 16)) (hex b'))
  end.

(** A capture of the events [es]: for each, a header and two lines that hold
    its bytes, and padding, in hexadecimal; other lines in between. *)
Inductive capture {E} (enc : E -> bytes) : list string -> list E -> Prop :=
| capture_nil : capture enc [] []
| capture_other l ls es : starts_with "==" l = false -> capture enc ls es -> capture enc (l :: ls) es
| capture_event h l1 l2 pad e ls es :
    starts_with "==" h = true -> (clean l1 ++ clean l2)%string = hex (enc e ++ pad) ->
    capture enc ls es -> capture enc (h :: l1 :: l2 :: ls) (e :: es).

Lemma hex_digit_back v : 0 <= v < 16 -> digit_in 16 (hex_digit v) = Some v /\ c_isspace (hex_digit v) = false.
Proof.
  intros Hv. assert (Hall : forallb (fun n => bool_decide (digit_in 16 (hex_digit (Z.of_nat n)) = Some (Z.of_nat n)) &&
    negb (c_isspace (hex_digit (Z.of_nat n)))) (seq 0 16) = true) by (vm_compute; reflexivity).
  rewrite forallb_forall in Hall. specialize (Hall (Z.to_nat v) ltac:(apply in_seq; lia)).
  rewrite Z2Nat.id in Hall by lia. breflect. done.
Qed.

Lemma fromhex_hex b : fromhex (hex b) = Ok b.
Proof.
  induction b as [|x b IH]; [done|]. pose proof (byte.unsigned_range x).
  destruct (hex_digit_back (b2z x / 16)) as [Dh Sh]; [split; [apply Z.div_pos; lia|apply Z.div_lt_upper_bound; lia]|].
  destruct (hex_digit_back (b2z x mod 16)) as [Dl _]; [by apply Z.mod_pos_bound|].
  cbn [hex fromhex]. rewrite Sh, Dh, Dl, IH. cbn. do 2 f_equal.
  rewrite <-Z.div_mod by done. apply byte.of_Z_unsigned.
Qed.

Lemma parse_capture {E A} (enc : E -> bytes) (fields : bytes -> A) (tuple : E -> A) lines es :
  (forall e pad, e ∈ es -> fields (take 16 (enc e ++ pad)) = tuple e) ->
  capture enc lines es -> parse_lines fields lines = Ok (tuple <$> es).
Proof.
  intros Hf Hc. induction Hc as [|l ls es Hl Hc IH|h l1 l2 pad e ls es Hh Hx Hc IH]; [done| |].
  - cbn [parse_lines]. rewrite Hl. auto.
  - cbn [parse_lines]. rewrite Hh, Hx, fromhex_hex. cbn [mbind res_bind].
    rewrite IH by (intros; apply Hf; by right). cbn [mbind res_bind]. rewrite Hf by by left. done.
Qed.

Definition tuple_of (e : decision_event) : decision_tuple :=
  (de_far_id e, de_qer_id e, de_generation e, de_pdr_id e).

Definition decision_fits (e : decision_event) : Prop :=
  is_u32 (de_far_id e) /\ is_u32 (de_qer_id e) /\ is_u32 (de_generation e) /\ is_u32 (de_pdr_id e).

Definition latency_fits (e : latency_event) : Prop :=
  is_u64 (le_latency_ns e) /\ is_u32 (le_pkt_len e).

(** A little-endian word in the middle of a byte string. *)
Lemma from_bytes_word pre n z post i j :
  i = length pre -> j = (i + n)%nat -> 0 <= z < 2 ^ (Z.of_nat n * 8) ->
  from_bytes (pre ++ le_split n z ++ post) i j = z.
Proof.
  intros -> -> Hz. unfold from_bytes. replace (length pre + n - length pre)%nat with n by lia.
  rewrite slice_app_r by lia. rewrite Nat.sub_diag, slice_app_l by (rewrite length_le_split; lia).
  pose proof (slice_all (le_split n z)) as Hs. rewrite length_le_split in Hs. rewrite Hs.
  by apply le_combine_split_small.
Qed.

Lemma take_16 {A} (a b : list A) : length a = 16%nat -> take 16 (a ++ b) = a.
Proof. intros <-. apply take_app_length. Qed.

Lemma decision_fields e pad :
  decision_fits e ->
  let raw := take 16 (enc_decision e ++ pad) in
  (from_bytes raw 0 4, from_bytes raw 4 8, from_bytes raw 8 12, from_bytes raw 12 16) = tuple_of e.
Proof.
  intros (H1 & H2 & H3 & H4) raw. unfold raw.
  rewrite take_16 by (unfold enc_decision; by rewrite !length_app, !length_le_split). unfold enc_decision, tuple_of.
  f_equal; [f_equal; [f_equal|]|].
  - by apply (from_bytes_word []).
  - by apply from_bytes_word.
  - rewrite app_assoc. apply from_bytes_word; [by rewrite length_app, !length_le_split|done|done].
  - rewrite <-(app_nil_r (le_split 4 (de_pdr_id e))), !app_assoc, <-(app_assoc _ _ []).
    apply from_bytes_word; [by rewrite !length_app, !length_le_split|done|done].
Qed.

(** The two capture parsers read back the events the datapath emitted.
    Whatever else [bpftool] prints between the records and after their 16
    bytes, [parse] of analyze.py returns the fields of every decision event, in
    order, and [parse] of analyze_latency.py those of every latency event. *)
Theorem capture_roundtrip lines :
  (forall es, Forall decision_fits es -> capture enc_decision lines es ->
     parse lines = Ok (tuple_of <$> es)) /\
  (forall es, Forall latency_fits es -> capture enc_latency lines es ->
     parse_latency lines = Ok ((fun e => (le_latency_ns e, le_pkt_len e)) <$> es)).
Proof.
  split; intros es Hes Hc; (eapply parse_capture; [|exact Hc]); intros e pad He.
  - rewrite Forall_forall in Hes. by apply decision_fields, Hes.
  - rewrite Forall_forall in Hes. destruct (Hes e He) as (H1 & H2).
    rewrite take_16 by (unfold enc_latency; by rewrite !length_app, !length_le_split). unfold enc_latency.
    f_equal; [by apply (from_bytes_word [])|by apply from_bytes_word].
Qed.

Lemma capture_roundtrip_witness :
  let e := {| de_far_id := 3; de_qer_id := 3; de_generation := 1; de_pdr_id := 0x2000 |} in
  parse ["Listening"; "== @377553.286885363 CPU: 19 index: 19 ====="; "03 00 00 00 03 00 00 00  01 00 00 00 00 20 00 00";
         "00 00 00 00"]%string = Ok [tuple_of e].
Proof.
  intros e. refine (proj1 (capture_roundtrip _) [e] _ _).
  - apply Forall_cons. split; [|apply Forall_nil; done]. vm_compute. repeat (split; try discriminate).
  - apply capture_other; [reflexivity|].
    apply (capture_event _ _ _ _ (z2b <$> [0; 0; 0; 0]) e); [reflexivity|vm_compute; reflexivity|constructor].
Defined.

(** ** analyze.py *)

(** The pair [analyze.py] expects of a generation. *)
Definition expected_pair (gen : Z) : Z * Z := if gen mod 2 =? 0 then (1, 1) else (3, 3).

(** [Counter(...)] *)
Definition counter (l : list (Z * Z)) : gmap (Z * Z) nat :=
  foldl (fun m x => <[x := S (default 0%nat (m !! x))]> m) ∅ l.

Record report := {
  rep_total : nat; rep_torn : nat; rep_mismatches : nat;
  rep_distribution : gmap (Z * Z) nat; rep_generations : nat;
}.

(** What the script prints about its events. *)
Definition analyze (lines : list string) : res report :=
  events ← parse lines;
  let pair (e : decision_tuple) := (e.1.1.1, e.1.1.2) in
  let gen (e : decision_tuple) := e.1.2 in
  let torn := filter (fun e => ~ pair e ∈ [(1, 1); (3, 3)]) events in
  let mismatches := filter (fun e => pair e <> expected_pair (gen e)) events in
  Ok {| rep_total := length events; rep_torn := length torn; rep_mismatches := length mismatches;
        rep_distribution := counter (pair <$> events);
        rep_generations := length (remove_dups (gen <$> events)) |}.

(** ** The events of the datapath *)

Section events.
Context `{BpfKernelLaws K}.

(** The event the tuple [sl] of PDR [pdr_id] leaves in the perf ring. *)
Definition decision_of (pdr_id : Z) (sl : tc_bundle_slot) : decision_event :=
  {| de_far_id := slot_far_id sl; de_qer_id := slot_qer_id sl;
     de_generation := slot_generation sl; de_pdr_id := pdr_id |}.

(** The TC programme, run on some packet in state [k], emits [e]. *)
Definition emits (k : K) (e : decision_event) : Prop :=
  exists build adj redir kt skb st ret skb' st',
    upf_tc_ingress build adj redir (contents k) kt skb st = Some (ret, skb', st') /\
    EvDecision e ∈ drop (length (cpu_events st)) (cpu_events st').

Lemma urr_update_events u len st : cpu_events (upf_urr_update u len st) = cpu_events st.
Proof. unfold upf_urr_update. repeat case_match; done. Qed.

Lemma drop_none {A} (l : list A) x : x ∈ drop (length l) l -> False.
Proof. rewrite drop_all. apply not_elem_of_nil. Qed.

Lemma far_forward_events build adj redir lookup kt skb far qer urr pdr gen ohl te st ret skb' st' e :
  upf_far_forward build adj redir lookup kt skb far qer urr pdr gen ohl te st = (ret, skb', st') ->
  EvDecision e ∈ drop (length (cpu_events st)) (cpu_events st') ->
  e = {| de_far_id := far; de_qer_id := qer; de_generation := gen; de_pdr_id := pdr |}.
Proof.
  rewrite upf_far_forward_eq. destruct (adj _ _ _ _) as [skb1|]; [|intros [= <- <- <-] []%drop_none].
  destruct (lookup _ _) as [fv|]; [|intros [= <- <- <-] []%drop_none].
  destruct (upf_qer_admit _ _ _ _ _ _) as [admitted buckets].
  destruct admitted; cbn [negb]; [|intros [= <- <- <-] []%drop_none].
  intros [= <- <- <-] He. revert He.
  destruct (tc_emit_decision build), (tc_emit_latency build), (negb _); cbn [cpu_events bump emit];
    rewrite urr_update_events; cbn [cpu_events bump set_buckets]; rewrite <-?app_assoc, ?drop_app_length;
    intros He; try by apply drop_none in He.
  all: cbn [app] in He; rewrite !elem_of_cons, elem_of_nil in He; destruct He as [He|He];
    try destruct He as [He|He]; try done; by injection He.
Qed.

(** A decision event shows the tuple that was live in the state its packet
    saw. *)
Lemma emits_live k e :
  kernel_ok k -> emits k e ->
  exists sl, Bundle.live (de_pdr_id e) k = Some sl /\ e = decision_of (de_pdr_id e) sl.
Proof.
  intros Hk (build & adj & redir & kt & skb & st & ret & skb' & st' & Htc & He).
  revert Htc. unfold upf_tc_ingress, upf_tc_ingress_at. walk; try by intros [= <- <- <-]; apply drop_none in He.
  intros Htc%(inj Some). fold (tc_session build adj redir (contents k)) in Htc. rewrite tc_session_eq in Htc. set (t := bpf_ntohl _) in Htc.
  destruct (contents k "teid_session" (le_split 4 t)) as [sess|] eqn:Hsess;
    [|injection Htc as <- <- <-; by apply drop_none in He].
  destruct (contents k "tc_bundle_map" (slice 0 4 sess)) as [bv|] eqn:Hbv;
    [|injection Htc as <- <- <-; by apply drop_none in He].
  destruct (contents k "far_table" _) as [fv|]; [|injection Htc as <- <- <-; by apply drop_none in He].
  destruct (far_action _ =? FAR_DROP); [injection Htc as <- <- <-; by apply drop_none in He|].
  destruct (far_action _ =? FAR_BUFFER).
  { injection Htc as <- <- <-. revert He. cbn [cpu_events bump emit].
    rewrite drop_app_length. by intros [Hx|[]%elem_of_nil]%elem_of_cons. }
  pose proof (far_forward_events _ _ _ _ _ _ _ _ _ _ _ _ _ _ _ _ _ _ Htc He) as ->.
  exists (live_slot (read_tc_bundle bv)). split; [|done].
  destruct (law_wf k "teid_session" _ _ sess Hk eq_refl eq_refl Hsess) as [_ Hlen].
  assert (Hkey : le_split 4 (sess_pdr_id (read_session_val sess)) = slice 0 4 sess).
  { apply (split_le_combine' (slice 0 4 sess) 4), length_slice. rewrite Hlen. by apply Nat.leb_le. }
  unfold Bundle.live. cbn [de_pdr_id]. by rewrite Hkey, Hbv.
Qed.

End events.

(** ** The experiment as a whole *)

Section experiment.
Context `{BpfKernelLaws K}.
Context (old : tc_bundle_slot) (fuel : nat) (clock : nat -> float) (duration : float) (s : fd_cache) (k : K).
Hypothesis Hcache : cache_ok s k.
Hypothesis Hkernel : kernel_ok k.
Hypothesis Hlive : Bundle.live toggle_pdr_id k = Some old.

(** [e] was emitted for this PDR at some point of some interleaving of the
    experiment. *)
Definition observed (e : decision_event) : Prop :=
  de_pdr_id e = toggle_pdr_id /\
  exists p1 k1, exec sys_bpf (others toggle_pdr_id) (toggle_main fuel clock duration s, k) (p1, k1) /\ emits k1 e.

Lemma observed_toggled e :
  observed e -> exists i, e = decision_of toggle_pdr_id (toggled old i) /\ slot_fits (toggled old i).
Proof using Type*.
  intros (Hpdr & p1 & k1 & Hx & He).
  assert (Hk1 : kernel_ok k1).
  { apply (exec_kernel_ok (others toggle_pdr_id) _ (p1, k1)) in Hx; [done| |done]. by intros ?? (Hok & _). }
  destruct (emits_live k1 e Hk1 He) as (sl & Hsl & ->). cbn [de_pdr_id decision_of] in Hpdr, Hsl |- *.
  rewrite Hpdr in Hsl |- *.
  pose proof (pwp_toggle_loop old fuel clock (float_add (clock 0%nat) duration) 0 s k Hcache Hkernel Hlive) as Hwp.
  assert (exists j, Bundle.live toggle_pdr_id k1 = Some (toggled old j)) as [j Hj].
  { eapply (wp_exec_inv sys_bpf (others toggle_pdr_id) (toggles old)
      (fun k => exists j, Bundle.live toggle_pdr_id k = Some (toggled old j))); [| |exact Hwp|exact Hx|by exists 0%nat].
    - intros ka kb Hr [j Hj]. exists j. by rewrite (others_live _ _ Hr).
    - intros ka kb (a & b & _ & _ & Hb) _. by exists b. }
  rewrite Hj in Hsl. injection Hsl as <-. exists j. split; [done|]. by eapply live_fits.
Qed.

Lemma observed_fits e : observed e -> decision_fits e.
Proof using Type*.
  intros (i & -> & Hf)%observed_toggled. unfold decision_fits, slot_fits in *. cbn. split_and!; try apply Hf; by vm_compute.
Qed.

Lemma expected_pair_even g : expected_pair g = if Z.even g then (1, 1) else (3, 3).
Proof. unfold expected_pair. by rewrite Zmod_even; destruct (Z.even g). Qed.

(** The pair of an observed tuple against the convention of analyze.py. *)
Lemma toggled_expected i :
  (slot_far_id old, slot_qer_id old) = expected_pair (slot_generation old) ->
  let sl := toggled old i in
  let pair := (slot_far_id sl, slot_qer_id sl) in
  pair ∈ [(1, 1); (3, 3)] /\
  (pair <> expected_pair (slot_generation sl) <->
   Z.even (slot_generation old) = true /\ slot_generation sl <> slot_generation old).
Proof.
  intros Hold sl pair. unfold pair, sl. clear pair sl. rewrite expected_pair_even in *. destruct i as [|i].
  - cbn [toggled]. rewrite Hold. split; [destruct (Z.even _); set_solver|]. split; [done|]. by intros [_ []].
  - rewrite toggled_generation, toggled_pair. split; [destruct (Nat.even i); set_solver|].
    assert (He : Z.even (slot_generation old + Z.of_nat (S i)) = eqb (Z.even (slot_generation old)) (negb (Nat.even i))).
    { rewrite Z.even_add, Nat2Z.inj_succ, Z.even_succ, <-Z.negb_even. f_equal. f_equal.
      destruct (Nat.even i) eqn:Ei.
      - apply Nat.even_spec in Ei as [m ->]. apply Z.even_spec. exists (Z.of_nat m). lia.
      - assert (Nat.Odd i) as [m ->] by (apply Nat.odd_spec; unfold Nat.odd; by rewrite Ei).
        rewrite <-Z.negb_odd. apply negb_false_iff, Z.odd_spec. exists (Z.of_nat m). lia. }
    rewrite He. destruct (Z.even (slot_generation old)), (Nat.even i); cbn [negb eqb];
      (split; [intros Hne; split; [done|lia]|by intros [? ?]]).
Qed.

(** C13: what analyze.py reports about the experiment.  Take any decision
    events of the PDR, emitted on any CPUs for any packets at any points of any
    interleaving, captured and parsed; let the initial tuple carry the pair
    analyze.py expects of its generation.  The report counts every event and no
    torn pair.  If the initial generation is odd it counts no parity mismatch;
    if it is even, as after a fresh installation, it counts every event of a
    committed toggle as one, although none was torn. *)
Theorem toggle_run_analysed es lines :
  (slot_far_id old, slot_qer_id old) = expected_pair (slot_generation old) ->
  Forall observed es -> capture enc_decision lines es ->
  exists r, analyze lines = Ok r /\
    rep_total r = length es /\ rep_torn r = 0%nat /\
    rep_mismatches r =
      if Z.even (slot_generation old)
      then length (filter (fun e => de_generation e <> slot_generation old) es) else 0%nat.
Proof using Type*.
  intros Hold Hes Hc.
  assert (Hfits : Forall decision_fits es) by (eapply Forall_impl; [exact Hes|apply observed_fits]).
  unfold analyze. unfold parse. erewrite (parse_capture enc_decision _ tuple_of); [..|exact Hc].
  2:{ intros e pad He. rewrite Forall_forall in Hfits. destruct (Hfits e He) as (H1 & H2 & H3 & H4).
      by apply decision_fields. }
  cbn [mbind res_bind]. eexists. split; [reflexivity|]. cbn [rep_total rep_torn rep_mismatches].
  split; [by rewrite length_fmap|].
  assert (Hall : Forall (fun e => exists i, e = decision_of toggle_pdr_id (toggled old i)) es).
  { eapply Forall_impl; [exact Hes|]. intros e (i & He & _)%observed_toggled. by exists i. }
  clear Hc Hes Hfits. split.
  - induction Hall as [|e es (i & ->) Hall IH]; [done|]. cbn [fmap list_fmap]. rewrite filter_cons_False; [exact IH|].
    cbn. intros Hn. apply Hn. exact (proj1 (toggled_expected i Hold)).
  - induction Hall as [|e es (i & ->) Hall IH]; [by destruct (Z.even _)|]. cbn [fmap list_fmap].
    pose proof (proj2 (toggled_expected i Hold)) as Hi. cbv zeta in Hi.
    destruct (Z.even (slot_generation old)) eqn:Ev.
    + destruct (decide (slot_generation (toggled old i) = slot_generation old)) as [E|E].
      * rewrite !filter_cons_False; [exact IH|cbn; auto|cbn; naive_solver].
      * rewrite !filter_cons_True; [cbn [length]; by rewrite IH|cbn; auto|cbn; naive_solver].
    + rewrite filter_cons_False; [exact IH|cbn; naive_solver].
Qed.
End experiment.

(** A trial: PDR 0x2000 freshly installed and forwarding, and the packet of a
    session over it. *)
Definition trial : ref_kernel * (fd_cache * res unit) :=
  run ref_sys ((install_far 1 FAR_FORWARD 2 0 0 ;; install_far 3 FAR_FORWARD 2 0 0 ;;
                install_session 0x1000 0x2000 1 1 100 1) ∅) ref_init.

Definition trial_events (k : ref_kernel) : list perf_event :=
  match upf_tc_ingress {| tc_qer := PerCpu; tc_emit_decision := true; tc_emit_latency := false |}
      (fun skb _ _ _ => Some skb) (fun _ _ => TC_ACT_REDIRECT) (contents k)
      {| kt_entry := 0; kt_qer := 0; kt_exit := 0; kt_buffer := 0 |}
      {| skb_data := gpdu_bytes (plain_gpdu 0x1000 []); skb_len := 50 |} cpu_init with
  | Some (_, _, st') => cpu_events st'
  | None => []
  end.

Lemma trial_emits k e : EvDecision e ∈ trial_events k -> emits k e.
Proof.
  unfold trial_events. destruct (upf_tc_ingress _ _ _ _ _ _ _) as [[[ret skb'] st']|] eqn:E; [|by intros ?%elem_of_nil].
  intros He. do 6 eexists. exists ret, skb', st'. split; [exact E|exact He].
Qed.

Lemma toggle_run_analysed_witness :
  let lines := ["== header"; "01 00 00 00 01 00 00 00  00 00 00 00 00 20 00 00"; "00 00 00 00";
                "== header"; "03 00 00 00 03 00 00 00  02 00 00 00 00 20 00 00"; "00 00 00 00"]%string in
  exists r, analyze lines = Ok r /\ (rep_total r, rep_torn r, rep_mismatches r) = (2, 0, 1)%nat.
Proof.
  intros lines.
  set (e0 := decision_of 0x2000 demo_slot). set (e2 := decision_of 0x2000 (toggled demo_slot 2)).
  set (p := toggle_main 5 demo_clock demo_duration trial.2.1).
  assert (Hx : exec ref_sys (others toggle_pdr_id) (p, trial.1) (Ret (snd (run ref_sys p trial.1)), fst (run ref_sys p trial.1)))
    by apply run_exec_rely, others_refl.
  destruct (toggle_run_analysed demo_slot 5 demo_clock demo_duration trial.2.1 trial.1
    ltac:(apply cache_check_ok; vm_compute; reflexivity) ltac:(apply ref_ok_check_ok; vm_compute; reflexivity)
    ltac:(vm_compute; reflexivity) [e0; e2] lines eq_refl) as (r & Hr & H1 & H2 & H3).
  - apply Forall_cons. split; [|apply Forall_cons; split; [|apply Forall_nil; done]].
    + split; [reflexivity|]. exists (p : prog _ _ _), trial.1. split; [apply rtc_refl|].
      apply trial_emits. assert (E : trial_events trial.1 = [EvDecision e0]) by (vm_compute; reflexivity).
      rewrite E. by left.
    + split; [reflexivity|]. eexists _, _. split; [exact Hx|].
      apply trial_emits. assert (E : trial_events (fst (run ref_sys p trial.1)) = [EvDecision e2]) by (vm_compute; reflexivity).
      rewrite E. by left.
  - do 2 (apply (capture_event _ _ _ _ (z2b <$> [0; 0; 0; 0])); [reflexivity|vm_compute; reflexivity|]). constructor.
  - exists r. split; [exact Hr|]. rewrite H1, H2, H3. reflexivity.
Defined.
