(* ===== verification/Latency.v ===== *)
(** * The latency report

    test/analyze_latency.py on top of its parser ([parse_latency],
    Consistency.v): the interpolated [percentile] and the figures of the main
    block, in Python's numbers.  Reading the file, and the rounding of the
    printed figures to one decimal, are left out. *)

From S2P Require Import Prelude PyText PyFloat FloatBounds UpfMaps Datapath Http Consistency.

Open Scope Z_scope.

(** ** The script *)

(** The literal [99.9] *)
Definition f99_9 : float := float_of_dec false 999 (-1).

Definition percentile (sorted_vals : list Z) (p : num) : res num :=
  match sorted_vals with
  | [] => Ok (NInt 0)
  | _ =>
      let n := Z.of_nat (length sorted_vals) in
      q ← num_div p (NFloat f100);
      k ← num_mul (NInt (n - 1)) (NFloat q);
      f ← match k with NInt z => Ok z | NFloat x => trunc_float x end;
      let c := Z.min (f + 1) (n - 1) in
      if f =? c then v ← index sorted_vals f; Ok (NInt v) else
      a ← index sorted_vals f;
      b ← index sorted_vals c;
      t ← num_sub k (NInt f);
      d ← num_mul (NInt (b - a)) t;
      num_add (NInt a) d
  end.

(** The lines after [samples]. *)
Record latency_stats := { ls_min : Z; ls_mean : float; ls_pcts : list num; ls_max : Z; ls_lens : list Z }.
Record latency_report := { lr_samples : Z; lr_stats : option latency_stats }.

Definition report_percentiles : list num := [NInt 50; NInt 90; NInt 99; NFloat f99_9].

(** The main block, on the lines of the file; without samples it exits after
    the first line. *)
Definition analyze_latency (lines : list string) : res latency_report :=
  events ← parse_latency lines;
  let lat := sorted events.*1 in
  let n := Z.of_nat (length lat) in
  if n =? 0 then Ok {| lr_samples := n; lr_stats := None |} else
  mn ← index lat 0;
  mean ← int_div (sumZ lat) n;
  pcts ← map_res (percentile lat) report_percentiles;
  mx ← of_option IndexError (last lat);
  let lens := remove_dups events.*2 in
  Ok {| lr_samples := n;
        lr_stats := Some {| ls_min := mn; ls_mean := mean; ls_pcts := pcts; ls_max := mx; ls_lens := sorted lens |} |}.

Example percentile_ex :
  (percentile [10; 20; 30; 40] (NInt 50), percentile [10; 20; 30; 40] (NInt 0), percentile [] (NInt 50)) =
  (Ok (NFloat (float_of_Z 25)), Ok (NFloat (float_of_Z 10)), Ok (NInt 0)).
Proof. vm_compute. reflexivity. Qed.

(** ** The percentiles *)

(** [p / 100.0] is a fraction. *)
Definition fraction (p : num) (q : float) : Prop :=
  num_div p (NFloat f100) = Ok q /\ magnitude 0 0 1 q /\ negative q = false.

(** A number between two integers. *)
Definition num_between (a b : Z) (v : num) : Prop :=
  match v with NInt z => a <= z <= b | NFloat x => magnitude 0 a b x /\ negative x = false end.

Lemma float_of_int_exact z :
  0 <= z < 2 ^ 53 -> float_of_int z = Ok (float_of_Z z) /\ magnitude 0 z z (float_of_Z z) /\ negative (float_of_Z z) = false.
Proof.
  intros Hz. destruct (float_of_Z_exact z ltac:(lia)) as [Hm Hn]. rewrite Z.abs_eq in Hm by lia.
  rewrite (proj2 (Z.ltb_ge _ _)) in Hn by lia. split; [|done]. unfold float_of_int. by rewrite (magnitude_finite _ _ _ _ Hm).
Qed.

(** The double rank of [p] among [n] samples. *)
Definition rank (n : Z) (q : float) : float := float_mul (float_of_Z (n - 1)) q.

Lemma rank_bounds n q :
  1 <= n <= 2 ^ 53 -> magnitude 0 0 1 q -> negative q = false ->
  num_mul (NInt (n - 1)) (NFloat q) = Ok (NFloat (rank n q)) /\ magnitude 0 0 (n - 1) (rank n q) /\ negative (rank n q) = false.
Proof.
  intros Hn Hq Nq. destruct (float_of_int_exact (n - 1) ltac:(lia)) as (E & Hm & Nn).
  unfold num_mul, num_op. cbn [to_float]. rewrite E. split; [done|].
  destruct (mul_magnitude (n - 1) 1 (float_of_Z (n - 1)) q) as [HM HN]; [lia..| |done|].
  - eapply magnitude_mono; [exact Hm|lia..].
  - rewrite Z.mul_1_r in HM. rewrite Nn, Nq in HN. done.
Qed.

Lemma percentile_rank l p q :
  fraction p q -> l <> [] -> Z.of_nat (length l) <= 2 ^ 53 -> Forall (fun v => 0 <= v < 2 ^ 53) l ->
  let f := int_of_float (rank (Z.of_nat (length l)) q) in
  exists a b v, 0 <= f < Z.of_nat (length l) /\ sorted l !! Z.to_nat f = Some a /\
    sorted l !! Z.to_nat (Z.min (f + 1) (Z.of_nat (length l) - 1)) = Some b /\
    percentile (sorted l) p = Ok v /\ num_between a b v.
Proof.
  intros (Hq & Mq & Nq) Hne Hlen Hr f. pose proof (length_sorted l) as Hls.
  assert (Hn : 1 <= Z.of_nat (length l)) by (destruct l; [done|cbn; lia]).
  destruct (rank_bounds (Z.of_nat (length l)) q ltac:(lia) Mq Nq) as (Ek & Mk & Nk).
  destruct (int_of_float_bounds _ _ _ Mk Nk ltac:(done)) as [Et Hf]. fold f in Et, Hf.
  destruct (frac_magnitude _ _ Mk Nk ltac:(lia)) as [Mt Nt]. fold f in Mt, Nt.
  destruct (index_ok (sorted l) f) as (a & Ha & Ha'); [lia|]. set (n := Z.of_nat (length l)) in *.
  destruct (index_ok (sorted l) (Z.min (f + 1) (n - 1))) as (b & Hb & Hb'); [lia|].
  assert (Hab : a <= b) by (eapply sorted_mono; [|exact Ha'|exact Hb']; lia).
  assert (Hin : forall x i, sorted l !! i = Some x -> 0 <= x < 2 ^ 53).
  { intros x i Hx. rewrite Forall_forall in Hr. apply Hr. rewrite <-(sorted_perm l). by eapply list_elem_of_lookup_2. }
  pose proof (Hin _ _ Ha') as Ra. pose proof (Hin _ _ Hb') as Rb.
  exists a, b. assert (Hp : exists v, percentile (sorted l) p = Ok v /\ num_between a b v); [|naive_solver lia].
  unfold percentile. destruct (sorted l) as [|x vs] eqn:Es; [cbn in Hls; lia|]. rewrite Hls. fold n.
  rewrite Hq. cbn [mbind res_bind]. rewrite Ek. cbn [mbind res_bind]. rewrite Et. cbn [mbind res_bind].
  destruct (Z.eqb_spec f (Z.min (f + 1) (n - 1))) as [E|E].
  { rewrite <-E, Ha in Hb. apply Ok_inj in Hb as <-. rewrite Ha. cbn [mbind res_bind]. eexists. split; [done|]. cbn. lia. }
  rewrite Ha. cbn [mbind res_bind]. rewrite Hb. cbn [mbind res_bind].
  destruct (float_of_int_exact f ltac:(lia)) as (Ef & _ & _).
  destruct (float_of_int_exact (b - a) ltac:(lia)) as (Ed & Md & Nd).
  destruct (float_of_int_exact a ltac:(lia)) as (Ea & Ma & Na).
  unfold num_sub, num_mul, num_add, num_op. cbn [to_float mbind res_bind]. rewrite Ef. cbn [mbind res_bind to_float].
  rewrite Ed. cbn [mbind res_bind to_float]. rewrite Ea. cbn [mbind res_bind].
  destruct (mul_magnitude (b - a) 1 (float_of_Z (b - a)) (float_sub (rank n q) (float_of_Z f))) as [Mm Nm]; [lia..| |done|].
  { eapply magnitude_mono; [exact Md|lia..]. }
  rewrite Nd, Nt in Nm. rewrite Z.mul_1_r in Mm.
  destruct (add_magnitude a a 0 (b - a) (float_of_Z a) (float_mul (float_of_Z (b - a)) (float_sub (rank n q) (float_of_Z f))))
    as [Mr Nr]; [lia|done|lia|done..|].
  rewrite Z.add_0_r, Zplus_minus in Mr. eexists. split; [reflexivity|]. by split.
Qed.

(** The fractions of the report. *)
Definition fraction_of (p : num) : float := match num_div p (NFloat f100) with Ok q => q | Exc _ => S754_nan end.

Lemma report_fractions : Forall (fun p => fraction p (fraction_of p)) report_percentiles.
Proof.
  assert (Hc : forall p s m e, num_div p (NFloat f100) = Ok (S754_finite s m e) ->
    (e <=? 0) && (Zpos m <=? 2 ^ (0 - e)) && negb s = true -> fraction p (fraction_of p)).
  { intros p s m e E Hb. unfold fraction, fraction_of. rewrite E. breflect. split; [done|]. split; [|done].
    cbn [magnitude]. lia. }
  unfold report_percentiles. repeat (apply Forall_cons; split); [..|apply Forall_nil; done];
    (eapply Hc; [vm_compute; reflexivity|vm_compute; reflexivity]).
Qed.

Lemma report_pcts l :
  l <> [] -> Z.of_nat (length l) <= 2 ^ 53 -> Forall (fun v => 0 <= v < 2 ^ 53) l ->
  exists vs, map_res (percentile (sorted l)) report_percentiles = Ok vs /\
    Forall2 (fun p v =>
      let f := int_of_float (rank (Z.of_nat (length l)) (fraction_of p)) in
      exists a b, 0 <= f < Z.of_nat (length l) /\ sorted l !! Z.to_nat f = Some a /\
        sorted l !! Z.to_nat (Z.min (f + 1) (Z.of_nat (length l) - 1)) = Some b /\ num_between a b v) report_percentiles vs.
Proof.
  intros Hne Hlen Hr. pose proof report_fractions as Hf.
  induction Hf as [|p ps Hp _ (vs & E & H)]; [by exists []|].
  destruct (percentile_rank l p (fraction_of p) Hp Hne Hlen Hr) as (a & b & v & Hi & Ha & Hb & Hv & Hbet).
  exists (v :: vs). cbn [map_res]. rewrite Hv, E. split; [done|]. constructor; [by exists a, b|done].
Qed.

Lemma sum_between l lo hi : Forall (fun v => lo <= v <= hi) l -> lo * Z.of_nat (length l) <= sumZ l <= hi * Z.of_nat (length l).
Proof. unfold sumZ. induction 1 as [|v l Hv _ IH]; [cbn; lia|]. cbn [foldr length]. lia. Qed.

(** C24: the latency report is the distribution of the latency events.  On a
    capture of the events (with latencies below 2^53 ns, and as few samples)
    analyze_latency.py always gets to its last line: without events it prints
    the sample count only; otherwise [min] and [max] are those of the events,
    the mean, divided and rounded in doubles, lies between them, every
    percentile, interpolated in doubles, lies between the two neighbouring
    order statistics at the rank the code computes, which is never out of
    range, and the packet lengths are those of the events, each once. *)
Theorem latency_distribution lines es :
  Forall (fun e => 0 <= le_latency_ns e < 2 ^ 53 /\ is_u32 (le_pkt_len e)) es ->
  capture enc_latency lines es -> Z.of_nat (length es) <= 2 ^ 53 ->
  let lat := le_latency_ns <$> es in let n := Z.of_nat (length es) in
  exists r, analyze_latency lines = Ok r /\ lr_samples r = n /\
    match lr_stats r with
    | None => es = []
    | Some st =>
        (ls_min st ∈ lat /\ forall x, x ∈ lat -> ls_min st <= x) /\
        (ls_max st ∈ lat /\ forall x, x ∈ lat -> x <= ls_max st) /\
        num_between (ls_min st) (ls_max st) (NFloat (ls_mean st)) /\
        Forall2 (fun p v =>
          let f := int_of_float (rank n (fraction_of p)) in
          exists a b, 0 <= f < n /\ sorted lat !! Z.to_nat f = Some a /\
            sorted lat !! Z.to_nat (Z.min (f + 1) (n - 1)) = Some b /\ num_between a b v) report_percentiles (ls_pcts st) /\
        NoDup (ls_lens st) /\ forall x, x ∈ ls_lens st <-> x ∈ (le_pkt_len <$> es)
    end.
Proof.
  intros Hes Hc Hlen lat n.
  assert (Hp : parse_latency lines = Ok ((fun e => (le_latency_ns e, le_pkt_len e)) <$> es)).
  { apply (proj2 (capture_roundtrip lines)); [|done]. eapply Forall_impl; [exact Hes|]. intros e [? ?]. split; [|done]. lia. }
  unfold analyze_latency. rewrite Hp. cbn [mbind res_bind]. rewrite <-!list_fmap_compose.
  change (fst ∘ (fun e => (le_latency_ns e, le_pkt_len e))) with le_latency_ns.
  change (snd ∘ (fun e => (le_latency_ns e, le_pkt_len e))) with le_pkt_len. fold lat.
  assert (Hl : length lat = length es) by apply length_fmap. rewrite length_sorted, Hl. fold n.
  destruct (Z.eqb_spec n 0) as [E|E].
  { eexists. split; [reflexivity|]. split; [done|]. cbn [lr_stats]. destruct es; [done|]. unfold n in E. cbn in E. lia. }
  assert (Hne : lat <> []) by (intros El; unfold n in E; rewrite <-Hl, El in E; done).
  assert (Hr : Forall (fun v => 0 <= v < 2 ^ 53) lat) by (apply Forall_fmap; eapply Forall_impl; [exact Hes|]; by intros e []).
  destruct (index_ok (sorted lat) 0) as (mn & -> & Hmn); [rewrite length_sorted, Hl; lia|]. cbn [mbind res_bind].
  destruct (last (sorted lat)) as [mx|] eqn:Hmx.
  2:{ apply last_None in Hmx. pose proof (length_sorted lat) as Hn. rewrite Hmx, Hl in Hn. cbn in Hn. lia. }
  rewrite last_lookup in Hmx.
  assert (Hmin : forall x, x ∈ lat -> mn <= x).
  { intros x Hx. rewrite <-(sorted_perm lat) in Hx. apply list_elem_of_lookup in Hx as [i Hi].
    eapply sorted_mono; [|exact Hmn|exact Hi]. lia. }
  assert (Hmax : forall x, x ∈ lat -> x <= mx).
  { intros x Hx. rewrite <-(sorted_perm lat) in Hx. apply list_elem_of_lookup in Hx as [i Hi].
    eapply sorted_mono; [|exact Hi|exact Hmx]. apply lookup_lt_Some in Hi. lia. }
  assert (Hmem : forall i x, sorted lat !! i = Some x -> x ∈ lat).
  { intros i x Hx. rewrite <-(sorted_perm lat). by eapply list_elem_of_lookup_2. }
  assert (Hsum : mn * n <= sumZ (sorted lat) <= mx * n).
  { unfold n. rewrite <-Hl, <-length_sorted. apply sum_between. apply Forall_forall. intros x Hx.
    rewrite (sorted_perm lat) in Hx. split; auto. }
  rewrite Forall_forall in Hr. pose proof (Hr _ (Hmem _ _ Hmn)). pose proof (Hr _ (Hmem _ _ Hmx)).
  destruct (int_div_magnitude mn mx (sumZ (sorted lat)) n) as (mean & -> & Hm); [lia|lia|lia|done|]. cbn [mbind res_bind].
  destruct (report_pcts lat Hne) as (vs & -> & Hvs); [rewrite Hl; lia|by apply Forall_forall|]. cbn [mbind res_bind of_option].
  eexists. split; [reflexivity|]. split; [done|]. cbn [lr_stats ls_min ls_max ls_mean ls_pcts ls_lens]. rewrite Hl in Hvs.
  split; [split; [by eapply Hmem|done]|]. split; [split; [by eapply Hmem|done]|]. split; [exact Hm|]. split; [exact Hvs|].
  split; [rewrite sorted_perm; apply NoDup_remove_dups|]. intros x. by rewrite sorted_perm, elem_of_remove_dups.
Qed.

Lemma latency_distribution_witness :
  let es := [{| le_latency_ns := 141; le_pkt_len := 114 |}; {| le_latency_ns := 119; le_pkt_len := 114 |}] in
  exists r, analyze_latency ["== @1.0 CPU: 0 ==="; "8d 00 00 00 00 00 00 00  72 00 00 00 00 00 00 00"; "";
      "== @2.0 CPU: 1 ==="; "77 00 00 00 00 00 00 00  72 00 00 00 00 00 00 00"; ""]%string = Ok r /\ lr_samples r = 2 /\
    (fun st => (ls_min st, ls_mean st, ls_max st, ls_lens st)) <$> lr_stats r = Some (119, float_of_Z 130, 141, [114]).
Proof.
  intros es. destruct (latency_distribution ["== @1.0 CPU: 0 ==="; "8d 00 00 00 00 00 00 00  72 00 00 00 00 00 00 00"; "";
      "== @2.0 CPU: 1 ==="; "77 00 00 00 00 00 00 00  72 00 00 00 00 00 00 00"; ""]%string es) as (r & Hr & Hn & _).
  - unfold es. repeat (apply Forall_cons; split); [..|by apply Forall_nil]; vm_compute; repeat split; discriminate.
  - apply (capture_event _ _ _ _ [] {| le_latency_ns := 141; le_pkt_len := 114 |}); [reflexivity|vm_compute; reflexivity|].
    apply (capture_event _ _ _ _ [] {| le_latency_ns := 119; le_pkt_len := 114 |}); [reflexivity|vm_compute; reflexivity|constructor].
  - discriminate.
  - exists r. split; [exact Hr|]. split; [exact Hn|]. revert Hr. vm_compute. intros Hr. apply Ok_inj in Hr. by rewrite <-Hr.
Defined.
