(* ===== verification/Throughput.v ===== *)
(** * The throughput trial

    test/native_throughput.py: the counters of the receiving NIC, the metrics
    page, the interrupts and the idle times around one run of the traffic
    generator.  The commands and /proc/interrupts belong to the machine: a
    [machine] says what they answer at one moment.  Threads: the sampling of
    mpstat runs beside the generator, and both are joined before anything is
    computed.  The rounding of the printed figures is left out. *)

From Stdlib Require Import Strings.Ascii.
From stdpp Require Import functions.
From S2P Require Import Prelude PyText PyFloat FloatBounds UpfMaps Kernel Json Bpftool Datapath Http Metrics.

Open Scope Z_scope.

(** ** The script *)

(** [sh]: the standard output of a command of the shell; the contents of
    /proc/interrupts. *)
Record machine := { sh : string -> string; proc_interrupts : string }.

Definition ethtool_line (d : gmap string Z) (line : string) : gmap string Z :=
  let line := strip line in
  if negb (contains ":" line) then d else
  let '(k, v) := partition ":" line in
  let v := strip (default "" v) in
  if isdigit v then <[strip k := digits_value v]> d else d.

Definition ethtool_counters (m : machine) (iface : string) : gmap string Z :=
  foldl ethtool_line ∅ (splitlines (sh m ("ethtool -S " ++ iface))).

Definition CURL : string := "curl -s http://127.0.0.1:9090/metrics".

(** The lines of a file read as text: they keep their newline, and the other
    line ends are turned into one. *)
Fixpoint file_lines (cur s : string) : list string :=
  match s with
  | EmptyString => match cur with EmptyString => [] | _ => [cur] end
  | String "013" (String "010" s') | String "013" s' | String "010" s' => (cur ++ newline)%string :: file_lines "" s'
  | String a s' => file_lines (cur ++ String a "") s'
  end%char.

(** The integers at the head of a list of words. *)
Fixpoint leading_ints (toks : list string) : list Z :=
  match toks with
  | [] => []
  | tok :: toks' => if isdigit tok then digits_value tok :: leading_ints toks' else []
  end.

Definition irq_name (iface : string) : string := ("i40e-" ++ iface ++ "-TxRx")%string.

Definition irq_row (iface line : string) : option (list Z) :=
  if contains (irq_name iface) line then Some (leading_ints (tail (words line))) else None.

Definition irq_snapshot (m : machine) (iface : string) : list (list Z) :=
  omap (irq_row iface) (file_lines "" (proc_interrupts m)).

(** One pair of rows: [active.add(cpu)] where the count went up. *)
Fixpoint add_active (cpu : Z) (row : list (Z * Z)) (active : gset Z) : gset Z :=
  match row with
  | [] => active
  | (b, a) :: row' => add_active (cpu + 1) row' (if b <? a then {[cpu]} ∪ active else active)
  end.

Definition irq_active_cpus (before after : list (list Z)) : list Z :=
  sorted (elements (foldl (fun active rows => add_active 0 (zip rows.1 rows.2) active) ∅ (zip before after))).

(** [float(parts[-1])], where [parts] is not empty and a [ValueError] is caught. *)
Definition idle_of (parts : list string) : option float :=
  w ← last parts; match py_float w with Ok x => Some x | Exc _ => None end.

(** [100.0 - sum(idles) / len(idles)] *)
Definition busy (idles : list float) : res (option float) :=
  match idles with
  | [] => Ok None
  | _ =>
      mean ← num_div (NFloat (float_sum idles)) (NInt (Z.of_nat (length idles)));
      Ok (Some (float_sub f100 mean))
  end.

(** [mpstat_sample]; [main] does not call it. *)
Definition mpstat_sample (m : machine) (duration_s : Z) (cpu_list : list Z) : res (option float) :=
  let cpus := join_with "," (str_Z <$> cpu_list) in
  let out := sh m ("mpstat -P " ++ cpus ++ " 1 " ++ str_Z duration_s ++ " | tail -n " ++ str_Z (Z.of_nat (length cpu_list))) in
  let idle line :=
    let parts := words line in
    match parts !! 2%nat with
    | None => None
    | Some w => if decide (w = "CPU"%string) then None else idle_of parts
    end in
  busy (omap idle (splitlines out)).

(** The options of [main]. *)
Record throughput_args := {
  ta_gen_iface : string; ta_rx_iface : string; ta_nthreads : Z; ta_duration : Z; ta_frame_bytes : Z; ta_teid_base : string;
}.

Definition blast_line (args : throughput_args) : string :=
  "sudo ./test/xdp_throughput_blast " ++ ta_gen_iface args ++ " " ++ str_Z (ta_nthreads args) ++ " " ++
  str_Z (ta_duration args) ++ " " ++ ta_teid_base args ++ " " ++ str_Z (ta_frame_bytes args).

(** A line of [mpstat -P ALL] in [main]: the idle time of one of these CPUs. *)
Definition mpstat_idle (active_cpus : list Z) (line : string) : option float :=
  let parts := words line in
  match parts !! 2%nat with
  | None => None
  | Some w =>
      if negb (isdigit w) then None else
      if decide (digits_value w ∈ active_cpus) then idle_of parts else None
  end.

(** [if active_cpus and mpstat_raw.get("out")] *)
Definition cpu_util (active_cpus : list Z) (mpstat_out : string) : res (option float) :=
  match active_cpus, mpstat_out with
  | [], _ | _, EmptyString => Ok None
  | _, _ => busy (omap (mpstat_idle active_cpus) (splitlines mpstat_out))
  end.

(** [blast_sent=(\d+)]: the digits after the name. *)
Definition digits_number (s : string) : option Z :=
  match s with
  | String a _ => if is_digit a then Some (digits_value s) else None
  | EmptyString => None
  end.

Definition blast_sent (out : string) : Z := default 0 (search_with digits_number "blast_sent=" out).

(** The literals [1e6] and [1e9] *)
Definition f1e6 : float := float_of_Z 1000000.
Definition f1e9 : float := float_of_Z 1000000000.

(** The figures printed. *)
Record trial_report := {
  tr_sent : Z; tr_rx_hw_pkts : Z; tr_xdp_metric_delta : Z; tr_hw_matches_xdp_metric : bool;
  tr_achieved_mpps : float; tr_achieved_gbps : float; tr_loss_vs_sent : float;
  tr_active_cpus : Z; tr_cpu_util : option float;
}.

(** [main]; [before] and [after] are the machine around the run, [during] the
    machine while the generator and mpstat run. *)
Definition throughput_main (args : throughput_args) (before during after : machine) : res trial_report :=
  let before_eth := ethtool_counters before (ta_rx_iface args) in
  let before_metric := metrics_counter (sh before CURL) "rx_total" in
  let irq_before := irq_snapshot before (ta_rx_iface args) in
  let mpstat_out := sh during ("mpstat -P ALL 1 " ++ str_Z (ta_duration args)) in
  let blast_out := sh during (blast_line args) in
  let after_eth := ethtool_counters after (ta_rx_iface args) in
  let after_metric := metrics_counter (sh after CURL) "rx_total" in
  let irq_after := irq_snapshot after (ta_rx_iface args) in
  let active_cpus := irq_active_cpus irq_before irq_after in
  util ← cpu_util active_cpus mpstat_out;
  let rx_pkts := default 0 (after_eth !! "rx_packets"%string) - default 0 (before_eth !! "rx_packets"%string) in
  let rx_bytes := default 0 (after_eth !! "rx_bytes"%string) - default 0 (before_eth !! "rx_bytes"%string) in
  let metric_delta := after_metric - before_metric in
  let sent := blast_sent blast_out in
  pps ← int_div rx_pkts (ta_duration args);
  bps ← int_div (rx_bytes * 8) (ta_duration args);
  loss ← (if sent =? 0 then Ok S754_nan else q ← int_div (sent - rx_pkts) sent; Ok (float_max (S754_zero false) q));
  Ok {| tr_sent := sent; tr_rx_hw_pkts := rx_pkts; tr_xdp_metric_delta := metric_delta;
        tr_hw_matches_xdp_metric := metric_delta =? rx_pkts;
        tr_achieved_mpps := float_quot pps f1e6; tr_achieved_gbps := float_quot bps f1e9; tr_loss_vs_sent := loss;
        tr_active_cpus := Z.of_nat (length active_cpus); tr_cpu_util := util |}.

Example irq_ex :
  irq_active_cpus [[5; 0; 7]; [1; 1]] [[5; 2; 7]; [2; 1; 9]] = [0; 1] /\
  irq_row "e0" (" 74:   12  3  IR-PCI-MSIX-0000:18:00.0  1-edge  i40e-e0-TxRx-0" ++ newline) = Some [12; 3] /\
  irq_row "e1" (" 74:   12  3  IR-PCI-MSIX-0000:18:00.0  1-edge  i40e-e0-TxRx-0" ++ newline) = None.
Proof. vm_compute. repeat split. Qed.

Example ethtool_ex :
  foldl ethtool_line ∅ ["NIC statistics:"; "     rx_packets: 12"; "     note"; "     a:b: 3"; "     x: -1"]%string =
  <["rx_packets" := 12]> ∅ /\ blast_sent "sent blast_sent=x blast_sent=0042 blast_errors=0" = 42.
Proof. split; vm_compute; reflexivity. Qed.

(** ** The counters of the NIC *)

(** What [ethtool -S] prints of a list of counters. *)
Definition counter_text (c : string * Z) : string := "     " ++ c.1 ++ ": " ++ str_Z c.2.
Definition ethtool_text (l : list (string * Z)) : string :=
  "NIC statistics:" ++ newline ++ foldr (fun c rest => counter_text c ++ newline ++ rest)%string "" l.

(** A name without blanks around it, on one line and without [:]. *)
Definition name_char (a : ascii) : bool := negb (line_break a) && negb (bool_decide (a = ":"%char)).
Definition plain_counter (c : string * Z) : Prop := trimmed c.1 /\ all_chars name_char c.1 = true /\ 0 <= c.2.

Lemma contains_app p k t : contains p (k ++ p ++ t) = true.
Proof.
  induction k as [|a k IH].
  - change ("" ++ p ++ t)%string with (p ++ t)%string. pose proof (strip_prefix_app p t) as H. revert H.
    by destruct (p ++ t)%string; cbn [contains]; intros ->.
  - rewrite append_cons. cbn [contains]. by destruct (strip_prefix p _).
Qed.

Lemma partition_name k t : all_chars name_char k = true -> partition ":" (k ++ ":" ++ t) = (k, Some t).
Proof.
  induction k as [|a k IH]; [done|]. rewrite append_cons. cbn [all_chars partition]. unfold name_char at 1.
  intros [[_ Ha]%andb_true_iff Hk]%andb_true_iff. apply negb_true_iff, bool_decide_eq_false in Ha.
  destruct (ascii_dec a ":") as [|_]; [done|]. by rewrite (IH Hk).
Qed.

Lemma strip_counter c : plain_counter c -> strip (counter_text c) = (c.1 ++ ":" ++ String " " (str_Z c.2))%string.
Proof.
  intros ((H1 & H2) & _ & Hv). unfold counter_text. rewrite !append_cons. do 5 rewrite strip_blank by done.
  destruct (str_Z_digits c.2 Hv) as [_ Hd]. destruct (digits_trimmed _ Hd) as [_ Hr]. destruct (str_Z_head c.2 Hv) as (d & t & Et & _).
  change (String ":" (String " " "" ++ str_Z c.2)) with (":" ++ String " " (str_Z c.2))%string.
  change ("" ++ ?x)%string with x. apply strip_trimmed. split.
  - destruct (decide (c.1 = ""%string)) as [->|Hn]; [done|]. by apply lstrip_app.
  - rewrite string_rev_app, !string_rev_cons, !append_assoc. apply lstrip_app; [exact Hr|].
    rewrite Et, string_rev_cons. by destruct (string_rev "" t).
Qed.

Lemma ethtool_line_counter d c : plain_counter c -> ethtool_line d (counter_text c) = <[c.1 := c.2]> d.
Proof.
  intros Hc. unfold ethtool_line. rewrite (strip_counter _ Hc), contains_app. cbn [negb].
  destruct Hc as (Ht & Hn & Hv). rewrite (partition_name _ _ Hn). cbn [default from_option id]. rewrite strip_blank by done.
  destruct (str_Z_digits c.2 Hv) as [Hi Hd]. rewrite (strip_trimmed _ (digits_trimmed _ Hd)), Hi.
  by rewrite (strip_trimmed _ Ht), digits_value_str.
Qed.

Lemma digit_not_break a : is_digit a = true -> negb (line_break a) = true.
Proof. by destruct a as [[] [] [] [] [] [] [] []]; vm_compute. Qed.

Lemma counter_unbroken c : plain_counter c -> unbroken (counter_text c) = true.
Proof.
  intros (_ & Hn & Hv). unfold unbroken, counter_text. rewrite !all_chars_app. cbn [all_chars].
  rewrite (all_chars_impl _ _ _ (fun a Ha => proj1 (proj1 (andb_true_iff _ _) Ha)) Hn).
  destruct (str_Z_digits c.2 Hv) as [_ Hd]. rewrite all_digits_chars in Hd.
  by rewrite (all_chars_impl _ _ _ digit_not_break Hd).
Qed.

(** The counters read are those printed. *)
Lemma ethtool_read m iface l :
  sh m ("ethtool -S " ++ iface) = ethtool_text l -> Forall plain_counter l -> NoDup l.*1 ->
  ethtool_counters m iface = list_to_map l.
Proof.
  intros Hs Hl Hnd. unfold ethtool_counters. rewrite Hs. unfold ethtool_text. rewrite splitlines_line by done.
  assert (Hf : forall d, foldl ethtool_line d
      (splitlines (foldr (fun c rest => counter_text c ++ newline ++ rest)%string "" l)) =
    foldl (fun d c => <[c.1 := c.2]> d) d l).
  { clear Hs Hnd. induction Hl as [|c l Hc _ IH]; intros d; [done|]. cbn [foldr].
    rewrite splitlines_line by by apply counter_unbroken. cbn [foldl]. by rewrite ethtool_line_counter. }
  cbn [foldl]. change (ethtool_line ∅ "NIC statistics:") with (∅ : gmap string Z). rewrite Hf.
  assert (Hr : forall d, foldl (fun d c => <[c.1 := c.2]> d) d l = (list_to_map l : gmap string Z) ∪ d).
  { clear Hs Hl Hf. induction l as [|c l IH]; intros d; [symmetry; apply (left_id_L ∅ (∪))|]. apply NoDup_cons in Hnd as [Hn Hnd].
    cbn [foldl]. destruct c as [k v]. rewrite list_to_map_cons, (IH Hnd), <-insert_union_r by (apply not_elem_of_list_to_map_1; exact Hn).
    by rewrite insert_union_l. }
  rewrite Hr. apply (right_id_L ∅ (∪)).
Qed.

(** ** The CPUs that took interrupts *)

(** The count of the CPU [c] went up on some line. *)
Definition interrupted (before after : list (list Z)) (c : Z) : Prop :=
  exists i j rb ra b a, before !! i = Some rb /\ after !! i = Some ra /\
    rb !! j = Some b /\ ra !! j = Some a /\ b < a /\ c = Z.of_nat j.

Lemma add_active_spec cpu row active c :
  c ∈ add_active cpu row active <-> c ∈ active \/ exists j b a, row !! j = Some (b, a) /\ b < a /\ c = cpu + Z.of_nat j.
Proof.
  revert cpu active. induction row as [|[b a] row IH]; intros cpu active; cbn [add_active].
  { split; [by left|]. intros [?|(j & b & a & Hj & _)]; [done|]. by rewrite lookup_nil in Hj. }
  rewrite IH. split.
  - intros [Hc|(j & b' & a' & Hj & Hlt & ->)].
    + destruct (Z.ltb_spec b a); [|by left]. apply elem_of_union in Hc as [->%elem_of_singleton|Hc]; [right|by left].
      exists O, b, a. split; [done|]. split; [done|]. cbn. lia.
    + right. exists (S j), b', a'. split; [done|]. split; [done|]. lia.
  - intros [Hc|([|j] & b' & a' & Hj & Hlt & ->)].
    + left. case_match; [by apply elem_of_union_r|done].
    + injection Hj as -> ->. left. rewrite (proj2 (Z.ltb_lt _ _) Hlt). apply elem_of_union_l, elem_of_singleton. cbn. lia.
    + right. exists j, b', a'. split; [done|]. split; [done|]. lia.
Qed.

Lemma irq_active_spec before after :
  NoDup (irq_active_cpus before after) /\ forall c, c ∈ irq_active_cpus before after <-> interrupted before after c.
Proof.
  unfold irq_active_cpus. split; [rewrite sorted_perm; apply NoDup_elements|]. intros c. rewrite sorted_perm, elem_of_elements.
  assert (Hg : forall l active, c ∈ foldl (fun active rows => add_active 0 (zip rows.1 rows.2) active) active l <->
    c ∈ active \/ exists i rows j b a, l !! i = Some rows /\ zip rows.1 rows.2 !! j = Some (b, a) /\ b < a /\ c = Z.of_nat j).
  { induction l as [|rows l IH]; intros active; cbn [foldl].
    { split; [by left|]. intros [?|(i & rows & j & b & a & Hi & _)]; [done|]. by rewrite lookup_nil in Hi. }
    rewrite IH, add_active_spec. split.
    - intros [[?|(j & b & a & Hj & Hlt & ->)]|(i & r & Hi)]; [by left|right; by exists O, rows, j, b, a|right; by exists (S i), r].
    - intros [?|([|i] & r & j & b & a & Hi & Hj & Hlt & ->)]; [by do 2 left| |right; by exists i, r, j, b, a].
      injection Hi as ->. left. right. by exists j, b, a. }
  rewrite Hg. split.
  - intros [Hc|(i & rows & j & b & a & Hi & Hj & Hlt & ->)]; [by apply elem_of_empty in Hc|].
    apply lookup_zip_with_Some in Hi as (rb & ra & -> & Hb & Ha).
    apply lookup_zip_with_Some in Hj as (b' & a' & Hp & Hjb & Hja). injection Hp as -> ->. cbn [fst snd] in *. by exists i, j, rb, ra, b', a'.
  - intros (i & j & rb & ra & b & a & Hb & Ha & Hjb & Hja & Hlt & ->). right. exists i, (rb, ra), j, b, a.
    split; [apply lookup_zip_with_Some; by exists rb, ra|]. split; [apply lookup_zip_with_Some; by exists b, a|done].
Qed.

(** The lines of /proc/interrupts, and the counts on those of this interface:
    a label, a count for every CPU, and what kind of interrupt it is. *)
Inductive irq_lines (iface : string) : list string -> list (list Z) -> Prop :=
| irq_nil : irq_lines iface [] []
| irq_other line lines rows :
    contains (irq_name iface) line = false -> irq_lines iface lines rows -> irq_lines iface (line :: lines) rows
| irq_line line lines label kind rest counts rows :
    contains (irq_name iface) line = true -> words line = label :: (str_Z <$> counts) ++ kind :: rest ->
    Forall (fun c => 0 <= c) counts -> isdigit kind = false ->
    irq_lines iface lines rows -> irq_lines iface (line :: lines) (counts :: rows).

Lemma leading_counts counts kind rest :
  Forall (fun c => 0 <= c) counts -> isdigit kind = false -> leading_ints ((str_Z <$> counts) ++ kind :: rest) = counts.
Proof.
  intros Hc Hk. induction Hc as [|c counts Hc _ IH]; [cbn; by rewrite Hk|]. cbn [fmap list_fmap app leading_ints].
  by rewrite (proj1 (str_Z_digits c Hc)), digits_value_str, IH.
Qed.

Lemma irq_read m iface rows : irq_lines iface (file_lines "" (proc_interrupts m)) rows -> irq_snapshot m iface = rows.
Proof.
  unfold irq_snapshot. induction 1 as [|line lines rows Hn _ IH|line lines label kind rest counts rows Hn Hw Hc Hk _ IH]; [done|..];
    cbn [omap list_omap]; unfold irq_row at 1; rewrite Hn; [exact IH|]. rewrite Hw. cbn [tail].
  rewrite leading_counts by done. f_equal. exact IH.
Qed.

(** ** The utilisation *)

(** The lines of mpstat: the third word of a sample is its CPU, the last the
    idle time; the third word of any other line is no number. *)
Inductive mpstat_lines : list string -> list (Z * float) -> Prop :=
| mp_nil : mpstat_lines [] []
| mp_other line lines samples :
    from_option isdigit false (words line !! 2%nat) = false -> mpstat_lines lines samples -> mpstat_lines (line :: lines) samples
| mp_sample line lines cpu w x samples :
    words line !! 2%nat = Some (str_Z cpu) -> 0 <= cpu -> last (words line) = Some w -> py_float w = Ok x ->
    mpstat_lines lines samples -> mpstat_lines (line :: lines) ((cpu, x) :: samples).

Lemma mpstat_read active lines samples :
  mpstat_lines lines samples -> omap (mpstat_idle active) lines = (filter (fun s => s.1 ∈ active) samples).*2.
Proof.
  induction 1 as [|line lines samples Hn _ IH|line lines cpu w x samples Hc Hp Hw Hx _ IH]; [done|..]; cbn [omap list_omap];
    unfold mpstat_idle at 1.
  - destruct (words line !! 2%nat) as [v|]; [|exact IH]. cbn in Hn. rewrite Hn. exact IH.
  - rewrite Hc, (proj1 (str_Z_digits cpu Hp)), digits_value_str by done. cbn [negb]. rewrite filter_cons. cbn [fst].
    case_decide; [|exact IH]. unfold idle_of. rewrite Hw. cbn [mbind option_bind]. rewrite Hx. cbn [fmap list_fmap snd]. f_equal. exact IH.
Qed.

(** Idle times between two integers give a utilisation between their
    complements. *)
Lemma busy_bounds lo hi idles :
  0 <= lo <= hi -> hi <= 100 -> Z.of_nat (length idles) < 2 ^ 40 ->
  Forall (fun x => magnitude 0 lo hi x /\ negative x = false) idles ->
  exists u, busy idles = Ok u /\
    match u with Some x => magnitude 0 (100 - hi) (100 - lo) x /\ negative x = false | None => idles = [] end.
Proof.
  intros Hlo Hhi Hlen Hf. destruct idles as [|i idles]; [by exists None|]. unfold busy. set (l := i :: idles) in *.
  assert (Hn : 0 < Z.of_nat (length l)) by (unfold l; cbn [length]; lia). clearbody l. clear i idles.
  assert (P53 : 2 ^ 53 = 8192 * 2 ^ 40) by done.
  destruct (float_sum_magnitude lo hi l) as [Hs Ns]; [lia|nia|lia|done|].
  destruct (float_of_Z_exact (Z.of_nat (length l)) ltac:(lia)) as [Hy Ny]. rewrite Z.abs_eq in Hy by lia.
  rewrite (proj2 (Z.ltb_ge _ _)) in Ny by lia.
  destruct (quot_magnitude lo hi _ _ _ ltac:(lia) ltac:(lia) Hn Hs Ns Hy Ny) as [Hq Nq].
  unfold num_div. cbn [to_float mbind res_bind]. unfold float_of_int. rewrite (magnitude_finite _ _ _ _ Hy). cbn [mbind res_bind].
  unfold float_div. rewrite (magnitude_nonzero _ _ _ _ Hy Hn). cbn [mbind res_bind]. eexists. split; [reflexivity|].
  apply sub_magnitude; try done; try lia; vm_compute; repeat split; discriminate.
Qed.

(** ** The report of a trial *)

(** Counts that fit the counters of the NIC. *)
Definition nic_shows (m : machine) (iface : string) (l : list (string * Z)) : Prop :=
  sh m ("ethtool -S " ++ iface) = ethtool_text l /\ NoDup l.*1 /\ Forall (fun c => plain_counter c /\ c.2 < 2 ^ 64) l.

Definition nic_counter (l : list (string * Z)) (name : string) : Z := default 0 ((list_to_map l : gmap string Z) !! name).

(** The page that [curl] prints is that of the agent on these CPUs. *)
Definition page_shows (m : machine) (cpus : list cpu_state) : Prop :=
  exists h, shows_metrics h cpus /\ prometheus_text h = Ok (sh m CURL).

(** The [rx_total] on the page counts the packets the XDP programme received. *)
Lemma page_rx_total m runs :
  Forall (fun ps : list (lookup_fn * bytes) => Z.of_nat (length ps) < 2 ^ 64) runs ->
  page_shows m (received runs) -> metrics_counter (sh m CURL) "rx_total" = Z.of_nat (length (concat runs)).
Proof.
  intros Hruns (h & Hh & Hp).
  destruct (scraped_total (received runs) (received_u64 runs) h Hh M_RX_TOTAL) as (_ & page & _ & _ & Hp' & Hm); [done|].
  rewrite Hp in Hp'. apply Ok_inj in Hp' as <-. rewrite <-received_total by done. exact Hm.
Qed.

Lemma nic_counter_bounds l name : Forall (fun c => plain_counter c /\ c.2 < 2 ^ 64) l -> is_u64 (nic_counter l name).
Proof.
  intros Hl. unfold nic_counter. destruct ((list_to_map l : gmap string Z) !! name) as [v|] eqn:E; [|done].
  apply elem_of_list_to_map_2 in E. rewrite Forall_forall in Hl. destruct (Hl _ E) as [(_ & _ & ?) ?]. done.
Qed.

Lemma blast_sent_line sent tail : 0 <= sent -> blast_sent ("blast_sent=" ++ str_Z sent ++ " " ++ tail) = sent.
Proof.
  intros Hs. unfold blast_sent. rewrite (search_hit _ _ _ sent); [done|].
  pose proof (take_str_Z sent (" " ++ tail) Hs) as Ht. unfold digits_number, digits_value.
  destruct (str_Z_head sent Hs) as (d & t & E & Hd). rewrite E in *. rewrite append_cons in *. rewrite Ht.
  unfold is_digit. by rewrite digit_in_dec.
Qed.

(** The loss of a run with [rx] of [sent] packets received. *)
Lemma loss_bounds sent rx :
  0 < sent -> 0 <= rx -> sent < 2 ^ 64 -> rx < 2 ^ 64 ->
  exists q, int_div (sent - rx) sent = Ok q /\ magnitude 0 0 1 (float_max (S754_zero false) q) /\
    negative (float_max (S754_zero false) q) = false /\ (sent <= rx -> float_max (S754_zero false) q = S754_zero false).
Proof.
  intros Hs Hr Hs' Hr'. destruct (decide (rx <= sent)) as [Hle|Hgt].
  - destruct (int_div_magnitude 0 1 (sent - rx) sent) as (q & Hq & Hm & Hn); [lia..|]. exists q. split; [done|].
    unfold float_max. destruct (SFltb _ _) eqn:E; (split; [done|]; split; [done|]); [|done]. intros Hge.
    assert (sent - rx = 0) as E0 by lia. rewrite E0 in Hq. unfold int_div in Hq. rewrite (proj2 (Z.eqb_neq _ _)) in Hq by lia.
    destruct sent as [|p|p]; [lia| |lia]. apply Ok_inj in Hq as <-. done.
  - unfold int_div. rewrite (proj2 (Z.eqb_neq _ _)) by lia.
    destruct (raw_quot_magnitude 64 0 1 (sent - rx) sent) as [Hm Hn]; [lia..|]. rewrite (magnitude_finite _ _ _ _ Hm).
    eexists. split; [reflexivity|]. rewrite (proj2 (Z.ltb_lt (sent - rx) 0)), (proj2 (Z.ltb_ge sent 0)) in Hn by lia. cbn [xorb] in Hn.
    revert Hm Hn. generalize (float_quot (raw_float (sent - rx)) (raw_float sent)). intros [s| | |s p e]; try done;
      cbn [negative]; intros _ ->; by split_and!.
Qed.

Section trial.
Context (args : throughput_args) (before during after : machine).
Context (nic_b nic_a : list (string * Z)) (irq_b irq_a : list (list Z)) (samples : list (Z * float)).
Context (runs more : list (list (lookup_fn * bytes))) (sent : Z).

Abbreviation iface := (ta_rx_iface args).
Abbreviation rx name := (nic_counter nic_a name - nic_counter nic_b name).

(** What the machine shows around and during a trial: the counters of the NIC,
    the interrupts, the page after [runs] and after [more] on every CPU, the
    samples of mpstat, and the last line of the generator. *)
Record trial_shows : Prop := {
  ts_duration : ta_duration args <> 0;
  ts_nic_b : nic_shows before iface nic_b;
  ts_nic_a : nic_shows after iface nic_a;
  ts_page_b : page_shows before (received runs);
  ts_page_a : page_shows after (received (zip_with app runs more));
  ts_cpus : length runs = length more;
  ts_runs : Forall (fun ps : list (lookup_fn * bytes) => Z.of_nat (length ps) < 2 ^ 63) (runs ++ more);
  ts_irq_b : irq_lines iface (file_lines "" (proc_interrupts before)) irq_b;
  ts_irq_a : irq_lines iface (file_lines "" (proc_interrupts after)) irq_a;
  ts_mpstat : mpstat_lines (splitlines (sh during ("mpstat -P ALL 1 " ++ str_Z (ta_duration args)))) samples;
  ts_samples : Z.of_nat (length samples) < 2 ^ 40;
  ts_idle : Forall (fun s => magnitude 0 0 100 s.2 /\ negative s.2 = false) samples;
  ts_sent : is_u64 sent;
  ts_blast : exists tail, sh during (blast_line args) = ("blast_sent=" ++ str_Z sent ++ " " ++ tail)%string;
}.

(** The two passes over the page. *)
Lemma concat_zip_length (l k : list (list (lookup_fn * bytes))) :
  length l = length k -> length (concat (zip_with app l k)) = (length (concat l) + length (concat k))%nat.
Proof using Type.
  revert k. induction l as [|x l IH]; intros [|y k] Hl; simplify_eq/=; [done|]. rewrite !length_app, IH by done. lia.
Qed.

Lemma zip_runs_small :
  length runs = length more ->
  Forall (fun ps : list (lookup_fn * bytes) => Z.of_nat (length ps) < 2 ^ 63) (runs ++ more) ->
  Forall (fun ps : list (lookup_fn * bytes) => Z.of_nat (length ps) < 2 ^ 64) (zip_with app runs more) /\
  Forall (fun ps : list (lookup_fn * bytes) => Z.of_nat (length ps) < 2 ^ 64) runs.
Proof using Type.
  intros Hl [H1 H2]%Forall_app. split; [|eapply Forall_impl; [exact H1|]; cbn; lia]. clear Hl.
  revert more H2. induction H1 as [|x l Hx _ IH]; intros k H2; [constructor|]. destruct H2 as [|y k Hy Hk]; [constructor|].
  cbn [zip_with]. constructor; [rewrite length_app; lia|by apply IH].
Qed.

(** The CPUs between [lo] and [hi] percent idle, of those that took interrupts. *)
Definition idle_between (lo hi : Z) : Prop :=
  0 <= lo <= hi /\ hi <= 100 /\ forall c x, (c, x) ∈ samples -> interrupted irq_b irq_a c -> magnitude 0 lo hi x.

Lemma trial_util lo hi :
  trial_shows -> idle_between lo hi ->
  let active := irq_active_cpus irq_b irq_a in
  exists u, cpu_util active (sh during ("mpstat -P ALL 1 " ++ str_Z (ta_duration args))) = Ok u /\
    match u with
    | Some x => magnitude 0 (100 - hi) (100 - lo) x /\ negative x = false
    | None => forall c x, (c, x) ∈ samples -> ~ interrupted irq_b irq_a c
    end.
Proof using Type.
  intros [] (Hlo & Hhi & Hid) active. destruct (irq_active_spec irq_b irq_a) as [_ Hact]. fold active in Hact. unfold cpu_util.
  destruct active as [|c0 cs] eqn:Ea.
  { exists None. split; [done|]. intros c x _ Hc%Hact. by apply elem_of_nil in Hc. }
  rewrite <-Ea in *. clearbody active. clear Ea c0 cs.
  set (out := sh during _) in *. assert (Hb : exists u, busy (omap (mpstat_idle active) (splitlines out)) = Ok u /\
    match u with Some x => magnitude 0 (100 - hi) (100 - lo) x /\ negative x = false
    | None => forall c x, (c, x) ∈ samples -> ~ interrupted irq_b irq_a c end).
  { rewrite (mpstat_read active _ _ ts_mpstat0).
    destruct (busy_bounds lo hi (filter (fun s => s.1 ∈ active) samples).*2 Hlo Hhi) as (u & Hu & Hs).
    - rewrite length_fmap. pose proof (length_filter (fun s => s.1 ∈ active) samples). lia.
    - apply Forall_fmap, Forall_forall. intros [c x] [Hc Hx]%list_elem_of_filter. cbn [compose snd fst] in *.
      rewrite Forall_forall in ts_idle0. destruct (ts_idle0 _ Hx) as [_ Hn]. split; [|done]. apply (Hid c); [done|by apply Hact].
    - exists u. split; [done|]. destruct u as [x|]; [done|]. intros c x Hx Hc%Hact. apply fmap_nil_inv in Hs.
      assert (Hin : (c, x) ∈ filter (fun s : Z * float => s.1 ∈ active) samples) by (by apply list_elem_of_filter).
      rewrite Hs in Hin. by apply elem_of_nil in Hin. }
  destruct active, out; try done. all: exists None; split; [done|]; intros c' x' Hx;
    inversion ts_mpstat0; subst; by apply elem_of_nil in Hx.
Qed.

(** The figures of the trial. *)
Lemma trial_reports :
  trial_shows ->
  exists pps bps loss util,
    cpu_util (irq_active_cpus irq_b irq_a) (sh during ("mpstat -P ALL 1 " ++ str_Z (ta_duration args))) = Ok util /\
    (if sent =? 0 then Ok S754_nan else q ← int_div (sent - rx "rx_packets"%string) sent; Ok (float_max (S754_zero false) q)) = Ok loss /\
    throughput_main args before during after = Ok
      {| tr_sent := sent; tr_rx_hw_pkts := rx "rx_packets"%string; tr_xdp_metric_delta := Z.of_nat (length (concat more));
         tr_hw_matches_xdp_metric := Z.of_nat (length (concat more)) =? rx "rx_packets"%string;
         tr_achieved_mpps := float_quot pps f1e6; tr_achieved_gbps := float_quot bps f1e9; tr_loss_vs_sent := loss;
         tr_active_cpus := Z.of_nat (length (irq_active_cpus irq_b irq_a)); tr_cpu_util := util |}.
Proof using Type.
  intros Hs. destruct (trial_util 0 100 Hs) as (util & Hu & _).
  { split; [done|]. split; [done|]. intros c x Hx _. destruct Hs. rewrite Forall_forall in ts_idle0. by destruct (ts_idle0 _ Hx). }
  destruct Hs as [Hd (Hb & Hbn & Hbf) (Ha & Han & Haf) Hpb Hpa Hl Hr Hib Hia _ _ _ Hsent (tail & Hbl)].
  unfold throughput_main. rewrite Hbl, (blast_sent_line sent tail) by lia.
  rewrite (ethtool_read _ _ _ Hb) by (done || (eapply Forall_impl; [exact Hbf|]; by intros ? [])).
  rewrite (ethtool_read _ _ _ Ha) by (done || (eapply Forall_impl; [exact Haf|]; by intros ? [])).
  destruct (zip_runs_small Hl Hr) as [Hz Hr'].
  rewrite (page_rx_total _ _ Hr' Hpb), (page_rx_total _ _ Hz Hpa), concat_zip_length by done.
  rewrite (irq_read _ _ _ Hib), (irq_read _ _ _ Hia), Hu. cbn [mbind res_bind].
  replace (Z.of_nat (length (concat runs) + length (concat more)) - Z.of_nat (length (concat runs)))
    with (Z.of_nat (length (concat more))) by lia.
  fold (nic_counter nic_a "rx_packets") (nic_counter nic_b "rx_packets") (nic_counter nic_a "rx_bytes") (nic_counter nic_b "rx_bytes").
  pose proof (nic_counter_bounds _ "rx_packets" Hbf). pose proof (nic_counter_bounds _ "rx_packets" Haf).
  pose proof (nic_counter_bounds _ "rx_bytes" Hbf). pose proof (nic_counter_bounds _ "rx_bytes" Haf).
  assert (P : 2 ^ 64 * 16 < 2 ^ 970) by by vm_compute.
  destruct (int_div_ok (rx "rx_packets"%string) (ta_duration args)) as [pps ->]; [lia|done|].
  destruct (int_div_ok (rx "rx_bytes"%string * 8) (ta_duration args)) as [bps ->]; [lia|done|]. cbn [mbind res_bind].
  assert (Hloss : exists loss, (if sent =? 0 then Ok S754_nan else q ← int_div (sent - rx "rx_packets"%string) sent;
    Ok (float_max (S754_zero false) q)) = Ok loss).
  { destruct (Z.eqb_spec sent 0); [by eexists|]. destruct (int_div_ok (sent - rx "rx_packets"%string) sent) as [q ->]; [lia|done|].
    by eexists. }
  destruct Hloss as [loss Hloss]. exists pps, bps, loss, util. rewrite Hloss. split; [done|]. split; [done|]. reflexivity.
Qed.

(** C20: the figures of a throughput trial are what happened.  When
    native_throughput.py sees the counters of the NIC (whatever else ethtool
    prints), the generator's line and the metrics page of an agent whose CPUs
    received [more] packets during the run, it always reports; the packets are
    those the NIC counted; [xdp_metric_delta] is the number of packets the XDP
    programme received on all CPUs, so [hw_matches_xdp_metric] is true exactly
    when the NIC counted as many; and the loss is between 0 and 1, 0 when as
    many packets arrived as were sent, and nan without packets sent. *)
Theorem trial_crosscheck :
  trial_shows ->
  exists t, throughput_main args before during after = Ok t /\
    tr_sent t = sent /\ tr_rx_hw_pkts t = rx "rx_packets"%string /\
    tr_xdp_metric_delta t = Z.of_nat (length (concat more)) /\
    (tr_hw_matches_xdp_metric t = true <-> rx "rx_packets"%string = Z.of_nat (length (concat more))) /\
    (sent = 0 -> tr_loss_vs_sent t = S754_nan) /\
    (0 < sent -> 0 <= rx "rx_packets"%string ->
       magnitude 0 0 1 (tr_loss_vs_sent t) /\ negative (tr_loss_vs_sent t) = false /\
       (sent <= rx "rx_packets"%string -> tr_loss_vs_sent t = S754_zero false)).
Proof using Type.
  intros Hs. destruct (trial_reports Hs) as (pps & bps & loss & util & _ & Hl & ->). eexists. split; [reflexivity|].
  cbn [tr_sent tr_rx_hw_pkts tr_xdp_metric_delta tr_hw_matches_xdp_metric tr_loss_vs_sent]. do 3 (split; [done|]).
  split; [rewrite Z.eqb_eq; split; intros E; by rewrite E|]. split; [intros ->; by apply Ok_inj in Hl|].
  intros Hp Hr. destruct Hs. rewrite (proj2 (Z.eqb_neq _ _)) in Hl by lia.
  pose proof (nic_counter_bounds _ "rx_packets" (proj2 (proj2 ts_nic_b0))).
  pose proof (nic_counter_bounds _ "rx_packets" (proj2 (proj2 ts_nic_a0))).
  destruct (loss_bounds sent (rx "rx_packets"%string)) as (q & Hq & Hm & Hn & Hz); [lia..|].
  rewrite Hq in Hl. apply Ok_inj in Hl as <-. done.
Qed.

(** The utilisation is that of the CPUs that took the interrupts of the
    interface.  They are the CPUs whose count went up on one of its lines,
    each once; when their samples of mpstat are between [lo] and [hi] percent
    idle, the figure of native_throughput.py, a mean in doubles, is between
    [100 - hi] and [100 - lo], whatever the other CPUs did; and it is [None]
    only when mpstat has no sample of such a CPU. *)
Theorem trial_utilisation lo hi :
  trial_shows -> idle_between lo hi ->
  exists t cpus, throughput_main args before during after = Ok t /\
    NoDup cpus /\ (forall c, c ∈ cpus <-> interrupted irq_b irq_a c) /\ tr_active_cpus t = Z.of_nat (length cpus) /\
    match tr_cpu_util t with
    | Some u => magnitude 0 (100 - hi) (100 - lo) u /\ negative u = false
    | None => forall c x, (c, x) ∈ samples -> ~ interrupted irq_b irq_a c
    end.
Proof using Type.
  intros Hs Hid. destruct (trial_reports Hs) as (pps & bps & loss & util & Hu & _ & ->).
  destruct (irq_active_spec irq_b irq_a) as [Hnd Hact]. destruct (trial_util lo hi Hs Hid) as (u & Hu' & Hb).
  rewrite Hu in Hu'. apply Ok_inj in Hu' as <-. eexists _, (irq_active_cpus irq_b irq_a). split; [reflexivity|]. done.
Qed.
End trial.

(** ** A trial *)

Definition demo_args : throughput_args :=
  {| ta_gen_iface := "e1"; ta_rx_iface := "e0"; ta_nthreads := 1; ta_duration := 5; ta_frame_bytes := 64;
     ta_teid_base := "0x9000" |}.

(** A machine whose NIC has counted [n] packets, with the page of an agent
    whose CPUs have received [runs], and these interrupts. *)
Definition demo_machine (n : Z) (runs : list (list (lookup_fn * bytes))) (irqs : list string) : machine :=
  {| sh := fun cmd =>
       if decide (cmd = "ethtool -S e0")%string then ethtool_text [("rx_packets", n); ("rx_bytes", 64 * n)]%string
       else if decide (cmd = CURL) then
         match prometheus_text (demo_host (dump_of (received runs)) []) with Ok page => page | Exc _ => "" end
       else if decide (cmd = "mpstat -P ALL 1 5")%string then
         join_with newline ["12:00:01 AM  CPU    %usr   %idle"; "12:00:02 AM  all    1.00   50.00";
                            "12:00:02 AM    0    1.00   99.00"; "12:00:02 AM    1   24.50   75.50"]%string
       else "blast_sent=2 blast_errors=0"%string;
     proc_interrupts := join_with newline irqs |}.

Definition demo_irqs (c0 c1 : Z) : list string :=
  ["           CPU0       CPU1"; " 74:  " ++ str_Z c0 ++ "  " ++ str_Z c1 ++ "  IR-PCI-MSIX-0000:18:00.0  1-edge  i40e-e0-TxRx-0"]%string.

Lemma demo_page n runs irqs : page_shows (demo_machine n runs irqs) (received runs).
Proof.
  exists (demo_host (dump_of (received runs)) []). split; [apply demo_host_shows|].
  destruct (scraped_total (received runs) (received_u64 runs) _ (demo_host_shows _) M_RX_TOTAL) as (_ & page & _ & _ & Hp & _); [done|].
  change (sh (demo_machine n runs irqs) CURL) with
    (match prometheus_text (demo_host (dump_of (received runs)) []) with Ok page => page | Exc _ => "" end).
  by rewrite Hp.
Qed.

Lemma demo_nic n runs irqs :
  0 <= n < 2 ^ 32 -> nic_shows (demo_machine n runs irqs) "e0" [("rx_packets", n); ("rx_bytes", 64 * n)]%string.
Proof.
  intros Hn. split; [reflexivity|]. split; [apply (bool_decide_eq_true_1 _); vm_compute; reflexivity|].
  repeat (apply Forall_cons; split); [..|by apply Forall_nil]; unfold plain_counter; cbn [fst snd]; split_and!; try lia; by vm_compute.
Qed.

Definition demo_packet : lookup_fn * bytes := ((fun _ _ => None) : lookup_fn, [Byte.x00]).

Lemma demo_mpstat n runs irqs :
  splitlines (sh (demo_machine n runs irqs) "mpstat -P ALL 1 5") =
    ["12:00:01 AM  CPU    %usr   %idle"; "12:00:02 AM  all    1.00   50.00"; "12:00:02 AM    0    1.00   99.00";
     "12:00:02 AM    1   24.50   75.50"]%string.
Proof. reflexivity. Qed.

Lemma demo_irq_lines n runs c : c = 10 \/ c = 12 ->
  irq_lines "e0" (file_lines "" (proc_interrupts (demo_machine n runs (demo_irqs 5 c)))) [[5; c]].
Proof.
  cbn [proc_interrupts demo_machine]. intros [->| ->].
  all: set (l := file_lines _ _); vm_compute in l; subst l.
  all: apply irq_other; [by vm_compute|]; eapply irq_line; [by vm_compute|vm_compute; reflexivity|by repeat constructor|by vm_compute|constructor].
Qed.

Lemma demo_trial :
  trial_shows demo_args (demo_machine 7 [[demo_packet]; []] (demo_irqs 5 10)) (demo_machine 7 [] [])
    (demo_machine 9 [[demo_packet]; [demo_packet; demo_packet]] (demo_irqs 5 12))
    [("rx_packets", 7); ("rx_bytes", 64 * 7)]%string [("rx_packets", 9); ("rx_bytes", 64 * 9)]%string [[5; 10]] [[5; 12]]
    [(0, float_of_Z 99); (1, float_of_dec false 755 (-1))] [[demo_packet]; []] [[]; [demo_packet; demo_packet]] 2.
Proof.
  split.
  - done.
  - by apply demo_nic.
  - by apply demo_nic.
  - apply demo_page.
  - apply demo_page.
  - done.
  - repeat (apply Forall_cons; split; [by vm_compute|]). by apply Forall_nil.
  - apply demo_irq_lines; lia.
  - apply demo_irq_lines; lia.
  - change (sh _ _) with (sh (demo_machine 7 [] []) "mpstat -P ALL 1 5"). rewrite demo_mpstat.
    do 2 (apply mp_other; [by vm_compute|]).
    apply (mp_sample _ _ 0 "99.00"); [by vm_compute|done|by vm_compute..|].
    apply (mp_sample _ _ 1 "75.50"); [by vm_compute|done|by vm_compute..|]. constructor.
  - done.
  - repeat (apply Forall_cons; split); [..|by apply Forall_nil]; (split; [vm_compute; repeat split; discriminate|by vm_compute]).
  - done.
  - exists "blast_errors=0"%string. reflexivity.
Qed.

Lemma trial_crosscheck_witness :
  exists t, throughput_main demo_args (demo_machine 7 [[demo_packet]; []] (demo_irqs 5 10)) (demo_machine 7 [] [])
      (demo_machine 9 [[demo_packet]; [demo_packet; demo_packet]] (demo_irqs 5 12)) = Ok t /\
    tr_sent t = 2 /\ tr_hw_matches_xdp_metric t = true /\ tr_loss_vs_sent t = S754_zero false.
Proof.
  destruct (trial_crosscheck _ _ _ _ _ _ _ _ _ _ _ _ demo_trial) as (t & Ht & Hs & _ & _ & Hm & _ & Hl).
  exists t. split; [exact Ht|]. split; [exact Hs|]. split; [by apply Hm|]. destruct Hl as (_ & _ & Hl); [done..|]. by apply Hl.
Defined.

Lemma trial_utilisation_witness :
  exists t, throughput_main demo_args (demo_machine 7 [[demo_packet]; []] (demo_irqs 5 10)) (demo_machine 7 [] [])
      (demo_machine 9 [[demo_packet]; [demo_packet; demo_packet]] (demo_irqs 5 12)) = Ok t /\
    from_option (magnitude 0 24 25) False (tr_cpu_util t).
Proof.
  assert (H1 : interrupted [[5; 10]] [[5; 12]] 1) by (by exists O, 1%nat, [5; 10], [5; 12], 10, 12).
  assert (Hact : forall c, interrupted [[5; 10]] [[5; 12]] c -> c = 1).
  { intros c (i & j & rb & ra & b & a & Hb & Ha & Hjb & Hja & Hlt & ->). destruct i as [|i]; [|done].
    injection Hb as <-. injection Ha as <-. destruct j as [|[|j]]; [|done|done].
    injection Hjb as <-. injection Hja as <-. lia. }
  destruct (trial_utilisation _ _ _ _ _ _ _ _ _ _ _ _ 75 76 demo_trial) as (t & cpus & Ht & _ & _ & _ & Hu).
  - split; [done|]. split; [done|]. intros c x Hx ->%Hact.
    apply elem_of_cons in Hx as [Hx|Hx]; [discriminate|]. apply elem_of_cons in Hx as [Hx|[]%elem_of_nil].
    injection Hx as ->. vm_compute. repeat split; discriminate.
  - exists t. split; [exact Ht|]. destruct (tr_cpu_util t) as [u|]; [exact (proj1 Hu)|]. exfalso.
    apply (Hu 1 (float_of_dec false 755 (-1))); [by right; left|exact H1].
Defined.
