(* ===== verification/CommandLine.v ===== *)
(** * The command lines of the scripts

    The parsers of the four [main]s that use argparse (agent.py,
    qer_contention.py, native_throughput.py, send_gtpu.py), what they make of
    [sys.argv], and the agent from its command line to the packets it
    forwards. *)

From S2P Require Import Prelude Prog PyStruct PyText Argparse Json Bpftool UpfMaps Kernel BpfSyscall Agent Qer Datapath Sender Bundle Sessions Bootstrap Metrics Contention Http Serve Throughput.

Open Scope string_scope.
Open Scope Z_scope.

(** ** Parsers *)

(** A script that reads its arguments with argparse: its parser, and the
    attributes of the namespace it uses, when they have their types. *)
Class CommandLine (A : Type) := {
  cl_opts : list opt;
  cl_read : (string -> argval) -> option A;
}.
Arguments cl_opts A {_}.

Definition as_str (v : argval) : option string := match v with VStr s => Some s | _ => None end.
Definition as_int (v : argval) : option Z := match v with VInt z => Some z | _ => None end.
Definition as_bool (v : argval) : option bool := match v with VBool b => Some b | _ => None end.

Definition agent_parser : list opt := [
  with_default "--addr" StoreStr (VStr "127.0.0.1");
  with_default "--port" StoreInt (VInt 9090);
  with_default "--initial" StoreInt (VInt 10);
  with_default "--out-ifindex" StoreInt (VInt 2)].

Definition read_agent (arg : string -> argval) : option agent_args :=
  addr ← as_str (arg "--addr"); port ← as_int (arg "--port"); initial ← as_int (arg "--initial");
  out ← as_int (arg "--out-ifindex");
  Some {| arg_addr := addr; arg_port := port; arg_initial := initial; arg_out_ifindex := out |}.

#[export] Instance agent_cli : CommandLine agent_args := { cl_opts := agent_parser; cl_read := read_agent }.

(** The label of qer_contention.py is only printed. *)
Definition contention_parser : list opt := [
  required "--nflows" StoreInt;
  with_default "--pps" StoreInt (VInt 200000);
  with_default "--duration" StoreInt (VInt 10);
  required "--mbr-bps" StoreInt;
  with_default "--burst" StoreInt (VInt 65536);
  required "--label" StoreStr;
  with_default "--iface" StoreStr (VStr "enp24s0f1");
  with_default "--netns" StoreStr (VStr "upf_hw_test");
  with_default "--out-ifindex" StoreInt (VInt 2)].

Definition read_contention (arg : string -> argval) : option (contention_args * string) :=
  nflows ← as_int (arg "--nflows"); pps ← as_int (arg "--pps"); duration ← as_int (arg "--duration");
  mbr ← as_int (arg "--mbr-bps"); burst ← as_int (arg "--burst"); label ← as_str (arg "--label");
  iface ← as_str (arg "--iface"); netns ← as_str (arg "--netns"); out ← as_int (arg "--out-ifindex");
  Some ({| ca_nflows := nflows; ca_pps := pps; ca_duration := duration; ca_mbr_bps := mbr; ca_burst := burst;
           ca_iface := iface; ca_netns := netns; ca_out_ifindex := out |}, label).

#[export] Instance contention_cli : CommandLine (contention_args * string) := { cl_opts := contention_parser; cl_read := read_contention }.

Definition throughput_parser : list opt := [
  with_default "--gen-iface" StoreStr (VStr "enp24s0f1");
  with_default "--rx-iface" StoreStr (VStr "enp24s0f0");
  required "--nthreads" StoreInt;
  with_default "--duration" StoreInt (VInt 5);
  with_default "--frame-bytes" StoreInt (VInt 64);
  with_default "--teid-base" StoreStr (VStr "0x9000")].

Definition read_throughput (arg : string -> argval) : option throughput_args :=
  gen ← as_str (arg "--gen-iface"); rx ← as_str (arg "--rx-iface"); nthreads ← as_int (arg "--nthreads");
  duration ← as_int (arg "--duration"); frame ← as_int (arg "--frame-bytes"); teid ← as_str (arg "--teid-base");
  Some {| ta_gen_iface := gen; ta_rx_iface := rx; ta_nthreads := nthreads; ta_duration := duration;
          ta_frame_bytes := frame; ta_teid_base := teid |}.

#[export] Instance throughput_cli : CommandLine throughput_args := { cl_opts := throughput_parser; cl_read := read_throughput }.

(** The interface of send_gtpu.py goes to scapy. *)
Definition DEFAULT_IFACE : string := "upf_ns".

Definition send_parser : list opt := [
  with_default "--iface" StoreStr (VStr DEFAULT_IFACE);
  with_default "--n" StoreInt (VInt 100);
  with_default "--teid" StoreInt0 (VInt 0x1000);
  flag "--mix";
  flag "--quiet"].

Definition read_send (arg : string -> argval) : option (send_args * string) :=
  iface ← as_str (arg "--iface"); n ← as_int (arg "--n"); teid ← as_int (arg "--teid");
  mix ← as_bool (arg "--mix"); quiet ← as_bool (arg "--quiet");
  Some ({| sa_n := n; sa_teid := teid; sa_mix := mix; sa_quiet := quiet |}, iface).

#[export] Instance send_cli : CommandLine (send_args * string) := { cl_opts := send_parser; cl_read := read_send }.

(** What [parse_args] makes of a command line: an exit, the arguments, or an
    attribute that is the empty list. *)
Inductive started (A : Type) := SysExit (code : Z) | Started (args : A) | Mistyped.
Arguments SysExit {A}.
Arguments Started {A}.
Arguments Mistyped {A}.

Definition attribute (ns : gmap string argval) (name : string) : argval := default VNone (ns !! name).

Definition command_line {A} `{CommandLine A} (argv : list string) : started A :=
  match parse_args (cl_opts A) argv with
  | Exit c => SysExit c
  | Namespace ns => match cl_read (attribute ns) with Some args => Started args | None => Mistyped end
  end.

(** ** main of agent.py *)

Section main.
Context (dumps : rule_stats -> string).

(** The body of [main] on whatever [parse_args] returned: an empty list does
    not pack, is no range and no address. *)
Definition agent_run (arg : string -> argval) (rqs : list http_request) : bpfM (list (option http_response)) :=
  match arg "--out-ifindex" with
  | VInt out_ifindex =>
      match arg "--initial" with
      | VInt n =>
          match arg "--addr", arg "--port" with
          | VStr addr, VInt port =>
              agent_main dumps {| arg_addr := addr; arg_port := port; arg_initial := n; arg_out_ifindex := out_ifindex |} rqs
          | _, _ => bootstrap_initial n out_ifindex ;; raise TypeError
          end
      | _ => install_far 1 FAR_FORWARD out_ifindex 0 0 ;; install_qer 1 0 0 0 ;; raise TypeError
      end
  | _ => raise StructError
  end.

(** The script: an exit status, or the responses it served. *)
Definition agent_script (argv : list string) (rqs : list http_request) : bpfM (Z + list (option http_response)) :=
  match parse_args (cl_opts agent_args) argv with
  | Exit c => mret (inl c)
  | Namespace ns => rs ← agent_run (attribute ns) rqs; mret (inr rs)
  end.
End main.

(** ** Reading command lines *)

(** What the proofs use of a parser: options are long, defaults have their
    types, and the attributes are read when they do. *)
Class CommandLineLaws A `{CommandLine A} : Prop := {
  cl_plain : plain_parser (cl_opts A);
  cl_defaults : plain_defaults (cl_opts A);
  cl_typed : Forall (fun o => opt_required o = true \/ typed (opt_action o) (opt_default o)) (cl_opts A);
  cl_total : forall arg, Forall (fun o => typed (opt_action o) (arg (opt_string o))) (cl_opts A) -> is_Some (cl_read arg);
  cl_only : forall arg arg', Forall (fun o => arg (opt_string o) = arg' (opt_string o)) (cl_opts A) -> cl_read arg = cl_read arg';
}.

(** The attributes a line of settings gives. *)
Definition settings_attribute (ps : list opt) (xs : list setting) (name : string) : argval :=
  match head (filter (fun o => opt_string o = name) ps) with Some o => value_of xs o | None => VNone end.

Lemma settings_attribute_opt ps xs o :
  NoDup (opt_string <$> ps) -> o ∈ ps -> settings_attribute ps xs (opt_string o) = value_of xs o.
Proof.
  intros Hnd Ho. unfold settings_attribute. induction ps as [|o' ps IH]; [by apply elem_of_nil in Ho|].
  rewrite fmap_cons, NoDup_cons in Hnd. destruct Hnd as [Hn Hnd]. rewrite filter_cons.
  apply elem_of_cons in Ho as [->|Ho]; [by rewrite decide_True|]. rewrite decide_False; [by apply IH|].
  intros E. apply Hn. rewrite E. by apply list_elem_of_fmap_2.
Qed.

Section read.
Context {A} `{CommandLineLaws A}.

(** The settings have the required options of the parser. *)
Definition complete_line (xs : list setting) : Prop :=
  forall o, o ∈ cl_opts A -> opt_required o = true -> o ∈ set_opt <$> xs.

(** What a line of settings is read as. *)
Lemma command_line_written xs :
  Forall (written (cl_opts A)) xs -> complete_line xs ->
  command_line (A := A) (xs ≫= set_args) =
    match cl_read (settings_attribute (cl_opts A) xs) with Some args => Started args | None => Mistyped end.
Proof.
  intros Hxs Hreq. destruct (settings_read _ xs cl_plain cl_defaults Hxs Hreq) as (ns & Ep & Hns).
  assert (Hsame : Forall (fun o => attribute ns (opt_string o) = settings_attribute (cl_opts A) xs (opt_string o)) (cl_opts A)).
  { apply Forall_forall. intros o Ho. unfold attribute. rewrite (Hns o Ho), settings_attribute_opt; [done|apply cl_plain|done]. }
  unfold command_line. by rewrite Ep, (cl_only _ _ Hsame).
Qed.

Lemma default_or_given xs o :
  complete_line xs -> o ∈ cl_opts A -> typed (opt_action o) (opt_default o) \/ o ∈ set_opt <$> xs.
Proof.
  intros Hreq Ho. pose proof cl_typed as Hty. rewrite Forall_forall in Hty. destruct (Hty o Ho); [right; auto|by left].
Qed.

Lemma command_line_reads xs :
  Forall (spelled (cl_opts A)) xs -> complete_line xs ->
  exists args, command_line (A := A) (xs ≫= set_args) = Started args /\
    cl_read (settings_attribute (cl_opts A) xs) = Some args.
Proof.
  intros Hxs Hreq. destruct (cl_total (settings_attribute (cl_opts A) xs)) as [args Ea].
  { apply Forall_forall. intros o Ho. rewrite settings_attribute_opt by (done || apply cl_plain).
    eapply value_spelled; [apply cl_plain|done|done|by apply default_or_given]. }
  exists args. split; [|done]. rewrite command_line_written; [by rewrite Ea| |done].
  eapply Forall_impl; [exact Hxs|by left].
Qed.

(** An attribute that is not of its type is an empty list. *)
Lemma mistyped_list xs :
  Forall (written (cl_opts A)) xs -> complete_line xs -> cl_read (settings_attribute (cl_opts A) xs) = None ->
  exists o, o ∈ cl_opts A /\ value_of xs o = VList.
Proof.
  intros Hxs Hreq Hn.
  destruct (decide (Forall (fun o => typed (opt_action o) (value_of xs o)) (cl_opts A))) as [Hall|Hex].
  - exfalso. destruct (cl_total (settings_attribute (cl_opts A) xs)) as [args Ea]; [|by rewrite Ea in Hn].
    rewrite Forall_forall in Hall. apply Forall_forall. intros o Ho. rewrite settings_attribute_opt by (done || apply cl_plain). auto.
  - apply not_Forall_Exists in Hex; [|apply _]. apply Exists_exists in Hex as (o & Ho & Hv). exists o. split; [done|].
    destruct (value_typed (cl_opts A) xs o) as [?|?]; [apply cl_plain|done|done|by apply default_or_given|done|done].
Qed.
End read.

(** The laws, parser by parser. *)
Ltac cli_laws :=
  split;
  [ apply (bool_decide_eq_true_1 _); vm_compute; reflexivity
  | apply (bool_decide_eq_true_1 _); vm_compute; reflexivity
  | apply (bool_decide_eq_true_1 _); vm_compute; reflexivity
  | intros arg; cbn [cl_opts agent_cli contention_cli throughput_cli send_cli]; unfold agent_parser, contention_parser, throughput_parser, send_parser; rewrite ?Forall_cons; cbn [opt_string opt_action with_default required flag typed]; intros Hall;
    repeat match goal with H : _ /\ _ |- _ => destruct H end; cbn [cl_read agent_cli contention_cli throughput_cli send_cli]; unfold read_agent, read_contention, read_throughput, read_send;
    repeat match goal with H : match arg ?n with _ => _ end |- _ => destruct (arg n); try destruct H end; by eexists
  | intros arg arg'; cbn [cl_opts agent_cli contention_cli throughput_cli send_cli]; unfold agent_parser, contention_parser, throughput_parser, send_parser; rewrite ?Forall_cons; cbn [opt_string with_default required flag]; intros Hall;
    repeat match goal with H : _ /\ _ |- _ => destruct H end; cbn [cl_read agent_cli contention_cli throughput_cli send_cli]; unfold read_agent, read_contention, read_throughput, read_send;
    repeat match goal with H : arg ?n = arg' ?n |- _ => rewrite H; clear H end; done ].

#[export] Instance agent_cli_laws : CommandLineLaws agent_args.
Proof. cli_laws. Qed.
#[export] Instance contention_cli_laws : CommandLineLaws (contention_args * string).
Proof. cli_laws. Qed.
#[export] Instance throughput_cli_laws : CommandLineLaws throughput_args.
Proof. cli_laws. Qed.
#[export] Instance send_cli_laws : CommandLineLaws (send_args * string).
Proof. cli_laws. Qed.

(** An option by its own string. *)
Lemma option_of_in ps o : plain_parser ps -> o ∈ ps -> opt_string o <> "--help" -> option_of ps (opt_string o) = Some o.
Proof.
  intros [Hall Hnd] Ho Hh. unfold option_of, option_strings. rewrite Forall_forall in Hall. destruct (Hall o Ho) as (_ & Hs & _).
  rewrite !filter_cons. cbn [fst]. rewrite decide_False by (intros E; rewrite <-E in Hs; discriminate Hs).
  rewrite decide_False by congruence. clear Hall Hs Hh.
  induction ps as [|o' ps IH]; [by apply elem_of_nil in Ho|]. rewrite fmap_cons, NoDup_cons in Hnd.
  destruct Hnd as [Hn Hnd]. rewrite fmap_cons, filter_cons. cbn [fst].
  apply elem_of_cons in Ho as [->|Ho]; [by rewrite decide_True|]. rewrite decide_False; [by apply IH|].
  intros E. apply Hn. rewrite E. by apply list_elem_of_fmap_2.
Qed.

Lemma own_name ps o : plain_parser ps -> o ∈ ps -> opt_string o <> "--help" -> opt_string o <> "--" -> names ps (opt_string o) o.
Proof.
  intros Hps Ho Hh Hd. pose proof (option_of_in ps o Hps Ho Hh). destruct Hps as [Hall _]. rewrite Forall_forall in Hall.
  destruct (Hall o Ho) as (H1 & H2 & _). split_and!; [done|done|done|by left].
Qed.

(** Any integer, written by [str], is a value of an [int] option. *)
Lemma number_spelled ps o z :
  plain_parser ps -> o ∈ ps -> opt_string o <> "--help" -> opt_string o <> "--" -> opt_action o = StoreInt ->
  spelled ps {| set_opt := o; set_value := VInt z; set_args := [opt_string o; str_Z z] |}.
Proof.
  intros Hps Ho Hh Hd Ha. unfold spelled. cbn [set_opt set_value set_args]. apply sp_next; [by apply own_name|rewrite Ha; set_solver|by apply number_plain|].
  rewrite Ha. cbn [convert]. by rewrite int10_str.
Qed.

(** C26: the command lines of the scripts are read as they are written, and no
    others.  For each script that uses argparse: settings of its options, in any
    order, each by the option's string or an unambiguous abbreviation, with the
    value in the next string or after an equals sign, an option repeated at
    will, give the arguments with the last value of each option and the defaults
    of the others, provided the required ones are there; every integer can be
    written for an [int] option, negative ones included.  Conversely arguments
    come from such a line only, where a setting may also be [--option=--]; if
    that is what an option is left with, its attribute is the empty list.  Any
    other line ends in an exit, with status 2, or with 0, for which a string of
    it has to ask for help. *)
Theorem command_lines_read {A} `{CommandLineLaws A} :
  (forall xs, Forall (spelled (cl_opts A)) xs -> complete_line (A := A) xs ->
     exists args, command_line (A := A) (xs ≫= set_args) = Started args /\
       cl_read (settings_attribute (cl_opts A) xs) = Some args) /\
  (forall o z, o ∈ cl_opts A -> opt_action o = StoreInt -> opt_string o ∉ ["--"; "--help"] ->
     spelled (cl_opts A) {| set_opt := o; set_value := VInt z; set_args := [opt_string o; str_Z z] |}) /\
  (forall argv,
     let is_line xs := argv = xs ≫= set_args /\ Forall (written (cl_opts A)) xs /\ complete_line (A := A) xs in
     match command_line (A := A) argv with
     | Started args => exists xs, is_line xs /\ cl_read (settings_attribute (cl_opts A) xs) = Some args
     | Mistyped => exists xs o, is_line xs /\ o ∈ cl_opts A /\ value_of xs o = VList
     | SysExit c => (c = 2 \/ c = 0 /\ asks_help (cl_opts A) argv) /\ ~ exists xs, is_line xs
     end).
Proof.
  split_and!.
  - apply command_line_reads.
  - intros o z Ho Ha Hn. rewrite !not_elem_of_cons in Hn. apply number_spelled; [apply cl_plain|naive_solver..].
  - intros argv is_line. destruct (parse_args (cl_opts A) argv) as [c|ns] eqn:E.
    + assert (Ec : command_line (A := A) argv = SysExit c) by (unfold command_line; by rewrite E). rewrite Ec.
      split; [by apply parse_exits|]. intros (xs & -> & Hxs & Hreq). rewrite command_line_written in Ec by done.
      by destruct (cl_read _).
    + destruct (accepted_settings _ _ _ cl_plain E) as (xs & -> & Hxs & Hreq). rewrite command_line_written by done.
      destruct (cl_read _) as [args|] eqn:Er; [by exists xs|].
      destruct (mistyped_list xs Hxs Hreq Er) as (o & Ho & Hv). by exists xs, o.
Qed.

Ltac sp_side := first [done | apply (bool_decide_eq_true_1 _); vm_compute; reflexivity | split; [discriminate|vm_compute; reflexivity]].

(** qer_contention.py with abbreviations, a negative burst, and the rate given
    twice. *)
Lemma command_lines_read_witness :
  let argv := ["--nf"; "4"; "--mbr-bps=7"; "--label"; "percpu"; "--burst"; "-1"; "--mb"; "50000000"]%list in
  exists args, command_line (A := contention_args * string) argv = Started (args, "percpu") /\
    ca_nflows args = 4 /\ ca_mbr_bps args = 50000000 /\ ca_burst args = -1.
Proof.
  intros argv.
  pose (nflows := required "--nflows" StoreInt). pose (mbr := required "--mbr-bps" StoreInt).
  pose (label := required "--label" StoreStr). pose (burst := with_default "--burst" StoreInt (VInt 65536)).
  pose (xs := [{| set_opt := nflows; set_value := VInt 4; set_args := ["--nf"; "4"] |};
               {| set_opt := mbr; set_value := VInt 7; set_args := ["--mbr-bps=7"] |};
               {| set_opt := label; set_value := VStr "percpu"; set_args := ["--label"; "percpu"] |};
               {| set_opt := burst; set_value := VInt (-1); set_args := [opt_string burst; str_Z (-1)] |};
               {| set_opt := mbr; set_value := VInt 50000000; set_args := ["--mb"; "50000000"] |}]%list).
  destruct (command_lines_read (A := contention_args * string)) as (Hread & Hnum & _).
  destruct (Hread xs) as (args & E1 & E2).
  - apply Forall_cons. split; [apply sp_next; sp_side|]. apply Forall_cons.
    split; [apply (sp_equals _ mbr "--mbr-bps" "7"); sp_side|]. apply Forall_cons. split; [apply sp_next; sp_side|].
    apply Forall_cons. split; [apply Hnum; sp_side|]. apply Forall_cons. split; [apply sp_next; sp_side|constructor].
  - assert (Hreq : Forall (fun o => opt_required o = true -> o ∈ set_opt <$> xs) (cl_opts (contention_args * string)))
      by (apply (bool_decide_eq_true_1 _); vm_compute; reflexivity).
    exact (proj1 (Forall_forall _ _) Hreq).
  - vm_compute in E2. injection E2 as <-. eexists. split; [exact E1|]. done.
Defined.

(** ** The agent, from its command line on *)

Section agent.
Context `{BpfKernelLaws K} (dumps : rule_stats -> string).

Lemma agent_script_started xs args rqs :
  command_line (A := agent_args) (xs ≫= set_args) = Started args ->
  agent_script dumps (xs ≫= set_args) rqs = (rs ← agent_main dumps args rqs; mret (inr rs)).
Proof.
  unfold command_line, agent_script. destruct (parse_args _ _) as [c|ns]; [done|].
  unfold agent_run. cbn [cl_read agent_cli]; unfold read_agent.
  destruct (attribute ns "--addr"), (attribute ns "--port"), (attribute ns "--initial"), (attribute ns "--out-ifindex");
    try done. cbn. intros E. by injection E as <-.
Qed.

(** C8: from the command line of the agent to its packets.  Start agent.py with
    any settings, written in any of the ways argparse reads, that make
    [--initial] at most 0xf000, and let it serve any requests.  It does not
    exit over its command line, and if it has booted, then once it has served
    them, in any interleaving with session evictions, every uplink G-PDU of its
    sessions is redirected to [--out-ifindex], unless its TEID has been
    evicted. *)
Theorem started_agent_forwards xs n out_ifindex rqs s k s' r k' i :
  Forall (spelled (cl_opts agent_args)) xs ->
  settings_attribute (cl_opts agent_args) xs "--initial" = VInt n ->
  settings_attribute (cl_opts agent_args) xs "--out-ifindex" = VInt out_ifindex ->
  cache_ok s k -> kernel_ok k -> n <= 0xF000 ->
  exec sys_bpf evicts (agent_script dumps (xs ≫= set_args) rqs s, k) (Ret (s', Ok r), k') ->
  (exists rs, r = inr rs) /\ (0 <= i < n -> forwards out_ifindex k' i).
Proof.
  intros Hxs Hn Hout Hs Hk Hle Hx.
  destruct (command_line_reads (A := agent_args) xs Hxs) as (args & Hstart & Hread).
  { intros o Ho Hr. exfalso. cbn [cl_opts agent_cli] in Ho; unfold agent_parser in Ho. rewrite !elem_of_cons, elem_of_nil in Ho. naive_solver. }
  rewrite (agent_script_started _ _ _ Hstart) in Hx.
  assert (Hargs : arg_initial args = n /\ arg_out_ifindex args = out_ifindex).
  { cbn [cl_read agent_cli] in Hread; unfold read_agent in Hread. rewrite Hn, Hout in Hread.
    destruct (settings_attribute _ xs "--addr"), (settings_attribute _ xs "--port"); try discriminate Hread.
    cbn in Hread. by injection Hread as <-. }
  destruct Hargs as [En Eo]. rewrite <-Eo, <-En in *.
  assert (Hp : pwp sys_bpf evicts (fun _ _ => True) (rs ← agent_main dumps args rqs; mret (inr rs : Z + list (option http_response))) s (fun r _ k' =>
    forall x, r = Ok x -> (exists rs : list (option http_response), x = inr rs) /\
      booted (arg_out_ifindex args) (range (arg_initial args)) k') k).
  { apply pwp_bind. unfold agent_main. apply pwp_bind. eapply pwp_mono; [by apply pwp_bootstrap|done|].
    intros [[]|e] s1 k1 Hb; [|done]. destruct (Hb eq_refl) as (Hs1 & Hk1 & Hb1).
    eapply wp_mono; [| |eapply (wp_keep _ _ _ (booted (arg_out_ifindex args) (range (arg_initial args))));
      [| |by apply (pwp_serve dumps (arg_initial args))|exact Hb1]].
    - done.
    - intros [s2 [rs|e]] k2 [_ Hb2]; [|done]. apply pwp_ret. intros x E. apply Ok_inj in E as <-. split; [by eexists|done].
    - intros ??. apply booted_evicts.
    - intros ??. apply benches_booted. }
  destruct (wp_exec_ret _ _ _ _ _ _ _ _ Hp Hx r eq_refl) as [Hr Hb]. split; [done|]. intros Hi. by apply (booted_forwards _ _ _ _ Hb).
Qed.
End agent.

(** Three sessions towards interface 5, and a request for the page. *)
Lemma started_agent_forwards_witness :
  let argv := ["--out-ifindex=5"; "--ini"; "3"]%list in
  let rqs := [{| rq_path := "/healthz"; rq_host := demo_host [] []; rq_clock := fun _ => 0 |}]%list in
  let x := run ref_sys (agent_script (fun _ => "{}") argv rqs ∅) ref_init in
  (exists rs, x.2.2 = Ok (inr rs)) /\ forwards 5 x.1 0 /\ forwards 5 x.1 2.
Proof.
  intros argv rqs x.
  pose (xs := [{| set_opt := with_default "--out-ifindex" StoreInt (VInt 2); set_value := VInt 5; set_args := ["--out-ifindex=5"] |};
               {| set_opt := with_default "--initial" StoreInt (VInt 10); set_value := VInt 3; set_args := ["--ini"; "3"] |}]%list).
  assert (Hxs : Forall (spelled (cl_opts agent_args)) xs).
  { apply Forall_cons. split; [apply (sp_equals _ _ "--out-ifindex" "5"); sp_side|]. apply Forall_cons.
    split; [apply sp_next; sp_side|constructor]. }
  assert (Hn : settings_attribute (cl_opts agent_args) xs "--initial" = VInt 3) by (vm_compute; reflexivity).
  assert (Hout : settings_attribute (cl_opts agent_args) xs "--out-ifindex" = VInt 5) by (vm_compute; reflexivity).
  assert (Hr : match x.2.2 with Ok _ => true | Exc _ => false end = true) by (vm_compute; reflexivity).
  pose proof (run_exec_rely ref_sys evicts (agent_script (fun _ => "{}") argv rqs ∅) ref_init evicts_refl) as Hx. fold x in Hx.
  clearbody x. destruct x as [k1 [s1 [r1|]]]; [|discriminate Hr]. cbn [fst snd] in *.
  pose proof (fun i => started_agent_forwards (fun _ => "{}") xs 3 5 rqs ∅ ref_init s1 r1 k1 i Hxs Hn Hout
    (empty_cache_ok _) init_ok ltac:(discriminate) Hx) as H.
  destruct (H 0) as [[rs ->] H0]. destruct (H 2) as [_ H2].
  split; [by eexists|]. split; [apply H0; split; [discriminate|reflexivity]|apply H2; split; [discriminate|reflexivity]].
Defined.
